(* ===== verification/_CoqProject ===== *)
-Q . S2P
Prelude.v
Memory.v
State.v
Console.v
Kprintf.v
Vga.v
Pic.v
Interrupts.v
Segmentation.v
Devices.v
Serial.v
Pages.v
Mmu.v
Tables.v
Frames.v
FrameSession.v
Sbrk.v
MapIo.v
Kmalloc.v
Blocks.v
Alloc.v
Release.v
Live.v
Contract.v
Dump.v
Session.v
Kheap.v
Boot.v
Startup.v
Life.v
Services.v
Tlb.v
Tests.v
Cpu.v
Stubs.v
Fields.v
Encodings.v
Entry.v
