(* ===== verification/Prelude.v ===== *)
(** A model of a small x86 kernel (src/) and the theorems that make it correct.

    * The program

    The kernel is loaded by a multiboot loader at 1 MB and linked 0xC0000000
    higher. [main] (src/main.c) fills a page directory and turns paging on;
    [main_new] then sets up the segments, the interrupt controllers, the
    keyboard, the timer, the serial port, the interrupt table, the page tables
    and the frame allocator, waits a second, looks at a user function and prints
    a greeting for ever. On top of the frames stand [sbrk] and a heap allocator
    (src/kmalloc). Everything reports through [kprintf], which writes to the
    serial port, and [printk], which also writes to the text screen.

    * How it is modelled

    The kernel's state is the record [kst] of State.v: RAM as a map from
    physical addresses to bytes (Memory.v), one field for each static variable
    of the C files, and the trace of what was done to the hardware (port writes
    and reads, table registers, TLB entries). A C function is a program
    [kst -> outcome]: it returns a value and a state, stops the processor for
    ever ([Spin]: while (1), hlt), has undefined behaviour ([Undef]: reading past
    an array, a null pointer that is checked for, a missing argument), or runs out
    of the rounds given to its loops ([NoFuel]). Prelude.v has this monad, the
    total-correctness predicate [wp] (written ⟨ k ⟩ m ⟨ r, k' | Q ⟩: m returns, and
    Q holds of the result), its rules, and the loop rule [wp_while] with an
    invariant and a measure. Integers are Z with the wrap-around of their width
    written out (w8, w16, w32, s8, s32); bit-fields are [getf] and [setf].

    Structures that lie at fixed places in RAM (page directory and tables, frame
    descriptions, the loader's memory map, the heap's headers, the text screen)
    are read and written there, byte by byte. A kernel pointer at or above
    0xC0000000 designates the byte 0xC0000000 lower and a smaller one is physical
    ([ka]); Mmu.v proves that the processor translates so while the invariant
    [paging] holds. Heap addresses are neither, and are translated through the
    page tables (Kheap.v).

    * The files

    - Prelude.v: words, bit-fields, the monad, [wp], loops. Memory.v: RAM.
      State.v: [kst], events, frame conditions ([quiet]: only output).
    - Console.v: src/io.c, src/uart.c (sending, receiving), src/tools.c,
      src/tools/string.c, src/tools/kwrite. Kprintf.v: src/tools/kprintf.
      Vga.v: src/vga.c and printk of src/main.c.
    - Pic.v: src/irq.c, with a model of the two 8259 chips. Interrupts.v:
      src/interrupts.c and src/tools/registers.c. Segmentation.v:
      src/segmentation.c. Devices.v: src/pit.c, src/time.c, src/kb.c, the rest
      of src/uart.c. Serial.v: src/serial_port.c.
    - Pages.v: the definitions of src/pages.c. Mmu.v: the processor's page walk
      [mmu], the invariant [paging], map_pages. Tables.v: the boot's page
      directory and tables, get_physaddr, unmap_pages. MapIo.v: alloc_pages and
      map_io. Frames.v: src/frame.c. FrameSession.v: runs of the allocator against
      a reference on the list of reference counts. Sbrk.v: sbrk and its helper.
    - Kmalloc.v: the definitions of src/kmalloc over the class [Heap] (bytes and
      words of a segment, sbrk, kprintf, the static variable) with its laws
      [HeapLaws]. Blocks.v: the list of blocks and the invariant [heap_inv].
      Alloc.v: kmalloc. Release.v: free. Live.v: the client's view, a map from
      the pointers in use to their bytes. Contract.v: the operations on that map,
      and an instance of the interface. Dump.v: mem_dump. Session.v: whole runs of a client.
      Kheap.v: the instance on the kernel's page tables, console and sbrk.
    - Boot.v: src/main.c, and interrupts in the running kernel. Startup.v: from
      the boot to the first block of the kernel's heap. Life.v: the whole run, to
      the endless greeting. Services.v: runs of the kernel's services, in any order.
      Tlb.v: the processor's translation buffer during the boot and those runs.
      Tests.v: src/test.c.
    - Cpu.v: the processor as the assembly files use it (registers, a stack in the
      kernel's RAM, the instructions they are written with) and the predicate
      [stk] of the words of a stack. Stubs.v: src/isr_handler.S, with the delivery
      of an interrupt through its gate. Entry.v: src/crt0.S.
    - Fields.v: the packed structures of the headers as lists of members and widths,
      and the accessors of the other files against them. Encodings.v: the constants
      of the headers against the words of the hardware.

    * What the theorems show

    Output: kprintf prints what a reference rendering says for every directive
    ([kprintf_output]); numbers read back ([put_uint_base_roundtrip]); printk
    shows a string on the screen and the line; the report of an exception is
    given byte by byte ([irq_handler_dispatch]).

    Machine set-up: the controllers, the timer, the serial chip and the
    processor's tables end in the state their bytes encode, decoded as the
    hardware does ([irq_init_programs_pics], [uart_init_sets_line],
    [interrupts_init_idt], [init_flat_gdt_segments], [pit_init_programs_counter]). The
    packed structures keep what is put in them and are used as they are declared
    ([packed_structs_roundtrip]); the constants mean to the hardware what they
    say, but for a few ([header_constants]).
    The assembly of the boot does what the C code takes it to do: enable_paging
    ([enable_paging_refines]), the loading of the tables ([flush_refines]), the
    way from the loader to main ([start_calls_main]) and the one to ring 3
    ([switch_enters_ring3]).

    Paging: the tables keep [paging]; map_pages maps what it is asked to and
    nothing else ([map_pages_maps], [map_pages_partial]); lookups agree with the
    processor where the code is right ([get_physaddr_translates]); the frames
    are described ([init_frame_alloc_describes]) and allocated first fit, every run
    of the allocator being that of a reference on reference counts
    ([frame_calls_equiv]); sbrk grows the segment ([sbrk_grows]). Whatever service is
    asked of the running kernel (the heap apart), it returns, and no translation
    that there is changes ([services_keep_translations]), so that the processor's
    buffer stays true to the tables from 4 MB on ([tlb_stays_current]).

    Heap: over any segment that keeps the laws, and for requests that leave it below
    2 GB ([kmalloc_fits]), kmalloc is a best fit that splits ([kmalloc_best_fit]), free
    coalesces, the list of blocks stays well formed, and the operations are those
    of a map from pointers to blocks ([kmalloc_allocates], [free_releases],
    [calloc_zeroes], [realloc_keeps_old]); a client that is safe on the map is safe
    on the allocator, for whole runs ([sessions_refine_map]).

    Life of the kernel: the boot establishes the invariants of its parts
    ([boot_initialises]), the first block of the kernel's heap is where they put
    it ([boot_first_block]), the kernel then greets for ever, each delay serving
    just the interrupts up to the reading that finds more than a hundred ticks
    passed ([kernel_greets]), every sequence of device interrupts keeps the
    invariants ([interrupts_keep_kernel]), sleep ends ([sleep_wakes]), page faults
    and other loaders stop or refuse the kernel ([page_fault_stops],
    [boot_refuses_magic]).
    At the level of the processor, the stubs make any sequence of device
    interrupts transparent to the interrupted code, at whatever instruction
    ([interrupts_transparent]), and an exception reports the registers of its
    origin ([exceptions_report_frame]). Over any run of services the clock
    counts exactly the timer's interrupts, and the handlers, the processor's tables
    and the rest of the boot's configuration stay ([services_keep_clock]).

    * What does not hold

    The paging and heap code has errors that the theorems state as the code has
    them: no frame description has a physical address, so that every page of the
    kernel's heap is physical page 0 ([sbrk_pages_alias], [kernel_blocks_alias]):
    the kernel's heap does not keep [HeapLaws], and the heap's theorems hold of
    the allocator, not of its use on this sbrk; unmap_pages clears nothing
    ([unmap_pages_keeps_mappings]), so that a segment that has shrunk cannot grow
    again ([sbrk_shrink_is_final], [kernel_kmalloc_after_free]); alloc_pages
    answers the page before the free run ([map_io_misses_first_page]); a request
    close to 2^32 wraps ([kmalloc_size_wraps]); realloc leaks the old block. The
    stubs of the exceptions with an error code could not return
    ([error_stub_returns_to_code]), and struct regs, packed with a 16-bit cs, has
    the words after it two bytes off; the stubs of the vectors 17 and 30 do not
    expect the error code that comes with them ([exceptions_report_frame]).
    init_page_tables goes through the directory's physical address, which
    finalize_pagination has just unmapped ([directory_left_unmapped]): the boot
    works as long as the processor has kept that translation in its TLB, which the
    boot's theorems take for granted ([ka]); that translation may then outlive
    the boot, so that the first 4 MB, address 0 with them, may stay reachable.
    map_pages flushes the address of the entry and not the one it maps. MODE_2 and
    MODE_3 are not the timer's modes 2 and 3, PF_DIRT and PF_ACCS are exchanged, and
    the multiboot flags ask for a video mode that the header does not describe
    ([pit_init_programs_counter], [header_constants]).

    * Bounds and fuel

    [while32] gives a loop 2^33 rounds; the cursors of the loops it is used for
    have at most 32 bits, and each total-correctness theorem proves that fewer
    rounds are taken. The recursive number printers have fuel 33 and 34: a
    32-bit number has at most 32 digits, and [put_nbr_base_terminates] shows that
    only the smallest int exhausts it, and would exhaust any fuel. The waits of
    sleep and the endless greeting take what happens at each poll (interrupts)
    as a list, and are [NoFuel] when it ends.

    * Not modelled

    The linker script: the addresses it fixes are the parameters [Layout] (with
    [LayoutOk] where an order is needed). In the C files enable_paging, gdt_flush
    and tss_flush are the events of their effect and an interrupt is a call of
    irq_handler with the pushed registers; Entry.v and Stubs.v prove that the
    assembly does that. What a compiled C function leaves in the registers it may
    change and in the stack below its frame, and the arithmetic flags, are
    arguments of the processor's instructions ([clobber], [scratch], [arith]);
    protection checks and the change of stack of an interrupt in ring 3 are not
    modelled. What devices answer and
    the control registers contain is the parameter [Hardware], a function of the
    history. In the C model interrupts arrive between the polls of sleep or between
    operations. In Tlb.v the processor loads translations before or after a
    function, from the tables that it finds or leaves, not in the middle of one;
    elsewhere an access translates by the tables alone, and a flush is an event. The
    services of Services.v leave the heap allocator out: its writes on the kernel's
    own heap all go to physical page 0, where its headers overwrite each other, and
    from the second block on nothing can be said of the addresses that it reads back
    ([kernel_blocks_alias]). The output of a DEBUG build is not modelled. *)
From stdpp Require Export base numbers gmap list strings.
From Stdlib Require Export ZArith Lia.

#[export] Set Default Proof Using "Type".
Local Open Scope Z_scope.

(** * Machine integers of the i386 ABI

    A C object of an unsigned type of width w is its value in [Z], and each
    operation that can leave the range wraps explicitly. [int], [long] and
    [ssize_t] are 32-bit two's complement. *)

Definition w8 (x : Z) : Z := x mod 256.
Definition w16 (x : Z) : Z := x mod 65536.
Definition w32 (x : Z) : Z := x mod 4294967296.
Definition s8 (x : Z) : Z := (x + 128) mod 256 - 128.
Definition s32 (x : Z) : Z := (x + 2147483648) mod 4294967296 - 2147483648.

Definition INT_MIN : Z := -2147483648.

(** A bit-field of [n] bits at bit [lo] of a word. *)
Definition getf (lo n v : Z) : Z := (v / 2 ^ lo) mod 2 ^ n.
Definition setf (lo n x v : Z) : Z := v - getf lo n v * 2 ^ lo + (x mod 2 ^ n) * 2 ^ lo.

Definition b2z (b : bool) : Z := if b then 1 else 0.

(** * Outcomes and the state monad

    A kernel function either returns, spins for ever with the processor in a
    given state ([while (1);], [hlt]), runs into undefined behaviour, or does
    not finish within the fuel of its loops. *)

Inductive outcome (K A : Type) : Type :=
| Ret (a : A) (k : K)
| Spin (k : K)
| Undef
| NoFuel.
Arguments Ret {K A} a k.
Arguments Spin {K A} k.
Arguments Undef {K A}.
Arguments NoFuel {K A}.

Definition prog (K A : Type) : Type := K -> outcome K A.

#[export] Instance prog_ret K : MRet (prog K) := fun A a k => Ret a k.
#[export] Instance prog_bind K : MBind (prog K) := fun A B f m k =>
  match m k with
  | Ret a k' => f a k'
  | Spin k' => Spin k'
  | Undef => Undef
  | NoFuel => NoFuel
  end.

Definition spin {K A} : prog K A := fun k => Spin k.
Definition undef {K A} : prog K A := fun _ => Undef.
Definition nofuel {K A} : prog K A := fun _ => NoFuel.
Definition gets {K A} (f : K -> A) : prog K A := fun k => Ret (f k) k.
Definition modify {K} (f : K -> K) : prog K unit := fun k => Ret tt (f k).
Definition skip {K} : prog K unit := mret tt.

(** [when b m] is [if (b) m], without an [else]. *)
Definition when {K} (b : bool) (m : prog K unit) : prog K unit := if b then m else skip.

(** A C array element: reading outside the array is undefined behaviour. *)
Definition of_option {K A} (o : option A) : prog K A :=
  match o with Some a => mret a | None => undef end.

(** ** Loops

    [mloop n body x] runs [body] up to [2 ^ n] times, stopping as soon as it
    answers [inr]; [while32] gives a loop [2 ^ 33] rounds, more than a loop
    driven by a 32-bit cursor can take. *)

Fixpoint mloop {K X R : Type} (n : nat) (body : X -> prog K (X + R)) (x : X) : prog K (X + R) :=
  match n with
  | O => body x
  | S n' =>
      r ← mloop n' body x;
      match r with
      | inl x' => mloop n' body x'
      | inr v => mret (inr v)
      end
  end.

Definition while32 {K X R : Type} (body : X -> prog K (X + R)) (x : X) : prog K R :=
  r ← mloop 33 body x;
  match r with inl _ => nofuel | inr v => mret v end.

(** Conversion unfolds loops last. *)
#[global] Strategy 1000 [mloop while32].
Arguments while32 : simpl never.

(** * Total correctness: [wp m Q k] says that [m] started in [k] returns, with a
    value and a state that satisfy [Q]. *)

Definition wp {K A : Type} (m : prog K A) (Q : A -> K -> Prop) (k : K) : Prop :=
  match m k with Ret a k' => Q a k' | _ => False end.

Declare Scope kern_scope.
Delimit Scope kern_scope with kern.
Notation "⟨ k ⟩ m ⟨ a , k' | P ⟩" := (wp m (fun a k' => P) k)
  (at level 20, k at level 200, m at level 200, a name, k' name, P at level 200,
   format "⟨ k ⟩  m  ⟨ a ,  k'  |  P ⟩") : kern_scope.
Local Open Scope kern_scope.

(** ** Rules *)

Lemma wp_ret {K A} (a : A) (Q : A -> K -> Prop) k : Q a k -> wp (mret a) Q k.
Proof. done. Qed.

Lemma wp_bind {K A B} (m : prog K A) (f : A -> prog K B) Q k :
  wp m (fun a k' => wp (f a) Q k') k -> wp (m ≫= f) Q k.
Proof. unfold wp, mbind, prog_bind. by destruct (m k). Qed.

Lemma wp_bind_inv {K A B} (m : prog K A) (f : A -> prog K B) Q k :
  wp (m ≫= f) Q k -> wp m (fun a k' => wp (f a) Q k') k.
Proof. unfold wp, mbind, prog_bind. by destruct (m k). Qed.

Lemma wp_mono {K A} (m : prog K A) (P Q : A -> K -> Prop) k :
  wp m P k -> (forall a k', P a k' -> Q a k') -> wp m Q k.
Proof. unfold wp. destruct (m k); naive_solver. Qed.

Lemma wp_gets {K A} (f : K -> A) (Q : A -> K -> Prop) k : Q (f k) k -> wp (gets f) Q k.
Proof. done. Qed.

Lemma wp_modify {K} (f : K -> K) (Q : unit -> K -> Prop) k : Q tt (f k) -> wp (modify f) Q k.
Proof. done. Qed.

Lemma wp_of_option {K A} (o : option A) a (Q : A -> K -> Prop) k :
  o = Some a -> Q a k -> wp (of_option o) Q k.
Proof. by intros ->. Qed.

Lemma wp_when {K} b (m : prog K unit) Q k :
  (b = true -> wp m Q k) -> (b = false -> Q tt k) -> wp (when b m) Q k.
Proof. destruct b; unfold when; naive_solver. Qed.

Lemma wp_conj {K A} (m : prog K A) (P Q : A -> K -> Prop) k :
  wp m P k -> wp m Q k -> wp m (fun a k' => P a k' /\ Q a k') k.
Proof. unfold wp. by destruct (m k). Qed.

Lemma wp_run {K A} (m : prog K A) Q k :
  wp m Q k <-> exists a k', m k = Ret a k' /\ Q a k'.
Proof. unfold wp. destruct (m k); naive_solver. Qed.

Lemma wp_elim {K A} (m : prog K A) Q k :
  wp m Q k -> exists a k', m k = Ret a k' /\ Q a k'.
Proof. apply wp_run. Qed.

Lemma wp_unit_eq {K} (m : prog K unit) x k : wp m (fun _ k' => k' = x) k -> m k = Ret tt x.
Proof. unfold wp. destruct (m k) as [[] ?| | |]; [by intros ->|done..]. Qed.

Lemma bind_ret_eq {K A B} (m : prog K A) (f : A -> prog K B) k a k' :
  m k = Ret a k' -> (m ≫= f) k = f a k'.
Proof. unfold mbind, prog_bind. by intros ->. Qed.

Lemma bind_then {K A B} (m : prog K A) (f : A -> prog K B) k a k' r :
  m k = Ret a k' -> f a k' = r -> (m ≫= f) k = r.
Proof. intros ? <-. by apply bind_ret_eq. Qed.

(** [prog_step t] runs the first part of a sequence, whose result [t] knows. *)
Ltac prog_step t :=
  lazymatch goal with |- (_ ≫= _) _ = _ => eapply bind_then; [solve [t]|]; cbn [fst snd] end.

(** The loop rule: an invariant and a measure that every further round
    decreases. *)
Lemma wp_mloop {K X R} (I : X -> K -> Prop) (mu : X -> K -> Z) (Q : R -> K -> Prop)
    (body : X -> prog K (X + R)) :
  (forall x k, I x k -> 0 <= mu x k) ->
  (forall x k, I x k ->
     wp (body x) (fun o k' => match o with
                            | inl x' => I x' k' /\ mu x' k' < mu x k
                            | inr v => Q v k' end) k) ->
  forall n x k, I x k ->
     wp (mloop n body x) (fun o k' => match o with
                            | inl x' => I x' k' /\ mu x' k' <= mu x k - 2 ^ Z.of_nat n
                            | inr v => Q v k' end) k.
Proof.
  intros Hpos Hbody. induction n as [|n IH]; intros x k HI; cbn [mloop].
  - eapply wp_mono; [by apply Hbody|]. intros [x'|v] k'; [|done].
    intros [??]; split; [done|]. change (2 ^ Z.of_nat 0) with 1. lia.
  - apply wp_bind. eapply wp_mono; [by apply IH|]. intros [x'|v] k'; [|by intros].
    intros [HI' Hm]. eapply wp_mono; [by apply IH|]. intros [x''|v] k''; [|done].
    intros [??]; split; [done|].
    rewrite Nat2Z.inj_succ, Z.pow_succ_r by lia. lia.
Qed.

Lemma wp_while {K X R} (I : X -> K -> Prop) (mu : X -> K -> Z) (Q : R -> K -> Prop)
    (body : X -> prog K (X + R)) x k :
  I x k -> mu x k < 2 ^ 33 ->
  (forall x k, I x k -> 0 <= mu x k) ->
  (forall x k, I x k ->
     wp (body x) (fun o k' => match o with
                            | inl x' => I x' k' /\ mu x' k' < mu x k
                            | inr v => Q v k' end) k) ->
  wp (while32 body x) Q k.
Proof.
  intros HI Hmu Hpos Hbody. unfold while32. apply wp_bind.
  eapply wp_mono; [by eapply wp_mloop|]. intros [x'|v] k'; [|by intros].
  intros [HI' Hle]. apply Hpos in HI'. change (2 ^ Z.of_nat 33) with (2 ^ 33) in Hle. lia.
Qed.

(** * Word arithmetic *)

(** [word_lia] is [lia] on goals that mention the wrapping functions. *)
Ltac wunfold := unfold w8, w16, w32, s8, s32, INT_MIN in *.
Ltac word_lia := wunfold; Z.div_mod_to_equations; lia.

Lemma w32_range x : 0 <= w32 x < 4294967296.
Proof. word_lia. Qed.

Lemma w8_range x : 0 <= w8 x < 256.
Proof. word_lia. Qed.

Lemma s32_range x : INT_MIN <= s32 x < 2147483648.
Proof. word_lia. Qed.

Lemma w32_small x : 0 <= x < 4294967296 -> w32 x = x.
Proof. intros. by apply Z.mod_small. Qed.

Lemma w8_small x : 0 <= x < 256 -> w8 x = x.
Proof. intros. by apply Z.mod_small. Qed.

Lemma w16_small x : 0 <= x < 65536 -> w16 x = x.
Proof. intros. by apply Z.mod_small. Qed.

Lemma s32_small x : INT_MIN <= x < 2147483648 -> s32 x = x.
Proof. intros. word_lia. Qed.

Lemma w32_idem x : w32 (w32 x) = w32 x.
Proof. apply w32_small, w32_range. Qed.

Lemma w32_add_l x y : w32 (w32 x + y) = w32 (x + y).
Proof. unfold w32. by rewrite Zplus_mod_idemp_l. Qed.

Lemma w32_add_r x y : w32 (x + w32 y) = w32 (x + y).
Proof. unfold w32. by rewrite Zplus_mod_idemp_r. Qed.

Create HintDb words discriminated.
#[export] Hint Resolve w32_range w8_range : words.
Create Rewrite HintDb words.
#[export] Hint Rewrite w32_idem w32_add_l w32_add_r : words.
#[export] Hint Rewrite w32_small w8_small w16_small s32_small using (unfold INT_MIN; lia) : words.

(** * Bit-fields *)

Section bitfields.
Implicit Types lo n v x : Z.

Lemma pow2_pos n : 0 <= n -> 0 < 2 ^ n.
Proof. intros. by apply Z.pow_pos_nonneg. Qed.

Lemma getf_range lo n v : 0 <= n -> 0 <= getf lo n v < 2 ^ n.
Proof. intros. by apply Z.mod_pos_bound, pow2_pos. Qed.

(** A word is its bits above the field, the field and the bits below. *)
Lemma getf_split lo n v : 0 <= lo -> 0 <= n ->
  v = v / 2 ^ (lo + n) * 2 ^ (lo + n) + getf lo n v * 2 ^ lo + v mod 2 ^ lo.
Proof.
  intros Hlo Hn. unfold getf. pose proof (pow2_pos lo Hlo). pose proof (pow2_pos n Hn).
  rewrite Z.pow_add_r, <- Z.div_div by lia.
  pose proof (Z.div_mod v (2 ^ lo)). pose proof (Z.div_mod (v / 2 ^ lo) (2 ^ n)). nia.
Qed.

Lemma setf_split lo n x v : 0 <= lo -> 0 <= n ->
  setf lo n x v = v / 2 ^ (lo + n) * 2 ^ (lo + n) + (x mod 2 ^ n) * 2 ^ lo + v mod 2 ^ lo.
Proof. intros Hlo Hn. unfold setf. pose proof (getf_split lo n v Hlo Hn). lia. Qed.

Lemma getf_setf_eq lo n x v : 0 <= lo -> 0 <= n -> getf lo n (setf lo n x v) = x mod 2 ^ n.
Proof.
  intros Hlo Hn. rewrite setf_split by done. unfold getf.
  pose proof (pow2_pos lo Hlo). pose proof (pow2_pos n Hn).
  pose proof (Z.mod_pos_bound v (2 ^ lo)). rewrite Z.pow_add_r by done.
  set (h := v / (2 ^ lo * 2 ^ n)).
  replace (h * (2 ^ lo * 2 ^ n) + (x mod 2 ^ n) * 2 ^ lo + v mod 2 ^ lo)
    with ((h * 2 ^ n + x mod 2 ^ n) * 2 ^ lo + v mod 2 ^ lo) by ring.
  rewrite Z.div_add_l, (Z.div_small (v mod _)), Z.add_0_r by lia.
  rewrite Z.add_comm, Z.mod_add, Z.mod_mod by lia. done.
Qed.

Lemma getf_setf_above lo n lo' n' x v : 0 <= lo -> 0 <= n -> lo + n <= lo' ->
  getf lo' n' (setf lo n x v) = getf lo' n' v.
Proof.
  intros Hlo Hn Hle. unfold getf. f_equal.
  replace lo' with ((lo + n) + (lo' - (lo + n))) by lia.
  rewrite Z.pow_add_r, <- !Z.div_div by (first [lia | apply Z.pow_nonzero; lia
    | apply pow2_pos; lia]). f_equal.
  rewrite setf_split by done. rewrite <- Z.add_assoc, Z.div_add_l by (apply Z.pow_nonzero; lia).
  rewrite (Z.div_small (_ + _)); [lia|]. rewrite Z.pow_add_r by lia.
  pose proof (pow2_pos lo Hlo). pose proof (pow2_pos n Hn).
  pose proof (Z.mod_pos_bound v (2 ^ lo)). pose proof (Z.mod_pos_bound x (2 ^ n)). nia.
Qed.

Lemma getf_setf_below lo n lo' n' x v : 0 <= lo' -> 0 <= n' -> 0 <= n -> lo' + n' <= lo ->
  getf lo' n' (setf lo n x v) = getf lo' n' v.
Proof.
  intros Hlo' Hn' Hn Hle. unfold setf.
  set (d := (x mod 2 ^ n - getf lo n v)).
  replace (v - getf lo n v * 2 ^ lo + (x mod 2 ^ n) * 2 ^ lo) with (v + d * 2 ^ lo)
    by (unfold d; ring).
  replace (2 ^ lo) with (2 ^ (lo - (lo' + n')) * 2 ^ n' * 2 ^ lo')
    by (rewrite <- !Z.pow_add_r by lia; f_equal; lia).
  unfold getf. rewrite !Z.mul_assoc, Z.div_add, Z.mod_add; [done| |]; apply Z.pow_nonzero; lia.
Qed.

Lemma setf_range lo n w x v : 0 <= lo -> 0 <= n -> lo + n <= w ->
  0 <= v < 2 ^ w -> 0 <= setf lo n x v < 2 ^ w.
Proof.
  intros Hlo Hn Hw Hv. rewrite setf_split by done.
  replace w with ((w - (lo + n)) + (lo + n)) in * by lia.
  rewrite (Z.pow_add_r _ (w - (lo + n))) in * by lia.
  pose proof (pow2_pos (lo + n)). pose proof (pow2_pos (w - (lo + n))).
  pose proof (Z.mod_pos_bound v (2 ^ lo) (pow2_pos lo Hlo)).
  pose proof (Z.mod_pos_bound x (2 ^ n) (pow2_pos n Hn)).
  assert (0 <= v / 2 ^ (lo + n) < 2 ^ (w - (lo + n))).
  { split; [apply Z.div_pos; lia|]. apply Z.div_lt_upper_bound; lia. }
  assert (0 <= (x mod 2 ^ n) * 2 ^ lo + v mod 2 ^ lo < 2 ^ (lo + n)).
  { rewrite Z.pow_add_r by lia. nia. }
  nia.
Qed.

(** Testing one bit with a mask. *)
Lemma land_bit n v : 0 <= n -> Z.land v (2 ^ n) = getf n 1 v * 2 ^ n.
Proof.
  intros Hn. unfold getf. rewrite Z.pow_1_r, <- Z.testbit_spec' by done.
  apply Z.bits_inj'; intros m Hm. rewrite Z.land_spec, Z.pow2_bits_eqb by done.
  destruct (Z.eqb_spec n m) as [<-|Hne]; rewrite ?andb_true_r, ?andb_false_r.
  - destruct (Z.testbit v n); cbn [Z.b2z];
      rewrite ?Z.mul_1_l, ?Z.mul_0_l, ?Z.pow2_bits_true, ?Z.bits_0; done.
  - destruct (Z.testbit v n); cbn [Z.b2z];
      rewrite ?Z.mul_1_l, ?Z.mul_0_l, ?Z.pow2_bits_false, ?Z.bits_0; done.
Qed.

Lemma land_bit_eqb0 n v : 0 <= n -> (Z.land v (2 ^ n) =? 0) = (getf n 1 v =? 0).
Proof.
  intros Hn. rewrite land_bit by done. pose proof (pow2_pos n Hn).
  destruct (Z.eqb_spec (getf n 1 v * 2 ^ n) 0), (Z.eqb_spec (getf n 1 v) 0); nia.
Qed.
End bitfields.

(** [bf] decides facts on bit-fields at concrete positions. *)
Ltac bf :=
  unfold setf, getf in *;
  repeat match goal with
  | |- context [2 ^ ?n] => let v := eval vm_compute in (2 ^ n) in progress change (2 ^ n) with v
  | H : context [2 ^ ?n] |- _ =>
      let v := eval vm_compute in (2 ^ n) in progress change (2 ^ n) with v in H
  end; word_lia.

(** The first index, below a bound, at which a property fails. *)
Lemma first_failing (P : Z -> Prop) `{!forall i, Decision (P i)} n : 0 <= n ->
  exists i, 0 <= i <= n /\ (forall j, 0 <= j < i -> P j) /\ (i < n -> ~ P i).
Proof.
  intros Hn. pattern n. apply natlike_ind; [| |done]; clear n Hn.
  - exists 0. split; [lia|]. split; intros; lia.
  - intros n Hn (i & Hi & Hall & Hstop). destruct (decide (i < n)) as [Hlt|].
    { exists i. split; [lia|]. split; [done|]. intros _. by apply Hstop. }
    assert (i = n) as -> by lia. destruct (decide (P n)).
    + exists (Z.succ n). split; [lia|]. split; [|lia]. intros j Hj.
      destruct (decide (j = n)) as [->|]; [done|]. apply Hall. lia.
    + exists n. split; [lia|]. by split.
Qed.

(** * Loops that are known to stop after [n] further rounds *)

Section loops.
Context {K X R : Type} (body : X -> prog K (X + R)).

Inductive loops : nat -> X -> K -> R -> K -> Prop :=
| loops_exit x k v k' : body x k = Ret (inr v) k' -> loops 0 x k v k'
| loops_round n x k x' k1 v k' :
    body x k = Ret (inl x') k1 -> loops n x' k1 v k' -> loops (S n) x k v k'.

Lemma mloop_loops m n x k v k' : loops n x k v k' ->
  (Z.of_nat n < 2 ^ Z.of_nat m -> mloop m body x k = Ret (inr v) k') /\
  (2 ^ Z.of_nat m <= Z.of_nat n -> exists x' k1 n', mloop m body x k = Ret (inl x') k1 /\
     loops n' x' k1 v k' /\ Z.of_nat n' = Z.of_nat n - 2 ^ Z.of_nat m).
Proof.
  revert n x k. induction m as [|m IH]; intros n x k Hl; cbn [mloop].
  - destruct Hl as [x k v k' He|n x k x' k1 v k' He Hl]; split; intros Hlt;
      change (2 ^ Z.of_nat 0) with 1 in *; [done|lia|lia|].
    exists x', k1, n. split_and!; [done|done|lia].
  - destruct (IH n x k Hl) as [IHlt IHge].
    rewrite Nat2Z.inj_succ, Z.pow_succ_r by lia.
    destruct (decide (Z.of_nat n < 2 ^ Z.of_nat m)) as [Hn|Hn].
    + rewrite (bind_ret_eq _ _ _ _ _ (IHlt Hn)). split; [done|lia].
    + destruct IHge as (x' & k1 & n' & He & Hl' & Hn'); [lia|].
      rewrite (bind_ret_eq _ _ _ _ _ He). destruct (IH n' x' k1 Hl') as [IHlt' IHge'].
      split; intros; [by apply IHlt'; lia|].
      destruct IHge' as (x2 & k2 & n2 & ? & ? & ?); [lia|].
      exists x2, k2, n2. split_and!; [done|done|lia].
Qed.

Lemma while32_loops n x k v k' : loops n x k v k' -> Z.of_nat n < 2 ^ 33 ->
  while32 body x k = Ret v k'.
Proof.
  intros Hl Hn. destruct (mloop_loops 33 n x k v k' Hl) as [He _].
  unfold while32. by rewrite (bind_ret_eq _ _ _ _ _ (He Hn)).
Qed.
End loops.

(** Running a deterministic step that is known to return. *)
Lemma wp_eq {K A} (m : prog K A) (Q : A -> K -> Prop) k a k' : m k = Ret a k' -> Q a k' -> wp m Q k.
Proof. unfold wp. by intros ->. Qed.

(** * Any outcome

    [after m P k]: the outcome of [m] from [k] satisfies [P]; [wp] and [stops] are
    instances. *)
Definition after {K A : Type} (m : prog K A) (P : outcome K A -> Prop) (k : K) : Prop := P (m k).

Lemma after_bind {K A B} (m : prog K A) (f : A -> prog K B) P k :
  wp m (fun a k' => after (f a) P k') k -> after (m ≫= f) P k.
Proof. unfold after, wp, mbind, prog_bind. by destruct (m k). Qed.

(** * Runs that never return

    [stops m P k]: [m] started in [k] ends in a state that satisfies [P] and
    stays there for ever. *)
Definition stops {K A : Type} (m : prog K A) (P : K -> Prop) (k : K) : Prop :=
  match m k with Spin k' => P k' | _ => False end.

Lemma stops_spin {K A} (P : K -> Prop) (k : K) : P k -> stops (spin : prog K A) P k.
Proof. done. Qed.

Lemma stops_bind {K A B} (m : prog K A) (f : A -> prog K B) P k :
  wp m (fun a k' => stops (f a) P k') k -> stops (m ≫= f) P k.
Proof. unfold stops, wp, mbind, prog_bind. by destruct (m k). Qed.

Lemma stops_seq {K A B} (m : prog K A) (f : A -> prog K B) P k : stops m P k -> stops (m ≫= f) P k.
Proof. unfold stops, mbind, prog_bind. by destruct (m k). Qed.

Lemma spin_bind {K A B} (m : prog K A) (f : A -> prog K B) k k' : m k = Spin k' -> (m ≫= f) k = Spin k'.
Proof. unfold mbind, prog_bind. by intros ->. Qed.

Lemma stops_elim {K A} (m : prog K A) P k : stops m P k -> exists k', m k = Spin k' /\ P k'.
Proof. unfold stops. destruct (m k); naive_solver. Qed.
