(* ===== verification/Memory.v ===== *)
(** RAM as the processor sees it: bytes at physical addresses, and
    little-endian 32-bit words over them. *)
From S2P Require Import Prelude.
Local Open Scope Z_scope.
Local Open Scope kern_scope.

Notation ram := (gmap Z Z).

Definition rd8 (m : ram) (a : Z) : Z := w8 (default 0 (m !! a)).
Definition wr8 (m : ram) (a v : Z) : ram := <[a := w8 v]> m.

Definition rd32 (m : ram) (a : Z) : Z :=
  rd8 m a + rd8 m (a + 1) * 256 + rd8 m (a + 2) * 65536 + rd8 m (a + 3) * 16777216.

Definition wr32 (m : ram) (a v : Z) : ram :=
  wr8 (wr8 (wr8 (wr8 m a v) (a + 1) (v / 256)) (a + 2) (v / 65536)) (a + 3) (v / 16777216).

(** Two RAMs are equal when they read alike: a byte never written and a byte
    holding 0 are the same. *)
Definition ram_eq (m1 m2 : ram) : Prop := forall a, rd8 m1 a = rd8 m2 a.
Infix "≈" := ram_eq (at level 70) : kern_scope.

#[export] Instance ram_eq_equiv : Equivalence ram_eq.
Proof.
  split.
  - by intros m a.
  - intros m1 m2 H a. by rewrite H.
  - intros m1 m2 m3 H1 H2 a. by rewrite H1, H2.
Qed.

Lemma rd8_range m a : 0 <= rd8 m a < 256.
Proof. apply w8_range. Qed.

Lemma rd32_range m a : 0 <= rd32 m a < 4294967296.
Proof.
  unfold rd32. pose proof (rd8_range m a). pose proof (rd8_range m (a + 1)).
  pose proof (rd8_range m (a + 2)). pose proof (rd8_range m (a + 3)). lia.
Qed.

Lemma rd8_wr8 m a b v : rd8 (wr8 m a v) b = if decide (a = b) then w8 v else rd8 m b.
Proof.
  unfold rd8, wr8. rewrite lookup_insert. case_decide; [|done]. cbn. word_lia.
Qed.

Lemma rd8_wr8_eq m a v : rd8 (wr8 m a v) a = w8 v.
Proof. rewrite rd8_wr8. by case_decide. Qed.

Lemma rd8_wr8_ne m a b v : a <> b -> rd8 (wr8 m a v) b = rd8 m b.
Proof. intros. rewrite rd8_wr8. by case_decide. Qed.

Lemma rd8_wr32_ne m a b v : b < a \/ a + 4 <= b -> rd8 (wr32 m a v) b = rd8 m b.
Proof. intros. unfold wr32. rewrite !rd8_wr8_ne by lia. done. Qed.

Lemma rd32_wr32_eq m a v : rd32 (wr32 m a v) a = w32 v.
Proof.
  unfold rd32, wr32. rewrite !rd8_wr8. repeat (case_decide; try lia). word_lia.
Qed.

Lemma rd32_wr32_ne m a b v : b + 4 <= a \/ a + 4 <= b -> rd32 (wr32 m a v) b = rd32 m b.
Proof. intros. unfold rd32. rewrite !rd8_wr32_ne by lia. done. Qed.

Lemma rd32_wr8_ne m a b v : b + 4 <= a \/ a < b -> rd32 (wr8 m a v) b = rd32 m b.
Proof. intros. unfold rd32. rewrite !rd8_wr8_ne by lia. done. Qed.

Lemma rd32_ext m m' a : (forall i, a <= i < a + 4 -> rd8 m' i = rd8 m i) -> rd32 m' a = rd32 m a.
Proof. intros H. unfold rd32. by rewrite !H by lia. Qed.

Create Rewrite HintDb mem.
#[export] Hint Rewrite rd8_wr8_eq rd32_wr32_eq : mem.
#[export] Hint Rewrite rd8_wr8_ne rd8_wr32_ne rd32_wr32_ne rd32_wr8_ne using lia : mem.
#[export] Hint Resolve rd8_range rd32_range : words.

#[export] Instance rd8_proper : Proper (ram_eq ==> eq ==> eq) rd8.
Proof. intros m1 m2 Hm a ? <-. apply Hm. Qed.

#[export] Instance rd32_proper : Proper (ram_eq ==> eq ==> eq) rd32.
Proof. intros m1 m2 Hm a ? <-. unfold rd32. by rewrite !Hm. Qed.

#[export] Instance wr8_proper : Proper (ram_eq ==> eq ==> eq ==> ram_eq) wr8.
Proof. intros m1 m2 Hm a ? <- v ? <- b. rewrite !rd8_wr8. by case_decide. Qed.

#[export] Instance wr32_proper : Proper (ram_eq ==> eq ==> eq ==> ram_eq) wr32.
Proof. intros m1 m2 Hm a ? <- v ? <-. unfold wr32. by rewrite Hm. Qed.

(** Writing back the word that is there changes nothing. *)
Lemma wr32_rd32 m a : wr32 m a (rd32 m a) ≈ m.
Proof.
  intros b. unfold wr32. rewrite !rd8_wr8.
  unfold rd32. pose proof (rd8_range m a). pose proof (rd8_range m (a + 1)).
  pose proof (rd8_range m (a + 2)). pose proof (rd8_range m (a + 3)).
  repeat case_decide; subst; try done; word_lia.
Qed.

(** Words at different places commute. *)
Lemma wr32_comm m a b v w : b + 4 <= a \/ a + 4 <= b ->
  wr32 (wr32 m a v) b w ≈ wr32 (wr32 m b w) a v.
Proof.
  intros Hd c. unfold wr32. rewrite !rd8_wr8. repeat (case_decide; try lia).
Qed.
