(* ===== verification/State.v ===== *)
(** The kernel's state: the structures of the headers (inc/*.h), the static
    variables of each C file, RAM, and the trace of what the kernel did to the
    hardware. *)
From S2P Require Import Prelude Memory.
Local Open Scope Z_scope.

(** * Constants of inc/types.h, inc/frame.h and inc/pages.h *)

Definition NULL : Z := 0.
Definition TRUE : Z := 1.
Definition FALSE : Z := 0.
Definition SUCCES : Z := 0.
Definition FAILED : Z := -1.

Definition SYSTEM_ADDR_BASE : Z := 0xC0000000.
Definition RAM_BASE_ADDR : Z := 0x100000.
Definition FRAME_SIZE : Z := 0x1000.
Definition FOUR_MB : Z := 0x400000.
Definition KERNEL_SIZE_IN_RAM : Z := 2 * FOUR_MB - RAM_BASE_ADDR.

Definition KERNEL_PAGE_DIRECTORY_INDEX : Z := Z.shiftr SYSTEM_ADDR_BASE 22.
Definition PAGE_TABLES_DIRECTORY_INDEX : Z := KERNEL_PAGE_DIRECTORY_INDEX + 1.
Definition FRAMES_DIRECTORY_INDEX : Z := PAGE_TABLES_DIRECTORY_INDEX + 1.
Definition PAGE_TABLES_START_VADDR : Z := w32 (Z.shiftl PAGE_TABLES_DIRECTORY_INDEX 22).
Definition FRAMES_START_VADDR : Z := w32 (Z.shiftl FRAMES_DIRECTORY_INDEX 22).
Definition FRAMES_START_PADDR : Z := 0x00800000.

(** * Structures *)

(** struct frame, inc/frame.h. *)
Record frame := Frame { ref_count : Z; addr : Z; vaddr : Z }.

(** t_frame_context, inc/frame.h; [fc_map] points to a memory_map_t in RAM. *)
Record frame_context := FrameContext {
  fc_map : Z;
  frames_meta_start_vaddr : Z;
  frames_meta_end_vaddr : Z;
  frames_count : Z
}.

(** struct idt_entry, inc/interrupts.h. *)
Record idt_entry := IdtEntry {
  offset_low : Z;
  sgm_selector : Z;
  idt_zero : Z;
  idt_flags : Z;
  offset_high : Z
}.

(** struct gdt_entry, inc/segmentation.h. *)
Record gdt_entry := GdtEntry {
  limit_low : Z;
  base_low : Z;
  base_mid : Z;
  access : Z;
  limit_high : Z;
  gdt_avl : Z;
  gdt_l : Z;
  d_b : Z;
  gdt_g : Z;
  base_high : Z
}.

(** The fields of struct tss_entry, inc/segmentation.h, that the kernel sets;
    every other field stays at the 0 of set_tss_entry's memset. *)
Record tss_entry := TssEntry {
  tss_esp0 : Z;
  tss_ss0 : Z;
  tss_cs : Z;
  tss_ss : Z;
  tss_ds : Z;
  tss_es : Z;
  tss_fs : Z;
  tss_gs : Z
}.

(** struct regs, inc/interrupts.h, as isr_handler pushes it. *)
Record regs := Regs {
  r_edi : Z; r_esi : Z; r_ebp : Z; r_esp : Z; r_ebx : Z; r_edx : Z; r_ecx : Z; r_eax : Z;
  r_ss : Z; r_gs : Z; r_fs : Z; r_es : Z; r_ds : Z;
  r_int_no : Z; r_err_code : Z; r_eip : Z; r_cs : Z; r_eflags : Z; r_useresp : Z; r_ss_user : Z
}.

(** The functions the kernel stores in g_handlers. *)
Inductive handler := page_fault_handler_ptr | pit_handler_ptr | keyboard_handler_ptr | uart_handler_ptr.

#[export] Instance handler_eq_dec : EqDecision handler.
Proof. solve_decision. Defined.

(** What the kernel does to the hardware, in order. *)
Inductive event :=
| EOut (port val : Z)
| EIn (port val : Z)
| EInvlpg (a : Z)
| EReadCr (n val : Z)
| EDisableCache
| EEnablePaging (cr3 : Z)
| ELidt (base limit : Z)
| ELgdt (base limit : Z)
| ELtr (selector : Z)
| ESti.

#[export] Instance event_eq_dec : EqDecision event.
Proof. solve_decision. Defined.

(** The devices answer each read from the history of what was done to them;
    the linker and the boot code fix addresses. Both are parameters. *)
Class Hardware := {
  hw_in : list event -> Z -> Z;
  hw_cr : list event -> Z -> Z;
  hw_esp : Z
}.

Class Layout := {
  sym_page_dir : Z;
  sym_kernel_end : Z;
  sym_g_idt : Z;
  sym_g_gdt : Z;
  sym_g_tss : Z;
  sym_isr : Z -> Z;
  sym_main_userland : Z
}.

(** Devices that answer a port with a fixed value, for the examples. *)
Definition fixed_hw (f : Z -> Z) : Hardware :=
  {| hw_in _ p := f p; hw_cr _ _ := 0; hw_esp := 0xC0110000 |}.

(** An image laid out as kfs.ld does, for the examples. *)
Definition example_layout : Layout :=
  {| sym_page_dir := 0xC0105000; sym_kernel_end := 0xC0120000; sym_g_idt := 0xC0110000;
     sym_g_gdt := 0xC0111000; sym_g_tss := 0xC0112000; sym_isr v := 0xC0100000 + 16 * (v mod 256);
     sym_main_userland := 0xC0108000 |}.

(** * The state *)

Record kst := Kst {
  mem : ram;
  trace : list event;
  uart_addr : Z;          (* uart.c *)
  disp_count : Z;         (* nbr_disp_bytes, kprintf_tools.c *)
  ticks : Z;              (* pit.c *)
  send_char : Z;          (* kb_get_key, kb.c *)
  g_idt : list idt_entry; (* interrupts.c *)
  g_handlers : list (option handler);
  g_gdt : list gdt_entry; (* segmentation.c *)
  g_tss : tss_entry;
  g_kds_size : Z;         (* pages.c *)
  g_frame_page_directory : frame;
  g_frames_context : frame_context; (* frame.c *)
  first_value : Z;        (* get_first_value, mem_infos.c *)
  magic_number : Z;       (* g_kfs_context, main.c *)
  multiboot_info : Z
}.

Definition set_mem (f : ram -> ram) (k : kst) : kst :=
  Kst (f (mem k)) (trace k) (uart_addr k) (disp_count k) (ticks k) (send_char k) (g_idt k)
    (g_handlers k) (g_gdt k) (g_tss k) (g_kds_size k) (g_frame_page_directory k)
    (g_frames_context k) (first_value k) (magic_number k) (multiboot_info k).

Definition set_trace (f : list event -> list event) (k : kst) : kst :=
  Kst (mem k) (f (trace k)) (uart_addr k) (disp_count k) (ticks k) (send_char k) (g_idt k)
    (g_handlers k) (g_gdt k) (g_tss k) (g_kds_size k) (g_frame_page_directory k)
    (g_frames_context k) (first_value k) (magic_number k) (multiboot_info k).

Definition set_uart_addr (v : Z) (k : kst) : kst :=
  Kst (mem k) (trace k) v (disp_count k) (ticks k) (send_char k) (g_idt k)
    (g_handlers k) (g_gdt k) (g_tss k) (g_kds_size k) (g_frame_page_directory k)
    (g_frames_context k) (first_value k) (magic_number k) (multiboot_info k).

Definition set_disp_count (v : Z) (k : kst) : kst :=
  Kst (mem k) (trace k) (uart_addr k) v (ticks k) (send_char k) (g_idt k)
    (g_handlers k) (g_gdt k) (g_tss k) (g_kds_size k) (g_frame_page_directory k)
    (g_frames_context k) (first_value k) (magic_number k) (multiboot_info k).

Definition set_ticks (v : Z) (k : kst) : kst :=
  Kst (mem k) (trace k) (uart_addr k) (disp_count k) v (send_char k) (g_idt k)
    (g_handlers k) (g_gdt k) (g_tss k) (g_kds_size k) (g_frame_page_directory k)
    (g_frames_context k) (first_value k) (magic_number k) (multiboot_info k).

Definition set_send_char (v : Z) (k : kst) : kst :=
  Kst (mem k) (trace k) (uart_addr k) (disp_count k) (ticks k) v (g_idt k)
    (g_handlers k) (g_gdt k) (g_tss k) (g_kds_size k) (g_frame_page_directory k)
    (g_frames_context k) (first_value k) (magic_number k) (multiboot_info k).

Definition set_idt (f : list idt_entry -> list idt_entry) (k : kst) : kst :=
  Kst (mem k) (trace k) (uart_addr k) (disp_count k) (ticks k) (send_char k) (f (g_idt k))
    (g_handlers k) (g_gdt k) (g_tss k) (g_kds_size k) (g_frame_page_directory k)
    (g_frames_context k) (first_value k) (magic_number k) (multiboot_info k).

Definition set_handlers (f : list (option handler) -> list (option handler)) (k : kst) : kst :=
  Kst (mem k) (trace k) (uart_addr k) (disp_count k) (ticks k) (send_char k) (g_idt k)
    (f (g_handlers k)) (g_gdt k) (g_tss k) (g_kds_size k) (g_frame_page_directory k)
    (g_frames_context k) (first_value k) (magic_number k) (multiboot_info k).

Definition set_gdt (f : list gdt_entry -> list gdt_entry) (k : kst) : kst :=
  Kst (mem k) (trace k) (uart_addr k) (disp_count k) (ticks k) (send_char k) (g_idt k)
    (g_handlers k) (f (g_gdt k)) (g_tss k) (g_kds_size k) (g_frame_page_directory k)
    (g_frames_context k) (first_value k) (magic_number k) (multiboot_info k).

Definition set_tss (v : tss_entry) (k : kst) : kst :=
  Kst (mem k) (trace k) (uart_addr k) (disp_count k) (ticks k) (send_char k) (g_idt k)
    (g_handlers k) (g_gdt k) v (g_kds_size k) (g_frame_page_directory k)
    (g_frames_context k) (first_value k) (magic_number k) (multiboot_info k).

Definition set_kds_size (v : Z) (k : kst) : kst :=
  Kst (mem k) (trace k) (uart_addr k) (disp_count k) (ticks k) (send_char k) (g_idt k)
    (g_handlers k) (g_gdt k) (g_tss k) v (g_frame_page_directory k)
    (g_frames_context k) (first_value k) (magic_number k) (multiboot_info k).

Definition set_kpd (v : frame) (k : kst) : kst :=
  Kst (mem k) (trace k) (uart_addr k) (disp_count k) (ticks k) (send_char k) (g_idt k)
    (g_handlers k) (g_gdt k) (g_tss k) (g_kds_size k) v
    (g_frames_context k) (first_value k) (magic_number k) (multiboot_info k).

Definition set_fctx (v : frame_context) (k : kst) : kst :=
  Kst (mem k) (trace k) (uart_addr k) (disp_count k) (ticks k) (send_char k) (g_idt k)
    (g_handlers k) (g_gdt k) (g_tss k) (g_kds_size k) (g_frame_page_directory k)
    v (first_value k) (magic_number k) (multiboot_info k).

Definition set_first (v : Z) (k : kst) : kst :=
  Kst (mem k) (trace k) (uart_addr k) (disp_count k) (ticks k) (send_char k) (g_idt k)
    (g_handlers k) (g_gdt k) (g_tss k) (g_kds_size k) (g_frame_page_directory k)
    (g_frames_context k) v (magic_number k) (multiboot_info k).

Definition set_kfs_context (magic mbi : Z) (k : kst) : kst :=
  Kst (mem k) (trace k) (uart_addr k) (disp_count k) (ticks k) (send_char k) (g_idt k)
    (g_handlers k) (g_gdt k) (g_tss k) (g_kds_size k) (g_frame_page_directory k)
    (g_frames_context k) (first_value k) magic mbi.

(** The static data at boot: everything is zero (.bss), over any RAM. *)
Definition boot_state (m : ram) : kst :=
  Kst m [] 0 0 0 0 (replicate 256 (IdtEntry 0 0 0 0 0)) (replicate 256 None)
    (replicate 6 (GdtEntry 0 0 0 0 0 0 0 0 0 0)) (TssEntry 0 0 0 0 0 0 0 0) 0
    (Frame 0 0 0) (FrameContext 0 0 0 0) 0 0 0.

(** * Pointers

    The kernel is linked SYSTEM_ADDR_BASE above where it is loaded: a pointer at or
    above SYSTEM_ADDR_BASE designates the physical byte SYSTEM_ADDR_BASE lower, a
    smaller one is used as a physical address (the identity mapping of the boot
    code). Mmu.v and Tables.v prove that the page directory maps the kernel's
    windows this way. The one low pointer that is used after that mapping has gone
    is init_page_tables' (Boot.v, [directory_left_unmapped]). *)

Definition ka (va : Z) : Z := if SYSTEM_ADDR_BASE <=? va then va - SYSTEM_ADDR_BASE else va.

Definition load8 (va : Z) : prog kst Z := gets (fun k => rd8 (mem k) (ka va)).
Definition store8 (va v : Z) : prog kst unit := modify (set_mem (fun m => wr8 m (ka va) v)).
Definition load32 (va : Z) : prog kst Z := gets (fun k => rd32 (mem k) (ka va)).
Definition store32 (va v : Z) : prog kst unit := modify (set_mem (fun m => wr32 m (ka va) v)).

(** The state after more events. *)
Definition logged (evs : list event) (k : kst) : kst := set_trace (fun t => t ++ evs) k.

Definition emit (e : event) : prog kst unit := modify (logged [e]).

Lemma logged_logged evs evs' k : logged evs' (logged evs k) = logged (evs ++ evs') k.
Proof. unfold logged, set_trace. cbn. by rewrite <- app_assoc. Qed.

Lemma logged_nil k : logged [] k = k.
Proof. unfold logged, set_trace. rewrite app_nil_r. by destruct k. Qed.

(** * Frame conditions

    [quiet] steps only print: they add to the trace and count bytes. *)

Definition quiet (k k' : kst) : Prop :=
  exists evs d, k' = set_disp_count d (logged evs k).

#[export] Instance quiet_preorder : PreOrder quiet.
Proof.
  split.
  - intros k. exists [], (disp_count k). rewrite logged_nil. by destruct k.
  - intros k1 k2 k3 (t & d & ->) (t' & d' & ->). exists (t ++ t'), d'. by rewrite <- logged_logged.
Qed.

Lemma quiet_mem k k' : quiet k k' -> mem k' = mem k.
Proof. by intros (? & ? & ->). Qed.

Lemma quiet_count k d : quiet k (set_disp_count d k).
Proof. exists [], d. by rewrite logged_nil. Qed.

Create HintDb frame discriminated.
#[export] Hint Resolve quiet_count : frame.

Lemma quiet_logged k evs : quiet k (logged evs k).
Proof. exists evs, (disp_count k). by destruct k. Qed.
#[export] Hint Resolve quiet_logged : frame.

Lemma wp_load8 va Q k : Q (rd8 (mem k) (ka va)) k -> wp (load8 va) Q k.
Proof. done. Qed.
Lemma wp_store8 va v Q k : Q tt (set_mem (fun m => wr8 m (ka va) v) k) -> wp (store8 va v) Q k.
Proof. done. Qed.
Lemma wp_load32 va Q k : Q (rd32 (mem k) (ka va)) k -> wp (load32 va) Q k.
Proof. done. Qed.
Lemma wp_store32 va v Q k : Q tt (set_mem (fun m => wr32 m (ka va) v) k) -> wp (store32 va v) Q k.
Proof. done. Qed.
Lemma wp_emit e Q k : Q tt (logged [e] k) -> wp (emit e) Q k.
Proof. done. Qed.

(** [wp_go] runs the straight-line part of a program under [wp]. *)
Ltac wp_go :=
  repeat (lazymatch goal with
  | |- wp (mbind _ _) _ _ => apply wp_bind
  | |- wp (mret _) _ _ => apply wp_ret
  | |- wp skip _ _ => apply wp_ret
  | |- wp (gets _) _ _ => apply wp_gets
  | |- wp (modify _) _ _ => apply wp_modify
  | |- wp (load8 _) _ _ => apply wp_load8
  | |- wp (store8 _ _) _ _ => apply wp_store8
  | |- wp (load32 _) _ _ => apply wp_load32
  | |- wp (store32 _ _) _ _ => apply wp_store32
  | |- wp (emit _) _ _ => apply wp_emit
  | |- wp (let _ := _ in _) _ _ => cbv zeta
  end; cbv beta).

Lemma quiet_step k a b c : quiet k a -> quiet b c -> quiet a b -> quiet k c.
Proof. intros. etrans; [|eassumption]. by etrans. Qed.

(** [quiet_chain k] replaces a quiet step after a chain from [k] by a longer
    chain. *)
Ltac quiet_chain k :=
  match goal with
  | H1 : quiet k ?a, H2 : quiet ?b ?c |- _ =>
      let H := fresh "Hq" in
      assert (H : quiet k c)
        by (apply (quiet_step _ _ _ _ H1 H2); first [done | apply quiet_logged]);
      clear H1 H2
  end.
