(* ===== verification/Console.v ===== *)
(** Port I/O (src/io.c), the character side of the UART driver (src/uart.c),
    kwrite (src/tools/kwrite/kwrite.c), memset and memcpy
    (src/tools/string.c) and the number and string helpers of src/tools.c. *)
From S2P Require Import Prelude Memory State.
Local Open Scope Z_scope.
Local Open Scope kern_scope.

(** * C strings *)

Definition chars (s : string) : list Z :=
  (fun c => Z.of_N (Ascii.N_of_ascii c)) <$> String.list_ascii_of_string s.

(** Reading [s[i]]: the terminator follows the characters, and nothing follows
    the terminator. *)
Definition cstr_at (s : string) (i : Z) : option Z :=
  if 0 <=? i then (chars s ++ [0]) !! Z.to_nat i else None.

Definition nl : string := String (Ascii.ascii_of_nat 10) "".

Definition no_nul (s : string) : Prop := Forall (fun c => c <> 0) (chars s).

#[export] Instance no_nul_dec s : Decision (no_nul s).
Proof. unfold no_nul. apply _. Defined.

Section console.
Context {HW : Hardware}.

(** * src/io.c *)

Definition io_wait : prog kst unit := skip.

Definition outb (port val : Z) : prog kst unit := emit (EOut (w16 port) (w8 val)).

Definition inb (port : Z) : prog kst Z :=
  v ← gets (fun k => w8 (hw_in (trace k) (w16 port)));
  emit (EIn (w16 port) v);;
  mret v.

(** * src/uart.c, the functions that need no interrupt *)

Definition uart_is_init : prog kst Z := gets (fun k => if negb (uart_addr k =? 0) then TRUE else FALSE).

Definition uart_send (c : Z) : prog kst unit :=
  a ← gets uart_addr; outb a c.

Definition uart_putchar (c : Z) : prog kst unit := uart_send c.

Definition strlen (str : option string) : prog kst Z :=
  match str with
  | None => mret 0
  | Some s =>
      while32 (fun i =>
        c ← of_option (cstr_at s i);
        if negb (c =? 0) then mret (inl (s32 (i + 1))) else mret (inr i)) 0
  end.

Definition uart_putstr (msg : string) : prog kst unit :=
  size ← strlen (Some msg);
  while32 (fun i =>
    if i <? w32 size
    then c ← of_option (cstr_at msg i); uart_putchar c;; mret (inl (w32 (i + 1)))
    else mret (inr tt)) 0.

Definition uart_send_buffer (buffer : list Z) (size : Z) : prog kst unit :=
  while32 (fun i =>
    if i <? size
    then c ← of_option (buffer !! Z.to_nat i); uart_send c;; mret (inl (w32 (i + 1)))
    else mret (inr tt)) 0.

Definition uart_recv : prog kst Z :=
  a ← gets uart_addr;
  v ← inb (a + 2);
  let interr := Z.land v 0x0F in
  if interr =? 0x04 then inb a else mret 0.

(** * src/tools/kwrite/kwrite.c *)

Inductive kwrite_output := KWRITE_UART.

Definition kwrite (output : kwrite_output) (buf : list Z) (count : Z) : prog kst unit :=
  match output with
  | KWRITE_UART => uart_send_buffer buf count
  end.

(** * src/tools.c *)

Fixpoint my_put_nbr_f (fuel : nat) (nb : Z) : prog kst unit :=
  match fuel with
  | O => nofuel
  | S fuel =>
      when (nb <? 0) (uart_putchar 45);;
      let nb := if nb <? 0 then s32 (- nb) else nb in
      when (9 <? nb) (my_put_nbr_f fuel (Z.quot nb 10));;
      uart_putchar (w8 (Z.rem nb 10 + 48))
  end.

Definition my_put_nbr : Z -> prog kst unit := my_put_nbr_f 11.

(** * src/tools/string.c *)

(** The loops are written over the store and the load they use, which differ
    for the kernel's own data and for the heap. *)
Definition memset_on {K} (st : Z -> Z -> prog K unit) (ptr value size : Z) : prog K unit :=
  while32 (fun cursor =>
    if cursor <? size
    then st (w32 (ptr + cursor)) value;; mret (inl (w32 (cursor + 1)))
    else mret (inr tt)) 0.

Definition memset : Z -> Z -> Z -> prog kst unit := memset_on store8.

Definition memcpy_on {K} (ld : Z -> prog K Z) (st : Z -> Z -> prog K unit) (dest src n : Z) : prog K Z :=
  while32 (fun cursor =>
    if cursor <? n
    then c ← ld (w32 (src + cursor));
         st (w32 (dest + cursor)) c;;
         mret (inl (w32 (cursor + 1)))
    else mret (inr tt)) 0;;
  mret dest.

Definition memcpy : Z -> Z -> Z -> prog kst Z := memcpy_on load8 store8.

End console.

Lemma chars_range s c : In c (chars s) -> 0 <= c < 256.
Proof.
  unfold chars. rewrite in_map_iff. intros (a & <- & _).
  pose proof (Ascii.N_ascii_bounded a). lia.
Qed.

(** * Memory functions *)

(** A range of addresses that pointer arithmetic walks without wrapping or
    leaving its side of SYSTEM_ADDR_BASE. *)
Definition linear (p n : Z) : Prop :=
  0 <= p /\ 0 <= n /\ p + n <= 4294967296 /\ (SYSTEM_ADDR_BASE <= p \/ p + n <= SYSTEM_ADDR_BASE).

Lemma ka_linear p n i : linear p n -> 0 <= i < n -> ka (w32 (p + i)) = ka p + i.
Proof.
  unfold linear, ka, SYSTEM_ADDR_BASE. intros (?&?&?&?) ?. rewrite w32_small by lia.
  repeat case_match; lia.
Qed.

Lemma linear_sub p n i m : linear p n -> 0 <= i -> 0 <= m -> i + m <= n -> linear (p + i) m.
Proof. unfold linear. lia. Qed.

Lemma ka_add p n i : linear p n -> 0 <= i < n -> ka (p + i) = ka p + i.
Proof.
  unfold linear, ka, SYSTEM_ADDR_BASE. intros (?&?&?&?) ?. repeat case_match; lia.
Qed.

Section memory_functions.

(** [memset] writes [size] bytes and nothing else. *)
Lemma wp_memset ptr value size (Q : unit -> kst -> Prop) k :
  linear ptr size -> size < 4294967296 ->
  (forall m', (forall a, rd8 m' a =
       if decide (ka ptr <= a < ka ptr + size) then w8 value else rd8 (mem k) a) ->
     Q tt (set_mem (fun _ => m') k)) ->
  wp (memset ptr value size) Q k.
Proof.
  intros Hlin Hsz HQ. unfold memset, memset_on.
  pose (I := fun (i : Z) (k' : kst) => 0 <= i <= size /\ exists m', k' = set_mem (fun _ => m') k /\
    forall a, rd8 m' a = if decide (ka ptr <= a < ka ptr + i) then w8 value else rd8 (mem k) a).
  apply (wp_while I (fun i _ => size - i)).
  - split; [unfold linear in Hlin; lia|]. exists (mem k). split; [by destruct k|].
    intros a. by rewrite decide_False by lia.
  - lia.
  - unfold I. lia.
  - intros i k' [Hi (m' & -> & Hm')]. case_match eqn:Hlt; wp_go.
    + apply Z.ltb_lt in Hlt. rewrite (w32_small (i + 1)) by lia. split; [|lia].
      split; [lia|]. eexists. split; [done|]. intros a. cbn.
      rewrite (ka_linear _ _ _ Hlin) by lia. rewrite rd8_wr8, Hm'.
      repeat case_decide; try done; lia.
    + apply Z.ltb_ge in Hlt. replace size with i in HQ by lia. by apply HQ.
Qed.

(** [memcpy] copies forward: it is exact when the ranges are apart, or when
    the destination is below the source. *)
Lemma wp_memcpy dest src n (Q : Z -> kst -> Prop) k :
  linear dest n -> linear src n -> n < 4294967296 ->
  ka dest <= ka src \/ ka src + n <= ka dest ->
  (forall m', (forall a, rd8 m' a =
       if decide (ka dest <= a < ka dest + n) then rd8 (mem k) (a - ka dest + ka src)
       else rd8 (mem k) a) ->
     Q dest (set_mem (fun _ => m') k)) ->
  wp (memcpy dest src n) Q k.
Proof.
  intros Hd Hs Hn Hov HQ. unfold memcpy, memcpy_on. apply wp_bind.
  pose (I := fun (i : Z) (k' : kst) => 0 <= i <= n /\ exists m', k' = set_mem (fun _ => m') k /\
    forall a, rd8 m' a = if decide (ka dest <= a < ka dest + i)
      then rd8 (mem k) (a - ka dest + ka src) else rd8 (mem k) a).
  apply (wp_while I (fun i _ => n - i)).
  - split; [unfold linear in Hd; lia|]. exists (mem k). split; [by destruct k|].
    intros a. by rewrite decide_False by lia.
  - lia.
  - unfold I. lia.
  - intros i k' [Hi (m' & -> & Hm')]. case_match eqn:Hlt; wp_go.
    + apply Z.ltb_lt in Hlt. rewrite (w32_small (i + 1)) by lia. split; [|lia].
      split; [lia|]. eexists. split; [done|]. intros a. cbn.
      rewrite (ka_linear _ _ _ Hd), (ka_linear _ _ _ Hs) by lia. rewrite rd8_wr8, !Hm'.
      repeat case_decide; subst; try done; try lia.
      rewrite w8_small by apply rd8_range. f_equal. lia.
    + apply Z.ltb_ge in Hlt. replace n with i in HQ by lia. by apply HQ.
Qed.
End memory_functions.

(** * Walking a C string *)

(** A string a C program can hold: no NUL inside, and short enough for an [int]
    cursor. *)
Definition cstr_ok (s : string) : Prop := no_nul s /\ Z.of_nat (length (chars s)) < 2147483648.

#[export] Instance cstr_ok_dec s : Decision (cstr_ok s).
Proof. unfold cstr_ok. apply _. Defined.

(** [ok_const] discharges the side conditions on a literal string. *)
Ltac ok_const :=
  lazymatch goal with
  | |- cstr_ok _ => refine (bool_decide_unpack _ _); vm_compute; exact I
  | |- _ <= _ => vm_compute; discriminate
  end.

Lemma cstr_at_app s pre suf : chars s = pre ++ suf ->
  cstr_at s (Z.of_nat (length pre)) = (suf ++ [0]) !! 0%nat.
Proof.
  intros Hs. unfold cstr_at. rewrite (proj2 (Z.leb_le _ _)), Nat2Z.id, Hs, <- app_assoc by lia.
  rewrite lookup_app_r, Nat.sub_diag by lia. done.
Qed.

Lemma cstr_at_nil s pre : chars s = pre -> cstr_at s (Z.of_nat (length pre)) = Some 0.
Proof. intros Hs. rewrite <- (app_nil_r pre) in Hs. by rewrite (cstr_at_app _ _ _ Hs). Qed.

Lemma cstr_at_cons s pre c suf : chars s = pre ++ c :: suf ->
  cstr_at s (Z.of_nat (length pre)) = Some c.
Proof. intros Hs. by rewrite (cstr_at_app _ _ _ Hs). Qed.

Lemma cstr_ok_cons s pre c suf : cstr_ok s -> chars s = pre ++ c :: suf ->
  (c =? 0) = false /\ s32 (Z.of_nat (length pre) + 1) = Z.of_nat (length (pre ++ [c])) /\
  w32 (Z.of_nat (length pre) + 1) = Z.of_nat (length (pre ++ [c])).
Proof.
  intros [Hn Hl] Hs. rewrite Hs, !length_app in *. cbn in *. unfold no_nul in Hn. rewrite Hs in Hn.
  apply Forall_app in Hn as [_ Hn]. inversion Hn; subst. split; [by apply Z.eqb_neq|].
  split; [rewrite s32_small by (unfold INT_MIN; lia)|rewrite w32_small by lia]; lia.
Qed.

(** A loop that takes each character in turn and stops at the terminator. *)
Lemma while_chars_body s (body : Z -> prog kst (Z + unit)) (g : kst -> Z -> kst) k :
  cstr_ok s ->
  (forall i c k, cstr_at s i = Some c -> In c (chars s) -> (c =? 0) = false ->
     body i k = Ret (inl (s32 (i + 1))) (g k c)) ->
  (forall i k, cstr_at s i = Some 0 -> body i k = Ret (inr tt) k) ->
  while32 body 0 k = Ret tt (foldl g k (chars s)).
Proof.
  intros Hok Hf He. eapply (while32_loops _ (length (chars s))); [|destruct Hok; lia].
  enough (forall suf pre k, chars s = pre ++ suf ->
    loops body (length suf) (Z.of_nat (length pre)) k tt (foldl g k suf)) as H
    by exact (H (chars s) [] k eq_refl).
  clear k. induction suf as [|c suf IH]; intros pre k Hs.
  - apply loops_exit. rewrite app_nil_r in Hs. apply He, (cstr_at_nil _ _ Hs).
  - destruct (cstr_ok_cons _ _ _ _ Hok Hs) as (Hc & Hw & _).
    eapply loops_round; [|apply (IH (pre ++ [c])); by rewrite <- app_assoc].
    rewrite <- Hw. apply Hf; [by apply (cstr_at_cons _ _ _ _ Hs)| |done].
    rewrite Hs. apply in_app_iff. right. by left.
Qed.

Lemma while_chars s (f : Z -> prog kst unit) (g : kst -> Z -> kst) k :
  cstr_ok s -> (forall c k, In c (chars s) -> f c k = Ret tt (g k c)) ->
  while32 (fun cursor =>
    c ← of_option (cstr_at s cursor);
    if negb (c =? 0) then f c;; mret (inl (s32 (cursor + 1))) else mret (inr tt)) 0 k
  = Ret tt (foldl g k (chars s)).
Proof.
  intros Hok Hf. apply while_chars_body; [done| |]; unfold mbind, prog_bind.
  - intros i c k' -> Hin Hc. cbn. rewrite Hc. cbn. by rewrite Hf.
  - by intros i k' ->.
Qed.

(** A loop that only counts the characters. *)
Lemma while_strlen s k : cstr_ok s ->
  strlen (Some s) k = Ret (Z.of_nat (length (chars s))) k.
Proof.
  intros Hok. unfold strlen. eapply (while32_loops _ (length (chars s))); [|destruct Hok; lia].
  enough (forall suf pre, chars s = pre ++ suf ->
    loops (fun i : Z => c ← of_option (cstr_at s i);
      if negb (c =? 0) then mret (inl (s32 (i + 1))) else mret (inr i))
      (length suf) (Z.of_nat (length pre)) k (Z.of_nat (length (chars s))) k) as H by exact (H (chars s) [] eq_refl).
  induction suf as [|c suf IH]; intros pre Hs.
  - apply loops_exit. rewrite app_nil_r in Hs. unfold mbind, prog_bind.
    by rewrite (cstr_at_nil _ _ Hs), Hs.
  - destruct (cstr_ok_cons _ _ _ _ Hok Hs) as (Hc & Hw & _).
    eapply loops_round; [|apply (IH (pre ++ [c])); by rewrite <- app_assoc].
    unfold mbind, prog_bind. rewrite (cstr_at_cons _ _ _ _ Hs). cbn. rewrite Hc. cbn. by rewrite Hw.
Qed.

(** * Sending characters *)

(** The state after a byte went out on the UART. *)
Definition sent (k : kst) (c : Z) : kst :=
  logged [EOut (w16 (uart_addr k)) (w8 c)] k.

(** What a read of a port answers in a state. *)
Definition port_value {HW : Hardware} (k : kst) (port : Z) : Z := w8 (hw_in (trace k) (w16 port)).

Section sending.
Context {HW : Hardware}.

Lemma inb_eq port k : inb port k = Ret (port_value k port) (logged [EIn (w16 port) (port_value k port)] k).
Proof. done. Qed.

Lemma outb_eq port v k : outb port v k = Ret tt (logged [EOut (w16 port) (w8 v)] k).
Proof. done. Qed.

Lemma port_value_range k port : 0 <= port_value k port < 256.
Proof. apply w8_range. Qed.

Lemma uart_send_eq c k : uart_send c k = Ret tt (sent k c).
Proof. done. Qed.

Lemma uart_putchar_eq c k : uart_putchar c k = Ret tt (sent k c).
Proof. done. Qed.

Lemma uart_putstr_eq s k : cstr_ok s -> uart_putstr s k = Ret tt (foldl sent k (chars s)).
Proof.
  intros Hok. unfold uart_putstr. rewrite (bind_ret_eq _ _ _ _ _ (while_strlen s k Hok)).
  pose proof Hok as [_ Hlen]. set (n := Z.of_nat (length (chars s))) in *.
  eapply (while32_loops _ (length (chars s))); [|lia].
  enough (forall suf pre k, chars s = pre ++ suf ->
    loops (fun i : Z => if i <? w32 n
      then c ← of_option (cstr_at s i); uart_putchar c;; mret (inl (w32 (i + 1)))
      else mret (inr tt)) (length suf) (Z.of_nat (length pre)) k tt (foldl sent k suf))
    as H by exact (H (chars s) [] _ eq_refl).
  clear k. induction suf as [|c suf IH]; intros pre k Hs.
  - apply loops_exit. rewrite app_nil_r in Hs. rewrite w32_small by lia. subst n.
    by rewrite Hs, Z.ltb_irrefl.
  - destruct (cstr_ok_cons _ _ _ _ Hok Hs) as (Hc & _ & Hw).
    eapply loops_round; [|apply (IH (pre ++ [c])); by rewrite <- app_assoc].
    rewrite w32_small by lia. rewrite (proj2 (Z.ltb_lt _ _)).
    + unfold mbind, prog_bind. rewrite (cstr_at_cons _ _ _ _ Hs). cbn. by rewrite Hw.
    + subst n. rewrite Hs, length_app. cbn. lia.
Qed.

Lemma kwrite_byte c k : kwrite KWRITE_UART [c] 1 k = Ret tt (sent k c).
Proof.
  unfold kwrite, uart_send_buffer. eapply (while32_loops _ 1); [|lia].
  eapply loops_round; [done|]. by apply loops_exit.
Qed.

Lemma sent_mem k c : mem (sent k c) = mem k.
Proof. done. Qed.

Lemma foldl_sent_trace k bs :
  foldl sent k bs = logged ((fun c => EOut (w16 (uart_addr k)) (w8 c)) <$> bs) k.
Proof.
  revert k. induction bs as [|c bs IH]; intros k; cbn.
  - by rewrite logged_nil.
  - rewrite IH. unfold sent. by rewrite logged_logged.
Qed.
End sending.
