(* ===== verification/Kprintf.v ===== *)
(** kprintf (src/tools/kprintf): the formatted output the kernel reports with. *)
From S2P Require Import Prelude Memory State Console.
Local Open Scope Z_scope.
Local Open Scope kern_scope.

(** A variadic argument: an integer of 32 bits or a [char *]. *)
Inductive arg := AInt (v : Z) | AStr (s : option string).

(** * kprintf_tools.c *)

Definition nbr_disp_bytes : prog kst Z :=
  modify (fun k => set_disp_count (s32 (disp_count k + 1)) k);;
  gets disp_count.

Definition kprintf_putchar (c : Z) : prog kst unit :=
  kwrite KWRITE_UART [w8 c] 1;;
  nbr_disp_bytes;;
  mret tt.

Definition my_putstr (str : option string) : prog kst Z :=
  match str with
  | None => mret 1
  | Some s =>
      while32 (fun cursor =>
        c ← of_option (cstr_at s cursor);
        if negb (c =? 0)
        then kprintf_putchar c;; mret (inl (s32 (cursor + 1)))
        else mret (inr tt)) 0;;
      mret 0
  end.

Definition my_strlen (str : string) : prog kst Z :=
  while32 (fun cursor =>
    c ← of_option (cstr_at str cursor);
    if negb (c =? 0) then mret (inl (s32 (cursor + 1))) else mret (inr cursor)) 0.

(** * put_nbr_base.c *)

Fixpoint my_put_nbr_base_f (fuel : nat) (num : Z) (base : string) : prog kst Z :=
  match fuel with
  | O => nofuel
  | S fuel =>
      len ← my_strlen base;
      (if num <? 0
       then kprintf_putchar 45;; my_put_nbr_base_f fuel (s32 (- num)) base;; skip
       else if len =? 0 then undef else
         let remainder := Z.rem num len in
         let start := Z.quot (num - remainder) len in
         when (negb (start =? 0)) (my_put_nbr_base_f fuel start base;; skip);;
         c ← of_option (cstr_at base remainder);
         kprintf_putchar c);;
      mret 0
  end.

Definition my_put_nbr_base : Z -> string -> prog kst Z := my_put_nbr_base_f 34.

Fixpoint my_put_ulong_base_f (fuel : nat) (num : Z) (base : string) : prog kst Z :=
  match fuel with
  | O => nofuel
  | S fuel =>
      if num =? 0 then mret 0
      else
        len_base ← my_strlen base;
        if len_base =? 0 then undef else
          my_put_ulong_base_f fuel (num / len_base) base;;
          c ← of_option (cstr_at base (num mod len_base));
          kprintf_putchar c;;
          mret 0
  end.

Definition my_put_ulong_base : Z -> string -> prog kst Z := my_put_ulong_base_f 33.

(** my_put_uint_base has the same body at type [unsigned int], which has the
    width of [unsigned long] on i386. *)
Fixpoint my_put_uint_base_f (fuel : nat) (num : Z) (base : string) : prog kst Z :=
  match fuel with
  | O => nofuel
  | S fuel =>
      if num =? 0 then mret 0
      else
        len_base ← my_strlen base;
        if len_base =? 0 then undef else
          my_put_uint_base_f fuel (num / len_base) base;;
          c ← of_option (cstr_at base (num mod len_base));
          kprintf_putchar c;;
          mret 0
  end.

Definition my_put_uint_base : Z -> string -> prog kst Z := my_put_uint_base_f 33.

(** A character is signed: one above 127 is below 8 here. *)
Definition my_full_putstr (str : option string) : prog kst Z :=
  match str with
  | None => undef
  | Some s =>
      while32 (fun cursor =>
        b ← of_option (cstr_at s cursor);
        let c := s8 b in
        if negb (c =? 0)
        then
          (if (c <? 32) || (127 <=? c)
           then
             kprintf_putchar 92;;
             (if (c <? 32) && (8 <=? c) then my_putstr (Some "0");; skip
              else when (c <? 8) (my_putstr (Some "00");; skip));;
             my_put_nbr_base c "01234567";; skip
           else kprintf_putchar c);;
          mret (inl (s32 (cursor + 1)))
        else mret (inr tt)) 0;;
      mret 0
  end.

(** * kprintf.c *)

Definition display_uint (uint : Z) : prog kst unit :=
  if uint =? 0 then kprintf_putchar 48
  else my_put_uint_base uint "0123456789";; skip.

Definition display_pointer (ulong : Z) : prog kst unit :=
  if negb (ulong =? 0)
  then my_putstr (Some "0x");; my_put_ulong_base ulong "0123456789abcdef";; skip
  else my_putstr (Some "(nil)");; skip.

Definition display_invalid_flag (flag : Z) : prog kst unit :=
  kprintf_putchar 37;; kprintf_putchar flag.

Definition format_bytes_size_value (value : Z) (unit_name : string) (unit_size : Z) (base : string)
    : prog kst unit :=
  display_uint (value / unit_size);;
  when (negb (unit_size =? 1))
    (let decimal := w32 ((value mod unit_size) * 1000) / unit_size in
     when (0 <? decimal)
       (kprintf_putchar 46;;
        display_uint (w32 ((value mod unit_size) * 1000) / unit_size)));;
  my_putstr (Some unit_name);;
  skip.

Definition format_bytes_size (uint : Z) : prog kst unit :=
  let kb := 1024 in
  if uint <? kb then format_bytes_size_value uint "B" 1 "0123456789"
  else if uint <? kb * kb then format_bytes_size_value uint "Kb" kb "0123456789"
  else if uint <? kb * kb * kb then format_bytes_size_value uint "Mb" (kb * kb) "0123456789"
  else format_bytes_size_value uint "Gb" (kb * kb * kb) "0123456789".

(** [va_arg]: an argument that is missing or of the other kind is undefined
    behaviour. *)
Definition va_int (ap : list arg) : prog kst (Z * list arg) :=
  match ap with AInt v :: ap' => mret (v, ap') | _ => undef end.
Definition va_str (ap : list arg) : prog kst (option string * list arg) :=
  match ap with AStr s :: ap' => mret (s, ap') | _ => undef end.

(** The flag characters: '%' 37, 's' 115, 'd' 100, 'i' 105, 'c' 99, 'o' 111,
    'u' 117, 'x' 120, 'X' 88, 'p' 112, 'b' 98, 'B' 66, 'S' 83. *)
Definition display_var (ap : list arg) (str_format : string) (cursor : Z) : prog kst (list arg * Z) :=
  let cursor := s32 (cursor + 1) in
  c ← of_option (cstr_at str_format cursor);
  ap' ←
    (if c =? 37 then kprintf_putchar 37;; mret ap
     else if c =? 115 then va ← va_str ap; my_putstr va.1;; mret va.2
     else if (c =? 100) || (c =? 105) then
       va ← va_int ap; my_put_nbr_base (s32 va.1) "0123456789";; mret va.2
     else if c =? 99 then va ← va_int ap; kprintf_putchar (s8 va.1);; mret va.2
     else if c =? 111 then va ← va_int ap; my_put_uint_base (w32 va.1) "01234567";; mret va.2
     else if c =? 117 then va ← va_int ap; display_uint (w32 va.1);; mret va.2
     else if c =? 120 then
       va ← va_int ap; my_put_uint_base (w32 va.1) "0123456789abcdef";; mret va.2
     else if c =? 88 then
       va ← va_int ap; my_put_uint_base (w32 va.1) "0123456789ABCDEF";; mret va.2
     else if c =? 112 then va ← va_int ap; display_pointer (w32 va.1);; mret va.2
     else if c =? 98 then va ← va_int ap; my_put_nbr_base (s32 va.1) "01";; mret va.2
     else if c =? 66 then va ← va_int ap; format_bytes_size (w32 va.1);; mret va.2
     else if c =? 83 then va ← va_str ap; my_full_putstr va.1;; mret va.2
     else display_invalid_flag c;; mret ap);
  mret (ap', cursor).

(** One round of kprintf's loop, on the remaining arguments and the cursor. *)
Definition kprintf_round (str_format : string) (x : list arg * Z)
    : prog kst (list arg * Z + unit) :=
  let '(ap, cursor) := x in
  c ← of_option (cstr_at str_format cursor);
  if negb (c =? 0)
  then
    (if c =? 37
     then r ← display_var ap str_format cursor; mret (inl (r.1, s32 (r.2 + 1)))
     else kprintf_putchar c;; mret (inl (ap, s32 (cursor + 1))))
  else mret (inr tt).

Definition kprintf (str_format : string) (ap : list arg) : prog kst Z :=
  while32 (kprintf_round str_format) (ap, 0);;
  n ← nbr_disp_bytes;
  mret (s32 (n - 1)).

(** * The reference rendering

    What kprintf is meant to print, as a function from the format and the
    arguments to bytes; [None] where the call has no defined result. *)

(** The digits of [n] in base [b], most significant first; none for 0. *)
Fixpoint udigits (fuel : nat) (b n : Z) : list Z :=
  match fuel with
  | O => []
  | S fuel => if n =? 0 then [] else udigits fuel b (n / b) ++ [n mod b]
  end.

Definition base_len (base : string) : Z := Z.of_nat (length (chars base)).
Definition digit_char (base : string) (d : Z) : Z := default 0 (chars base !! Z.to_nat d).

Definition show_uint (base : string) (n : Z) : list Z := digit_char base <$> udigits 33 (base_len base) n.

Definition show_nat (base : string) (n : Z) : list Z :=
  if n =? 0 then [digit_char base 0] else show_uint base n.

Definition show_nbr (base : string) (n : Z) : list Z :=
  if n <? 0 then 45 :: show_nat base (- n) else show_nat base n.

Definition show_ptr (n : Z) : list Z :=
  if n =? 0 then chars "(nil)" else chars "0x" ++ show_uint "0123456789abcdef" n.

Definition show_size_unit (value : Z) (unit_name : string) (unit_size : Z) : list Z :=
  let decimal := w32 ((value mod unit_size) * 1000) / unit_size in
  show_nat "0123456789" (value / unit_size) ++
  (if (unit_size =? 1) || (decimal =? 0) then [] else 46 :: show_nat "0123456789" decimal) ++
  chars unit_name.

Definition show_size (n : Z) : list Z :=
  if n <? 1024 then show_size_unit n "B" 1
  else if n <? 1048576 then show_size_unit n "Kb" 1024
  else if n <? 1073741824 then show_size_unit n "Mb" 1048576
  else show_size_unit n "Gb" 1073741824.

Definition show_escaped_char (b : Z) : list Z :=
  let c := s8 b in
  if (c <? 32) || (127 <=? c)
  then 92 :: (if c <? 8 then chars "00" else if c <? 32 then chars "0" else []) ++ show_nbr "01234567" c
  else [b].

Definition ok_str (s : option string) : bool :=
  match s with Some s => bool_decide (cstr_ok s) | None => true end.
Definition show_str (s : option string) : list Z :=
  match s with Some s => chars s | None => [] end.

Definition directive (c : Z) (ap : list arg) : option (list Z * list arg) :=
  if c =? 37 then Some ([37], ap)
  else if c =? 115 then
    match ap with AStr s :: ap' => if ok_str s then Some (show_str s, ap') else None | _ => None end
  else if (c =? 100) || (c =? 105) then
    match ap with
    | AInt v :: ap' => if s32 v =? INT_MIN then None else Some (show_nbr "0123456789" (s32 v), ap')
    | _ => None end
  else if c =? 99 then
    match ap with AInt v :: ap' => Some ([s8 v], ap') | _ => None end
  else if c =? 111 then
    match ap with AInt v :: ap' => Some (show_uint "01234567" (w32 v), ap') | _ => None end
  else if c =? 117 then
    match ap with AInt v :: ap' => Some (show_nat "0123456789" (w32 v), ap') | _ => None end
  else if c =? 120 then
    match ap with AInt v :: ap' => Some (show_uint "0123456789abcdef" (w32 v), ap') | _ => None end
  else if c =? 88 then
    match ap with AInt v :: ap' => Some (show_uint "0123456789ABCDEF" (w32 v), ap') | _ => None end
  else if c =? 112 then
    match ap with AInt v :: ap' => Some (show_ptr (w32 v), ap') | _ => None end
  else if c =? 98 then
    match ap with
    | AInt v :: ap' => if s32 v =? INT_MIN then None else Some (show_nbr "01" (s32 v), ap')
    | _ => None end
  else if c =? 66 then
    match ap with AInt v :: ap' => Some (show_size (w32 v), ap') | _ => None end
  else if c =? 83 then
    match ap with
    | AStr (Some s) :: ap' =>
        if bool_decide (cstr_ok s) then Some (mbind show_escaped_char (chars s), ap') else None
    | _ => None end
  else Some ([37; c], ap).

Fixpoint render (cs : list Z) (ap : list arg) : option (list Z) :=
  match cs with
  | [] => Some []
  | c :: cs' =>
      if c =? 37 then
        match cs' with
        | [] => None
        | d :: cs'' =>
            match directive d ap with
            | Some (out, ap') => out' ← render cs'' ap'; Some (out ++ out')
            | None => None
            end
        end
      else out ← render cs' ap; Some (c :: out)
  end.

(** The state after kprintf put [bs]. *)
Definition putb (k : kst) (c : Z) : kst :=
  set_disp_count (s32 (disp_count k + 1)) (sent k (w8 c)).
Definition puts (k : kst) (bs : list Z) : kst := foldl putb k bs.

#[global] Arguments my_putstr : simpl never.
#[global] Arguments my_put_nbr_base : simpl never.
#[global] Arguments my_put_uint_base : simpl never.
#[global] Arguments my_put_ulong_base : simpl never.
#[global] Arguments show_uint : simpl never.

(** * Proofs *)

Lemma puts_app k bs cs : puts k (bs ++ cs) = puts (puts k bs) cs.
Proof. apply foldl_app. Qed.

Lemma puts_cons k b bs : puts k (b :: bs) = puts (putb k b) bs.
Proof. done. Qed.

Lemma kprintf_putchar_eq c k : kprintf_putchar c k = Ret tt (putb k c).
Proof. unfold kprintf_putchar. by rewrite (bind_ret_eq _ _ _ _ _ (kwrite_byte _ _)). Qed.

Lemma my_putstr_eq s k : cstr_ok s -> my_putstr (Some s) k = Ret 0 (puts k (chars s)).
Proof.
  intros Hok. unfold my_putstr.
  by rewrite (bind_ret_eq _ _ _ _ _
    (while_chars s kprintf_putchar putb k Hok (fun c k _ => kprintf_putchar_eq c k))).
Qed.

Lemma my_strlen_eq s k : cstr_ok s -> my_strlen s k = Ret (base_len s) k.
Proof. intros Hok. unfold my_strlen, base_len. by rewrite <- (while_strlen s k Hok). Qed.

Lemma cstr_at_digit base d : 0 <= d < base_len base -> cstr_at base d = Some (digit_char base d).
Proof.
  unfold base_len, cstr_at, digit_char. intros Hd. rewrite (proj2 (Z.leb_le _ _)) by lia.
  rewrite lookup_app_l by lia. destruct (lookup_lt_is_Some_2 (chars base) (Z.to_nat d)) as [c ->];
    [lia|done].
Qed.

(** [prog_run] steps through binds whose first part has a known result. *)
Ltac prog_run := repeat first
  [ erewrite bind_ret_eq; [|reflexivity] | progress cbn [fst snd] ].

Lemma div_bound b n f : 2 <= b -> 0 <= n < 2 ^ Z.of_nat (S f) -> 0 <= n / b < 2 ^ Z.of_nat f.
Proof.
  intros Hb. rewrite Nat2Z.inj_succ, Z.pow_succ_r by lia. intros Hn.
  split; [apply Z.div_pos; lia|]. apply Z.div_lt_upper_bound; [lia|]. nia.
Qed.

Lemma my_put_uint_base_f_eq base f : cstr_ok base -> 2 <= base_len base ->
  forall n k, 0 <= n < 2 ^ Z.of_nat f ->
  my_put_uint_base_f (S f) n base k = Ret 0 (puts k (digit_char base <$> udigits (S f) (base_len base) n)).
Proof.
  intros Hok Hb. induction f as [|f IH]; intros n k Hn.
  - change (2 ^ Z.of_nat 0) with 1 in Hn. by replace n with 0 by lia.
  - remember (S f) as f1. cbn [my_put_uint_base_f udigits].
    destruct (Z.eqb_spec n 0) as [->|Hn0]; [done|].
    rewrite (bind_ret_eq _ _ _ _ _ (my_strlen_eq base k Hok)).
    destruct (Z.eqb_spec (base_len base) 0); [lia|]. subst f1.
    rewrite (bind_ret_eq _ _ _ _ _ (IH (n / base_len base) k (div_bound _ _ _ Hb Hn))).
    rewrite cstr_at_digit by (apply Z.mod_pos_bound; lia).
    cbn [of_option]. erewrite bind_ret_eq by done.
    rewrite (bind_ret_eq _ _ _ _ _ (kprintf_putchar_eq _ _)).
    rewrite fmap_app, puts_app. done.
Qed.

Lemma my_put_uint_base_eq base n k : cstr_ok base -> 2 <= base_len base ->
  0 <= n < 4294967296 -> my_put_uint_base n base k = Ret 0 (puts k (show_uint base n)).
Proof. intros. by apply (my_put_uint_base_f_eq base 32). Qed.

(** The two unsigned printers are the same function. *)
Lemma my_put_ulong_base_is_uint f : forall n base k,
  my_put_ulong_base_f f n base k = my_put_uint_base_f f n base k.
Proof.
  induction f as [|f IH]; intros n base k; [done|]. cbn [my_put_ulong_base_f my_put_uint_base_f].
  case_match; [done|]. unfold mbind, prog_bind.
  destruct (my_strlen base k); [|done..]. case_match; [done|]. by rewrite IH.
Qed.

Lemma my_put_nbr_base_f_pos base f : cstr_ok base -> 2 <= base_len base ->
  forall n k, 0 <= n < 2 ^ Z.of_nat f ->
  my_put_nbr_base_f (S f) n base k =
    Ret 0 (puts k (if n =? 0 then [digit_char base 0]
                   else digit_char base <$> udigits (S f) (base_len base) n)).
Proof.
  intros Hok Hb. induction f as [|f IH]; intros n k Hn.
  - change (2 ^ Z.of_nat 0) with 1 in Hn. replace n with 0 by lia. cbn [my_put_nbr_base_f].
    rewrite (bind_ret_eq _ _ _ _ _ (my_strlen_eq base k Hok)). cbn [Z.ltb Z.compare].
    destruct (Z.eqb_spec (base_len base) 0); [lia|].
    rewrite Z.rem_0_l, Z.sub_0_r, Z.quot_0_l by lia. cbn [Z.eqb negb when].
    rewrite cstr_at_digit by lia. cbn [of_option].
    unfold mbind, prog_bind, skip, mret, prog_ret. by rewrite kprintf_putchar_eq.
  - remember (S f) as f1. cbn [my_put_nbr_base_f udigits].
    rewrite (bind_ret_eq _ _ _ _ _ (my_strlen_eq base k Hok)).
    destruct (Z.ltb_spec n 0); [lia|]. destruct (Z.eqb_spec (base_len base) 0); [lia|].
    rewrite Z.rem_mod_nonneg by lia. set (len := base_len base) in *.
    replace (Z.quot (n - n mod len) len) with (n / len).
    2:{ rewrite Z.quot_div_nonneg by (pose proof (Z.mod_le n len); lia).
        rewrite (Z.div_mod n len) at 2 by lia.
        replace (len * (n / len) + n mod len - n mod len) with ((n / len) * len) by ring.
        by rewrite Z.div_mul by lia. }
    assert (Hd : cstr_at base (n mod len) = Some (digit_char base (n mod len)))
      by (apply cstr_at_digit, Z.mod_pos_bound; lia).
    rewrite Hd. cbn [of_option]. subst f1.
    pose proof (div_bound _ _ _ Hb Hn) as Hq. fold len in Hq.
    unfold mbind, prog_bind, skip, mret, prog_ret, when.
    destruct (Z.eqb_spec (n / len) 0) as [Hz|Hz]; cbn [negb].
    + unfold skip, mret, prog_ret. rewrite kprintf_putchar_eq.
      destruct (Z.eqb_spec n 0) as [->|]; [by rewrite Z.mod_0_l by lia|].
      by rewrite Hz.
    + rewrite IH by done. destruct (Z.eqb_spec (n / len) 0); [done|].
      rewrite kprintf_putchar_eq. destruct (Z.eqb_spec n 0) as [->|]; [by rewrite Z.div_0_l in Hz by lia|].
      by rewrite fmap_app, puts_app.
Qed.

Lemma udigits_fuel b f f' n : 2 <= b -> (f <= f')%nat -> 0 <= n < 2 ^ Z.of_nat f ->
  udigits (S f) b n = udigits (S f') b n.
Proof.
  intros Hb. revert f' n. induction f as [|f IH]; intros f' n Hf Hn.
  - change (2 ^ Z.of_nat 0) with 1 in Hn. by replace n with 0 by lia.
  - destruct f' as [|f']; [lia|]. remember (S f) as g. remember (S f') as g'. cbn.
    destruct (Z.eqb_spec n 0); [done|]. subst. f_equal. apply IH; [lia|]. by apply div_bound.
Qed.

Lemma my_put_nbr_base_f_neg base f n k : cstr_ok base -> 2 <= base_len base ->
  INT_MIN < n < 0 -> - n < 2 ^ Z.of_nat f ->
  my_put_nbr_base_f (S (S f)) n base k =
    Ret 0 (puts k (45 :: (digit_char base <$> udigits (S f) (base_len base) (- n)))).
Proof.
  intros Hok Hb Hn Hf. unfold INT_MIN in Hn. remember (S f) as g. cbn [my_put_nbr_base_f]. subst g.
  rewrite (bind_ret_eq _ _ _ _ _ (my_strlen_eq base k Hok)).
  destruct (Z.ltb_spec n 0); [|lia]. rewrite s32_small by (unfold INT_MIN; lia).
  unfold mbind, prog_bind, skip, mret, prog_ret. rewrite kprintf_putchar_eq.
  rewrite (my_put_nbr_base_f_pos base f) by (try done; lia).
  destruct (Z.eqb_spec (- n) 0); [lia|done].
Qed.

(** Signed numbers print for every [int] but the smallest. *)
Lemma my_put_nbr_base_eq base n k : cstr_ok base -> 2 <= base_len base ->
  INT_MIN < n < 2147483648 -> my_put_nbr_base n base k = Ret 0 (puts k (show_nbr base n)).
Proof.
  intros Hok Hb Hn. unfold my_put_nbr_base, show_nbr, show_nat, show_uint.
  destruct (Z.ltb_spec n 0).
  - rewrite (my_put_nbr_base_f_neg base 32) by (try done; unfold INT_MIN in *; lia).
    destruct (Z.eqb_spec (- n) 0); [lia|done].
  - rewrite (my_put_nbr_base_f_pos base 33) by (try done; lia).
    rewrite (udigits_fuel _ 32 33) by (try lia). by case_match.
Qed.

(** The smallest [int] never finishes: its opposite is itself. *)
Lemma my_put_nbr_base_f_min fuel base k : cstr_ok base ->
  my_put_nbr_base_f fuel INT_MIN base k = NoFuel.
Proof.
  intros Hok. revert k. induction fuel as [|fuel IH]; intros k; [done|]. cbn [my_put_nbr_base_f].
  rewrite (bind_ret_eq _ _ _ _ _ (my_strlen_eq base k Hok)).
  change (INT_MIN <? 0) with true. change (s32 (- INT_MIN)) with INT_MIN.
  unfold mbind, prog_bind. rewrite kprintf_putchar_eq. by rewrite IH.
Qed.

Lemma display_uint_eq n k : 0 <= n < 4294967296 ->
  display_uint n k = Ret tt (puts k (show_nat "0123456789" n)).
Proof.
  intros Hn. unfold display_uint, show_nat. case_match.
  - by rewrite kprintf_putchar_eq.
  - erewrite bind_ret_eq; [|apply my_put_uint_base_eq; [ok_const..|done]]. done.
Qed.

Lemma display_pointer_eq n k : 0 <= n < 4294967296 ->
  display_pointer n k = Ret tt (puts k (show_ptr n)).
Proof.
  intros Hn. unfold display_pointer, show_ptr. destruct (n =? 0); cbn [negb].
  - erewrite bind_ret_eq; [|apply my_putstr_eq; ok_const]. done.
  - erewrite bind_ret_eq; [|apply my_putstr_eq; ok_const].
    erewrite bind_ret_eq; [|unfold my_put_ulong_base; rewrite my_put_ulong_base_is_uint;
      apply my_put_uint_base_eq; [ok_const..|done]].
    by rewrite puts_app.
Qed.

Lemma format_bytes_size_value_eq value name unit base k : cstr_ok name ->
  0 <= value < 4294967296 -> 1 <= unit ->
  format_bytes_size_value value name unit base k = Ret tt (puts k (show_size_unit value name unit)).
Proof.
  intros Hok Hv Hu. unfold format_bytes_size_value, show_size_unit.
  set (d := w32 (value mod unit * 1000) / unit).
  assert (Hd : 0 <= d < 4294967296).
  { subst d. pose proof (w32_range (value mod unit * 1000)).
    split; [apply Z.div_pos; lia|]. apply Z.div_lt_upper_bound; nia. }
  assert (Hq : 0 <= value / unit < 4294967296).
  { split; [apply Z.div_pos; lia|]. apply Z.div_lt_upper_bound; nia. }
  rewrite (bind_ret_eq _ _ _ _ _ (display_uint_eq _ _ Hq)), !puts_app.
  destruct (Z.eqb_spec unit 1); cbn [negb when orb].
  - erewrite bind_ret_eq; [|done]. erewrite bind_ret_eq; [|by apply my_putstr_eq]. done.
  - destruct (Z.eqb_spec d 0) as [Hz|Hz]; destruct (Z.ltb_spec 0 d); try lia; cbn [when].
    + erewrite bind_ret_eq; [|done]. erewrite bind_ret_eq; [|by apply my_putstr_eq]. done.
    + rewrite puts_cons. erewrite bind_ret_eq.
      2:{ rewrite (bind_ret_eq _ _ _ _ _ (kprintf_putchar_eq _ _)). by apply display_uint_eq. }
      erewrite bind_ret_eq; [|by apply my_putstr_eq]. done.
Qed.

Lemma format_bytes_size_eq n k : 0 <= n < 4294967296 ->
  format_bytes_size n k = Ret tt (puts k (show_size n)).
Proof.
  intros Hn. unfold format_bytes_size, show_size.
  change (1024 * 1024) with 1048576. change (1048576 * 1024) with 1073741824.
  repeat case_match; apply format_bytes_size_value_eq; try ok_const; lia.
Qed.

(** A character as [my_full_putstr] shows it. *)
Definition full_char (b : Z) : prog kst unit :=
  let c := s8 b in
  if (c <? 32) || (127 <=? c)
  then
    kprintf_putchar 92;;
    (if (c <? 32) && (8 <=? c) then my_putstr (Some "0");; skip
     else when (c <? 8) (my_putstr (Some "00");; skip));;
    my_put_nbr_base c "01234567";; skip
  else kprintf_putchar c.

Lemma s8_eqb0 b : 0 <= b < 256 -> (s8 b =? 0) = (b =? 0).
Proof. intros. destruct (Z.eqb_spec (s8 b) 0), (Z.eqb_spec b 0); try done; word_lia. Qed.

Lemma full_char_eq b k : 0 <= b < 256 -> full_char b k = Ret tt (puts k (show_escaped_char b)).
Proof.
  intros Hb. unfold full_char, show_escaped_char. set (c := s8 b).
  assert (Hc : -128 <= c < 128) by (subst c; word_lia).
  destruct ((c <? 32) || (127 <=? c)) eqn:E.
  - rewrite (bind_ret_eq _ _ _ _ _ (kprintf_putchar_eq _ _)), puts_cons, puts_app.
    assert (Hn : forall k, my_put_nbr_base c "01234567" k = Ret 0 (puts k (show_nbr "01234567" c)))
      by (intros; apply my_put_nbr_base_eq; [ok_const..|unfold INT_MIN; lia]).
    destruct (Z.ltb_spec c 8); [|destruct (Z.ltb_spec c 32)].
    + destruct (Z.leb_spec 8 c); [lia|]. rewrite andb_false_r. cbn [when].
      erewrite bind_ret_eq; [|erewrite bind_ret_eq; [|apply my_putstr_eq; ok_const]; done].
      by rewrite (bind_ret_eq _ _ _ _ _ (Hn _)).
    + destruct (Z.leb_spec 8 c); [|lia]. cbn [andb].
      erewrite bind_ret_eq; [|erewrite bind_ret_eq; [|apply my_putstr_eq; ok_const]; done].
      by rewrite (bind_ret_eq _ _ _ _ _ (Hn _)).
    + cbn [andb when].
      erewrite bind_ret_eq; [|done]. by rewrite (bind_ret_eq _ _ _ _ _ (Hn _)).
  - rewrite kprintf_putchar_eq. assert (c = b) as -> by (subst c; word_lia). done.
Qed.

Lemma puts_flat (f : Z -> list Z) k (bs : list Z) :
  puts k (bs ≫= f) = foldl (fun k b => puts k (f b)) k bs.
Proof.
  revert k. induction bs as [|b bs IH]; intros k; [done|]. by rewrite bind_cons, puts_app, IH.
Qed.

Lemma my_full_putstr_eq s k : cstr_ok s ->
  my_full_putstr (Some s) k = Ret 0 (puts k (chars s ≫= show_escaped_char)).
Proof.
  intros Hok. unfold my_full_putstr. rewrite puts_flat. erewrite bind_ret_eq; [done|].
  apply (while_chars_body s _ (fun k b => puts k (show_escaped_char b))); [exact Hok| |].
  - intros i c k' Hi Hin Hc. apply chars_range in Hin. rewrite Hi. cbn [of_option].
    erewrite bind_ret_eq by done. rewrite s8_eqb0, Hc by done. cbn [negb].
    by rewrite (bind_ret_eq _ _ _ _ _ (full_char_eq c k' Hin)).
  - intros i k' ->. done.
Qed.

Lemma my_putstr_ok s k : ok_str s = true -> exists r, my_putstr s k = Ret r (puts k (show_str s)).
Proof.
  destruct s as [s|]; [|by exists 1]. intros Hok%bool_decide_eq_true_1.
  exists 0. by apply my_putstr_eq.
Qed.

Lemma va_int_eq v ap k : va_int (AInt v :: ap) k = Ret (v, ap) k.
Proof. done. Qed.
Lemma va_str_eq s ap k : va_str (AStr s :: ap) k = Ret (s, ap) k.
Proof. done. Qed.

Lemma s32_printable v : (s32 v =? INT_MIN) = false -> INT_MIN < s32 v < 2147483648.
Proof. intros H%Z.eqb_neq. pose proof (s32_range v). lia. Qed.

(** The steps a directive is made of, for [eauto]. *)
Create HintDb kprintf discriminated.
#[export] Hint Constants Opaque : kprintf.
#[export] Hint Resolve kprintf_putchar_eq my_put_nbr_base_eq my_put_uint_base_eq display_uint_eq
  display_pointer_eq format_bytes_size_eq my_full_putstr_eq va_int_eq va_str_eq s32_printable w32_range : kprintf.
#[export] Hint Extern 1 (cstr_ok (String _ _)) => ok_const : kprintf.
#[export] Hint Extern 1 (_ <= base_len (String _ _)) => ok_const : kprintf.

(** One directive: the code's chain of tests does what [directive] says. *)
Lemma display_var_eq fmt pre c suf ap out ap' k :
  cstr_ok fmt -> chars fmt = pre ++ 37 :: c :: suf -> directive c ap = Some (out, ap') ->
  display_var ap fmt (Z.of_nat (length pre)) k =
    Ret (ap', Z.of_nat (length (pre ++ [37]))) (puts k out).
Proof.
  intros Hok Hs Hd. unfold display_var.
  destruct (cstr_ok_cons _ _ _ _ Hok Hs) as (_ & -> & _).
  rewrite (cstr_at_cons fmt (pre ++ [37]) c suf) by (by rewrite <- app_assoc).
  cbn [of_option]. erewrite bind_ret_eq by done.
  erewrite bind_ret_eq; [done|]. unfold directive in Hd.
  repeat case_match; try discriminate; simplify_eq;
    repeat prog_step ltac:(eauto with kprintf);
    try (match goal with |- mret _ _ = _ => reflexivity end).
  - edestruct my_putstr_ok as [r Hr]; [eassumption|]. by rewrite (bind_ret_eq _ _ _ _ _ Hr).
  - match goal with H : bool_decide _ = true |- _ => apply bool_decide_eq_true_1 in H end.
    prog_step ltac:(eauto with kprintf). reflexivity.
Qed.

(** The result of kprintf: the bytes put so far on the console, since boot and
    over every earlier call, and not those of this call. *)
Definition kprintf_result (k : kst) (bs : list Z) : outcome kst Z :=
  let k' := puts k bs in
  let n := s32 (disp_count k' + 1) in
  Ret (s32 (n - 1)) (set_disp_count n k').

Lemma kprintf_loop fmt : cstr_ok fmt ->
  forall m suf pre k ap bs, (length suf <= m)%nat -> chars fmt = pre ++ suf ->
  render suf ap = Some bs ->
  exists n : nat, (n <= length suf)%nat /\ loops (kprintf_round fmt) n (ap, Z.of_nat (length pre)) k tt (puts k bs).
Proof.
  intros Hok. induction m as [|m IH]; intros suf pre k ap bs Hm Hs Hr;
    (destruct suf as [|c suf]; [|cbn [length] in Hm; try lia]).
  1,2: exists 0%nat; split; [lia|]; simplify_eq/=; apply loops_exit;
    rewrite app_nil_r in Hs; unfold kprintf_round; by rewrite (cstr_at_nil _ _ Hs).
  destruct (cstr_ok_cons _ _ _ _ Hok Hs) as (Hc & Hw & _). cbn in Hr.
  destruct (Z.eqb_spec c 37) as [->|Hc37].
  - destruct suf as [|d suf]; [done|]. destruct (directive d ap) as [[out ap']|] eqn:Hd; [|done].
    destruct (render suf ap') as [out'|] eqn:Hr'; [|done]. simplify_eq/=.
    assert (Hs' : chars fmt = (pre ++ [37; d]) ++ suf) by (by rewrite <- app_assoc).
    destruct (IH suf (pre ++ [37; d]) (puts k out) ap' out') as (n & Hn & Hl); [lia|done|done|].
    exists (S n). split; [cbn; lia|]. rewrite puts_app. eapply loops_round; [|exact Hl].
    unfold kprintf_round. rewrite (cstr_at_cons _ _ _ _ Hs). cbn [of_option]. erewrite bind_ret_eq by done.
    cbn [Z.eqb negb Pos.eqb]. rewrite (bind_ret_eq _ _ _ _ _ (display_var_eq _ _ _ _ _ _ _ k Hok Hs Hd)).
    cbn [fst snd]. assert (Hs2 : chars fmt = (pre ++ [37]) ++ d :: suf) by (by rewrite <- app_assoc).
    destruct (cstr_ok_cons _ _ _ _ Hok Hs2) as (_ & -> & _). by rewrite <- app_assoc.
  - destruct (render suf ap) as [out|] eqn:Hr'; [|done]. simplify_eq/=.
    destruct (IH suf (pre ++ [c]) (putb k c) ap out) as (n & Hn & Hl);
      [lia|by rewrite <- app_assoc|done|].
    exists (S n). split; [cbn; lia|]. eapply loops_round; [|exact Hl].
    unfold kprintf_round. rewrite (cstr_at_cons _ _ _ _ Hs). cbn [of_option]. erewrite bind_ret_eq by done.
    rewrite Hc, (proj2 (Z.eqb_neq _ _) Hc37). cbn [negb].
    rewrite (bind_ret_eq _ _ _ _ _ (kprintf_putchar_eq _ _)). by rewrite Hw.
Qed.

Lemma kprintf_render_eq fmt ap bs k : cstr_ok fmt -> render (chars fmt) ap = Some bs ->
  kprintf fmt ap k = kprintf_result k bs.
Proof.
  intros Hok Hr. unfold kprintf.
  destruct (kprintf_loop fmt Hok (length (chars fmt)) (chars fmt) [] k ap bs) as (n & Hn & Hl);
    [done..|].
  apply while32_loops in Hl; [|destruct Hok; lia].
  erewrite bind_ret_eq; [|exact Hl]. done.
Qed.

(** kprintf leaves everything but the console alone. *)
Lemma putb_quiet k c : quiet k (putb k c).
Proof. unfold putb, sent. etrans; [apply quiet_logged|apply quiet_count]. Qed.

Lemma puts_quiet k bs : quiet k (puts k bs).
Proof.
  revert k. induction bs as [|b bs IH]; intros k; [done|].
  rewrite puts_cons. etrans; [apply putb_quiet|apply IH].
Qed.

Lemma wp_kprintf fmt ap bs Q k : cstr_ok fmt -> render (chars fmt) ap = Some bs ->
  (forall r k', quiet k k' -> Q r k') -> wp (kprintf fmt ap) Q k.
Proof.
  intros Hok Hr HQ. eapply wp_eq; [by apply kprintf_render_eq|]. apply HQ.
  etrans; [apply puts_quiet|apply quiet_count].
Qed.

(** [takes cs ap]: the format [cs] has a defined result on the arguments [ap]. *)
Fixpoint takes (cs : list Z) (ap : list arg) : Prop :=
  match cs with
  | [] => True
  | c :: cs' =>
      if c =? 37 then
        match cs' with
        | [] => False
        | d :: cs'' =>
            if d =? 37 then takes cs'' ap
            else if d =? 115 then
              match ap with AStr s :: ap' => from_option cstr_ok True s /\ takes cs'' ap' | _ => False end
            else if (d =? 100) || (d =? 105) || (d =? 98) then
              match ap with AInt v :: ap' => s32 v <> INT_MIN /\ takes cs'' ap' | _ => False end
            else if (d =? 99) || (d =? 111) || (d =? 117) || (d =? 120) || (d =? 88) || (d =? 112)
                    || (d =? 66) then
              match ap with AInt v :: ap' => takes cs'' ap' | _ => False end
            else if d =? 83 then
              match ap with AStr (Some s) :: ap' => cstr_ok s /\ takes cs'' ap' | _ => False end
            else takes cs'' ap
        end
      else takes cs' ap
  end.

Lemma takes_directive d cs ap : takes (37 :: d :: cs) ap ->
  exists out ap', directive d ap = Some (out, ap') /\ takes cs ap'.
Proof.
  cbn [takes]. change (37 =? 37) with true. cbn iota.
  unfold directive. intros H. repeat (case_match; simplify_eq/=; try done); unfold ok_str in *;
    repeat match goal with H : _ || _ = false |- _ => apply orb_false_iff in H as [? ?]
                         | H : _ /\ _ |- _ => destruct H end;
    try (rewrite bool_decide_eq_false in *; done); try (exfalso; lia); eauto.
  destruct s; [|done]. by rewrite bool_decide_eq_false in *.
Qed.

Lemma takes_render cs ap : takes cs ap -> exists bs, render cs ap = Some bs.
Proof.
  remember (length cs) as n eqn:Hn. revert cs ap Hn.
  induction n as [n IH] using lt_wf_ind; intros [|c cs] ap -> Ht; [by eexists|].
  cbn [render]. destruct (Z.eqb_spec c 37) as [->|Hc].
  - destruct cs as [|d cs]; [done|]. apply takes_directive in Ht as (out & ap' & -> & Ht).
    edestruct (IH (length cs)) as [bs ->]; [cbn; lia|done|done|]. by eexists.
  - cbn [takes] in Ht. rewrite (proj2 (Z.eqb_neq _ _) Hc) in Ht.
    edestruct (IH (length cs)) as [bs ->]; [cbn; lia|done|done|]. by eexists.
Qed.

Lemma wp_kprintf_takes fmt ap Q k : cstr_ok fmt -> takes (chars fmt) ap ->
  (forall r k', quiet k k' -> Q r k') -> wp (kprintf fmt ap) Q k.
Proof. intros Hok [bs Hb]%takes_render HQ. by eapply wp_kprintf. Qed.

(** [kp] runs a kprintf with a literal format, leaving the facts the directives
    need of their arguments and a state that differs from the former by what
    was printed. *)
Ltac kp :=
  lazymatch goal with |- wp (kprintf _ _) _ _ => idtac end;
  apply wp_kprintf_takes;
    [ok_const
    |lazymatch goal with |- takes ?cs _ =>
       let v := eval vm_compute in cs in change cs with v end;
     cbn [takes Z.eqb Pos.eqb orb from_option];
     repeat lazymatch goal with |- _ /\ _ => split | |- True => exact I end; auto
    |let r := fresh "r" in let k := fresh "k" in let H := fresh "Hq" in intros r k H].

(** ** Reading the digits back *)

(** The position of a character among the digits of a base, and the number a
    sequence of digits denotes. *)
Definition digit_val (base : string) (c : Z) : Z :=
  match list_find (fun x => x = c) (chars base) with Some (i, _) => Z.of_nat i | None => -1 end.

Definition decode (base : string) (bs : list Z) : Z :=
  foldl (fun acc c => acc * base_len base + digit_val base c) 0 bs.

Definition decode_nbr (base : string) (bs : list Z) : Z :=
  match bs with
  | c :: bs' => if c =? 45 then - decode base bs' else decode base bs
  | [] => 0
  end.

Lemma digit_char_in base d : 0 <= d < base_len base -> digit_char base d ∈ chars base.
Proof.
  unfold base_len, digit_char. intros Hd.
  destruct (lookup_lt_is_Some_2 (chars base) (Z.to_nat d)) as [c Hc]; [lia|].
  rewrite Hc. by apply list_elem_of_lookup_2 in Hc.
Qed.

Lemma digit_val_char base d : NoDup (chars base) -> 0 <= d < base_len base ->
  digit_val base (digit_char base d) = d.
Proof.
  unfold base_len, digit_val, digit_char. intros Hnd Hd.
  destruct (lookup_lt_is_Some_2 (chars base) (Z.to_nat d)) as [c Hc]; [lia|]. rewrite Hc. change (default 0 (Some c)) with c.
  destruct (list_find _ _) as [[i y]|] eqn:E.
  - apply list_find_Some in E as (Hi & -> & _).
    assert (i = Z.to_nat d) by (by eapply NoDup_lookup). cbn. lia.
  - exfalso. apply list_find_None in E. rewrite Forall_forall in E.
    apply (E c); [|done]. by apply list_elem_of_lookup_2 in Hc.
Qed.

Lemma decode_udigits base f n : NoDup (chars base) -> 2 <= base_len base -> 0 <= n < 2 ^ Z.of_nat f ->
  decode base (digit_char base <$> udigits (S f) (base_len base) n) = n.
Proof.
  intros Hnd Hb. revert n. induction f as [|f IH]; intros n Hn.
  - change (2 ^ Z.of_nat 0) with 1 in Hn. by replace n with 0 by lia.
  - remember (S f) as g. cbn [udigits]. destruct (Z.eqb_spec n 0) as [->|]; [done|]. subst g.
    unfold decode in *. rewrite fmap_app, foldl_app, IH by (by apply div_bound). cbn.
    rewrite digit_val_char by (try done; apply Z.mod_pos_bound; lia).
    pose proof (Z.div_mod n (base_len base)). lia.
Qed.

Lemma decode_show_uint base n : NoDup (chars base) -> 2 <= base_len base -> 0 <= n < 4294967296 ->
  decode base (show_uint base n) = n.
Proof. intros. by apply (decode_udigits base 32). Qed.

Lemma decode_show_nat base n : NoDup (chars base) -> 2 <= base_len base -> 0 <= n < 4294967296 ->
  decode base (show_nat base n) = n.
Proof.
  intros Hnd Hb Hn. unfold show_nat. destruct (Z.eqb_spec n 0) as [->|]; [|by apply decode_show_uint].
  unfold decode. cbn. rewrite digit_val_char by (done || lia). lia.
Qed.

Lemma udigits_head b f n : 2 <= b -> n <> 0 -> 0 <= n < 2 ^ Z.of_nat f ->
  exists d ds, udigits (S f) b n = d :: ds /\ 0 < d < b.
Proof.
  intros Hb. revert n. induction f as [|f IH]; intros n Hn0 Hn.
  - change (2 ^ Z.of_nat 0) with 1 in Hn. lia.
  - remember (S f) as g. cbn [udigits]. destruct (Z.eqb_spec n 0); [done|]. subst g.
    destruct (decide (n / b = 0)) as [Hz|Hz].
    + exists n, []. rewrite Hz. apply Z.div_small_iff in Hz; [|lia].
      rewrite Z.mod_small by lia. split; [done|lia].
    + destruct (IH (n / b)) as (d & ds & -> & Hd); [done|by apply div_bound|].
      by exists d, (ds ++ [n mod b]).
Qed.

Lemma show_nat_head base n : 2 <= base_len base -> 0 <= n < 4294967296 ->
  exists c bs, show_nat base n = c :: bs /\ c ∈ chars base.
Proof.
  intros Hb Hn. unfold show_nat, show_uint. destruct (Z.eqb_spec n 0).
  - eexists _, _. split; [done|]. apply digit_char_in. lia.
  - destruct (udigits_head (base_len base) 32 n) as (d & ds & -> & Hd); [done..|].
    eexists _, _. split; [done|]. apply digit_char_in. lia.
Qed.

Lemma puts_count k bs : s32 (disp_count (puts k bs)) = s32 (disp_count k + Z.of_nat (length bs)).
Proof.
  revert k. induction bs as [|b bs IH]; intros k; [by rewrite Z.add_0_r|].
  rewrite puts_cons, IH. cbn [putb set_disp_count disp_count length]. word_lia.
Qed.

Lemma puts_trace k bs :
  trace (puts k bs) = trace k ++ ((fun c => EOut (w16 (uart_addr k)) (w8 c)) <$> bs).
Proof.
  revert k. induction bs as [|b bs IH]; intros k; [by rewrite app_nil_r|].
  rewrite puts_cons, IH. cbn. rewrite <- app_assoc. cbn.
  assert (w8 (w8 b) = w8 b) as -> by word_lia. done.
Qed.

(** ** Renderings of literal formats *)

(** [%d] and [%x] of a word. *)
Definition dec_word (v : Z) : list Z := show_nbr "0123456789" (s32 v).
Definition hex_word (v : Z) : list Z := show_uint "0123456789abcdef" (w32 v).

(** Text without directives, and one directive, in a rendering. *)
Lemma render_text lit cs ap out : forallb (fun c => negb (c =? 37)) lit = true -> render cs ap = Some out ->
  render (lit ++ cs) ap = Some (lit ++ out).
Proof.
  intros Hl Hr. induction lit as [|c lit IH]; [done|]. cbn [forallb] in Hl. apply andb_prop in Hl as [Hc Hl].
  apply negb_true_iff in Hc. cbn [app render]. by rewrite Hc, (IH Hl).
Qed.

Lemma render_directive d cs ap o ap' out : directive d ap = Some (o, ap') -> render cs ap' = Some out ->
  render (37 :: d :: cs) ap = Some (o ++ out).
Proof. intros Hd Hr. cbn [render]. change (37 =? 37) with true. cbn iota. by rewrite Hd, Hr. Qed.

Lemma directive_dec v ap : s32 v <> INT_MIN -> directive 100 (AInt v :: ap) = Some (dec_word v, ap).
Proof. intros Hv. unfold directive. apply Z.eqb_neq in Hv. cbn -[s32 INT_MIN show_nbr]. by rewrite Hv. Qed.

Lemma directive_hex v ap : directive 120 (AInt v :: ap) = Some (hex_word v, ap).
Proof. reflexivity. Qed.

Lemma directive_ptr v ap : directive 112 (AInt v :: ap) = Some (show_ptr (w32 v), ap).
Proof. reflexivity. Qed.

Lemma directive_msg msg ap : cstr_ok msg -> directive 115 (AStr (Some msg) :: ap) = Some (chars msg, ap).
Proof. intros Hm. unfold directive, ok_str. change (115 =? 37) with false. change (115 =? 115) with true. cbn iota. by rewrite bool_decide_eq_true_2. Qed.

(** ** What is printed, byte by byte

    [line_bytes k bs]: [bs] on the UART's line; [printed evs k k']: from [k] to
    [k'] the events [evs] were added to the trace, and bytes were counted. *)

Definition line_bytes (k : kst) (bs : list Z) : list event := (fun c => EOut (w16 (uart_addr k)) (w8 c)) <$> bs.

Definition printed (evs : list event) (k k' : kst) : Prop := exists d, k' = set_disp_count d (logged evs k).

Lemma printed_nil k : printed [] k k.
Proof. exists (disp_count k). rewrite logged_nil. by destruct k. Qed.

Lemma printed_logged evs evs' k k' : printed evs k k' -> printed (evs ++ evs') k (logged evs' k').
Proof. intros (d & ->). exists d. by rewrite <- logged_logged. Qed.

Lemma printed_quiet evs k k' : printed evs k k' -> quiet k k'.
Proof. intros (d & ->). by exists evs, d. Qed.

Lemma printed_trace evs k k' : printed evs k k' -> trace k' = trace k ++ evs.
Proof. by intros (d & ->). Qed.

Lemma line_bytes_app k bs bs' : line_bytes k (bs ++ bs') = line_bytes k bs ++ line_bytes k bs'.
Proof. apply fmap_app. Qed.

Lemma puts_printed k bs : exists d, puts k bs = set_disp_count d (logged (line_bytes k bs) k).
Proof.
  pose proof (puts_trace k bs) as Ht. destruct (puts_quiet k bs) as (evs & d & He). exists d.
  rewrite He in Ht |- *. cbn [trace set_disp_count logged set_trace] in Ht. apply app_inv_head in Ht. by rewrite Ht.
Qed.

Lemma wp_kprintf_printed fmt ap bs evs k0 Q k : printed evs k0 k -> cstr_ok fmt -> render (chars fmt) ap = Some bs ->
  (forall r k', printed (evs ++ line_bytes k0 bs) k0 k' -> Q r k') -> wp (kprintf fmt ap) Q k.
Proof.
  intros Hk Hok Hr HQ. eapply wp_eq; [by apply kprintf_render_eq|]. apply HQ.
  destruct Hk as (d & ->), (puts_printed (set_disp_count d (logged evs k0)) bs) as (d' & ->). eexists.
  rewrite <- logged_logged. reflexivity.
Qed.

(** * Properties *)

(** C1: kprintf on a NUL-free format agrees with the reference rendering: it
    returns; the bytes it sends to the UART port are exactly the rendering, in
    order and after everything sent before; only the trace and the byte counter
    change; and its result is the counter it found plus the bytes it sent. *)
Theorem kprintf_output fmt ap bs k :
  cstr_ok fmt -> render (chars fmt) ap = Some bs ->
  exists k', kprintf fmt ap k = Ret (s32 (disp_count k + Z.of_nat (length bs))) k' /\
    trace k' = trace k ++ ((fun c => EOut (w16 (uart_addr k)) (w8 c)) <$> bs) /\
    disp_count k' = s32 (disp_count k + Z.of_nat (length bs) + 1) /\
    quiet k k'.
Proof.
  intros Hok Hr. rewrite (kprintf_render_eq _ _ _ k Hok Hr). unfold kprintf_result.
  pose proof (puts_count k bs) as Hc. eexists. split_and!.
  - f_equal. word_lia.
  - apply puts_trace.
  - cbn. word_lia.
  - etrans; [apply puts_quiet|apply quiet_count].
Qed.

Lemma kprintf_output_witness :
  exists k', kprintf "sbrk: %d%c" [AInt (-4096); AInt 10] (boot_state ∅) = Ret 12 k' /\
    trace k' = (fun c => EOut 0 c) <$> chars ("sbrk: -4096" +:+ nl).
Proof.
  destruct (kprintf_output "sbrk: %d%c" [AInt (-4096); AInt 10] (chars ("sbrk: -4096" +:+ nl))
    (boot_state ∅)) as (k' & H1 & H2 & _ & _).
  - refine (bool_decide_unpack _ _). vm_compute. exact I.
  - vm_compute. reflexivity.
  - exists k'. split; [exact H1|]. rewrite H2. vm_compute. reflexivity.
Defined.

(** C36: the unsigned printers (%u's digits, %x, %X, %o, and %p through the
    [unsigned long] one) are faithful: over any base of distinct digits, the
    bytes sent decode to the number, without a leading zero; 0 sends nothing. *)
Theorem put_uint_base_roundtrip base n k :
  cstr_ok base -> NoDup (chars base) -> 2 <= base_len base -> 0 <= n < 4294967296 ->
  exists bs, my_put_uint_base n base k = Ret 0 (puts k bs) /\
    my_put_ulong_base n base k = Ret 0 (puts k bs) /\
    decode base bs = n /\
    (n = 0 -> bs = []) /\
    (n <> 0 -> exists c bs', bs = c :: bs' /\ digit_val base c <> 0).
Proof.
  intros Hok Hnd Hb Hn. exists (show_uint base n).
  assert (He : my_put_uint_base n base k = Ret 0 (puts k (show_uint base n)))
    by (by apply my_put_uint_base_eq).
  split_and!; [done| |by apply decode_show_uint| |].
  - unfold my_put_ulong_base. by rewrite my_put_ulong_base_is_uint.
  - by intros ->.
  - intros Hn0. destruct (udigits_head (base_len base) 32 n) as (d & ds & He' & Hd); [done..|].
    exists (digit_char base d), (digit_char base <$> ds). unfold show_uint. rewrite He'.
    split; [done|]. rewrite digit_val_char by (done || lia). lia.
Qed.

Lemma put_uint_base_roundtrip_witness :
  exists bs, my_put_uint_base 48879 "0123456789abcdef" (boot_state ∅) = Ret 0 (puts (boot_state ∅) bs) /\
    decode "0123456789abcdef" bs = 48879.
Proof.
  destruct (put_uint_base_roundtrip "0123456789abcdef" 48879 (boot_state ∅)) as (bs & H1 & _ & H2 & _).
  - refine (bool_decide_unpack _ _). vm_compute. exact I.
  - refine (bool_decide_unpack _ _). vm_compute. exact I.
  - vm_compute. discriminate.
  - lia.
  - exists bs. split; assumption.
Defined.

(** C37: my_put_nbr_base (%d, %i, %b) finishes exactly for the numbers other
    than the smallest [int], and then the bytes sent decode to the number; on
    the smallest, whose opposite overflows to itself, no amount of recursion is
    enough. *)
Theorem put_nbr_base_terminates base n k :
  cstr_ok base -> NoDup (chars base) -> 2 <= base_len base -> 45 ∉ chars base ->
  INT_MIN <= n < 2147483648 ->
  (n <> INT_MIN -> exists bs, my_put_nbr_base n base k = Ret 0 (puts k bs) /\ decode_nbr base bs = n) /\
  (n = INT_MIN -> forall fuel, my_put_nbr_base_f fuel n base k = NoFuel).
Proof.
  intros Hok Hnd Hb Hm Hn. split; [|intros ->; intros; by apply my_put_nbr_base_f_min].
  intros Hne. exists (show_nbr base n). split; [apply my_put_nbr_base_eq; [done..|lia]|].
  unfold INT_MIN in *. unfold show_nbr. destruct (Z.ltb_spec n 0).
  - cbn [decode_nbr Z.eqb Pos.eqb]. rewrite decode_show_nat by (done || lia). lia.
  - pose proof (decode_show_nat base n Hnd Hb) as Hdec. destruct (show_nat_head base n) as (c & bs & He & Hc);
      [done|lia|]. rewrite He in *. unfold decode_nbr.
    destruct (Z.eqb_spec c 45) as [->|]; [done|]. apply Hdec. lia.
Qed.

Lemma put_nbr_base_terminates_witness :
  exists bs, my_put_nbr_base (-2147483647) "01" (boot_state ∅) = Ret 0 (puts (boot_state ∅) bs) /\
    decode_nbr "01" bs = -2147483647.
Proof.
  destruct (put_nbr_base_terminates "01" (-2147483647) (boot_state ∅)) as [H _].
  - refine (bool_decide_unpack _ _). vm_compute. exact I.
  - refine (bool_decide_unpack _ _). vm_compute. exact I.
  - vm_compute. discriminate.
  - refine (bool_decide_unpack _ _). vm_compute. exact I.
  - unfold INT_MIN. lia.
  - apply H. discriminate.
Defined.

(** A byte count below 1 Gb prints with its exact fraction: the digits
    after the point are the floor of the thousandths. From 1 Gb up the product
    by 1000 wraps at 32 bits, so the fraction is at most 3. *)
Theorem format_bytes_size_fraction n k :
  0 <= n < 4294967296 ->
  format_bytes_size n k = Ret tt (puts k (show_size n)) /\
  (n < 1024 -> show_size n = show_nat "0123456789" n ++ chars "B") /\
  (forall unit name, (unit, name) = (1024, "Kb"%string) /\ 1024 <= n < 1048576 \/
     (unit, name) = (1048576, "Mb"%string) /\ 1048576 <= n < 1073741824 ->
     let d := (n mod unit) * 1000 / unit in
     show_size n = show_nat "0123456789" (n / unit) ++
       (if d =? 0 then [] else 46 :: show_nat "0123456789" d) ++ chars name) /\
  (1073741824 <= n -> exists d, 0 <= d < 4 /\
     show_size n = show_nat "0123456789" (n / 1073741824) ++
       (if d =? 0 then [] else 46 :: show_nat "0123456789" d) ++ chars "Gb").
Proof.
  intros Hn. split_and!; [by apply format_bytes_size_eq| | |]; unfold show_size.
  - intros Hlt. destruct (Z.ltb_spec n 1024); [|lia]. unfold show_size_unit. by rewrite Z.div_1_r.
  - intros unit name [[He Hr]|[He Hr]]; simplify_eq; cbn zeta;
      destruct (Z.ltb_spec n 1024), (Z.ltb_spec n 1048576), (Z.ltb_spec n 1073741824); try lia;
      unfold show_size_unit; rewrite w32_small by (Z.div_mod_to_equations; lia); reflexivity.
  - intros Hge. destruct (Z.ltb_spec n 1024), (Z.ltb_spec n 1048576), (Z.ltb_spec n 1073741824); try lia.
    unfold show_size_unit.
    exists (w32 (n mod 1073741824 * 1000) / 1073741824).
    pose proof (w32_range (n mod 1073741824 * 1000)). split; [|done].
    split; [apply Z.div_pos; lia|]. apply Z.div_lt_upper_bound; lia.
Qed.

Lemma format_bytes_size_fraction_witness :
  format_bytes_size 0x60000000 (boot_state ∅) = Ret tt (puts (boot_state ∅) (chars "1Gb")).
Proof.
  destruct (format_bytes_size_fraction 0x60000000 (boot_state ∅)) as [H _]; [lia|].
  rewrite H. vm_compute. reflexivity.
Defined.
