(* ===== verification/Vga.v ===== *)
(** The VGA text screen (src/vga.c) and printk (src/main.c). *)
From S2P Require Import Prelude Memory State Console.
Local Open Scope Z_scope.
Local Open Scope kern_scope.

Definition VIDEO_MEM_START_OFFSET : Z := 0xb8000 + 0xc0000000.
Definition MAX_ROWS_COUNT : Z := 25.
Definition MAX_COLS_COUNT : Z := 80.

(** [row * 80 + col] is computed on [unsigned int]; the index is added to a
    pointer. *)
Definition print_char_on_screen (row col c color : Z) : prog kst unit :=
  let video_mem := VIDEO_MEM_START_OFFSET in
  store8 (w32 (video_mem + w32 (w32 (row * 80 + col) * 2))) c;;
  store8 (w32 (video_mem + w32 (w32 (row * 80 + col) * 2 + 1))) color.

Definition printk_on_screen (row col : Z) (str : string) : prog kst unit :=
  while32 (fun i =>
    c ← of_option (cstr_at str i);
    if negb (c =? NULL)
    then print_char_on_screen row (w32 (col + i)) c 0x14;; mret (inl (s32 (i + 1)))
    else mret (inr tt)) 0.

Definition clear_screen : prog kst unit :=
  while32 (fun row =>
    if row <? MAX_ROWS_COUNT
    then
      while32 (fun col =>
        if col <? MAX_COLS_COUNT
        then print_char_on_screen row col 32 0x0;; mret (inl (s32 (col + 1)))
        else mret (inr tt)) 0;;
      mret (inl (s32 (row + 1)))
    else mret (inr tt)) 0.

(** * src/main.c *)

Definition do_printk (row col : Z) (str : string) : prog kst unit :=
  printk_on_screen row col str;; uart_putstr str.

Definition printk (str : string) : prog kst unit := do_printk 0 0 str.

(** * Proofs *)

(** The physical address of the text buffer, and the bytes of its cells. *)
Definition TEXT_BASE : Z := 0xb8000.
Definition TEXT_CELLS : Z := 2000.

Definition cell_char (m : ram) (i : Z) : Z := rd8 m (TEXT_BASE + 2 * i).
Definition cell_color (m : ram) (i : Z) : Z := rd8 m (TEXT_BASE + 2 * i + 1).

(** The cells [lo, lo + n) hold what [f] gives, every other byte of RAM is
    that of [m]. *)
Definition cells_are (m m' : ram) (lo n : Z) (f : Z -> Z * Z) : Prop :=
  (forall i, lo <= i < lo + n -> cell_char m' i = (f i).1 /\ cell_color m' i = (f i).2) /\
  (forall a, ~ (TEXT_BASE + 2 * lo <= a < TEXT_BASE + 2 * (lo + n)) -> rd8 m' a = rd8 m a).

Lemma cells_are_nil m lo f : cells_are m m lo 0 f.
Proof. split; intros; [lia|done]. Qed.

Lemma cells_are_ext m m' lo n f g : (forall i, lo <= i < lo + n -> f i = g i) ->
  cells_are m m' lo n f -> cells_are m m' lo n g.
Proof. intros Hfg [H1 H2]. split; [|done]. intros i Hi. rewrite <- Hfg by done. by apply H1. Qed.

(** Printing in the cell that follows. *)
Lemma cells_are_snoc m m' lo n f c color : 0 <= n -> cells_are m m' lo n f ->
  f (lo + n) = (w8 c, w8 color) ->
  cells_are m (wr8 (wr8 m' (TEXT_BASE + 2 * (lo + n)) c) (TEXT_BASE + 2 * (lo + n) + 1) color)
    lo (n + 1) f.
Proof.
  intros Hn [H1 H2] Hf. split.
  - intros i Hi. unfold cell_char, cell_color. rewrite !rd8_wr8.
    destruct (decide (i = lo + n)) as [->|Hne].
    + rewrite Hf. repeat case_decide; try lia. done.
    + repeat case_decide; try lia. by apply H1; lia.
  - intros a Ha. rewrite !rd8_wr8. repeat case_decide; try lia. by apply H2; lia.
Qed.

(** A cell of the screen designates a byte of the buffer. *)
Lemma wp_print_char_on_screen row col c color (Q : unit -> kst -> Prop) k :
  0 <= row * 80 + col < TEXT_CELLS ->
  Q tt (set_mem (fun m => wr8 (wr8 m (TEXT_BASE + 2 * (row * 80 + col)) c)
                            (TEXT_BASE + 2 * (row * 80 + col) + 1) color) k) ->
  wp (print_char_on_screen row col c color) Q k.
Proof.
  unfold TEXT_CELLS, TEXT_BASE. intros Hr HQ. unfold print_char_on_screen. wp_go.
  rewrite (w32_small (row * 80 + col)) by lia.
  rewrite !(w32_small (_ * 2)), !(w32_small (_ * 2 + 1)) by lia.
  unfold VIDEO_MEM_START_OFFSET, ka, SYSTEM_ADDR_BASE. rewrite !w32_small by lia.
  repeat (case_match; [|lia]).
  replace (0xb8000 + 0xc0000000 + (row * 80 + col) * 2 - 0xC0000000)
    with (0xb8000 + 2 * (row * 80 + col)) by lia.
  replace (0xb8000 + 0xc0000000 + ((row * 80 + col) * 2 + 1) - 0xC0000000)
    with (0xb8000 + 2 * (row * 80 + col) + 1) by lia.
  exact HQ.
Qed.

(** One line of [clear_screen]. *)
Lemma wp_clear_row m row (Q : unit -> kst -> Prop) k :
  0 <= row < 25 -> cells_are m (mem k) 0 (row * 80) (fun _ => (32, 0)) ->
  (forall m', cells_are m m' 0 ((row + 1) * 80) (fun _ => (32, 0)) -> Q tt (set_mem (fun _ => m') k)) ->
  wp (while32 (fun col =>
        if col <? MAX_COLS_COUNT
        then print_char_on_screen row col 32 0x0;; mret (inl (s32 (col + 1)))
        else mret (inr tt)) 0) Q k.
Proof.
  intros Hrow Hk HQ.
  apply (wp_while (fun col k' => 0 <= col <= 80 /\ exists m', k' = set_mem (fun _ => m') k /\
           cells_are m m' 0 (row * 80 + col) (fun _ => (32, 0))) (fun col _ => 80 - col)).
  - split; [lia|]. exists (mem k). rewrite Z.add_0_r. by destruct k.
  - lia.
  - lia.
  - intros col k' [Hcol (m' & -> & Hm')]. unfold MAX_COLS_COUNT. destruct (Z.ltb_spec col 80).
    + apply wp_bind, wp_print_char_on_screen; [unfold TEXT_CELLS; lia|]. apply wp_ret.
      rewrite s32_small by (unfold INT_MIN; lia). split; [|lia]. split; [lia|].
      eexists. split; [done|]. cbn [set_mem mem].
      replace (row * 80 + (col + 1)) with (row * 80 + col + 1) by lia.
      pose proof (cells_are_snoc m m' 0 (row * 80 + col) _ 32 0 ltac:(lia) Hm' eq_refl) as Hs.
      by rewrite Z.add_0_l in Hs.
    + apply wp_ret. apply HQ. by replace ((row + 1) * 80) with (row * 80 + col) by lia.
Qed.

(** [clear_screen] finishes and leaves a blank (space, attribute 0) in each
    of the 25 x 80 cells of the text buffer and every other byte of RAM as it
    was. *)
Theorem clear_screen_blanks k :
  exists m', clear_screen k = Ret tt (set_mem (fun _ => m') k) /\
    cells_are (mem k) m' 0 TEXT_CELLS (fun _ => (32, 0)).
Proof.
  enough (wp clear_screen (fun _ k' => exists m', k' = set_mem (fun _ => m') k /\
    cells_are (mem k) m' 0 TEXT_CELLS (fun _ => (32, 0))) k) as H.
  { apply wp_elim in H as ([] & k' & -> & m' & -> & H). eauto. }
  unfold clear_screen.
  apply (wp_while (fun row k' => 0 <= row <= 25 /\ exists m', k' = set_mem (fun _ => m') k /\
           cells_are (mem k) m' 0 (row * 80) (fun _ => (32, 0))) (fun row _ => 25 - row)).
  - split; [lia|]. exists (mem k). split; [by destruct k|apply cells_are_nil].
  - lia.
  - lia.
  - intros row k' [Hrow (m' & -> & Hm')]. unfold MAX_ROWS_COUNT. destruct (Z.ltb_spec row 25).
    + apply wp_bind, (wp_clear_row (mem k)); [lia|done|]. intros m'' Hm''. apply wp_ret.
      rewrite s32_small by (unfold INT_MIN; lia). split; [|lia]. split; [lia|].
      eexists. split; [done|]. done.
    + apply wp_ret. exists m'. split; [done|]. unfold TEXT_CELLS.
      by replace 2000 with (row * 80) by lia.
Qed.

(** A string written from a cell on, one cell per character with attribute
    0x14. *)
Lemma printk_on_screen_cells row col s k :
  cstr_ok s -> 0 <= row -> 0 <= col -> row * 80 + col + Z.of_nat (length (chars s)) <= TEXT_CELLS ->
  exists m', printk_on_screen row col s k = Ret tt (set_mem (fun _ => m') k) /\
    cells_are (mem k) m' (row * 80 + col) (Z.of_nat (length (chars s)))
      (fun i => (nth (Z.to_nat (i - (row * 80 + col))) (chars s) 0, 0x14)).
Proof.
  intros Hok Hrow Hcol Hlen. unfold TEXT_CELLS in Hlen. set (lo := row * 80 + col) in *.
  set (f := fun i => (nth (Z.to_nat (i - lo)) (chars s) 0, 0x14)).
  enough (wp (printk_on_screen row col s) (fun _ k' => exists m', k' = set_mem (fun _ => m') k /\
    cells_are (mem k) m' lo (Z.of_nat (length (chars s))) f) k) as H.
  { apply wp_elim in H as ([] & k' & -> & m' & -> & H). eauto. }
  unfold printk_on_screen.
  apply (wp_while (fun i k' => exists pre suf, chars s = pre ++ suf /\ i = Z.of_nat (length pre) /\
           exists m', k' = set_mem (fun _ => m') k /\ cells_are (mem k) m' lo i f)
           (fun i _ => Z.of_nat (length (chars s)) - i)).
  - exists [], (chars s). split_and!; [done|done|]. exists (mem k). split; [by destruct k|apply cells_are_nil].
  - lia.
  - intros i k' (pre & suf & Hs & -> & _). rewrite Hs, length_app. lia.
  - intros i k' (pre & suf & Hs & -> & m' & -> & Hm'). apply wp_bind. destruct suf as [|c suf].
    + rewrite app_nil_r in Hs. rewrite (cstr_at_nil _ _ Hs). apply wp_ret, wp_ret.
      exists m'. by rewrite Hs.
    + destruct (cstr_ok_cons _ _ _ _ Hok Hs) as (Hc & Hw & Hw').
      rewrite (cstr_at_cons _ _ _ _ Hs). apply wp_ret. unfold NULL. rewrite Hc. cbn [negb].
      assert (Hl : length (chars s) = (length pre + S (length suf))%nat)
        by (rewrite Hs, length_app; done).
      rewrite (w32_small (col + _)) by (unfold lo in *; lia).
      apply wp_bind, wp_print_char_on_screen; [unfold TEXT_CELLS, lo in *; lia|]. apply wp_ret.
      rewrite Hw. split; [|rewrite length_app, Hl; cbn; lia].
      exists (pre ++ [c]), suf. split_and!; [by rewrite <- app_assoc|done|].
      eexists. split; [done|]. cbn [set_mem mem].
      replace (row * 80 + (col + Z.of_nat (length pre))) with (lo + Z.of_nat (length pre)) by (unfold lo; lia).
      rewrite length_app, Nat2Z.inj_add. apply cells_are_snoc; [lia|done|].
      unfold f. replace (Z.to_nat (lo + Z.of_nat (length pre) - lo)) with (length pre) by lia.
      rewrite Hs, app_nth2, Nat.sub_diag by lia. cbn [nth]. f_equal.
      rewrite w8_small; [done|]. apply (chars_range s). rewrite Hs. apply in_app_iff. right. by left.
Qed.

(** C40: printk shows a string of up to 2000 characters from the first cell of
    the screen, stays inside the text buffer, and sends the same characters, in
    order, to the serial port. *)
Theorem printk_screen_and_serial s k :
  cstr_ok s -> Z.of_nat (length (chars s)) <= TEXT_CELLS ->
  exists m', printk s k = Ret tt (foldl sent (set_mem (fun _ => m') k) (chars s)) /\
    cells_are (mem k) m' 0 (Z.of_nat (length (chars s))) (fun i => (nth (Z.to_nat i) (chars s) 0, 0x14)).
Proof.
  intros Hok Hlen.
  destruct (printk_on_screen_cells 0 0 s k) as (m' & He & Hc); [done|lia|lia|lia|].
  exists m'. unfold printk, do_printk. rewrite (bind_ret_eq _ _ _ _ _ He), uart_putstr_eq by done.
  split; [done|]. eapply cells_are_ext; [|exact Hc]. intros i _. cbn. by rewrite Z.sub_0_r.
Qed.

Lemma printk_screen_and_serial_witness :
  exists m', printk "Invalid magic number" (boot_state ∅) =
    Ret tt (foldl sent (set_mem (fun _ => m') (boot_state ∅)) (chars "Invalid magic number")).
Proof.
  destruct (printk_screen_and_serial "Invalid magic number" (boot_state ∅)) as (m' & H & _).
  - refine (bool_decide_unpack _ _). vm_compute. exact I.
  - vm_compute. discriminate.
  - exists m'. exact H.
Defined.

(** What printk leaves alone: everything but the text buffer and the trace, which
    gets the characters. *)
Lemma printk_eq s k : cstr_ok s -> Z.of_nat (length (chars s)) <= TEXT_CELLS ->
  exists m', printk s k =
      Ret tt (logged ((fun c => EOut (w16 (uart_addr k)) (w8 c)) <$> chars s) (set_mem (fun _ => m') k)) /\
    forall a, ~ (TEXT_BASE <= a < TEXT_BASE + 2 * TEXT_CELLS) -> rd8 m' a = rd8 (mem k) a.
Proof.
  intros Hok Hlen.
  destruct (printk_on_screen_cells 0 0 s k) as (m' & He & _ & Hout); [done|lia|lia|lia|].
  exists m'. unfold printk, do_printk.
  rewrite (bind_ret_eq _ _ _ _ _ He), uart_putstr_eq, foldl_sent_trace by done.
  split; [done|]. intros a Ha. apply Hout. lia.
Qed.

Lemma printk_frame s k : cstr_ok s -> Z.of_nat (length (chars s)) <= TEXT_CELLS ->
  exists m' evs, printk s k = Ret tt (logged evs (set_mem (fun _ => m') k)) /\
    forall a, ~ (TEXT_BASE <= a < TEXT_BASE + 2 * TEXT_CELLS) -> rd8 m' a = rd8 (mem k) a.
Proof. intros Hok Hlen. destruct (printk_eq s k) as (m' & He & Hm); [done..|]. by eexists _, _. Qed.
