(* ===== verification/Pic.v ===== *)
(** The two 8259 interrupt controllers (src/irq.c, inc/irq.h). *)
From S2P Require Import Prelude Memory State Console.
Local Open Scope Z_scope.
Local Open Scope kern_scope.

(** * inc/irq.h *)

Definition PIC1 : Z := 0x20.
Definition PIC2 : Z := 0xA0.
Definition PIC1_COMMAND : Z := PIC1.
Definition PIC1_DATA : Z := Eval cbv in PIC1 + 1.
Definition PIC2_COMMAND : Z := PIC2.
Definition PIC2_DATA : Z := Eval cbv in PIC2 + 1.
Definition PICS_BASE : Z := 0x20.
Definition PIC1_OFFSET : Z := 0x0.
Definition PIC2_OFFSET : Z := 0x8.
Definition ICW1_ICW4 : Z := 0x01.
Definition ICW1_INIT : Z := 0x10.
Definition ICW4_8086 : Z := 0x01.
Definition PIC_EOI : Z := 0x20.

Section pic.
Context {HW : Hardware}.

(** * src/irq.c *)

Definition irq_init (base : Z) : prog kst Z :=
  let offset1 := base + PIC1_OFFSET in
  let offset2 := base + PIC2_OFFSET in
  a1 ← inb PIC1_DATA;
  a2 ← inb PIC2_DATA;
  outb PIC1_COMMAND (Z.lor ICW1_INIT ICW1_ICW4);; io_wait;;
  outb PIC2_COMMAND (Z.lor ICW1_INIT ICW1_ICW4);; io_wait;;
  outb PIC1_DATA offset1;; io_wait;;
  outb PIC2_DATA offset2;; io_wait;;
  outb PIC1_DATA 0x04;; io_wait;;
  outb PIC2_DATA 0x02;; io_wait;;
  outb PIC1_DATA ICW4_8086;; io_wait;;
  outb PIC2_DATA ICW4_8086;; io_wait;;
  outb PIC1_DATA a1;;
  outb PIC2_DATA a2;;
  mret 0.

(** [1 << irq] is defined for a count from 0 to 31. *)
Definition shl1 (n : Z) : prog kst Z :=
  if (0 <=? n) && (n <? 32) then mret (s32 (Z.shiftl 1 n)) else undef.

Definition irq_mask (irq : Z) : prog kst unit :=
  let '(port, irq) := if irq <? 8 then (PIC1_DATA, irq) else (PIC2_DATA, irq - 8) in
  v ← inb port;
  bit ← shl1 irq;
  let value := w8 (Z.lor v bit) in
  outb port value.

Definition irq_unmask (irq : Z) : prog kst unit :=
  if 16 <=? irq then skip
  else
    let '(port, irq) := if irq <? 8 then (PIC1_DATA, irq) else (PIC2_DATA, irq - 8) in
    v ← inb port;
    bit ← shl1 irq;
    let value := w8 (Z.land v (Z.lnot bit)) in
    outb port value.

Definition irq_send_eoi (irq : Z) : prog kst unit :=
  when (8 <=? irq) (outb PIC2_COMMAND PIC_EOI);;
  outb PIC1_COMMAND PIC_EOI.

End pic.

(** * The controllers, as their datasheet describes the initialisation
      sequence: a command with bit 4 starts it, the data port then takes ICW2
      to ICW4, and after that the interrupt mask. *)

Inductive pic_phase := PicReady | PicIcw2 (icw4 : bool) | PicIcw3 (icw4 : bool) | PicIcw4.

Record pic := Pic {
  phase : pic_phase;
  vector : Z;
  cascade : Z;
  x86_mode : bool;
  imr : Z
}.

Definition pic_command (p : pic) (v : Z) : pic :=
  if Z.testbit v 4 then Pic (PicIcw2 (Z.testbit v 0)) (vector p) (cascade p) false 0 else p.

Definition pic_data (p : pic) (v : Z) : pic :=
  match phase p with
  | PicIcw2 n => Pic (PicIcw3 n) (Z.land v 0xF8) (cascade p) (x86_mode p) (imr p)
  | PicIcw3 n => Pic (if n then PicIcw4 else PicReady) (vector p) v (x86_mode p) (imr p)
  | PicIcw4 => Pic PicReady (vector p) (cascade p) (Z.testbit v 0) (imr p)
  | PicReady => Pic PicReady (vector p) (cascade p) (x86_mode p) v
  end.

(** The pair (master, slave) after an event on the ports. *)
Definition pics_event (ps : pic * pic) (e : event) : pic * pic :=
  match e with
  | EOut p v =>
      if p =? PIC1_COMMAND then (pic_command ps.1 v, ps.2)
      else if p =? PIC1_DATA then (pic_data ps.1 v, ps.2)
      else if p =? PIC2_COMMAND then (ps.1, pic_command ps.2 v)
      else if p =? PIC2_DATA then (ps.1, pic_data ps.2 v)
      else ps
  | _ => ps
  end.

Definition pics_after (ps : pic * pic) (evs : list event) : pic * pic := foldl pics_event ps evs.

Lemma pics_after_cons ps e evs : pics_after ps (e :: evs) = pics_after (pics_event ps e) evs.
Proof. done. Qed.

(** Runs the controllers over a list of events, one event at a time. *)
Ltac pic_steps :=
  repeat (rewrite pics_after_cons;
    lazymatch goal with |- context [pics_event ?ps ?e] =>
      let x := eval cbn -[w8 Z.land Z.add] in (pics_event ps e) in
      change (pics_event ps e) with x
    end).

Lemma irq_init_eq {HW : Hardware} base k :
  let a1 := port_value k PIC1_DATA in
  let a2 := port_value (logged [EIn PIC1_DATA a1] k) PIC2_DATA in
  irq_init base k = Ret 0 (logged
    [EIn PIC1_DATA a1; EIn PIC2_DATA a2;
     EOut PIC1_COMMAND 0x11; EOut PIC2_COMMAND 0x11;
     EOut PIC1_DATA (w8 (base + 0)); EOut PIC2_DATA (w8 (base + 8));
     EOut PIC1_DATA 4; EOut PIC2_DATA 2; EOut PIC1_DATA 1; EOut PIC2_DATA 1;
     EOut PIC1_DATA a1; EOut PIC2_DATA a2] k).
Proof.
  intros a1 a2. unfold irq_init, io_wait.
  repeat (eapply bind_then; [first [apply inb_eq | apply outb_eq | reflexivity]|]; cbv beta).
  rewrite !logged_logged. cbn [app].
  rewrite !(w8_small (port_value _ _)) by apply port_value_range. done.
Qed.

(** The vector base the controllers take from ICW2 is the multiple of 8 in it. *)
Lemma icw2_vector x : 0 <= x < 256 -> x mod 8 = 0 -> Z.land (w8 x) 0xF8 = x.
Proof.
  intros Hx Hx8. rewrite w8_small by lia.
  assert (H : Forall (fun x => Z.land x 0xF8 = x) (Z.mul 8 <$> seqZ 0 32)) by (vm_compute; repeat constructor).
  rewrite Forall_forall in H. apply H. apply list_elem_of_fmap. exists (x / 8).
  split; [Z.div_mod_to_equations; lia|]. apply elem_of_seqZ. Z.div_mod_to_equations; lia.
Qed.

(** C38: irq_init leaves both controllers ready, in 8086 mode, the master at
    vectors [base] to [base + 7] with the slave on its line 2 and the slave at
    [base + 8] to [base + 15], whatever state they were in, and puts back the
    masks it read. *)
Theorem irq_init_programs_pics {HW : Hardware} base k ps :
  base mod 8 = 0 -> 0 <= base <= 240 ->
  let a1 := port_value k PIC1_DATA in
  let a2 := port_value (logged [EIn PIC1_DATA a1] k) PIC2_DATA in
  exists evs, irq_init base k = Ret 0 (logged evs k) /\
    pics_after ps evs = (Pic PicReady base 4 true a1, Pic PicReady (base + 8) 2 true a2).
Proof.
  intros Hm Hb a1 a2. eexists. split; [apply irq_init_eq|]. fold a1 a2. clearbody a1 a2.
  destruct ps as [[] []]. pic_steps.
  assert ((base + 8) mod 8 = 0) by (Z.div_mod_to_equations; lia).
  by rewrite Z.add_0_r, (icw2_vector base), (icw2_vector (base + 8)) by lia.
Qed.

Definition example_masks (p : Z) : Z := if p =? 0x21 then 0xB8 else 0x8E.

Lemma irq_init_programs_pics_witness :
  exists evs, @irq_init (fixed_hw example_masks) PICS_BASE (boot_state ∅) = Ret 0 (logged evs (boot_state ∅)) /\
    pics_after (Pic PicReady 8 0 false 0, Pic PicReady 0x70 0 false 0) evs =
      (Pic PicReady 0x20 4 true 0xB8, Pic PicReady 0x28 2 true 0x8E).
Proof.
  destruct (@irq_init_programs_pics (fixed_hw example_masks) PICS_BASE (boot_state ∅)
    (Pic PicReady 8 0 false 0, Pic PicReady 0x70 0 false 0)) as (evs & H1 & H2).
  - reflexivity.
  - unfold PICS_BASE. lia.
  - exists evs.
    split; [exact H1|]. rewrite H2. vm_compute. reflexivity.
Defined.

(** Masking and unmasking on the value of the mask register. *)
Definition set_line (v i : Z) : Z := w8 (Z.lor v (Z.shiftl 1 i)).
Definition clear_line (v i : Z) : Z := w8 (Z.land v (Z.lnot (Z.shiftl 1 i))).

Lemma w8_testbit v j : 0 <= j < 8 -> Z.testbit (w8 v) j = Z.testbit v j.
Proof. intros. unfold w8. change 256 with (2 ^ 8). apply Z.mod_pow2_bits_low. lia. Qed.

Lemma one_shift_testbit i j : 0 <= i -> 0 <= j -> Z.testbit (Z.shiftl 1 i) j = (i =? j).
Proof. intros. by rewrite Z.shiftl_1_l, Z.pow2_bits_eqb. Qed.

Lemma set_line_testbit v i j : 0 <= i -> 0 <= j < 8 ->
  Z.testbit (set_line v i) j = Z.testbit v j || (i =? j).
Proof. intros. unfold set_line. by rewrite w8_testbit, Z.lor_spec, one_shift_testbit by lia. Qed.

Lemma clear_line_testbit v i j : 0 <= i -> 0 <= j < 8 ->
  Z.testbit (clear_line v i) j = Z.testbit v j && negb (i =? j).
Proof.
  intros. unfold clear_line. by rewrite w8_testbit, Z.land_spec, Z.lnot_spec, one_shift_testbit by lia.
Qed.

Lemma shl1_eq i k : 0 <= i < 8 -> shl1 i k = Ret (Z.shiftl 1 i) k.
Proof.
  intros Hi. unfold shl1. destruct (Z.leb_spec 0 i), (Z.ltb_spec i 32); try lia. cbn [andb].
  rewrite s32_small; [done|]. rewrite Z.shiftl_1_l. unfold INT_MIN.
  assert (2 ^ i <= 2 ^ 7) by (apply Z.pow_le_mono_r; lia). pose proof (Z.pow_pos_nonneg 2 i). lia.
Qed.

(** The data port and the bit of an interrupt line. *)
Definition line_port (irq : Z) : Z := if irq <? 8 then PIC1_DATA else PIC2_DATA.

Lemma irq_unmask_eq {HW : Hardware} irq k : 0 <= irq < 16 ->
  let v := port_value k (line_port irq) in
  irq_unmask irq k = Ret tt (logged [EIn (line_port irq) v; EOut (line_port irq) (clear_line v (irq mod 8))] k).
Proof.
  intros Hirq v. unfold irq_unmask. subst v. unfold line_port. destruct (Z.leb_spec 16 irq); [lia|].
  destruct (Z.ltb_spec irq 8);
    (eapply bind_then; [apply inb_eq|]; eapply bind_then; [apply shl1_eq; lia|]);
    rewrite outb_eq, logged_logged; cbn [app]; rewrite (w8_small (w8 _)) by apply w8_range.
  - by rewrite Z.mod_small by lia.
  - by replace (irq mod 8) with (irq - 8) by (Z.div_mod_to_equations; lia).
Qed.

Lemma irq_mask_eq {HW : Hardware} irq k : 0 <= irq < 16 ->
  let v := port_value k (line_port irq) in
  irq_mask irq k = Ret tt (logged [EIn (line_port irq) v; EOut (line_port irq) (set_line v (irq mod 8))] k).
Proof.
  intros Hirq v. unfold irq_mask. subst v. unfold line_port.
  destruct (Z.ltb_spec irq 8);
    (eapply bind_then; [apply inb_eq|]; eapply bind_then; [apply shl1_eq; lia|]);
    rewrite outb_eq, logged_logged; cbn [app]; rewrite (w8_small (w8 _)) by apply w8_range.
  - by rewrite Z.mod_small by lia.
  - by replace (irq mod 8) with (irq - 8) by (Z.div_mod_to_equations; lia).
Qed.

Lemma same_line irq j : 0 <= irq < 16 -> 0 <= j < 16 ->
  ((irq <? 8) = (j <? 8) -> (irq mod 8 =? j mod 8) = (irq =? j)) /\
  ((irq <? 8) <> (j <? 8) -> (irq =? j) = false).
Proof.
  intros Hi Hj. destruct (Z.ltb_spec irq 8), (Z.ltb_spec j 8), (Z.eqb_spec irq j),
    (Z.eqb_spec (irq mod 8) (j mod 8)); split; intros; try done; Z.div_mod_to_equations; lia.
Qed.

(** On controllers that are ready and answer a read with their mask,
    irq_unmask enables the one line asked for on the controller that owns it
    and leaves the fifteen others as they were, irq_mask disables it, and each
    undoes the other's effect on that line. *)
Theorem irq_mask_unmask_lines {HW : Hardware} irq k ps :
  0 <= irq < 16 -> phase ps.1 = PicReady -> phase ps.2 = PicReady ->
  port_value k (line_port irq) = imr (if irq <? 8 then ps.1 else ps.2) ->
  let line (ps : pic * pic) (j : Z) :=
    Z.testbit (imr (if j <? 8 then ps.1 else ps.2)) (j mod 8) in
  (exists evs, irq_unmask irq k = Ret tt (logged evs k) /\
     forall j, 0 <= j < 16 -> line (pics_after ps evs) j = line ps j && negb (irq =? j)) /\
  (exists evs, irq_mask irq k = Ret tt (logged evs k) /\
     forall j, 0 <= j < 16 -> line (pics_after ps evs) j = line ps j || (irq =? j)).
Proof.
  intros Hirq H1 H2 Hv line. destruct ps as [p1 p2]. cbn [fst snd] in *.
  split; eexists; (split; [first [by apply irq_unmask_eq | by apply irq_mask_eq]|]);
    intros j Hj; destruct (same_line irq j Hirq Hj) as [Hsame Hother];
    unfold line, pics_after, line_port in *;
    destruct (Z.ltb_spec irq 8), (Z.ltb_spec j 8); cbn -[Z.testbit Z.modulo clear_line set_line];
    unfold pic_data; rewrite ?H1, ?H2; cbn [imr]; rewrite ?Hv;
    rewrite ?clear_line_testbit, ?set_line_testbit by (apply Z.mod_pos_bound; lia);
    first [by rewrite (Hsame eq_refl) | rewrite Hother by done; by rewrite ?andb_true_r, ?orb_false_r].
Qed.

Definition example_pics : pic * pic := (Pic PicReady 0x20 4 true 0xFB, Pic PicReady 0x28 2 true 0xFF).

Lemma irq_mask_unmask_lines_witness :
  exists evs, @irq_unmask (fixed_hw (fun _ => 0xFB)) 4 (boot_state ∅) = Ret tt (logged evs (boot_state ∅)) /\
    Z.testbit (imr (pics_after example_pics evs).1) 4 = false /\
    Z.testbit (imr (pics_after example_pics evs).1) 3 = true.
Proof.
  destruct (@irq_mask_unmask_lines (fixed_hw (fun _ => 0xFB)) 4 (boot_state ∅) example_pics)
    as [(evs & He & Hl) _].
  - lia.
  - reflexivity.
  - reflexivity.
  - vm_compute. reflexivity.
  - exists evs. split; [exact He|].
    split; [exact (Hl 4 ltac:(lia))|exact (Hl 3 ltac:(lia))].
Defined.

(** An end of interrupt as irq_send_eoi signals it. *)
Lemma irq_send_eoi_eq irq k :
  irq_send_eoi irq k = Ret tt (logged
    ((if 8 <=? irq then [EOut PIC2_COMMAND PIC_EOI] else []) ++ [EOut PIC1_COMMAND PIC_EOI]) k).
Proof.
  unfold irq_send_eoi, when. destruct (8 <=? irq); (eapply bind_then; [reflexivity|]);
    rewrite outb_eq, ?logged_logged; done.
Qed.
