(* ===== verification/Interrupts.v ===== *)
(** The interrupt descriptor table, the handler table and the common interrupt
    entry (src/interrupts.c, inc/interrupts.h), with the register dumps of
    src/tools/registers.c. *)
From S2P Require Import Prelude Memory State Console Kprintf Pic.
Local Open Scope Z_scope.
Local Open Scope kern_scope.

(** * inc/interrupts.h *)

Definition IDT_SIZE : Z := 256.
Definition SEG_PRESENT : Z := Z.shiftl 1 7.
(** [(0 << 5 && 0 << 6)]. *)
Definition _RING_LVL_0 : Z := b2z (negb (Z.shiftl 0 5 =? 0) && negb (Z.shiftl 0 6 =? 0)).
Definition SIZE_OF_GATE_32 : Z := 0x0E.

(** * src/interrupts.c *)

Definition exception_messages : list string :=
  ["Division By Zero"; "Debug"; "Non Maskable Interrupt"; "Breakpoint"; "Into Detected Overflow";
   "Out of Bounds"; "Invalid Opcode"; "No Coprocessor"; "Double fault";
   "Coprocessor Segment Overrun"; "Bad TSS"; "Segment not present"; "Stack fault";
   "General protection fault"; "Page fault"; "Unknown Interrupt"; "Coprocessor Fault";
   "Alignment Fault"; "Machine Check"; "Reserved"; "Reserved"; "Reserved"; "Reserved"; "Reserved";
   "Reserved"; "Reserved"; "Reserved"; "Reserved"; "Reserved"; "Reserved"; "Reserved"; "Reserved"].

(** [a[n] = v] for a static array of 256: outside it, undefined behaviour. *)
Definition in_table (n : Z) (m : prog kst unit) : prog kst unit :=
  if (0 <=? n) && (n <? 256) then m else undef.

Definition register_irq_handler (int_number : Z) (h : handler) : prog kst unit :=
  in_table int_number (modify (set_handlers <[Z.to_nat int_number := Some h]>)).

Definition interrupts_set_isr (n : Z) (isr : Z) (flags : Z) : prog kst unit :=
  if IDT_SIZE <=? n then skip
  else in_table n (modify (set_idt <[Z.to_nat n := IdtEntry
         (Z.land isr 0x0000FFFF) 0x08 0x00 (w8 flags) (Z.shiftr (Z.land isr 0xFFFF0000) 16)]>)).

(** The vectors interrupts_init gives an entry, in its order. *)
Definition isr_vectors : list Z :=
  [0; 1; 2; 3; 4; 5; 6; 7; 8; 9; 10; 11; 12; 13; 14; 16; 17; 18; 19; 20; 30; 31; 32; 33; 36].

Section interrupts.
Context {HW : Hardware} {LY : Layout}.

(** ** src/tools/registers.c *)

Definition read_cr (n : Z) : prog kst Z :=
  v ← gets (fun k => s32 (hw_cr (trace k) n));
  emit (EReadCr n v);;
  mret v.

Definition print_cr0 : prog kst unit := value ← read_cr 0; kprintf ("cr0 => %p" +:+ nl) [AInt value];; skip.
Definition print_cr2 : prog kst Z :=
  value ← read_cr 2; kprintf ("cr2 => %p" +:+ nl) [AInt value];; mret value.
Definition print_cr3 : prog kst unit := value ← read_cr 3; kprintf ("cr3 => %p" +:+ nl) [AInt value];; skip.
Definition print_cr4 : prog kst unit := value ← read_cr 4; kprintf ("cr4 => %p" +:+ nl) [AInt value];; skip.

(** ** Loading the table *)

Definition load_idt_register : prog kst unit := emit (ELidt sym_g_idt (w16 (8 * IDT_SIZE - 1))).

Definition enable_interrupts : prog kst unit := emit ESti.

Definition interrupts_init : prog kst unit :=
  modify (set_idt (fun _ => replicate 256 (IdtEntry 0 0 0 0 0)));;
  let flags := w8 (Z.lor (Z.lor SEG_PRESENT _RING_LVL_0) SIZE_OF_GATE_32) in
  foldr (fun n rest => interrupts_set_isr n (sym_isr n) flags;; rest) skip isr_vectors;;
  load_idt_register;;
  enable_interrupts.

(** ** The common entry *)

(** What irq_handler prints of an exception before it stops. *)
Definition exception_report (r : regs) : prog kst unit :=
  msg ← of_option (exception_messages !! Z.to_nat (r_int_no r));
  kprintf ("Unhandled interrupt: %s" +:+ nl) [AStr (Some msg)];;
  kprintf ("Error code: %d b%b" +:+ nl) [AInt (r_err_code r); AInt (r_err_code r)];;
  print_cr0;;
  kprintf ("int_no: %d" +:+ nl) [AInt (r_int_no r)];;
  kprintf ("EIP: 0x%x" +:+ nl) [AInt (r_eip r)];;
  kprintf ("CS: 0x%x" +:+ nl) [AInt (r_cs r)];;
  kprintf ("EFLAGS: 0x%x" +:+ nl) [AInt (r_eflags r)];;
  kprintf ("ESP: 0x%x" +:+ nl) [AInt (r_useresp r)];;
  kprintf ("SS: %x" +:+ nl) [AInt (r_ss r)];;
  kprintf ("DS: 0x%x" +:+ nl) [AInt (r_ds r)];;
  kprintf ("ES: 0x%x" +:+ nl) [AInt (r_es r)];;
  kprintf ("FS: 0x%x" +:+ nl) [AInt (r_fs r)];;
  kprintf ("GS: 0x%x" +:+ nl) [AInt (r_gs r)];;
  kprintf ("EDI: 0x%x" +:+ nl) [AInt (r_edi r)];;
  kprintf ("ESI: 0x%x" +:+ nl) [AInt (r_esi r)];;
  kprintf ("EBP: 0x%x" +:+ nl) [AInt (r_ebp r)];;
  kprintf ("ESP: 0x%x" +:+ nl) [AInt (r_esp r)];;
  kprintf ("EBX: 0x%x" +:+ nl) [AInt (r_ebx r)];;
  kprintf ("EDX: 0x%x" +:+ nl) [AInt (r_edx r)];;
  kprintf ("ECX: 0x%x" +:+ nl) [AInt (r_ecx r)];;
  kprintf ("EAX: 0x%x" +:+ nl) [AInt (r_eax r)];;
  kprintf ("Stoping the kernel" +:+ nl) [];;
  skip.

(** [call] runs the function a slot of g_handlers points to. *)
Definition irq_handler (call : handler -> regs -> prog kst unit) (r : regs) : prog kst unit :=
  h ← gets g_handlers;
  slot ← of_option (h !! Z.to_nat (r_int_no r));
  match slot with Some f => call f r | None => skip end;;
  if (32 <=? r_int_no r) && (r_int_no r <? 48) then irq_send_eoi (r_int_no r)
  else when (r_int_no r <? 32) (exception_report r;; spin).

End interrupts.

(** * The table as the processor reads it

    The eight bytes of an entry, laid out as the packed structure, and the
    processor's reading of an 8-byte gate descriptor. *)

Definition bytes16 (x : Z) : list Z := [x mod 256; x / 256 mod 256].

Definition idt_bytes (e : idt_entry) : list Z :=
  bytes16 (offset_low e) ++ bytes16 (sgm_selector e) ++ [idt_zero e mod 256; idt_flags e mod 256]
    ++ bytes16 (offset_high e).

Record cpu_gate := CpuGate {
  gate_present : bool;
  gate_dpl : Z;
  gate_type : Z;
  gate_selector : Z;
  gate_offset : Z
}.

Definition decode_gate (bs : list Z) : option cpu_gate :=
  match bs with
  | [b0; b1; b2; b3; b4; b5; b6; b7] =>
      Some (CpuGate (Z.testbit b5 7) (getf 5 2 b5) (getf 0 5 b5) (b2 + 256 * b3)
              (b0 + 256 * b1 + 65536 * b6 + 16777216 * b7))
  | _ => None
  end.

(** A 32-bit interrupt gate of ring 0 to [isr] in the kernel code segment. *)
Definition interrupt_gate (isr : Z) : cpu_gate := CpuGate true 0 0x0E 0x08 isr.

(** The gate of a vector in a table. *)
Definition idt_gate (t : list idt_entry) (v : Z) : option cpu_gate :=
  e ← t !! Z.to_nat v; decode_gate (idt_bytes e).

Definition isr_entry (isr flags : Z) : idt_entry :=
  IdtEntry (Z.land isr 0x0000FFFF) 0x08 0x00 (w8 flags) (Z.shiftr (Z.land isr 0xFFFF0000) 16).

Lemma isr_entry_offset isr : 0 <= isr < 4294967296 ->
  Z.land isr 0x0000FFFF = isr mod 65536 /\ Z.shiftr (Z.land isr 0xFFFF0000) 16 = isr / 65536.
Proof.
  intros H. change 0x0000FFFF with (Z.ones 16).
  rewrite Z.land_ones, Z.shiftr_land, Z.shiftr_div_pow2 by lia. split; [done|].
  change (Z.shiftr 0xFFFF0000 16) with (Z.ones 16). rewrite Z.land_ones by lia.
  change (2 ^ 16) with 65536. apply Z.mod_small. Z.div_mod_to_equations; lia.
Qed.

Lemma isr_entry_gate isr : 0 <= isr < 4294967296 ->
  decode_gate (idt_bytes (isr_entry isr 0x8E)) = Some (interrupt_gate isr).
Proof.
  intros H. unfold isr_entry. destruct (isr_entry_offset isr H) as [-> ->].
  unfold idt_bytes, bytes16, interrupt_gate. cbn -[Z.div Z.modulo Z.mul Z.add Z.testbit w8].
  do 2 f_equal. Z.div_mod_to_equations. lia.
Qed.

Lemma interrupts_set_isr_eq n isr flags k : 0 <= n < 256 ->
  interrupts_set_isr n isr flags k = Ret tt (set_idt <[Z.to_nat n := isr_entry isr flags]> k).
Proof.
  intros Hn. unfold interrupts_set_isr, in_table, IDT_SIZE.
  destruct (Z.leb_spec 256 n), (Z.leb_spec 0 n), (Z.ltb_spec n 256); try lia. done.
Qed.

(** The table after entries for [vs]. *)
Definition with_isrs (isr : Z -> Z) (flags : Z) (vs : list Z) (t : list idt_entry) : list idt_entry :=
  foldl (fun t v => <[Z.to_nat v := isr_entry (isr v) flags]> t) t vs.

Lemma set_isrs_eq isr flags vs k : Forall (fun v => 0 <= v < 256) vs ->
  foldr (fun n rest => interrupts_set_isr n (isr n) flags;; rest) skip vs k
  = Ret tt (set_idt (with_isrs isr flags vs) k).
Proof.
  intros Hvs. revert k. induction Hvs as [|v vs Hv Hvs IH]; intros k; cbn [foldr].
  - by destruct k.
  - erewrite bind_ret_eq by (by apply interrupts_set_isr_eq). rewrite IH. done.
Qed.

Lemma with_isrs_length isr flags vs t : length (with_isrs isr flags vs t) = length t.
Proof.
  unfold with_isrs. revert t. induction vs as [|v vs IH]; intros t; cbn; [done|].
  by rewrite IH, length_insert.
Qed.

Lemma with_isrs_lookup isr flags vs t v : Forall (fun v => 0 <= v < 256) (v :: vs) ->
  length t = 256%nat ->
  with_isrs isr flags vs t !! Z.to_nat v =
  if bool_decide (v ∈ vs) then Some (isr_entry (isr v) flags) else t !! Z.to_nat v.
Proof.
  intros Hall. apply Forall_cons in Hall as [Hv Hvs]. revert t.
  induction vs as [|u vs IH] using rev_ind; intros t Ht; [done|].
  apply Forall_app in Hvs as [Hvs [Hu _]%Forall_cons]. unfold with_isrs in *.
  rewrite foldl_app. cbn. rewrite list_lookup_insert, (IH Hvs t Ht).
  change (foldl _ t vs) with (with_isrs isr flags vs t). rewrite with_isrs_length.
  rewrite Ht. destruct (decide (u = v)) as [->|Hne].
  - rewrite decide_True by lia. by rewrite bool_decide_eq_true_2 by set_solver.
  - rewrite decide_False by lia.
    by rewrite (bool_decide_ext (v ∈ vs ++ [u]) (v ∈ vs)) by set_solver.
Qed.

Lemma interrupts_init_spec {LY : Layout} k :
  (forall v, 0 <= sym_isr v < 4294967296) ->
  exists t, interrupts_init k = Ret tt (logged [ELidt sym_g_idt 2047; ESti] (set_idt (fun _ => t) k)) /\
    length t = 256%nat /\
    forall v, 0 <= v < 256 ->
      if bool_decide (v ∈ isr_vectors) then idt_gate t v = Some (interrupt_gate (sym_isr v))
      else exists g, idt_gate t v = Some g /\ gate_present g = false.
Proof.
  intros Hisr. set (t0 := replicate 256 (IdtEntry 0 0 0 0 0)).
  assert (Hvs : Forall (fun v => 0 <= v < 256) isr_vectors)
    by (refine (bool_decide_unpack _ _); vm_compute; exact I).
  exists (with_isrs sym_isr 0x8E isr_vectors t0). split_and!.
  - unfold interrupts_init. eapply bind_then; [done|]. cbv zeta.
    change (w8 (Z.lor (Z.lor SEG_PRESENT _RING_LVL_0) SIZE_OF_GATE_32)) with 0x8E.
    eapply bind_then; [by apply set_isrs_eq|].
    unfold load_idt_register, enable_interrupts.
    eapply bind_then; [reflexivity|]. unfold emit, modify. by rewrite logged_logged.
  - by rewrite with_isrs_length.
  - intros v Hv. unfold idt_gate. rewrite with_isrs_lookup; [|by constructor|done].
    case_bool_decide; [by apply isr_entry_gate|].
    assert (t0 !! Z.to_nat v = Some (IdtEntry 0 0 0 0 0)) as -> by (apply lookup_replicate; split; [done|lia]).
    by eexists.
Qed.

(** After interrupts_init the processor reads, at each of the 256 vectors, a
    present 32-bit interrupt gate of ring 0 to that vector's entry point when
    it is one of the twenty-five the kernel handles, and a gate that is not
    present otherwise, whatever the table held; the register is loaded with
    the whole table and interrupts are enabled after that, and only then. *)
Theorem interrupts_init_idt {LY : Layout} k :
  (forall v, 0 <= sym_isr v < 4294967296) ->
  exists t, interrupts_init k = Ret tt (logged [ELidt sym_g_idt 2047; ESti] (set_idt (fun _ => t) k)) /\
    length t = 256%nat /\
    forall v, 0 <= v < 256 ->
      if bool_decide (v ∈ isr_vectors) then idt_gate t v = Some (interrupt_gate (sym_isr v))
      else exists g, idt_gate t v = Some g /\ gate_present g = false.
Proof. apply interrupts_init_spec. Qed.

Lemma interrupts_init_idt_witness :
  exists t, @interrupts_init example_layout (boot_state ∅)
      = Ret tt (logged [ELidt 0xC0110000 2047; ESti] (set_idt (fun _ => t) (boot_state ∅))) /\
    idt_gate t 14 = Some (interrupt_gate 0xC01000E0) /\
    exists g, idt_gate t 15 = Some g /\ gate_present g = false.
Proof.
  destruct (@interrupts_init_idt example_layout (boot_state ∅)) as (t & H1 & _ & H2).
  - intros v. cbn. Z.div_mod_to_equations. lia.
  - exists t. split; [exact H1|]. split; [exact (H2 14 ltac:(lia))|exact (H2 15 ltac:(lia))].
Defined.

(** ** Dispatch *)

Section dispatch.
Context {HW : Hardware} (call : handler -> regs -> prog kst unit).

(** The table the handlers are looked up in, the slot of the interrupt taken. *)
Definition slot_run (r : regs) (slot : option handler) : prog kst unit :=
  match slot with Some f => call f r | None => skip end.

Lemma irq_handler_slot r slot k : g_handlers k !! Z.to_nat (r_int_no r) = Some slot ->
  irq_handler call r k =
  (slot_run r slot;;
   if (32 <=? r_int_no r) && (r_int_no r <? 48) then irq_send_eoi (r_int_no r)
   else when (r_int_no r <? 32) (exception_report r;; spin)) k.
Proof.
  intros Hs. unfold irq_handler. eapply bind_then; [reflexivity|].
  rewrite Hs. eapply bind_then; [reflexivity|]. done.
Qed.

(** ** The report of an exception, as it is read on the line *)

Definition report_line (label : string) (bs : list Z) : list Z := chars label ++ bs ++ [10].

Definition report_head (msg : string) (r : regs) : list Z :=
  report_line "Unhandled interrupt: " (chars msg) ++
  report_line "Error code: " (dec_word (r_err_code r) ++ chars " b" ++ show_nbr "01" (s32 (r_err_code r))).

Definition report_tail (r : regs) (cr0 : Z) : list Z :=
  report_line "cr0 => " (show_ptr (w32 cr0)) ++
  report_line "int_no: " (dec_word (r_int_no r)) ++
  report_line "EIP: 0x" (hex_word (r_eip r)) ++
  report_line "CS: 0x" (hex_word (r_cs r)) ++
  report_line "EFLAGS: 0x" (hex_word (r_eflags r)) ++
  report_line "ESP: 0x" (hex_word (r_useresp r)) ++
  report_line "SS: " (hex_word (r_ss r)) ++
  report_line "DS: 0x" (hex_word (r_ds r)) ++
  report_line "ES: 0x" (hex_word (r_es r)) ++
  report_line "FS: 0x" (hex_word (r_fs r)) ++
  report_line "GS: 0x" (hex_word (r_gs r)) ++
  report_line "EDI: 0x" (hex_word (r_edi r)) ++
  report_line "ESI: 0x" (hex_word (r_esi r)) ++
  report_line "EBP: 0x" (hex_word (r_ebp r)) ++
  report_line "ESP: 0x" (hex_word (r_esp r)) ++
  report_line "EBX: 0x" (hex_word (r_ebx r)) ++
  report_line "EDX: 0x" (hex_word (r_edx r)) ++
  report_line "ECX: 0x" (hex_word (r_ecx r)) ++
  report_line "EAX: 0x" (hex_word (r_eax r)) ++
  report_line "Stoping the kernel" [].

(** The events of a report made in [k]: two lines, the reading of cr0, the rest. *)
Definition reported (msg : string) (r : regs) (k : kst) : list event :=
  let head := line_bytes k (report_head msg r) in
  let cr0 := s32 (hw_cr (trace k ++ head) 0) in
  head ++ [EReadCr 0 cr0] ++ line_bytes k (report_tail r cr0).

Lemma exception_message n : 0 <= n < 32 -> exists msg, exception_messages !! Z.to_nat n = Some msg /\ cstr_ok msg.
Proof.
  intros Hn. destruct (lookup_lt_is_Some_2 exception_messages (Z.to_nat n)) as [m Hm]; [cbn; lia|].
  exists m. split; [done|].
  assert (Hall : Forall cstr_ok exception_messages) by (refine (bool_decide_unpack _ _); vm_compute; exact I).
  rewrite Forall_forall in Hall. by eapply Hall, list_elem_of_lookup_2.
Qed.

(** A line of the report: a label and a directive. *)
Lemma render_line fmt label d ap o : chars fmt = chars label ++ [37; d; 10] ->
  forallb (fun c => negb (c =? 37)) (chars label) = true -> directive d ap = Some (o, []) ->
  render (chars fmt) ap = Some (report_line label o).
Proof.
  intros -> Hl Hd. unfold report_line. apply render_text; [done|]. by eapply render_directive.
Qed.

Lemma render_error v : s32 v <> INT_MIN ->
  render (chars ("Error code: %d b%b" +:+ nl)) [AInt v; AInt v] =
    Some (report_line "Error code: " (dec_word v ++ chars " b" ++ show_nbr "01" (s32 v))).
Proof.
  intros Hv. change (chars ("Error code: %d b%b" +:+ nl)) with (chars "Error code: " ++ 37 :: 100 :: (chars " b" ++ [37; 98; 10])).
  unfold report_line. rewrite <- !app_assoc. apply render_text; [reflexivity|].
  apply (render_directive _ _ _ _ [AInt v]); [apply Z.eqb_neq in Hv; unfold directive; cbn -[s32 INT_MIN show_nbr]; by rewrite Hv|].
  apply render_text; [reflexivity|]. eapply render_directive; [|reflexivity].
  apply Z.eqb_neq in Hv; unfold directive; cbn -[s32 INT_MIN show_nbr]; by rewrite Hv.
Qed.

(** [report_step k label o] runs the next kprintf of a report made in [k], the
    line of [label] and [o]. *)
Ltac report_step k label o :=
  match goal with H : printed _ k _ |- _ =>
    apply wp_bind; eapply (wp_kprintf_printed _ _ (report_line label o) _ k);
      [exact H|ok_const|eapply render_line; [vm_compute; reflexivity|vm_compute; reflexivity|]|];
      [first [apply directive_hex|apply directive_ptr|by apply directive_dec|by apply directive_msg]|clear H; intros ? ? ?]
  end.

Lemma wp_exception_report r k msg (Q : unit -> kst -> Prop) : 0 <= r_int_no r < 32 -> s32 (r_err_code r) <> INT_MIN ->
  exception_messages !! Z.to_nat (r_int_no r) = Some msg ->
  (forall k', printed (reported msg r k) k k' -> Q tt k') -> wp (exception_report r) Q k.
Proof.
  intros Hn He Hmsg HQ.
  assert (Hok : cstr_ok msg) by (destruct (exception_message _ Hn) as (m & Hm & ?); congruence).
  assert (Hno : s32 (r_int_no r) <> INT_MIN) by (rewrite s32_small; unfold INT_MIN; lia).
  pose proof (printed_nil k) as H0. unfold exception_report. apply wp_bind. eapply wp_of_option; [exact Hmsg|].
  report_step k "Unhandled interrupt: " (chars msg).
  apply wp_bind. eapply (wp_kprintf_printed _ _ _ _ k); [eassumption|ok_const|by apply render_error|]. intros _ k2 H2.
  unfold print_cr0, read_cr. do 3 apply wp_bind. apply wp_gets, wp_bind, wp_emit, wp_ret.
  rewrite (printed_trace _ _ _ H2). cbn [app] in H2 |- *.
  remember (s32 (hw_cr _ 0)) as cr0 eqn:Hcr0. rewrite <- line_bytes_app in Hcr0. fold (report_head msg r) in Hcr0.
  match goal with H : printed _ k ?a, _ : printed _ k k2 |- _ => lazymatch a with k2 => fail | _ => clear H end end.
  apply (printed_logged _ [EReadCr 0 cr0]) in H2.
  report_step k "cr0 => " (show_ptr (w32 cr0)). apply wp_ret.
  report_step k "int_no: " (dec_word (r_int_no r)).
  report_step k "EIP: 0x" (hex_word (r_eip r)).
  report_step k "CS: 0x" (hex_word (r_cs r)).
  report_step k "EFLAGS: 0x" (hex_word (r_eflags r)).
  report_step k "ESP: 0x" (hex_word (r_useresp r)).
  report_step k "SS: " (hex_word (r_ss r)).
  report_step k "DS: 0x" (hex_word (r_ds r)).
  report_step k "ES: 0x" (hex_word (r_es r)).
  report_step k "FS: 0x" (hex_word (r_fs r)).
  report_step k "GS: 0x" (hex_word (r_gs r)).
  report_step k "EDI: 0x" (hex_word (r_edi r)).
  report_step k "ESI: 0x" (hex_word (r_esi r)).
  report_step k "EBP: 0x" (hex_word (r_ebp r)).
  report_step k "ESP: 0x" (hex_word (r_esp r)).
  report_step k "EBX: 0x" (hex_word (r_ebx r)).
  report_step k "EDX: 0x" (hex_word (r_edx r)).
  report_step k "ECX: 0x" (hex_word (r_ecx r)).
  report_step k "EAX: 0x" (hex_word (r_eax r)).
  apply wp_bind. eapply (wp_kprintf_printed _ _ (report_line "Stoping the kernel" []) _ k); [eassumption|ok_const|reflexivity|].
  intros ? ? Hend. apply wp_ret, HQ. unfold reported. cbv zeta. rewrite <- Hcr0. unfold report_head, report_tail.
  rewrite !line_bytes_app, <- !app_assoc. rewrite <- !app_assoc in Hend. exact Hend.
Qed.

(** The report prints, and then the kernel stops. *)
Lemma exception_report_printed r k msg : 0 <= r_int_no r < 32 -> s32 (r_err_code r) <> INT_MIN ->
  exception_messages !! Z.to_nat (r_int_no r) = Some msg ->
  stops (exception_report r;; spin : prog kst unit) (printed (reported msg r k) k) k.
Proof. intros Hn He Hmsg. apply stops_bind. apply (wp_exception_report r k msg); [done..|]. intros k' Hk'. by apply stops_spin. Qed.

Lemma exception_report_stops r k : 0 <= r_int_no r < 32 -> s32 (r_err_code r) <> INT_MIN ->
  stops (exception_report r;; spin : prog kst unit) (quiet k) k.
Proof.
  intros Hn He. destruct (exception_message _ Hn) as (msg & Hmsg & _).
  destruct (stops_elim _ _ _ (exception_report_printed r k msg Hn He Hmsg)) as (k' & Hs & Hk').
  unfold stops. rewrite Hs. by eapply printed_quiet.
Qed.
End dispatch.

Lemma register_irq_handler_eq n h k : 0 <= n < 256 ->
  register_irq_handler n h k = Ret tt (set_handlers <[Z.to_nat n := Some h]> k).
Proof.
  intros Hn. unfold register_irq_handler, in_table.
  destruct (Z.leb_spec 0 n), (Z.ltb_spec n 256); try lia. done.
Qed.

(** C20: an interrupt whose registered function returns (as it does when there is
    none; the page fault's never does) ends as its vector says. A device interrupt
    (32 to 47) is acknowledged on both controllers whatever its line and the
    function's result stands; a software interrupt (48 and up) needs no
    acknowledgement; an exception (below 32, its error code not the smallest int,
    which would never finish printing) always stops the kernel for ever, even when
    its function has dealt with it, after sending on the serial line exactly
    the report: the name of the exception, the error code in bases ten and two, cr0,
    the vector, every register of the structure in hexadecimal, and the last
    line; nothing but the trace and the byte counter then differs from the state
    that the function left. *)
Theorem irq_handler_dispatch {HW : Hardware} (call : handler -> regs -> prog kst unit) r slot k k1 :
  0 <= r_int_no r -> g_handlers k !! Z.to_nat (r_int_no r) = Some slot ->
  slot_run call r slot k = Ret tt k1 ->
  (32 <= r_int_no r < 48 ->
     irq_handler call r k =
       Ret tt (logged [EOut PIC2_COMMAND PIC_EOI; EOut PIC1_COMMAND PIC_EOI] k1)) /\
  (48 <= r_int_no r -> irq_handler call r k = Ret tt k1) /\
  (r_int_no r < 32 -> s32 (r_err_code r) <> INT_MIN ->
     exists msg, exception_messages !! Z.to_nat (r_int_no r) = Some msg /\
       stops (irq_handler call r) (fun k' => exists d, k' = set_disp_count d (logged (reported msg r k1) k1)) k).
Proof.
  intros Hn Hslot Hrun. unfold stops. rewrite (irq_handler_slot call r slot k Hslot).
  rewrite (bind_ret_eq _ _ _ _ _ Hrun). cbv beta. split_and!; intros.
  - rewrite (proj2 (Z.leb_le _ _)), (proj2 (Z.ltb_lt _ _)) by lia. cbn [andb].
    rewrite irq_send_eoi_eq. rewrite (proj2 (Z.leb_le _ _)) by lia. done.
  - rewrite (proj2 (Z.leb_le 32 _)), (proj2 (Z.ltb_ge _ _)) by lia. cbn [andb].
    by rewrite (proj2 (Z.ltb_ge _ _)) by lia.
  - destruct (exception_message (r_int_no r)) as (msg & Hmsg & _); [lia|]. exists msg. split; [done|].
    rewrite (proj2 (Z.leb_gt 32 _)) by lia. cbn [andb]. unfold when.
    rewrite (proj2 (Z.ltb_lt _ 32)) by lia. by apply exception_report_printed.
Qed.

Definition example_regs (n : Z) : regs :=
  Regs 0 0 0 0 0 0 0 0 0x10 0x10 0x10 0x10 0x10 n 0 0xC0101234 0x08 0x202 0 0.

Lemma irq_handler_dispatch_witness :
  let call (h : handler) (r : regs) : prog kst unit := modify (set_ticks 7) in
  let k := set_handlers <[33%nat := Some keyboard_handler_ptr]> (boot_state ∅) in
  @irq_handler (fixed_hw (fun _ => 0)) call (example_regs 33) k
    = Ret tt (logged [EOut 0xA0 0x20; EOut 0x20 0x20] (set_ticks 7 k)) /\
  exists msg, msg = "Breakpoint" /\ stops (@irq_handler (fixed_hw (fun _ => 0)) call (example_regs 3))
    (fun k' => exists d, k' = set_disp_count d (logged (@reported (fixed_hw (fun _ => 0)) msg (example_regs 3) k) k)) k.
Proof.
  intros call k. split.
  - apply (@irq_handler_dispatch (fixed_hw (fun _ => 0)) call (example_regs 33)
      (Some keyboard_handler_ptr) k (set_ticks 7 k)); cbn; try reflexivity; lia.
  - destruct (@irq_handler_dispatch (fixed_hw (fun _ => 0)) call (example_regs 3) None k k) as (_ & _ & H);
      [cbn; lia|reflexivity|reflexivity|].
    destruct H as (msg & Hm & H); [cbn; lia|vm_compute; discriminate|]. exists msg.
    split; [injection Hm as <-; reflexivity|exact H].
Defined.
