(* ===== verification/Segmentation.v ===== *)
(** The global descriptor table and the task state segment
    (src/segmentation.c, inc/segmentation.h). *)
From S2P Require Import Prelude Memory State Console Kprintf.
Local Open Scope Z_scope.
Local Open Scope kern_scope.

(** * inc/segmentation.h *)

Definition GDT_SIZE : Z := 6.
Definition SEGMENT_BASE : Z := 0x00000000.
Definition SEGMENT_LIMIT : Z := 0xFFFFFFFF.
Definition GRANULARITY_ENABLE : Z := 0x1.
Definition GRANULARITY_DISABLE : Z := 0x0.
Definition GDT_SEG_PRESENT : Z := Z.shiftl 1 7.
Definition GDT_SEG_NOT_PRESENT : Z := Z.shiftl 0 7.
Definition RING_LVL_0 : Z := Z.shiftl 0 5.
Definition RING_LVL_3 : Z := Z.shiftl 3 5.
Definition DTYPE_SYSTEM : Z := Z.shiftl 0 4.
Definition DTYPE_CODE_OR_DATA : Z := Z.shiftl 1 4.
Definition DPB_DATA_RW : Z := 2.
Definition DPB_CODE_ER : Z := 10.
Definition DPB_DATA_RO : Z := 0.
(** sizeof(tss_entry_t): twenty-five words and two half words. *)
Definition sizeof_tss : Z := 104.
Definition sizeof_gdt_entry : Z := 8.

(** [a || b | c ...], the flags of an access byte. *)
Definition or4 (a b c d : Z) : Z := w8 (Z.lor (Z.lor (Z.lor a b) c) d).

(** The entry that set_gdt_entry's assignments leave. *)
Definition new_gdt_entry (base limit access gran : Z) : gdt_entry :=
  GdtEntry
    (Z.land limit 0xffff)
    (Z.land base 0xffff)
    (Z.land (Z.shiftr base 16) 0xff)
    access
    (Z.land (Z.shiftr limit 16) 0xf)
    0x0 0x0 0x1
    (gran mod 2)
    (Z.land (Z.shiftr base 24) 0xff).

Section segmentation.
Context {HW : Hardware} {LY : Layout}.

Definition set_gdt_entry (n base limit access gran : Z) : prog kst Z :=
  if GDT_SIZE <=? n then mret (-1)
  else if n <? 0 then undef
  else
    modify (set_gdt <[Z.to_nat n := new_gdt_entry base limit access gran]>);;
    kprintf ("GDT[%d]: base: %p, limit: %p, access: %x, granularity: %b" +:+ nl)
      [AInt n; AInt base; AInt (Z.land limit 0xffff); AInt access; AInt gran];;
    mret 0.

Definition set_tss_entry (n ss0 esp0 : Z) : prog kst Z :=
  if GDT_SIZE <=? n then mret (-1)
  else
    let base := w32 sym_g_tss in
    let limit := w32 (base + sizeof_tss) in
    set_gdt_entry n base limit 0xe9 0x0;;
    modify (set_tss (TssEntry 0 0 0 0 0 0 0 0));;
    let sel := Z.lor 0x10 0x3 in
    modify (set_tss (TssEntry esp0 ss0 (Z.lor 0x08 0x3) sel sel sel sel sel));;
    kprintf ("TSS: base: %p, limit: %p, ss0: %p, esp0: %p" +:+ nl)
      [AInt base; AInt limit; AInt ss0; AInt esp0];;
    mret 0.

Definition tss_set_esp (esp0 : Z) : prog kst unit :=
  modify (fun k => let t := g_tss k in
    set_tss (TssEntry esp0 (tss_ss0 t) (tss_cs t) (tss_ss t) (tss_ds t) (tss_es t) (tss_fs t)
      (tss_gs t)) k).

(** gdt_flush and tss_flush are in crt0.S: lgdt on the register that is built
    here, and ltr of selector 0x2B. *)
Definition flush_gdt_and_tss : prog kst unit :=
  emit (ELgdt sym_g_gdt (w16 (sizeof_gdt_entry * GDT_SIZE - 1)));;
  emit (ELtr 0x2B).

Definition init_flat_gdt : prog kst unit :=
  let access := or4 DPB_DATA_RO RING_LVL_0 GDT_SEG_NOT_PRESENT DTYPE_SYSTEM in
  set_gdt_entry 0 SEGMENT_BASE SEGMENT_BASE access GRANULARITY_DISABLE;;
  let access := or4 DPB_CODE_ER RING_LVL_0 GDT_SEG_PRESENT DTYPE_CODE_OR_DATA in
  set_gdt_entry 1 SEGMENT_BASE SEGMENT_LIMIT access GRANULARITY_ENABLE;;
  let access := or4 DPB_DATA_RW RING_LVL_0 GDT_SEG_PRESENT DTYPE_CODE_OR_DATA in
  set_gdt_entry 2 SEGMENT_BASE SEGMENT_LIMIT access GRANULARITY_ENABLE;;
  let access := or4 DPB_CODE_ER RING_LVL_3 GDT_SEG_PRESENT DTYPE_CODE_OR_DATA in
  set_gdt_entry 3 SEGMENT_BASE SEGMENT_LIMIT access GRANULARITY_ENABLE;;
  let access := or4 DPB_DATA_RW RING_LVL_3 GDT_SEG_PRESENT DTYPE_CODE_OR_DATA in
  set_gdt_entry 4 SEGMENT_BASE SEGMENT_LIMIT access GRANULARITY_ENABLE;;
  set_tss_entry 5 0x10 (w32 hw_esp);;
  flush_gdt_and_tss.

End segmentation.

(** * The table as the processor reads it *)

(** The eight bytes of an entry, laid out as the packed structure. *)
Definition gdt_bytes (e : gdt_entry) : list Z :=
  [limit_low e mod 256; limit_low e / 256 mod 256; base_low e mod 256; base_low e / 256 mod 256;
   base_mid e mod 256; access e mod 256;
   limit_high e mod 16 + 16 * (gdt_avl e mod 2) + 32 * (gdt_l e mod 2) + 64 * (d_b e mod 2)
     + 128 * (gdt_g e mod 2);
   base_high e mod 256].

(** A segment: its base, its last valid offset, present, ring, whether it is a
    code or data segment (or else a system one), its type and its 32-bit flag. *)
Record segment := Segment {
  sgm_base : Z;
  sgm_last : Z;
  sgm_present : bool;
  sgm_dpl : Z;
  sgm_user : bool;
  sgm_type : Z;
  sgm_32 : bool
}.

Definition decode_segment (bs : list Z) : option segment :=
  match bs with
  | [b0; b1; b2; b3; b4; b5; b6; b7] =>
      let limit := b0 + 256 * b1 + 65536 * getf 0 4 b6 in
      Some (Segment (b2 + 256 * b3 + 65536 * b4 + 16777216 * b7)
              (if Z.testbit b6 7 then limit * 4096 + 4095 else limit)
              (Z.testbit b5 7) (getf 5 2 b5) (Z.testbit b5 4) (getf 0 4 b5) (Z.testbit b6 6))
  | _ => None
  end.

Definition gdt_segment (t : list gdt_entry) (n : Z) : option segment :=
  e ← t !! Z.to_nat n; decode_segment (gdt_bytes e).

(** Types of segments: code that can be executed and read, data that can be
    read and written, an available 32-bit TSS. *)
Definition CODE_ER : Z := 10.
Definition DATA_RW : Z := 2.
Definition TSS_AVAILABLE : Z := 9.

Lemma land_low n v : 0 <= n -> Z.land v (Z.ones n) = v mod 2 ^ n.
Proof. apply Z.land_ones. Qed.

(** What the processor reads in an entry is what set_gdt_entry was given. *)
Lemma new_gdt_entry_segment base limit acc gran :
  0 <= base < 4294967296 -> 0 <= limit < 4294967296 -> 0 <= acc < 256 -> 0 <= gran < 2 ->
  decode_segment (gdt_bytes (new_gdt_entry base limit acc gran)) =
  Some (Segment base (if gran =? 1 then limit mod 1048576 * 4096 + 4095 else limit mod 1048576)
          (Z.testbit acc 7) (getf 5 2 acc) (Z.testbit acc 4) (getf 0 4 acc) true).
Proof.
  intros Hb Hl Ha Hg. unfold new_gdt_entry.
  change 0xffff with (Z.ones 16). change 0xff with (Z.ones 8). change 0xf with (Z.ones 4).
  rewrite !Z.land_ones, !Z.shiftr_div_pow2 by lia.
  unfold gdt_bytes, decode_segment. cbn [limit_low base_low base_mid access limit_high gdt_avl gdt_l
    d_b gdt_g base_high]. rewrite (Z.mod_small acc 256) by lia.
  set (b6 := _ mod 16 + _ + _ + _ + _).
  assert (H7 : Z.testbit b6 7 = (gran =? 1)).
  { apply eq_true_iff_eq. rewrite Z.testbit_true, Z.eqb_eq by lia. subst b6.
    change (2 ^ 7) with 128. change (2 ^ 16) with 65536. change (2 ^ 4) with 16.
    Z.div_mod_to_equations; lia. }
  assert (H6 : Z.testbit b6 6 = true).
  { apply Z.testbit_true; [lia|]. subst b6.
    change (2 ^ 6) with 64. change (2 ^ 16) with 65536. change (2 ^ 4) with 16.
    Z.div_mod_to_equations; lia. }
  assert (H0 : getf 0 4 b6 = limit / 65536 mod 16).
  { subst b6. bf. }
  rewrite H7, H6, H0. clear H7 H6 H0 b6.
  change (2 ^ 16) with 65536. change (2 ^ 8) with 256. change (2 ^ 24) with 16777216.
  f_equal. f_equal; [|destruct (gran =? 1)]; Z.div_mod_to_equations; lia.
Qed.

Section gdt_proofs.
Context {HW : Hardware} {LY : Layout}.

Lemma wp_set_gdt_entry n base limit acc gran (Q : Z -> kst -> Prop) k :
  0 <= n < 6 -> 0 <= gran < 256 ->
  (forall k', quiet (set_gdt <[Z.to_nat n := new_gdt_entry base limit acc gran]> k) k' -> Q 0 k') ->
  wp (set_gdt_entry n base limit acc gran) Q k.
Proof.
  intros Hn Hg HQ. unfold set_gdt_entry, GDT_SIZE.
  destruct (Z.leb_spec 6 n), (Z.ltb_spec n 0); try lia.
  assert (s32 n <> INT_MIN) by word_lia. assert (s32 gran <> INT_MIN) by word_lia.
  wp_go. kp. wp_go. by apply HQ.
Qed.

Lemma quiet_set_gdt f k k' : quiet k k' -> quiet (set_gdt f k) (set_gdt f k').
Proof. intros (t & d & ->). by exists t, d. Qed.

Lemma quiet_set_tss v k k' : quiet k k' -> quiet (set_tss v k) (set_tss v k').
Proof. intros (t & d & ->). by exists t, d. Qed.

Definition kernel_tss (ss0 esp0 : Z) : tss_entry := TssEntry esp0 ss0 0x0B 0x13 0x13 0x13 0x13 0x13.

Lemma wp_set_tss_entry n ss0 esp0 (Q : Z -> kst -> Prop) k :
  0 <= n < 6 ->
  (forall k', quiet (set_tss (kernel_tss ss0 esp0) (set_gdt <[Z.to_nat n :=
      new_gdt_entry (w32 sym_g_tss) (w32 (w32 sym_g_tss + sizeof_tss)) 0xe9 0]> k)) k' -> Q 0 k') ->
  wp (set_tss_entry n ss0 esp0) Q k.
Proof.
  intros Hn HQ. unfold set_tss_entry, GDT_SIZE. destruct (Z.leb_spec 6 n); [lia|].
  wp_go. apply wp_set_gdt_entry; [lia..|]. intros k1 Hk1. wp_go. kp. wp_go.
  apply HQ. etrans; [apply quiet_set_tss, Hk1|]. done.
Qed.

(** Chains the entries written since the table was the first state's. *)
Ltac gdt_chain :=
  match goal with
  | H1 : quiet ?a ?b, H2 : quiet (set_gdt ?f ?b) ?c |- _ =>
      pose proof (transitivity (quiet_set_gdt f _ _ H1) H2); clear H1 H2
  | H1 : quiet ?a ?b, H2 : quiet (set_tss ?v (set_gdt ?f ?b)) ?c |- _ =>
      pose proof (transitivity (quiet_set_tss v _ _ (quiet_set_gdt f _ _ H1)) H2); clear H1 H2
  end.

(** The flat table: the null entry, the two kernel segments, the two user
    segments and the task state segment. *)
Definition flat_gdt : list gdt_entry :=
  [new_gdt_entry 0 0 0 0; new_gdt_entry 0 0xFFFFFFFF 0x9A 1; new_gdt_entry 0 0xFFFFFFFF 0x92 1;
   new_gdt_entry 0 0xFFFFFFFF 0xFA 1; new_gdt_entry 0 0xFFFFFFFF 0xF2 1;
   new_gdt_entry (w32 sym_g_tss) (w32 (w32 sym_g_tss + sizeof_tss)) 0xe9 0].

Lemma wp_init_flat_gdt (Q : unit -> kst -> Prop) k :
  length (g_gdt k) = 6%nat ->
  (forall k', quiet (set_tss (kernel_tss 0x10 (w32 hw_esp)) (set_gdt (fun _ => flat_gdt) k)) k' ->
     Q tt (logged [ELgdt sym_g_gdt 47; ELtr 0x2B] k')) ->
  wp init_flat_gdt Q k.
Proof.
  intros Hlen HQ. unfold init_flat_gdt, or4. cbv zeta.
  assert (Hq : quiet k k) by done.
  do 5 (wp_go; apply wp_set_gdt_entry; [lia|done|]; intros ? ?; gdt_chain).
  wp_go; apply wp_set_tss_entry; [lia|]; intros ? ?; gdt_chain.
  unfold flush_gdt_and_tss. wp_go. rewrite logged_logged. apply HQ.
  destruct (g_gdt k) as [|e0 [|e1 [|e2 [|e3 [|e4 [|e5 [|]]]]]]] eqn:Hg; try done.
  match goal with H : quiet _ ?x |- quiet _ ?x => rewrite <- H end.
  clear - Hg. destruct k; cbn in Hg; subst. apply reflexivity.
Qed.
End gdt_proofs.

(** C32: after init_flat_gdt the processor reads a ring 0 code and a ring 0
    data segment, a ring 3 code and a ring 3 data segment, each present, 32-bit
    and covering the four gigabytes from 0, and at 0x28, which it then loads in
    the task register with ring 3, a present system segment that is an available
    32-bit TSS based at g_tss; its limit is the address after the structure
    (modulo a megabyte) and not the structure's size. The TSS has the stack in
    use, in the kernel data segment, for ring 0. RAM and every other part of
    the state are left alone. *)
Theorem init_flat_gdt_segments {HW : Hardware} {LY : Layout} k :
  length (g_gdt k) = 6%nat ->
  ⟨ k ⟩ init_flat_gdt ⟨ _, k' |
    (exists k0, quiet (set_tss (g_tss k') (set_gdt (fun _ => g_gdt k') k)) k0 /\
       k' = logged [ELgdt sym_g_gdt 47; ELtr (8 * 5 + 3)] k0) /\
    gdt_segment (g_gdt k') 1 = Some (Segment 0 0xFFFFFFFF true 0 true CODE_ER true) /\
    gdt_segment (g_gdt k') 2 = Some (Segment 0 0xFFFFFFFF true 0 true DATA_RW true) /\
    gdt_segment (g_gdt k') 3 = Some (Segment 0 0xFFFFFFFF true 3 true CODE_ER true) /\
    gdt_segment (g_gdt k') 4 = Some (Segment 0 0xFFFFFFFF true 3 true DATA_RW true) /\
    gdt_segment (g_gdt k') 5 = Some (Segment (w32 sym_g_tss)
       (w32 (sym_g_tss + sizeof_tss) mod 1048576) true 3 false TSS_AVAILABLE true) /\
    tss_esp0 (g_tss k') = w32 hw_esp /\ tss_ss0 (g_tss k') = 0x10 ⟩.
Proof.
  intros Hlen. apply wp_init_flat_gdt; [done|]. intros k0 Hq.
  assert (Hg : g_gdt k0 = flat_gdt) by (destruct Hq as (? & ? & ->); done).
  assert (Ht : g_tss k0 = kernel_tss 0x10 (w32 hw_esp)) by (destruct Hq as (? & ? & ->); done).
  unfold logged. cbn [g_gdt g_tss set_trace]. rewrite Hg, Ht.
  split; [exists k0; by split|].
  assert (Hseg : forall n e, flat_gdt !! Z.to_nat n = Some e ->
    gdt_segment flat_gdt n = decode_segment (gdt_bytes e)).
  { intros n e He. unfold gdt_segment. by rewrite He. }
  split_and!; try done;
    (erewrite Hseg by reflexivity; rewrite new_gdt_entry_segment; [|first [apply w32_range | lia]..]);
    try reflexivity.
  cbn [Z.eqb]. by rewrite w32_add_l.
Qed.

Lemma init_flat_gdt_segments_witness :
  @wp kst unit (@init_flat_gdt (fixed_hw (fun _ => 0)) example_layout) (fun _ k' =>
    gdt_segment (g_gdt k') 3 = Some (Segment 0 0xFFFFFFFF true 3 true CODE_ER true) /\
    gdt_segment (g_gdt k') 5 =
      Some (Segment 0xC0112000 0x12068 true 3 false TSS_AVAILABLE true)) (boot_state ∅).
Proof.
  eapply wp_mono.
  - apply (@init_flat_gdt_segments (fixed_hw (fun _ => 0)) example_layout (boot_state ∅)). reflexivity.
  - cbv beta. intros _ k' (_ & _ & _ & H3 & _ & H5 & _). split; [exact H3|].
    rewrite H5. reflexivity.
Defined.
