(* ===== verification/Devices.v ===== *)
(** The drivers: timer (src/pit.c), delays (src/time.c), keyboard (src/kb.c)
    and the initialisation and interrupt of the UART (src/uart.c). *)
From S2P Require Import Prelude Memory State Console Kprintf Vga Pic Interrupts.
Local Open Scope Z_scope.
Local Open Scope kern_scope.

(** * inc/pit.h, inc/kb.h, inc/serial_port.h *)

Definition COUNTER_0 : Z := 0x40.
Definition COUNTER_REG : Z := 0x43.
Definition SC_0 : Z := 0x00.
Definition MODE_2 : Z := 0x40.
Definition FREQUENCY : Z := 1193182.
Definition IO_BUFFER : Z := 0x60.
Definition SERIAL_PORT : Z := 0x3F8.
Definition ERR_UART_BADADDR : string := "ERR_UART_BADADDR".
Definition ERR_UART_ALREADYINIT : string := "ERR_UART_ALREADYINIT".

Definition KEYBOARD_US : list Z :=
  [0; 27; 49; 50; 51; 52; 53; 54; 55; 56;
   57; 48; 45; 61; 8;
   9;
   113; 119; 101; 114;
   116; 121; 117; 105; 111; 112; 91; 93; 10;
   0;
   97; 115; 100; 102; 103; 104; 106; 107; 108; 59;
   39; 96; 0;
   92; 122; 120; 99; 118; 98; 110;
   109; 44; 46; 47; 0;
   42;
   0;
   32;
   0;
   0;
   0; 0; 0; 0; 0; 0; 0; 0;
   0;
   0;
   0;
   0;
   0;
   0;
   45;
   0;
   0;
   0;
   43] ++ replicate 49 0.

Section devices.
Context {HW : Hardware}.

(** * src/pit.c *)

Definition pit_handler (r : regs) : prog kst unit := modify (fun k => set_ticks (w32 (ticks k + 1)) k).

Definition pit_init (freq : Z) : prog kst Z :=
  if freq =? 0 then undef
  else
    let divisor := w32 (Z.quot FREQUENCY freq) in
    irq_unmask 0;;
    outb COUNTER_REG (Z.lor SC_0 MODE_2);;
    outb COUNTER_0 (Z.land divisor 0x00ff);;
    outb COUNTER_0 (Z.land (Z.shiftr divisor 8) 0x00ff);;
    register_irq_handler 32 pit_handler_ptr;;
    mret 0.

Definition pit_get_ticks : prog kst Z := gets ticks.

(** * src/time.c

    The loop of sleep reads a variable that only the timer interrupt changes.
    [polls] lists what happened between a reading and the next: each element
    is run (the interrupts taken meanwhile) before the counter is read. The
    list bounds how long the sleeper is observed. *)

Fixpoint sleep_loop (polls : list (prog kst unit)) (start duration : Z) : prog kst unit :=
  match polls with
  | [] => nofuel
  | p :: polls' =>
      p;;
      t ← pit_get_ticks;
      if duration <? w32 (t - start) then mret tt else sleep_loop polls' start duration
  end.

Definition sleep (polls : list (prog kst unit)) (duration : Z) : prog kst unit :=
  start ← pit_get_ticks;
  let duration := w32 (duration * 100) in
  sleep_loop polls start duration.

(** * src/kb.c *)

Definition kb_get_key : prog kst Z :=
  v ← inb IO_BUFFER;
  let c := s8 v in
  sc ← gets send_char;
  if negb (sc =? c)
  then modify (set_send_char c);; (if 0 <? c then mret c else mret 0)
  else mret 0.

Definition getchar : prog kst Z :=
  key ← kb_get_key;
  if key <? 0 then undef else of_option (KEYBOARD_US !! Z.to_nat key).

Definition keyboard_handler (r : regs) : prog kst unit :=
  c ← getchar; uart_putchar (w8 c).

Definition kb_init : prog kst unit :=
  irq_unmask 1;;
  register_irq_handler 33 keyboard_handler_ptr.

(** * src/uart.c *)

Definition uart_handler (r : regs) : prog kst unit :=
  printk "UART : ";;
  c ← uart_recv;
  uart_putchar (w8 (s8 c));;
  uart_putchar 10.

Definition uart_init (addr : Z) : prog kst unit :=
  if negb (addr =? SERIAL_PORT) then printk ERR_UART_BADADDR
  else
    a ← gets uart_addr;
    if addr =? a then printk ERR_UART_ALREADYINIT
    else
      modify (set_uart_addr addr);;
      outb (addr + 1) 0x01;;
      outb (addr + 2) 0x00;;
      outb (addr + 3) 0x80;;
      outb (addr + 0) 0x03;;
      outb (addr + 1) 0x00;;
      outb (addr + 3) 0x03;;
      outb (addr + 4) 0x0B;;
      irq_unmask 4;;
      register_irq_handler 36 uart_handler_ptr.

End devices.

(** * Proofs *)

(** ** The delay *)

Section delay.

(** A poll during which [n] timer interrupts are taken, in states that satisfy
    [J], which the interrupts keep. *)
Definition timer_poll (J : kst -> Prop) (n : Z) (p : prog kst unit) : Prop :=
  forall k, J k -> exists k', p k = Ret tt k' /\ J k' /\ ticks k' = w32 (ticks k + n).

(** The readings of the counter, as ticks since the start: the first one
    above the duration, if any, ends the delay. *)
Fixpoint first_over (d acc : Z) (ns : list Z) : option Z :=
  match ns with
  | [] => None
  | n :: ns' => if d <? acc + n then Some (acc + n) else first_over d (acc + n) ns'
  end.

Lemma sleep_loop_spec (J : kst -> Prop) polls ns d start : Forall2 (timer_poll J) ns polls ->
  0 <= d -> Forall (fun n => 0 <= n /\ d + n < 4294967296) ns ->
  forall acc k, J k -> 0 <= acc <= d -> ticks k = w32 (start + acc) ->
  match first_over d acc ns with
  | Some t => exists k', sleep_loop polls start d k = Ret tt k' /\ J k' /\ ticks k' = w32 (start + t)
  | None => sleep_loop polls start d k = NoFuel
  end.
Proof.
  intros Hp Hd. induction Hp as [|n p ns polls Hnp Hp IH]; intros Hns acc k HJ Hacc Ht; [done|].
  apply Forall_cons in Hns as [[Hn Hdn] Hns]. cbn [first_over sleep_loop].
  destruct (Hnp k HJ) as (k1 & He & HJ1 & Ht1).
  assert (Ht1' : ticks k1 = w32 (start + (acc + n))).
  { rewrite Ht1, Ht, w32_add_l. f_equal. lia. }
  assert (Hdiff : w32 (ticks k1 - start) = acc + n) by (rewrite Ht1'; word_lia).
  destruct (Z.ltb_spec d (acc + n)) as [Hlt|Hge].
  - exists k1. split; [|by split].
    rewrite (bind_ret_eq _ _ _ _ _ He). eapply bind_then; [reflexivity|].
    rewrite Hdiff. by rewrite (proj2 (Z.ltb_lt _ _) Hlt).
  - specialize (IH Hns (acc + n) k1 HJ1 ltac:(lia) Ht1').
    assert (Hrw : sleep_loop (p :: polls) start d k = sleep_loop polls start d k1).
    { cbn [sleep_loop]. rewrite (bind_ret_eq _ _ _ _ _ He). eapply bind_then; [reflexivity|].
      rewrite Hdiff. by rewrite (proj2 (Z.ltb_ge _ _) Hge). }
    cbn [sleep_loop] in Hrw. by rewrite Hrw.
Qed.

(** The delay ends as soon as the ticks counted pass the duration. *)
Lemma first_over_sum d b acc ns : Forall (fun n => 0 <= n <= b) ns -> acc <= d ->
  match first_over d acc ns with
  | Some t => d < t <= d + b /\ d < acc + foldr Z.add 0 ns
  | None => acc + foldr Z.add 0 ns <= d
  end.
Proof.
  intros Hns. revert acc. induction Hns as [|n ns Hn Hns IH]; intros acc Hacc; cbn [first_over foldr]; [lia|].
  assert (0 <= foldr Z.add 0 ns) by (clear - Hns; induction Hns; cbn; lia).
  destruct (Z.ltb_spec d (acc + n)); [lia|]. specialize (IH (acc + n) ltac:(lia)).
  destruct (first_over d (acc + n) ns); lia.
Qed.
End delay.

Lemma sleep_spec (J : kst -> Prop) d b ns polls k : J k -> Forall2 (timer_poll J) ns polls ->
  let n := w32 (d * 100) in
  Forall (fun x => 0 <= x <= b) ns -> n + b < 4294967296 -> 0 <= ticks k < 4294967296 ->
  (foldr Z.add 0 ns <= n -> sleep polls d k = NoFuel) /\
  (n < foldr Z.add 0 ns -> exists t k', sleep polls d k = Ret tt k' /\ J k' /\
     ticks k' = w32 (ticks k + t) /\ n < t <= n + b).
Proof.
  intros HJ Hp n Hns Hb Ht. unfold sleep.
  assert (Hn : 0 <= n < 4294967296) by apply w32_range.
  assert (Hns' : Forall (fun x => 0 <= x /\ n + x < 4294967296) ns)
    by (eapply Forall_impl; [exact Hns|]; cbv beta; lia).
  pose proof (sleep_loop_spec J polls ns n (ticks k) Hp ltac:(lia) Hns' 0 k HJ ltac:(lia)
    ltac:(by rewrite Z.add_0_r, w32_small)) as H1.
  pose proof (first_over_sum n b 0 ns Hns ltac:(lia)) as H2.
  split; intros Hsum; (destruct (first_over n 0 ns) as [t|]; [|try lia]); try lia.
  - eapply bind_then; [reflexivity|]. exact H1.
  - destruct H1 as (k' & H1 & HJ' & H1'). exists t, k'. split; [|by split; [|split; [|lia]]].
    eapply bind_then; [reflexivity|]. exact H1.
Qed.

(** Sleep(d) waits for d * 100 timer interrupts to have passed, computed
    modulo 2^32, and one more. Observed over polls between which [ns] timer
    interrupts are taken, at most [b] at a time, it is still waiting as long as
    their sum is at most d * 100, and it has returned once the sum is above,
    having waited more than d * 100 ticks and at most [b] beyond that; this
    holds across a wrap of the counter. *)
Theorem sleep_waits (J : kst -> Prop) d b ns polls k : J k -> Forall2 (timer_poll J) ns polls ->
  let n := w32 (d * 100) in
  Forall (fun x => 0 <= x <= b) ns -> n + b < 4294967296 -> 0 <= ticks k < 4294967296 ->
  (foldr Z.add 0 ns <= n -> sleep polls d k = NoFuel) /\
  (n < foldr Z.add 0 ns -> exists t k', sleep polls d k = Ret tt k' /\ J k' /\
     ticks k' = w32 (ticks k + t) /\ n < t <= n + b).
Proof. apply sleep_spec. Qed.

Definition tick_poll (n : Z) : prog kst unit := modify (fun k => set_ticks (w32 (ticks k + n)) k).

Lemma sleep_waits_witness :
  exists t k', sleep (tick_poll <$> [60; 0; 41; 7]) 1 (set_ticks 4294967290 (boot_state ∅)) = Ret tt k' /\
    ticks k' = w32 (4294967290 + t) /\ 100 < t <= 100 + 60.
Proof.
  destruct (sleep_waits (fun _ => True) 1 60 [60; 0; 41; 7] (tick_poll <$> [60; 0; 41; 7])
    (set_ticks 4294967290 (boot_state ∅))) as [_ H].
  - done.
  - repeat constructor; intros k _; eexists; by repeat split.
  - repeat constructor; lia.
  - vm_compute. reflexivity.
  - cbn. lia.
  - destruct H as (t & k' & He & _ & Ht & Hb); [vm_compute; reflexivity|].
    exists t, k'. split; [exact He|]. split; [exact Ht|exact Hb].
Defined.

(** ** The keyboard *)

Lemma KEYBOARD_US_length : length KEYBOARD_US = 128%nat.
Proof. reflexivity. Qed.

(** The key a scan code gives after another: a make code that differs from the
    last byte read; the rest (a release, an automatic repeat) gives none. *)
Definition key_of (last code : Z) : Z :=
  if (last =? s8 code) || (s8 code <=? 0) then 0 else s8 code.

Definition key_char (last code : Z) : Z := default 0 (KEYBOARD_US !! Z.to_nat (key_of last code)).

Section keyboard.
Context {HW : Hardware}.

Lemma kb_get_key_eq k :
  let code := port_value k IO_BUFFER in
  kb_get_key k = Ret (key_of (send_char k) code)
    (set_send_char (s8 code) (logged [EIn IO_BUFFER code] k)).
Proof.
  intros code. unfold kb_get_key. eapply bind_then; [apply inb_eq|].
  eapply bind_then; [reflexivity|]. fold code. change (w16 IO_BUFFER) with IO_BUFFER.
  change (send_char (logged _ k)) with (send_char k). unfold key_of.
  destruct (Z.eqb_spec (send_char k) (s8 code)) as [<-|Hne]; cbn [negb orb].
  - by destruct k.
  - eapply bind_then; [reflexivity|].
    destruct (Z.leb_spec (s8 code) 0), (Z.ltb_spec 0 (s8 code)); done || lia.
Qed.

Lemma key_of_range last code : 0 <= key_of last code < 128.
Proof. unfold key_of. pose proof (Z.mod_pos_bound (code + 128) 256).
  destruct (Z.eqb_spec last (s8 code)), (Z.leb_spec (s8 code) 0); cbn [orb]; unfold s8 in *; lia.
Qed.

Lemma getchar_eq k :
  let code := port_value k IO_BUFFER in
  getchar k = Ret (key_char (send_char k) code)
    (set_send_char (s8 code) (logged [EIn IO_BUFFER code] k)).
Proof.
  intros code. unfold getchar. eapply bind_then; [apply kb_get_key_eq|]. fold code.
  pose proof (key_of_range (send_char k) code) as Hr.
  rewrite (proj2 (Z.ltb_ge _ _)) by lia. unfold key_char.
  destruct (lookup_lt_is_Some_2 KEYBOARD_US (Z.to_nat (key_of (send_char k) code))) as [c Hc].
  { rewrite KEYBOARD_US_length. lia. }
  by rewrite Hc.
Qed.
End keyboard.

(** C39: the keyboard interrupt never reads outside the key table. It reads one
    scan code and sends one byte on the UART: the character of the key when the
    code is a key press that is not the byte read last, and NUL for a release,
    an automatic repeat or a key without a character. *)
Theorem keyboard_handler_echo {HW : Hardware} r k :
  let code := port_value k IO_BUFFER in
  exists c, keyboard_handler r k = Ret tt
      (logged [EIn IO_BUFFER code; EOut (w16 (uart_addr k)) c] (set_send_char (s8 code) k)) /\
    (1 <= code < 128 -> code <> send_char k -> KEYBOARD_US !! Z.to_nat code = Some c) /\
    (code = 0 \/ 128 <= code \/ s8 code = send_char k -> c = 0).
Proof.
  intros code. exists (key_char (send_char k) code).
  pose proof (port_value_range k IO_BUFFER) as Hr. fold code in Hr.
  assert (Hc : 0 <= key_char (send_char k) code < 256).
  { unfold key_char. assert (Hall : Forall (fun c => 0 <= c < 256) KEYBOARD_US)
      by (refine (bool_decide_unpack _ _); vm_compute; exact I).
    destruct (KEYBOARD_US !! _) eqn:Hl; [|cbn; lia]. rewrite Forall_forall in Hall.
    by eapply Hall, list_elem_of_lookup_2. }
  split_and!.
  - unfold keyboard_handler. eapply bind_then; [apply getchar_eq|]. fold code.
    rewrite uart_putchar_eq. unfold sent. cbn [uart_addr set_send_char logged set_trace].
    rewrite !(w8_small (w8 _)) by apply w8_range. rewrite w8_small by done.
    unfold logged, set_trace, set_send_char. cbn. by rewrite <- app_assoc.
  - intros Hcode Hne. unfold key_char, key_of.
    rewrite (proj2 (Z.eqb_neq _ _)), (proj2 (Z.leb_gt _ _)) by word_lia. cbn [orb].
    replace (s8 code) with code by word_lia.
    destruct (lookup_lt_is_Some_2 KEYBOARD_US (Z.to_nat code)) as [c Hl];
      [rewrite KEYBOARD_US_length; lia|]. by rewrite Hl.
  - intros Hnone. unfold key_char, key_of.
    assert ((send_char k =? s8 code) || (s8 code <=? 0) = true) as ->; [|done].
    destruct Hnone as [->|[?|<-]]; rewrite ?Z.eqb_refl; try done; rewrite ?orb_true_r; try done.
    apply orb_true_iff. right. word_lia.
Qed.

(** Pressing [a] (scan code 0x1E) sends [a]. *)
Lemma keyboard_handler_echo_witness :
  exists c, @keyboard_handler (fixed_hw (fun _ => 0x1E)) (example_regs 33) (boot_state ∅) =
      Ret tt (logged [EIn 0x60 0x1E; EOut 0 c] (set_send_char 0x1E (boot_state ∅))) /\ Some 97 = Some c.
Proof.
  destruct (@keyboard_handler_echo (fixed_hw (fun _ => 0x1E)) (example_regs 33) (boot_state ∅))
    as (c & H1 & H2 & _).
  exists c. split; [exact H1|]. rewrite <- H2; [reflexivity|vm_compute; split; congruence|vm_compute; congruence].
Defined.

(** ** The timer chip

    The three counters of the 8254, as its datasheet describes the control
    word: bits 7-6 select a counter, bits 5-4 its access (0 latches its count,
    3 is low byte then high byte), bits 3-1 its mode. *)

Record counter := Counter {
  c_access : Z;
  c_mode : Z;
  c_reload : Z;
  c_low : option Z;
  c_latched : bool
}.

Definition counter_control (c : counter) (v : Z) : counter :=
  if getf 4 2 v =? 0 then Counter (c_access c) (c_mode c) (c_reload c) (c_low c) true
  else Counter (getf 4 2 v) (getf 1 3 v) (c_reload c) None false.

Definition counter_data (c : counter) (v : Z) : counter :=
  if c_access c =? 1 then Counter 1 (c_mode c) v None (c_latched c)
  else if c_access c =? 2 then Counter 2 (c_mode c) (256 * v) None (c_latched c)
  else match c_low c with
       | None => Counter (c_access c) (c_mode c) (c_reload c) (Some v) (c_latched c)
       | Some l => Counter (c_access c) (c_mode c) (l + 256 * v) None (c_latched c)
       end.

Definition pit_event (cs : list counter) (e : event) : list counter :=
  match e with
  | EOut p v =>
      if p =? COUNTER_REG then
        if getf 6 2 v =? 3 then cs
        else alter (fun c => counter_control c v) (Z.to_nat (getf 6 2 v)) cs
      else if (COUNTER_0 <=? p) && (p <? COUNTER_REG)
      then alter (fun c => counter_data c v) (Z.to_nat (p - COUNTER_0)) cs
      else cs
  | _ => cs
  end.

Definition pit_after (cs : list counter) (evs : list event) : list counter := foldl pit_event cs evs.

Lemma unmask_registers_eq {HW : Hardware} irq n h k : 0 <= irq < 16 -> 0 <= n < 256 ->
  exists v, (irq_unmask irq;; register_irq_handler n h) k =
    Ret tt (set_handlers <[Z.to_nat n := Some h]>
      (logged [EIn (line_port irq) v; EOut (line_port irq) (clear_line v (irq mod 8))] k)).
Proof.
  intros Hi Hn. eexists. erewrite bind_ret_eq by (by apply irq_unmask_eq).
  by rewrite register_irq_handler_eq.
Qed.

Lemma pit_init_events {HW : Hardware} freq k : 19 <= freq <= FREQUENCY ->
  let v := port_value k (line_port 0) in
  pit_init freq k = Ret 0 (set_handlers <[32%nat := Some pit_handler_ptr]> (logged
    [EIn (line_port 0) v; EOut (line_port 0) (clear_line v 0); EOut 0x43 0x40;
     EOut 0x40 (w8 (Z.land (FREQUENCY / freq) 0x00ff));
     EOut 0x40 (w8 (Z.land (Z.shiftr (FREQUENCY / freq) 8) 0x00ff))] k)).
Proof.
  intros Hf v. unfold FREQUENCY in *. assert (Hd : 1 <= 1193182 / freq < 65536).
  { split; [apply Z.div_le_lower_bound; lia|apply Z.div_lt_upper_bound; lia]. }
  unfold pit_init. rewrite (proj2 (Z.eqb_neq _ _)) by lia. cbv zeta.
  unfold FREQUENCY. rewrite Z.quot_div_nonneg, w32_small by lia.
  eapply bind_then; [by apply irq_unmask_eq|]. do 3 (eapply bind_then; [apply outb_eq|]).
  eapply bind_then; [by apply register_irq_handler_eq|]. rewrite !logged_logged. done.
Qed.

Lemma pit_init_eq {HW : Hardware} freq k : 19 <= freq <= FREQUENCY ->
  exists v v', pit_init freq k = Ret 0 (set_handlers <[32%nat := Some pit_handler_ptr]> (logged
    [EIn (line_port 0) v; EOut (line_port 0) v'; EOut 0x43 0x40;
     EOut 0x40 (w8 (Z.land (FREQUENCY / freq) 0x00ff));
     EOut 0x40 (w8 (Z.land (Z.shiftr (FREQUENCY / freq) 8) 0x00ff))] k)).
Proof. intros Hf. do 2 eexists. by apply pit_init_events. Qed.

(** C35: for a frequency of 19 Hz (below, the divisor would not fit its sixteen bits) to
    FREQUENCY, and on a timer whose counter 0 the firmware has set for two-byte
    access, between two words, pit_init(freq) clears the mask bit of the timer's line
    and no other of the byte it reads, makes counter 0 reload with FREQUENCY / freq,
    low byte first, registers the timer's handler at vector 32 and answers 0. The
    control byte it sends (0x40) is a latch command for counter 1 under the
    datasheet's encoding: counter 1 is latched, and counter 0 stays in the mode
    the firmware chose. *)
Theorem pit_init_programs_counter {HW : Hardware} freq c0 c1 c2 k :
  19 <= freq <= FREQUENCY -> c_access c0 = 3 -> c_low c0 = None ->
  let v := port_value k PIC1_DATA in
  exists evs, pit_init freq k = Ret 0 (set_handlers <[32%nat := Some pit_handler_ptr]> (logged evs k)) /\
    take 2 evs = [EIn PIC1_DATA v; EOut PIC1_DATA (clear_line v 0)] /\
    pit_after [c0; c1; c2] evs =
      [Counter 3 (c_mode c0) (FREQUENCY / freq) None (c_latched c0);
       Counter (c_access c1) (c_mode c1) (c_reload c1) (c_low c1) true; c2].
Proof.
  intros Hf Ha Hl v. eexists. split; [by apply pit_init_events|]. split; [done|].
  change (port_value k (line_port 0)) with v. generalize (clear_line v 0). generalize v. clear v. intros v v'.
  unfold FREQUENCY in *. assert (Hd : 1 <= 1193182 / freq < 65536).
  { split; [apply Z.div_le_lower_bound; lia|apply Z.div_lt_upper_bound; lia]. }
  set (d := 1193182 / freq) in *.
  change 0x00ff with (Z.ones 8). rewrite !Z.land_ones, Z.shiftr_div_pow2 by lia.
  change (2 ^ 8) with 256. rewrite !(w8_small (_ mod 256)) by (apply Z.mod_pos_bound; lia).
  assert (Hd' : d = d mod 256 + 256 * (d / 256 mod 256)) by (Z.div_mod_to_equations; lia).
  revert Hd'. generalize (d mod 256) (d / 256 mod 256). intros lo hi Hd'.
  destruct c0 as [a m r l la], c1, c2; cbn in Ha, Hl; subst a l.
  rewrite Hd'. vm_compute. reflexivity.
Qed.

Lemma pit_init_programs_counter_witness :
  exists evs, @pit_init (fixed_hw (fun _ => 0xFF)) 100 (boot_state ∅)
      = Ret 0 (set_handlers <[32%nat := Some pit_handler_ptr]> (logged evs (boot_state ∅))) /\
    take 2 evs = [EIn 0x21 0xFF; EOut 0x21 0xFE] /\
    pit_after [Counter 3 3 0 None false; Counter 1 2 18 None false; Counter 3 3 0 None false] evs
    = [Counter 3 3 11931 None false; Counter 1 2 18 None true; Counter 3 3 0 None false].
Proof.
  destruct (@pit_init_programs_counter (fixed_hw (fun _ => 0xFF)) 100 (Counter 3 3 0 None false)
    (Counter 1 2 18 None false) (Counter 3 3 0 None false) (boot_state ∅)) as (evs & H1 & H2 & H3).
  - vm_compute. split; congruence.
  - reflexivity.
  - reflexivity.
  - exists evs. split; [exact H1|]. split; [rewrite H2; reflexivity|]. rewrite H3. reflexivity.
Defined.

(** ** The serial chip

    The 16550 registers, as its datasheet describes them: the divisor latch is
    behind the first two ports while bit 7 of the line control is set. *)

Record uart16550 := Uart16550 {
  u_ier : Z;
  u_fcr : Z;
  u_lcr : Z;
  u_mcr : Z;
  u_divisor : Z
}.

Definition uart_write (u : uart16550) (reg v : Z) : uart16550 :=
  let '(Uart16550 ier fcr lcr mcr dl) := u in
  let dlab := Z.testbit lcr 7 in
  match reg with
  | 0 => if dlab then Uart16550 ier fcr lcr mcr (dl / 256 * 256 + v) else u
  | 1 => if dlab then Uart16550 ier fcr lcr mcr (dl mod 256 + 256 * v)
         else Uart16550 v fcr lcr mcr dl
  | 2 => Uart16550 ier v lcr mcr dl
  | 3 => Uart16550 ier fcr v mcr dl
  | 4 => Uart16550 ier fcr lcr v dl
  | _ => u
  end.

Definition uart_event (base : Z) (u : uart16550) (e : event) : uart16550 :=
  match e with
  | EOut p v => if (base <=? p) && (p <? base + 8) then uart_write u (p - base) v else u
  | _ => u
  end.

Definition uart_after (base : Z) (u : uart16550) (evs : list event) : uart16550 :=
  foldl (uart_event base) u evs.

Lemma uart_init_eq {HW : Hardware} k : uart_addr k <> SERIAL_PORT ->
  exists v v', uart_init SERIAL_PORT k = Ret tt (set_handlers <[36%nat := Some uart_handler_ptr]>
    (logged [EOut 0x3F9 1; EOut 0x3FA 0; EOut 0x3FB 0x80; EOut 0x3F8 3; EOut 0x3F9 0; EOut 0x3FB 3;
       EOut 0x3FC 0x0B; EIn 0x21 v; EOut 0x21 v'] (set_uart_addr SERIAL_PORT k))).
Proof.
  intros Hne. do 2 eexists. unfold uart_init. rewrite Z.eqb_refl. cbn [negb].
  eapply bind_then; [reflexivity|].
  rewrite (proj2 (Z.eqb_neq _ _)) by auto. eapply bind_then; [reflexivity|].
  do 7 (eapply bind_then; [apply outb_eq|]). eapply bind_then; [by apply irq_unmask_eq|].
  rewrite register_irq_handler_eq, !logged_logged by done. reflexivity.
Qed.

Lemma uart_init_chip u v v' : Z.testbit (u_lcr u) 7 = false ->
  uart_after SERIAL_PORT u [EOut 0x3F9 1; EOut 0x3FA 0; EOut 0x3FB 0x80; EOut 0x3F8 3;
    EOut 0x3F9 0; EOut 0x3FB 3; EOut 0x3FC 0x0B; EIn 0x21 v; EOut 0x21 v']
  = Uart16550 1 0 0x03 0x0B 3.
Proof.
  destruct u as [ier fcr lcr mcr dl]. cbn [u_lcr]. intros Hl.
  transitivity (uart_after SERIAL_PORT (uart_write (Uart16550 ier fcr lcr mcr dl) 1 1)
    [EOut 0x3FA 0; EOut 0x3FB 0x80; EOut 0x3F8 3; EOut 0x3F9 0; EOut 0x3FB 3; EOut 0x3FC 0x0B;
     EIn 0x21 v; EOut 0x21 v']); [done|].
  unfold uart_write. rewrite Hl.
  transitivity (Uart16550 1 0 0x03 0x0B ((dl / 256 * 256 + 3) mod 256 + 256 * 0));
    [vm_compute; reflexivity|].
  f_equal. Z.div_mod_to_equations; lia.
Qed.

(** uart_init of the first serial port, once, sets the chip to 38400 baud
    (115200 / 3), 8 data bits, no parity, one stop bit, receive interrupts on,
    provided its divisor latch is closed at the start, opens interrupt line 4
    and registers the UART's handler; of another port, or a second time, it
    prints an error on the screen and changes neither the driver nor the
    handler table. *)
Theorem uart_init_sets_line {HW : Hardware} k u :
  (uart_addr k <> SERIAL_PORT -> Z.testbit (u_lcr u) 7 = false ->
   exists evs, uart_init SERIAL_PORT k =
       Ret tt (set_handlers <[36%nat := Some uart_handler_ptr]>
         (logged evs (set_uart_addr SERIAL_PORT k))) /\
     uart_after SERIAL_PORT u evs = Uart16550 1 0 0x03 0x0B (115200 / 38400)) /\
  (forall a, a <> SERIAL_PORT \/ uart_addr k = SERIAL_PORT ->
   exists m' evs, uart_init a k = Ret tt (logged evs (set_mem (fun _ => m') k)) /\
     forall b, ~ (TEXT_BASE <= b < TEXT_BASE + 2 * TEXT_CELLS) -> rd8 m' b = rd8 (mem k) b).
Proof.
  split.
  - intros Hne Hlcr. destruct (uart_init_eq k Hne) as (v & v' & He). eexists. split; [exact He|].
    by rewrite uart_init_chip.
  - intros a Ha. unfold uart_init. destruct (Z.eqb_spec a SERIAL_PORT) as [->|Hne]; cbn [negb].
    + destruct Ha as [?|Ha]; [done|].
      destruct (printk_frame ERR_UART_ALREADYINIT k) as (m' & evs & He & Hm); [ok_const..|].
      exists m', evs. split; [|done]. eapply bind_then; [reflexivity|]. by rewrite Ha, Z.eqb_refl.
    + apply printk_frame; ok_const.
Qed.

Lemma uart_init_sets_line_witness :
  (exists evs, @uart_init (fixed_hw (fun _ => 0xFF)) 0x3F8 (boot_state ∅) =
      Ret tt (set_handlers <[36%nat := Some uart_handler_ptr]>
        (logged evs (set_uart_addr 0x3F8 (boot_state ∅)))) /\
    uart_after 0x3F8 (Uart16550 0 0 0 0 12) evs = Uart16550 1 0 3 0x0B 3) /\
  exists m' evs, @uart_init (fixed_hw (fun _ => 0xFF)) 0x2F8 (boot_state ∅) =
    Ret tt (logged evs (set_mem (fun _ => m') (boot_state ∅))).
Proof.
  destruct (@uart_init_sets_line (fixed_hw (fun _ => 0xFF)) (boot_state ∅) (Uart16550 0 0 0 0 12))
    as [H1 H2].
  split; [apply H1; [discriminate|reflexivity]|].
  destruct (H2 0x2F8 ltac:(left; discriminate)) as (m' & evs & H & _). exists m', evs. exact H.
Defined.
