(* ===== verification/Serial.v ===== *)
(** The polled driver of the first serial port (src/serial_port.c). The kernel
    links the interrupt-driven one of src/uart.c in its place. *)
From S2P Require Import Prelude Memory State Console Interrupts Pic Devices.
Local Open Scope Z_scope.
Local Open Scope kern_scope.
Local Set Default Proof Using "Type*".

Section serial.
Context {HW : Hardware}.

Definition is_transmit_empty : prog kst Z := v ← inb (SERIAL_PORT + 5); mret (Z.land v 0x20).

Definition serial_received : prog kst Z := v ← inb (SERIAL_PORT + 5); mret (Z.land v 1).

Definition init_serial : prog kst unit :=
  outb (SERIAL_PORT + 3) 0x80;;
  outb (SERIAL_PORT + 0) 0x03;;
  outb (SERIAL_PORT + 1) 0x00;;
  outb (SERIAL_PORT + 3) 0x03.

(** [while (f() == 0) ;] *)
Definition wait_for (f : prog kst Z) : prog kst unit :=
  while32 (fun _ => r ← f; if r =? 0 then mret (inl tt) else mret (inr tt)) tt.

Definition write_serial (c : Z) : prog kst unit :=
  wait_for is_transmit_empty;; outb SERIAL_PORT c.

Definition read_serial : prog kst Z :=
  wait_for serial_received;; v ← inb SERIAL_PORT; mret (s8 v).

Definition printk_on_serial_port (str : string) : prog kst unit :=
  while32 (fun i =>
    c ← of_option (cstr_at str i);
    if negb (c =? 0) then write_serial c;; mret (inl (s32 (i + 1))) else mret (inr tt)) 0.

(** * Proofs *)

(** The line status register as the device would show it now. *)
Definition line_status (evs : list event) : Z := w8 (hw_in evs 0x3FD).

(** The device, polled from the history [evs] on, shows one of the bits of [mask]
    after [n] readings without. *)
Inductive ready_after (mask : Z) : nat -> list event -> Prop :=
| ready_now evs : Z.land (line_status evs) mask <> 0 -> ready_after mask 0 evs
| ready_later n evs : Z.land (line_status evs) mask = 0 ->
    ready_after mask n (evs ++ [EIn 0x3FD (line_status evs)]) -> ready_after mask (S n) evs.

(** Polls: readings of the line status, of which the last alone shows a bit. *)
Inductive polls (mask : Z) : list event -> Prop :=
| polls_last v : Z.land v mask <> 0 -> polls mask [EIn 0x3FD v]
| polls_cons v evs : Z.land v mask = 0 -> polls mask evs -> polls mask (EIn 0x3FD v :: evs).

Lemma wait_for_eq mask n k : ready_after mask n (trace k) -> Z.of_nat n < 2 ^ 33 ->
  exists evs, polls mask evs /\ length evs = S n /\
    wait_for (v ← inb (SERIAL_PORT + 5); mret (Z.land v mask)) k = Ret tt (logged evs k).
Proof.
  intros Hr Hn. unfold wait_for.
  set (body := fun _ : unit => r ← (v ← inb (SERIAL_PORT + 5); mret (Z.land v mask)); if r =? 0 then mret (inl tt) else mret (inr tt)).
  assert (H : exists evs, polls mask evs /\ length evs = S n /\ loops body n tt k tt (logged evs k)).
  { clear Hn. remember (trace k) as t eqn:Et. revert k Et. induction Hr as [t Hb|n t Hb Hr IH]; intros k Et.
    - exists [EIn 0x3FD (line_status t)]. split; [by constructor|]. split; [done|]. apply loops_exit.
      unfold body. eapply bind_then; [eapply bind_then; [apply inb_eq|reflexivity]|].
      change (port_value k (SERIAL_PORT + 5)) with (line_status (trace k)). rewrite <- Et.
      by rewrite (proj2 (Z.eqb_neq _ _)).
    - destruct (IH (logged [EIn 0x3FD (line_status t)] k)) as (evs & Hp & Hlen & Hl); [cbn; by rewrite Et|].
      exists (EIn 0x3FD (line_status t) :: evs). split; [by constructor|]. split; [cbn; by rewrite Hlen|].
      apply (loops_round _ _ _ _ tt (logged [EIn 0x3FD (line_status t)] k)).
      + unfold body. eapply bind_then; [eapply bind_then; [apply inb_eq|reflexivity]|].
        change (port_value k (SERIAL_PORT + 5)) with (line_status (trace k)). rewrite <- Et.
        by rewrite (proj2 (Z.eqb_eq _ _)).
      + by rewrite logged_logged in Hl. }
  destruct H as (evs & Hp & Hlen & Hl). exists evs. split; [done|]. split; [done|]. by apply (while32_loops body n).
Qed.

(** A byte is written once the transmitter is empty, after as many readings as
    that takes. *)
Lemma write_serial_eq n c k : ready_after 0x20 n (trace k) -> Z.of_nat n < 2 ^ 33 ->
  exists evs, polls 0x20 evs /\ length evs = S n /\ write_serial c k = Ret tt (logged (evs ++ [EOut 0x3F8 (w8 c)]) k).
Proof.
  intros Hr Hn. destruct (wait_for_eq 0x20 n k Hr Hn) as (evs & Hp & Hlen & E). exists evs.
  split; [done|]. split; [done|]. unfold write_serial. eapply bind_then; [exact E|].
  rewrite outb_eq, logged_logged. done.
Qed.

(** What a string looks like on the line: each byte behind its polls. *)
Inductive written : list Z -> list event -> Prop :=
| written_nil : written [] []
| written_cons c cs ps evs : polls 0x20 ps -> written cs evs -> written (c :: cs) (ps ++ EOut 0x3F8 c :: evs).

(** A string is written byte by byte, each once the transmitter is empty, on a
    device that gets ready again and again. *)
Lemma printk_on_serial_port_writes str k : cstr_ok str ->
  (forall evs, exists n, ready_after 0x20 n evs /\ Z.of_nat n < 2 ^ 33) ->
  exists evs, written (chars str) evs /\ printk_on_serial_port str k = Ret tt (logged evs k).
Proof.
  intros Hok Hready.
  set (g := fun k c => match write_serial c k with Ret _ k' => k' | _ => k end).
  assert (Hw : forall c k, exists evs, polls 0x20 evs /\ write_serial c k = Ret tt (g k c) /\
    g k c = logged (evs ++ [EOut 0x3F8 (w8 c)]) k).
  { intros c k1. destruct (Hready (trace k1)) as (n & Hr & Hn).
    destruct (write_serial_eq n c k1 Hr Hn) as (evs & Hp & _ & E). exists evs. unfold g. by rewrite E. }
  assert (E : printk_on_serial_port str k = Ret tt (foldl g k (chars str))).
  { apply (while_chars str write_serial g k Hok). intros c k1 _.
    destruct (Hw c k1) as (evs & _ & E & _). exact E. }
  assert (Hcs : Forall (fun c => 0 <= c < 256) (chars str)) by (apply List.Forall_forall; exact (chars_range str)).
  assert (H : exists evs, written (chars str) evs /\ foldl g k (chars str) = logged evs k).
  { clear E Hok. revert k. induction Hcs as [|c cs Hc Hcs IH]; intros k; cbn [foldl].
    - exists []. split; [constructor|by rewrite logged_nil].
    - destruct (Hw c k) as (ps & Hp & _ & ->). destruct (IH (logged (ps ++ [EOut 0x3F8 (w8 c)]) k)) as (evs & Hwr & ->).
      exists (ps ++ EOut 0x3F8 (w8 c) :: evs). rewrite logged_logged, <- app_assoc, w8_small by done.
      split; [by constructor|done]. }
  destruct H as (evs & Hwr & Ef). exists evs. split; [exact Hwr|]. by rewrite <- Ef.
Qed.

(** init_serial programs the divisor 3 (38400 baud), 8 bits, no parity, one stop
    bit, and leaves interrupts, the FIFO and the modem lines alone. *)
Lemma init_serial_chip u k : exists evs, init_serial k = Ret tt (logged evs k) /\
  uart_after SERIAL_PORT u evs = Uart16550 (u_ier u) (u_fcr u) 0x03 (u_mcr u) 3.
Proof.
  eexists. split.
  { unfold init_serial. do 3 (eapply bind_then; [apply outb_eq|]). rewrite outb_eq, !logged_logged. reflexivity. }
  destruct u as [ier fcr lcr mcr dl]. cbn [u_ier u_fcr u_mcr].
  transitivity (Uart16550 ier fcr 0x03 mcr ((dl / 256 * 256 + 3) mod 256 + 256 * 0)); [vm_compute; reflexivity|].
  f_equal. Z.div_mod_to_equations; lia.
Qed.
End serial.
