(* ===== verification/Pages.v ===== *)
(** The page tables (src/pages.c, inc/pages.h): the directory of the kernel,
    mapping and unmapping, and the lookups. sbrk is in Sbrk.v. *)
From S2P Require Import Prelude Memory State Console Kprintf Interrupts.
Local Open Scope Z_scope.
Local Open Scope kern_scope.
Local Set Default Proof Using "Type*".

(** * inc/pages.h *)

Definition PF_PRES : Z := 0x1.
Definition PF_RW : Z := 0x2.
Definition PF_4M : Z := 0x80.

Definition PDE_4MB_ADDR_HIGH (a : Z) : Z := Z.shiftr a 22.
Definition PDE_ADDR_HIGH (a : Z) : Z := Z.shiftr a 12.
Definition PTE_ADDR_HIGH (a : Z) : Z := Z.shiftr a 12.
Definition PDE_PTADDR_TO_VADDR (a : Z) : Z := w32 (SYSTEM_ADDR_BASE + Z.shiftl a 12).

(** The fields of the packed structures pde_fields_4mb_page,
    pde_fields_page_table and pte_fields. *)
Definition pde4_ignored (v : Z) : Z := getf 9 3 v.
Definition pde4_ignored_ (v : Z) : Z := getf 13 9 v.
Definition pde4_addr (v : Z) : Z := getf 22 10 v.
Definition set_pde4_flags (x v : Z) : Z := setf 0 9 x v.
Definition set_pde4_addr (x v : Z) : Z := setf 22 10 x v.
Definition pde_ptaddr (v : Z) : Z := getf 12 20 v.
Definition set_pde_flags (x v : Z) : Z := setf 0 8 x v.
Definition set_pde_ptaddr (x v : Z) : Z := setf 12 20 x v.
Definition pte_ignored (v : Z) : Z := getf 9 3 v.
Definition pte_addr (v : Z) : Z := getf 12 20 v.
Definition set_pte_flags (x v : Z) : Z := setf 0 9 x v.
Definition set_pte_addr (x v : Z) : Z := setf 12 20 x v.

(** [v & PF_PRES] and [v & PF_4M] as conditions. *)
Definition pres (v : Z) : bool := negb (Z.land v PF_PRES =? 0).
Definition is4m (v : Z) : bool := negb (Z.land v PF_4M =? 0).

(** Fields of a struct frame in RAM. *)
Definition sizeof_frame : Z := 12.
Definition f_ref_count (p : Z) : Z := p.
Definition f_addr (p : Z) : Z := w32 (p + 4).
Definition f_vaddr (p : Z) : Z := w32 (p + 8).

(** [a / 0x400000] and [(a - a / 0x400000 * 0x400000) / 0x1000], as uint16_t. *)
Definition pde_index (a : Z) : Z := w16 (a / FOUR_MB).
Definition pte_index (a : Z) : Z := w16 (w32 (a - pde_index a * FOUR_MB) / FRAME_SIZE).

(** [&table[i]] for a table of 32-bit entries. *)
Definition entry_at (table i : Z) : Z := w32 (table + 4 * i).

(** * src/pages.c *)

Definition native_flush_tlb_single (a : Z) : prog kst unit := emit (EInvlpg a).

Definition get_kds_size : prog kst Z := gets g_kds_size.
Definition get_kpd_frame : prog kst frame := gets g_frame_page_directory.
Definition getpagesize : Z := FRAME_SIZE.

Section pages.
Context {HW : Hardware} {LY : Layout}.

(** What follows [while (1);] in page_fault_handler is never reached. *)
Definition page_fault_handler (r : regs) : prog kst unit := print_cr2;; spin.

(** The inline assembly, up to its effect. *)
Definition disable_cache : prog kst unit := emit EDisableCache.

Definition finalize_pagination : prog kst unit :=
  let page_directory := w32 (sym_page_dir - SYSTEM_ADDR_BASE) in
  store32 (entry_at page_directory 0) 0;;
  modify (set_kpd (Frame 1 page_directory sym_page_dir));;
  disable_cache;;
  register_irq_handler 14 page_fault_handler_ptr.

Definition init_page_tables : prog kst unit :=
  while32 (fun pde_cursor =>
    if pde_cursor <? 1024
    then
      pd ← get_kpd_frame;
      let pde := entry_at (addr pd) pde_cursor in
      v ← load32 pde;
      when (negb (pres v))
        (store32 pde (set_pde_ptaddr (PDE_ADDR_HIGH (0x00400000 + pde_cursor * 1024 * 4)) v));;
      mret (inl (w16 (pde_cursor + 1)))
    else mret (inr tt)) 0;;
  memset PAGE_TABLES_START_VADDR 0 0x400000.

(** A present entry of the kernel's 4 MB page at [a]. *)
Definition pde_4mb (a : Z) : Z :=
  set_pde4_flags (Z.lor (Z.lor PF_PRES PF_RW) PF_4M) (set_pde4_addr (PDE_4MB_ADDR_HIGH a) 0).

Definition init_page_directory : prog kst unit :=
  let page_directory := w32 (sym_page_dir - SYSTEM_ADDR_BASE) in
  memset page_directory 0 (1024 * 4);;
  store32 (entry_at page_directory 0) (pde_4mb 0x00000000);;
  store32 (entry_at page_directory KERNEL_PAGE_DIRECTORY_INDEX) (pde_4mb 0x00000000);;
  store32 (entry_at page_directory PAGE_TABLES_DIRECTORY_INDEX) (pde_4mb 0x00400000).

Definition get_physaddr (vaddr : Z) : prog kst Z :=
  let pdindex := Z.shiftr vaddr 22 in
  pd ← load32 (entry_at sym_page_dir pdindex);
  if negb (pres pd) then mret NULL
  else if is4m pd then
    if negb (pde4_ignored pd =? 0) || negb (pde4_ignored_ pd =? 0) then mret NULL
    else
      let offset_within_page := Z.land vaddr 0xFFF in
      mret (w32 (Z.shiftl (pde4_addr pd) 22 + offset_within_page))
  else
    let pt := PDE_PTADDR_TO_VADDR (pde_ptaddr pd) in
    let ptindex := Z.land (Z.shiftr vaddr 12) 0x03FF in
    let offset_within_page := Z.land vaddr 0xFFF in
    pt ← load32 (entry_at pt ptindex);
    if negb (pres pt) || negb (pte_ignored pt =? 0) then mret NULL
    else mret (w32 (Z.shiftl (pte_addr pt) 12 + offset_within_page)).

Definition init_page_directory_for_frames (frames_size : Z) : prog kst unit :=
  let pde_count := s32 (frames_size / FOUR_MB + b2z (0 <? frames_size mod FOUR_MB)) in
  while32 (fun cursor =>
    if cursor <? pde_count
    then
      let pde_cursor := w16 (FRAMES_DIRECTORY_INDEX + cursor) in
      let pde := entry_at sym_page_dir pde_cursor in
      v ← load32 pde;
      store32 pde (set_pde_flags (Z.lor PF_PRES PF_RW) v);;
      let max_last_pde := w16 ((frames_size mod FOUR_MB) / FRAME_SIZE
                                 + b2z (0 <? frames_size mod FRAME_SIZE)) in
      while32 (fun pte_cursor =>
        if (pte_cursor <? 1024) && ((cursor <? pde_count - 1) || (pte_cursor <? max_last_pde))
        then
          v ← load32 pde;
          let pte := entry_at (PDE_PTADDR_TO_VADDR (pde_ptaddr v)) pte_cursor in
          let faddr := w32 (FRAMES_START_PADDR + cursor * FOUR_MB + pte_cursor * FRAME_SIZE) in
          store32 pte 0;;
          store32 pte (set_pte_addr (PTE_ADDR_HIGH faddr) 0);;
          v ← load32 pte;
          store32 pte (set_pte_flags (Z.lor PF_PRES PF_RW) v);;
          native_flush_tlb_single (entry_at pte pte_cursor);;
          mret (inl (w16 (pte_cursor + 1)))
        else mret (inr tt)) 0;;
      mret (inl (w16 (cursor + 1)))
    else mret (inr tt)) 0.

(** The loops of alloc_pages carry the cursors, the candidate address and the
    count of free pages after it. One round over the entries of a table: *)
Definition scan_table_round (pdbr : frame) (n pde_cursor : Z) (x : Z * Z * Z)
    : prog kst (Z * Z * Z + (Z * Z * Z + Z)) :=
  let '(pte_cursor, va, count) := x in
  if pte_cursor <? 1024
  then
    v ← load32 (entry_at (vaddr pdbr) pde_cursor);
    pte ← load32 (entry_at (PDE_PTADDR_TO_VADDR (pde_ptaddr v)) pte_cursor);
    if negb (pres pte)
    then
      let count := w32 (count + 1) in
      if count =? n then mret (inr (inr va))
      else mret (inl (w16 (pte_cursor + 1), va, count))
    else
      mret (inl (w16 (pte_cursor + 1), w32 (pde_cursor * 0x400000 + pte_cursor * 0x1000), 0))
  else mret (inr (inl (pte_cursor, va, count))).

(** One round over the entries of the directory. *)
Definition alloc_pages_round (pdbr : frame) (n : Z) (x : Z * Z * Z * Z)
    : prog kst (Z * Z * Z * Z + Z) :=
  let '(pde_cursor, pte_cursor, va, count) := x in
  if pde_cursor <? 1024
  then
    pde ← load32 (entry_at (vaddr pdbr) pde_cursor);
    r ← (if pres pde && negb (is4m pde)
         then while32 (scan_table_round pdbr n pde_cursor) (0, va, count)
         else mret (inl (pte_cursor, w32 (pde_cursor * 0x400000 + pte_cursor * 0x1000), 0)));
    match r with
    | inl (pte_cursor, va, count) => mret (inl (w16 (pde_cursor + 1), pte_cursor, va, count))
    | inr va => mret (inr va)
    end
  else mret (inr NULL).

Definition alloc_pages (pdbr : frame) (n : Z) : prog kst Z :=
  fvaddr ← gets (fun k => frames_meta_end_vaddr (g_frames_context k));
  let pde_cursor := pde_index fvaddr in
  let pte_cursor := w16 (w32 (fvaddr - pde_cursor * FOUR_MB) / FRAME_SIZE + 1) in
  while32 (alloc_pages_round pdbr n) (pde_cursor, pte_cursor, NULL, 0).

(** One round of map_pages: the cursor and the advancing pointers. *)
Definition map_pages_round (pdbr : frame) (n flags : Z) (x : Z * Z * Z)
    : prog kst (Z * Z * Z + Z) :=
  let '(cursor, va, frames) := x in
  if cursor <? n
  then
    let pde_cursor := pde_index va in
    let pte_cursor := pte_index va in
    let pde := entry_at (vaddr pdbr) pde_cursor in
    v ← load32 pde;
    when (negb (pres v)) (store32 pde (set_pde_flags (Z.lor PF_PRES PF_RW) v));;
    v ← load32 pde;
    if pres v && negb (is4m v)
    then
      let pte := entry_at (PDE_PTADDR_TO_VADDR (pde_ptaddr v)) pte_cursor in
      e ← load32 pte;
      if pres e
      then
        kprintf ("map_pages failed: pde %d, pte %d pte->value: %b" +:+ nl)
          [AInt pde_cursor; AInt pte_cursor; AInt e];;
        mret (inr FAILED)
      else
        fa ← load32 (f_addr frames);
        store32 pte (set_pte_addr (PTE_ADDR_HIGH fa) e);;
        e ← load32 pte;
        store32 pte (set_pte_flags flags e);;
        native_flush_tlb_single pte;;
        rc ← load32 (f_ref_count frames);
        store32 (f_ref_count frames) (w32 (rc + 1));;
        store32 (f_vaddr frames) va;;
        mret (inl (w32 (cursor + 1), w32 (va + FRAME_SIZE), w32 (frames + sizeof_frame)))
    else
      kprintf ("map_pages failed: pde %d pde->value %b" +:+ nl) [AInt pde_cursor; AInt v];;
      mret (inr FAILED)
  else mret (inr SUCCES).

Definition map_pages (pdbr : frame) (va frames n flags : Z) : prog kst Z :=
  while32 (map_pages_round pdbr n flags) (0, va, frames).

(** [frame_ptr] is where the local [frame] is on the stack. *)
Definition map_io_round (frame_ptr : Z) (pdbr : frame) (va nb_pages cursor : Z) : prog kst (Z + unit) :=
  if cursor <? nb_pages
  then
    map_pages pdbr (w32 (va + cursor * FRAME_SIZE)) frame_ptr 1 (Z.lor PF_PRES PF_RW);;
    fa ← load32 (f_addr frame_ptr);
    store32 (f_addr frame_ptr) (w32 (fa + FRAME_SIZE));;
    mret (inl (w32 (cursor + 1)))
  else mret (inr tt).

Definition map_io (frame_ptr : Z) (pdbr : frame) (ioaddr len : Z) : prog kst Z :=
  let nb_pages := w32 (len / FRAME_SIZE + b2z (0 <? len mod FRAME_SIZE)) in
  store32 (f_addr frame_ptr) (Z.land ioaddr 0xFFFFF000);;
  va ← alloc_pages pdbr nb_pages;
  while32 (map_io_round frame_ptr pdbr va nb_pages) 0;;
  mret (w32 (va + ioaddr - Z.land ioaddr 0xFFFFF000)).

(** [cursor < n] compares a size_t with an int: [n] is converted. *)
Definition unmap_pages (pdbr : frame) (va n : Z) : prog kst unit :=
  while32 (fun '(cursor, va) =>
    if cursor <? w32 n
    then
      let pde_cursor := pde_index va in
      let pte_cursor := pte_index va in
      pde ← load32 (entry_at (vaddr pdbr) pde_cursor);
      let pte := entry_at (PDE_PTADDR_TO_VADDR (pde4_addr pde)) pte_cursor in
      store32 pte 0x0;;
      native_flush_tlb_single pte;;
      mret (inl (w32 (cursor + 1), w32 (va + FRAME_SIZE)))
    else mret (inr tt)) (0, va).

End pages.
