(* ===== verification/Mmu.v ===== *)
(** The processor's translation, the invariant of the kernel's page tables, and
    map_pages against it. *)
From S2P Require Import Prelude Memory State Console Kprintf Interrupts Pages.
Local Open Scope Z_scope.
Local Open Scope kern_scope.
Local Set Default Proof Using "Type*".

(** * The translation the processor does

    Two-level 32-bit paging with 4 MB pages, as the architecture defines it:
    [mmu m cr3 va] is the physical address of [va], [None] for a page fault. *)

Definition present (v : Z) : bool := getf 0 1 v =? 1.
Definition large (v : Z) : bool := getf 7 1 v =? 1.

Definition mmu (m : ram) (cr3 va : Z) : option Z :=
  let pde := rd32 m (cr3 + 4 * (va / 2 ^ 22)) in
  if negb (present pde) then None
  else if large pde then Some (getf 22 10 pde * 2 ^ 22 + va mod 2 ^ 22)
  else
    let pte := rd32 m (getf 12 20 pde * 2 ^ 12 + 4 * (va / 2 ^ 12 mod 2 ^ 10)) in
    if negb (present pte) then None else Some (getf 12 20 pte * 2 ^ 12 + va mod 2 ^ 12).

(** The layout of the image: the page directory is in the kernel's first 4 MB,
    above the first, and aligned on a page. *)
Class LayoutOk (LY : Layout) : Prop :=
  page_dir_place : exists p, 0x100 <= p < 0x400 /\ sym_page_dir = SYSTEM_ADDR_BASE + 4096 * p.

(** The kernel's directory in RAM and its entries. The page tables of the 1024
    directory entries follow each other from 4 MB on, so that the entry of the
    virtual page [vpn] is the word [vpn] of that area. *)
Definition kpd {LY : Layout} : Z := sym_page_dir - SYSTEM_ADDR_BASE.
Definition PT_BASE : Z := 0x400000.
Definition pde {LY : Layout} (m : ram) (c : Z) : Z := rd32 m (kpd + 4 * c).
Definition pte (m : ram) (vpn : Z) : Z := rd32 m (PT_BASE + 4 * vpn).

(** The directory entries of the 4 MB pages of the kernel and of the page tables. *)
Definition window (c : Z) : Prop := c = 768 \/ c = 769.

(** The invariant of the kernel's page tables, once init_page_tables has run. *)
Record paging {LY : Layout} (m : ram) : Prop := {
  paging_window c : window c -> pde m c = pde_4mb ((c - 768) * FOUR_MB);
  paging_table c : 0 <= c < 1024 -> ~ window c -> large (pde m c) = false /\ pde_ptaddr (pde m c) = 0x400 + c;
  paging_present vpn : 0 <= vpn < 1048576 -> ~ window (vpn / 1024) -> present (pte m vpn) = true ->
    present (pde m (vpn / 1024)) = true;
  paging_ignored vpn : 0 <= vpn < 1048576 -> ~ window (vpn / 1024) -> pte_ignored (pte m vpn) = 0
}.

(** The map of 4 KB pages the tables hold: the frame number of a page. *)
Definition vmap (m : ram) (vpn : Z) : option Z :=
  if present (pte m vpn) then Some (pte_addr (pte m vpn)) else None.

(** ** Bits *)

Lemma pres_present v : pres v = present v.
Proof.
  unfold pres, present, PF_PRES. change 1 with (2 ^ 0) at 1. rewrite land_bit_eqb0 by lia.
  pose proof (getf_range 0 1 v). destruct (Z.eqb_spec (getf 0 1 v) 0), (Z.eqb_spec (getf 0 1 v) 1);
    cbn in *; done || lia.
Qed.

Lemma is4m_large v : is4m v = large v.
Proof.
  unfold is4m, large, PF_4M. change 0x80 with (2 ^ 7). rewrite land_bit_eqb0 by lia.
  pose proof (getf_range 7 1 v). destruct (Z.eqb_spec (getf 7 1 v) 0), (Z.eqb_spec (getf 7 1 v) 1);
    cbn in *; done || lia.
Qed.

Lemma present_low lo n x v : 1 <= lo -> 0 <= n -> present (setf lo n x v) = present v.
Proof. intros. unfold present. by rewrite getf_setf_below by lia. Qed.

Lemma large_mid lo n x v : 8 <= lo -> 0 <= n -> large (setf lo n x v) = large v.
Proof. intros. unfold large. by rewrite getf_setf_below by lia. Qed.

Lemma present_set_pde_flags x v : present (set_pde_flags x v) = (x mod 2 =? 1).
Proof. unfold present, set_pde_flags. f_equal. bf. Qed.

Lemma present_set_pte_flags x v : present (set_pte_flags x v) = (x mod 2 =? 1).
Proof. unfold present, set_pte_flags. f_equal. bf. Qed.

Lemma large_set_pde_flags x v : large (set_pde_flags x v) = (x / 128 mod 2 =? 1).
Proof. unfold large, set_pde_flags. f_equal. bf. Qed.

Lemma present_0 : present 0 = false.
Proof. done. Qed.

(** ** Addresses *)

Section addresses.
Context {LY : Layout} {LO : LayoutOk LY}.

Lemma kpd_range : 0x100000 <= kpd /\ kpd + 4096 <= 0x400000 /\ kpd mod 4096 = 0 /\
  sym_page_dir = kpd + SYSTEM_ADDR_BASE.
Proof.
  destruct LO as (p & Hp & E). unfold kpd. rewrite E. split_and!; [lia|lia| |lia].
  replace (SYSTEM_ADDR_BASE + 4096 * p - SYSTEM_ADDR_BASE) with (p * 4096) by lia.
  by apply Z.mod_mul.
Qed.

Lemma ka_high a : SYSTEM_ADDR_BASE <= a -> ka a = a - SYSTEM_ADDR_BASE.
Proof. unfold ka. intros. by rewrite (proj2 (Z.leb_le _ _)). Qed.

Lemma ka_low a : a < SYSTEM_ADDR_BASE -> ka a = a.
Proof. unfold ka. intros. by rewrite (proj2 (Z.leb_gt _ _)). Qed.

(** A directory entry through the kernel's address of the directory, and
    through its physical address. *)
Lemma ka_pde c : 0 <= c < 1024 -> ka (entry_at sym_page_dir c) = kpd + 4 * c.
Proof.
  intros Hc. destruct kpd_range as (?&?&?&->). unfold entry_at, SYSTEM_ADDR_BASE in *.
  rewrite w32_small by lia. rewrite ka_high; unfold SYSTEM_ADDR_BASE; lia.
Qed.

Lemma ka_pde_low c : 0 <= c < 1024 -> ka (entry_at kpd c) = kpd + 4 * c.
Proof.
  intros Hc. destruct kpd_range as (?&?&?&_). unfold entry_at.
  rewrite w32_small by lia. rewrite ka_low; unfold SYSTEM_ADDR_BASE; lia.
Qed.

Lemma sym_page_dir_low : w32 (sym_page_dir - SYSTEM_ADDR_BASE) = kpd.
Proof. destruct kpd_range as (?&?&?&_). fold kpd. apply w32_small. lia. Qed.

(** An entry of the table of directory entry [c], and where it is. *)
Definition pte_vaddr (c t : Z) : Z := entry_at (PDE_PTADDR_TO_VADDR (0x400 + c)) t.

Lemma pte_vaddr_eq c t : 0 <= c < 1024 -> 0 <= t < 1024 ->
  pte_vaddr c t = SYSTEM_ADDR_BASE + PT_BASE + 4 * (1024 * c + t).
Proof.
  intros. unfold pte_vaddr, entry_at, PDE_PTADDR_TO_VADDR, SYSTEM_ADDR_BASE, PT_BASE.
  rewrite Z.shiftl_mul_pow2 by lia. change (2 ^ 12) with 4096.
  rewrite (w32_small (3221225472 + _)), w32_small by lia. lia.
Qed.

Lemma ka_pte c t : 0 <= c < 1024 -> 0 <= t < 1024 ->
  ka (pte_vaddr c t) = PT_BASE + 4 * (1024 * c + t).
Proof.
  intros. rewrite pte_vaddr_eq by done. rewrite ka_high; unfold SYSTEM_ADDR_BASE, PT_BASE; lia.
Qed.

Lemma va_index va : 0 <= va < 4294967296 ->
  pde_index va = va / 4096 / 1024 /\ pte_index va = va / 4096 mod 1024 /\
  0 <= pde_index va < 1024 /\ 0 <= pte_index va < 1024 /\
  va / 4096 = 1024 * pde_index va + pte_index va.
Proof.
  intros Hva. assert (H1 : pde_index va = va / 4096 / 1024).
  { unfold pde_index, FOUR_MB. rewrite Z.div_div by lia. apply w16_small.
    Z.div_mod_to_equations; lia. }
  assert (H2 : pte_index va = va / 4096 mod 1024).
  { unfold pte_index. rewrite H1. unfold FOUR_MB, FRAME_SIZE.
    rewrite w32_small by (Z.div_mod_to_equations; lia).
    rewrite w16_small by (Z.div_mod_to_equations; lia). Z.div_mod_to_equations; lia. }
  rewrite H1, H2. split_and!; try done; Z.div_mod_to_equations; lia.
Qed.

(** ** The tables as the processor reads them *)

Lemma getf_22_10 v : 0 <= v < 4294967296 -> getf 22 10 v = v / 4194304.
Proof. intros. bf. Qed.

Lemma window_range c : window c -> 0 <= c < 1024.
Proof. unfold window. lia. Qed.

#[global] Instance window_dec c : Decision (window c).
Proof. unfold window. apply _. Defined.

(** Under the invariant, the processor translates the kernel's window to the
    eight first megabytes, and elsewhere follows the page map. *)
Lemma mmu_paging m va : paging m -> 0 <= va < 4294967296 ->
  mmu m kpd va =
    if decide (window (va / 4194304)) then Some (va - SYSTEM_ADDR_BASE)
    else (fun f => f * 4096 + va mod 4096) <$> vmap m (va / 4096).
Proof.
  intros Hp Hva. unfold mmu. change (2 ^ 22) with 4194304. change (2 ^ 12) with 4096.
  change (2 ^ 10) with 1024.
  set (c := va / 4194304). fold (pde m c). assert (Hc : 0 <= c < 1024) by (subst c; Z.div_mod_to_equations; lia).
  case_decide as Hw.
  - rewrite (paging_window _ Hp _ Hw). unfold SYSTEM_ADDR_BASE.
    destruct Hw as [Hw|Hw]; rewrite Hw; subst c;
      [change (pde_4mb ((768 - 768) * FOUR_MB)) with 0x83|change (pde_4mb ((769 - 768) * FOUR_MB)) with 0x400083];
      cbn -[Z.mul Z.add Z.modulo Z.sub];
      [change (present 0x83) with true; change (large 0x83) with true; change (getf 22 10 0x83) with 0
      |change (present 0x400083) with true; change (large 0x400083) with true; change (getf 22 10 0x400083) with 1];
      cbn -[Z.mul Z.add Z.modulo Z.sub]; f_equal; Z.div_mod_to_equations; lia.
  - destruct (paging_table _ Hp c Hc Hw) as [Hl Ht]. rewrite Hl.
    unfold pde_ptaddr in Ht. rewrite Ht.
    assert (Hvpn : va / 4096 / 1024 = c) by (subst c; rewrite Z.div_div by lia; done).
    replace ((1024 + c) * 4096 + 4 * (va / 4096 mod 1024)) with (PT_BASE + 4 * (va / 4096))
      by (rewrite <- Hvpn; unfold PT_BASE; Z.div_mod_to_equations; lia).
    fold (pte m (va / 4096)). unfold vmap.
    destruct (present (pde m c)) eqn:Hpc; cbn [negb].
    + destruct (present (pte m (va / 4096))); done.
    + destruct (present (pte m (va / 4096))) eqn:Hpt; [|done].
      rewrite <- Hvpn in Hw, Hpc. rewrite (paging_present _ Hp) in Hpc; [done| |done|done].
      Z.div_mod_to_equations; lia.
Qed.
End addresses.

(** ** Mapping pages *)

Section mapping.
Context {LY : Layout} {LO : LayoutOk LY}.

(** A word that is neither in the directory nor in the page tables. *)
Definition apart (p : Z) : Prop :=
  (p + 4 <= kpd \/ kpd + 4096 <= p) /\ (p + 4 <= PT_BASE \/ PT_BASE + 0x400000 <= p).

Lemma pte_wr_pte m v v' x : 0 <= v < 1048576 -> 0 <= v' < 1048576 ->
  pte (wr32 m (PT_BASE + 4 * v) x) v' = if decide (v = v') then w32 x else pte m v'.
Proof.
  intros. unfold pte. case_decide as Hv; [rewrite Hv; apply rd32_wr32_eq|].
  apply rd32_wr32_ne. lia.
Qed.

Lemma pte_wr_pde m c v x : 0 <= c < 1024 -> 0 <= v < 1048576 ->
  pte (wr32 m (kpd + 4 * c) x) v = pte m v.
Proof.
  intros. pose proof kpd_range. unfold pte, PT_BASE in *. apply rd32_wr32_ne. lia.
Qed.

Lemma pde_wr_pte m c v x : 0 <= c < 1024 -> 0 <= v < 1048576 ->
  pde (wr32 m (PT_BASE + 4 * v) x) c = pde m c.
Proof.
  intros. pose proof kpd_range. unfold pde, PT_BASE in *. apply rd32_wr32_ne. lia.
Qed.

Lemma pde_wr_pde m c c' x :
  pde (wr32 m (kpd + 4 * c) x) c' = if decide (c = c') then w32 x else pde m c'.
Proof.
  unfold pde. case_decide as Hc; [rewrite Hc; apply rd32_wr32_eq|]. apply rd32_wr32_ne. lia.
Qed.

Lemma pte_wr_apart m p v x : apart p -> 0 <= v < 1048576 -> pte (wr32 m p x) v = pte m v.
Proof. unfold apart, pte, PT_BASE. intros. apply rd32_wr32_ne. lia. Qed.

Lemma pde_wr_apart m p c x : apart p -> 0 <= c < 1024 -> pde (wr32 m p x) c = pde m c.
Proof. unfold apart, pde. intros. apply rd32_wr32_ne. lia. Qed.

Lemma pte_range m v : 0 <= pte m v < 4294967296.
Proof. apply rd32_range. Qed.

Lemma pde_range m c : 0 <= pde m c < 4294967296.
Proof. apply rd32_range. Qed.

(** The invariant speaks of the tables only. *)
Lemma paging_ext m m' :
  (forall c, 0 <= c < 1024 -> pde m' c = pde m c) ->
  (forall v, 0 <= v < 1048576 -> pte m' v = pte m v) -> paging m -> paging m'.
Proof.
  intros Hd Ht Hp. split.
  - intros c Hw. rewrite Hd by (by apply window_range). by apply Hp.
  - intros c Hc Hw. rewrite Hd by done. by apply Hp.
  - intros v Hv Hw. rewrite Ht, Hd by (done || (Z.div_mod_to_equations; lia)). by apply Hp.
  - intros v Hv Hw. rewrite Ht by done. by apply Hp.
Qed.

(** Opening a directory entry. *)
Lemma paging_open m c : paging m -> 0 <= c < 1024 -> ~ window c ->
  paging (wr32 m (kpd + 4 * c) (set_pde_flags 3 (pde m c))) /\
  present (pde (wr32 m (kpd + 4 * c) (set_pde_flags 3 (pde m c))) c) = true.
Proof.
  intros Hp Hc Hw. set (x := set_pde_flags 3 (pde m c)).
  assert (Hx : w32 x = x).
  { apply w32_small. change 4294967296 with (2 ^ 32). apply setf_range; [lia..|apply pde_range]. }
  assert (Hpx : present x = true) by apply present_set_pde_flags.
  split; [|by rewrite pde_wr_pde, decide_True, Hx by done]. split.
  - intros c' Hw'. rewrite pde_wr_pde. case_decide; [congruence|by apply Hp].
  - intros c' Hc' Hw'. rewrite pde_wr_pde. case_decide as He; [|by apply Hp]. subst c'.
    rewrite Hx. split; [apply large_set_pde_flags|].
    destruct (paging_table _ Hp c Hc Hw) as [_ <-]. unfold pde_ptaddr, x, set_pde_flags.
    apply getf_setf_above; lia.
  - intros v Hv Hwv. rewrite pte_wr_pde, pde_wr_pde by done. case_decide as He; [|by apply Hp].
    by rewrite Hx.
  - intros v Hv Hwv. rewrite pte_wr_pde by done. by apply Hp.
Qed.

(** Setting a page table entry under an open directory entry. *)
Lemma paging_set m v e : paging m -> 0 <= v < 1048576 -> 0 <= e < 4294967296 ->
  present (pde m (v / 1024)) = true -> pte_ignored e = 0 ->
  paging (wr32 m (PT_BASE + 4 * v) e).
Proof.
  intros Hp Hv He Hpd Hi. assert (Hwe : w32 e = e) by (by apply w32_small). split.
  - intros c Hw. rewrite pde_wr_pte by (done || by apply window_range). by apply Hp.
  - intros c Hc Hw. rewrite pde_wr_pte by done. by apply Hp.
  - intros v' Hv' Hw. rewrite pte_wr_pte, pde_wr_pte by (done || (Z.div_mod_to_equations; lia)).
    case_decide as E; [by subst|by apply Hp].
  - intros v' Hv' Hw. rewrite pte_wr_pte by done. case_decide; [by rewrite Hwe|by apply Hp].
Qed.

(** A struct frame in RAM. *)
Definition frame_in (m : ram) (p : Z) : frame := Frame (rd32 m p) (rd32 m (p + 4)) (rd32 m (p + 8)).

(** Frames that pointer arithmetic walks, apart from the tables: [n] from [fp]. *)
Record frames_ok (fp n : Z) : Prop := {
  frames_linear : linear fp (12 * n);
  frames_ptr : fp < 4294967296;
  frames_apart : (ka fp + 12 * n <= kpd \/ kpd + 4096 <= ka fp) /\
                 (ka fp + 12 * n <= PT_BASE \/ PT_BASE + 0x400000 <= ka fp)
}.

(** What mapping [i] pages from [vpn] on, at [va], with the frames from [p]
    on, does to RAM. *)
Record mapped (m m' : ram) (va p i : Z) : Prop := {
  mapped_paging : paging m';
  mapped_vmap v : 0 <= v < 1048576 -> vmap m' v =
    if decide (va / 4096 <= v < va / 4096 + i)
    then Some (rd32 m (p + 12 * (v - va / 4096) + 4) / 4096) else vmap m v;
  mapped_frames j : 0 <= j < i -> frame_in m' (p + 12 * j) =
    Frame (w32 (rd32 m (p + 12 * j) + 1)) (rd32 m (p + 12 * j + 4)) (va + 4096 * j);
  mapped_rest a : ~ (kpd <= a < kpd + 4096) -> ~ (PT_BASE <= a < PT_BASE + 0x400000) ->
    ~ (p <= a < p + 12 * i) -> rd8 m' a = rd8 m a
}.

Lemma mapped_refl m va p : paging m -> mapped m m va p 0.
Proof.
  intros Hp. split; [done| | |done]; intros; [|lia]. by rewrite decide_False by lia.
Qed.

(** The entry map_pages writes. *)
Definition new_pte (fa flags e : Z) : Z := set_pte_flags flags (set_pte_addr (PTE_ADDR_HIGH fa) e).

Lemma new_pte_fields fa flags e : 0 <= fa < 4294967296 -> 0 <= e < 4294967296 -> flags mod 2 = 1 ->
  present (new_pte fa flags e) = true /\ pte_addr (new_pte fa flags e) = fa / 4096 /\
  pte_ignored (new_pte fa flags e) = pte_ignored e /\ 0 <= new_pte fa flags e < 4294967296.
Proof.
  intros Hfa He Hfl. unfold new_pte. rewrite present_set_pte_flags, Hfl.
  split; [done|split; [|split]].
  - unfold pte_addr, set_pte_flags, set_pte_addr. rewrite getf_setf_above, getf_setf_eq by lia.
    unfold PTE_ADDR_HIGH. rewrite Z.shiftr_div_pow2 by lia. change (2 ^ 12) with 4096.
    change (2 ^ 20) with 1048576. apply Z.mod_small. Z.div_mod_to_equations; lia.
  - unfold pte_ignored, set_pte_flags, set_pte_addr.
    by rewrite getf_setf_above, getf_setf_below by lia.
  - change 4294967296 with (2 ^ 32) in *. unfold set_pte_flags, set_pte_addr.
    do 2 (apply setf_range; [lia..|]). done.
Qed.

(** Frames in RAM, by the physical address of the first. *)
Definition place_ok (p n : Z) : Prop :=
  (p + 12 * n <= kpd \/ kpd + 4096 <= p) /\ (p + 12 * n <= PT_BASE \/ PT_BASE + 0x400000 <= p).

(** Mapping one more page. *)
Lemma mapped_snoc m m1 m2 va p i : 0 <= i -> 0 <= va -> place_ok p (i + 1) ->
  mapped m m1 va p i -> mapped m1 m2 (va + 4096 * i) (p + 12 * i) 1 -> mapped m m2 va p (i + 1).
Proof.
  intros Hi Hva [Hp1 Hp2] H1 H2.
  assert (Hdiv : (va + 4096 * i) / 4096 = va / 4096 + i) by (Z.div_mod_to_equations; lia).
  assert (Hfr : forall q, p + 12 * i <= q -> q + 4 <= p + 12 * (i + 1) -> rd32 m1 q = rd32 m q).
  { intros q Hq1 Hq2. apply rd32_ext. intros a Ha.
    apply (mapped_rest _ _ _ _ _ H1); unfold PT_BASE in *; lia. }
  split.
  - apply H2.
  - intros v Hv. rewrite (mapped_vmap _ _ _ _ _ H2 _ Hv), Hdiv, (mapped_vmap _ _ _ _ _ H1 _ Hv).
    destruct (decide (va / 4096 + i <= v < va / 4096 + i + 1)) as [Hd|Hd].
    + rewrite decide_True by lia. rewrite Hfr by lia. do 2 f_equal. f_equal. lia.
    + destruct (decide (va / 4096 <= v < va / 4096 + i)); [rewrite decide_True by lia|
        rewrite decide_False by lia]; done.
  - intros j Hj. destruct (decide (j = i)) as [->|Hne].
    + pose proof (mapped_frames _ _ _ _ _ H2 0 ltac:(lia)) as E. rewrite !Z.add_0_r in E.
      rewrite E, !Hfr by lia. f_equal; lia.
    + rewrite <- (mapped_frames _ _ _ _ _ H1 j) by lia. unfold frame_in.
      f_equal; apply rd32_ext; intros a Ha; apply (mapped_rest _ _ _ _ _ H2); unfold PT_BASE in *; lia.
  - intros a Ha1 Ha2 Ha3. rewrite (mapped_rest _ _ _ _ _ H2), (mapped_rest _ _ _ _ _ H1); done || lia.
Qed.

(** RAM after one page. *)
Definition map_page_mem (flags va p : Z) (m : ram) : ram :=
  let v := va / 4096 in
  let m2 := if present (pde m (v / 1024)) then m
            else wr32 m (kpd + 4 * (v / 1024)) (set_pde_flags 3 (pde m (v / 1024))) in
  let m3 := wr32 m2 (PT_BASE + 4 * v) (set_pte_addr (PTE_ADDR_HIGH (rd32 m2 (p + 4))) (pte m2 v)) in
  let m4 := wr32 m3 (PT_BASE + 4 * v) (set_pte_flags flags (pte m3 v)) in
  let m5 := wr32 m4 p (w32 (rd32 m4 p + 1)) in
  wr32 m5 (p + 8) va.

Lemma map_page_mapped flags va p m : flags mod 2 = 1 -> 0 <= va < 4294967296 ->
  ~ window (va / 4096 / 1024) -> place_ok p 1 -> paging m ->
  mapped m (map_page_mem flags va p m) va p 1.
Proof.
  intros Hfl Hva Hw [Hp1 Hp2] Hp. unfold map_page_mem.
  set (v := va / 4096) in *. set (c := v / 1024) in *.
  assert (Hv : 0 <= v < 1048576) by (subst v; Z.div_mod_to_equations; lia).
  assert (Hc : 0 <= c < 1024) by (subst c; Z.div_mod_to_equations; lia).
  pose proof kpd_range as (Hk1 & Hk2 & _ & _).
  set (m2 := if present (pde m c) then m else _).
  assert (Hm2 : paging m2 /\ present (pde m2 c) = true /\ (forall v, 0 <= v < 1048576 -> pte m2 v = pte m v) /\
    forall a, ~ (kpd <= a < kpd + 4096) -> rd8 m2 a = rd8 m a).
  { subst m2. destruct (present (pde m c)) eqn:E; [by split_and!|].
    destruct (paging_open m c Hp Hc Hw). split_and!; [done|done|by intros; apply pte_wr_pde|].
    intros a Ha. apply rd8_wr32_ne. lia. }
  destruct Hm2 as (Hpg2 & Hpc2 & Hpt2 & Hr2). clearbody m2.
  assert (Hfr : forall q, p <= q -> q + 4 <= p + 12 -> rd32 m2 q = rd32 m q).
  { intros q ??. apply rd32_ext. intros a Ha. apply Hr2. lia. }
  set (m3 := wr32 m2 _ _). set (m4 := wr32 m3 _ _). set (fa := rd32 m (p + 4)).
  assert (Hfa : 0 <= fa < 4294967296) by apply rd32_range.
  destruct (new_pte_fields fa flags (pte m v) Hfa (pte_range m v) Hfl) as (Hn1 & Hn2 & Hn3 & Hn4).
  set (e := new_pte fa flags (pte m v)) in *.
  assert (Hm4 : pte m4 v = e).
  { subst m4 m3. rewrite !pte_wr_pte by done. rewrite !decide_True by done.
    rewrite (w32_small (set_pte_addr _ _)).
    - rewrite Hpt2, Hfr by (done || lia). fold (new_pte fa flags (pte m v)). fold e. by apply w32_small.
    - change 4294967296 with (2 ^ 32). apply setf_range; [lia..|apply pte_range]. }
  assert (Hpg4 : paging m4).
  { apply (paging_ext (wr32 m2 (PT_BASE + 4 * v) e)).
    - intros. subst m4 m3. by rewrite !pde_wr_pte.
    - intros v' Hv'. destruct (decide (v = v')) as [<-|Hne].
      + rewrite Hm4, pte_wr_pte, decide_True, w32_small by done. done.
      + subst m4 m3. by rewrite !pte_wr_pte, !decide_False by done.
    - apply paging_set; try done. rewrite Hn3. by apply Hp. }
  assert (Ha1 : apart p) by (unfold apart; lia). assert (Ha2 : apart (p + 8)) by (unfold apart; lia).
  assert (Hr4 : forall a, ~ (kpd <= a < kpd + 4096) -> ~ (PT_BASE <= a < PT_BASE + 0x400000) ->
    rd8 m4 a = rd8 m a).
  { intros a ??. subst m4 m3. rewrite !rd8_wr32_ne by (unfold PT_BASE in *; lia). by apply Hr2. }
  assert (Hf4 : forall q, p <= q -> q + 4 <= p + 12 -> rd32 m4 q = rd32 m q).
  { intros q ??. apply rd32_ext. intros a Ha. apply Hr4; unfold PT_BASE in *; lia. }
  split.
  - apply (paging_ext m4); [intros; by rewrite !pde_wr_apart|intros; by rewrite !pte_wr_apart|done].
  - intros v' Hv'. unfold vmap. rewrite !pte_wr_apart by done. fold v. destruct (decide (v = v')) as [<-|Hne].
    + rewrite Hm4, Hn1, Hn2, decide_True by lia. unfold fa. do 3 f_equal. lia.
    + rewrite decide_False by lia. subst m4 m3. by rewrite !pte_wr_pte, !decide_False, Hpt2 by done.
  - intros j Hj. replace j with 0 by lia. rewrite !Z.mul_0_r, !Z.add_0_r. unfold frame_in.
    rewrite !rd32_wr32_eq. rewrite (rd32_wr32_ne _ (p + 8) p), rd32_wr32_eq by lia.
    rewrite !(rd32_wr32_ne _ _ (p + 4)) by lia. rewrite !Hf4 by lia.
    rewrite w32_idem, (w32_small va) by done. done.
  - intros a ???. rewrite !rd8_wr32_ne by lia. by apply Hr4.
Qed.
(** The fields of a frame, through pointer arithmetic. *)
Lemma ka_frame fp N : frames_ok fp N -> 1 <= N ->
  ka (f_ref_count fp) = ka fp /\ ka (f_addr fp) = ka fp + 4 /\ ka (f_vaddr fp) = ka fp + 8.
Proof.
  intros [Hl _ _] HN. unfold f_ref_count, f_addr, f_vaddr.
  split_and!; [done|apply (ka_linear fp (12 * N)); [done|lia]..].
Qed.

End mapping.

(** ** map_pages *)

Section map_pages_proofs.
Context {LY : Layout} {LO : LayoutOk LY}.
Variables (pdbr : frame) (n flags : Z).
Hypothesis Hpdbr : vaddr pdbr = sym_page_dir.

Lemma map_round_free cursor va fp k : cursor < n -> 0 <= va < 4294967296 ->
  ~ window (va / 4096 / 1024) -> paging (mem k) -> vmap (mem k) (va / 4096) = None ->
  frames_ok fp 1 ->
  map_pages_round pdbr n flags (cursor, va, fp) k =
    Ret (inl (w32 (cursor + 1), w32 (va + 4096), w32 (fp + 12)))
      (logged [EInvlpg (SYSTEM_ADDR_BASE + PT_BASE + 4 * (va / 4096))]
        (set_mem (fun _ => map_page_mem flags va (ka fp) (mem k)) k)).
Proof.
  intros Hlt Hva Hw Hp Hfree Hf. unfold map_pages_round, map_page_mem.
  destruct (va_index va Hva) as (Ei & _ & Hc & Ht & Ev).
  destruct (ka_frame fp 1 Hf ltac:(lia)) as (K1 & K2 & K3).
  rewrite (proj2 (Z.ltb_lt _ _) Hlt). cbv zeta. rewrite Hpdbr.
  set (v := va / 4096) in *. set (c := pde_index va) in *. set (t := pte_index va) in *.
  rewrite <- Ei in Hw. rewrite <- Ei.
  set (m2 := if present (pde (mem k) c) then mem k else _).
  assert (Hm2 : pde_ptaddr (pde m2 c) = 0x400 + c /\ present (pde m2 c) = true /\
    large (pde m2 c) = false /\ pte m2 v = pte (mem k) v).
  { subst m2. destruct (present (pde (mem k) c)) eqn:E.
    - destruct (paging_table _ Hp c Hc Hw). by split_and!.
    - destruct (paging_open _ c Hp Hc Hw) as [Hp2 Ho].
      destruct (paging_table _ Hp2 c Hc Hw). split_and!; [done..|].
      apply pte_wr_pde; lia. }
  destruct Hm2 as (Ht2 & Hpr2 & Hl2 & Hpte2).
  (* opening the directory entry *)
  eapply bind_then; [reflexivity|]. rewrite ka_pde by done. fold (pde (mem k) c).
  rewrite pres_present.
  assert (Hopen : when (negb (present (pde (mem k) c)))
      (store32 (entry_at sym_page_dir c) (set_pde_flags (Z.lor PF_PRES PF_RW) (pde (mem k) c))) k
    = Ret tt (set_mem (fun _ => m2) k)).
  { subst m2. destruct (present (pde (mem k) c)); cbn [negb when]; [by destruct k|].
    unfold store32, modify. rewrite ka_pde by done. done. }
  eapply bind_then; [exact Hopen|]. eapply bind_then; [reflexivity|].
  rewrite ka_pde by done. cbn [mem set_mem]. fold (pde m2 c).
  rewrite pres_present, is4m_large, Hpr2, Hl2, Ht2. cbn [negb andb].
  fold (pte_vaddr c t).
  (* the entry *)
  eapply bind_then; [reflexivity|]. rewrite ka_pte by done. rewrite <- Ev. cbn [mem set_mem].
  fold (pte m2 v). rewrite pres_present, Hpte2.
  assert (present (pte (mem k) v) = false) as ->.
  { unfold vmap in Hfree. by destruct (present (pte (mem k) v)). }
  do 4 (eapply bind_then; [reflexivity|]).
  do 4 (eapply bind_then; [reflexivity|]). cbn [mem set_mem logged set_trace].
  unfold mret, prog_ret. rewrite pte_vaddr_eq by done. rewrite <- Ev.
  rewrite K1, K2, K3. rewrite (ka_high (SYSTEM_ADDR_BASE + PT_BASE + 4 * v)) by (unfold PT_BASE, SYSTEM_ADDR_BASE; lia).
  replace (SYSTEM_ADDR_BASE + PT_BASE + 4 * v - SYSTEM_ADDR_BASE) with (PT_BASE + 4 * v) by lia.
  rewrite <- Hpte2. reflexivity.
Qed.

Lemma set_pde_flags_int_min v : present v = true -> s32 v <> INT_MIN.
Proof. unfold present, getf. intros H%Z.eqb_eq E. change (2 ^ 0) with 1 in H. word_lia. Qed.

Lemma map_round_done cursor va fp k : n <= cursor ->
  map_pages_round pdbr n flags (cursor, va, fp) k = Ret (inr SUCCES) k.
Proof. intros H. unfold map_pages_round. by rewrite (proj2 (Z.ltb_ge _ _) H). Qed.

(** A page that is mapped already, or in a 4 MB page, stops it. *)
Lemma map_round_taken cursor va fp k : cursor < n -> 0 <= va < 4294967296 -> paging (mem k) ->
  window (va / 4096 / 1024) \/ vmap (mem k) (va / 4096) <> None ->
  wp (map_pages_round pdbr n flags (cursor, va, fp)) (fun r k' => r = inr FAILED /\ quiet k k') k.
Proof.
  intros Hlt Hva Hp Htaken. unfold map_pages_round. rewrite (proj2 (Z.ltb_lt _ _) Hlt), Hpdbr.
  destruct (va_index va Hva) as (Ei & _ & Hc & Ht & Ev). cbv zeta. rewrite <- Ei in Htaken.
  set (v := va / 4096) in *. set (c := pde_index va) in *. set (t := pte_index va) in *.
  assert (Hint : s32 c <> INT_MIN /\ s32 t <> INT_MIN) by word_lia. destruct Hint as [Hic Hit].
  assert (Hpd : present (pde (mem k) c) = true).
  { destruct (decide (window c)) as [Hw|Hw].
    - rewrite (paging_window _ Hp _ Hw). by destruct Hw as [->| ->].
    - destruct Htaken as [?|Hm]; [done|]. unfold vmap in Hm.
      destruct (present (pte (mem k) v)) eqn:E; [|done].
      replace c with (v / 1024) in * by lia. apply (paging_present _ Hp); [lia|done..]. }
  pose proof (set_pde_flags_int_min _ Hpd) as Hid.
  wp_go. rewrite ka_pde by done. fold (pde (mem k) c). rewrite pres_present, Hpd. cbn [negb].
  apply wp_when; [done|]. intros _. wp_go. rewrite ka_pde by done. fold (pde (mem k) c).
  rewrite pres_present, is4m_large, Hpd. cbn [andb].
  destruct (large (pde (mem k) c)) eqn:El; cbn [negb].
  - wp_go. kp. by wp_go.
  - assert (Hw : ~ window c).
    { intros Hw. rewrite (paging_window _ Hp _ Hw) in El. by destruct Hw as [->| ->]. }
    destruct Htaken as [?|Hm]; [done|]. destruct (paging_table _ Hp c Hc Hw) as [_ Hta].
    wp_go. rewrite Hta. fold (pte_vaddr c t). rewrite ka_pte, <- Ev by done. fold (pte (mem k) v).
    rewrite pres_present. unfold vmap in Hm. destruct (present (pte (mem k) v)) eqn:E; [|done].
    pose proof (set_pde_flags_int_min _ E). wp_go. kp. by wp_go.
Qed.

Lemma frames_ok_sub fp N i : frames_ok fp N -> 0 <= i -> i + 1 <= N ->
  frames_ok (fp + 12 * i) 1 /\ ka (fp + 12 * i) = ka fp + 12 * i.
Proof.
  intros [Hl Hptr Ha] Hi Hn. assert (E : ka (fp + 12 * i) = ka fp + 12 * i)
    by (apply (ka_add fp (12 * N)); [done|lia]).
  assert (fp + 12 * i < 4294967296) by (unfold linear in Hl; lia).
  split; [|done]. split; [apply (linear_sub fp (12 * N)); [done|lia..]|done|]. rewrite E. lia.
Qed.

(** map_pages goes through the free pages and stops at the first that is taken. *)
Lemma map_pages_prefix va fp i k : flags mod 2 = 1 -> 0 <= i <= n -> n < 4294967296 ->
  0 <= va < 4294967296 -> va + 4096 * n <= 4294967296 -> frames_ok fp n -> paging (mem k) ->
  (forall j, 0 <= j < i -> ~ window ((va / 4096 + j) / 1024) /\ vmap (mem k) (va / 4096 + j) = None) ->
  (i < n -> window ((va / 4096 + i) / 1024) \/ vmap (mem k) (va / 4096 + i) <> None) ->
  wp (map_pages pdbr va fp n flags) (fun r k' => r = (if decide (i = n) then SUCCES else FAILED) /\
    exists m' evs, quiet (logged evs (set_mem (fun _ => m') k)) k' /\ mapped (mem k) m' va (ka fp) i) k.
Proof.
  intros Hfl Hi Hn Hva Hvan Hf Hp Hfree Hstop. unfold map_pages.
  assert (Hdiv : forall j, (va + 4096 * j) / 4096 = va / 4096 + j) by (intros; Z.div_mod_to_equations; lia).
  apply (wp_while (fun '(cursor, va', fp') k' => 0 <= cursor <= i /\ va' = w32 (va + 4096 * cursor) /\
      fp' = w32 (fp + 12 * cursor) /\ exists m' evs, k' = logged evs (set_mem (fun _ => m') k) /\
      mapped (mem k) m' va (ka fp) cursor) (fun '(cursor, _, _) _ => i - cursor)).
  - rewrite !Z.add_0_r. destruct Hf as [(?&_) ? _]. rewrite !w32_small by lia.
    split_and!; [lia|lia|done|done|]. exists (mem k), []. rewrite logged_nil.
    split; [by destruct k|by apply mapped_refl].
  - lia.
  - intros [[cursor ?] ?]. lia.
  - intros [[j va'] fp'] k' (Hj & -> & -> & m1 & evs & -> & Hm1).
    destruct (decide (j = n)) as [->|Hjn].
    { eapply wp_eq; [apply map_round_done; lia|]. rewrite decide_True by lia.
      replace i with n by lia. split; [done|]. exists m1, evs. done. }
    destruct (frames_ok_sub fp n j Hf) as [Hf1 Hka]; [lia..|].
    pose proof Hf1 as [(?&?&?&?) ? _]. rewrite !w32_small by lia.
    assert (Hvm : vmap m1 (va / 4096 + j) = vmap (mem k) (va / 4096 + j)).
    { rewrite (mapped_vmap _ _ _ _ _ Hm1), decide_False; [done|lia|Z.div_mod_to_equations; lia]. }
    destruct (decide (j = i)) as [->|Hji].
    + rewrite (decide_False (P := i = n)) by lia.
      eapply wp_mono; [apply map_round_taken; [lia|lia|apply Hm1|]|].
      * cbn [mem logged set_trace set_mem]. rewrite Hdiv, Hvm. apply Hstop. lia.
      * cbv beta. intros r k' [-> Hq]. split; [done|]. by exists m1, evs.
    + destruct (Hfree j) as [Hw Hv]; [lia|].
      eapply wp_eq; [apply map_round_free; try done; try lia|].
      * by rewrite Hdiv.
      * apply Hm1.
      * cbn [mem logged set_trace set_mem]. by rewrite Hdiv, Hvm.
      * rewrite (w32_small (j + 1)) by lia. split; [|lia].
        split; [lia|]. split; [f_equal; lia|]. split; [f_equal; lia|].
        cbn [mem logged set_trace set_mem]. do 2 eexists. split.
        { rewrite Hka. unfold logged, set_trace, set_mem. cbn. rewrite <- app_assoc. reflexivity. }
        apply (mapped_snoc _ m1); [lia|lia| |done|].
        { destruct Hf as [_ _ [Ha1 Ha2]]. split; lia. }
        apply map_page_mapped; [done|lia|by rewrite Hdiv| |apply Hm1].
        destruct Hf as [_ _ [Ha1 Ha2]]. split; lia.
Qed.
End map_pages_proofs.

(** The processor's view of what mapping pages did. *)
Lemma mapped_mmu {LY : Layout} {LO : LayoutOk LY} m m' va p i va' :
  paging m -> mapped m m' va p i -> 0 <= va < 4294967296 ->
  (forall j, 0 <= j < i -> ~ window ((va / 4096 + j) / 1024)) -> 0 <= va' < 4294967296 ->
  mmu m' kpd va' =
    if decide (va / 4096 <= va' / 4096 < va / 4096 + i)
    then Some (rd32 m (p + 12 * (va' / 4096 - va / 4096) + 4) / 4096 * 4096 + va' mod 4096)
    else mmu m kpd va'.
Proof.
  intros Hp Hm Hva Hw Hva'. rewrite !mmu_paging by (done || apply Hm).
  rewrite (mapped_vmap _ _ _ _ _ Hm) by (Z.div_mod_to_equations; lia).
  assert (Hd : va' / 4194304 = va' / 4096 / 1024) by (by rewrite Z.div_div by lia).
  destruct (decide (va / 4096 <= va' / 4096 < va / 4096 + i)) as [Hin|Hin].
  - rewrite decide_False; [done|]. rewrite Hd.
    replace (va' / 4096) with (va / 4096 + (va' / 4096 - va / 4096)) by lia. apply Hw. lia.
  - done.
Qed.

(** The image of the examples is at 1 MB. *)
#[export] Instance example_layout_ok : LayoutOk example_layout.
Proof. exists 0x105. by split. Qed.
