(* ===== verification/Tables.v ===== *)
(** Building the page tables at boot, looking addresses up, unmapping, and the
    search for free pages, against the processor's translation. *)
From S2P Require Import Prelude Memory State Console Kprintf Interrupts Pages Mmu.
Local Open Scope Z_scope.
Local Open Scope kern_scope.
Local Set Default Proof Using "Type*".

(** ** Building the tables *)

Section building.
Context {LY : Layout} {LO : LayoutOk LY}.

Lemma rd32_zero m a : (forall i, a <= i < a + 4 -> rd8 m i = 0) -> rd32 m a = 0.
Proof. intros H. unfold rd32. by rewrite !H by lia. Qed.

Lemma wp_store_pde page_dir c v (Q : unit -> kst -> Prop) k :
  ka (entry_at page_dir c) = kpd + 4 * c ->
  Q tt (set_mem (fun m => wr32 m (kpd + 4 * c) v) k) -> wp (store32 (entry_at page_dir c) v) Q k.
Proof. intros E HQ. apply wp_store32. by rewrite E. Qed.

(** The directory of the boot code: the first 4 MB at 0 and in the kernel's
    window, the page tables after it, and nothing else. *)
Definition boot_pde (c : Z) : Z :=
  if decide (c = 0) then pde_4mb 0
  else if decide (window c) then pde_4mb ((c - 768) * FOUR_MB) else 0.

Lemma wp_init_page_directory (Q : unit -> kst -> Prop) k :
  (forall m', (forall c, 0 <= c < 1024 -> pde m' c = boot_pde c) ->
     (forall a, ~ (kpd <= a < kpd + 4096) -> rd8 m' a = rd8 (mem k) a) ->
     Q tt (set_mem (fun _ => m') k)) ->
  wp init_page_directory Q k.
Proof.
  intros HQ. pose proof kpd_range as (?&?&_&_). unfold init_page_directory. rewrite sym_page_dir_low.
  assert (Hka : ka kpd = kpd) by (apply ka_low; unfold SYSTEM_ADDR_BASE; lia).
  apply wp_bind, wp_memset; [unfold linear, SYSTEM_ADDR_BASE; lia|lia|]. rewrite Hka.
  intros m1 Hm1. change (1024 * 4) with 4096 in Hm1.
  do 2 (apply wp_bind; apply wp_store_pde; [by apply ka_pde_low|]).
  apply wp_store_pde; [by apply ka_pde_low|]. cbn [mem set_mem].
  set (m2 := wr32 (wr32 (wr32 m1 (kpd + 4 * 0) (pde_4mb 0))
    (kpd + 4 * KERNEL_PAGE_DIRECTORY_INDEX) (pde_4mb 0))
    (kpd + 4 * PAGE_TABLES_DIRECTORY_INDEX) (pde_4mb 0x400000)).
  enough (Q tt (set_mem (fun _ => m2) k)) as E by exact E. apply HQ; subst m2.
  - intros c Hc. rewrite !pde_wr_pde. unfold boot_pde, window.
    destruct (decide (PAGE_TABLES_DIRECTORY_INDEX = c)) as [<-|H1]; [reflexivity|].
    destruct (decide (KERNEL_PAGE_DIRECTORY_INDEX = c)) as [<-|H2]; [reflexivity|].
    change PAGE_TABLES_DIRECTORY_INDEX with 769 in *. change KERNEL_PAGE_DIRECTORY_INDEX with 768 in *.
    destruct (decide (0 = c)) as [<-|H3]; [reflexivity|].
    rewrite !decide_False by lia. unfold pde. apply rd32_zero. intros i Hi. rewrite Hm1.
    rewrite decide_True by lia. done.
  - intros a Ha. change PAGE_TABLES_DIRECTORY_INDEX with 769. change KERNEL_PAGE_DIRECTORY_INDEX with 768.
    rewrite !rd8_wr32_ne by lia. rewrite Hm1. by rewrite decide_False by lia.
Qed.

(** The processor's reading of an entry for a 4 MB page, and of an empty one. *)
Lemma mmu_large m va x : pde m (va / 4194304) = pde_4mb (x * FOUR_MB) -> x = 0 \/ x = 1 ->
  mmu m kpd va = Some (x * 4194304 + va mod 4194304).
Proof.
  intros Hd Hx. unfold mmu. change (2 ^ 22) with 4194304. fold (pde m (va / 4194304)). rewrite Hd.
  assert (present (pde_4mb (x * FOUR_MB)) = true /\ large (pde_4mb (x * FOUR_MB)) = true /\
    getf 22 10 (pde_4mb (x * FOUR_MB)) = x) as (-> & -> & ->) by (by destruct Hx as [->| ->]).
  done.
Qed.

Lemma mmu_empty m va : pde m (va / 4194304) = 0 -> mmu m kpd va = None.
Proof. intros Hd. unfold mmu. change (2 ^ 22) with 4194304. fold (pde m (va / 4194304)). by rewrite Hd. Qed.

(** The boot's directory maps the first 4 MB, which finalize_pagination unmaps,
    and the two windows. *)
Lemma mmu_boot m va : (forall c, 0 <= c < 1024 -> pde m c = boot_pde c) -> 0 <= va < 4294967296 ->
  mmu m kpd va = if decide (0 <= va < 0x400000) then Some va
    else if decide (0xC0000000 <= va < 0xC0800000) then Some (va - 0xC0000000) else None.
Proof.
  intros Hd Hva. specialize (Hd (va / 4194304) ltac:(Z.div_mod_to_equations; lia)). unfold boot_pde, window in Hd.
  destruct (decide (va / 4194304 = 0)); [|destruct (decide (va / 4194304 = 768 \/ va / 4194304 = 769))].
  - rewrite (mmu_large m va 0 Hd) by lia. rewrite decide_True by (Z.div_mod_to_equations; lia).
    f_equal. Z.div_mod_to_equations; lia.
  - rewrite (mmu_large m va _ Hd) by lia. rewrite decide_False, decide_True by (Z.div_mod_to_equations; lia).
    f_equal. Z.div_mod_to_equations; lia.
  - rewrite mmu_empty by done. by rewrite !decide_False by (Z.div_mod_to_equations; lia).
Qed.

(** What finalize_pagination leaves of it. *)
Definition final_pde (c : Z) : Z :=
  if decide (window c) then pde_4mb ((c - 768) * FOUR_MB) else 0.

Lemma finalize_pagination_eq k :
  finalize_pagination k = Ret tt (set_handlers <[14%nat := Some page_fault_handler_ptr]>
    (logged [EDisableCache] (set_kpd (Frame 1 kpd sym_page_dir)
      (set_mem (fun m => wr32 m kpd 0) k)))).
Proof.
  unfold finalize_pagination. rewrite sym_page_dir_low.
  eapply bind_then; [reflexivity|]. eapply bind_then; [reflexivity|].
  eapply bind_then; [reflexivity|]. rewrite register_irq_handler_eq by done.
  rewrite (ka_pde_low 0) by lia. by rewrite Z.mul_0_r, Z.add_0_r.
Qed.

Lemma final_pde_wr m : (forall c, 0 <= c < 1024 -> pde m c = boot_pde c) ->
  forall c, 0 <= c < 1024 -> pde (wr32 m kpd 0) c = final_pde c.
Proof.
  intros Hm c Hc. replace kpd with (kpd + 4 * 0) by lia. rewrite pde_wr_pde, Hm by done.
  unfold boot_pde, final_pde, window. repeat case_decide; try done; lia.
Qed.

Lemma mmu_final m va : (forall c, 0 <= c < 1024 -> pde m c = final_pde c) -> 0 <= va < 4294967296 ->
  mmu m kpd va = if decide (0xC0000000 <= va < 0xC0800000) then Some (va - 0xC0000000) else None.
Proof.
  intros Hd Hva. specialize (Hd (va / 4194304) ltac:(Z.div_mod_to_equations; lia)). unfold final_pde, window in Hd.
  destruct (decide (va / 4194304 = 768 \/ va / 4194304 = 769)).
  - rewrite (mmu_large m va _ Hd) by lia. rewrite decide_True by (Z.div_mod_to_equations; lia).
    f_equal. Z.div_mod_to_equations; lia.
  - rewrite mmu_empty by done. by rewrite decide_False by (Z.div_mod_to_equations; lia).
Qed.

(** The entry init_page_tables leaves in a directory entry. *)
Definition table_pde (c v : Z) : Z := if present v then v else set_pde_ptaddr (0x400 + c) v.

Lemma table_address c : 0 <= c < 1024 -> PDE_ADDR_HIGH (0x00400000 + c * 1024 * 4) = 0x400 + c.
Proof.
  intros. unfold PDE_ADDR_HIGH. rewrite Z.shiftr_div_pow2 by lia. change (2 ^ 12) with 4096.
  replace (0x400000 + c * 1024 * 4) with ((0x400 + c) * 4096) by lia. by rewrite Z.div_mul.
Qed.

Lemma wp_init_page_tables (Q : unit -> kst -> Prop) k :
  addr (g_frame_page_directory k) = kpd ->
  (forall m', (forall c, 0 <= c < 1024 -> pde m' c = table_pde c (pde (mem k) c)) ->
     (forall a, PT_BASE <= a < PT_BASE + 0x400000 -> rd8 m' a = 0) ->
     (forall a, ~ (kpd <= a < kpd + 4096) -> ~ (PT_BASE <= a < PT_BASE + 0x400000) ->
        rd8 m' a = rd8 (mem k) a) ->
     Q tt (set_mem (fun _ => m') k)) ->
  wp init_page_tables Q k.
Proof.
  intros Hd HQ. pose proof kpd_range as (?&?&_&_). unfold init_page_tables. apply wp_bind.
  apply (wp_while (fun c k' => 0 <= c <= 1024 /\ exists m', k' = set_mem (fun _ => m') k /\
      (forall i, 0 <= i < 1024 -> pde m' i = if decide (i < c) then table_pde i (pde (mem k) i) else pde (mem k) i) /\
      (forall a, ~ (kpd <= a < kpd + 4096) -> rd8 m' a = rd8 (mem k) a))
    (fun c _ => 1024 - c)).
  - split; [lia|]. exists (mem k). split; [by destruct k|]. split; [|done].
    intros i Hi. by rewrite decide_False by lia.
  - lia.
  - intros c k' [? _]. lia.
  - intros c k' (Hc & m1 & -> & Hpd & Hr). destruct (Z.ltb_spec c 1024) as [Hlt|Hge].
    + unfold get_kpd_frame. wp_go. cbn [g_frame_page_directory set_mem mem]. rewrite Hd, ka_pde_low by lia.
      fold (pde m1 c). rewrite pres_present, table_address by lia.
      assert (Hnext : forall v, w32 v = v -> v = table_pde c (pde (mem k) c) ->
        forall m', m' = wr32 m1 (kpd + 4 * c) v ->
        (forall i, 0 <= i < 1024 -> pde m' i = if decide (i < c + 1)
           then table_pde i (pde (mem k) i) else pde (mem k) i) /\
        (forall a, ~ (kpd <= a < kpd + 4096) -> rd8 m' a = rd8 (mem k) a)).
      { intros v Hv Ev m' ->. split.
        - intros i Hi. rewrite pde_wr_pde, Hpd, Hv by done. destruct (decide (c = i)) as [<-|].
          + by rewrite decide_True by lia.
          + destruct (decide (i < c)); [rewrite decide_True by lia|rewrite decide_False by lia]; done.
        - intros a Ha. rewrite rd8_wr32_ne by lia. by apply Hr. }
      assert (Hcur : pde m1 c = pde (mem k) c) by (rewrite Hpd, decide_False by lia; done).
      apply wp_when.
      * intros Hnp. apply wp_store_pde; [apply ka_pde_low; lia|]. wp_go. unfold w16.
        rewrite Z.mod_small by lia. split; [|lia]. split; [lia|].
        eexists. split; [reflexivity|]. eapply Hnext; [| |reflexivity]; rewrite Hcur in *.
        -- apply w32_small. change 4294967296 with (2 ^ 32). apply setf_range; [lia..|apply pde_range].
        -- unfold table_pde. by destruct (present _).
      * intros Hnp. wp_go. unfold w16. rewrite Z.mod_small by lia. split; [|lia]. split; [lia|].
        exists m1. split; [done|]. split; [|done]. intros i Hi. rewrite Hpd by done.
        destruct (decide (i = c)) as [->|]; [|destruct (decide (i < c));
          [rewrite decide_True by lia|rewrite decide_False by lia]; done].
        rewrite decide_False, decide_True by lia. rewrite Hcur in Hnp. unfold table_pde.
        by destruct (present (pde (mem k) c)).
    + apply wp_ret. apply wp_memset; [change PAGE_TABLES_START_VADDR with 0xC0400000; unfold linear, SYSTEM_ADDR_BASE; lia|lia|].
      change (ka PAGE_TABLES_START_VADDR) with PT_BASE. cbn [mem set_mem].
      intros m2 Hm2. apply (HQ m2).
      * intros i Hi. transitivity (pde m1 i).
        { apply rd32_ext. intros a Ha. rewrite Hm2. unfold PT_BASE. rewrite decide_False; [done|lia]. }
        rewrite Hpd by done. by rewrite decide_True by lia.
      * intros a Ha. rewrite Hm2. by rewrite decide_True by lia.
      * intros a Ha1 Ha2. rewrite Hm2, decide_False by lia. by apply Hr.
Qed.

(** The tables of the boot code satisfy the invariant, and map nothing. *)
Lemma paging_fresh m :
  (forall c, 0 <= c < 1024 -> pde m c = table_pde c (final_pde c)) ->
  (forall a, PT_BASE <= a < PT_BASE + 0x400000 -> rd8 m a = 0) ->
  paging m /\ forall v, 0 <= v < 1048576 -> vmap m v = None.
Proof.
  intros Hd Ht.
  assert (Hpte : forall v, 0 <= v < 1048576 -> pte m v = 0).
  { intros v Hv. apply rd32_zero. intros i Hi. apply Ht. unfold PT_BASE in *. lia. }
  split; [split|].
  - intros c Hw. rewrite Hd by (by apply window_range). unfold final_pde.
    rewrite decide_True by done. by destruct Hw as [->| ->].
  - intros c Hc Hw. rewrite Hd by done. unfold final_pde, table_pde. rewrite decide_False by done.
    cbn [present]. change (present 0) with false. unfold set_pde_ptaddr, pde_ptaddr.
    rewrite large_mid, getf_setf_eq by lia. split; [done|]. apply Z.mod_small. change (2 ^ 20) with 1048576. lia.
  - intros v Hv _. by rewrite Hpte.
  - intros v Hv _. by rewrite Hpte.
  - intros v Hv. unfold vmap. by rewrite Hpte.
Qed.
End building.

(** ** The tables of the frames' descriptions *)

Section for_frames.
Context {LY : Layout} {LO : LayoutOk LY}.

(** One entry changed under an open directory entry. *)
Lemma paging_entry m m' v e : paging m -> 0 <= v < 1048576 -> 0 <= e < 4294967296 ->
  present (pde m (v / 1024)) = true -> pte_ignored e = 0 ->
  (forall c, 0 <= c < 1024 -> pde m' c = pde m c) ->
  (forall v', 0 <= v' < 1048576 -> pte m' v' = if decide (v = v') then e else pte m v') ->
  paging m' /\ forall v', 0 <= v' < 1048576 ->
    vmap m' v' = if decide (v = v') then if present e then Some (pte_addr e) else None else vmap m v'.
Proof.
  intros Hp Hv He Hpd Hi Hd Ht. split.
  - apply (paging_ext (wr32 m (PT_BASE + 4 * v) e)); [| |by apply paging_set].
    + intros c Hc. by rewrite Hd, pde_wr_pte.
    + intros v' Hv'. rewrite Ht, pte_wr_pte by done. case_decide; [|done]. by rewrite w32_small.
  - intros v' Hv'. unfold vmap. rewrite Ht by done. by case_decide.
Qed.

(** The first page of the frames' window, and the pages of a size. *)
Definition FRAMES_VPN : Z := 0xC0800.
Definition pages_of (size : Z) : Z := size / FRAME_SIZE + b2z (0 <? size mod FRAME_SIZE).

(** [i] pages of the window are mapped, one after the other, from 8 MB on. *)
Record filled (m m' : ram) (i : Z) : Prop := {
  filled_paging : paging m';
  filled_vmap v : 0 <= v < 1048576 -> vmap m' v =
    if decide (FRAMES_VPN <= v < FRAMES_VPN + i) then Some (0x800 + (v - FRAMES_VPN)) else vmap m v;
  filled_rest a : ~ (kpd <= a < kpd + 4096) -> ~ (PT_BASE <= a < PT_BASE + 0x400000) ->
    rd8 m' a = rd8 m a
}.

Lemma filled_refl m : paging m -> filled m m 0.
Proof. intros. split; [done| |done]. intros. by rewrite decide_False by lia. Qed.

(** The inner loop's work on one entry. *)
Definition fill_pte (m : ram) (v faddr : Z) : ram :=
  let m1 := wr32 (wr32 m (PT_BASE + 4 * v) 0) (PT_BASE + 4 * v) (set_pte_addr (PTE_ADDR_HIGH faddr) 0) in
  wr32 m1 (PT_BASE + 4 * v) (set_pte_flags 3 (pte m1 v)).

Lemma fill_pte_filled m m1 i : filled m m1 i -> 0 <= i -> FRAMES_VPN + i < 1048576 ->
  present (pde m1 ((FRAMES_VPN + i) / 1024)) = true ->
  filled m (fill_pte m1 (FRAMES_VPN + i) (0x800000 + 4096 * i)) (i + 1) /\
  forall c, 0 <= c < 1024 -> pde (fill_pte m1 (FRAMES_VPN + i) (0x800000 + 4096 * i)) c = pde m1 c.
Proof.
  intros [Hp Hv Hr] Hi Hlt Hpd. set (v := FRAMES_VPN + i) in *. set (fa := 0x800000 + 4096 * i).
  assert (Hvr : 0 <= v < 1048576) by (unfold v, FRAMES_VPN in *; lia).
  assert (Hfa : 0 <= fa < 4294967296) by (unfold fa, v, FRAMES_VPN in *; lia).
  destruct (new_pte_fields fa 3 0 Hfa) as (Hn1 & Hn2 & Hn3 & Hn4); [lia|done|].
  assert (Hd : forall c, 0 <= c < 1024 -> pde (fill_pte m1 v fa) c = pde m1 c)
    by (intros c Hc; unfold fill_pte; by rewrite !pde_wr_pte).
  assert (Ht : forall v', 0 <= v' < 1048576 ->
    pte (fill_pte m1 v fa) v' = if decide (v = v') then new_pte fa 3 0 else pte m1 v').
  { intros v' Hv'. unfold fill_pte. rewrite !pte_wr_pte by done. case_decide; [|done].
    rewrite decide_True by done. rewrite (w32_small (set_pte_addr _ _)).
    - by apply w32_small.
    - change 4294967296 with (2 ^ 32). apply setf_range; lia. }
  destruct (paging_entry m1 _ v (new_pte fa 3 0) Hp Hvr Hn4 Hpd Hn3 Hd Ht) as [Hp' Hvm].
  split; [|done]. split; [done| |].
  - intros v' Hv'. rewrite Hvm, Hn1, Hn2 by done. destruct (decide (v = v')) as [<-|Hne].
    + rewrite decide_True by (unfold v; lia). f_equal. unfold fa, v. Z.div_mod_to_equations; lia.
    + rewrite Hv by done. destruct (decide (FRAMES_VPN <= v' < v)) as [Hin|Hin].
      * by rewrite decide_True by (unfold v in *; lia).
      * by rewrite decide_False by (unfold v in *; lia).
  - intros a Ha1 Ha2. unfold fill_pte. rewrite !rd8_wr32_ne by (unfold PT_BASE in *; lia). by apply Hr.
Qed.

Lemma filled_open m m1 i c : filled m m1 i -> 0 <= c < 1024 -> ~ window c ->
  filled m (wr32 m1 (kpd + 4 * c) (set_pde_flags 3 (pde m1 c))) i /\
  present (pde (wr32 m1 (kpd + 4 * c) (set_pde_flags 3 (pde m1 c))) c) = true.
Proof.
  intros [Hp Hv Hr] Hc Hw. destruct (paging_open m1 c Hp Hc Hw) as [Hp' Ho]. split; [|done].
  split; [done| |].
  - intros v Hv'. unfold vmap. rewrite pte_wr_pde by done. by apply Hv.
  - intros a Ha1 Ha2. rewrite rd8_wr32_ne by lia. by apply Hr.
Qed.

(** The inner loop, on the entries of one table. *)
Lemma wp_fill_table size c m m0 (Q : unit -> kst -> Prop) k :
  let C := size / FOUR_MB + 1 in
  let L := w16 ((size mod FOUR_MB) / FRAME_SIZE + b2z (0 <? size mod FRAME_SIZE)) in
  let T := if c <? C - 1 then 1024 else L in
  0 <= c < 254 -> 0 <= T <= 1024 ->
  mem k = m0 -> filled m m0 (1024 * c) -> present (pde m0 (770 + c)) = true ->
  (forall m' evs, filled m m' (1024 * c + T) -> Q tt (logged evs (set_mem (fun _ => m') k))) ->
  wp (while32 (fun pte_cursor =>
      if (pte_cursor <? 1024) && ((c <? C - 1) || (pte_cursor <? L))
      then
        v ← load32 (entry_at sym_page_dir (770 + c));
        let pte := entry_at (PDE_PTADDR_TO_VADDR (pde_ptaddr v)) pte_cursor in
        let faddr := w32 (FRAMES_START_PADDR + c * FOUR_MB + pte_cursor * FRAME_SIZE) in
        store32 pte 0;;
        store32 pte (set_pte_addr (PTE_ADDR_HIGH faddr) 0);;
        v ← load32 pte;
        store32 pte (set_pte_flags (Z.lor PF_PRES PF_RW) v);;
        native_flush_tlb_single (entry_at pte pte_cursor);;
        mret (inl (w16 (pte_cursor + 1)))
      else mret (inr tt)) 0) Q k.
Proof.
  intros C L T Hc HT Hm0 Hf0 Hpd HQ.
  apply (wp_while (fun t k' => 0 <= t <= T /\ exists m' evs, k' = logged evs (set_mem (fun _ => m') k) /\
      filled m m' (1024 * c + t) /\ present (pde m' (770 + c)) = true) (fun t _ => T - t)).
  - split; [lia|]. exists m0, []. rewrite logged_nil, Z.add_0_r. split_and!; [by destruct k; cbn in *; subst|done..].
  - lia.
  - intros t k' [? _]. lia.
  - intros t k' (Ht & m1 & evs & -> & Hf & Hp1).
    assert (Hcond : (t <? 1024) && ((c <? C - 1) || (t <? L)) = (t <? T)).
    { subst T. destruct (Z.ltb_spec c (C - 1)); cbn [orb]; [by rewrite andb_true_r|].
      destruct (Z.ltb_spec t 1024), (Z.ltb_spec t L); cbn; done || lia. }
    rewrite Hcond. destruct (Z.ltb_spec t T) as [Hlt|Hge].
    + destruct (paging_table _ (filled_paging _ _ _ Hf) (770 + c)) as [_ Hta]; [lia|unfold window; lia|].
      wp_go. rewrite ka_pde by lia. cbn [mem logged set_trace set_mem]. fold (pde m1 (770 + c)). rewrite Hta.
      fold (pte_vaddr (770 + c) t). unfold native_flush_tlb_single. wp_go.
      cbn [mem logged set_trace set_mem]. rewrite ka_pte by lia.
      replace (1024 * (770 + c) + t) with (FRAMES_VPN + (1024 * c + t)) by (unfold FRAMES_VPN; lia).
      replace (w32 (FRAMES_START_PADDR + c * FOUR_MB + t * FRAME_SIZE)) with (0x800000 + 4096 * (1024 * c + t))
        by (unfold FRAMES_START_PADDR, FOUR_MB, FRAME_SIZE; rewrite w32_small; lia).
      destruct (fill_pte_filled m m1 (1024 * c + t) Hf) as [Hf' Hpd']; [lia|unfold FRAMES_VPN; lia| |].
      { replace ((FRAMES_VPN + (1024 * c + t)) / 1024) with (770 + c); [done|].
        unfold FRAMES_VPN. Z.div_mod_to_equations; lia. }
      unfold w16. rewrite Z.mod_small by lia. split; [|lia]. split; [lia|].
      eexists (fill_pte m1 (FRAMES_VPN + (1024 * c + t)) (0x800000 + 4096 * (1024 * c + t))), _.
      split; [|split; [by rewrite (Z.add_assoc (1024 * c) t 1)|by rewrite Hpd' by lia]].
      rewrite <- logged_logged. reflexivity.
    + apply wp_ret. replace T with t in HQ by lia. by apply HQ.
Qed.

Lemma wp_init_page_directory_for_frames size (Q : unit -> kst -> Prop) k :
  0 <= size < 254 * FOUR_MB -> 0 < size mod FOUR_MB -> paging (mem k) ->
  (forall m' evs, filled (mem k) m' (pages_of size) -> Q tt (logged evs (set_mem (fun _ => m') k))) ->
  wp (init_page_directory_for_frames size) Q k.
Proof.
  intros Hsize Hmod Hp HQ. unfold FOUR_MB in Hsize, Hmod.
  set (C := size / FOUR_MB + 1). unfold init_page_directory_for_frames.
  assert (Hcount : s32 (size / FOUR_MB + b2z (0 <? size mod FOUR_MB)) = C).
  { unfold C, FOUR_MB. rewrite (proj2 (Z.ltb_lt _ _)) by lia. cbn [b2z].
    apply s32_small. unfold INT_MIN. Z.div_mod_to_equations; lia. }
  rewrite Hcount. set (L := w16 ((size mod FOUR_MB) / FRAME_SIZE + b2z (0 <? size mod FRAME_SIZE))).
  assert (HC : 1 <= C <= 254) by (unfold C, FOUR_MB; Z.div_mod_to_equations; lia).
  assert (HL : 0 <= L <= 1024 /\ pages_of size = 1024 * (C - 1) + L).
  { unfold L, pages_of, C, FOUR_MB, FRAME_SIZE.
    destruct (Z.ltb_spec 0 (size mod 4096)); cbn [b2z];
      rewrite w16_small by (Z.div_mod_to_equations; lia); Z.div_mod_to_equations; lia. }
  destruct HL as [HL Hpages].
  apply (wp_while (fun c k' => 0 <= c <= C /\ exists m' evs, k' = logged evs (set_mem (fun _ => m') k) /\
      filled (mem k) m' (if decide (c = C) then pages_of size else 1024 * c)) (fun c _ => C - c)).
  - split; [lia|]. exists (mem k), []. rewrite logged_nil, decide_False by lia.
    split; [by destruct k|]. by apply filled_refl.
  - lia.
  - intros c k' [? _]. lia.
  - intros c k' (Hc & m1 & evs & -> & Hf). destruct (Z.ltb_spec c C) as [Hlt|Hge].
    + rewrite decide_False in Hf by lia. cbv zeta.
      replace (w16 (FRAMES_DIRECTORY_INDEX + c)) with (770 + c)
        by (change FRAMES_DIRECTORY_INDEX with 770; rewrite w16_small; lia).
      destruct (filled_open (mem k) m1 (1024 * c) (770 + c) Hf) as [Hf' Ho]; [lia|unfold window; lia|].
      wp_go. rewrite ka_pde by lia. cbn [mem logged set_trace set_mem]. fold (pde m1 (770 + c)).
      change (Z.lor PF_PRES PF_RW) with 3 at 1. fold L.
      eapply (wp_fill_table size c (mem k)); fold C; fold L; [lia| |reflexivity|exact Hf'|exact Ho|].
      { destruct (c <? C - 1); lia. }
      intros m' evs' Hm'. apply wp_ret. unfold w16. rewrite Z.mod_small by lia.
      split; [|lia]. split; [lia|]. exists m'. eexists (evs ++ evs'). split; [by rewrite <- logged_logged|].
      destruct (Z.ltb_spec c (C - 1)).
      * rewrite decide_False by lia. by replace (1024 * (c + 1)) with (1024 * c + 1024) by lia.
      * rewrite decide_True by lia. rewrite Hpages. by replace (C - 1) with c by lia.
    + apply wp_ret. rewrite decide_True in Hf by lia. by apply HQ.
Qed.
End for_frames.

(** ** Lookups and unmapping *)

Section lookups.
Context {LY : Layout} {LO : LayoutOk LY}.

Lemma va_fields va : 0 <= va < 4294967296 ->
  Z.shiftr va 22 = va / 4096 / 1024 /\ 0 <= va / 4096 / 1024 < 1024 /\
  Z.land (Z.shiftr va 12) 0x03FF = va / 4096 mod 1024 /\ 0 <= va / 4096 mod 1024 < 1024 /\
  Z.land va 0xFFF = va mod 4096 /\
  va / 4096 = 1024 * (va / 4096 / 1024) + va / 4096 mod 1024 /\ va / 4194304 = va / 4096 / 1024.
Proof.
  intros Hva. change 0x3FF with (Z.ones 10). change 0xFFF with (Z.ones 12).
  rewrite !Z.land_ones, !Z.shiftr_div_pow2 by lia.
  change (2 ^ 22) with 4194304. change (2 ^ 12) with 4096. change (2 ^ 10) with 1024.
  split_and!; Z.div_mod_to_equations; lia.
Qed.

Lemma get_physaddr_eq va k : paging (mem k) -> 0 <= va < 4294967296 ->
  get_physaddr va k = Ret (if decide (window (va / 4194304))
    then (va / 4194304 - 768) * FOUR_MB + va mod 4096
    else default NULL ((fun f => f * 4096 + va mod 4096) <$> vmap (mem k) (va / 4096))) k.
Proof.
  intros Hp Hva. destruct (va_fields va Hva) as (E1 & Hc & E2 & Ht & E3 & Ev & E4).
  unfold get_physaddr. rewrite E1, E2, E3, E4.
  set (c := va / 4096 / 1024) in *. set (t := va / 4096 mod 1024) in *.
  eapply bind_then; [reflexivity|]. rewrite ka_pde by done. fold (pde (mem k) c).
  rewrite pres_present, is4m_large. destruct (decide (window c)) as [Hw|Hw].
  - rewrite (paging_window _ Hp _ Hw). assert (0 <= va mod 4096 < 4096) by (apply Z.mod_pos_bound; lia).
    unfold mret, prog_ret.
    destruct Hw as [Hw|Hw]; rewrite Hw;
      [change (pde_4mb ((768 - 768) * FOUR_MB)) with 0x83|change (pde_4mb ((769 - 768) * FOUR_MB)) with 0x400083];
      cbn -[Z.mul Z.add Z.modulo Z.sub Z.shiftl w32];
      [change (Z.shiftl (pde4_addr 0x83) 22) with 0|change (Z.shiftl (pde4_addr 0x400083) 22) with 4194304];
      rewrite w32_small by lia; unfold FOUR_MB; f_equal; lia.
  - destruct (paging_table _ Hp c Hc Hw) as [Hl Hta]. rewrite Hl, Hta. unfold vmap.
    destruct (present (pde (mem k) c)) eqn:Hpc; cbn [negb].
    + eapply bind_then; [reflexivity|]. fold (pte_vaddr c t). rewrite ka_pte by done.
      rewrite <- Ev. fold (pte (mem k) (va / 4096)). rewrite pres_present.
      assert (Hi : pte_ignored (pte (mem k) (va / 4096)) = 0)
        by (apply Hp; [Z.div_mod_to_equations; lia|done]).
      rewrite Hi. destruct (present (pte (mem k) (va / 4096))); cbn [negb orb Z.eqb]; [|done].
      unfold mret, prog_ret. f_equal. cbn [fmap option_fmap option_map default].
      rewrite Z.shiftl_mul_pow2 by lia. apply w32_small.
      pose proof (getf_range 12 20 (pte (mem k) (va / 4096)) ltac:(lia)) as Hr.
      unfold pte_addr, id. change (2 ^ 20) with 1048576 in Hr. change (2 ^ 12) with 4096.
      Z.div_mod_to_equations; lia.
    + destruct (present (pte (mem k) (va / 4096))) eqn:Hpt; [|done].
      assert (present (pde (mem k) c) = true); [|congruence].
      apply (paging_present _ Hp (va / 4096)); [Z.div_mod_to_equations; lia|done|done].
Qed.

(** Where unmap_pages writes: it takes the ten high bits of the directory
    entry for the number of the table's page. *)
Definition unmap_target (va : Z) : Z :=
  let c := va / 4096 / 1024 in
  (if decide (c = 768) then 0 else 0x1000) + 4 * (va / 4096 mod 1024).

Lemma unmap_target_range va : 0 <= unmap_target va /\ unmap_target va + 4 <= 0x2000.
Proof.
  unfold unmap_target. assert (0 <= va / 4096 mod 1024 < 1024) by (apply Z.mod_pos_bound; lia).
  case_decide; lia.
Qed.

Lemma ka_unmap m va : paging m -> 0 <= va < 4294967296 ->
  ka (entry_at (PDE_PTADDR_TO_VADDR (pde4_addr (pde m (pde_index va)))) (pte_index va)) = unmap_target va.
Proof.
  intros Hp Hva. destruct (va_index va Hva) as (E1 & E2 & Hc & Ht & _).
  unfold unmap_target. rewrite <- E1, <- E2.
  set (c := pde_index va) in *. set (t := pte_index va) in *.
  assert (Ha : pde4_addr (pde m c) = if decide (c = 768) then 0 else 1).
  { destruct (decide (window c)) as [Hw|Hw].
    - rewrite (paging_window _ Hp _ Hw). by destruct Hw as [->| ->].
    - rewrite decide_False by (unfold window in Hw; lia).
      destruct (paging_table _ Hp c Hc Hw) as [_ Hta]. unfold pde_ptaddr, pde4_addr in *.
      pose proof (pde_range m c) as Hr. generalize dependent (pde m c). intros v Hta Hr.
      clear - Hc Hta Hr. bf. }
  rewrite Ha, ka_high; unfold entry_at, PDE_PTADDR_TO_VADDR, SYSTEM_ADDR_BASE;
    (destruct (decide (c = 768)); [change (Z.shiftl 0 12) with 0|change (Z.shiftl 1 12) with 0x1000]);
    word_lia.
Qed.

Lemma low_write_keeps m a x : a + 4 <= 0x2000 -> 0 <= a ->
  (forall c, 0 <= c < 1024 -> pde (wr32 m a x) c = pde m c) /\
  (forall v, 0 <= v < 1048576 -> pte (wr32 m a x) v = pte m v).
Proof.
  intros Ha Ha0. pose proof kpd_range as (?&?&_&_). split; intros.
  - apply pde_wr_apart; [unfold apart, PT_BASE; lia|done].
  - apply pte_wr_apart; [unfold apart, PT_BASE; lia|done].
Qed.

Lemma wp_unmap_pages pdbr va n (Q : unit -> kst -> Prop) k :
  vaddr pdbr = sym_page_dir -> paging (mem k) -> 0 <= n < 2147483648 ->
  0 <= va < 4294967296 -> va + 4096 * n <= 4294967296 ->
  (forall m' evs, (forall c, 0 <= c < 1024 -> pde m' c = pde (mem k) c) ->
     (forall v, 0 <= v < 1048576 -> pte m' v = pte (mem k) v) ->
     (forall a, 0x2000 <= a -> rd8 m' a = rd8 (mem k) a) ->
     (0 < n -> rd32 m' (unmap_target (va + 4096 * (n - 1))) = 0) ->
     Q tt (logged evs (set_mem (fun _ => m') k))) ->
  wp (unmap_pages pdbr va n) Q k.
Proof.
  intros Hpd Hp Hn Hva Hvan HQ. unfold unmap_pages. rewrite (w32_small n), Hpd by lia.
  apply (wp_while (fun '(i, va') k' => 0 <= i <= n /\ va' = w32 (va + 4096 * i) /\
      exists m' evs, k' = logged evs (set_mem (fun _ => m') k) /\
      (forall c, 0 <= c < 1024 -> pde m' c = pde (mem k) c) /\
      (forall v, 0 <= v < 1048576 -> pte m' v = pte (mem k) v) /\
      (forall a, 0x2000 <= a -> rd8 m' a = rd8 (mem k) a) /\
      (0 < i -> rd32 m' (unmap_target (va + 4096 * (i - 1))) = 0)) (fun '(i, _) _ => n - i)).
  - rewrite Z.add_0_r, w32_small by lia. split_and!; [lia|lia|done|]. exists (mem k), [].
    rewrite logged_nil. split_and!; [by destruct k|done|done|done|lia].
  - lia.
  - intros [i va'] k'. lia.
  - intros [i va'] k' (Hi & -> & m1 & evs & -> & Hd & Ht & Hr & Hz).
    destruct (Z.ltb_spec i n) as [Hlt|Hge].
    + rewrite (w32_small (va + 4096 * i)) by lia. unfold native_flush_tlb_single. wp_go.
      destruct (va_index (va + 4096 * i)) as (_ & _ & Hc & _); [lia|].
      cbn [mem logged set_trace set_mem]. rewrite ka_pde by done. fold (pde m1 (pde_index (va + 4096 * i))).
      assert (Hp1 : paging m1) by (by apply (paging_ext (mem k))).
      rewrite ka_unmap by (done || lia).
      pose proof (unmap_target_range (va + 4096 * i)) as [Hu1 Hu2].
      destruct (low_write_keeps m1 (unmap_target (va + 4096 * i)) 0 Hu2 Hu1) as [Hd' Ht'].
      rewrite (w32_small (i + 1)) by lia. split; [|lia]. split; [lia|]. split; [f_equal; unfold FRAME_SIZE; lia|].
      eexists (wr32 m1 (unmap_target (va + 4096 * i)) 0), (evs ++ [EInvlpg _]).
      split; [rewrite <- logged_logged; reflexivity|].
      split; [intros; by rewrite Hd', Hd|]. split; [intros; by rewrite Ht', Ht|].
      split; [intros; rewrite rd8_wr32_ne by lia; by apply Hr|].
      intros _. replace (i + 1 - 1) with i by lia. by rewrite rd32_wr32_eq.
    + apply wp_ret. replace n with i in * by lia. by apply HQ.
Qed.
End lookups.

(** * Tables for the examples *)

Definition example_tables : ram :=
  foldr (fun c m => wr32 m (0x105000 + 4 * c) (table_pde c (final_pde c))) ∅ (seqZ 0 1024).

Lemma example_tables_rest a : ~ (0x105000 <= a < 0x106000) -> rd8 example_tables a = 0.
Proof.
  intros Ha. unfold example_tables.
  assert (Hall : Forall (fun c => 0 <= c < 1024) (seqZ 0 1024))
    by (apply Forall_forall; intros c Hc%elem_of_seqZ; lia).
  induction Hall as [|c cs Hc Hcs IH]; [done|]. cbn [foldr]. by rewrite rd8_wr32_ne by lia.
Qed.

Lemma example_tables_paging :
  @paging example_layout example_tables /\ forall v, 0 <= v < 1048576 -> vmap example_tables v = None.
Proof.
  apply (@paging_fresh example_layout example_layout_ok).
  - intros c Hc.
    assert (Hall : Forall (fun c => @pde example_layout example_tables c = table_pde c (final_pde c)) (seqZ 0 1024))
      by (refine (bool_decide_unpack _ _); vm_compute; exact I).
    rewrite Forall_forall in Hall. apply Hall, elem_of_seqZ. lia.
  - intros a Ha. apply example_tables_rest. unfold PT_BASE in *. lia.
Qed.

(** * Properties *)

(** After init_page_directory the processor, once paging is enabled on it,
    sees the first 4 MB of RAM at 0 and the first 8 MB from 0xC0000000 on, and
    any other address faults; the rest of RAM is untouched. *)
Theorem init_page_directory_map {LY : Layout} {LO : LayoutOk LY} k :
  ⟨ k ⟩ init_page_directory ⟨ _, k' | exists m', k' = set_mem (fun _ => m') k /\
    (forall va, 0 <= va < 4294967296 -> mmu m' kpd va =
       if decide (0 <= va < 0x400000) then Some va
       else if decide (0xC0000000 <= va < 0xC0800000) then Some (va - 0xC0000000)
       else None) /\
    (forall a, ~ (kpd <= a < kpd + 4096) -> rd8 m' a = rd8 (mem k) a) ⟩.
Proof.
  apply wp_init_page_directory. intros m' Hd Hr. exists m'. split; [done|]. split; [|done].
  intros va Hva. by apply mmu_boot.
Qed.

Lemma init_page_directory_map_witness :
  @wp kst unit (@init_page_directory example_layout) (fun _ k' =>
    mmu (mem k') (@kpd example_layout) 0xC0123456 = Some 0x123456 /\
    mmu (mem k') (@kpd example_layout) 0x00800000 = None) (boot_state ∅).
Proof.
  eapply wp_mono.
  - apply (@init_page_directory_map example_layout example_layout_ok (boot_state ∅)).
  - cbv beta. intros _ k' (m' & -> & Hm & _). split; [exact (Hm 0xC0123456 ltac:(lia))|exact (Hm 0x00800000 ltac:(lia))].
Defined.

(** finalize_pagination and init_page_tables, on the directory of the boot
    code, establish the invariant of the page tables with no page mapped: the
    processor is left with the kernel's window alone, and the page fault
    handler is registered. *)
Theorem page_tables_established {LY : Layout} {LO : LayoutOk LY} k :
  (forall c, 0 <= c < 1024 -> pde (mem k) c = boot_pde c) ->
  ⟨ k ⟩ finalize_pagination;; init_page_tables ⟨ _, k' |
    paging (mem k') /\
    (forall va, 0 <= va < 4294967296 -> mmu (mem k') kpd va =
       if decide (0xC0000000 <= va < 0xC0800000) then Some (va - 0xC0000000) else None) /\
    g_handlers k' = <[14%nat := Some page_fault_handler_ptr]> (g_handlers k) /\
    g_frame_page_directory k' = Frame 1 kpd sym_page_dir /\
    (forall a, ~ (kpd <= a < kpd + 4096) -> ~ (PT_BASE <= a < PT_BASE + 0x400000) ->
       rd8 (mem k') a = rd8 (mem k) a) ⟩.
Proof.
  intros Hd. apply wp_bind. eapply wp_eq; [apply finalize_pagination_eq|].
  apply wp_init_page_tables; [done|]. cbn [mem set_handlers logged set_trace set_kpd set_mem].
  intros m' Hd' Ht Hr. cbn [mem set_mem g_handlers g_frame_page_directory].
  destruct (paging_fresh m') as [Hp Hv].
  { intros c Hc. by rewrite Hd', final_pde_wr. }
  { done. }
  split_and!; [done| |done|done|].
  - intros va Hva. rewrite mmu_paging, Hv by (done || (Z.div_mod_to_equations; lia)).
    unfold window, SYSTEM_ADDR_BASE. case_decide as H1; case_decide as H2; try done;
      exfalso; Z.div_mod_to_equations; lia.
  - intros a Ha1 Ha2. rewrite Hr by done. rewrite rd8_wr32_ne by lia. done.
Qed.

Definition example_directory : ram :=
  foldr (fun c m => wr32 m (0x105000 + 4 * c) (boot_pde c)) ∅ (seqZ 0 1024).

Lemma page_tables_established_witness :
  @wp kst unit (@finalize_pagination example_layout;; init_page_tables) (fun _ k' =>
      @paging example_layout (mem k') /\
      mmu (mem k') 0x105000 0xC0123456 = Some 0x123456 /\ mmu (mem k') 0x105000 0x1000 = None)
    (set_mem (fun _ => example_directory) (boot_state ∅)).
Proof.
  eapply wp_mono.
  - apply (@page_tables_established example_layout example_layout_ok
      (set_mem (fun _ => example_directory) (boot_state ∅))).
    intros c Hc.
    assert (Hall : Forall (fun c => @pde example_layout example_directory c = boot_pde c) (seqZ 0 1024))
      by (refine (bool_decide_unpack _ _); vm_compute; exact I).
    rewrite Forall_forall in Hall. apply Hall, elem_of_seqZ. lia.
  - cbv beta. intros _ k' (H1 & H2 & _). split; [exact H1|].
    split; [exact (H2 0xC0123456 ltac:(lia))|exact (H2 0x1000 ltac:(lia))].
Defined.

(** init_page_directory_for_frames, for a size that is not a multiple of
    4 MB, maps the pages that hold that many bytes from 0xC0800000 on, one after
    the other, to RAM from 8 MB on, and keeps the invariant and every other
    translation. Every address of the kernel's window and of these pages then
    translates to the address 0xC0000000 below it. *)
Theorem frames_window_linear {LY : Layout} {LO : LayoutOk LY} size k :
  0 <= size < 254 * FOUR_MB -> 0 < size mod FOUR_MB -> paging (mem k) ->
  ⟨ k ⟩ init_page_directory_for_frames size ⟨ _, k' | exists m' evs,
    k' = logged evs (set_mem (fun _ => m') k) /\ paging m' /\
    (forall va, 0xC0000000 <= va < 0xC0800000 + 4096 * pages_of size -> mmu m' kpd va = Some (ka va)) /\
    (forall va, 0 <= va < 4294967296 -> ~ (0xC0800000 <= va < 0xC0800000 + 4096 * pages_of size) ->
       mmu m' kpd va = mmu (mem k) kpd va) /\
    (forall a, ~ (kpd <= a < kpd + 4096) -> ~ (PT_BASE <= a < PT_BASE + 0x400000) ->
       rd8 m' a = rd8 (mem k) a) ⟩.
Proof.
  intros Hs Hm Hp. apply wp_init_page_directory_for_frames; try done. intros m' evs [Hp' Hv Hr].
  assert (Hpages : pages_of size <= 0x3F800).
  { unfold pages_of, FRAME_SIZE, FOUR_MB in *. destruct (0 <? _); cbn [b2z]; Z.div_mod_to_equations; lia. }
  exists m', evs. split; [done|]. split; [done|]. split; [|split; [|done]].
  - intros va Hva. rewrite mmu_paging by (done || lia). rewrite ka_high by (unfold SYSTEM_ADDR_BASE; lia).
    case_decide as Hw; [done|]. rewrite Hv by (Z.div_mod_to_equations; lia).
    unfold window, FRAMES_VPN, SYSTEM_ADDR_BASE in *.
    rewrite decide_True by (Z.div_mod_to_equations; lia). cbn [fmap option_fmap option_map].
    f_equal. Z.div_mod_to_equations; lia.
  - intros va Hva Hout. rewrite !mmu_paging by done. case_decide; [done|].
    rewrite Hv by (Z.div_mod_to_equations; lia). unfold FRAMES_VPN.
    rewrite decide_False; [done|]. Z.div_mod_to_equations; lia.
Qed.

Lemma frames_window_linear_witness :
  @wp kst unit (@init_page_directory_for_frames example_layout 12276) (fun _ k' =>
      mmu (mem k') 0x105000 0xC0802FFF = Some 0x802FFF /\ mmu (mem k') 0x105000 0xC0803000 = None)
    (set_mem (fun _ => example_tables) (boot_state ∅)).
Proof.
  destruct example_tables_paging as [Hp Hv]. eapply wp_mono.
  - apply (@frames_window_linear example_layout example_layout_ok 12276
      (set_mem (fun _ => example_tables) (boot_state ∅)));
      [unfold FOUR_MB; lia|reflexivity|exact Hp].
  - cbv beta. intros _ k' (m' & evs & -> & Hp' & H1 & H2 & _). cbn [mem logged set_trace set_mem].
    assert (pages_of 12276 = 3) as E by reflexivity.
    split; [exact (H1 0xC0802FFF ltac:(rewrite E; lia))|].
    rewrite E in *. transitivity (mmu example_tables 0x105000 0xC0803000); [exact (H2 0xC0803000 ltac:(lia) ltac:(lia))|].
    change 0x105000 with (@kpd example_layout).
    rewrite (@mmu_paging example_layout example_layout_ok) by (done || lia).
    rewrite decide_False by (vm_compute; intros [?|?]; discriminate).
    rewrite Hv; [reflexivity|]. vm_compute. split; congruence.
Defined.

(** C24: get_physaddr answers as the processor translates, with 0 for a fault,
    for every address outside the kernel's 4 MB pages; inside them it drops
    bits 12 to 21 of the address, so that it is right for the first 4 KB of each
    alone. *)
Theorem get_physaddr_translates {LY : Layout} {LO : LayoutOk LY} va k :
  paging (mem k) -> 0 <= va < 4294967296 ->
  exists pa, get_physaddr va k = Ret pa k /\
    (~ (0xC0000000 <= va < 0xC0800000) -> pa = default NULL (mmu (mem k) kpd va)) /\
    (0xC0000000 <= va < 0xC0800000 ->
       pa = (va - 0xC0000000) / 0x400000 * 0x400000 + va mod 0x1000 /\
       mmu (mem k) kpd va = Some (va - 0xC0000000) /\
       (Some pa = mmu (mem k) kpd va <-> va mod 0x400000 < 0x1000)).
Proof.
  intros Hp Hva. eexists. split; [by apply get_physaddr_eq|]. rewrite mmu_paging by done.
  assert (Hwin : window (va / 4194304) <-> 0xC0000000 <= va < 0xC0800000)
    by (unfold window; Z.div_mod_to_equations; lia).
  split; intros Hin.
  - rewrite decide_False by tauto. by rewrite decide_False by tauto.
  - rewrite !decide_True by tauto. unfold SYSTEM_ADDR_BASE, FOUR_MB.
    assert (E : (va / 4194304 - 768) * 4194304 = (va - 0xC0000000) / 0x400000 * 0x400000)
      by (Z.div_mod_to_equations; lia).
    split; [lia|]. split; [done|]. split.
    + intros [= H]. Z.div_mod_to_equations; lia.
    + intros H. f_equal. Z.div_mod_to_equations; lia.
Qed.

Lemma get_physaddr_translates_witness :
  exists pa, @get_physaddr example_layout 0xC0123456 (set_mem (fun _ => example_tables) (boot_state ∅))
      = Ret pa (set_mem (fun _ => example_tables) (boot_state ∅)) /\
    pa = 0x456 /\ mmu example_tables 0x105000 0xC0123456 = Some 0x123456.
Proof.
  destruct (@get_physaddr_translates example_layout example_layout_ok 0xC0123456
    (set_mem (fun _ => example_tables) (boot_state ∅))) as (pa & H1 & _ & H2).
  - exact (proj1 example_tables_paging).
  - lia.
  - exists pa. split; [exact H1|]. destruct (H2 ltac:(lia)) as (-> & H3 & _). split; [reflexivity|exact H3].
Defined.

(** C30: unmap_pages unmaps nothing. It finds the page table through the ten
    high bits of the directory entry instead of the table's address, clears
    words in the first two pages of RAM, and the processor translates every
    address, those it was asked to unmap included, as before. *)
Theorem unmap_pages_keeps_mappings {LY : Layout} {LO : LayoutOk LY} pdbr va n k :
  vaddr pdbr = sym_page_dir -> paging (mem k) -> 0 <= n < 2147483648 ->
  0 <= va < 4294967296 -> va + 4096 * n <= 4294967296 ->
  ⟨ k ⟩ unmap_pages pdbr va n ⟨ _, k' | exists m' evs, k' = logged evs (set_mem (fun _ => m') k) /\
    paging m' /\ (forall a, 0 <= a < 4294967296 -> mmu m' kpd a = mmu (mem k) kpd a) /\
    (forall a, 0x2000 <= a -> rd8 m' a = rd8 (mem k) a) /\
    (0 < n -> rd32 m' (unmap_target (va + 4096 * (n - 1))) = 0) ⟩.
Proof.
  intros Hpd Hp Hn Hva Hvan. apply wp_unmap_pages; try done. intros m' evs Hd Ht Hr Hz.
  assert (Hp' : paging m') by (by apply (paging_ext (mem k))).
  exists m', evs. split; [done|]. split; [done|]. split; [|done].
  intros a Ha. rewrite !mmu_paging by done. unfold vmap. by rewrite Ht by (Z.div_mod_to_equations; lia).
Qed.

Definition example_kpd : frame := Frame 1 0x105000 0xC0105000.
Definition example_paged : kst := set_kpd example_kpd (set_mem (fun _ => example_tables) (boot_state ∅)).

Lemma unmap_pages_keeps_mappings_witness :
  @wp kst unit (unmap_pages example_kpd 0x08000000 3) (fun _ k' =>
    mmu (mem k') 0x105000 0x08001234 = mmu example_tables 0x105000 0x08001234) example_paged.
Proof.
  eapply wp_mono.
  - apply (@unmap_pages_keeps_mappings example_layout example_layout_ok example_kpd 0x08000000 3 example_paged);
      [reflexivity|exact (proj1 example_tables_paging)|lia|lia|lia].
  - cbv beta. intros _ k' (m' & evs & -> & _ & H & _). exact (H 0x08001234 ltac:(lia)).
Defined.

(** C5: map_pages on free pages returns SUCCES. The processor then translates
    the i-th page asked for to the i-th frame's page and every other address as
    before, the invariant of the tables is kept, each frame has one more
    reference and its page's address, and no byte outside the tables and those
    frames has changed. *)
Theorem map_pages_maps {LY : Layout} {LO : LayoutOk LY} pdbr va fp n flags k :
  vaddr pdbr = sym_page_dir -> flags mod 2 = 1 -> 0 <= n < 4294967296 ->
  0 <= va < 4294967296 -> va + 4096 * n <= 4294967296 -> frames_ok fp n -> paging (mem k) ->
  (forall j, 0 <= j < n -> ~ window ((va / 4096 + j) / 1024) /\ vmap (mem k) (va / 4096 + j) = None) ->
  ⟨ k ⟩ map_pages pdbr va fp n flags ⟨ r, k' | r = SUCCES /\
    exists m' evs, quiet (logged evs (set_mem (fun _ => m') k)) k' /\ paging m' /\
    (forall a, 0 <= a < 4294967296 -> mmu m' kpd a =
       if decide (va / 4096 <= a / 4096 < va / 4096 + n)
       then Some (rd32 (mem k) (ka fp + 12 * (a / 4096 - va / 4096) + 4) / 4096 * 4096 + a mod 4096)
       else mmu (mem k) kpd a) /\
    (forall j, 0 <= j < n -> frame_in m' (ka fp + 12 * j) =
       Frame (w32 (rd32 (mem k) (ka fp + 12 * j) + 1)) (rd32 (mem k) (ka fp + 12 * j + 4)) (va + 4096 * j)) /\
    (forall a, ~ (kpd <= a < kpd + 4096) -> ~ (PT_BASE <= a < PT_BASE + 0x400000) ->
       ~ (ka fp <= a < ka fp + 12 * n) -> rd8 m' a = rd8 (mem k) a) ⟩.
Proof.
  intros Hpd Hfl Hn Hva Hvan Hf Hp Hfree.
  eapply wp_mono; [apply (map_pages_prefix pdbr n flags Hpd va fp n k); try done; lia|].
  cbv beta. intros r k' (-> & m' & evs & Hq & Hm). rewrite decide_True by done.
  split; [done|]. exists m', evs. split; [done|]. split; [apply Hm|].
  split; [|split; apply Hm]. intros a Ha. eapply mapped_mmu; try done. intros j Hj. by apply Hfree.
Qed.

Lemma example_frames_ok : @frames_ok example_layout 0xC0800000 2.
Proof. split; vm_compute; intuition congruence. Qed.

Lemma map_pages_maps_witness :
  @wp kst Z (map_pages example_kpd 0x08000000 0xC0800000 2 3) (fun r k' =>
    r = SUCCES /\ mmu (mem k') 0x105000 0x08001234 = Some 0x234) example_paged.
Proof.
  eapply wp_mono.
  - apply (@map_pages_maps example_layout example_layout_ok example_kpd
      0x08000000 0xC0800000 2 3 example_paged); [reflexivity|reflexivity|lia|lia|lia|exact example_frames_ok|
      exact (proj1 example_tables_paging)|].
    intros j Hj. split; [unfold window; Z.div_mod_to_equations; lia|].
    apply example_tables_paging. Z.div_mod_to_equations; lia.
  - cbv beta. intros r k' (-> & m' & evs & Hq & _ & H & _). split; [reflexivity|].
    apply quiet_mem in Hq. rewrite Hq. change 0x105000 with (@kpd example_layout).
    cbn [mem logged set_trace set_mem]. rewrite H by lia.
    rewrite decide_True by (vm_compute; intuition congruence).
    rewrite (rd32_ext ∅ (mem example_paged)); [reflexivity|].
    intros i Hi. change (mem example_paged) with example_tables.
    rewrite example_tables_rest; [reflexivity|].
    change (ka 0xC0800000) with 0x800000 in Hi. Z.div_mod_to_equations; lia.
Defined.

(** When one of the pages asked for is mapped already or belongs to a 4 MB
    page, map_pages returns FAILED and does not undo what it has done: the pages
    before the first such page stay mapped to their frames, with their
    references counted, and the others translate as before. *)
Theorem map_pages_partial {LY : Layout} {LO : LayoutOk LY} pdbr va fp i n flags k :
  vaddr pdbr = sym_page_dir -> flags mod 2 = 1 -> 0 <= i < n -> n < 4294967296 ->
  0 <= va < 4294967296 -> va + 4096 * n <= 4294967296 -> frames_ok fp n -> paging (mem k) ->
  (forall j, 0 <= j < i -> ~ window ((va / 4096 + j) / 1024) /\ vmap (mem k) (va / 4096 + j) = None) ->
  window ((va / 4096 + i) / 1024) \/ vmap (mem k) (va / 4096 + i) <> None ->
  ⟨ k ⟩ map_pages pdbr va fp n flags ⟨ r, k' | r = FAILED /\
    exists m' evs, quiet (logged evs (set_mem (fun _ => m') k)) k' /\ paging m' /\
    (forall a, 0 <= a < 4294967296 -> mmu m' kpd a =
       if decide (va / 4096 <= a / 4096 < va / 4096 + i)
       then Some (rd32 (mem k) (ka fp + 12 * (a / 4096 - va / 4096) + 4) / 4096 * 4096 + a mod 4096)
       else mmu (mem k) kpd a) /\
    (forall j, 0 <= j < i -> frame_in m' (ka fp + 12 * j) =
       Frame (w32 (rd32 (mem k) (ka fp + 12 * j) + 1)) (rd32 (mem k) (ka fp + 12 * j + 4)) (va + 4096 * j)) ⟩.
Proof.
  intros Hpd Hfl Hi Hn Hva Hvan Hf Hp Hfree Hstop.
  eapply wp_mono; [apply (map_pages_prefix pdbr n flags Hpd va fp i k); try done; lia|].
  cbv beta. intros r k' (-> & m' & evs & Hq & Hm). rewrite decide_False by lia.
  split; [done|]. exists m', evs. split; [done|]. split; [apply Hm|]. split; [|apply Hm].
  intros a Ha. eapply mapped_mmu; try done. intros j Hj. by apply Hfree.
Qed.

Lemma map_pages_partial_witness :
  @wp kst Z (map_pages example_kpd 0xBFFFF000 0xC0800000 2 3) (fun r k' =>
    r = FAILED /\ mmu (mem k') 0x105000 0xBFFFF00A = Some 0xA) example_paged.
Proof.
  eapply wp_mono.
  - apply (@map_pages_partial example_layout example_layout_ok example_kpd
      0xBFFFF000 0xC0800000 1 2 3 example_paged); [reflexivity|reflexivity|lia|lia|lia|lia|exact example_frames_ok|
      exact (proj1 example_tables_paging)| |left; left; reflexivity].
    intros j Hj. split; [unfold window; Z.div_mod_to_equations; lia|].
    apply example_tables_paging. Z.div_mod_to_equations; lia.
  - cbv beta. intros r k' (-> & m' & evs & Hq & _ & H & _). split; [reflexivity|].
    apply quiet_mem in Hq. rewrite Hq. change 0x105000 with (@kpd example_layout).
    cbn [mem logged set_trace set_mem]. rewrite H by lia.
    rewrite decide_True by (vm_compute; intuition congruence).
    rewrite (rd32_ext ∅ (mem example_paged)); [reflexivity|].
    intros i Hi. change (mem example_paged) with example_tables.
    rewrite example_tables_rest; [reflexivity|].
    change (ka 0xC0800000) with 0x800000 in Hi. Z.div_mod_to_equations; lia.
Defined.
