(* ===== verification/Frames.v ===== *)
(** Physical frames (src/frame.c, inc/frame.h): their descriptions in RAM, the
    set-up from the memory map and the allocator. *)
From S2P Require Import Prelude Memory State Console Kprintf Interrupts Pages Mmu Tables.
Local Open Scope Z_scope.
Local Open Scope kern_scope.
Local Set Default Proof Using "Type*".

(** * Structures read from RAM *)

(** memory_map_t. *)
Definition sizeof_memory_map : Z := 24.
Definition map_base_addr_low (p : Z) : Z := w32 (p + 4).
Definition map_length_low (p : Z) : Z := w32 (p + 12).
Definition map_type (p : Z) : Z := w32 (p + 20).

(** multiboot_info_t. *)
Definition mbi_mmap_length (p : Z) : Z := w32 (p + 44).
Definition mbi_mmap_addr (p : Z) : Z := w32 (p + 48).

(** * src/frame.c *)

Definition get_frame_at (index : Z) : Z := w32 (FRAMES_START_VADDR + index * sizeof_frame).

Section frames.
Context {LY : Layout}.

Definition init_ram_frames : prog kst unit :=
  ctx ← gets g_frames_context;
  fend_paddr ← get_physaddr (frames_meta_end_vaddr ctx);
  memset (frames_meta_start_vaddr ctx) 0 (w32 (frames_count ctx * sizeof_frame));;
  while32 (fun cursor =>
    ctx ← gets g_frames_context;
    if cursor <? frames_count ctx
    then
      let addr := w32 (RAM_BASE_ADDR + cursor * FRAME_SIZE) in
      let frame := get_frame_at cursor in
      store32 (f_ref_count frame) (if addr <? fend_paddr then 1 else 0);;
      rc ← load32 (f_ref_count frame);
      when (negb (rc =? 0))
        (store32 (f_vaddr frame) (w32 (frames_meta_start_vaddr ctx + cursor * sizeof_frame)));;
      mret (inl (w32 (cursor + 1)))
    else mret (inr tt)) 0.

(** A null [map] is dereferenced. *)
Definition setup_frames_addrs (map : Z) : prog kst unit :=
  if map =? NULL then undef
  else
    length_low ← load32 (map_length_low map);
    let ram_free_space := s32 (length_low - KERNEL_SIZE_IN_RAM) in
    let nb_frames := w32 ram_free_space / FRAME_SIZE in
    let size_of_meta := w32 (nb_frames * sizeof_frame) in
    modify (set_fctx (FrameContext map FRAMES_START_VADDR
      (w32 (FRAMES_START_VADDR + nb_frames * sizeof_frame)) nb_frames));;
    init_page_directory_for_frames size_of_meta.

Definition init_frame_alloc (multiboot_info : Z) : prog kst unit :=
  ma ← load32 (mbi_mmap_addr multiboot_info);
  let mmaps := w32 (SYSTEM_ADDR_BASE + ma) in
  ml ← load32 (mbi_mmap_length multiboot_info);
  let size := ml / sizeof_memory_map in
  kprintf (nl +:+ "Kernel end is at address => %p" +:+ nl) [AInt sym_kernel_end];;
  kprintf ("	Memory found length => %d" +:+ nl) [AInt size];;
  kprintf ("	Memory found addr => %p" +:+ nl +:+ nl) [AInt mmaps];;
  kprintf (nl +:+ "Available memories :" +:+ nl) [];;
  ram_addr ← while32 (fun '(cursor, ram_addr) =>
    if cursor <? size
    then
      let mmap := w32 (mmaps + cursor * sizeof_memory_map) in
      base ← load32 (map_base_addr_low mmap);
      len ← load32 (map_length_low mmap);
      type ← load32 (map_type mmap);
      kprintf ("	Memory found at %p->%p of size %B %x b (%d)" +:+ nl)
        [AInt base; AInt (w32 (base + len)); AInt len; AInt len; AInt type];;
      mret (inl (w32 (cursor + 1), if base =? RAM_BASE_ADDR then mmap else ram_addr))
    else mret (inr ram_addr)) (0, NULL);
  setup_frames_addrs ram_addr;;
  init_ram_frames.

End frames.

Definition alloc_frame : prog kst Z :=
  while32 (fun cursor =>
    n ← gets (fun k => frames_count (g_frames_context k));
    if cursor <? n
    then
      let frame := get_frame_at cursor in
      rc ← load32 (f_ref_count frame);
      if rc =? 0 then store32 (f_ref_count frame) 1;; mret (inr frame)
      else mret (inl (w32 (cursor + 1)))
    else mret (inr NULL)) 0.

Definition frames_set_ref_count (frames n ref_count : Z) : prog kst unit :=
  while32 (fun '(cursor, frames) =>
    if cursor <? n
    then
      store32 (f_ref_count frames) ref_count;;
      mret (inl (s32 (cursor + 1), w32 (frames + sizeof_frame)))
    else mret (inr tt)) (0, frames).

(** The status, and what is stored through [frames] if anything is. *)
Definition alloc_frames (n : Z) : prog kst (Z * option Z) :=
  while32 (fun '(cursor, count, fsaved) =>
    N ← gets (fun k => frames_count (g_frames_context k));
    if cursor <? N
    then
      let fcurrent := get_frame_at cursor in
      rc ← load32 (f_ref_count fcurrent);
      if rc =? 0
      then
        let fsaved := if fsaved =? NULL then fcurrent else fsaved in
        let count := s32 (count + 1) in
        if count =? n
        then frames_set_ref_count fsaved n 1;; mret (inr (SUCCES, Some fsaved))
        else mret (inl (w32 (cursor + 1), count, fsaved))
      else mret (inl (w32 (cursor + 1), 0, NULL))
    else mret (inr (FAILED, None))) (0, 0, NULL).

Definition free_frame (frame : Z) : prog kst unit :=
  rc ← load32 (f_ref_count frame);
  store32 (f_ref_count frame) (s32 (s32 rc - 1));;
  rc ← load32 (f_ref_count frame);
  when (s32 rc <? 0) (store32 (f_ref_count frame) 0).

Definition frame_to_phys (f : Z) : prog kst Z := load32 (f_addr f).

Definition phys_to_frame (addr : Z) : Z :=
  let addr_in_frames := w32 (addr - 0x800000) in
  get_frame_at (Z.shiftr addr_in_frames 12).

(** * Proofs *)

(** The description of frame [i] in RAM, and its reference count. *)
Definition desc (i : Z) : Z := 0x800000 + 12 * i.
Definition rc (m : ram) (i : Z) : Z := rd32 m (desc i).

(** The table of descriptions fits between 0xC0800000 and the end of memory. *)
Definition fits (N : Z) : Prop := 0 <= N /\ 12 * N < 0x3F800000.

Lemma get_frame_at_eq N i : fits N -> 0 <= i <= N -> get_frame_at i = 0xC0800000 + 12 * i.
Proof.
  unfold fits. intros HN Hi. unfold get_frame_at. change FRAMES_START_VADDR with 0xC0800000.
  unfold sizeof_frame. rewrite w32_small by lia. lia.
Qed.

Lemma ka_frame_at N i : fits N -> 0 <= i <= N -> ka (get_frame_at i) = desc i.
Proof.
  intros HN Hi. rewrite (get_frame_at_eq N) by done. unfold fits, desc in *.
  rewrite ka_high; unfold SYSTEM_ADDR_BASE; lia.
Qed.

Lemma ka_f_ref_count N i : fits N -> 0 <= i <= N -> ka (f_ref_count (get_frame_at i)) = desc i.
Proof. apply ka_frame_at. Qed.

Lemma ka_f_addr N i : fits N -> 0 <= i < N -> ka (f_addr (get_frame_at i)) = desc i + 4.
Proof.
  intros HN Hi. unfold f_addr. rewrite (get_frame_at_eq N) by (done || lia). unfold fits, desc in *.
  rewrite w32_small by lia. rewrite ka_high; unfold SYSTEM_ADDR_BASE; lia.
Qed.

Lemma ka_f_vaddr N i : fits N -> 0 <= i < N -> ka (f_vaddr (get_frame_at i)) = desc i + 8.
Proof.
  intros HN Hi. unfold f_vaddr. rewrite (get_frame_at_eq N) by (done || lia). unfold fits, desc in *.
  rewrite w32_small by lia. rewrite ka_high; unfold SYSTEM_ADDR_BASE; lia.
Qed.

Lemma frame_at_next N i : fits N -> 0 <= i < N ->
  w32 (get_frame_at i + sizeof_frame) = get_frame_at (i + 1).
Proof.
  intros HN Hi. rewrite !(get_frame_at_eq N) by (done || lia). unfold fits, sizeof_frame in *.
  rewrite w32_small; lia.
Qed.

Lemma frame_at_not_null N i : fits N -> 0 <= i <= N -> (get_frame_at i =? NULL) = false.
Proof.
  intros HN Hi. rewrite (get_frame_at_eq N) by done. apply Z.eqb_neq. unfold NULL. lia.
Qed.

Lemma rc_wr m i j v : rc (wr32 m (desc i) v) j = if decide (i = j) then w32 v else rc m j.
Proof.
  unfold rc, desc. case_decide as H; [rewrite H; apply rd32_wr32_eq|]. apply rd32_wr32_ne. lia.
Qed.

(** [set_counts m m' s n v]: the reference counts of the [n] frames from [s] on
    are [v] in [m'], which is [m] elsewhere. *)
Record set_counts (m m' : ram) (s n v : Z) : Prop := {
  counts_in i : s <= i < s + n -> rc m' i = w32 v;
  counts_out a : (forall i, s <= i < s + n -> ~ (desc i <= a < desc i + 4)) -> rd8 m' a = rd8 m a
}.

Lemma set_counts_rc m m' s n v i : set_counts m m' s n v ->
  rc m' i = if decide (s <= i < s + n) then w32 v else rc m i.
Proof.
  intros [Hin Hout]. case_decide as H; [by apply Hin|]. apply rd32_ext. intros a Ha.
  apply Hout. unfold desc in *. lia.
Qed.

Section frame_alloc.
Variables (k : kst) (N : Z).
Hypothesis HN : frames_count (g_frames_context k) = N.
Hypothesis Hfit : fits N.

Lemma wp_frames_set_ref_count s n v (Q : unit -> kst -> Prop) :
  0 <= s -> 0 <= n < 2147483648 -> s + n <= N ->
  (forall m', set_counts (mem k) m' s n v -> Q tt (set_mem (fun _ => m') k)) ->
  wp (frames_set_ref_count (get_frame_at s) n v) Q k.
Proof.
  intros Hs Hn HsN HQ. unfold frames_set_ref_count.
  apply (wp_while (fun '(c, f) k' => 0 <= c <= n /\ f = get_frame_at (s + c) /\
      exists m', k' = set_mem (fun _ => m') k /\ set_counts (mem k) m' s c v) (fun '(c, _) _ => n - c)).
  - rewrite Z.add_0_r. split_and!; [lia|lia|done|]. exists (mem k). split; [by destruct k|].
    split; [lia|done].
  - lia.
  - intros [c f] k'. lia.
  - intros [c f] k' (Hc & -> & m1 & -> & [Hin Hout]). destruct (Z.ltb_spec c n) as [Hlt|Hge].
    + wp_go. rewrite (ka_f_ref_count N) by (done || lia). rewrite (frame_at_next N) by (done || lia).
      rewrite s32_small by (unfold INT_MIN; lia). split; [|lia]. split; [lia|].
      split; [f_equal; lia|]. eexists. split; [reflexivity|]. cbn [mem set_mem]. split.
      * intros i Hi. rewrite rc_wr. case_decide; [done|]. apply Hin. lia.
      * intros a Ha. rewrite rd8_wr32_ne.
        -- apply Hout. intros i Hi. apply Ha. lia.
        -- specialize (Ha (s + c) ltac:(lia)). lia.
    + apply wp_ret. replace n with c in HQ by lia. apply HQ. by split.
Qed.

(** A run of [n] free frames from [s] on. *)
Definition free_run (m : ram) (s n : Z) : Prop := forall i, s <= i < s + n -> rc m i = 0.

(** alloc_frames takes the first run that is long enough. *)
Lemma wp_alloc_frames n (Q : Z * option Z -> kst -> Prop) : 1 <= n < 2147483648 ->
  N < 2147483648 ->
  (forall s m', 0 <= s -> s + n <= N -> free_run (mem k) s n ->
     (forall s', 0 <= s' < s -> ~ free_run (mem k) s' n) -> set_counts (mem k) m' s n 1 ->
     Q (SUCCES, Some (get_frame_at s)) (set_mem (fun _ => m') k)) ->
  ((forall s, 0 <= s -> s + n <= N -> ~ free_run (mem k) s n) -> Q (FAILED, None) k) ->
  wp (alloc_frames n) Q k.
Proof.
  intros Hn HN31 Hsucc Hfail. unfold alloc_frames.
  apply (wp_while (fun '(c, cnt, fs) k' => k' = k /\ 0 <= c <= N /\ 0 <= cnt < n /\ cnt <= c /\
      fs = (if decide (cnt = 0) then NULL else get_frame_at (c - cnt)) /\
      free_run (mem k) (c - cnt) cnt /\ (forall s, 0 <= s -> s < c - cnt -> ~ free_run (mem k) s n))
    (fun '(c, _, _) _ => N - c)).
  - unfold fits in Hfit. split_and!; try done; try lia. intros i Hi. lia.
  - unfold fits in Hfit. lia.
  - intros [[c cnt] fs] k'. lia.
  - intros [[c cnt] fs] k' (-> & Hc & Hcnt & Hcc & -> & Hrun & Hno). wp_go. rewrite HN.
    destruct (Z.ltb_spec c N) as [Hlt|Hge]; [|apply wp_ret, Hfail].
    + wp_go. rewrite (ka_f_ref_count N) by (done || lia). fold (rc (mem k) c).
      destruct (Z.eqb_spec (rc (mem k) c) 0) as [Hrc|Hrc].
      * assert (Hfs : (if (if decide (cnt = 0) then NULL else get_frame_at (c - cnt)) =? NULL
            then get_frame_at c else (if decide (cnt = 0) then NULL else get_frame_at (c - cnt)))
            = get_frame_at (c - cnt)).
        { case_decide as E; [subst; by rewrite Z.sub_0_r|]. by rewrite (frame_at_not_null N) by (done || lia). }
        rewrite Hfs. cbv zeta. rewrite s32_small by (unfold INT_MIN; lia).
        assert (Hrun' : free_run (mem k) (c - cnt) (cnt + 1)).
        { intros i Hi. destruct (decide (i = c)) as [->|]; [done|]. apply Hrun. lia. }
        destruct (Z.eqb_spec (cnt + 1) n) as [He|Hne].
        -- apply wp_bind, wp_frames_set_ref_count; [lia..|]. intros m' Hm'. apply wp_ret.
           apply Hsucc; [lia|lia| | |done].
           ++ by rewrite <- He.
           ++ intros s' Hs'. apply Hno; lia.
        -- apply wp_ret. rewrite w32_small by (unfold fits in Hfit; lia). split; [|lia].
           split; [done|]. rewrite decide_False by lia.
           replace (c + 1 - (cnt + 1)) with (c - cnt) by lia. split_and!; done || lia.
      * apply wp_ret. rewrite w32_small by (unfold fits in Hfit; lia). split; [|lia].
        split; [done|]. rewrite Z.sub_0_r. split_and!; try done; try lia.
        -- intros i Hi. lia.
        -- intros s Hs0 Hs Hf. destruct (decide (s < c - cnt)); [by apply (Hno s)|].
           destruct (decide (s + n <= c)); [lia|]. apply Hrc, Hf. lia.
    + intros s Hs Hsn Hf. destruct (decide (s < c - cnt)); [by apply (Hno s)|]. lia.
Qed.
End frame_alloc.

(** ** Setting the descriptions up *)

Section setup.
Context {LY : Layout} {LO : LayoutOk LY}.

(** The description init_ram_frames gives frame [i], where the memory in use
    ends at the physical address [fend]. *)
Definition initial_frame (fend i : Z) : frame :=
  if w32 (RAM_BASE_ADDR + i * FRAME_SIZE) <? fend then Frame 1 0 (0xC0800000 + 12 * i) else Frame 0 0 0.

(** RAM after the descriptions of the frames before [n] are written, over
    descriptions that are zero. *)
Record described (m m' : ram) (fend N n : Z) : Prop := {
  described_frames i : 0 <= i < N ->
    frame_in m' (desc i) = if decide (i < n) then initial_frame fend i else Frame 0 0 0;
  described_rest a : ~ (0x800000 <= a < 0x800000 + 12 * N) -> rd8 m' a = rd8 m a
}.

Lemma frame_in_ext m m' p : (forall a, p <= a < p + 12 -> rd8 m' a = rd8 m a) -> frame_in m' p = frame_in m p.
Proof. intros H. unfold frame_in. f_equal; apply rd32_ext; intros; apply H; lia. Qed.

(** One more description. *)
Lemma described_snoc m m1 fend N n : fits N -> 0 <= n < N -> described m m1 fend N n ->
  let rcv := if w32 (RAM_BASE_ADDR + n * FRAME_SIZE) <? fend then 1 else 0 in
  let m2 := wr32 m1 (desc n) rcv in
  described m (if negb (rcv =? 0) then wr32 m2 (desc n + 8) (0xC0800000 + 12 * n) else m2) fend N (n + 1).
Proof.
  intros HN Hn [Hf Hr] rcv m2.
  assert (Hz : rd32 m1 (desc n + 4) = 0 /\ rd32 m1 (desc n + 8) = 0).
  { specialize (Hf n Hn). rewrite decide_False in Hf by lia. unfold frame_in in Hf. by simplify_eq. }
  destruct Hz as [Hz1 Hz2]. split.
  - intros i Hi. destruct (decide (i = n)) as [->|Hne].
    + rewrite decide_True by lia. unfold initial_frame, frame_in, rcv, m2.
      destruct (w32 (RAM_BASE_ADDR + n * FRAME_SIZE) <? fend); cbn [negb Z.eqb].
      * rewrite (rd32_wr32_ne _ (desc n + 8) (desc n)), (rd32_wr32_ne _ (desc n + 8) (desc n + 4)), !rd32_wr32_eq by lia.
        rewrite (rd32_wr32_ne _ (desc n) (desc n + 4)) by lia. rewrite Hz1.
        f_equal. apply w32_small. unfold fits in HN. lia.
      * rewrite rd32_wr32_eq, !rd32_wr32_ne by lia. by rewrite Hz1, Hz2.
    + assert (E : frame_in (if negb (rcv =? 0) then wr32 m2 (desc n + 8) (0xC0800000 + 12 * n) else m2) (desc i)
                  = frame_in m1 (desc i)).
      { apply frame_in_ext. intros a Ha. unfold m2, desc in *.
        destruct (rcv =? 0); cbn [negb]; rewrite !rd8_wr32_ne by lia; done. }
      rewrite E, Hf by done. destruct (decide (i < n)); [rewrite decide_True by lia|rewrite decide_False by lia]; done.
  - intros a Ha. unfold m2, desc. destruct (rcv =? 0); cbn [negb];
      rewrite !rd8_wr32_ne by lia; by apply Hr.
Qed.

(** The physical end of the descriptions, as get_physaddr finds it: 0 when
    they end on a page boundary, since the next page is not mapped. *)
Definition frames_end (k : kst) (N : Z) : Z :=
  default NULL (mmu (mem k) kpd (w32 (0xC0800000 + 12 * N))).

Lemma wp_init_ram_frames map N (Q : unit -> kst -> Prop) k :
  g_frames_context k = FrameContext map 0xC0800000 (w32 (0xC0800000 + 12 * N)) N ->
  fits N -> paging (mem k) ->
  (forall m', described (mem k) m' (frames_end k N) N N -> Q tt (set_mem (fun _ => m') k)) ->
  wp init_ram_frames Q k.
Proof.
  intros Hctx HN Hp HQ. unfold fits in HN. unfold init_ram_frames. wp_go. rewrite Hctx.
  cbn [frames_meta_end_vaddr frames_meta_start_vaddr frames_count].
  rewrite (w32_small (0xC0800000 + 12 * N)) by lia.
  eapply wp_eq; [apply get_physaddr_eq; [done|lia]|].
  assert (Hfend : (if decide (window ((0xC0800000 + 12 * N) / 4194304))
     then ((0xC0800000 + 12 * N) / 4194304 - 768) * FOUR_MB + (0xC0800000 + 12 * N) mod 4096
     else default NULL ((fun f => f * 4096 + (0xC0800000 + 12 * N) mod 4096) <$>
            vmap (mem k) ((0xC0800000 + 12 * N) / 4096))) = frames_end k N).
  { unfold frames_end. rewrite w32_small by lia. rewrite mmu_paging by (done || lia).
    rewrite !decide_False by (unfold window; Z.div_mod_to_equations; lia). done. }
  rewrite Hfend. set (fend := frames_end k N) in *. clearbody fend. clear Hfend.
  replace (w32 (N * sizeof_frame)) with (12 * N) by (unfold sizeof_frame; rewrite w32_small; lia).
  apply wp_bind, wp_memset; [unfold linear, SYSTEM_ADDR_BASE; lia|lia|].
  change (ka 0xC0800000) with 0x800000. intros m0 Hm0.
  apply (wp_while (fun c k' => 0 <= c <= N /\ exists m', k' = set_mem (fun _ => m') k /\
    described (mem k) m' fend N c) (fun c _ => N - c)).
  - split; [lia|]. exists m0. split; [done|]. split.
    + intros i Hi. rewrite decide_False by lia. unfold frame_in.
      f_equal; apply rd32_zero; intros a Ha; rewrite Hm0; unfold desc in Ha;
        by rewrite decide_True by lia.
    + intros a Ha. rewrite Hm0. by rewrite decide_False by lia.
  - lia.
  - intros c k' [? _]. lia.
  - intros c k' (Hc & m1 & -> & Hd). wp_go. cbn [g_frames_context set_mem]. rewrite Hctx.
    cbn [frames_count frames_meta_start_vaddr]. destruct (Z.ltb_spec c N) as [Hlt|Hge].
    + pose proof (described_snoc _ m1 fend N c HN ltac:(lia) Hd) as Hd'. cbv zeta in Hd'.
      wp_go. rewrite !(ka_f_ref_count N) by (done || lia).
      cbn [mem set_mem]. rewrite rd32_wr32_eq.
      set (rcv := if _ <? fend then 1 else 0) in *.
      assert (w32 rcv = rcv) as -> by (subst rcv; by destruct (_ <? fend)).
      replace (w32 (0xC0800000 + c * sizeof_frame)) with (0xC0800000 + 12 * c)
        by (unfold sizeof_frame; rewrite w32_small; lia).
      rewrite (w32_small (c + 1)) by lia.
      apply wp_when; intros Hrc; rewrite Hrc in Hd'; wp_go;
        rewrite ?(ka_f_vaddr N) by (done || lia);
        (split; [|lia]; split; [lia|]; eexists; split; [reflexivity|exact Hd']).
    + apply wp_ret. replace N with c in HQ by lia. apply HQ. by replace N with c in Hd by lia.
Qed.
End setup.

Section init_frame_alloc_proofs.
Context {LY : Layout} {LO : LayoutOk LY}.

(** The memory map of the boot loader: its entries, and the last one that
    starts at 1 MB. *)
Definition mmap_entry (mmaps c : Z) : Z := w32 (mmaps + c * sizeof_memory_map).
Definition rdp (m : ram) (p : Z) : Z := rd32 m (ka p).

Fixpoint find_ram (m : ram) (mmaps : Z) (n : nat) : Z :=
  match n with
  | O => NULL
  | S n =>
      let e := mmap_entry mmaps (Z.of_nat n) in
      if rdp m (map_base_addr_low e) =? RAM_BASE_ADDR then e else find_ram m mmaps n
  end.

Definition mbi_maps (m : ram) (mbi : Z) : Z := w32 (SYSTEM_ADDR_BASE + rdp m (mbi_mmap_addr mbi)).
Definition mbi_count (m : ram) (mbi : Z) : Z := rdp m (mbi_mmap_length mbi) / sizeof_memory_map.

(** The number of frames of a memory of [len] bytes above 1 MB. *)
Definition frame_count (len : Z) : Z := (len - 0x700000) / 4096.

Lemma frame_count_fits len : 0x700000 <= len < 4294967296 -> 0 < frame_count len ->
  fits (frame_count len) /\ frame_count len < 1048576 /\ 0 < (12 * frame_count len) mod FOUR_MB.
Proof.
  unfold frame_count, fits, FOUR_MB. intros Hlen HN.
  assert ((len - 7340032) / 4096 < 1046784) by (apply Z.div_lt_upper_bound; lia).
  set (N := (len - 7340032) / 4096) in *. clearbody N.
  split; [lia|]. split; [lia|].
  destruct (decide ((12 * N) mod 4194304 = 0)) as [E|E];
    [|pose proof (Z.mod_pos_bound (12 * N) 4194304); lia].
  exfalso. Z.div_mod_to_equations. lia.
Qed.

Lemma wp_setup_frames_addrs map len (Q : unit -> kst -> Prop) k :
  map <> NULL -> rdp (mem k) (map_length_low map) = len ->
  0x700000 <= len -> let N := frame_count len in 0 < N -> paging (mem k) ->
  (forall m' evs, filled (mem k) m' (pages_of (12 * N)) ->
     Q tt (logged evs (set_mem (fun _ => m')
       (set_fctx (FrameContext map 0xC0800000 (w32 (0xC0800000 + 12 * N)) N) k)))) ->
  wp (setup_frames_addrs map) Q k.
Proof.
  intros Hmap Hlen Hle N HN Hp HQ. assert (Hlt : 0 <= len < 4294967296) by (subst len; apply rd32_range).
  destruct (frame_count_fits len) as (Hfit & HN20 & Hmod); [lia|done|]. fold N in Hfit, HN20, Hmod.
  unfold setup_frames_addrs. rewrite (proj2 (Z.eqb_neq _ _) Hmap). wp_go.
  fold (rdp (mem k) (map_length_low map)). rewrite Hlen.
  assert (EN : w32 (s32 (len - KERNEL_SIZE_IN_RAM)) / FRAME_SIZE = N).
  { change KERNEL_SIZE_IN_RAM with 0x700000. unfold N, frame_count, FRAME_SIZE. f_equal. word_lia. }
  rewrite EN. unfold fits, FOUR_MB in *.
  replace (w32 (N * sizeof_frame)) with (12 * N) by (unfold sizeof_frame; rewrite w32_small; lia).
  change FRAMES_START_VADDR with 0xC0800000.
  replace (0xC0800000 + N * sizeof_frame) with (0xC0800000 + 12 * N) by (unfold sizeof_frame; lia).
  apply wp_init_page_directory_for_frames; [unfold FOUR_MB; lia|done|done|]. exact HQ.
Qed.

Lemma wp_init_frame_alloc mbi len (Q : unit -> kst -> Prop) k :
  let m := mem k in let map := find_ram m (mbi_maps m mbi) (Z.to_nat (mbi_count m mbi)) in
  (forall c, 0 <= c < mbi_count m mbi ->
     s32 (rdp m (map_type (mmap_entry (mbi_maps m mbi) c))) <> INT_MIN) ->
  map <> NULL -> rdp m (map_length_low map) = len -> 0x700000 <= len ->
  let N := frame_count len in 0 < N -> paging m ->
  (forall m1 m' k1, filled m m1 (pages_of (12 * N)) ->
     described m1 m' (default NULL (mmu m1 kpd (w32 (0xC0800000 + 12 * N)))) N N ->
     quiet (set_mem (fun _ => m') (set_fctx (FrameContext map 0xC0800000 (w32 (0xC0800000 + 12 * N)) N) k)) k1 ->
     Q tt k1) ->
  wp (init_frame_alloc mbi) Q k.
Proof.
  intros m map Htype Hmap Hlen Hle N HN Hp HQ. unfold init_frame_alloc. wp_go.
  fold (rdp (mem k) (mbi_mmap_addr mbi)) (rdp (mem k) (mbi_mmap_length mbi)).
  fold (mbi_maps (mem k) mbi) (mbi_count (mem k) mbi). fold m.
  assert (Hsz : 0 <= mbi_count m mbi < 268435456).
  { unfold mbi_count, sizeof_memory_map. pose proof (rd32_range m (ka (mbi_mmap_length mbi))).
    unfold rdp. Z.div_mod_to_equations; lia. }
  assert (s32 (mbi_count m mbi) <> INT_MIN) by (rewrite s32_small; unfold INT_MIN; lia).
  assert (Hq : quiet k k) by done.
  do 4 (kp; quiet_chain k; wp_go).
  eapply (wp_while (fun '(c, a) k' => quiet k k' /\ 0 <= c <= mbi_count m mbi /\
      a = find_ram m (mbi_maps m mbi) (Z.to_nat c)) (fun '(c, _) _ => mbi_count m mbi - c)).
  - split; [done|]. split; [lia|done].
  - lia.
  - intros [c a] k'. lia.
  - intros [c a] k' (Hq' & Hc & ->). destruct (Z.ltb_spec c (mbi_count m mbi)) as [Hlt|Hge].
    + wp_go. fold (mmap_entry (mbi_maps m mbi) c). rewrite (quiet_mem _ _ Hq'). fold m.
      specialize (Htype c ltac:(lia)). unfold rdp in Htype.
      kp. wp_go. rewrite (w32_small (c + 1)) by lia. split; [|lia].
      split; [by etrans|]. split; [lia|].
      replace (Z.to_nat (c + 1)) with (S (Z.to_nat c)) by lia. cbn [find_ram].
      rewrite Z2Nat.id by lia. done.
    + apply wp_ret. replace c with (mbi_count m mbi) by lia. fold map. apply wp_bind.
      pose proof (quiet_mem _ _ Hq') as Hm'. fold m in Hm'.
      apply (wp_setup_frames_addrs map len); rewrite ?Hm'; try done. fold N.
      intros m1 evs Hf. apply (wp_init_ram_frames map N).
      * done.
      * assert (0 <= len < 4294967296) by (rewrite <- Hlen; apply rd32_range).
        apply frame_count_fits; [lia|done].
      * apply Hf.
      * unfold frames_end. cbn [mem logged set_trace set_mem]. intros m' Hd. apply (HQ m1 m'); [done|done|].
        destruct Hq' as (t & d & ->). exists (t ++ evs), d. by rewrite <- logged_logged.
Qed.
End init_frame_alloc_proofs.

Lemma paging_apart {LY : Layout} {LO : LayoutOk LY} m p x : apart p -> paging m ->
  paging (wr32 m p x) /\ forall v, 0 <= v < 1048576 -> vmap (wr32 m p x) v = vmap m v.
Proof.
  intros Ha Hp. split; [apply (paging_ext m); [by intros; apply pde_wr_apart|by intros; apply pte_wr_apart|done]|].
  intros v Hv. unfold vmap. by rewrite pte_wr_apart.
Qed.

(** The tables are below the descriptions. *)
Lemma described_tables {LY : Layout} {LO : LayoutOk LY} m m' fend N n : described m m' fend N n ->
  (forall c, 0 <= c < 1024 -> pde m' c = pde m c) /\ (forall v, 0 <= v < 1048576 -> pte m' v = pte m v).
Proof.
  intros [_ Hr]. pose proof kpd_range as (?&?&_&_).
  split; intros x Hx; apply rd32_ext; intros a Ha; apply Hr; unfold PT_BASE in *; lia.
Qed.

(** * Properties *)

Lemma init_frame_alloc_spec {LY : Layout} {LO : LayoutOk LY} mbi len k :
  let m := mem k in let map := find_ram m (mbi_maps m mbi) (Z.to_nat (mbi_count m mbi)) in
  (forall c, 0 <= c < mbi_count m mbi ->
     s32 (rdp m (map_type (mmap_entry (mbi_maps m mbi) c))) <> INT_MIN) ->
  map <> NULL -> rdp m (map_length_low map) = len -> 0x701000 <= len ->
  paging m -> (forall v, 0 <= v < 1048576 -> vmap m v = None) ->
  let N := (len - 0x700000) / 4096 in
  ⟨ k ⟩ init_frame_alloc mbi ⟨ _, k' |
    g_frames_context k' = FrameContext map 0xC0800000 (0xC0800000 + 12 * N) N /\ paging (mem k') /\
    (forall v, 0 <= v < 1048576 -> vmap (mem k') v =
       if decide (0xC0800 <= v < 0xC0800 + pages_of (12 * N)) then Some (v - 0xC0000) else None) /\
    (forall i, 0 <= i < N -> frame_in (mem k') (desc i) =
       if decide ((12 * N) mod 4096 <> 0 /\ 0x100000 + 4096 * i < 0x800000 + 12 * N)
       then Frame 1 0 (0xC0800000 + 12 * i) else Frame 0 0 0) /\
    (forall a, ~ (kpd <= a < kpd + 4096) -> ~ (PT_BASE <= a < 0x800000 + 12 * N) ->
       rd8 (mem k') a = rd8 m a) /\
    (exists m', quiet (set_mem (fun _ => m') (set_fctx (g_frames_context k') k)) k') ⟩.
Proof.
  intros m map Htype Hmap Hlen Hle Hp Hv N.
  assert (Hlr : 0 <= len < 4294967296) by (rewrite <- Hlen; apply rd32_range).
  assert (HN : 0 < frame_count len) by (unfold frame_count; Z.div_mod_to_equations; lia).
  destruct (frame_count_fits len) as (Hfit & HN20 & _); [lia|done|]. fold (frame_count len) in N. fold N in Hfit, HN20, HN.
  unfold fits in Hfit.
  apply (wp_init_frame_alloc mbi len); fold m; fold map; try done; [lia|]. fold N.
  intros m1 m' k1 Hf Hd Hq. apply quiet_mem in Hq as Hmem. cbn [mem set_mem] in Hmem. rewrite Hmem.
  destruct (described_tables _ _ _ _ _ Hd) as [Hpde Hpte].
  split; [|split; [|split; [|split; [|split]]]].
  - destruct Hq as (? & ? & ->). cbn. by rewrite w32_small by lia.
  - apply (paging_ext m1); [done|done|apply Hf].
  - intros v Hv'. unfold vmap. rewrite Hpte by done. fold (vmap m1 v). rewrite (filled_vmap _ _ _ Hf), Hv by done.
    unfold FRAMES_VPN. case_decide; [f_equal; lia|done].
  - intros i Hi. rewrite (described_frames _ _ _ _ _ Hd i Hi), decide_True by lia. unfold initial_frame.
    assert (N <= 1046784) by (unfold N, frame_count; Z.div_mod_to_equations; lia).
    unfold RAM_BASE_ADDR, FRAME_SIZE. rewrite (w32_small (0x100000 + _)), (w32_small (0xC0800000 + _)) by lia.
    rewrite mmu_paging by (apply Hf || lia).
    rewrite decide_False by (unfold window; Z.div_mod_to_equations; lia).
    rewrite (filled_vmap _ _ _ Hf), Hv by (Z.div_mod_to_equations; lia).
    unfold pages_of, FRAMES_VPN, FRAME_SIZE.
    destruct (decide ((12 * N) mod 4096 = 0)) as [E|E].
    + rewrite E. change (b2z (0 <? 0)) with 0. rewrite decide_False by (Z.div_mod_to_equations; lia).
      cbn [fmap option_fmap option_map default]. rewrite (proj2 (Z.ltb_ge _ NULL)) by (unfold NULL; lia).
      by rewrite decide_False by tauto.
    + pose proof (Z.mod_pos_bound (12 * N) 4096 ltac:(lia)).
      rewrite (proj2 (Z.ltb_lt 0 _)) by lia. cbn [b2z].
      rewrite decide_True by (Z.div_mod_to_equations; lia).
      cbn [fmap option_fmap option_map default from_option].
      replace (_ * 4096 + _) with (0x800000 + 12 * N) by (unfold id; Z.div_mod_to_equations; lia).
      unfold id.
      destruct (Z.ltb_spec (0x100000 + i * 4096) (0x800000 + 12 * N));
        [rewrite decide_True by lia|rewrite decide_False by lia]; done.
  - intros a Ha1 Ha2. rewrite (described_rest _ _ _ _ _ Hd) by (unfold PT_BASE in *; lia).
    apply Hf; unfold PT_BASE in *; lia.
  - exists m'. destruct Hq as (? & ? & ->). by eexists _, _.
Qed.

(** C18: init_frame_alloc finds the memory that starts at 1 MB in the boot
    loader's map, describes (size - 7 MB) / 4 KB frames from 0xC0800000 on, and
    marks as used the frames below the end of the descriptions, counting
    addresses from 1 MB; when the descriptions end on a page boundary it marks
    none, because the address after them is not mapped. No description gets a
    physical address: every [addr] is 0. The page tables keep their invariant and
    map the pages of the descriptions alone; nothing else changes but RAM, the
    context and what is printed. *)
Theorem init_frame_alloc_describes {LY : Layout} {LO : LayoutOk LY} mbi len k :
  let m := mem k in let map := find_ram m (mbi_maps m mbi) (Z.to_nat (mbi_count m mbi)) in
  (forall c, 0 <= c < mbi_count m mbi ->
     s32 (rdp m (map_type (mmap_entry (mbi_maps m mbi) c))) <> INT_MIN) ->
  map <> NULL -> rdp m (map_length_low map) = len -> 0x701000 <= len ->
  paging m -> (forall v, 0 <= v < 1048576 -> vmap m v = None) ->
  let N := (len - 0x700000) / 4096 in
  ⟨ k ⟩ init_frame_alloc mbi ⟨ _, k' |
    g_frames_context k' = FrameContext map 0xC0800000 (0xC0800000 + 12 * N) N /\ paging (mem k') /\
    (forall v, 0 <= v < 1048576 -> vmap (mem k') v =
       if decide (0xC0800 <= v < 0xC0800 + pages_of (12 * N)) then Some (v - 0xC0000) else None) /\
    (forall i, 0 <= i < N -> frame_in (mem k') (desc i) =
       if decide ((12 * N) mod 4096 <> 0 /\ 0x100000 + 4096 * i < 0x800000 + 12 * N)
       then Frame 1 0 (0xC0800000 + 12 * i) else Frame 0 0 0) /\
    (forall a, ~ (kpd <= a < kpd + 4096) -> ~ (PT_BASE <= a < 0x800000 + 12 * N) ->
       rd8 (mem k') a = rd8 m a) /\
    (exists m', quiet (set_mem (fun _ => m') (set_fctx (g_frames_context k') k)) k') ⟩.
Proof. apply init_frame_alloc_spec. Qed.

(** The boot loader's data of the examples: one region of 8 MB at 1 MB. *)
Definition example_mbi_tables : ram :=
  foldr (fun '(a, v) m => wr32 m a v) example_tables
    [(0x1002C, 24); (0x10030, 0x11000); (0x11004, 0x100000); (0x1100C, 0x800000); (0x11014, 1)].

Lemma example_mbi_tables_paging :
  @paging example_layout example_mbi_tables /\ forall v, 0 <= v < 1048576 -> vmap example_mbi_tables v = None.
Proof.
  unfold example_mbi_tables. cbn [foldr].
  pose proof example_tables_paging as H. revert H. generalize example_tables. intros m H.
  repeat match goal with |- @paging _ (wr32 ?m1 ?a ?x) /\ _ =>
    cut (@paging example_layout m1 /\ forall v, 0 <= v < 1048576 -> vmap m1 v = None);
      [intros [Hp Hv]; destruct (@paging_apart example_layout example_layout_ok m1 a x) as [Hp' Hv'];
         [vm_compute; intuition congruence|exact Hp|];
         split; [exact Hp'|intros v Hr; rewrite Hv' by exact Hr; by apply Hv]|]
  end. exact H.
Qed.

Lemma init_frame_alloc_describes_witness :
  @wp kst unit (@init_frame_alloc example_layout 0xC0010000) (fun _ k' =>
      g_frames_context k' = FrameContext 0xC0011000 0xC0800000 0xC0800C00 256 /\
      frame_in (mem k') (desc 255) = Frame 1 0 0xC0800BF4)
    (set_mem (fun _ => example_mbi_tables) (boot_state ∅)).
Proof.
  eapply wp_mono.
  - apply (@init_frame_alloc_describes example_layout example_layout_ok 0xC0010000 0x800000
      (set_mem (fun _ => example_mbi_tables) (boot_state ∅))).
    + assert (E : mbi_count example_mbi_tables 0xC0010000 = 1) by (vm_compute; reflexivity).
      cbn [mem set_mem]. rewrite E. intros c Hc. assert (c = 0) as -> by lia. vm_compute. discriminate.
    + vm_compute. discriminate.
    + vm_compute. reflexivity.
    + lia.
    + apply example_mbi_tables_paging.
    + apply example_mbi_tables_paging.
  - cbv beta. intros _ k' (H1 & _ & _ & H2 & _). split; [rewrite H1; vm_compute; reflexivity|].
    rewrite H2 by (vm_compute; intuition congruence).
    rewrite decide_True by (vm_compute; intuition congruence). reflexivity.
Defined.

(** alloc_frames(n) always returns. It answers SUCCES with the first frame of
    the lowest run of n frames whose reference counts are all 0, having set
    exactly those counts to 1 and changed nothing else; it answers FAILED,
    changing nothing, exactly when there is no such run. *)
Theorem alloc_frames_first_fit k n :
  fits (frames_count (g_frames_context k)) -> 1 <= n < 2147483648 ->
  let N := frames_count (g_frames_context k) in
  (exists s m', alloc_frames n k = Ret (SUCCES, Some (get_frame_at s)) (set_mem (fun _ => m') k) /\
     0 <= s /\ s + n <= N /\ free_run (mem k) s n /\
     (forall s', 0 <= s' < s -> ~ free_run (mem k) s' n) /\ set_counts (mem k) m' s n 1) \/
  (alloc_frames n k = Ret (FAILED, None) k /\ forall s, 0 <= s -> s + n <= N -> ~ free_run (mem k) s n).
Proof.
  intros HN Hn N.
  assert (Hwp : wp (alloc_frames n) (fun r k' =>
    (exists s m', r = (SUCCES, Some (get_frame_at s)) /\ k' = set_mem (fun _ => m') k /\
       0 <= s /\ s + n <= N /\ free_run (mem k) s n /\
       (forall s', 0 <= s' < s -> ~ free_run (mem k) s' n) /\ set_counts (mem k) m' s n 1) \/
    (r = (FAILED, None) /\ k' = k /\ forall s, 0 <= s -> s + n <= N -> ~ free_run (mem k) s n)) k).
  { apply (wp_alloc_frames k N eq_refl HN); [done|unfold fits in HN; lia| |].
    - intros s m' ?????. left. exists s, m'. by split_and!.
    - intros Hno. right. by split_and!. }
  apply wp_elim in Hwp as (r & k' & E & [(s & m' & -> & -> & H)|(-> & -> & H)]).
  - left. by exists s, m'.
  - by right.
Qed.

(** A small table of four frames: used, free, free, free. *)
Definition example_frames : kst :=
  set_fctx (FrameContext 0xC0011000 0xC0800000 0xC0800030 4)
    (boot_state (wr32 ∅ 0x800000 1)).

Lemma alloc_frames_first_fit_witness :
  exists m', alloc_frames 2 example_frames = Ret (SUCCES, Some 0xC080000C) (set_mem (fun _ => m') example_frames) /\
    set_counts (mem example_frames) m' 1 2 1.
Proof.
  destruct (alloc_frames_first_fit example_frames 2)
    as [(s & m' & E & Hs & HsN & Hrun & Hmin & Hc)|[_ Hno]].
  - vm_compute. intuition congruence.
  - lia.
  - assert (s = 1) as ->.
    { destruct (decide (s = 0)) as [->|].
      - specialize (Hrun 0 ltac:(lia)). vm_compute in Hrun. discriminate Hrun.
      - destruct (decide (s = 1)); [done|]. exfalso. apply (Hmin 1 ltac:(lia)). intros i Hi.
        assert (i = 1 \/ i = 2) as [->| ->] by lia; reflexivity. }
    exists m'. split; [exact E|exact Hc].
  - exfalso. apply (Hno 1); [lia|vm_compute; congruence|]. intros i Hi.
    assert (i = 1 \/ i = 2) as [->| ->] by lia; reflexivity.
Defined.

Section single_frames.
Variables (k : kst) (N : Z).
Hypothesis HN : frames_count (g_frames_context k) = N.
Hypothesis Hfit : fits N.

Lemma wp_alloc_frame (Q : Z -> kst -> Prop) :
  (forall i, 0 <= i < N -> rc (mem k) i = 0 -> (forall j, 0 <= j < i -> rc (mem k) j <> 0) ->
     Q (get_frame_at i) (set_mem (fun m => wr32 m (desc i) 1) k)) ->
  ((forall j, 0 <= j < N -> rc (mem k) j <> 0) -> Q NULL k) ->
  wp alloc_frame Q k.
Proof.
  intros Hsome Hnone. unfold fits in Hfit. unfold alloc_frame.
  apply (wp_while (fun c k' => k' = k /\ 0 <= c <= N /\ forall j, 0 <= j < c -> rc (mem k) j <> 0)
    (fun c _ => N - c)).
  - split_and!; try done; lia.
  - lia.
  - intros c k'. lia.
  - intros c k' (-> & Hc & Hno). wp_go. rewrite HN. destruct (Z.ltb_spec c N) as [Hlt|Hge].
    + wp_go. rewrite (ka_f_ref_count N) by (done || lia). fold (rc (mem k) c).
      destruct (Z.eqb_spec (rc (mem k) c) 0) as [E|E].
      * wp_go. rewrite (ka_f_ref_count N) by (done || lia). apply Hsome; done || lia.
      * apply wp_ret. rewrite w32_small by lia. split; [|lia]. split; [done|]. split; [lia|].
        intros j Hj. destruct (decide (j = c)) as [->|]; [done|]. apply Hno. lia.
    + apply wp_ret, Hnone. intros j Hj. apply Hno. lia.
Qed.

(** free_frame takes one reference away, never going below none. *)
Lemma free_frame_eq i : 0 <= i < N -> 0 <= rc (mem k) i < 2147483648 ->
  exists m', free_frame (get_frame_at i) k = Ret tt (set_mem (fun _ => m') k) /\
    set_counts (mem k) m' i 1 (Z.max 0 (rc (mem k) i - 1)).
Proof.
  intros Hi Hr. unfold fits in Hfit.
  assert (H : wp (free_frame (get_frame_at i)) (fun _ k' => exists m', k' = set_mem (fun _ => m') k /\
    set_counts (mem k) m' i 1 (Z.max 0 (rc (mem k) i - 1))) k).
  { unfold free_frame. wp_go. rewrite !(ka_f_ref_count N) by (done || lia). fold (rc (mem k) i).
    cbn [mem set_mem]. rewrite rd32_wr32_eq. rewrite (s32_small (rc (mem k) i)) by (unfold INT_MIN; lia).
    rewrite (s32_small (rc (mem k) i - 1)) by (unfold INT_MIN; lia).
    assert (Hs : s32 (w32 (rc (mem k) i - 1)) = rc (mem k) i - 1) by word_lia. rewrite Hs.
    assert (Hout : forall v a, (forall j, i <= j < i + 1 -> ~ (desc j <= a < desc j + 4)) ->
      rd8 (wr32 (mem k) (desc i) v) a = rd8 (mem k) a).
    { intros v a Ha. apply rd8_wr32_ne. specialize (Ha i ltac:(lia)). lia. }
    apply wp_when; intros Hlt; wp_go; rewrite ?(ka_f_ref_count N) by (done || lia);
      eexists; (split; [reflexivity|]); cbn [mem set_mem]; split.
    - intros j Hj. replace j with i by lia. rewrite rc_wr, decide_True by done. f_equal. lia.
    - intros a Ha. rewrite rd8_wr32_ne; [by apply Hout|]. specialize (Ha i ltac:(lia)). lia.
    - intros j Hj. replace j with i by lia. rewrite rc_wr, decide_True by done. f_equal. lia.
    - by apply Hout. }
  apply wp_elim in H as ([] & k' & E & m' & -> & H). eauto.
Qed.
End single_frames.

(** alloc_frame answers the lowest frame that no one references, giving it
    one reference, or NULL with nothing changed when there is none; free_frame
    of the frame it answered restores RAM. *)
Theorem alloc_frame_free_frame k :
  fits (frames_count (g_frames_context k)) ->
  let N := frames_count (g_frames_context k) in
  (exists i m' m'', alloc_frame k = Ret (get_frame_at i) (set_mem (fun _ => m') k) /\
     0 <= i < N /\ rc (mem k) i = 0 /\ (forall j, 0 <= j < i -> rc (mem k) j <> 0) /\ rc m' i = 1 /\
     free_frame (get_frame_at i) (set_mem (fun _ => m') k) = Ret tt (set_mem (fun _ => m'') k) /\
     m'' ≈ mem k) \/
  (alloc_frame k = Ret NULL k /\ forall j, 0 <= j < N -> rc (mem k) j <> 0).
Proof.
  intros HN N.
  assert (Hwp : wp alloc_frame (fun r k' =>
    (exists i, r = get_frame_at i /\ k' = set_mem (fun m => wr32 m (desc i) 1) k /\
       0 <= i < N /\ rc (mem k) i = 0 /\ (forall j, 0 <= j < i -> rc (mem k) j <> 0)) \/
    (r = NULL /\ k' = k /\ forall j, 0 <= j < N -> rc (mem k) j <> 0)) k).
  { apply (wp_alloc_frame k N eq_refl HN).
    - intros i ???. left. exists i. split_and!; try done; lia.
    - intros ?. right. by split_and!. }
  apply wp_elim in Hwp as (r & k' & E & [(i & -> & -> & Hi & Hz & Hmin)|(-> & -> & H)]); [|by right].
  left. set (m' := wr32 (mem k) (desc i) 1).
  assert (Hm' : rc m' i = 1) by (unfold m'; by rewrite rc_wr, decide_True).
  destruct (free_frame_eq (set_mem (fun _ => m') k) N eq_refl HN i Hi) as (m'' & Ef & Hc).
  { cbn [mem set_mem]. rewrite Hm'. lia. }
  cbn [mem set_mem] in Hc. rewrite Hm' in Hc. exists i, m', m''.
  split_and!; try done; try lia. destruct Hc as [Hin Hout]. intros a.
  destruct (decide (desc i <= a < desc i + 4)) as [Ha|Ha].
  - assert (H0 : rd32 m'' (desc i) = 0) by (apply (Hin i); lia).
    assert (H0' : rd32 (mem k) (desc i) = 0) by exact Hz.
    pose proof (rd8_range m'' (desc i)); pose proof (rd8_range m'' (desc i + 1)).
    pose proof (rd8_range m'' (desc i + 2)); pose proof (rd8_range m'' (desc i + 3)).
    pose proof (rd8_range (mem k) (desc i)); pose proof (rd8_range (mem k) (desc i + 1)).
    pose proof (rd8_range (mem k) (desc i + 2)); pose proof (rd8_range (mem k) (desc i + 3)).
    unfold rd32 in H0, H0'.
    assert (a = desc i \/ a = desc i + 1 \/ a = desc i + 2 \/ a = desc i + 3) as [->|[->|[->| ->]]] by lia; lia.
  - rewrite Hout by (intros j Hj; assert (j = i) as -> by lia; exact Ha). unfold m'. rewrite rd8_wr32_ne by lia. done.
Qed.

Lemma alloc_frame_free_frame_witness :
  exists m' m'', alloc_frame example_frames = Ret 0xC080000C (set_mem (fun _ => m') example_frames) /\
    free_frame 0xC080000C (set_mem (fun _ => m') example_frames) = Ret tt (set_mem (fun _ => m'') example_frames) /\
    m'' ≈ mem example_frames.
Proof.
  destruct (alloc_frame_free_frame example_frames)
    as [(i & m' & m'' & E & Hi & Hz & Hmin & _ & Ef & Hm)|[_ Hno]].
  - vm_compute. intuition congruence.
  - assert (i = 1) as ->.
    { destruct (decide (i = 0)) as [->|]; [vm_compute in Hz; discriminate Hz|].
      destruct (decide (i = 1)); [done|]. exfalso. apply (Hmin 1); [lia|reflexivity]. }
    exists m', m''. split; [exact E|split; [exact Ef|exact Hm]].
  - exfalso. apply (Hno 1); [vm_compute; intuition congruence|reflexivity].
Defined.

(** Phys_to_frame does not invert the numbering of init_ram_frames: for the
    address 1 MB + i * 4 KB of the frame described at index i, it answers the
    description of frame i - 1792, since it counts addresses from 8 MB, and one
    beyond the end of memory's descriptions for the first 1792 frames. *)
Theorem phys_to_frame_shifted i : 0 <= i < 0x100000 - 0x100 ->
  phys_to_frame (RAM_BASE_ADDR + i * FRAME_SIZE) =
    if decide (0x700 <= i) then get_frame_at (i - 0x700) else get_frame_at (i - 0x700 + 0x100000).
Proof.
  intros Hi. unfold phys_to_frame, RAM_BASE_ADDR, FRAME_SIZE. rewrite Z.shiftr_div_pow2 by lia.
  change (2 ^ 12) with 4096. case_decide; f_equal; word_lia.
Qed.

Lemma phys_to_frame_shifted_witness : phys_to_frame 0x800000 = get_frame_at 0.
Proof. exact (phys_to_frame_shifted 0x700 ltac:(lia)). Defined.
