(* ===== verification/FrameSession.v ===== *)
(** The frame allocator of src/frame.c against a reference: lists of reference
    counts, searched and updated as lists; and whole runs of calls. *)
From S2P Require Import Prelude Memory State Console Pages Mmu Frames.
From stdpp Require Import list.
Local Open Scope Z_scope.
Local Open Scope kern_scope.
Local Set Default Proof Using "Type*".

(** * The reference *)

(** The first position from which the list starts with [n] zeros. *)
Fixpoint first_run (n : nat) (cs : list nat) : option nat :=
  if bool_decide (take n cs = replicate n O) then Some O
  else match cs with [] => None | _ :: cs' => S <$> first_run n cs' end.

Inductive fcall :=
| FAlloc              (* alloc_frame() *)
| FAllocs (n : nat)   (* alloc_frames(n) *)
| FFree (i : nat).    (* free_frame of the frame described at index i *)

(** What a call answers (the index of a frame) and the counts after it. *)
Definition spec_call (c : fcall) (cs : list nat) : option nat * list nat :=
  match c with
  | FAlloc =>
      match first_run 1 cs with Some i => (Some i, <[i := 1%nat]> cs) | None => (None, cs) end
  | FAllocs n =>
      match first_run n cs with Some i => (Some i, take i cs ++ replicate n 1%nat ++ drop (i + n) cs) | None => (None, cs) end
  | FFree i => (None, alter Nat.pred i cs)
  end.

Fixpoint spec_calls (l : list fcall) (cs : list nat) : list (option nat) * list nat :=
  match l with
  | [] => ([], cs)
  | c :: l => let '(a, cs) := spec_call c cs in let '(r, cs) := spec_calls l cs in (a :: r, cs)
  end.

(** * The kernel's calls *)

(** The frame that a call answers, none where it answers NULL or FAILED. *)
Definition frame_call (c : fcall) : prog kst (option Z) :=
  match c with
  | FAlloc => p ← alloc_frame; mret (if p =? NULL then None else Some p)
  | FAllocs n => r ← alloc_frames (Z.of_nat n); mret (if r.1 =? FAILED then None else r.2)
  | FFree i => free_frame (get_frame_at (Z.of_nat i));; mret None
  end.

Fixpoint frame_calls (l : list fcall) : prog kst (list (option Z)) :=
  match l with
  | [] => mret []
  | c :: l => a ← frame_call c; r ← frame_calls l; mret (a :: r)
  end.

(** * Proofs *)

(** The descriptions in RAM hold these counts. *)
Record counts_are (k : kst) (cs : list nat) : Prop := {
  counts_len : frames_count (g_frames_context k) = Z.of_nat (length cs);
  counts_fit : fits (Z.of_nat (length cs));
  counts_rc i c : cs !! i = Some c -> rc (mem k) (Z.of_nat i) = Z.of_nat c;
  counts_small : Forall (fun c => Z.of_nat c < 2147483648) cs
}.

Definition zeros_at (cs : list nat) (s n : nat) : Prop := forall i, (i < n)%nat -> cs !! (s + i)%nat = Some O.

Lemma take_zeros n cs : take n cs = replicate n O <-> zeros_at cs 0 n.
Proof.
  unfold zeros_at. split.
  - intros H i Hi. rewrite <- (lookup_take_lt cs n) by done. rewrite H. by apply lookup_replicate.
  - intros H. apply list_eq. intros i. destruct (decide (i < n)%nat) as [Hi|Hi].
    + rewrite lookup_take_lt by done. specialize (H i Hi). change (0 + i)%nat with i in H. rewrite H. symmetry. by apply lookup_replicate.
    + rewrite lookup_take_ge by lia. symmetry. apply lookup_replicate_None. lia.
Qed.

Lemma zeros_at_cons c cs s n : zeros_at (c :: cs) (S s) n <-> zeros_at cs s n.
Proof. done. Qed.

(** [first_run] finds the lowest run. *)
Lemma first_run_spec n cs : (1 <= n)%nat ->
  match first_run n cs with
  | Some s => zeros_at cs s n /\ forall s', (s' < s)%nat -> ~ zeros_at cs s' n
  | None => forall s, ~ zeros_at cs s n
  end.
Proof.
  intros Hn. induction cs as [|c cs IH]; cbn [first_run]; case_bool_decide as E.
  - apply take_zeros in E. specialize (E O ltac:(lia)). discriminate E.
  - intros s H. specialize (H O ltac:(lia)). discriminate H.
  - apply take_zeros in E. split; [exact E|]. intros s' Hs'. lia.
  - rewrite take_zeros in E. destruct (first_run n cs) as [s|]; cbn [fmap option_fmap option_map].
    + destruct IH as [IH1 IH2]. split; [exact IH1|]. intros [|s'] Hs'; [exact E|]. apply IH2. lia.
    + intros [|s]; [exact E|]. apply IH.
Qed.

Lemma zeros_bound cs s n : (1 <= n)%nat -> zeros_at cs s n -> (s + n <= length cs)%nat.
Proof.
  intros Hn H. specialize (H (n - 1)%nat ltac:(lia)). apply lookup_lt_Some in H. lia.
Qed.

Section calls.
Variables (k : kst) (cs : list nat).
Hypothesis Hc : counts_are k cs.
Notation N := (Z.of_nat (length cs)).

Lemma counts_lookup i : 0 <= i < N -> exists c, cs !! Z.to_nat i = Some c /\ rc (mem k) i = Z.of_nat c.
Proof.
  intros Hi. destruct (lookup_lt_is_Some_2 cs (Z.to_nat i)) as [c Hl]; [lia|]. exists c. split; [done|].
  rewrite <- (counts_rc _ _ Hc _ _ Hl). by rewrite Z2Nat.id by lia.
Qed.

(** A run of free frames is a run of zeros. *)
Lemma free_run_zeros s n : 0 <= s -> s + Z.of_nat n <= N -> free_run (mem k) s (Z.of_nat n) <-> zeros_at cs (Z.to_nat s) n.
Proof.
  intros Hs Hn. split.
  - intros H i Hi. destruct (counts_lookup (s + Z.of_nat i)) as (c & Hl & Hr); [lia|].
    replace (Z.to_nat s + i)%nat with (Z.to_nat (s + Z.of_nat i)) by lia. rewrite Hl. f_equal.
    rewrite (H (s + Z.of_nat i)) in Hr by lia. lia.
  - intros H i Hi. specialize (H (Z.to_nat (i - s)) ltac:(lia)).
    replace (Z.to_nat s + Z.to_nat (i - s))%nat with (Z.to_nat i) in H by lia.
    apply (counts_rc _ _ Hc) in H. by rewrite Z2Nat.id in H by lia.
Qed.

(** New counts for some frames. *)
Lemma counts_set m' s n v (cs' : list nat) : set_counts (mem k) m' (Z.of_nat s) (Z.of_nat n) (Z.of_nat v) ->
  length cs' = length cs -> Z.of_nat v < 2147483648 ->
  (forall i, (i < length cs)%nat -> cs' !! i = if decide (s <= i < s + n)%nat then Some v else cs !! i) ->
  counts_are (set_mem (fun _ => m') k) cs'.
Proof.
  intros Hm Hlen Hv Hcs'. split.
  - rewrite Hlen. apply Hc.
  - rewrite Hlen. apply Hc.
  - intros i c Hi. apply lookup_lt_Some in Hi as Hlt. rewrite Hlen in Hlt. rewrite Hcs' in Hi by done.
    cbn [mem set_mem]. rewrite (set_counts_rc _ _ _ _ _ _ Hm). case_decide as Hd.
    + rewrite decide_True by lia. injection Hi as <-. apply w32_small. lia.
    + rewrite decide_False by lia. by apply (counts_rc _ _ Hc).
  - apply Forall_lookup_2. intros i c Hi. apply lookup_lt_Some in Hi as Hlt. rewrite Hlen in Hlt. rewrite Hcs' in Hi by done.
    case_decide; [by injection Hi as <-|]. eapply (Forall_lookup_1 _ _ _ _ (counts_small _ _ Hc) Hi).
Qed.
End calls.

(** Only the reference counts of the frames below [n] changed. *)
Definition counts_only (n : nat) (k k' : kst) : Prop :=
  exists m', k' = set_mem (fun _ => m') k /\
    forall a, (forall i, 0 <= i < Z.of_nat n -> ~ (desc i <= a < desc i + 4)) -> rd8 m' a = rd8 (mem k) a.

#[export] Instance counts_only_preorder n : PreOrder (counts_only n).
Proof.
  split.
  - intros k. exists (mem k). by destruct k.
  - intros k1 k2 k3 (m1 & -> & H1) (m2 & -> & H2). exists m2. split; [done|]. intros a Ha. rewrite H2 by done. by apply H1.
Qed.

Lemma set_counts_only k m' s n v N : 0 <= s -> s + n <= Z.of_nat N -> set_counts (mem k) m' s n v ->
  counts_only N k (set_mem (fun _ => m') k).
Proof.
  intros Hs Hn Hm. exists m'. split; [done|]. intros a Ha. apply (counts_out _ _ _ _ _ Hm). intros i Hi. apply Ha. lia.
Qed.

(** The calls a client may make: sizes of at least one frame that an int holds,
    frames that are described. *)
Definition fcall_ok (n : nat) (c : fcall) : Prop :=
  match c with
  | FAlloc => True
  | FAllocs m => (1 <= m)%nat /\ Z.of_nat m < 2147483648
  | FFree i => (i < n)%nat
  end.

Definition frame_ptr (i : nat) : Z := get_frame_at (Z.of_nat i).

Lemma spec_call_length c cs : (forall n, c = FAllocs n -> (1 <= n)%nat) -> length (spec_call c cs).2 = length cs.
Proof.
  intros Hok. destruct c as [|n|i]; cbn [spec_call].
  - destruct (first_run 1 cs); cbn [snd]; [apply length_insert|done].
  - specialize (Hok n eq_refl). pose proof (first_run_spec n cs Hok) as H. destruct (first_run n cs) as [s|]; cbn [snd]; [|done].
    destruct H as [H _]. apply zeros_bound in H; [|done]. rewrite !length_app, length_take, length_replicate, length_drop. lia.
  - cbn [snd]. apply length_alter.
Qed.

Section refines.
Variables (k : kst) (cs : list nat).
Hypothesis Hc : counts_are k cs.

Lemma alloc_frames_call n : (1 <= n)%nat -> Z.of_nat n < 2147483648 ->
  match first_run n cs with
  | Some s => exists m', alloc_frames (Z.of_nat n) k = Ret (SUCCES, Some (frame_ptr s)) (set_mem (fun _ => m') k) /\
      set_counts (mem k) m' (Z.of_nat s) (Z.of_nat n) 1 /\ (s + n <= length cs)%nat
  | None => alloc_frames (Z.of_nat n) k = Ret (FAILED, None) k
  end.
Proof.
  intros Hn Hn31. pose proof (counts_fit _ _ Hc) as Hfit.
  pose proof (first_run_spec n cs Hn) as Hrun.
  assert (H : wp (alloc_frames (Z.of_nat n)) (fun r k' => match first_run n cs with
    | Some s => r = (SUCCES, Some (frame_ptr s)) /\ (s + n <= length cs)%nat /\
        exists m', k' = set_mem (fun _ => m') k /\ set_counts (mem k) m' (Z.of_nat s) (Z.of_nat n) 1
    | None => r = (FAILED, None) /\ k' = k end) k).
  { apply (wp_alloc_frames k (Z.of_nat (length cs)) (counts_len _ _ Hc) Hfit); [lia|unfold fits in Hfit; lia| |].
    - intros s m' Hs HsN Hf Hmin Hm. apply (free_run_zeros k cs Hc) in Hf as Hz; [|done|done].
      destruct (first_run n cs) as [s'|]; [|by destruct (Hrun (Z.to_nat s))]. destruct Hrun as [Hz' Hmin'].
      assert (s' = Z.to_nat s) as ->.
      { destruct (decide (s' < Z.to_nat s)%nat) as [Hlt|]; [|destruct (decide (Z.to_nat s < s')%nat) as [Hlt|]; [|lia]].
        - destruct (Hmin (Z.of_nat s') ltac:(lia)). apply (free_run_zeros k cs Hc); [lia|lia|by rewrite Nat2Z.id].
        - by destruct (Hmin' _ Hlt). }
      split; [unfold frame_ptr; by rewrite Z2Nat.id by lia|]. split; [lia|]. exists m'. split; [done|]. by rewrite Z2Nat.id by lia.
    - intros Hno. destruct (first_run n cs) as [s|]; [|done]. exfalso. destruct Hrun as [Hz _].
      pose proof (zeros_bound cs s n Hn Hz). apply (Hno (Z.of_nat s)); [lia|lia|].
      apply (free_run_zeros k cs Hc); [lia|lia|by rewrite Nat2Z.id]. }
  apply wp_elim in H as (r & k' & He & H). destruct (first_run n cs).
  - destruct H as (-> & Hs & m' & -> & Hm). by exists m'.
  - by destruct H as [-> ->].
Qed.

Lemma alloc_frame_call :
  match first_run 1 cs with
  | Some s => exists m', alloc_frame k = Ret (frame_ptr s) (set_mem (fun _ => m') k) /\
      set_counts (mem k) m' (Z.of_nat s) 1 1 /\ (s < length cs)%nat
  | None => alloc_frame k = Ret NULL k
  end.
Proof.
  pose proof (counts_fit _ _ Hc) as Hfit. pose proof (first_run_spec 1 cs ltac:(lia)) as Hrun.
  assert (Hone : forall s, 0 <= s < Z.of_nat (length cs) -> rc (mem k) s = 0 <-> zeros_at cs (Z.to_nat s) 1).
  { intros s Hs. rewrite <- (free_run_zeros k cs Hc) by lia. unfold free_run. split.
    - intros H i Hi. by replace i with s by lia.
    - intros H. apply H. lia. }
  assert (H : wp alloc_frame (fun r k' => match first_run 1 cs with
    | Some s => r = frame_ptr s /\ (s < length cs)%nat /\
        exists m', k' = set_mem (fun _ => m') k /\ set_counts (mem k) m' (Z.of_nat s) 1 1
    | None => r = NULL /\ k' = k end) k).
  { apply (wp_alloc_frame k (Z.of_nat (length cs)) (counts_len _ _ Hc) Hfit).
    - intros i Hi Hz Hmin. apply Hone in Hz; [|done]. destruct (first_run 1 cs) as [s|]; [|by destruct (Hrun (Z.to_nat i))].
      destruct Hrun as [Hz' Hmin']. pose proof (zeros_bound cs s 1 ltac:(lia) Hz').
      assert (s = Z.to_nat i) as ->.
      { destruct (decide (s < Z.to_nat i)%nat) as [Hlt|]; [|destruct (decide (Z.to_nat i < s)%nat) as [Hlt|]; [|lia]].
        - destruct (Hmin (Z.of_nat s) ltac:(lia)). apply Hone; [lia|by rewrite Nat2Z.id].
        - by destruct (Hmin' _ Hlt). }
      unfold frame_ptr. rewrite Z2Nat.id by lia. split; [done|]. split; [lia|]. eexists. split; [reflexivity|]. split.
      + intros j Hj. replace j with i by lia. rewrite rc_wr. by rewrite decide_True.
      + intros a Ha. apply rd8_wr32_ne. specialize (Ha i ltac:(lia)). lia.
    - intros Hno. destruct (first_run 1 cs) as [s|]; [|done]. exfalso. destruct Hrun as [Hz _].
      pose proof (zeros_bound cs s 1 ltac:(lia) Hz). apply (Hno (Z.of_nat s)); [lia|]. apply Hone; [lia|by rewrite Nat2Z.id]. }
  apply wp_elim in H as (r & k' & He & H). destruct (first_run 1 cs).
  - destruct H as (-> & Hs & m' & -> & Hm). by exists m'.
  - by destruct H as [-> ->].
Qed.
End refines.

Lemma frame_ptr_not_null (cs : list nat) s : fits (Z.of_nat (length cs)) -> (s <= length cs)%nat -> (frame_ptr s =? NULL) = false.
Proof. intros Hf Hs. apply (frame_at_not_null (Z.of_nat (length cs))); [done|lia]. Qed.

(** Each call answers what the reference answers and leaves its counts. *)
Lemma frame_call_refines k cs c : counts_are k cs -> fcall_ok (length cs) c ->
  exists k', frame_call c k = Ret (frame_ptr <$> (spec_call c cs).1) k' /\
    counts_are k' (spec_call c cs).2 /\ counts_only (length cs) k k'.
Proof.
  intros Hc Hok. pose proof (counts_fit _ _ Hc) as Hfit. destruct c as [|n|i]; cbn [frame_call spec_call fcall_ok] in *.
  - pose proof (alloc_frame_call k cs Hc) as H. destruct (first_run 1 cs) as [s|]; cbn [fst snd fmap option_fmap option_map].
    + destruct H as (m' & He & Hm & Hs). eexists. split; [|split].
      * eapply bind_then; [exact He|]. by rewrite (frame_ptr_not_null cs) by (done || lia).
      * apply (counts_set k cs Hc m' s 1 1); [exact Hm|apply length_insert|lia|]. intros i Hi. rewrite list_lookup_insert.
        repeat case_decide; done || lia.
      * eapply set_counts_only; [| |exact Hm]; lia.
    + exists k. split; [by eapply bind_then; [exact H|]|]. by split.
  - destruct Hok as [Hn Hn31]. pose proof (alloc_frames_call k cs Hc n Hn Hn31) as H.
    destruct (first_run n cs) as [s|]; cbn [fst snd fmap option_fmap option_map].
    + destruct H as (m' & He & Hm & Hs). eexists. split; [|split].
      * eapply bind_then; [exact He|]. done.
      * apply (counts_set k cs Hc m' s n 1); [exact Hm| |lia|].
        -- rewrite !length_app, length_take, length_replicate, length_drop. lia.
        -- intros i Hi. rewrite !lookup_app, length_take, length_replicate.
           destruct (decide (i < s)%nat) as [Hlt|].
           ++ rewrite lookup_take_lt by done. destruct (lookup_lt_is_Some_2 cs i Hi) as [c ->]. by rewrite decide_False by lia.
           ++ rewrite lookup_take_ge by lia. replace (i - s `min` length cs)%nat with (i - s)%nat by lia.
              destruct (decide (i < s + n)%nat).
              ** assert (replicate n 1%nat !! (i - s)%nat = Some 1%nat) as -> by (apply lookup_replicate; split; [done|lia]). by rewrite decide_True by lia.
              ** assert (replicate n 1%nat !! (i - s)%nat = None) as -> by (apply lookup_replicate_None; lia). rewrite lookup_drop, decide_False by lia. f_equal. lia.
      * eapply set_counts_only; [| |exact Hm]; lia.
    + exists k. split; [by eapply bind_then; [exact H|]|]. by split.
  - destruct (lookup_lt_is_Some_2 cs i Hok) as [c Hi]. pose proof (counts_rc _ _ Hc _ _ Hi) as Hrc.
    pose proof (Forall_lookup_1 _ _ _ _ (counts_small _ _ Hc) Hi) as Hsmall. cbv beta in Hsmall.
    destruct (free_frame_eq k (Z.of_nat (length cs)) (counts_len _ _ Hc) Hfit (Z.of_nat i)) as (m' & He & Hm); [lia|lia|].
    eexists. split; [by eapply bind_then; [exact He|]|]. cbn [snd]. split.
    + apply (counts_set k cs Hc m' i 1 (Nat.pred c)).
      * rewrite Hrc in Hm. by replace (Z.of_nat (Nat.pred c)) with (Z.max 0 (Z.of_nat c - 1)) by lia.
      * apply length_alter.
      * lia.
      * intros j Hj. destruct (decide (j = i)) as [->|].
        -- rewrite list_lookup_alter, Hi, !decide_True by lia. done.
        -- rewrite list_lookup_alter_ne by done. by rewrite decide_False by lia.
    + eapply set_counts_only; [| |exact Hm]; lia.
Qed.

(** C15: every run of alloc_frame, alloc_frames and free_frame is the run of the
    reference on the list of reference counts: the same frames in the same
    order, first fit for one frame and for a run of them, none where the
    reference has none, and the same counts at the end; nothing but the
    reference counts changes. *)
Theorem frame_calls_equiv k cs l : counts_are k cs -> Forall (fcall_ok (length cs)) l ->
  exists k', frame_calls l k = Ret (map (option_map frame_ptr) (spec_calls l cs).1) k' /\
    counts_are k' (spec_calls l cs).2 /\ counts_only (length cs) k k'.
Proof.
  intros Hc Hl. revert k cs Hc Hl. induction l as [|c l IH]; intros k cs Hc Hl; [by exists k|].
  apply Forall_cons in Hl as [Hok Hl]. destruct (frame_call_refines k cs c Hc Hok) as (k1 & He1 & Hc1 & Ho1).
  assert (Hlen : length (spec_call c cs).2 = length cs) by (apply spec_call_length; intros n ->; apply Hok).
  cbn [frame_calls spec_calls]. destruct (spec_call c cs) as [a cs1]. cbn [fst snd] in *.
  rewrite <- Hlen in Hl. destruct (IH k1 cs1 Hc1 Hl) as (k2 & He2 & Hc2 & Ho2).
  destruct (spec_calls l cs1) as [r cs2]. cbn [fst snd] in *. exists k2. split; [|split].
  - eapply bind_then; [exact He1|]. eapply bind_then; [exact He2|]. done.
  - exact Hc2.
  - rewrite Hlen in Ho2. by etrans.
Qed.

Lemma example_counts : counts_are example_frames [1; 0; 0; 0]%nat.
Proof.
  split; [reflexivity|vm_compute; split; congruence| |repeat constructor; vm_compute; done].
  intros [|[|[|[|i]]]] c; cbn; intros [= <-]; reflexivity.
Qed.

Lemma frame_calls_equiv_witness :
  exists k', frame_calls [FAllocs 2; FAlloc; FFree 1; FAllocs 2; FAlloc] example_frames =
      Ret [Some 0xC080000C; Some 0xC0800024; None; None; Some 0xC080000C] k' /\
    counts_are k' [1; 1; 1; 1]%nat.
Proof.
  destruct (frame_calls_equiv example_frames [1; 0; 0; 0]%nat [FAllocs 2; FAlloc; FFree 1; FAllocs 2; FAlloc])
    as (k' & He & Hc & _).
  - exact example_counts.
  - repeat constructor; vm_compute; repeat constructor.
  - exists k'. split; [exact He|exact Hc].
Defined.
