(* ===== verification/Sbrk.v ===== *)
(** The end of the kernel's data segment: sbrk and its helper (src/pages.c). *)
From S2P Require Import Prelude Memory State Console Kprintf Interrupts Pages Mmu Tables Frames.
Local Open Scope Z_scope.
Local Open Scope kern_scope.
Local Set Default Proof Using "Type*".

(** A pointer constant of more than 32 bits keeps its low 32 bits. *)
Definition HEAP_BASE : Z := w32 0xc08000000.

Definition get_kds_end_addr : prog kst Z :=
  kds ← get_kds_size;
  let nb_pages := w32 (kds / getpagesize + b2z (0 <? kds mod FRAME_SIZE)) in
  mret (w32 (HEAP_BASE + w32 (nb_pages * getpagesize))).

(** [(void * ) -1]. *)
Definition SBRK_FAILED : Z := w32 (-1).

Definition add_kds_size (size : Z) : prog kst unit :=
  modify (fun k => set_kds_size (w32 (g_kds_size k + size)) k).

(** The end of sbrk, common to growing and shrinking. *)
Definition sbrk_commit (size : Z) : prog kst Z :=
  old_kds_end ← get_kds_end_addr;
  add_kds_size size;;
  mret old_kds_end.

Definition sbrk (size : Z) : prog kst Z :=
  kprintf ("sbrk: %d" +:+ nl) [AInt size];;
  if size =? 0 then get_kds_end_addr
  else if 0 <? size then
    let nb_pages := Z.quot size FRAME_SIZE + b2z (0 <? Z.rem size FRAME_SIZE) in
    map ← gets (fun k => fc_map (g_frames_context k));
    base ← load32 (map_base_addr_low map);
    len ← load32 (map_length_low map);
    let max_nb_pages := w32 (base + len / FRAME_SIZE) in
    kds ← get_kds_size;
    let next_nb_pages := w32 (kds / FRAME_SIZE + nb_pages) in
    if max_nb_pages <? next_nb_pages
    then kprintf ("sbrk failed: not enough memory" +:+ nl) [];; mret SBRK_FAILED
    else
      r ← alloc_frames nb_pages;
      if r.1 =? FAILED then mret SBRK_FAILED
      else
        frames ← of_option r.2;
        kpd ← get_kpd_frame;
        kend ← get_kds_end_addr;
        st ← map_pages kpd kend frames nb_pages (Z.lor PF_PRES PF_RW);
        if st =? FAILED then mret SBRK_FAILED else sbrk_commit size
  else
    let nb_pages := Z.quot (s32 (- size)) FRAME_SIZE + b2z (0 <? Z.rem (s32 (- size)) FRAME_SIZE) in
    kpd ← get_kpd_frame;
    kend ← get_kds_end_addr;
    unmap_pages kpd (w32 (kend - w32 (nb_pages * getpagesize))) nb_pages;;
    sbrk_commit size.

(** * Proofs *)

(** The heap does not start in the kernel's half: the nine-digit constant of
    get_kds_end_addr is truncated to 0x08000000, 128 MB. *)
Lemma heap_base_value : HEAP_BASE = 0x08000000.
Proof. reflexivity. Qed.

(** The pages of a size, and the end of a segment of [s] bytes. *)
Definition heap_end (s : Z) : Z := HEAP_BASE + 4096 * pages_of s.

Lemma pages_of_bound s : 0 <= s -> 4096 * pages_of s - 4096 < s <= 4096 * pages_of s /\ 0 <= pages_of s.
Proof.
  intros Hs. unfold pages_of, FRAME_SIZE. destruct (Z.ltb_spec 0 (s mod 4096)); cbn [b2z];
    Z.div_mod_to_equations; lia.
Qed.

Lemma pages_of_pos s : 0 < s -> 1 <= pages_of s.
Proof. intros. pose proof (pages_of_bound s). lia. Qed.

Lemma quot_pages size : 0 <= size ->
  Z.quot size FRAME_SIZE + b2z (0 <? Z.rem size FRAME_SIZE) = pages_of size.
Proof. intros. unfold FRAME_SIZE. by rewrite Z.quot_div_nonneg, Z.rem_mod_nonneg by lia. Qed.

Section sbrk_proofs.
Context {LY : Layout} {LO : LayoutOk LY}.

(** The heap's state: the tables and the frames are as their components keep
    them, and the segment, from 128 MB on, stays below the kernel. *)
Record heap_state (k : kst) : Prop := {
  heap_paging : paging (mem k);
  heap_kpd : vaddr (g_frame_page_directory k) = sym_page_dir;
  heap_frames : fits (frames_count (g_frames_context k));
  heap_size : 0 <= g_kds_size k;
  heap_below : heap_end (g_kds_size k) <= 0xC0000000
}.

Lemma get_kds_end_addr_eq k : heap_state k ->
  get_kds_end_addr k = Ret (heap_end (g_kds_size k)) k.
Proof.
  intros [_ _ _ Hs Hb]. unfold get_kds_end_addr. eapply bind_then; [reflexivity|].
  unfold heap_end in *. rewrite heap_base_value in *. fold (pages_of (g_kds_size k)).
  pose proof (pages_of_bound (g_kds_size k) Hs). unfold mret, prog_ret. f_equal.
  unfold getpagesize. change (g_kds_size k / FRAME_SIZE + b2z (0 <? g_kds_size k mod FRAME_SIZE))
    with (pages_of (g_kds_size k)). unfold FRAME_SIZE.
  rewrite (w32_small (pages_of _)), (w32_small (pages_of _ * 4096)), w32_small by lia. lia.
Qed.

Lemma heap_state_quiet k k' : quiet k k' -> heap_state k -> heap_state k'.
Proof. intros (t & d & ->) [????]. by split. Qed.

Lemma free_frames_ok s n N : fits N -> 0 <= s -> 1 <= n -> s + n <= N -> frames_ok (get_frame_at s) n.
Proof.
  intros HN Hs Hn HsN. pose proof kpd_range as (?&?&_&_). unfold fits in HN.
  pose proof (ka_frame_at N s HN ltac:(lia)) as Hka.
  rewrite (get_frame_at_eq N) in Hka |- * by (done || lia). unfold desc in Hka.
  split; [unfold linear, SYSTEM_ADDR_BASE; lia|lia|]. rewrite Hka. unfold PT_BASE. lia.
Qed.

(** The ceiling sbrk compares the segment with. *)
Definition max_pages (k : kst) : Z :=
  w32 (rdp (mem k) (map_base_addr_low (fc_map (g_frames_context k)))
       + rdp (mem k) (map_length_low (fc_map (g_frames_context k))) / FRAME_SIZE).

(** After the size is printed, a positive sbrk with room under its ceiling
    allocates frames and maps them. *)
Lemma wp_sbrk_positive size (Q : Z -> kst -> Prop) k : heap_state k -> 0 < size < 2147483648 ->
  (forall k', quiet k k' ->
    wp (if max_pages k <? w32 (g_kds_size k / FRAME_SIZE + pages_of size)
        then kprintf ("sbrk failed: not enough memory" +:+ nl) [];; mret SBRK_FAILED
        else
          r ← alloc_frames (pages_of size);
          if r.1 =? FAILED then mret SBRK_FAILED
          else
            frames ← of_option r.2;
            kpd ← get_kpd_frame;
            kend ← get_kds_end_addr;
            st ← map_pages kpd kend frames (pages_of size) (Z.lor PF_PRES PF_RW);
            if st =? FAILED then mret SBRK_FAILED else sbrk_commit size) Q k') ->
  wp (sbrk size) Q k.
Proof.
  intros Hh Hsize H. unfold sbrk. assert (s32 size <> INT_MIN) by (rewrite s32_small; unfold INT_MIN; lia).
  wp_go. kp. rewrite (proj2 (Z.eqb_neq _ _)), (proj2 (Z.ltb_lt _ _)) by lia. wp_go.
  rewrite quot_pages by lia. pose proof (quiet_mem _ _ Hq) as Hm.
  assert (Hs : g_kds_size k0 = g_kds_size k /\ g_frames_context k0 = g_frames_context k)
    by (destruct Hq as (? & ? & ->); done).
  destruct Hs as [Hs Hc]. rewrite Hm, Hc. unfold get_kds_size. wp_go. rewrite Hs.
  by apply H.
Qed.

(** The counts alloc_frames sets are not in the tables. *)
Lemma set_counts_tables m m' s n v : 0 <= s -> set_counts m m' s n v ->
  (forall c, 0 <= c < 1024 -> pde m' c = pde m c) /\ (forall v, 0 <= v < 1048576 -> pte m' v = pte m v).
Proof.
  intros Hs [_ Hout]. pose proof kpd_range as (?&?&_&_).
  split; intros x Hx; apply rd32_ext; intros a Ha; apply Hout; unfold desc, PT_BASE in *; lia.
Qed.

Lemma set_counts_state k m' s n v : 0 <= s -> set_counts (mem k) m' s n v -> heap_state k ->
  heap_state (set_mem (fun _ => m') k) /\ forall v, 0 <= v < 1048576 -> vmap m' v = vmap (mem k) v.
Proof.
  intros Hs Hc [Hp Hk Hf Hz Hb]. destruct (set_counts_tables _ _ _ _ _ Hs Hc) as [Hpd Hpt].
  split; [split; try done; by apply (paging_ext (mem k))|]. intros v' Hv'. unfold vmap. by rewrite Hpt.
Qed.

Lemma heap_vpn j s : 0 <= s -> heap_end s / 4096 + j = 0x8000 + pages_of s + j.
Proof.
  intros Hs. unfold heap_end. rewrite heap_base_value. Z.div_mod_to_equations; lia.
Qed.

Lemma heap_vpn_window v : v < 0xC0000 -> ~ window (v / 1024).
Proof. intros. unfold window. Z.div_mod_to_equations; lia. Qed.

Lemma sbrk_commit_eq size k : heap_state k ->
  sbrk_commit size k = Ret (heap_end (g_kds_size k)) (set_kds_size (w32 (g_kds_size k + size)) k).
Proof.
  intros Hh. unfold sbrk_commit. eapply bind_then; [by apply get_kds_end_addr_eq|].
  by eapply bind_then; [reflexivity|].
Qed.

(** A positive sbrk either stops before it changes anything (no room under the
    ceiling, or no run of free frames), or takes a run of free frames and maps them
    until it meets a page in use; the segment grows if it meets none. *)
Lemma wp_sbrk_up size (Q : Z -> kst -> Prop) k : heap_state k -> 0 < size < 2147483648 ->
  let n := pages_of size in let E := heap_end (g_kds_size k) in
  E + 4096 * n <= 0xC0000000 ->
  (forall k', quiet k k' ->
     max_pages k < w32 (g_kds_size k / FRAME_SIZE + n) \/
     (forall s, 0 <= s -> s + n <= frames_count (g_frames_context k) -> ~ free_run (mem k) s n) ->
     Q SBRK_FAILED k') ->
  (forall s m1 m2 i k', 0 <= s -> s + n <= frames_count (g_frames_context k) -> free_run (mem k) s n ->
     0 <= i <= n -> (forall j, 0 <= j < i -> vmap (mem k) (E / 4096 + j) = None) ->
     (i < n -> vmap (mem k) (E / 4096 + i) <> None) ->
     set_counts (mem k) m1 s n 1 -> mapped m1 m2 E (desc s) i ->
     quiet (set_mem (fun _ => m2) (if decide (i = n) then set_kds_size (w32 (g_kds_size k + size)) k else k)) k' ->
     Q (if decide (i = n) then E else SBRK_FAILED) k') ->
  wp (sbrk size) Q k.
Proof.
  intros Hh Hsize n E HE Hfail HQ. apply wp_sbrk_positive; [done|done|]. intros k' Hq. fold n.
  pose proof (pages_of_pos size ltac:(lia)) as Hn. fold n in Hn.
  assert (Hn2 : n < 2147483648) by (pose proof (pages_of_bound size); subst n; lia).
  destruct (Z.ltb_spec (max_pages k) (w32 (g_kds_size k / FRAME_SIZE + n))) as [Hmax|_].
  { wp_go. kp. wp_go. apply Hfail; [by etrans|by left]. }
  pose proof (quiet_mem _ _ Hq) as Hm. pose proof (heap_state_quiet _ _ Hq Hh) as Hh'.
  assert (Hctx : g_frames_context k' = g_frames_context k /\ g_kds_size k' = g_kds_size k)
    by (destruct Hq as (? & ? & ->); done). destruct Hctx as [Hctx Hkds].
  set (N := frames_count (g_frames_context k)) in *. pose proof (heap_frames _ Hh) as HN. fold N in HN.
  apply wp_bind, (wp_alloc_frames k' N); [by rewrite Hctx|done|lia|unfold fits in HN; lia| |].
  2:{ intros Hno. cbn [fst]. apply wp_ret, Hfail; [done|]. right. by rewrite <- Hm. }
  intros s m1 Hs Hsn Hfr _ Hc. cbn [fst snd of_option]. change (SUCCES =? FAILED) with false. cbn iota.
  destruct (set_counts_state k' m1 s n 1 Hs Hc Hh') as [Hh1 Hv1].
  unfold get_kpd_frame. wp_go. eapply wp_eq; [by apply get_kds_end_addr_eq|].
  cbn [g_kds_size set_mem g_frame_page_directory]. rewrite Hkds. fold E. wp_go.
  pose proof (heap_size _ Hh) as Hz. pose proof (pages_of_bound _ Hz) as Hpz.
  assert (HE0 : E / 4096 = 0x8000 + pages_of (g_kds_size k) /\ E = 4096 * (E / 4096))
    by (unfold E, heap_end; rewrite heap_base_value; Z.div_mod_to_equations; lia).
  destruct (first_failing (fun j => vmap (mem k) (E / 4096 + j) = None) n ltac:(lia)) as (i & Hi & Hfree & Hstop).
  assert (Hv : forall j, 0 <= j < n -> ~ window ((E / 4096 + j) / 1024) /\ vmap m1 (E / 4096 + j) = vmap (mem k) (E / 4096 + j)).
  { intros j Hj. split; [apply heap_vpn_window; lia|]. by rewrite Hv1, Hm by lia. }
  eapply wp_mono; [apply (map_pages_prefix _ n _ (heap_kpd _ Hh1) E (get_frame_at s) i)|];
    [reflexivity|lia|lia|lia|lia|by apply (free_frames_ok s n N)|apply Hh1| | |].
  - intros j Hj. destruct (Hv j) as [Hw Hvj]; [lia|]. split; [exact Hw|]. cbn [mem set_mem]. rewrite Hvj. by apply Hfree.
  - intros Hlt. right. cbn [mem set_mem]. rewrite (proj2 (Hv i ltac:(lia))). by apply Hstop.
  - cbv beta. intros r k2 (-> & m2 & evs & Hq2 & Hmap). cbn [mem set_mem] in Hmap.
    rewrite (ka_frame_at N) in Hmap by (done || lia). rewrite Hm in Hc, Hfr.
    specialize (HQ s m1 m2 i). destruct Hq as (t & d & ->), Hq2 as (t' & d' & ->). case_decide as Hin.
    + change (SUCCES =? FAILED) with false. cbn iota. eapply wp_eq; [apply sbrk_commit_eq|].
      { destruct Hh1. split; try done. apply Hmap. }
      apply HQ; try done. exists ((t ++ evs) ++ t'), d'. by rewrite <- !logged_logged.
    + change (FAILED =? FAILED) with true. cbn iota. apply wp_ret, HQ; try done.
      exists ((t ++ evs) ++ t'), d'. by rewrite <- !logged_logged.
Qed.

(** Growing a segment whose next pages are free, from free frames. *)
Lemma wp_sbrk_grow size s0 (Q : Z -> kst -> Prop) k : heap_state k -> 0 < size < 2147483648 ->
  let n := pages_of size in let E := heap_end (g_kds_size k) in
  E + 4096 * n <= 0xC0000000 -> w32 (g_kds_size k / FRAME_SIZE + n) <= max_pages k ->
  (forall v, E / 4096 <= v < E / 4096 + n -> vmap (mem k) v = None) ->
  0 <= s0 -> s0 + n <= frames_count (g_frames_context k) -> free_run (mem k) s0 n ->
  (forall s m1 m2 k', 0 <= s -> s + n <= frames_count (g_frames_context k) -> free_run (mem k) s n ->
     set_counts (mem k) m1 s n 1 -> mapped m1 m2 E (desc s) n ->
     quiet (set_kds_size (w32 (g_kds_size k + size)) (set_mem (fun _ => m2) k)) k' -> Q E k') ->
  wp (sbrk size) Q k.
Proof.
  intros Hh Hsize n E HE Hmax Hfree Hs0 Hs0n Hrun HQ. apply wp_sbrk_up; [done..| |]; fold n; fold E.
  - intros k' _ [?|Hno]; [lia|]. by destruct (Hno s0).
  - intros s m1 m2 i k' Hs Hsn Hfr Hi _ Hstop Hc Hmap Hq.
    destruct (decide (i = n)) as [->|]; [|destruct Hstop; [lia|apply Hfree; lia]].
    by apply (HQ s m1 m2).
Qed.

Lemma pages_of_mono s t : 0 <= s <= t -> pages_of s <= pages_of t.
Proof. intros. pose proof (pages_of_bound s). pose proof (pages_of_bound t). lia. Qed.

(** Shrinking: the segment is shorter and the page map is the same. *)
Lemma wp_sbrk_shrink p (Q : Z -> kst -> Prop) k : heap_state k -> 0 < p < 2147483648 -> p <= g_kds_size k ->
  (forall m' k', (forall c, 0 <= c < 1024 -> pde m' c = pde (mem k) c) ->
     (forall v, 0 <= v < 1048576 -> pte m' v = pte (mem k) v) ->
     (forall a, 0x2000 <= a -> rd8 m' a = rd8 (mem k) a) ->
     quiet (set_kds_size (g_kds_size k - p) (set_mem (fun _ => m') k)) k' ->
     Q (heap_end (g_kds_size k)) k') ->
  wp (sbrk (- p)) Q k.
Proof.
  intros Hh Hp Hps HQ. unfold sbrk.
  assert (s32 (- p) <> INT_MIN) by (rewrite s32_small; unfold INT_MIN; lia).
  wp_go. kp. rewrite (proj2 (Z.eqb_neq _ _)), (proj2 (Z.ltb_ge _ _)) by lia.
  rewrite Z.opp_involutive, (s32_small p), quot_pages by (unfold INT_MIN; lia).
  pose proof (heap_state_quiet _ _ Hq Hh) as Hh'. pose proof (quiet_mem _ _ Hq) as Hm.
  assert (Hkds : g_kds_size k0 = g_kds_size k) by (destruct Hq as (? & ? & ->); done).
  set (n := pages_of p). set (E := heap_end (g_kds_size k)).
  pose proof (pages_of_bound p ltac:(lia)) as Hn. fold n in Hn.
  pose proof (pages_of_mono p (g_kds_size k) ltac:(lia)) as Hmono. fold n in Hmono.
  pose proof (heap_below _ Hh) as Hb. fold E in Hb.
  assert (HE : E = 0x08000000 + 4096 * pages_of (g_kds_size k))
    by (unfold E, heap_end; by rewrite heap_base_value).
  unfold get_kpd_frame. wp_go. eapply wp_eq; [by apply get_kds_end_addr_eq|]. rewrite Hkds. fold E. wp_go.
  replace (w32 (E - w32 (n * getpagesize))) with (E - 4096 * n)
    by (unfold getpagesize, FRAME_SIZE; rewrite (w32_small (n * 4096)), w32_small by lia; lia).
  apply wp_unmap_pages; [apply Hh'|apply Hh'|lia|lia|lia|].
  intros m' evs Hd Ht Hr _. set (k1 := logged evs (set_mem (fun _ => m') k0)).
  assert (Hk1 : heap_state k1).
  { destruct Hh'. split; try done. apply (paging_ext (mem k0)); done. }
  eapply wp_eq; [by apply sbrk_commit_eq|].
  change (g_kds_size k1) with (g_kds_size k0). rewrite Hkds.
  rewrite Hm in Hd, Ht, Hr. apply (HQ m'); try done.
  rewrite <- (w32_small (g_kds_size k - p)) by (pose proof (pages_of_bound (g_kds_size k)); lia).
  destruct Hq as (t & d & ->). exists (t ++ evs), d. by rewrite <- logged_logged.
Qed.

(** A segment whose next page is mapped cannot grow. *)
Lemma wp_sbrk_blocked size k : heap_state k -> 0 < size < 2147483648 ->
  heap_end (g_kds_size k) + 4096 * pages_of size <= 0xC0000000 ->
  vmap (mem k) (heap_end (g_kds_size k) / 4096) <> None ->
  wp (sbrk size) (fun r k' => r = SBRK_FAILED /\ heap_state k' /\ g_kds_size k' = g_kds_size k /\
    vmap (mem k') (heap_end (g_kds_size k) / 4096) <> None) k.
Proof.
  intros Hh Hsize HE Htaken. pose proof (pages_of_pos size ltac:(lia)) as Hn.
  apply wp_sbrk_up; [done..| |].
  - intros k' Hq _. rewrite (quiet_mem _ _ Hq). split; [done|]. split; [by eapply heap_state_quiet|].
    split; [|done]. by destruct Hq as (? & ? & ->).
  - intros s m1 m2 i k' Hs Hsn _ Hi Hfree _ Hc Hmap Hq.
    assert (i = 0) as ->.
    { destruct (decide (i = 0)); [done|]. exfalso. apply Htaken. rewrite <- (Hfree 0), Z.add_0_r by lia. done. }
    rewrite !(decide_False (P := 0 = _)) in * by lia. destruct (set_counts_state k m1 s _ 1 Hs Hc Hh) as [[? ? ? ? ?] Hv1].
    split; [done|]. split; [|split].
    + eapply heap_state_quiet; [exact Hq|]. split; try done. apply Hmap.
    + by destruct Hq as (? & ? & ->).
    + assert (Hvpn : 0 <= heap_end (g_kds_size k) / 4096 < 1048576).
      { pose proof (heap_size _ Hh) as Hz. pose proof (pages_of_bound _ Hz). unfold heap_end in *.
        rewrite heap_base_value in *. Z.div_mod_to_equations; lia. }
      rewrite (quiet_mem _ _ Hq). cbn [mem set_mem]. rewrite (mapped_vmap _ _ _ _ _ Hmap), decide_False by (done || lia).
      by rewrite Hv1.
Qed.
End sbrk_proofs.

(** What growing the segment does, in terms of the translation. *)
Lemma sbrk_grow_effect {LY : Layout} {LO : LayoutOk LY} size s0 k : heap_state k -> 0 < size < 2147483648 ->
  let n := pages_of size in let E := heap_end (g_kds_size k) in
  E + 4096 * n <= 0xC0000000 -> w32 (g_kds_size k / FRAME_SIZE + n) <= max_pages k ->
  (forall v, E / 4096 <= v < E / 4096 + n -> vmap (mem k) v = None) ->
  0 <= s0 -> s0 + n <= frames_count (g_frames_context k) -> free_run (mem k) s0 n ->
  ⟨ k ⟩ sbrk size ⟨ r, k' | r = E /\ heap_state k' /\ g_kds_size k' = g_kds_size k + size /\
    exists s, 0 <= s /\ s + n <= frames_count (g_frames_context k) /\ free_run (mem k) s n /\
      (forall j, 0 <= j < n -> frame_in (mem k') (desc (s + j)) =
         Frame 2 (rd32 (mem k) (desc (s + j) + 4)) (E + 4096 * j)) /\
      (forall a, 0 <= a < 4294967296 -> mmu (mem k') kpd a =
         if decide (E <= a < E + 4096 * n)
         then Some (rd32 (mem k) (desc (s + (a - E) / 4096) + 4) / 4096 * 4096 + a mod 4096)
         else mmu (mem k) kpd a) ⟩.
Proof.
  intros Hh Hsize n E HE Hmax Hfree Hs0 Hs0n Hrun.
  apply (wp_sbrk_grow size s0); try done. fold n. fold E.
  intros s m1 m2 k' Hs Hsn Hfr Hc Hmap Hq.
  pose proof (pages_of_pos size ltac:(lia)) as Hn. fold n in Hn.
  pose proof (heap_size _ Hh) as Hz. pose proof (pages_of_bound _ Hz) as Hpz.
  pose proof (pages_of_bound size ltac:(lia)) as Hps. fold n in Hps.
  assert (HE0 : E = 0x08000000 + 4096 * pages_of (g_kds_size k))
    by (unfold E, heap_end; by rewrite heap_base_value).
  destruct (set_counts_state k m1 s n 1 Hs Hc Hh) as [Hh1 Hv1].
  pose proof (quiet_mem _ _ Hq) as Hm2. cbn [mem set_mem set_kds_size] in Hm2.
  assert (Hkds : g_kds_size k' = g_kds_size k + size).
  { destruct Hq as (? & ? & ->). cbn. apply w32_small. lia. }
  assert (Haddr : forall i, s <= i -> rd32 m1 (desc i + 4) = rd32 (mem k) (desc i + 4)).
  { intros i Hi. apply rd32_ext. intros a Ha. apply Hc. intros i' Hi'. unfold desc in *. lia. }
  split; [done|]. split; [|split; [done|]].
  - split.
    + rewrite Hm2. apply Hmap.
    + destruct Hq as (? & ? & ->). apply Hh.
    + destruct Hq as (? & ? & ->). apply Hh.
    + rewrite Hkds. lia.
    + rewrite Hkds. unfold heap_end. rewrite heap_base_value.
      assert (pages_of (g_kds_size k + size) <= pages_of (g_kds_size k) + n)
        by (pose proof (pages_of_bound (g_kds_size k + size)); lia). lia.
  - exists s. split; [done|]. split; [done|]. split; [done|]. rewrite Hm2. split.
    + intros j Hj. replace (desc (s + j)) with (desc s + 12 * j) by (unfold desc; lia).
      rewrite (mapped_frames _ _ _ _ _ Hmap j Hj).
      replace (desc s + 12 * j) with (desc (s + j)) by (unfold desc; lia).
      rewrite Haddr by lia. fold (rc m1 (s + j)). rewrite (counts_in _ _ _ _ _ Hc) by lia. done.
    + intros a Ha. rewrite (mapped_mmu m1 m2 E (desc s) n) by (try done; try lia; try apply Hh1;
        intros j Hj; apply heap_vpn_window; Z.div_mod_to_equations; lia).
      destruct (decide (E <= a < E + 4096 * n)).
      * rewrite decide_True by (Z.div_mod_to_equations; lia).
        replace (desc s + 12 * (a / 4096 - E / 4096)) with (desc (s + (a - E) / 4096))
          by (unfold desc; Z.div_mod_to_equations; lia).
        by rewrite Haddr by (Z.div_mod_to_equations; lia).
      * rewrite decide_False by (Z.div_mod_to_equations; lia).
        rewrite !mmu_paging by (try done; try apply Hh; apply Hh1). cbn [mem set_mem] in Hv1.
        by rewrite Hv1 by (Z.div_mod_to_equations; lia).
Qed.

(** * Properties *)

(** C23: sbrk of a positive size, when its ceiling and the memory allow it,
    answers the former end of the segment, rounded up to a page, and adds the
    size to the segment. The pages after the former end translate to the frames
    of a run that was free, each counted twice (once as allocated and once as
    mapped); other translations and the invariant stay. *)
Theorem sbrk_grows {LY : Layout} {LO : LayoutOk LY} size s0 k : heap_state k -> 0 < size < 2147483648 ->
  let n := pages_of size in let E := heap_end (g_kds_size k) in
  E + 4096 * n <= 0xC0000000 -> w32 (g_kds_size k / FRAME_SIZE + n) <= max_pages k ->
  (forall v, E / 4096 <= v < E / 4096 + n -> vmap (mem k) v = None) ->
  0 <= s0 -> s0 + n <= frames_count (g_frames_context k) -> free_run (mem k) s0 n ->
  ⟨ k ⟩ sbrk size ⟨ r, k' | r = E /\ heap_state k' /\ g_kds_size k' = g_kds_size k + size /\
    exists s, 0 <= s /\ s + n <= frames_count (g_frames_context k) /\ free_run (mem k) s n /\
      (forall j, 0 <= j < n -> frame_in (mem k') (desc (s + j)) =
         Frame 2 (rd32 (mem k) (desc (s + j) + 4)) (E + 4096 * j)) /\
      (forall a, 0 <= a < 4294967296 -> mmu (mem k') kpd a =
         if decide (E <= a < E + 4096 * n)
         then Some (rd32 (mem k) (desc (s + (a - E) / 4096) + 4) / 4096 * 4096 + a mod 4096)
         else mmu (mem k) kpd a) ⟩.
Proof. apply sbrk_grow_effect. Qed.

(** A machine with 256 free frames and an empty segment. *)
Definition example_heap : kst :=
  set_fctx (FrameContext 0xC0011000 0xC0800000 0xC0800C00 256)
    (set_kpd example_kpd (set_mem (fun _ => example_mbi_tables) (boot_state ∅))).

Lemma example_heap_state : @heap_state example_layout example_heap.
Proof.
  split; [apply example_mbi_tables_paging|reflexivity| |vm_compute; congruence|vm_compute; congruence].
  vm_compute. intuition congruence.
Qed.

Lemma example_heap_zero a : 0x800000 <= a -> rd8 (mem example_heap) a = 0.
Proof.
  intros Ha. change (mem example_heap) with example_mbi_tables. unfold example_mbi_tables. cbn [foldr].
  rewrite !rd8_wr32_ne by lia. apply example_tables_rest. lia.
Qed.

Lemma example_heap_free s n : 0 <= s -> free_run (mem example_heap) s n.
Proof.
  intros Hs i Hi. apply rd32_zero. intros a Ha. apply example_heap_zero. unfold desc in Ha. lia.
Qed.

Lemma example_heap_room v : 0 <= v < 1048576 -> vmap (mem example_heap) v = None.
Proof. apply example_mbi_tables_paging. Qed.

Lemma sbrk_grows_witness :
  wp (sbrk 5000) (fun r k' => r = 0x08000000 /\ g_kds_size k' = 5000) example_heap.
Proof.
  eapply wp_mono.
  - apply (@sbrk_grows example_layout example_layout_ok 5000 0 example_heap);
      [exact example_heap_state|lia|vm_compute; congruence|vm_compute; congruence| |lia|vm_compute; congruence|].
    + intros v Hv. apply example_heap_room. revert Hv. change (heap_end (g_kds_size example_heap) / 4096) with 0x8000.
      change (pages_of 5000) with 2. lia.
    + apply example_heap_free. lia.
  - cbv beta. intros r k' (H1 & _ & H2 & _). split; [rewrite H1; reflexivity|rewrite H2; reflexivity].
Defined.

(** Since no frame description has a physical address, the pages sbrk adds
    are all the first page of RAM: each of their addresses translates to its
    offset in the page, and two addresses 4 KB apart are the same byte. *)
Theorem sbrk_pages_alias {LY : Layout} {LO : LayoutOk LY} size s0 k : heap_state k -> 0 < size < 2147483648 ->
  let n := pages_of size in let E := heap_end (g_kds_size k) in
  E + 4096 * n <= 0xC0000000 -> w32 (g_kds_size k / FRAME_SIZE + n) <= max_pages k ->
  (forall v, E / 4096 <= v < E / 4096 + n -> vmap (mem k) v = None) ->
  0 <= s0 -> s0 + n <= frames_count (g_frames_context k) -> free_run (mem k) s0 n ->
  (forall i, 0 <= i < frames_count (g_frames_context k) -> rd32 (mem k) (desc i + 4) = 0) ->
  ⟨ k ⟩ sbrk size ⟨ r, k' | r = E /\
    forall a, E <= a < E + size -> mmu (mem k') kpd a = Some (a mod 4096) ⟩.
Proof.
  intros Hh Hsize n E HE Hmax Hfree Hs0 Hs0n Hrun Haddr.
  pose proof (pages_of_bound size ltac:(lia)) as Hps. fold n in Hps.
  pose proof (pages_of_bound _ (heap_size _ Hh)) as Hpz.
  assert (HE0 : 0 <= E) by (unfold E, heap_end; rewrite heap_base_value; lia).
  eapply wp_mono; [by apply (sbrk_grow_effect size s0)|]. fold n. fold E. cbv beta.
  intros r k' (-> & _ & _ & s & Hs & Hsn & _ & _ & Hmmu). split; [done|]. intros a Ha.
  rewrite Hmmu by lia. rewrite decide_True by lia. rewrite Haddr by (Z.div_mod_to_equations; lia). done.
Qed.

Lemma sbrk_pages_alias_witness :
  wp (sbrk 8192) (fun r k' => mmu (mem k') (@kpd example_layout) 0x08000010 = Some 0x10 /\
    mmu (mem k') (@kpd example_layout) 0x08001010 = Some 0x10) example_heap.
Proof.
  eapply wp_mono.
  - apply (@sbrk_pages_alias example_layout example_layout_ok 8192 0 example_heap);
      [exact example_heap_state|lia|vm_compute; congruence|vm_compute; congruence| |lia|vm_compute; congruence| |].
    + intros v Hv. apply example_heap_room. revert Hv. change (heap_end (g_kds_size example_heap) / 4096) with 0x8000.
      change (pages_of 8192) with 2. lia.
    + apply example_heap_free. lia.
    + intros i Hi. apply rd32_zero. intros a Ha. apply example_heap_zero. unfold desc in Ha. lia.
  - cbv beta. change (heap_end (g_kds_size example_heap)) with 0x08000000.
    intros r k' (_ & H). split; [exact (H 0x08000010 ltac:(lia))|exact (H 0x08001010 ltac:(lia))].
Defined.

(** C31: once the segment has shrunk by at least a page, it can never grow again.
    sbrk(-p) answers the former end and takes p off the segment, but leaves its
    pages mapped; the next sbrk of a positive size, of any size and with any
    amount of free memory, then answers (void * )-1 and leaves the segment as
    it is, and so will every later one. *)
Theorem sbrk_shrink_is_final {LY : Layout} {LO : LayoutOk LY} p size k : heap_state k ->
  0 < p < 2147483648 -> p <= g_kds_size k -> pages_of (g_kds_size k - p) < pages_of (g_kds_size k) ->
  (forall v, 0x8000 <= v < 0x8000 + pages_of (g_kds_size k) -> vmap (mem k) v <> None) ->
  0 < size < 2147483648 -> heap_end (g_kds_size k - p) + 4096 * pages_of size <= 0xC0000000 ->
  ⟨ k ⟩ sbrk (- p) ⟨ r, k1 | r = heap_end (g_kds_size k) /\ g_kds_size k1 = g_kds_size k - p /\
    ⟨ k1 ⟩ sbrk size ⟨ r2, k2 | r2 = SBRK_FAILED /\ heap_state k2 /\ g_kds_size k2 = g_kds_size k - p /\
      vmap (mem k2) (heap_end (g_kds_size k - p) / 4096) <> None ⟩ ⟩.
Proof.
  intros Hh Hp Hps Hpages Hmapped Hsize Hroom. pose proof (heap_size _ Hh) as Hz.
  pose proof (pages_of_bound _ Hz) as Hpz. pose proof (pages_of_bound (g_kds_size k - p) ltac:(lia)) as Hpp.
  pose proof (heap_below _ Hh) as Hb. unfold heap_end in Hb. rewrite heap_base_value in Hb.
  apply wp_sbrk_shrink; [exact Hh|lia|lia|]. intros m' k1 Hd Ht _ Hq. split; [done|].
  pose proof (quiet_mem _ _ Hq) as Hm. cbn [mem set_mem set_kds_size] in Hm.
  assert (Hkds : g_kds_size k1 = g_kds_size k - p) by (destruct Hq as (? & ? & ->); done).
  split; [done|].
  assert (Hh1 : heap_state k1).
  { split.
    - rewrite Hm. by apply (paging_ext (mem k)); [| |apply Hh].
    - destruct Hq as (? & ? & ->). apply Hh.
    - destruct Hq as (? & ? & ->). apply Hh.
    - rewrite Hkds. lia.
    - rewrite Hkds. unfold heap_end. rewrite heap_base_value. lia. }
  eapply wp_mono; [apply wp_sbrk_blocked; rewrite ?Hkds; try done|].
  - unfold heap_end. rewrite heap_base_value, Hm.
    assert (Hv : (0x08000000 + 4096 * pages_of (g_kds_size k - p)) / 4096 = 0x8000 + pages_of (g_kds_size k - p))
      by (Z.div_mod_to_equations; lia).
    rewrite Hv. unfold vmap. rewrite Ht by lia. apply Hmapped. lia.
  - cbv beta. intros r k2 (-> & ? & Hk2 & Hv2). rewrite Hkds in *. by split_and!.
Qed.

(** A segment of one page, mapped to the first page of RAM. *)
Definition example_open_tables : ram :=
  wr32 (mem example_heap) (0x105000 + 4 * 32) (set_pde_flags 3 (@pde example_layout (mem example_heap) 32)).
Definition example_grown : kst :=
  set_kds_size 4096 (set_mem (fun _ => wr32 example_open_tables (PT_BASE + 4 * 0x8000) 3) example_heap).

Lemma example_grown_state : @heap_state example_layout example_grown.
Proof.
  destruct (@paging_open example_layout example_layout_ok (mem example_heap) 32) as [Hp Ho];
    [apply example_heap_state|lia|unfold window; lia|].
  split; [|reflexivity|vm_compute; intuition congruence|vm_compute; congruence|vm_compute; congruence].
  apply (@paging_set example_layout example_layout_ok example_open_tables 0x8000 3);
    [exact Hp|lia|lia|exact Ho|reflexivity].
Qed.

Lemma sbrk_shrink_is_final_witness :
  wp (sbrk (-4096)) (fun r k1 => r = 0x08001000 /\ g_kds_size k1 = 0 /\
    wp (sbrk 1) (fun r2 k2 => r2 = 0xFFFFFFFF /\ g_kds_size k2 = 0) k1) example_grown.
Proof.
  eapply wp_mono.
  - apply (@sbrk_shrink_is_final example_layout example_layout_ok 4096 1 example_grown);
      [exact example_grown_state|lia|vm_compute; congruence|vm_compute; reflexivity| |lia|vm_compute; congruence].
    intros v Hv. assert (v = 0x8000) as -> by (revert Hv; change (pages_of (g_kds_size example_grown)) with 1; lia).
    unfold vmap. change (mem example_grown) with (wr32 example_open_tables (PT_BASE + 4 * 0x8000) 3).
    rewrite pte_wr_pte, decide_True by lia. discriminate.
  - cbv beta. intros r k1 (-> & H1 & H2). split; [reflexivity|]. split; [rewrite H1; reflexivity|].
    eapply wp_mono; [exact H2|]. cbv beta. intros r2 k2 (-> & _ & H3 & _). split; [reflexivity|].
    rewrite H3. reflexivity.
Defined.
