(* ===== verification/MapIo.v ===== *)
(** The search for free pages and the mapping of device memory (alloc_pages and
    map_io of src/pages.c) against the page map. *)
From S2P Require Import Prelude Memory State Console Kprintf Pages Mmu Tables Frames Sbrk.
Local Open Scope Z_scope.
Local Open Scope kern_scope.
Local Set Default Proof Using "Type*".

(** Page [q] is in use and the next run of [n] free pages after it is the first
    of its table: what the search needs to find that run. *)
Record first_run (m : ram) (q n : Z) : Prop := {
  run_table : 0 <= q < 1048576 /\ (q + n) / 1024 = q / 1024;
  run_after : vmap m q <> None;
  run_free v : q < v <= q + n -> vmap m v = None;
  run_first s : q / 1024 * 1024 <= s -> s + n <= q -> exists v, s <= v < s + n /\ vmap m v <> None
}.

Lemma first_run_ext m m' q n : 1 <= n -> (forall v, 0 <= v < 1048576 -> vmap m' v = vmap m v) ->
  first_run m q n -> first_run m' q n.
Proof.
  intros Hn H [Ht Ha Hf Hr]. split.
  - done.
  - rewrite H by lia. done.
  - intros v Hv. rewrite H by (Z.div_mod_to_equations; lia). by apply Hf.
  - intros s Hs Hsq. destruct (Hr s Hs Hsq) as (v & Hv & Hne). exists v. split; [done|].
    rewrite H by (Z.div_mod_to_equations; lia). done.
Qed.

Section search.
Context {LY : Layout} {LO : LayoutOk LY} (pdbr : frame) (n : Z).
Context (Hpdbr : vaddr pdbr = sym_page_dir) (Hn : 1 <= n).

(** One entry of a table. *)
Lemma scan_table_round_eq c t va count k : paging (mem k) -> 0 <= c < 1024 -> ~ window c -> 0 <= t < 1024 ->
  scan_table_round pdbr n c (t, va, count) k =
    Ret (match vmap (mem k) (1024 * c + t) with
         | None => if w32 (count + 1) =? n then inr (inr va) else inl (t + 1, va, w32 (count + 1))
         | Some _ => inl (t + 1, 4096 * (1024 * c + t), 0)
         end) k.
Proof.
  intros Hp Hc Hw Ht. unfold scan_table_round. rewrite (proj2 (Z.ltb_lt _ _)) by lia.
  eapply bind_then; [reflexivity|]. rewrite Hpdbr, ka_pde by done. fold (pde (mem k) c).
  destruct (paging_table _ Hp c Hc Hw) as [_ ->].
  eapply bind_then; [reflexivity|]. fold (pte_vaddr c t). rewrite ka_pte by done. fold (pte (mem k) (1024 * c + t)).
  rewrite pres_present, (w16_small (t + 1)) by lia. unfold vmap. destruct (present _); cbn [negb].
  - rewrite w32_small by lia. do 4 f_equal. lia.
  - by case_match.
Qed.

(** The scan of the table stops at the first run with the address of the page
    before it. *)
Lemma wp_scan_table q va0 k : paging (mem k) -> ~ window (q / 1024) -> first_run (mem k) q n ->
  wp (while32 (scan_table_round pdbr n (q / 1024)) (0, va0, 0)) (fun r k' => r = inr (4096 * q) /\ k' = k) k.
Proof.
  intros Hp Hw [[Hq Ht] Ha Hf Hr]. set (c := q / 1024) in *.
  apply (wp_while (fun '(t, va, count) k' => k' = k /\ 0 <= t < 1024 /\
      (if decide (q < 1024 * c + t)
       then va = 4096 * q /\ count = 1024 * c + t - q - 1 /\ count < n
       else 0 <= count < n /\ count <= t /\ forall v, 1024 * c + t - count <= v < 1024 * c + t -> vmap (mem k) v = None))
    (fun '(t, _, _) _ => 1024 - t)).
  - split; [done|]. split; [lia|]. rewrite decide_False by (subst c; Z.div_mod_to_equations; lia).
    split; [lia|]. split; [lia|]. intros; lia.
  - lia.
  - intros [[t va] count] k' (_ & Ht' & _). lia.
  - intros [[t va] count] k' (-> & Ht' & HI). eapply wp_eq; [apply scan_table_round_eq; try done; subst c; Z.div_mod_to_equations; lia|].
    set (v := 1024 * c + t) in *.
    assert (Hqc : 1024 * c <= q < 1024 * c + 1024 - n) by (subst c; Z.div_mod_to_equations; lia).
    destruct (decide (q < v)) as [Hv|Hv].
    + destruct HI as (-> & -> & Hc). rewrite Hf by lia. rewrite w32_small by lia.
      destruct (Z.eqb_spec (v - q - 1 + 1) n); [done|]. split; [|lia]. split; [done|]. split; [lia|].
      rewrite decide_True by lia. lia.
    + destruct HI as (Hc & Hct & Hfree). destruct (vmap (mem k) v) eqn:E.
      * split; [|lia]. split; [done|]. split; [lia|].
        destruct (decide (v = q)) as [Evq|].
        -- rewrite Evq, decide_True by lia. lia.
        -- rewrite decide_False by lia. split; [lia|]. split; [lia|]. intros; lia.
      * assert (v <> q) by congruence. rewrite w32_small by lia.
        assert (Hall : forall v', v - count <= v' < v + 1 -> vmap (mem k) v' = None).
        { intros v' Hv'. destruct (decide (v' = v)) as [->|]; [done|]. apply Hfree. lia. }
        destruct (Z.eqb_spec (count + 1) n) as [Hcn|Hcn].
        -- destruct (Hr (v - count)) as (v' & Hv' & Hne); [lia|lia|]. exfalso. apply Hne, Hall. lia.
        -- split; [|lia]. split; [done|]. split; [lia|]. rewrite decide_False by lia.
           split; [lia|]. split; [lia|]. intros v' Hv'. apply Hall. lia.
Qed.

Lemma alloc_pages_eq q k : paging (mem k) -> ~ window (q / 1024) -> first_run (mem k) q n ->
  pde_index (frames_meta_end_vaddr (g_frames_context k)) = q / 1024 ->
  alloc_pages pdbr n k = Ret (4096 * q) k.
Proof.
  intros Hp Hw Hrun Hi. pose proof (run_table _ _ _ Hrun) as [Hq _].
  assert (Hc : 0 <= q / 1024 < 1024) by (Z.div_mod_to_equations; lia).
  assert (Hpd : pres (pde (mem k) (q / 1024)) && negb (is4m (pde (mem k) (q / 1024))) = true).
  { rewrite pres_present, is4m_large, (proj1 (paging_table _ Hp _ Hc Hw)).
    rewrite (paging_present _ Hp _ Hq Hw); [done|].
    pose proof (run_after _ _ _ Hrun) as Ha. unfold vmap in Ha. by destruct (present _). }
  unfold alloc_pages. eapply bind_then; [reflexivity|]. cbv zeta. rewrite Hi.
  apply (while32_loops _ 0); [|lia]. apply loops_exit. unfold alloc_pages_round.
  rewrite (proj2 (Z.ltb_lt _ _)) by lia.
  eapply bind_then; [reflexivity|]. rewrite Hpdbr, ka_pde by done. fold (pde (mem k) (q / 1024)). rewrite Hpd.
  destruct (wp_elim _ _ _ (wp_scan_table q NULL k Hp Hw Hrun)) as (r & k' & E & -> & ->).
  eapply bind_then; [exact E|]. done.
Qed.
End search.

(** A quiet step before a change of RAM. *)
Lemma quiet_set_mem f k k' : quiet k k' -> quiet (set_mem f k) (set_mem f k').
Proof. intros (evs & d & ->). by exists evs, d. Qed.

Lemma quiet_then_mem k m1 m2 k1 k2 :
  quiet (set_mem (fun _ => m1) k) k1 -> quiet (set_mem (fun _ => m2) k1) k2 -> quiet (set_mem (fun _ => m2) k) k2.
Proof. intros H1 H2. etrans; [exact (quiet_set_mem (fun _ => m2) _ _ H1)|exact H2]. Qed.

Lemma frame_addr_apart {LY : Layout} {LO : LayoutOk LY} fp : frames_ok fp 1 ->
  apart (ka fp + 4) /\ ka (f_addr fp) = ka fp + 4.
Proof.
  intros Hfp. split; [|by apply (ka_frame fp 1)]. destruct Hfp as [_ _ [H1 H2]]. unfold apart. lia.
Qed.

Section map_io.
Context {LY : Layout} {LO : LayoutOk LY} (pdbr : frame) (n fp q base : Z) (k0 : kst).
Context (Hpdbr : vaddr pdbr = sym_page_dir) (Hn : 1 <= n) (Hfp : frames_ok fp 1).
Context (Hw : ~ window (q / 1024)) (Hrun : first_run (mem k0) q n) (Hbase : 0 <= base < 4294967296).

(** After [i] rounds: the pages [q + 1] to [q + i - 1] are mapped, and the local
    frame is at the address of the next page of the device's memory. *)
Record io_mapped (i : Z) (k : kst) : Prop := {
  io_quiet : exists m', quiet (set_mem (fun _ => m') k0) k;
  io_paging : paging (mem k);
  io_frame : rd32 (mem k) (ka fp + 4) = w32 (base + 4096 * i);
  io_vmap v : 0 <= v < 1048576 -> vmap (mem k) v =
    if decide (q < v < q + i) then Some (w32 (base + 4096 * (v - q)) / 4096) else vmap (mem k0) v
}.

Lemma io_mapped_next i k k1 m1 : 0 <= i < n -> io_mapped i k ->
  quiet (set_mem (fun _ => m1) k) k1 ->
  mapped (mem k) m1 (4096 * (q + i)) (ka fp) (if decide (i = 0) then 0 else 1) ->
  io_mapped (i + 1) (set_mem (fun m => wr32 m (ka fp + 4) (w32 (w32 (base + 4096 * i) + 4096))) k1).
Proof.
  intros Hi [(m0 & Hq0) Hp Hf Hv] Hq1 Hm. destruct (frame_addr_apart fp Hfp) as [Hap _].
  pose proof (run_table _ _ _ Hrun) as [Hq Ht].
  assert (Em : mem k1 = m1) by (by apply quiet_mem in Hq1).
  destruct (paging_apart m1 (ka fp + 4) (w32 (w32 (base + 4096 * i) + 4096)) Hap (mapped_paging _ _ _ _ _ Hm)) as [Hp2 Hv2].
  assert (Hdiv : 4096 * (q + i) / 4096 = q + i) by (rewrite Z.mul_comm; by apply Z.div_mul).
  split; cbn [mem set_mem]; rewrite ?Em.
  - exists (wr32 m1 (ka fp + 4) (w32 (w32 (base + 4096 * i) + 4096))). apply (quiet_then_mem _ m0 _ k); [done|].
    exact (quiet_set_mem (fun m => wr32 m (ka fp + 4) (w32 (w32 (base + 4096 * i) + 4096))) _ _ Hq1).
  - exact Hp2.
  - rewrite rd32_wr32_eq, w32_idem, w32_add_l. f_equal. lia.
  - intros v Hv'. rewrite Hv2, (mapped_vmap _ _ _ _ _ Hm), Hdiv, Hv by done.
    destruct (decide (i = 0)) as [->|Hi0].
    + rewrite !decide_False by lia. done.
    + destruct (decide (v = q + i)) as [->|Hne].
      * rewrite !decide_True by lia.
        replace (ka fp + 12 * (q + i - (q + i)) + 4) with (ka fp + 4) by lia.
        rewrite Hf. do 3 f_equal. lia.
      * rewrite (decide_False (P := q + i <= v < q + i + 1)) by lia.
        destruct (decide (q < v < q + i)); [rewrite decide_True by lia|rewrite decide_False by lia]; done.
Qed.

Lemma wp_map_io_loop : io_mapped 0 k0 ->
  wp (while32 (map_io_round fp pdbr (4096 * q) n) 0) (fun _ k' => io_mapped n k') k0.
Proof.
  intros H0. pose proof (run_table _ _ _ Hrun) as [Hq Ht].
  assert (Hqn : q + n < 1048576 /\ forall i, 0 <= i < n -> (q + i) / 1024 = q / 1024) by (split; intros; Z.div_mod_to_equations; lia).
  destruct Hqn as [Hqn Htab].
  apply (wp_while (fun i k => 0 <= i <= n /\ io_mapped i k) (fun i _ => n - i)); [split; [lia|done]|lia|lia|].
  intros i k [Hi HI]. unfold map_io_round. destruct (Z.ltb_spec i n) as [Hlt|Hge].
  2:{ assert (i = n) as -> by lia. wp_go. done. }
  rewrite (w32_small (4096 * q + _)) by (unfold FRAME_SIZE; lia).
  replace (4096 * q + i * FRAME_SIZE) with (4096 * (q + i)) by (unfold FRAME_SIZE; lia).
  assert (Hdiv : 4096 * (q + i) / 4096 = q + i) by (rewrite Z.mul_comm; by apply Z.div_mul).
  apply wp_bind. eapply wp_mono.
  - apply (map_pages_prefix pdbr 1 (Z.lor PF_PRES PF_RW) Hpdbr (4096 * (q + i)) fp (if decide (i = 0) then 0 else 1) k);
      rewrite ?Hdiv; try done; try lia; try apply HI; [by case_decide| |].
    + intros j Hj. case_decide; [lia|]. assert (j = 0) as -> by lia. rewrite Z.add_0_r, Htab by lia.
      split; [done|]. rewrite (io_vmap _ _ HI), decide_False by lia. apply (run_free _ _ _ Hrun). lia.
    + case_decide as Hi0; [|lia]. intros _. right. rewrite Z.add_0_r, (io_vmap _ _ HI), decide_False by lia.
      rewrite Hi0, Z.add_0_r. apply Hrun.
  - cbv beta. intros _ k1 (_ & m1 & evs & Hq1 & Hm). destruct (frame_addr_apart fp Hfp) as [_ Ha]. wp_go.
    assert (Hq2 : quiet (set_mem (fun _ => m1) k) k1) by (etrans; [apply quiet_logged|exact Hq1]).
    assert (Ef : rd32 (mem k1) (ka (f_addr fp)) = w32 (base + 4096 * i)).
    { rewrite (quiet_mem _ _ Hq2), Ha, <- (io_frame _ _ HI). cbn [mem set_mem].
      case_decide as Hi0.
      - destruct (frame_addr_apart fp Hfp) as [Hap _]. apply rd32_ext. intros a Haa. apply (mapped_rest _ _ _ _ _ Hm); unfold apart in Hap; lia.
      - pose proof (mapped_frames _ _ _ _ _ Hm 0 ltac:(lia)) as E. unfold frame_in in E.
        rewrite !Z.add_0_r in E. by injection E. }
    rewrite Ef, Ha, (w32_small (i + 1)) by lia. split; [|lia]. split; [lia|].
    apply (io_mapped_next i k k1 m1); done || lia.
Qed.
End map_io.

Lemma land_page x : 0 <= x < 4294967296 -> Z.land x 0xFFFFF000 = x / 4096 * 4096.
Proof.
  intros Hx. change 0xFFFFF000 with (Z.land (Z.ones 32) (Z.lnot (Z.ones 12))).
  rewrite Z.land_assoc, Z.land_ones, <- Z.ldiff_land, Z.ldiff_ones_r, Z.shiftl_mul_pow2, Z.shiftr_div_pow2 by lia.
  change (2 ^ 12) with 4096. by rewrite Z.mod_small.
Qed.

(** The translations after the loop. *)
Lemma io_mapped_mmu {LY : Layout} {LO : LayoutOk LY} n fp q base k0 k a :
  paging (mem k0) -> ~ window (q / 1024) -> first_run (mem k0) q n ->
  io_mapped fp q (base * 4096) k0 n k -> 0 <= a < 4294967296 ->
  mmu (mem k) kpd a =
    if decide (q < a / 4096 < q + n) then Some (w32 (base * 4096 + 4096 * (a / 4096 - q)) + a mod 4096)
    else mmu (mem k0) kpd a.
Proof.
  intros Hp Hw [[Hq Ht] _ _ _] HI Ha. rewrite !mmu_paging by (done || apply HI).
  rewrite (io_vmap _ _ _ _ _ _ HI) by (Z.div_mod_to_equations; lia).
  destruct (decide (q < a / 4096 < q + n)) as [Hd|Hd]; [|done].
  rewrite decide_False.
  - cbn [fmap option_fmap option_map]. do 2 f_equal. word_lia.
  - change 4194304 with (4096 * 1024). rewrite <- Z.div_div by lia.
    by replace (a / 4096 / 1024) with (q / 1024) by (Z.div_mod_to_equations; lia).
Qed.

(** C29: map_io does not map the first page of the device's memory. When the next
    free run after the frames' descriptions is preceded by a page in use,
    alloc_pages answers that page and not the first of the run; mapping fails
    there, unnoticed, and the other pages of the device are mapped one after
    the other behind it. The address map_io answers lies in the page that was in
    use, which translates as before. *)
Theorem map_io_misses_first_page {LY : Layout} {LO : LayoutOk LY} pdbr fp q ioaddr len k :
  vaddr pdbr = sym_page_dir -> frames_ok fp 1 -> 0 <= ioaddr < 4294967296 -> 0 < len < 4294967296 ->
  let n := pages_of len in
  paging (mem k) -> ~ window (q / 1024) -> first_run (mem k) q n ->
  frames_meta_end_vaddr (g_frames_context k) / 0x400000 = q / 1024 ->
  alloc_pages pdbr n k = Ret (4096 * q) k /\
  ⟨ k ⟩ map_io fp pdbr ioaddr len ⟨ r, k' | r = 4096 * q + ioaddr mod 4096 /\
    (exists pa, mmu (mem k) kpd r = Some pa /\ mmu (mem k') kpd r = Some pa) /\
    (forall a, 0 <= a < 4294967296 -> mmu (mem k') kpd a =
      if decide (q < a / 4096 < q + n) then Some (w32 (ioaddr / 4096 * 4096 + 4096 * (a / 4096 - q)) + a mod 4096)
      else mmu (mem k) kpd a) /\ paging (mem k') ⟩.
Proof.
  intros Hpd Hfp Hio Hlen n Hp Hw Hrun Hfe. pose proof (run_table _ _ _ Hrun) as [Hq Ht].
  assert (Hn : 1 <= n /\ w32 (len / FRAME_SIZE + b2z (0 <? len mod FRAME_SIZE)) = n).
  { split; [apply pages_of_pos; lia|]. apply w32_small. fold (pages_of len). pose proof (pages_of_bound len). lia. }
  destruct Hn as [Hn En].
  assert (Hidx : pde_index (frames_meta_end_vaddr (g_frames_context k)) = q / 1024).
  { unfold pde_index, FOUR_MB. rewrite Hfe. apply w16_small. Z.div_mod_to_equations; lia. }
  split; [by apply alloc_pages_eq|].
  unfold map_io. rewrite En, land_page by done. cbv zeta. wp_go.
  destruct (frame_addr_apart fp Hfp) as [Hap ->].
  match goal with |- wp _ _ ?k1 => set (k1' := k1) end.
  destruct (paging_apart (mem k) (ka fp + 4) (ioaddr / 4096 * 4096) Hap Hp) as [Hp1 Hv1].
  assert (Hrun1 : first_run (mem k1') q n) by (by apply (first_run_ext (mem k))).
  assert (Emmu : forall a, 0 <= a < 4294967296 -> mmu (mem k1') kpd a = mmu (mem k) kpd a).
  { intros a Ha. rewrite !mmu_paging by done. unfold vmap in Hv1 |- *. case_decide; [done|].
    f_equal. apply Hv1. Z.div_mod_to_equations; lia. }
  eapply wp_eq; [by apply alloc_pages_eq|]. apply wp_bind. eapply wp_mono.
  - apply (wp_map_io_loop pdbr n fp q (ioaddr / 4096 * 4096) k1'); try done; [Z.div_mod_to_equations; lia|].
    split; [by exists (mem k1')|done| |].
    + cbn [k1' mem set_mem]. rewrite rd32_wr32_eq. f_equal. lia.
    + intros v _. by rewrite decide_False by lia.
  - cbv beta. intros _ k' HI. wp_go.
    assert (Hm : forall a, 0 <= a < 4294967296 -> mmu (mem k') kpd a =
      if decide (q < a / 4096 < q + n) then Some (w32 (ioaddr / 4096 * 4096 + 4096 * (a / 4096 - q)) + a mod 4096)
      else mmu (mem k) kpd a).
    { intros a Ha. rewrite (io_mapped_mmu n fp q (ioaddr / 4096) k1') by done. by rewrite Emmu. }
    assert (Er : w32 (4096 * q + ioaddr - ioaddr / 4096 * 4096) = 4096 * q + ioaddr mod 4096) by word_lia.
    rewrite Er. split; [done|]. set (r := 4096 * q + ioaddr mod 4096).
    assert (Hr : 0 <= r < 4294967296 /\ r / 4096 = q /\ r / 4194304 = q / 1024)
      by (subst r; Z.div_mod_to_equations; lia).
    destruct Hr as (Hr & Hrq & Hrc). split; [|split; [exact Hm|apply HI]].
    rewrite Hm, Hrq, decide_False by lia. rewrite mmu_paging, Hrc, Hrq, decide_False by done.
    pose proof (run_after _ _ _ Hrun) as Ha. destruct (vmap (mem k) q) as [f|]; [|done]. by eexists.
Qed.

(** A kernel with one page of descriptions of frames: page 788480, the first of
    the frames' window. *)
Definition window_tables (m : ram) : ram :=
  wr32 (wr32 m (0x105000 + 4 * 770) (set_pde_flags 3 (@pde example_layout m 770))) (PT_BASE + 4 * 788480) 0x800003.

Lemma window_tables_paging m : @paging example_layout m -> (forall v, 0 <= v < 1048576 -> vmap m v = None) ->
  @paging example_layout (window_tables m) /\
  forall v, 0 <= v < 1048576 -> vmap (window_tables m) v = if decide (788480 = v) then Some 0x800 else None.
Proof.
  intros Hp Hv. unfold window_tables. change 0x105000 with (@kpd example_layout).
  destruct (@paging_open example_layout example_layout_ok m 770) as [Hp1 Ho]; [done|lia|unfold window; lia|].
  split; [by apply (@paging_set example_layout example_layout_ok)|].
  intros v Hv'. unfold vmap. rewrite pte_wr_pte by lia. case_decide; [reflexivity|].
  rewrite (@pte_wr_pde example_layout example_layout_ok) by lia. by apply Hv.
Qed.

Definition example_io : kst :=
  set_fctx (FrameContext 0xC0011000 0xC0800000 0xC0800C00 256)
    (set_mem (fun _ => window_tables example_tables) (boot_state ∅)).

Lemma example_io_paging : @paging example_layout (mem example_io) /\
  forall v, 0 <= v < 1048576 -> vmap (mem example_io) v = if decide (788480 = v) then Some 0x800 else None.
Proof. exact (window_tables_paging _ (proj1 example_tables_paging) (proj2 example_tables_paging)). Qed.

Lemma map_io_misses_first_page_witness :
  @alloc_pages example_kpd 2 example_io = Ret 0xC0800000 example_io /\
  @wp kst Z (map_io 0xC0200000 example_kpd 0xB8000 8192) (fun r k' =>
    r = 0xC0800000 /\ mmu (mem k') 0x105000 r = Some 0x800000 /\ mmu (mem k') 0x105000 0xC0801000 = Some 0xB9000) example_io.
Proof.
  destruct example_io_paging as [Hp Hv].
  refine ((fun H => conj (proj1 H) _) (@map_io_misses_first_page example_layout example_layout_ok example_kpd 0xC0200000 788480 0xB8000 8192
    example_io eq_refl _ _ _ Hp _ _ eq_refl)).
  - eapply wp_mono; [exact (proj2 H)|]. cbv beta. change (pages_of 8192) with 2.
    change (4096 * 788480 + 0xB8000 mod 4096) with 0xC0800000. intros r k' (-> & _ & Hm & _).
    split; [reflexivity|]. change 0x105000 with (@kpd example_layout). rewrite !Hm by lia. split.
    + rewrite decide_False by (Z.div_mod_to_equations; lia).
      rewrite (@mmu_paging example_layout example_layout_ok) by (exact Hp || lia).
      rewrite decide_False by (unfold window; Z.div_mod_to_equations; lia).
      change (0xC0800000 / 4096) with 788480. rewrite Hv by lia. reflexivity.
    + rewrite decide_True by (Z.div_mod_to_equations; lia). reflexivity.
  - split; [unfold linear; vm_compute; intuition congruence|lia|vm_compute; intuition congruence].
  - lia.
  - lia.
  - vm_compute. intuition congruence.
  - split; [vm_compute; intuition congruence| | |].
    + rewrite Hv by lia. rewrite decide_True by done. discriminate.
    + change (pages_of 8192) with 2. intros v Hv'. rewrite Hv, decide_False by lia. done.
    + change (pages_of 8192) with 2. change (788480 / 1024 * 1024) with 788480. intros; lia.
Defined.
