(* ===== verification/Kmalloc.v ===== *)
(** The allocator (src/kmalloc), over an interface to the segment it manages. *)
From S2P Require Import Prelude Memory State Console Kprintf.
Local Open Scope Z_scope.
Local Open Scope kern_scope.
Local Set Default Proof Using "Type*".

(** * What the allocator uses: the bytes of its segment, sbrk, kprintf, and the
      static variable of get_first_value *)

Class Heap (K : Type) := {
  hload8 : Z -> prog K Z;
  hstore8 : Z -> Z -> prog K unit;
  hload32 : Z -> prog K Z;
  hstore32 : Z -> Z -> prog K unit;
  hsbrk : Z -> prog K Z;
  hkprintf : string -> list arg -> prog K Z;
  get_first : prog K Z;
  put_first : Z -> prog K unit
}.

(** [(void * ) -1]. *)
Definition SBRK_ERROR : Z := w32 (-1).

Definition ERROR_SBRK_MSG : string := "kmalloc/free Error : sbrk() failed" +:+ nl.

(** * includes/mem_infos.h *)

Definition sizeof_mem_infos : Z := 16.
Definition mi_size (p : Z) : Z := p.
Definition mi_is_free (p : Z) : Z := w32 (p + 4).
Definition mi_begin (p : Z) : Z := w32 (p + 8).
Definition mi_next (p : Z) : Z := w32 (p + 12).

Definition sizeof_page_infos : Z := 8.
Definition pi_nb_pages (p : Z) : Z := p.
Definition pi_max_pos (p : Z) : Z := w32 (p + 4).

Definition PAGE_SIZE : Z := FRAME_SIZE.

Section kmalloc.
Context {K : Type} {H : Heap K}.

(** * mem_infos/mem_infos.c *)

Definition get_first_value : prog K Z :=
  first ← get_first;
  if first =? 0
  then
    page_infos ← hsbrk (s32 (sizeof_page_infos + PAGE_SIZE));
    if page_infos =? SBRK_ERROR then mret NULL
    else
      put_first page_infos;;
      hstore32 (pi_nb_pages page_infos) 1;;
      hstore32 (pi_max_pos page_infos) (w32 (page_infos + sizeof_page_infos));;
      get_first
  else mret first.

Definition mem_dump : prog K unit :=
  page_infos ← get_first_value;
  while32 (fun mem_infos =>
    if mem_infos =? 0 then mret (inr tt)
    else
      max_pos ← hload32 (pi_max_pos page_infos);
      if mem_infos <? max_pos
      then
        is_free ← hload32 (mi_is_free mem_infos);
        (if is_free =? FALSE
         then
           begin ← hload32 (mi_begin mem_infos);
           next ← hload32 (mi_next mem_infos);
           size ← hload32 (mi_size mem_infos);
           hkprintf ("%p - %p : %u octets" +:+ nl) [AInt begin; AInt next; AInt size];;
           skip
         else skip);;
        next ← hload32 (mi_next mem_infos);
        mret (inl next)
      else mret (inr tt)) (w32 (page_infos + sizeof_page_infos)).

(** * kmalloc/add_value.c *)

Definition prepare_split_value (min_avaible_place size : Z) : prog K unit :=
  hstore32 (mi_is_free min_avaible_place) FALSE;;
  msize ← hload32 (mi_size min_avaible_place);
  let free_size := s32 (msize - size) in
  if (0 <? free_size) && (sizeof_mem_infos + 1 <=? w32 free_size)
  then
    begin ← hload32 (mi_begin min_avaible_place);
    let mem_infos := w32 (begin + size) in
    hstore32 (mi_begin mem_infos) (w32 (mem_infos + sizeof_mem_infos));;
    hstore32 (mi_is_free mem_infos) TRUE;;
    hstore32 (mi_size mem_infos) (w32 (free_size - sizeof_mem_infos));;
    nsize ← hload32 (mi_size mem_infos);
    hstore32 (mi_next mem_infos) (w32 (mem_infos + sizeof_mem_infos + nsize));;
    hstore32 (mi_size min_avaible_place) size;;
    hstore32 (mi_next min_avaible_place) mem_infos
  else skip.

(** One round of the search: the block looked at and the best one so far. *)
Definition search_round (page_infos size : Z) (x : Z * Z) : prog K (Z * Z + Z) :=
  let '(mem_infos, min_avaible_place) := x in
  if mem_infos =? 0 then mret (inr min_avaible_place)
  else
    max_pos ← hload32 (pi_max_pos page_infos);
    if mem_infos <? max_pos
    then
      is_free ← hload32 (mi_is_free mem_infos);
      min_avaible_place ←
        (if is_free =? TRUE
         then
           msize ← hload32 (mi_size mem_infos);
           if size <=? msize
           then
             if min_avaible_place =? NULL then mret mem_infos
             else
               best ← hload32 (mi_size min_avaible_place);
               mret (if msize <? best then mem_infos else min_avaible_place)
           else mret min_avaible_place
         else mret min_avaible_place);
      next ← hload32 (mi_next mem_infos);
      mret (inl (next, min_avaible_place))
    else mret (inr min_avaible_place).

Definition mem_search_place (size : Z) : prog K Z :=
  page_infos ← get_first_value;
  min_avaible_place ← while32 (search_round page_infos size) (w32 (page_infos + sizeof_page_infos), NULL);
  if negb (min_avaible_place =? NULL)
  then
    prepare_split_value min_avaible_place size;;
    hload32 (mi_begin min_avaible_place)
  else mret NULL.

Definition pagesize_add_update (page_infos size : Z) : prog K Z :=
  max_pos ← hload32 (pi_max_pos page_infos);
  np ← hload32 (pi_nb_pages page_infos);
  let top := w32 (max_pos + sizeof_mem_infos + size) in
  let limit := w32 (page_infos + sizeof_page_infos + w32 (np * PAGE_SIZE)) in
  let nb_pages := if limit <? top then s32 (s32 (w32 (top - limit) / PAGE_SIZE) + 1) else 0 in
  if 0 <? nb_pages
  then
    r ← hsbrk (s32 (nb_pages * PAGE_SIZE));
    if r =? SBRK_ERROR then hkprintf ERROR_SBRK_MSG [];; mret FAILED
    else
      np ← hload32 (pi_nb_pages page_infos);
      hstore32 (pi_nb_pages page_infos) (w32 (np + nb_pages));;
      mret SUCCES
  else mret SUCCES.

Definition mem_add_value (size : Z) : prog K Z :=
  page_infos ← get_first_value;
  if page_infos =? NULL then mret NULL
  else
    ptr ← mem_search_place size;
    if negb (ptr =? NULL) then mret ptr
    else
      st ← pagesize_add_update page_infos size;
      if st =? FAILED then mret NULL
      else
        mem_infos ← hload32 (pi_max_pos page_infos);
        hstore32 (mi_size mem_infos) size;;
        hstore32 (mi_is_free mem_infos) FALSE;;
        hstore32 (mi_begin mem_infos) (w32 (mem_infos + sizeof_mem_infos));;
        begin ← hload32 (mi_begin mem_infos);
        hstore32 (mi_next mem_infos) (w32 (begin + size));;
        next ← hload32 (mi_next mem_infos);
        hstore32 (pi_max_pos page_infos) next;;
        hload32 (mi_begin mem_infos).

(** * kmalloc/kmalloc.c *)

Definition kmalloc (size : Z) : prog K Z :=
  if size =? 0 then mret NULL else mem_add_value size.

(** * free/rm_value.c *)

Definition merge_freed_ptr (page_infos mem_infos before : Z) : prog K Z :=
  max_pos ← hload32 (pi_max_pos page_infos);
  (if mem_infos <? max_pos
   then
     msize ← hload32 (mi_size mem_infos);
     let after := w32 (mem_infos + sizeof_mem_infos + msize) in
     max_pos ← hload32 (pi_max_pos page_infos);
     if after <? max_pos
     then
       is_free ← hload32 (mi_is_free after);
       if is_free =? TRUE
       then
         asize ← hload32 (mi_size after);
         msize ← hload32 (mi_size mem_infos);
         hstore32 (mi_size mem_infos) (w32 (msize + (sizeof_mem_infos + asize)))
       else skip
     else skip
   else skip);;
  if negb (before =? mem_infos)
  then
    is_free ← hload32 (mi_is_free before);
    if is_free =? TRUE
    then
      msize ← hload32 (mi_size mem_infos);
      bsize ← hload32 (mi_size before);
      hstore32 (mi_size before) (w32 (bsize + (sizeof_mem_infos + msize)));;
      mret before
    else mret mem_infos
  else mret mem_infos.

Definition pagesize_rm_update (page_infos mem_infos : Z) : prog K Z :=
  next ← hload32 (mi_next mem_infos);
  max_pos ← hload32 (pi_max_pos page_infos);
  np ← hload32 (pi_nb_pages page_infos);
  let nb_pages :=
    if max_pos <=? next
    then s32 (w32 (page_infos + sizeof_page_infos + w32 (np * PAGE_SIZE) - mem_infos) / PAGE_SIZE)
    else 0 in
  if 0 <? nb_pages
  then
    r ← hsbrk (s32 (- (nb_pages * PAGE_SIZE)));
    if r =? SBRK_ERROR then hkprintf ERROR_SBRK_MSG [];; mret FAILED
    else
      np ← hload32 (pi_nb_pages page_infos);
      hstore32 (pi_nb_pages page_infos) (w32 (np - nb_pages));;
      hstore32 (pi_max_pos page_infos) mem_infos;;
      mret SUCCES
  else mret SUCCES.

(** One round of the walk to the block of [ptr]: the block and the one before. *)
Definition rm_round (page_infos ptr : Z) (x : Z * Z) : prog K (Z * Z + unit) :=
  let '(mem_infos, last) := x in
  if mem_infos =? 0 then mret (inr tt)
  else
    max_pos ← hload32 (pi_max_pos page_infos);
    if mem_infos <? max_pos
    then
      begin ← hload32 (mi_begin mem_infos);
      if begin =? ptr
      then
        mem_infos ← merge_freed_ptr page_infos mem_infos last;
        hstore32 (mi_is_free mem_infos) TRUE;;
        hstore32 (mi_begin mem_infos) (w32 (mem_infos + sizeof_mem_infos));;
        begin ← hload32 (mi_begin mem_infos);
        msize ← hload32 (mi_size mem_infos);
        hstore32 (mi_next mem_infos) (w32 (begin + msize));;
        pagesize_rm_update page_infos mem_infos;;
        mret (inr tt)
      else
        next ← hload32 (mi_next mem_infos);
        mret (inl (next, mem_infos))
    else mret (inr tt).

Definition mem_rm_value (ptr : Z) : prog K unit :=
  page_infos ← get_first_value;
  let mem_infos := w32 (page_infos + sizeof_page_infos) in
  while32 (rm_round page_infos ptr) (mem_infos, mem_infos).

(** * free/free.c, realloc/realloc.c, calloc/calloc.c *)

Definition free (ptr : Z) : prog K unit := mem_rm_value ptr.

Definition realloc (ptr size : Z) : prog K Z :=
  if (size =? 0) && negb (ptr =? NULL) then free ptr;; mret NULL
  else if ptr =? NULL then kmalloc size
  else
    let mem_infos := w32 (ptr - sizeof_mem_infos) in
    msize ← hload32 (mi_size mem_infos);
    if size <=? msize then mret ptr
    else
      new ← kmalloc size;
      if new =? NULL then mret NULL
      else
        msize ← hload32 (mi_size mem_infos);
        memcpy_on hload8 hstore8 new ptr msize;;
        mret new.

Definition calloc (nmemb size : Z) : prog K Z :=
  let total_size := w32 (nmemb * size) in
  new ← kmalloc total_size;
  if new =? NULL then mret NULL
  else
    memset_on hstore8 new 0 total_size;;
    mret new.

End kmalloc.

(** * What the allocator relies on

    The view of a heap: the bytes of its segment [lo, brk), and the static
    variable. Bytes outside the segment have no meaning. *)

Record hview := HView { hv_mem : ram; hv_lo : Z; hv_brk : Z; hv_first : Z }.

Definition inside (v : hview) (a n : Z) : Prop := hv_lo v <= a /\ a + n <= hv_brk v.

(** Views that read alike up to [brk]. *)
Definition same_bytes (v : hview) (brk : Z) (m : ram) : Prop :=
  forall a, hv_lo v <= a < brk -> rd8 (hv_mem v) a = rd8 m a.

Definition view_is (v : hview) (lo brk first : Z) (m : ram) : Prop :=
  hv_lo v = lo /\ hv_brk v = brk /\ hv_first v = first /\ same_bytes v brk m.

Class HeapLaws (K : Type) {H : Heap K} := {
  view : K -> hview;
  law_bounds k : 0 < hv_lo (view k) /\ hv_lo (view k) <= hv_brk (view k) < 4294967296;
  law_load8 k a : inside (view k) a 1 -> hload8 a k = Ret (rd8 (hv_mem (view k)) a) k;
  law_store8 k a v : inside (view k) a 1 -> exists k', hstore8 a v k = Ret tt k' /\
    view_is (view k') (hv_lo (view k)) (hv_brk (view k)) (hv_first (view k)) (wr8 (hv_mem (view k)) a v);
  law_load32 k a : inside (view k) a 4 -> hload32 a k = Ret (rd32 (hv_mem (view k)) a) k;
  law_store32 k a v : inside (view k) a 4 -> exists k', hstore32 a v k = Ret tt k' /\
    view_is (view k') (hv_lo (view k)) (hv_brk (view k)) (hv_first (view k)) (wr32 (hv_mem (view k)) a v);
  (** Growing fails without effect, or gives the former end and keeps the bytes
      below it. *)
  law_grow k n : 0 < n < 2147483648 -> exists r k', hsbrk n k = Ret r k' /\
    ((r = SBRK_ERROR /\ view_is (view k') (hv_lo (view k)) (hv_brk (view k)) (hv_first (view k)) (hv_mem (view k))) \/
     (r = hv_brk (view k) /\ hv_lo (view k') = hv_lo (view k) /\ hv_brk (view k') = hv_brk (view k) + n /\
      hv_first (view k') = hv_first (view k) /\ same_bytes (view k) (hv_brk (view k)) (hv_mem (view k'))));
  (** Giving the end back always works. *)
  law_shrink k n : 0 < n < 2147483648 -> hv_lo (view k) <= hv_brk (view k) - n ->
    exists r k', hsbrk (- n) k = Ret r k' /\ r <> SBRK_ERROR /\
      view_is (view k') (hv_lo (view k)) (hv_brk (view k) - n) (hv_first (view k)) (hv_mem (view k));
  law_kprintf k fmt ap : cstr_ok fmt -> takes (chars fmt) ap -> exists r k', hkprintf fmt ap k = Ret r k' /\
    view_is (view k') (hv_lo (view k)) (hv_brk (view k)) (hv_first (view k)) (hv_mem (view k));
  law_get_first k : get_first k = Ret (hv_first (view k)) k;
  law_put_first k p : exists k', put_first p k = Ret tt k' /\
    view_is (view k') (hv_lo (view k)) (hv_brk (view k)) p (hv_mem (view k))
}.
