(* ===== verification/Blocks.v ===== *)
(** The list of blocks the allocator maintains over any heap that keeps the
    interface's laws: rules for the heap's operations, the list as it lies in
    the segment, the invariant, and the search for the best block. *)
From S2P Require Import Prelude Memory State Console Kprintf Kmalloc.
Local Open Scope Z_scope.
Local Open Scope kern_scope.
Local Set Default Proof Using "Type*".

(** * Rules for the interface *)

Section rules.
Context {K : Type} {H : Heap K} {HL : HeapLaws K}.

(** The segment of [k] is [lo, brk), with the bytes of [m]. *)
Definition heap_at (k : K) (lo brk first : Z) (m : ram) : Prop := view_is (view k) lo brk first m.

Lemma heap_at_bounds k lo brk f m : heap_at k lo brk f m -> 0 < lo /\ lo <= brk < 4294967296.
Proof. intros (<- & <- & _). apply law_bounds. Qed.

Lemma heap_rd32 k lo brk f m a : heap_at k lo brk f m -> lo <= a -> a + 4 <= brk ->
  rd32 (hv_mem (view k)) a = rd32 m a.
Proof.
  intros (Hlo & Hb & _ & Hs) H1 H2. unfold rd32. rewrite !Hs by lia. done.
Qed.

Lemma wp_hload32 k lo brk f m a (Q : Z -> K -> Prop) : heap_at k lo brk f m -> lo <= a -> a + 4 <= brk ->
  Q (rd32 m a) k -> wp (hload32 a) Q k.
Proof.
  intros Hk H1 H2 HQ. eapply wp_eq; [apply law_load32|by erewrite heap_rd32].
  destruct Hk as (<- & <- & _). by split.
Qed.

Lemma wp_hload8 k lo brk f m a (Q : Z -> K -> Prop) : heap_at k lo brk f m -> lo <= a < brk ->
  Q (rd8 m a) k -> wp (hload8 a) Q k.
Proof.
  intros (Hlo & Hb & _ & Hs) H1 HQ. eapply wp_eq; [apply law_load8; unfold inside; lia|].
  by rewrite Hs by lia.
Qed.

Lemma wp_hstore32 k lo brk f m a v (Q : unit -> K -> Prop) : heap_at k lo brk f m -> lo <= a -> a + 4 <= brk ->
  (forall k', heap_at k' lo brk f (wr32 m a v) -> Q tt k') -> wp (hstore32 a v) Q k.
Proof.
  intros (Hlo & Hb & Hf & Hs) H1 H2 HQ.
  destruct (law_store32 k a v) as (k' & E & Hlo' & Hb' & Hf' & Hs'); [unfold inside; lia|].
  eapply wp_eq; [exact E|]. apply HQ. split_and!; [congruence..|].
  intros b Hb2. rewrite Hs' by lia. unfold wr32. rewrite !rd8_wr8, Hs by lia. done.
Qed.

Lemma wp_hstore8 k lo brk f m a v (Q : unit -> K -> Prop) : heap_at k lo brk f m -> lo <= a < brk ->
  (forall k', heap_at k' lo brk f (wr8 m a v) -> Q tt k') -> wp (hstore8 a v) Q k.
Proof.
  intros (Hlo & Hb & Hf & Hs) H1 HQ.
  destruct (law_store8 k a v) as (k' & E & Hlo' & Hb' & Hf' & Hs'); [unfold inside; lia|].
  eapply wp_eq; [exact E|]. apply HQ. split_and!; [congruence..|].
  intros b Hb2. rewrite Hs' by lia. rewrite !rd8_wr8, Hs by lia. done.
Qed.

Lemma wp_grow k lo brk f m n (Q : Z -> K -> Prop) : heap_at k lo brk f m -> 0 < n < 2147483648 ->
  (forall k', heap_at k' lo brk f m -> Q SBRK_ERROR k') ->
  (forall k' m', heap_at k' lo (brk + n) f m' -> (forall a, lo <= a < brk -> rd8 m' a = rd8 m a) -> Q brk k') ->
  wp (hsbrk n) Q k.
Proof.
  intros (Hlo & Hb & Hf & Hs) Hn Hfail Hok.
  destruct (law_grow k n Hn) as (r & k' & E & [(-> & Hlo' & Hb' & Hf' & Hs')|(-> & Hlo' & Hb' & Hf' & Hs')]);
    (eapply wp_eq; [exact E|]).
  - apply Hfail. split_and!; [congruence..|]. intros a Ha. rewrite Hs', Hs by lia. done.
  - rewrite Hb. apply (Hok k' (hv_mem (view k'))); [split_and!; [congruence..|by intros a Ha]|].
    intros a Ha. rewrite <- Hs' by lia. apply Hs. lia.
Qed.

Lemma wp_shrink k lo brk f m n (Q : Z -> K -> Prop) : heap_at k lo brk f m -> 0 < n < 2147483648 ->
  lo <= brk - n -> (forall r k', heap_at k' lo (brk - n) f m -> r <> SBRK_ERROR -> Q r k') ->
  wp (hsbrk (- n)) Q k.
Proof.
  intros (Hlo & Hb & Hf & Hs) Hn Hl Hok.
  destruct (law_shrink k n Hn) as (r & k' & E & Hr & Hlo' & Hb' & Hf' & Hs'); [lia|].
  eapply wp_eq; [exact E|]. apply Hok; [|done]. split_and!; [congruence..|].
  intros a Ha. rewrite Hs', Hs by lia. done.
Qed.

Lemma wp_hkprintf k lo brk f m fmt ap (Q : Z -> K -> Prop) : heap_at k lo brk f m ->
  cstr_ok fmt -> takes (chars fmt) ap -> (forall r k', heap_at k' lo brk f m -> Q r k') ->
  wp (hkprintf fmt ap) Q k.
Proof.
  intros (Hlo & Hb & Hf & Hs) Hok Ht HQ.
  destruct (law_kprintf k fmt ap Hok Ht) as (r & k' & E & Hlo' & Hb' & Hf' & Hs').
  eapply wp_eq; [exact E|]. apply HQ. split_and!; [congruence..|].
  intros a Ha. rewrite Hs', Hs by lia. done.
Qed.

(** The message of a failed sbrk. *)
Lemma wp_error_sbrk k lo brk f m (Q : Z -> K -> Prop) : heap_at k lo brk f m ->
  (forall r k', heap_at k' lo brk f m -> Q r k') -> wp (hkprintf ERROR_SBRK_MSG []) Q k.
Proof.
  intros Hk. apply (wp_hkprintf _ _ _ _ _ _ _ _ Hk).
  - refine (bool_decide_unpack _ _). vm_compute. exact I.
  - vm_compute. exact I.
Qed.

Lemma wp_get_first k lo brk f m (Q : Z -> K -> Prop) : heap_at k lo brk f m -> Q f k -> wp get_first Q k.
Proof. intros (_ & _ & <- & _) HQ. eapply wp_eq; [apply law_get_first|done]. Qed.

Lemma wp_put_first k lo brk f m p (Q : unit -> K -> Prop) : heap_at k lo brk f m ->
  (forall k', heap_at k' lo brk p m -> Q tt k') -> wp (put_first p) Q k.
Proof.
  intros (Hlo & Hb & Hf & Hs) HQ. destruct (law_put_first k p) as (k' & E & Hlo' & Hb' & Hf' & Hs').
  eapply wp_eq; [exact E|]. apply HQ. split_and!; [congruence..|].
  intros a Ha. rewrite Hs', Hs by lia. done.
Qed.

Lemma heap_at_ext k lo brk f m m' : heap_at k lo brk f m ->
  (forall a, lo <= a < brk -> rd8 m' a = rd8 m a) -> heap_at k lo brk f m'.
Proof.
  intros (Hlo & Hb & Hf & Hs) Hm. split_and!; [done..|]. intros a Ha. rewrite Hs, Hm by lia. done.
Qed.
End rules.

(** * The list of blocks *)

(** A block: its size and whether it is free. *)
Notation block := (Z * bool)%type.

(** [blocks m a bl e]: from [a] to [e], [m] holds the headers of [bl], each
    followed by its bytes. *)
Fixpoint blocks (m : ram) (a : Z) (bl : list block) (e : Z) : Prop :=
  match bl with
  | [] => a = e
  | (s, f) :: bl' =>
      0 <= s /\ rd32 m a = s /\ rd32 m (a + 4) = b2z f /\ rd32 m (a + 8) = a + 16 /\
      rd32 m (a + 12) = a + 16 + s /\ blocks m (a + 16 + s) bl' e
  end.

(** The bytes a list of blocks takes, and the address after them. *)
Definition extent (bl : list block) : Z := foldr (fun b n => 16 + b.1 + n) 0 bl.

Lemma extent_cons s f bl : extent ((s, f) :: bl) = 16 + s + extent bl.
Proof. done. Qed.

Lemma extent_one s f : extent [(s, f)] = 16 + s.
Proof. unfold extent. cbn. lia. Qed.

Lemma extent_app bl bl' : extent (bl ++ bl') = extent bl + extent bl'.
Proof.
  induction bl as [|[s f] bl IH]; cbn [app]; rewrite ?extent_cons; [done|]. lia.
Qed.

Definition wf_blocks (bl : list block) : Prop := Forall (fun b => 0 <= b.1) bl.

Lemma blocks_wf m a bl e : blocks m a bl e -> wf_blocks bl /\ e = a + extent bl.
Proof.
  revert a. induction bl as [|[s f] bl IH]; intros a; cbn [blocks].
  - intros ->. split; [constructor|]. unfold extent. cbn. lia.
  - intros (Hs & _ & _ & _ & _ & Hbl). apply IH in Hbl as [Hw ->]. split; [by constructor|].
    rewrite extent_cons. lia.
Qed.

Lemma extent_nonneg bl : wf_blocks bl -> 0 <= extent bl.
Proof. induction 1 as [|[s f] bl Hs Hbl IH]; [done|]. rewrite extent_cons. cbn in Hs. lia. Qed.

Lemma extent_length bl : wf_blocks bl -> 16 * Z.of_nat (length bl) <= extent bl.
Proof. induction 1 as [|[s f] bl Hs Hbl IH]; [done|]. rewrite extent_cons. cbn in *. lia. Qed.

Lemma blocks_app m a bl bl' e : blocks m a (bl ++ bl') e <->
  blocks m a bl (a + extent bl) /\ blocks m (a + extent bl) bl' e.
Proof.
  revert a. induction bl as [|[s f] bl IH]; intros a; cbn [app].
  - unfold extent. cbn. rewrite Z.add_0_r. naive_solver.
  - rewrite extent_cons. cbn [blocks]. rewrite IH.
    replace (a + 16 + s + extent bl) with (a + (16 + s + extent bl)) by lia. naive_solver.
Qed.

(** Only the headers matter. *)
Definition header_at (a : Z) (bl : list block) (b : Z) : Prop :=
  exists pre s f post, bl = pre ++ (s, f) :: post /\ a + extent pre <= b < a + extent pre + 16.

Lemma blocks_ext m m' a bl e : (forall b, header_at a bl b -> rd8 m' b = rd8 m b) ->
  blocks m a bl e -> blocks m' a bl e.
Proof.
  revert a. induction bl as [|[s f] bl IH]; intros a Hm; cbn [blocks]; [done|].
  intros (Hs & H1 & H2 & H3 & H4 & Hbl).
  assert (Hhd : forall b, a <= b < a + 16 -> rd8 m' b = rd8 m b).
  { intros b Hb. apply Hm. exists [], s, f, bl. split; [done|]. unfold extent. cbn. lia. }
  rewrite !(rd32_ext m m') by (intros; apply Hhd; lia). split_and!; try done.
  apply IH; [|done]. intros b (pre & s' & f' & post & -> & Hb). apply Hm.
  exists ((s, f) :: pre), s', f', post. split; [done|]. rewrite extent_cons. lia.
Qed.

Lemma blocks_ext_range m m' a bl e : (forall b, a <= b < e -> rd8 m' b = rd8 m b) ->
  blocks m a bl e -> blocks m' a bl e.
Proof.
  intros Hm Hb. pose proof (blocks_wf _ _ _ _ Hb) as [Hw He]. eapply blocks_ext; [|done].
  intros b (pre & s & f & post & -> & Hr). apply Hm. rewrite extent_app, extent_cons in He.
  apply Forall_app in Hw as [Hw1 [Hs Hw2]%Forall_cons]. cbn in Hs.
  pose proof (extent_nonneg pre Hw1). pose proof (extent_nonneg post Hw2). lia.
Qed.

(** * The search *)

(** The best free block for a size: the smallest that is large enough, the
    first of these; [cur] is the best one before [a]. *)
Fixpoint best_from (a : Z) (bl : list block) (size : Z) (cur : option (Z * Z)) : option (Z * Z) :=
  match bl with
  | [] => cur
  | (s, f) :: bl' =>
      best_from (a + 16 + s) bl' size
        (if f && (size <=? s)
         then match cur with
              | None => Some (a, s)
              | Some (_, b) => if s <? b then Some (a, s) else cur
              end
         else cur)
  end.

Definition cur_ptr (cur : option (Z * Z)) : Z := match cur with Some (t, _) => t | None => NULL end.

(** [fits_in a bl size t s]: the block at [t] of the list is free, has size [s],
    and holds [size] bytes. *)
Definition fits_in (a : Z) (bl : list block) (size t s : Z) : Prop :=
  exists pre post, bl = pre ++ (s, true) :: post /\ t = a + extent pre /\ size <= s.

(** And no block before it that is free and holds them is as small. *)
Definition first_in (a : Z) (bl : list block) (size t s : Z) : Prop :=
  exists pre post, bl = pre ++ (s, true) :: post /\ t = a + extent pre /\ size <= s /\
    Forall (fun b => b.2 = true -> size <= b.1 -> s < b.1) pre.

Lemma best_from_sound a bl size cur t s : best_from a bl size cur = Some (t, s) ->
  cur = Some (t, s) \/ (first_in a bl size t s /\ forall t' s', cur = Some (t', s') -> s < s').
Proof.
  revert a cur. induction bl as [|[s' f] bl IH]; intros a cur Hb; cbn [best_from] in Hb; [by left|].
  destruct (IH _ _ Hb) as [Hc|[(pre & post & -> & -> & Hs & Hpre) Hc]].
  - destruct f, (Z.leb_spec size s'); cbn [andb] in Hc; try by left.
    assert (Hnew : Some (a, s') = Some (t, s) -> first_in a ((s', true) :: bl) size t s).
    { intros [= -> ->]. exists [], bl. split; [done|]. split; [unfold extent; cbn; lia|]. by split; [lia|]. }
    destruct cur as [[? b]|]; [destruct (Z.ltb_spec s' b); [|by left]|]; right; (split; [by auto|]);
      injection Hc as <- <-; by intros ?? [= <- <-].
  - right. split.
    + exists ((s', f) :: pre), post. split; [done|]. split; [rewrite extent_cons; lia|]. split; [done|].
      constructor; [|done]. cbn. intros -> Hle. apply Z.leb_le in Hle. rewrite Hle in Hc. cbn [andb] in Hc.
      destruct cur as [[t0 b]|]; [destruct (Z.ltb_spec s' b)|]; specialize (Hc _ _ eq_refl); lia.
    + intros t0 b ->. destruct (f && (size <=? s')); [|by apply (Hc t0)].
      destruct (Z.ltb_spec s' b); specialize (Hc _ _ eq_refl); lia.
Qed.

Lemma best_from_none a bl size cur : best_from a bl size cur = None ->
  cur = None /\ Forall (fun b => b.2 = true -> b.1 < size) bl.
Proof.
  revert a cur. induction bl as [|[s f] bl IH]; intros a cur Hb; cbn [best_from] in Hb; [done|].
  destruct (IH _ _ Hb) as [Hc Hall].
  destruct f, (Z.leb_spec size s); cbn [andb] in Hc.
  - destruct cur as [[? b]|]; [destruct (s <? b)|]; done.
  - split; [done|]. constructor; [cbn; lia|done].
  - split; [done|]. by constructor.
  - split; [done|]. by constructor.
Qed.

Lemma best_from_least a bl size cur t s : best_from a bl size cur = Some (t, s) ->
  (forall t' s', cur = Some (t', s') -> s <= s') /\ Forall (fun b => b.2 = true -> size <= b.1 -> s <= b.1) bl.
Proof.
  revert a cur. induction bl as [|[s1 f] bl IH]; intros a cur Hb; cbn [best_from] in Hb.
  - subst cur. split; [|constructor]. intros t' s' [= <- <-]. lia.
  - destruct (IH _ _ Hb) as [Hc Hall]. destruct f, (Z.leb_spec size s1); cbn [andb] in Hc.
    + destruct cur as [[t0 b]|].
      * destruct (Z.ltb_spec s1 b).
        -- specialize (Hc _ _ eq_refl). split; [intros ?? [= <- <-]; lia|]. constructor; [cbn; lia|done].
        -- specialize (Hc _ _ eq_refl). split; [intros ?? [= <- <-]; lia|]. constructor; [cbn; lia|done].
      * specialize (Hc _ _ eq_refl). split; [done|]. constructor; [cbn; lia|done].
    + split; [done|]. constructor; [cbn; lia|done].
    + split; [done|]. by constructor.
    + split; [done|]. by constructor.
Qed.

(** * Coalescing, and the bytes in use *)

(** Is the first block free? *)
Definition head_free (bl : list block) : bool := match bl with (_, f) :: _ => f | [] => false end.

(** No two free blocks are next to each other. *)
Fixpoint coalesced (bl : list block) : bool :=
  match bl with
  | [] => true
  | (_, f) :: bl' => negb (f && head_free bl') && coalesced bl'
  end.

(** The bytes up to the end of the last block in use. *)
Fixpoint busy (bl : list block) : Z :=
  match bl with
  | [] => 0
  | (s, f) :: bl' => if f && forallb snd bl' then 0 else 16 + s + busy bl'
  end.

Lemma busy_app bl bl' : busy (bl ++ bl') = if forallb snd bl' then busy bl else extent bl + busy bl'.
Proof.
  induction bl as [|[s f] bl IH]; cbn [app busy].
  - destruct (forallb snd bl') eqn:E; [|done]. destruct bl' as [|[s f] bl']; [done|].
    cbn [forallb snd] in E. cbn [busy]. by rewrite E.
  - rewrite forallb_app, IH, extent_cons. destruct f, (forallb snd bl), (forallb snd bl'); cbn [andb]; lia.
Qed.

Lemma busy_le bl : wf_blocks bl -> 0 <= busy bl <= extent bl.
Proof.
  induction 1 as [|[s f] bl Hs Hbl IH]; [done|]. rewrite extent_cons. cbn [busy]. cbn in Hs.
  destruct (f && forallb snd bl); lia.
Qed.

Lemma coalesced_cons s f bl : coalesced ((s, f) :: bl) = negb (f && head_free bl) && coalesced bl.
Proof. done. Qed.

Lemma coalesced_mid pre s f post : coalesced (pre ++ (s, f) :: post) =
  coalesced (pre ++ [(s, f)]) && coalesced ((s, f) :: post).
Proof.
  induction pre as [|[s0 f0] pre IH]; cbn [app].
  - cbn [coalesced head_free]. by destruct f.
  - rewrite !coalesced_cons, IH. destruct pre as [|[s1 f1] pre]; cbn [app head_free]; by rewrite andb_assoc.
Qed.

(** Only which blocks are free matters. *)
Lemma coalesced_size pre s s' f post : coalesced (pre ++ (s, f) :: post) = coalesced (pre ++ (s', f) :: post).
Proof.
  induction pre as [|[s0 f0] pre IH]; cbn [app]; [done|].
  rewrite !coalesced_cons, IH. by destruct pre as [|[s1 f1] pre].
Qed.

Lemma coalesced_snoc bl s : coalesced (bl ++ [(s, false)]) = coalesced bl.
Proof.
  induction bl as [|[s0 f0] bl IH]; [done|]. cbn [app]. rewrite !coalesced_cons, IH.
  destruct bl as [|[s1 f1] bl]; [|done]. by destruct f0.
Qed.

(** Taking a block keeps the rest coalesced. *)
Lemma coalesced_take pre s s' f post : coalesced (pre ++ (s, f) :: post) = true ->
  coalesced (pre ++ (s', false) :: post) = true.
Proof.
  induction pre as [|[s0 f0] pre IH]; cbn [app]; rewrite !coalesced_cons.
  - by intros [_ ->]%andb_prop.
  - intros [Hh Hc]%andb_prop. rewrite IH by done. destruct pre as [|[s1 f1] pre]; cbn [app head_free] in *.
    + by rewrite andb_false_r.
    + by rewrite Hh.
Qed.

(** * The invariant of the segment *)

(** The segment from [P]: its first two words, then coalesced blocks up to
    max_pos, then room up to the end; at most a page past the last block in
    use. *)
Record heap_inv {K} {H : Heap K} {HL : HeapLaws K} (k : K) (P np : Z) (bl : list block) (m : ram) : Prop := {
  inv_heap : heap_at k P (P + 8 + 4096 * np) P m;
  inv_np : 0 <= np;
  inv_small : 4096 * np < 2147483648;
  inv_nb_pages : rd32 m P = np;
  inv_max_pos : rd32 m (P + 4) = P + 8 + extent bl;
  inv_blocks : blocks m (P + 8) bl (P + 8 + extent bl);
  inv_room : extent bl <= 4096 * np;
  inv_coalesced : coalesced bl = true;
  inv_tail : 4096 * np - busy bl <= 4096
}.

Section search.
Context {K : Type} {H : Heap K} {HL : HeapLaws K}.
Variables (k : K) (P np : Z) (bl : list block) (m : ram).
Hypothesis Hinv : heap_inv k P np bl m.

Lemma inv_bounds : 0 < P /\ P + 8 + 4096 * np < 4294967296 /\ wf_blocks bl /\ 0 <= extent bl <= 4096 * np.
Proof.
  destruct (heap_at_bounds _ _ _ _ _ (inv_heap _ _ _ _ _ Hinv)).
  destruct (blocks_wf _ _ _ _ (inv_blocks _ _ _ _ _ Hinv)) as [Hw _].
  pose proof (extent_nonneg _ Hw). pose proof (inv_room _ _ _ _ _ Hinv). split_and!; done || lia.
Qed.

(** A block of the list, its header and its place. *)
Lemma inv_block pre s f post : bl = pre ++ (s, f) :: post ->
  let a := P + 8 + extent pre in
  0 <= s /\ P + 8 <= a /\ a + 16 + s <= P + 8 + extent bl /\
  rd32 m a = s /\ rd32 m (a + 4) = b2z f /\ rd32 m (a + 8) = a + 16 /\ rd32 m (a + 12) = a + 16 + s /\
  wf_blocks pre /\ wf_blocks post /\ blocks m (P + 8) pre a /\ blocks m (a + 16 + s) post (P + 8 + extent bl).
Proof.
  intros E a. pose proof (inv_blocks _ _ _ _ _ Hinv) as Hb. rewrite E in Hb at 1.
  apply blocks_app in Hb as [Hpre Hb]. fold a in Hpre, Hb.
  cbn [blocks] in Hb. destruct Hb as (Hs & H1 & H2 & H3 & H4 & Hpost).
  destruct (blocks_wf _ _ _ _ Hpre) as [Hw1 _]. destruct (blocks_wf _ _ _ _ Hpost) as [Hw2 He].
  pose proof (extent_nonneg _ Hw1). pose proof (extent_nonneg _ Hw2). 
  split_and!; try done; unfold a in *; lia.
Qed.

(** Reading a word of the part in use. *)
Lemma wp_inv_load a (Q : Z -> K -> Prop) : P <= a -> a + 4 <= P + 8 + 4096 * np ->
  Q (rd32 m a) k -> wp (hload32 a) Q k.
Proof. intros. eapply wp_hload32; [apply Hinv|..]; done. Qed.

Lemma wp_max_pos (Q : Z -> K -> Prop) : Q (P + 8 + extent bl) k -> wp (hload32 (pi_max_pos P)) Q k.
Proof.
  intros HQ. pose proof inv_bounds. pose proof (inv_np _ _ _ _ _ Hinv). unfold pi_max_pos.
  rewrite w32_small by lia.
  apply wp_inv_load; [lia|lia|]. by rewrite (inv_max_pos _ _ _ _ _ Hinv).
Qed.

Lemma wp_nb_pages (Q : Z -> K -> Prop) : Q np k -> wp (hload32 (pi_nb_pages P)) Q k.
Proof.
  intros HQ. pose proof inv_bounds. pose proof (inv_np _ _ _ _ _ Hinv).
  apply wp_inv_load; [unfold pi_nb_pages; lia..|].
  unfold pi_nb_pages. by rewrite (inv_nb_pages _ _ _ _ _ Hinv).
Qed.

(** Reading the header of a block. *)
Lemma wp_header pre s f post : bl = pre ++ (s, f) :: post ->
  let a := P + 8 + extent pre in forall (Q : Z -> K -> Prop),
  (Q s k -> wp (hload32 (mi_size a)) Q k) /\ (Q (b2z f) k -> wp (hload32 (mi_is_free a)) Q k) /\
  (Q (a + 16) k -> wp (hload32 (mi_begin a)) Q k) /\ (Q (a + 16 + s) k -> wp (hload32 (mi_next a)) Q k).
Proof.
  intros E a Q. destruct (inv_block pre s f post E) as (Hs & Ha & He & H1 & H2 & H3 & H4 & _). fold a in Ha, He, H1, H2, H3, H4.
  pose proof inv_bounds as (?&?&?&?). unfold mi_size, mi_is_free, mi_begin, mi_next. rewrite !w32_small by lia.
  split_and!; intros HQ; (apply wp_inv_load; [lia|lia|]); by rewrite ?H1, ?H2, ?H3, ?H4.
Qed.

(** The walk of mem_search_place finds the best block. *)
Lemma wp_search size (Q : Z -> K -> Prop) : 
  Q (cur_ptr (best_from (P + 8) bl size None)) k ->
  wp (while32 (search_round P size) (P + 8, NULL)) Q k.
Proof.
  intros HQ. pose proof inv_bounds as (HP & Hbrk & Hwf & Hext). pose proof (inv_small _ _ _ _ _ Hinv) as Hsm.
  apply (wp_while (fun '(a, min) k' => k' = k /\ exists pre rest cur, bl = pre ++ rest /\
      a = P + 8 + extent pre /\ min = cur_ptr cur /\
      best_from a rest size cur = best_from (P + 8) bl size None /\
      (forall t b, cur = Some (t, b) -> fits_in (P + 8) bl size t b))
    (fun '(a, _) _ => P + 8 + extent bl - a)).
  - split; [done|]. exists [], bl, None. split_and!; try done. unfold extent. cbn. lia.
  - lia.
  - intros [a min] k' (_ & pre & rest & cur & E & -> & _). rewrite E, extent_app.
    rewrite E in Hwf. apply Forall_app in Hwf as [_ Hw]. pose proof (extent_nonneg _ Hw). lia.
  - intros [a min] k' (-> & pre & rest & cur & E & -> & -> & Hbest & Hcur).
    rewrite E in Hwf. apply Forall_app in Hwf as [Hw1 Hw2]. pose proof (extent_nonneg _ Hw1).
    unfold search_round. rewrite (proj2 (Z.eqb_neq _ 0)) by lia.
    apply wp_bind, wp_max_pos. destruct rest as [|[s f] rest].
    + rewrite app_nil_r in E. subst pre. rewrite Z.ltb_irrefl. apply wp_ret.
      cbn [best_from] in Hbest. by rewrite Hbest.
    + destruct (inv_block pre s f rest E) as (Hs & Ha & He & _).
      rewrite (proj2 (Z.ltb_lt _ _)) by lia.
      pose proof (wp_header pre s f rest E) as Hh. cbv zeta in Hh. set (a := P + 8 + extent pre) in *.
      apply wp_bind, Hh. apply wp_bind.
      set (cur' := if f && (size <=? s) then match cur with None => Some (a, s)
        | Some (_, b) => if s <? b then Some (a, s) else cur end else cur).
      enough (Hmid : wp (if b2z f =? TRUE then msize ← hload32 (mi_size a);
          if size <=? msize then if cur_ptr cur =? NULL then mret a
            else best ← hload32 (mi_size (cur_ptr cur)); mret (if msize <? best then a else cur_ptr cur)
          else mret (cur_ptr cur) else mret (cur_ptr cur)) (fun r k' => r = cur_ptr cur' /\ k' = k) k).
      { eapply wp_mono; [exact Hmid|]. cbv beta. intros r k' [-> ->]. apply wp_bind, Hh. apply wp_ret.
        split; [|lia]. split; [done|]. exists (pre ++ [(s, f)]), rest, cur'.
        split; [by rewrite <- app_assoc|]. split; [rewrite extent_app, extent_cons; unfold a, extent; cbn; lia|].
        split; [done|]. split; [exact Hbest|]. intros t b. unfold cur'.
        assert (Hnew : f = true -> size <= s -> Some (a, s) = Some (t, b) -> fits_in (P + 8) bl size t b).
        { intros -> Hsz [= <- <-]. by exists pre, rest. }
        destruct f, (Z.leb_spec size s); cbn [andb]; auto.
        destruct cur as [[t0 b0]|]; [destruct (s <? b0)|]; auto. }
      unfold cur'. destruct f; cbn [b2z andb]; [|by apply wp_ret].
      change (1 =? TRUE) with true. cbn iota. apply wp_bind, Hh.
      destruct (size <=? s); [|by apply wp_ret].
      destruct cur as [[t b]|]; cbn [cur_ptr]; [|by apply wp_ret].
      destruct (Hcur t b eq_refl) as (pre' & post' & E' & Et & Hsz).
      pose proof (wp_header pre' b true post' E') as Hh'. cbv zeta in Hh'. rewrite <- Et in Hh'.
      destruct (inv_block pre' b true post' E') as (_ & Hpa & _). rewrite <- Et in Hpa.
      rewrite (proj2 (Z.eqb_neq t NULL)) by (unfold NULL; lia).
      apply wp_bind, Hh'. apply wp_ret. by destruct (s <? b).
Qed.
End search.
