(* ===== verification/Alloc.v ===== *)
(** kmalloc against the list of blocks: best fit, splitting, growing the
    segment; get_first_value's first use. *)
From S2P Require Import Prelude Memory State Console Kprintf Kmalloc Blocks.
Local Open Scope Z_scope.
Local Open Scope kern_scope.
Local Set Default Proof Using "Type*".

(** * Steps on the segment *)

Ltac rd_simpl := repeat (rewrite rd32_wr32_eq || rewrite rd32_wr32_ne by lia).

(** Words that do not wrap. *)
Ltac words := repeat match goal with |- context [w32 ?x] => rewrite (w32_small x) by lia end.

(** A load or a store at the head of the program, at an address that is in bounds. *)
Ltac hload := apply wp_bind; eapply wp_hload32; [eassumption|lia|lia|]; rd_simpl.
Ltac hstore := apply wp_bind; eapply wp_hstore32; [eassumption|lia|lia|];
  let k := fresh "k" in let Hk := fresh "Hk" in intros k Hk.
Ltac hstore_last := eapply wp_hstore32; [eassumption|lia|lia|];
  let k := fresh "k" in let Hk := fresh "Hk" in intros k Hk.

(** Replacing some blocks by others over the same bytes. *)
Lemma blocks_splice m m' a pre mid mid' post e :
  blocks m a (pre ++ mid ++ post) e -> extent mid' = extent mid ->
  (forall b, b < a + extent pre \/ a + extent pre + extent mid <= b < e -> rd8 m' b = rd8 m b) ->
  blocks m' (a + extent pre) mid' (a + extent pre + extent mid) ->
  blocks m' a (pre ++ mid' ++ post) e.
Proof.
  intros Hb He Hm Hmid. apply blocks_app in Hb as [Hpre Hb]. apply blocks_app in Hb as [Hold Hpost].
  pose proof (blocks_wf _ _ _ _ Hpost) as [Hwp Hee]. pose proof (extent_nonneg _ Hwp).
  pose proof (blocks_wf _ _ _ _ Hold) as [Hwo _]. pose proof (extent_nonneg _ Hwo).
  apply blocks_app. split; [|apply blocks_app; rewrite He; split; [done|]].
  - eapply blocks_ext_range; [|exact Hpre]. intros b Hb. apply Hm. lia.
  - eapply blocks_ext_range; [|exact Hpost]. intros b Hb. apply Hm. lia.
Qed.

(** * Splitting a free block *)

(** A free block of size [s] taken for [size] bytes: split if the rest can hold
    a header and a byte. *)
Definition carve (size s : Z) : list block :=
  if 17 <=? s - size then [(size, false); (s - size - 16, true)] else [(s, false)].

Lemma extent_carve size s : extent (carve size s) = extent [(s, true)].
Proof. unfold carve. destruct (17 <=? s - size); unfold extent; cbn; lia. Qed.

Section alloc.
Context {K : Type} {H : Heap K} {HL : HeapLaws K}.

Lemma carve_inv pre s post size : 0 <= size <= s -> wf_blocks pre -> wf_blocks post ->
  coalesced (pre ++ (s, true) :: post) = true ->
  coalesced (pre ++ carve size s ++ post) = true /\
  busy (pre ++ (s, true) :: post) <= busy (pre ++ carve size s ++ post).
Proof.
  intros Hsz Hw1 Hw2 Hc. pose proof (busy_le _ Hw1). pose proof (extent_nonneg _ Hw1). pose proof (busy_le _ Hw2).
  unfold carve. destruct (Z.leb_spec 17 (s - size)); cbn [app].
  - split.
    + rewrite coalesced_mid in Hc. apply andb_prop in Hc as [Hp Hc].
      rewrite coalesced_mid, (coalesced_take pre s size true []) by done. exact Hc.
    + rewrite !busy_app. cbn [forallb snd busy andb]. destruct (forallb snd post); lia.
  - split; [by eapply coalesced_take|].
    rewrite !busy_app. cbn [forallb snd busy andb]. destruct (forallb snd post); lia.
Qed.

Lemma wp_prepare_split k P np pre s post m size (Q : unit -> K -> Prop) :
  heap_inv k P np (pre ++ (s, true) :: post) m -> 0 < size <= s ->
  let t := P + 8 + extent pre in
  (forall k' m', heap_inv k' P np (pre ++ carve size s ++ post) m' ->
    (forall b, b < t \/ t + 16 <= b < t + 16 + size \/ t + 16 + s <= b -> rd8 m' b = rd8 m b) -> Q tt k') ->
  wp (prepare_split_value t size) Q k.
Proof.
  intros Hinv Hsz t HQ.
  destruct (inv_block _ _ _ _ _ Hinv pre s true post eq_refl)
    as (Hs & Ha & He & H1 & H2 & H3 & H4 & Hw1 & Hw2 & _). fold t in Ha, He, H1, H2, H3, H4.
  pose proof (inv_bounds _ _ _ _ _ Hinv) as (HP & Hbrk & _ & Hext).
  destruct Hinv as [Hk Hnp Hsm Hnb Hmx Hbl Hroom Hco Htail].
  destruct (carve_inv pre s post size ltac:(lia) Hw1 Hw2 Hco) as [Hco' Hbusy].
  assert (Hdone : forall k' m', heap_at k' P (P + 8 + 4096 * np) P m' ->
    (forall b, b < t \/ t + 16 <= b < t + 16 + size \/ t + 16 + s <= b -> rd8 m' b = rd8 m b) ->
    blocks m' t (carve size s) (t + 16 + s) -> Q tt k').
  { intros k' m' Hk' Hout Hc. apply (HQ k' m'); [|done].
    assert (Hx : extent (pre ++ carve size s ++ post) = extent (pre ++ (s, true) :: post))
      by (rewrite !extent_app, extent_carve, extent_cons; unfold extent; cbn; lia).
    split; try done; rewrite ?Hx; try done; try lia.
    - rewrite <- Hnb. apply rd32_ext. intros. apply Hout. lia.
    - rewrite <- Hmx. apply rd32_ext. intros. apply Hout. lia.
    - eapply (blocks_splice m m' _ pre [(s, true)] _ post); [exact Hbl|apply extent_carve|..].
      + rewrite extent_one. intros. apply Hout. lia.
      + fold t. rewrite extent_one, Z.add_assoc. done. }
  unfold prepare_split_value, mi_is_free, mi_size, mi_begin, mi_next, sizeof_mem_infos.
  words. hstore. hload. rewrite H1.
  rewrite s32_small by (unfold INT_MIN; lia).
  assert (Hcond : (0 <? s - size) && (16 + 1 <=? w32 (s - size)) = (17 <=? s - size)).
  { rewrite w32_small by lia. destruct (Z.ltb_spec 0 (s - size)), (Z.leb_spec 17 (s - size)), (Z.leb_spec (16 + 1) (s - size)); lia || done. }
  rewrite Hcond. unfold carve in Hdone. destruct (Z.leb_spec 17 (s - size)).
  - hload. rewrite H3. cbv zeta. words. do 3 hstore. hload. words.
    do 2 hstore. hstore_last. eapply Hdone; [eassumption|..].
    + intros b Hb. rewrite !rd8_wr32_ne by lia. done.
    + cbn [blocks b2z]. rd_simpl. words. rewrite H3. split_and!; try done; lia.
  - apply wp_ret. eapply Hdone; [eassumption|..].
    + intros b Hb. rewrite !rd8_wr32_ne by lia. done.
    + cbn [blocks b2z]. rd_simpl. rewrite H1, H3, H4. split_and!; done || lia.
Qed.

(** * Growing the segment *)

(** The pages a request needs beyond the segment. *)
Definition pages_needed (np ext size : Z) : Z :=
  if 4096 * np <? ext + 16 + size then (ext + 16 + size - 4096 * np) / 4096 + 1 else 0.

(** Sizes for which the sums of kmalloc do not wrap. *)
Definition kmalloc_fits (P np size : Z) : Prop := P + 4096 * np + size + 8192 < 2147483648.

Lemma wp_pagesize_add k P np bl m size (Q : Z -> K -> Prop) :
  heap_inv k P np bl m -> 0 < size -> kmalloc_fits P np size ->
  let np' := np + pages_needed np (extent bl) size in
  (forall k', 0 < pages_needed np (extent bl) size -> heap_at k' P (P + 8 + 4096 * np) P m -> Q FAILED k') ->
  (forall k' m', heap_at k' P (P + 8 + 4096 * np') P m' -> rd32 m' P = np' ->
    (forall b, P + 4 <= b < P + 8 + 4096 * np -> rd8 m' b = rd8 m b) -> Q SUCCES k') ->
  wp (pagesize_add_update P size) Q k.
Proof.
  intros Hinv Hsz Hfit np' Hfail HQ. unfold kmalloc_fits in Hfit.
  pose proof (inv_bounds _ _ _ _ _ Hinv) as (HP & Hbrk & Hwf & Hext).
  pose proof (wp_max_pos _ _ _ _ _ Hinv) as Hmax. pose proof (wp_nb_pages _ _ _ _ _ Hinv) as Hpages.
  destruct Hinv as [Hk Hnp Hsm Hnb Hmx Hbl Hroom Hco Htail].
  unfold pagesize_add_update, sizeof_mem_infos, sizeof_page_infos, PAGE_SIZE, FRAME_SIZE.
  apply wp_bind, Hmax. apply wp_bind, Hpages. cbv zeta.
  rewrite (w32_small (np * 4096)), (w32_small (P + 8 + np * 4096)), (w32_small (P + 8 + extent bl + 16 + size)) by lia.
  replace (P + 8 + np * 4096 <? P + 8 + extent bl + 16 + size) with (4096 * np <? extent bl + 16 + size)
    by (destruct (Z.ltb_spec (4096 * np) (extent bl + 16 + size)), (Z.ltb_spec (P + 8 + np * 4096) (P + 8 + extent bl + 16 + size)); lia || done).
  unfold pages_needed in *. destruct (Z.ltb_spec (4096 * np) (extent bl + 16 + size)).
  2:{ change (0 <? 0) with false. apply wp_ret. apply (HQ k m); [|lia|done].
      unfold np'. by rewrite Z.add_0_r. }
  rewrite (w32_small (_ - _)) by lia.
  replace (P + 8 + extent bl + 16 + size - (P + 8 + np * 4096)) with (extent bl + 16 + size - 4096 * np) by lia.
  set (d := extent bl + 16 + size - 4096 * np) in *. assert (0 <= d / 4096 /\ 4096 * (d / 4096) <= d) by (Z.div_mod_to_equations; lia).
  rewrite (s32_small (d / 4096)), (s32_small (d / 4096 + 1)), (s32_small (_ * 4096)) by (unfold INT_MIN; lia).
  rewrite (proj2 (Z.ltb_lt 0 _)) by lia. apply wp_bind.
  eapply wp_grow; [exact Hk|lia|..].
  - intros k' Hk'. change (SBRK_ERROR =? SBRK_ERROR) with true. cbn iota. apply wp_bind.
    eapply wp_error_sbrk; [exact Hk'|]. intros r k2 Hk2. apply wp_ret. apply Hfail; [lia|done].
  - intros k' m' Hk' Hm'. rewrite (proj2 (Z.eqb_neq _ _)) by (change SBRK_ERROR with 4294967295; lia).
    unfold pi_nb_pages. hload. rewrite (rd32_ext m m') by (intros; apply Hm'; lia). rewrite Hnb.
    apply wp_bind. eapply wp_hstore32; [exact Hk'|lia|lia|]. intros k2 Hk2. apply wp_ret.
    apply (HQ k2 (wr32 m' P (w32 (np + (d / 4096 + 1))))); [|rewrite rd32_wr32_eq, (w32_small (np + _)), w32_small by lia; done|].
    + replace (P + 8 + 4096 * np') with (P + 8 + 4096 * np + (d / 4096 + 1) * 4096) by (unfold np'; lia). exact Hk2.
    + intros b Hb. rewrite rd8_wr32_ne by lia. apply Hm'. lia.
Qed.

(** A block of [size] bytes after the last one, in a segment with room for it. *)
Definition add_block (page_infos size : Z) : prog K Z :=
  mem_infos ← hload32 (pi_max_pos page_infos);
  hstore32 (mi_size mem_infos) size;;
  hstore32 (mi_is_free mem_infos) FALSE;;
  hstore32 (mi_begin mem_infos) (w32 (mem_infos + sizeof_mem_infos));;
  begin ← hload32 (mi_begin mem_infos);
  hstore32 (mi_next mem_infos) (w32 (begin + size));;
  next ← hload32 (mi_next mem_infos);
  hstore32 (pi_max_pos page_infos) next;;
  hload32 (mi_begin mem_infos).

Lemma wp_add_block k P brk m ext size (Q : Z -> K -> Prop) :
  heap_at k P brk P m -> 0 < P -> brk < 4294967296 -> 0 <= ext -> rd32 m (P + 4) = P + 8 + ext ->
  0 < size -> P + 8 + ext + 16 + size <= brk ->
  let t := P + 8 + ext in
  (forall k' m', heap_at k' P brk P m' -> rd32 m' (P + 4) = t + 16 + size ->
    blocks m' t [(size, false)] (t + 16 + size) ->
    (forall b, b < P + 4 \/ P + 8 <= b < t \/ t + 16 <= b -> rd8 m' b = rd8 m b) -> Q (t + 16) k') ->
  wp (add_block P size) Q k.
Proof.
  intros Hk HP Hbrk Hext Hmx Hsz Hroom t HQ. unfold add_block, pi_max_pos, mi_size, mi_is_free, mi_begin, mi_next, sizeof_mem_infos.
  words. hload. rewrite Hmx. fold t. assert (Ht : t = P + 8 + ext) by done. clearbody t.
  words. do 3 hstore. hload. words. hstore. hload. words. hstore.
  eapply wp_hload32; [eassumption|lia|lia|]. rd_simpl. words.
  eapply HQ; [eassumption|..].
  - rd_simpl. by words.
  - cbn [blocks b2z]. rd_simpl. words. split_and!; done || lia.
  - intros b Hb. rewrite !rd8_wr32_ne by lia. done.
Qed.

Lemma append_inv P np bl size : wf_blocks bl -> 0 <= np -> 0 < size -> extent bl <= 4096 * np ->
  4096 * np - busy bl <= 4096 -> let np' := np + pages_needed np (extent bl) size in
  np <= np' /\ extent bl + 16 + size <= 4096 * np' /\ 4096 * np' - busy (bl ++ [(size, false)]) <= 4096 /\
  (kmalloc_fits P np size -> 0 < P -> 4096 * np' < 2147483648 /\ P + 8 + 4096 * np' < 4294967296).
Proof.
  intros Hw Hnp Hsz Hroom Htail np'. pose proof (busy_le _ Hw). rewrite busy_app. cbn [forallb snd busy andb].
  unfold np', pages_needed, kmalloc_fits. case_match; Z.div_mod_to_equations; lia.
Qed.

(** * kmalloc *)

(** kmalloc takes the best free block, or a new one at the end, or fails. *)
Definition kmalloc_result (P np : Z) (bl : list block) (m : ram) (size : Z) (r : Z) (k' : K) : Prop :=
  (exists pre s post m', bl = pre ++ (s, true) :: post /\ size <= s /\
     r = P + 8 + extent pre + 16 /\
     Forall (fun b => b.2 = true -> size <= b.1 -> s <= b.1) bl /\
     Forall (fun b => b.2 = true -> size <= b.1 -> s < b.1) pre /\
     heap_inv k' P np (pre ++ carve size s ++ post) m' /\
     (forall b, b < r - 16 \/ r <= b < r + size \/ r + s <= b -> rd8 m' b = rd8 m b)) \/
  (Forall (fun b => b.2 = true -> b.1 < size) bl /\
   let np' := np + pages_needed np (extent bl) size in
   (exists m', r = P + 8 + extent bl + 16 /\ heap_inv k' P np' (bl ++ [(size, false)]) m' /\
     (forall b, P + 8 <= b < P + 8 + extent bl -> rd8 m' b = rd8 m b)) \/
   (r = NULL /\ 0 < pages_needed np (extent bl) size /\ heap_inv k' P np bl m)).

Lemma wp_mem_search_place k P np bl m size (Q : Z -> K -> Prop) :
  heap_inv k P np bl m -> 0 < size ->
  (forall t b, best_from (P + 8) bl size None = Some (t, b) -> forall pre post k' m',
    bl = pre ++ (b, true) :: post -> t = P + 8 + extent pre -> size <= b ->
    Forall (fun c => c.2 = true -> size <= c.1 -> b < c.1) pre ->
    heap_inv k' P np (pre ++ carve size b ++ post) m' ->
    (forall c, c < t \/ t + 16 <= c < t + 16 + size \/ t + 16 + b <= c -> rd8 m' c = rd8 m c) ->
    Q (t + 16) k') ->
  (best_from (P + 8) bl size None = None -> Q NULL k) ->
  wp (mem_search_place size) Q k.
Proof.
  intros Hinv Hsz Hfit Hnone. pose proof (inv_bounds _ _ _ _ _ Hinv) as (HP & Hbrk & Hwf & Hext).
  unfold mem_search_place. apply wp_bind. unfold get_first_value. apply wp_bind.
  eapply wp_get_first; [apply Hinv|]. rewrite (proj2 (Z.eqb_neq P 0)) by lia. apply wp_ret.
  pose proof (inv_np _ _ _ _ _ Hinv). apply wp_bind. unfold sizeof_page_infos. words.
  apply (wp_search _ _ _ _ _ Hinv). destruct (best_from (P + 8) bl size None) as [[t b]|] eqn:E; cbn [cur_ptr].
  2:{ change (NULL =? NULL) with true. apply wp_ret. by apply Hnone. }
  destruct (best_from_sound _ _ _ _ _ _ E) as [|[(pre & post & Ebl & Et & Hb & Hfirst) _]]; [done|].
  subst t. destruct (inv_block _ _ _ _ _ Hinv pre b true post Ebl) as (Hb0 & _ & He & _).
  assert (Hw : wf_blocks pre) by (rewrite Ebl in Hwf; by apply Forall_app in Hwf as [? _]).
  pose proof (extent_nonneg _ Hw).
  rewrite (proj2 (Z.eqb_neq _ NULL)) by (unfold NULL; lia). cbn [negb]. rewrite Ebl in Hinv. apply wp_bind.
  eapply wp_prepare_split; [exact Hinv|done|]. intros k' m' Hinv' Hm'.
  assert (Hbeg : exists s', carve size b ++ post = (s', false) :: tail (carve size b) ++ post)
    by (unfold carve; destruct (17 <=? b - size); eauto).
  destruct Hbeg as [s' Hc]. assert (Hinv2 := Hinv'). rewrite Hc in Hinv2.
  apply (wp_header _ _ _ _ _ Hinv2 pre s' false _ eq_refl). by eapply Hfit.
Qed.

(** The rest of mem_add_value, once the segment is there. *)
Definition mem_add_from (size page_infos : Z) : prog K Z :=
  if page_infos =? NULL then mret NULL
  else
    ptr ← mem_search_place size;
    if negb (ptr =? NULL) then mret ptr
    else
      st ← pagesize_add_update page_infos size;
      if st =? FAILED then mret NULL else add_block page_infos size.

Lemma wp_mem_add_from k P np bl m size :
  heap_inv k P np bl m -> 0 < size -> kmalloc_fits P np size ->
  wp (mem_add_from size P) (kmalloc_result P np bl m size) k.
Proof.
  intros Hinv Hsz Hfit. pose proof (inv_bounds _ _ _ _ _ Hinv) as (HP & Hbrk & Hwf & Hext).
  destruct (append_inv P np bl size Hwf (inv_np _ _ _ _ _ Hinv) Hsz (inv_room _ _ _ _ _ Hinv) (inv_tail _ _ _ _ _ Hinv))
    as (Hn1 & Hn2 & Hn3 & Hn4). specialize (Hn4 Hfit HP).
  unfold mem_add_from. rewrite (proj2 (Z.eqb_neq P NULL)) by (unfold NULL; lia). apply wp_bind.
  apply (wp_mem_search_place _ _ _ _ _ _ _ Hinv Hsz).
  - intros t b Hbest pre post k' m' Ebl -> Hb Hfirst Hinv' Hm'.
    assert (Hw : wf_blocks pre) by (rewrite Ebl in Hwf; by apply Forall_app in Hwf as [? _]).
    pose proof (extent_nonneg _ Hw).
    rewrite (proj2 (Z.eqb_neq _ NULL)) by (unfold NULL; lia). apply wp_ret. left.
    exists pre, b, post, m'. split_and!; try done.
    + by apply (best_from_least _ _ _ _ _ _ Hbest).
    + intros c Hc. apply Hm'. lia.
  - intros Hbest. destruct (best_from_none _ _ _ _ Hbest) as [_ Hall].
    change (negb (NULL =? NULL)) with false. cbn iota. apply wp_bind.
    apply (wp_pagesize_add _ _ _ _ _ _ _ Hinv Hsz Hfit).
    + intros k' Hpos Hk'. change (FAILED =? FAILED) with true. apply wp_ret. right. split; [done|]. right.
      split; [done|]. split; [done|]. by destruct Hinv.
    + intros k' m' Hk' Hnp' Hm'. change (SUCCES =? FAILED) with false. cbn iota.
      destruct Hinv as [Hk Hnp Hsm Hnb Hmx Hbl Hroom Hco Htail].
      apply (wp_add_block _ _ _ _ (extent bl) _ _ Hk'); try done; try lia.
      { rewrite <- Hmx. apply rd32_ext. intros. apply Hm'. lia. }
      intros k2 m2 Hk2 Hmx2 Hbl2 Hm2. right. split; [done|]. left. exists m2. split; [done|]. split.
      * assert (Hx : extent (bl ++ [(size, false)]) = extent bl + 16 + size) by (rewrite extent_app, extent_one; lia).
        split; rewrite ?Hx; try done; try lia.
        -- rewrite <- Hnp'. apply rd32_ext. intros. apply Hm2. lia.
        -- apply blocks_app. rewrite !Z.add_assoc. split; [|done].
           eapply blocks_ext_range; [|exact Hbl]. intros b Hb. rewrite Hm2, Hm' by lia. done.
        -- by rewrite coalesced_snoc.
      * intros b Hb. rewrite Hm2, Hm' by lia. done.
Qed.

(** get_first_value on a segment that is there. *)
Lemma wp_get_first_value k P np bl m (Q : Z -> K -> Prop) : heap_inv k P np bl m -> Q P k ->
  wp get_first_value Q k.
Proof.
  intros Hinv HQ. pose proof (inv_bounds _ _ _ _ _ Hinv) as (HP & _). unfold get_first_value.
  apply wp_bind. eapply wp_get_first; [apply Hinv|]. rewrite (proj2 (Z.eqb_neq P 0)) by lia. by apply wp_ret.
Qed.

Lemma wp_kmalloc k P np bl m size :
  heap_inv k P np bl m -> 0 < size -> kmalloc_fits P np size ->
  wp (kmalloc size) (kmalloc_result P np bl m size) k.
Proof.
  intros Hinv Hsz Hfit. unfold kmalloc. rewrite (proj2 (Z.eqb_neq size 0)) by lia.
  change (mem_add_value size) with (page_infos ← get_first_value; mem_add_from size page_infos).
  apply wp_bind. eapply wp_get_first_value; [exact Hinv|]. by apply wp_mem_add_from.
Qed.

(** The first call makes a segment of one page, or finds no memory. *)
Lemma wp_get_first_fresh k P m (Q : Z -> K -> Prop) : heap_at k P P 0 m -> P + 4104 < 4294967296 ->
  (forall k', heap_at k' P P 0 m -> Q NULL k') ->
  (forall k' m', heap_inv k' P 1 [] m' -> Q P k') -> wp get_first_value Q k.
Proof.
  intros Hk HP Hfail HQ. destruct (heap_at_bounds _ _ _ _ _ Hk) as [HP0 _].
  unfold get_first_value. apply wp_bind. eapply wp_get_first; [exact Hk|]. change (0 =? 0) with true. cbn iota.
  change (s32 (sizeof_page_infos + PAGE_SIZE)) with 4104. apply wp_bind.
  eapply wp_grow; [exact Hk|lia|..].
  - intros k' Hk'. change (SBRK_ERROR =? SBRK_ERROR) with true. apply wp_ret. by apply Hfail.
  - intros k' m' Hk' _. rewrite (proj2 (Z.eqb_neq P SBRK_ERROR)) by (change SBRK_ERROR with 4294967295; lia).
    apply wp_bind. eapply wp_put_first; [exact Hk'|]. intros k2 Hk2.
    unfold pi_nb_pages, pi_max_pos, sizeof_page_infos. words. do 2 hstore.
    eapply wp_get_first; [eassumption|]. eapply HQ. split; try done; try lia.
    + replace (P + 8 + 4096 * 1) with (P + 4104) by lia. eassumption.
    + rd_simpl. done.
    + rd_simpl. change (extent []) with 0. words. lia.
    + change (extent []) with 0. cbn [blocks]. lia.
Qed.
End alloc.
