(* ===== verification/Release.v ===== *)
(** free against the list of blocks: joining with the free neighbours, giving
    the pages at the end back. *)
From S2P Require Import Prelude Memory State Console Kprintf Kmalloc Blocks Alloc.
Local Open Scope Z_scope.
Local Open Scope kern_scope.
Local Set Default Proof Using "Type*".

(** * Joining *)

(** A freed block of size [s] takes in the next block if it is free. *)
Definition absorb_next (s : Z) (post : list block) : Z * list block :=
  match post with (s', true) :: post' => (s + (16 + s'), post') | _ => (s, post) end.

(** Then the previous one takes it in, if that is free. *)
Definition joined (pre : list block) (s : Z) (post : list block) : list block * Z * list block :=
  let '(s1, post1) := absorb_next s post in
  match reverse pre with
  | (s0, true) :: r => (reverse r, s0 + (16 + s1), post1)
  | _ => (pre, s1, post1)
  end.

(** Is the last block free? *)
Definition last_free (bl : list block) : bool := match reverse bl with (_, f) :: _ => f | [] => false end.

Lemma last_free_snoc bl s f : last_free (bl ++ [(s, f)]) = f.
Proof. unfold last_free. by rewrite reverse_snoc. Qed.

(** A list is empty or has a last block. *)
Lemma snoc_inv (bl : list block) : bl = [] \/ exists q s f, bl = q ++ [(s, f)].
Proof. destruct bl as [|x q] using rev_ind; [by left|]. destruct x as [s f]. eauto. Qed.

Lemma coalesced_app bl bl' :
  coalesced (bl ++ bl') = coalesced bl && coalesced bl' && negb (last_free bl && head_free bl').
Proof.
  induction bl as [|[s f] bl IH]; cbn [app]; [by rewrite andb_true_r|].
  rewrite !coalesced_cons, IH. destruct (snoc_inv bl) as [->|(q & s1 & f1 & ->)].
  - cbn [app head_free]. change (last_free [(s, f)]) with f. change (last_free []) with false.
    change (coalesced []) with true. cbn. by destruct f, (head_free bl'), (coalesced bl').
  - change ((s, f) :: q ++ [(s1, f1)]) with (((s, f) :: q) ++ [(s1, f1)]). rewrite !last_free_snoc.
    assert (Hh : head_free ((q ++ [(s1, f1)]) ++ bl') = head_free (q ++ [(s1, f1)])) by (by destruct q as [|[]]).
    rewrite Hh, !andb_assoc. done.
Qed.

Lemma busy_full bl : last_free bl = false -> busy bl = extent bl.
Proof.
  destruct (snoc_inv bl) as [->|(q & s & f & ->)]; [done|]. rewrite last_free_snoc. intros ->.
  rewrite busy_app, extent_app, extent_one. cbn [forallb snd andb busy]. lia.
Qed.

Lemma joined_nil s post : joined [] s post = ([], fst (absorb_next s post), snd (absorb_next s post)).
Proof. unfold joined. by destruct (absorb_next s post). Qed.

Lemma joined_snoc q s0 f0 s post : joined (q ++ [(s0, f0)]) s post =
  if f0 then (q, s0 + (16 + fst (absorb_next s post)), snd (absorb_next s post))
  else (q ++ [(s0, f0)], fst (absorb_next s post), snd (absorb_next s post)).
Proof.
  unfold joined. rewrite reverse_snoc. destruct (absorb_next s post), f0; [|done].
  by rewrite reverse_involutive.
Qed.

Lemma absorb_covers s post : exists r, post = r ++ snd (absorb_next s post) /\
  fst (absorb_next s post) = s + extent r /\ (r = [] \/ exists s1, r = [(s1, true)]) /\
  (coalesced post = true -> coalesced (snd (absorb_next s post)) = true /\ head_free (snd (absorb_next s post)) = false).
Proof.
  destruct post as [|[s1 [|]] post]; cbn [absorb_next fst snd].
  - exists []. change (extent []) with 0. split_and!; auto; lia.
  - exists [(s1, true)]. rewrite extent_one. split_and!; eauto; try lia.
    rewrite coalesced_cons. intros [Hh Hc]%andb_prop. split; [done|]. by destruct (head_free post).
  - exists []. change (extent []) with 0. split_and!; auto; lia.
Qed.

(** What the joined block covers: the freed block and free ones. The result is
    coalesced. *)
Lemma joined_covers pre s f post pre' s' post' : joined pre s post = (pre', s', post') ->
  coalesced (pre ++ (s, f) :: post) = true ->
  coalesced (pre' ++ (s', true) :: post') = true /\ last_free pre' = false /\ head_free post' = false /\
  exists l r, pre = pre' ++ l /\ post = r ++ post' /\ 16 + s' = extent l + (16 + s) + extent r /\
    (l = [] \/ exists s0, l = [(s0, true)]) /\ (r = [] \/ exists s1, r = [(s1, true)]).
Proof.
  intros E. rewrite coalesced_app, coalesced_cons. intros [[Hp [_ Hc]%andb_prop]%andb_prop _]%andb_prop.
  destruct (absorb_covers s post) as (r & Er & Es & Hr & Hco). destruct (Hco Hc) as [Hc' Hh].
  assert (Hlf : coalesced pre' = true -> last_free pre' = false -> snd (absorb_next s post) = post' ->
    coalesced (pre' ++ (s', true) :: post') = true).
  { intros H1 H2 <-. rewrite coalesced_app, coalesced_cons, H1, H2, Hh. cbn [andb negb]. by rewrite Hc'. }
  destruct (snoc_inv pre) as [->|(q & s0 & f0 & ->)].
  - rewrite joined_nil in E. injection E as <- <- <-. split; [by apply Hlf|]. split; [done|]. split; [done|].
    exists [], r. change (extent []) with 0. split_and!; auto; lia.
  - rewrite joined_snoc in E. rewrite coalesced_app in Hp. apply andb_prop in Hp as [[Hq _]%andb_prop Hlast].
    cbn [head_free] in Hlast. destruct f0; injection E as <- <- <-.
    + assert (Hlq : last_free q = false) by (by destruct (last_free q)). split; [by apply Hlf|]. split; [done|].
      split; [done|]. exists [(s0, true)], r. rewrite extent_one. split_and!; eauto; lia.
    + assert (Hl : last_free (q ++ [(s0, false)]) = false) by apply last_free_snoc.
      split; [apply Hlf; [by rewrite coalesced_snoc|done|done]|]. split; [done|]. split; [done|].
      exists [], r. rewrite app_nil_r. change (extent []) with 0. split_and!; auto; lia.
Qed.

Lemma joined_extent pre s f post pre' s' post' : joined pre s post = (pre', s', post') ->
  coalesced (pre ++ (s, f) :: post) = true ->
  extent (pre' ++ (s', true) :: post') = extent (pre ++ (s, f) :: post) /\
  (post' <> [] -> busy (pre' ++ (s', true) :: post') = busy (pre ++ (s, f) :: post)).
Proof.
  intros E Hc. destruct (joined_covers _ _ _ _ _ _ _ E Hc) as (_ & _ & Hh & l & r & -> & -> & Hx & _).
  assert (Heq : extent (pre' ++ [(s', true)]) = extent (pre' ++ l ++ (s, f) :: r))
    by (rewrite extent_app, extent_one, !extent_app, extent_cons; lia).
  replace ((pre' ++ l) ++ (s, f) :: r ++ post') with ((pre' ++ l ++ (s, f) :: r) ++ post')
    by (rewrite <- !app_assoc; done).
  replace (pre' ++ (s', true) :: post') with ((pre' ++ [(s', true)]) ++ post') by (rewrite <- app_assoc; done).
  rewrite (extent_app _ post'), (extent_app _ post'), Heq. split; [done|]. intros Hne.
  assert (Hf : forallb snd post' = false) by (destruct post' as [|[? []]]; done).
  rewrite !(busy_app _ post'), Hf, Heq. done.
Qed.

(** The pages that are given back, and the blocks that are left. *)
Definition free_block (np : Z) (pre : list block) (s : Z) (post : list block) : Z * list block :=
  let '(pre', s', post') := joined pre s post in
  let n := match post' with [] => (4096 * np - extent pre') / 4096 | _ => 0 end in
  if 0 <? n then (np - n, pre') else (np, pre' ++ (s', true) :: post').

(** * The code of free *)

(** The block before the one after [pre], or that block if it is the first. *)
Definition before (P : Z) (pre : list block) : Z :=
  match reverse pre with [] => P + 8 | _ :: r => P + 8 + extent (reverse r) end.

Lemma before_snoc P q s f : before P (q ++ [(s, f)]) = P + 8 + extent q.
Proof. unfold before. by rewrite reverse_snoc, reverse_involutive. Qed.

Section release.
Context {K : Type} {H : Heap K} {HL : HeapLaws K}.
Variables (k : K) (P np : Z) (pre : list block) (s : Z) (f : bool) (post : list block) (m : ram).
Hypothesis Hinv : heap_inv k P np (pre ++ (s, f) :: post) m.
Local Notation a := (P + 8 + extent pre).
Local Notation brk := (P + 8 + 4096 * np).

Lemma release_facts : 0 < P /\ brk < 4294967296 /\ 0 <= s /\ 0 <= extent pre /\ 0 <= extent post /\
  extent (pre ++ (s, f) :: post) = extent pre + 16 + s + extent post /\ extent pre + 16 + s + extent post <= 4096 * np /\
  rd32 m a = s /\ wf_blocks pre /\ wf_blocks post.
Proof.
  destruct (inv_block _ _ _ _ _ Hinv pre s f post eq_refl) as (Hs & _ & _ & H1 & _ & _ & _ & Hw1 & Hw2 & _).
  pose proof (inv_bounds _ _ _ _ _ Hinv) as (HP & Hbrk & _ & Hext).
  pose proof (extent_nonneg _ Hw1). pose proof (extent_nonneg _ Hw2).
  rewrite extent_app, extent_cons in *. split_and!; try done; lia.
Qed.

(** The block takes in the next one. *)
Lemma wp_merge_next (Q : unit -> K -> Prop) :
  (forall k' m', heap_at k' P brk P m' -> rd32 m' a = fst (absorb_next s post) ->
    (forall b, b < a \/ a + 4 <= b -> rd8 m' b = rd8 m b) -> Q tt k') ->
  wp (if a <? P + 8 + extent (pre ++ (s, f) :: post)
      then
        msize ← hload32 (mi_size a);
        let after := w32 (a + sizeof_mem_infos + msize) in
        max_pos ← hload32 (pi_max_pos P);
        if after <? max_pos
        then
          is_free ← hload32 (mi_is_free after);
          if is_free =? TRUE
          then
            asize ← hload32 (mi_size after);
            msize ← hload32 (mi_size a);
            hstore32 (mi_size a) (w32 (msize + (sizeof_mem_infos + asize)))
          else skip
        else skip
      else skip) Q k.
Proof.
  intros HQ. pose proof release_facts as (HP & Hbrk & Hs & Hpre & Hpost & Hx & Hroom & H1 & Hwpre & Hwpost).
  pose proof (wp_max_pos _ _ _ _ _ Hinv) as Hmax. rewrite Hx in *.
  assert (Hk : heap_at k P brk P m) by apply Hinv.
  pose proof (wp_header _ _ _ _ _ Hinv pre s f post eq_refl) as Hh. cbv zeta in Hh.
  pose proof (fun s1 f1 q (E : post = (s1, f1) :: q) =>
    wp_header _ _ _ _ _ Hinv (pre ++ [(s, f)]) s1 f1 q ltac:(rewrite E, <- app_assoc; done)) as Hh'.
  cbv zeta in Hh'. rewrite extent_app, extent_one, !Z.add_assoc in Hh'.
  remember (P + 8 + extent pre) as a eqn:Ea.
  replace (P + 8 + (extent pre + 16 + s + extent post)) with (a + 16 + s + extent post) in * by lia.
  rewrite (proj2 (Z.ltb_lt a _)) by lia. apply wp_bind, Hh. cbv zeta.
  unfold sizeof_mem_infos. rewrite (w32_small (a + 16 + s)) by lia. apply wp_bind, Hmax.
  destruct post as [|[s1 f1] q].
  { change (extent []) with 0. rewrite (proj2 (Z.ltb_ge _ _)) by lia. apply wp_ret. by eapply HQ. }
  rewrite extent_cons in *. assert (0 <= s1 /\ 0 <= extent q) as [Hs1 Hq].
  { apply Forall_cons in Hwpost as [? Hw]. split; [done|by apply extent_nonneg]. }
  rewrite (proj2 (Z.ltb_lt _ _)) by lia. apply wp_bind, (Hh' s1 f1 q eq_refl).
  destruct f1; cbn [b2z absorb_next fst] in *.
  2:{ change (0 =? TRUE) with false. apply wp_ret. by eapply HQ. }
  change (1 =? TRUE) with true. apply wp_bind, (Hh' s1 true q eq_refl). apply wp_bind, Hh.
  unfold mi_size. eapply wp_hstore32; [exact Hk|lia|lia|]. intros k' Hk'. eapply HQ; [exact Hk'|..].
  - rewrite rd32_wr32_eq. by rewrite w32_idem, w32_small by lia.
  - intros b Hb. by rewrite rd8_wr32_ne by lia.
Qed.

(** The previous block takes it in. *)
Lemma wp_merge pre' s' post' (Q : Z -> K -> Prop) : joined pre s post = (pre', s', post') ->
  let r := P + 8 + extent pre' in
  (forall k' m', heap_at k' P brk P m' -> rd32 m' r = s' ->
    (forall b, b < r \/ r + 16 + s' <= b -> rd8 m' b = rd8 m b) -> Q r k') ->
  wp (merge_freed_ptr P a (before P pre)) Q k.
Proof.
  intros E r HQ. pose proof release_facts as (HP & Hbrk & Hs & Hpre & Hpost & Hx & Hroom & H1 & Hwpre & Hwpost).
  destruct (absorb_covers s post) as (rr & Er & Es & Hr & _).
  assert (0 <= extent rr /\ extent rr <= extent post) as [Hrr1 Hrr2].
  { pose proof Hwpost as Hw. rewrite Er in Hw. apply Forall_app in Hw as [Hw1 Hw2].
    split; [by apply extent_nonneg|]. rewrite Er, extent_app.
    pose proof (extent_nonneg _ Hw2). lia. }
  unfold merge_freed_ptr. apply wp_bind, (wp_max_pos _ _ _ _ _ Hinv). apply wp_bind, wp_merge_next. intros k1 m1 Hk1 Hs1 Hm1.
  destruct (snoc_inv pre) as [->|(q & s0 & f0 & ->)].
  - rewrite joined_nil in E. injection E as <- <- <-. unfold before. cbn [reverse rev_append].
    change (reverse (@nil block)) with (@nil block). cbn iota. change (extent []) with 0 in *.
    rewrite Z.add_0_r, Z.eqb_refl. cbn [negb]. apply wp_ret. unfold r in *. rewrite Z.add_0_r in *.
    eapply HQ; [exact Hk1|done|]. intros b Hb. apply Hm1. lia.
  - rewrite joined_snoc in E. rewrite before_snoc. rewrite extent_app, extent_one in *.
    destruct (inv_block _ _ _ _ _ Hinv q s0 f0 ((s, f) :: post)) as (Hs0 & _ & _ & H2 & H3 & _);
      [by rewrite <- app_assoc|].
    apply Forall_app in Hwpre as [Hwq _]. pose proof (extent_nonneg _ Hwq).
    assert (Ea : P + 8 + (extent q + (16 + s0)) = P + 8 + extent q + 16 + s0) by lia. rewrite Ea in *. clear Ea.
    rewrite (proj2 (Z.eqb_neq _ _)) by lia. cbn [negb]. unfold mi_is_free, mi_size, sizeof_mem_infos.
    rewrite (w32_small (P + 8 + extent q + 4)) by lia.
    apply wp_bind. eapply wp_hload32; [exact Hk1|lia|lia|].
    rewrite (rd32_ext m m1), H3 by (intros; apply Hm1; lia).
    destruct f0; cbn [b2z]; injection E as <- <- <-.
    + change (1 =? TRUE) with true. cbn iota. apply wp_bind. eapply wp_hload32; [exact Hk1|lia|lia|]. rewrite Hs1, Es.
      apply wp_bind. eapply wp_hload32; [exact Hk1|lia|lia|].
      rewrite (rd32_ext m m1), H2 by (intros; apply Hm1; lia).
      apply wp_bind. eapply wp_hstore32; [exact Hk1|lia|lia|]. intros k2 Hk2. apply wp_ret. unfold r.
      eapply HQ; [exact Hk2|..].
      * unfold r. rewrite rd32_wr32_eq, w32_idem, w32_small, Es by lia. done.
      * unfold r. intros b Hb. rewrite rd8_wr32_ne, Hm1 by lia. done.
    + change (0 =? TRUE) with false. cbn iota. apply wp_ret.
      assert (Er2 : r = P + 8 + extent q + 16 + s0) by (unfold r; rewrite extent_app, extent_one; lia).
      rewrite <- Er2 in *. eapply HQ; [exact Hk1|done|]. intros b Hb. apply Hm1. lia.
Qed.

(** The pages past a free block at the end go back. *)
Lemma wp_pagesize_rm k0 pre' s' post' m2 (Q : Z -> K -> Prop) :
  let bl' := pre' ++ (s', true) :: post' in
  let r := P + 8 + extent pre' in
  heap_at k0 P brk P m2 -> rd32 m2 P = np -> rd32 m2 (P + 4) = P + 8 + extent bl' ->
  blocks m2 (P + 8) bl' (P + 8 + extent bl') -> extent bl' <= 4096 * np -> coalesced bl' = true ->
  last_free pre' = false -> (post' <> [] -> 4096 * np - busy bl' <= 4096) ->
  let n := match post' with [] => (4096 * np - extent pre') / 4096 | _ => 0 end in
  (forall st k' m', heap_inv k' P (np - n) (if 0 <? n then pre' else bl') m' ->
    (forall b, P + 8 <= b -> rd8 m' b = rd8 m2 b) -> Q st k') ->
  wp (pagesize_rm_update P r) Q k0.
Proof.
  intros bl' r Hk0 Hnb Hmx Hbl Hroom Hco Hlf Htail n HQ.
  pose proof release_facts as (HP & Hbrk & _). pose proof (inv_np _ _ _ _ _ Hinv). pose proof (inv_small _ _ _ _ _ Hinv).
  assert (Hpre : blocks m2 (P + 8) pre' r /\ rd32 m2 (r + 12) = r + 16 + s' /\ 0 <= s' /\ wf_blocks pre' /\ wf_blocks post').
  { pose proof Hbl as Hbl'. apply blocks_app in Hbl' as [Hb1 Hb2]. fold r in Hb1, Hb2. cbn [blocks] in Hb2.
    destruct Hb2 as (? & _ & _ & _ & ? & Hb2). destruct (blocks_wf _ _ _ _ Hb1), (blocks_wf _ _ _ _ Hb2). done. }
  destruct Hpre as (Hpre & Hnext & Hs' & Hw1 & Hw2). pose proof (extent_nonneg _ Hw1). pose proof (extent_length _ Hw2).
  assert (Hx : extent bl' = extent pre' + 16 + s' + extent post') by (unfold bl'; rewrite extent_app, extent_cons; lia).
  assert (Hn : n = if P + 8 + extent bl' <=? r + 16 + s' then (brk - r) / 4096 else 0).
  { unfold n, r. destruct post' as [|b post']; cbn [length] in *.
    - rewrite (proj2 (Z.leb_le _ _)) by (rewrite Hx; change (extent []) with 0; lia). f_equal. lia.
    - rewrite (proj2 (Z.leb_gt _ _)) by lia. done. }
  assert (Hn0 : 0 <= n /\ 4096 * n <= 4096 * np - extent pre' /\
    (post' = [] -> 4096 * (np - n) - extent pre' <= 4096) /\ (post' <> [] -> n = 0)).
  { unfold n. destruct post'; [|split_and!; done || lia]. split_and!; try done; Z.div_mod_to_equations; lia. }
  destruct Hn0 as (Hn0 & Hn1 & Hn2 & Hn3).
  unfold pagesize_rm_update, mi_next, pi_max_pos, pi_nb_pages, sizeof_page_infos, PAGE_SIZE, FRAME_SIZE.
  assert (Hr : r = P + 8 + extent pre') by done. clearbody r n. words. hload. rewrite Hnext. hload. rewrite Hmx. hload. rewrite Hnb.
  cbv zeta. rewrite (w32_small (np * 4096)), (w32_small (P + 8 + _ - _)) by lia.
  replace (P + 8 + np * 4096 - r) with (brk - r) by lia.
  assert (Hns : 4096 * ((brk - r) / 4096) <= brk - r /\ 0 <= (brk - r) / 4096) by (Z.div_mod_to_equations; lia).
  rewrite s32_small by (unfold INT_MIN; lia). rewrite <- Hn. destruct (Z.ltb_spec 0 n).
  - rewrite s32_small by (unfold INT_MIN; lia). apply wp_bind.
    eapply (wp_shrink _ _ _ _ _ (n * 4096)); [exact Hk0|lia|lia|]. intros x k1 Hk1 Hx1.
    rewrite (proj2 (Z.eqb_neq x SBRK_ERROR)) by done. hload. rewrite Hnb, (w32_small (np - n)) by lia. do 2 hstore.
    apply wp_ret. eapply (HQ _ _ (wr32 (wr32 m2 P (np - n)) (P + 4) r)); [|intros b Hb; by rewrite !rd8_wr32_ne by lia].
    assert (Hm : forall b, P + 8 <= b -> rd8 (wr32 (wr32 m2 P (np - n)) (P + 4) r) b = rd8 m2 b)
      by (intros b Hb; rewrite !rd8_wr32_ne by lia; done).
    split; try (rd_simpl; rewrite ?w32_small by lia; done || lia).
    + replace (P + 8 + 4096 * (np - n)) with (brk - n * 4096) by lia. eassumption.
    + rewrite <- Hr. eapply blocks_ext_range; [|exact Hpre]. intros b Hb. apply Hm. lia.
    + unfold bl' in Hco. rewrite coalesced_app in Hco. by apply andb_prop in Hco as [[? _]%andb_prop _].
    + rewrite busy_full by done. apply Hn2. destruct post'; [done|]. specialize (Hn3 ltac:(done)). lia.
  - apply wp_ret. apply (HQ _ k0 m2); [|done]. assert (n = 0) as -> by lia. rewrite Z.sub_0_r.
    split; try done. destruct (decide (post' = [])) as [->|Hne]; [|by apply Htail].
    pose proof (busy_le pre' Hw1). unfold bl'. rewrite busy_app. cbn [forallb snd andb].
    rewrite busy_full by done. specialize (Hn2 eq_refl). lia.
Qed.

(** What free does with the block of its pointer. *)
Definition free_found (page_infos mem_infos last : Z) : prog K (Z * Z + unit) :=
  mem_infos ← merge_freed_ptr page_infos mem_infos last;
  hstore32 (mi_is_free mem_infos) TRUE;;
  hstore32 (mi_begin mem_infos) (w32 (mem_infos + sizeof_mem_infos));;
  begin ← hload32 (mi_begin mem_infos);
  msize ← hload32 (mi_size mem_infos);
  hstore32 (mi_next mem_infos) (w32 (begin + msize));;
  pagesize_rm_update page_infos mem_infos;;
  mret (inr tt).

Lemma wp_free_found (Q : Z * Z + unit -> K -> Prop) :
  (forall k' m', heap_inv k' P (fst (free_block np pre s post)) (snd (free_block np pre s post)) m' ->
    (forall pre' s' post', joined pre s post = (pre', s', post') -> forall b, P + 8 <= b ->
      b < P + 8 + extent pre' \/ P + 8 + extent pre' + 16 + s' <= b -> rd8 m' b = rd8 m b) -> Q (inr tt) k') ->
  wp (free_found P a (before P pre)) Q k.
Proof.
  intros HQ. destruct (joined pre s post) as [[pre' s'] post'] eqn:E.
  pose proof release_facts as (HP & Hbrk & _ & _ & _ & _ & _ & _ & Hwpre & Hwpost).
  pose proof (inv_coalesced _ _ _ _ _ Hinv) as Hco. pose proof (inv_room _ _ _ _ _ Hinv) as Hroom.
  destruct (joined_extent _ _ _ _ _ _ _ E Hco) as [Hx Htail].
  destruct (joined_covers _ _ _ _ _ _ _ E Hco) as (Hco' & Hlf & _ & l & r & El & Er & Hext & _).
  assert (Hl : 0 <= extent pre' /\ 0 <= s' /\ 0 <= extent post' /\ extent (pre' ++ (s', true) :: post') = extent pre' + 16 + s' + extent post').
  { rewrite El in Hwpre. rewrite Er in Hwpost. apply Forall_app in Hwpre as [Hw1 Hw2], Hwpost as [Hw3 Hw4].
    pose proof (extent_nonneg _ Hw1). pose proof (extent_nonneg _ Hw2). pose proof (extent_nonneg _ Hw3).
    pose proof (extent_nonneg _ Hw4). destruct release_facts as (_ & _ & ? & _).
    rewrite extent_app, extent_cons. split_and!; lia. }
  destruct Hl as (Hp0 & Hs0 & Hq0 & Hxx).
  unfold free_found. apply wp_bind, (wp_merge _ _ _ _ E). intros k1 m1 Hk1 Hs1 Hm1.
  set (t := P + 8 + extent pre') in *. assert (Et : t = P + 8 + extent pre') by done.
  unfold mi_is_free, mi_begin, mi_size, mi_next, sizeof_mem_infos. rewrite Hx in *. clearbody t. words.
  do 2 hstore. hload. hload. rewrite Hs1. words. hstore. apply wp_bind.
  set (m2 := wr32 _ (t + 12) _) in *.
  assert (Hm2 : forall b, b < t \/ t + 16 + s' <= b -> rd8 m2 b = rd8 m b)
    by (intros b Hb; unfold m2; rewrite !rd8_wr32_ne by lia; apply Hm1; lia).
  assert (Hhd : blocks m2 t [(s', true)] (t + 16 + s'))
    by (unfold m2; cbn [blocks b2z]; rd_simpl; words; rewrite Hs1; split_and!; done || lia).
  clearbody m2. rewrite Et. eapply wp_pagesize_rm with (post' := post') (m2 := m2); rewrite ?Hx; try eassumption.
  - rewrite <- (inv_nb_pages _ _ _ _ _ Hinv). apply rd32_ext. intros. apply Hm2. lia.
  - rewrite <- (inv_max_pos _ _ _ _ _ Hinv). apply rd32_ext. intros. apply Hm2. lia.
  - pose proof (inv_blocks _ _ _ _ _ Hinv) as Hbl. rewrite El, Er in Hbl |- *.
    change (pre' ++ (s', true) :: post') with (pre' ++ [(s', true)] ++ post').
    replace ((pre' ++ l) ++ (s, f) :: r ++ post') with (pre' ++ (l ++ (s, f) :: r) ++ post') in *
      by (rewrite <- !app_assoc; done).
    eapply blocks_splice; [exact Hbl|..].
    + rewrite extent_one, extent_app, extent_cons. lia.
    + rewrite extent_app, extent_cons. intros b Hb. apply Hm2. lia.
    + rewrite extent_app, extent_cons, <- Et. replace (t + _) with (t + 16 + s') by lia. done.
  - intros Hne. rewrite Htail by done. apply Hinv.
  - intros st k' m' Hinv' Hm'. apply wp_ret. apply (HQ k' m').
    + unfold free_block. rewrite E. destruct (Z.ltb_spec 0 (match post' with [] => (4096 * np - extent pre') / 4096 | _ => 0 end)) as [Hn|Hn]; [done|].
      cbn [fst snd]. replace (np - _) with np in Hinv'; [done|]. 
      assert (0 <= extent pre') by lia. destruct post'; [|lia].
      assert (extent pre' <= 4096 * np) by lia. Z.div_mod_to_equations; lia.
    + intros ? ? ? [= <- <- <-] b Hb Hb'. rewrite Hm' by done. apply Hm2. lia.
Qed.
End release.

(** * free *)

(** The pointer kmalloc gave for the block after [pre]. *)
Definition ptr_at (P : Z) (pre : list block) : Z := P + 8 + extent pre + 16.

(** free finds the block of its pointer and releases it, or does nothing. *)
Definition free_result {K} {H : Heap K} {HL : HeapLaws K} (P np : Z) (bl : list block) (m : ram) (ptr : Z) (k' : K) : Prop :=
  (exists pre s f post m', bl = pre ++ (s, f) :: post /\ ptr = ptr_at P pre /\
     heap_inv k' P (fst (free_block np pre s post)) (snd (free_block np pre s post)) m' /\
     (forall pre' s' post', joined pre s post = (pre', s', post') -> forall b, P + 8 <= b ->
        b < P + 8 + extent pre' \/ P + 8 + extent pre' + 16 + s' <= b -> rd8 m' b = rd8 m b)) \/
  ((forall pre s f post, bl = pre ++ (s, f) :: post -> ptr <> ptr_at P pre) /\ heap_inv k' P np bl m).

Section free_proofs.
Context {K : Type} {H : Heap K} {HL : HeapLaws K}.

(** The prefixes of a list of blocks that end at the same place are the same. *)
Lemma split_at_same (pre pre' rest rest' : list block) : wf_blocks (pre ++ rest) ->
  pre ++ rest = pre' ++ rest' -> extent pre = extent pre' -> pre = pre'.
Proof.
  revert pre'. induction pre as [|[s f] pre IH]; intros [|[s' f'] pre'] Hw E He; cbn [app] in *; [done|..].
  - rewrite extent_cons in He. change (extent []) with 0 in He. subst rest.
    apply Forall_cons in Hw as [Hs Hw]. apply Forall_app in Hw as [Hw _]. pose proof (extent_nonneg _ Hw). cbn in Hs. lia.
  - rewrite extent_cons in He. change (extent []) with 0 in He.
    apply Forall_cons in Hw as [Hs Hw]. apply Forall_app in Hw as [Hw _]. pose proof (extent_nonneg _ Hw). cbn in Hs. lia.
  - injection E as -> -> E. rewrite !extent_cons in He. apply Forall_cons in Hw as [_ Hw].
    f_equal. apply IH; [done|done|lia].
Qed.

Lemma wp_free_walk k P np bl m ptr : heap_inv k P np bl m ->
  wp (while32 (rm_round P ptr) (P + 8, P + 8)) (fun _ k' => free_result P np bl m ptr k') k.
Proof.
  intros Hinv. pose proof (inv_bounds _ _ _ _ _ Hinv) as (HP & Hbrk & Hwf & Hext).
  pose proof (inv_small _ _ _ _ _ Hinv) as Hsm.
  apply (wp_while (fun '(a, last) k' => k' = k /\ exists pre rest, bl = pre ++ rest /\
      a = P + 8 + extent pre /\ last = before P pre /\
      (forall p q s f r, pre = p ++ (s, f) :: q -> r = ptr_at P p -> ptr <> r))
    (fun '(a, _) _ => P + 8 + extent bl - a)).
  - split; [done|]. exists [], bl. split_and!; try done; [unfold extent; cbn; lia|]. by intros [].
  - lia.
  - intros [a last] k' (_ & pre & rest & E & -> & _). rewrite E, extent_app.
    rewrite E in Hwf. apply Forall_app in Hwf as [_ Hw]. pose proof (extent_nonneg _ Hw). lia.
  - intros [a last] k' (-> & pre & rest & E & -> & -> & Hno).
    assert (Hw : wf_blocks pre) by (rewrite E in Hwf; by apply Forall_app in Hwf as [? _]).
    pose proof (extent_nonneg _ Hw). unfold rm_round. rewrite (proj2 (Z.eqb_neq _ 0)) by lia.
    apply wp_bind, (wp_max_pos _ _ _ _ _ Hinv). destruct rest as [|[s f] rest].
    + rewrite app_nil_r in E. subst pre. rewrite Z.ltb_irrefl. apply wp_ret. right. split; [|done].
      intros pre s f post E. by eapply Hno.
    + destruct (inv_block _ _ _ _ _ Hinv pre s f rest E) as (Hs & Ha & He & _).
      rewrite (proj2 (Z.ltb_lt _ _)) by lia.
      pose proof (wp_header _ _ _ _ _ Hinv pre s f rest E) as Hh. cbv zeta in Hh.
      apply wp_bind, Hh. fold (ptr_at P pre). destruct (Z.eqb_spec (ptr_at P pre) ptr) as [Hp|Hp].
      * pose proof Hinv as Hinv'. rewrite E in Hinv'.
        match goal with |- wp _ ?Q _ => change (wp (free_found P (P + 8 + extent pre) (before P pre)) Q k) end.
        apply (wp_free_found k P np pre s f rest m Hinv'). intros k' m' Hk' Hm'. left.
        exists pre, s, f, rest, m'. by split_and!.
      * apply wp_bind, Hh. apply wp_ret. split; [|lia]. split; [done|].
        exists (pre ++ [(s, f)]), rest. rewrite before_snoc, extent_app, extent_one.
        split_and!; [by rewrite <- app_assoc|lia|done|].
        intros p q s' f' r E' ->. destruct (snoc_inv q) as [->|(q' & s1 & f1 & ->)].
        -- apply app_inj_tail in E' as [<- _]. congruence.
        -- apply (Hno p q' s' f' _); [|done]. 
           replace (p ++ (s', f') :: q' ++ [(s1, f1)]) with ((p ++ (s', f') :: q') ++ [(s1, f1)]) in E' by (rewrite <- app_assoc; done).
           by apply app_inj_tail in E' as [-> _].
Qed.

Lemma wp_free k P np bl m ptr : heap_inv k P np bl m ->
  wp (free ptr) (fun _ k' => free_result P np bl m ptr k') k.
Proof.
  intros Hinv. pose proof (inv_bounds _ _ _ _ _ Hinv) as (HP & Hbrk & _). pose proof (inv_np _ _ _ _ _ Hinv).
  unfold free, mem_rm_value. apply wp_bind. eapply wp_get_first_value; [exact Hinv|].
  unfold sizeof_page_infos. rewrite w32_small by lia. cbv zeta. by apply wp_free_walk.
Qed.
End free_proofs.
