(* ===== verification/Live.v ===== *)
(** The client's view of the heap: a map from the pointers in use to the bytes
    of their blocks. Every operation of the allocator is an operation on this
    map. *)
From S2P Require Import Prelude Memory State Console Kprintf Kmalloc Blocks Alloc Release.
Local Open Scope Z_scope.
Local Open Scope kern_scope.
Local Set Default Proof Using "Type*".

(** Writing over a list from the left, one element at a time. *)
Lemma overwrite_step {A} (src l : list A) i v : src !! i = Some v -> (i < length l)%nat ->
  <[i := v]> (take i src ++ drop i l) = take (S i) src ++ drop (S i) l.
Proof.
  intros Hs Hl. pose proof (lookup_lt_Some _ _ _ Hs) as Hi.
  destruct (lookup_lt_is_Some_2 l i Hl) as [w Hw].
  rewrite insert_app_r_alt by (rewrite length_take; lia). rewrite length_take, Nat.min_l, Nat.sub_diag by lia.
  rewrite (drop_S _ _ _ Hw). cbn [insert list_insert]. rewrite (take_S_r _ _ _ Hs), <- app_assoc. done.
Qed.

(** * The map *)

(** The [n] bytes from [a]. *)
Definition bytes_at (m : ram) (a n : Z) : list Z := (fun i => rd8 m (a + i)) <$> seqZ 0 n.

(** The blocks in use of a list that starts at [a], with their bytes. *)
Fixpoint live (m : ram) (a : Z) (bl : list block) : gmap Z (list Z) :=
  match bl with
  | [] => ∅
  | (s, f) :: bl' =>
      let r := live m (a + 16 + s) bl' in
      if f then r else <[a + 16 := bytes_at m (a + 16) s]> r
  end.

Lemma bytes_at_length m a n : 0 <= n -> Z.of_nat (length (bytes_at m a n)) = n.
Proof. intros. unfold bytes_at. rewrite length_fmap, length_seqZ. lia. Qed.

Lemma bytes_at_ext m m' a n : (forall b, a <= b < a + n -> rd8 m' b = rd8 m b) -> bytes_at m' a n = bytes_at m a n.
Proof.
  intros E. unfold bytes_at. apply list_fmap_ext. intros i x Hx.
  apply lookup_seqZ in Hx as [-> Hx]. apply E. lia.
Qed.

Lemma bytes_at_lookup m a n i : 0 <= i < n -> bytes_at m a n !! Z.to_nat i = Some (rd8 m (a + i)).
Proof.
  intros Hi. unfold bytes_at. rewrite list_lookup_fmap, lookup_seqZ_lt by lia. cbn. do 2 f_equal. lia.
Qed.

(** Pointers in use lie in the list's bytes. *)
Lemma live_range m a bl p l : wf_blocks bl -> live m a bl !! p = Some l -> a + 16 <= p <= a + extent bl.
Proof.
  intros Hw. revert a. induction Hw as [|[s f] bl Hs Hw IH]; intros a; cbn [live]; [done|].
  cbn in Hs. rewrite extent_cons. pose proof (extent_nonneg _ Hw). destruct f.
  - intros Hl. apply IH in Hl. lia.
  - destruct (decide (p = a + 16)) as [->|Hne]; [lia|]. rewrite lookup_insert_ne by done. intros Hl. apply IH in Hl. lia.
Qed.

Lemma live_not_in m a bl p : wf_blocks bl -> p < a + 16 \/ a + extent bl < p -> live m a bl !! p = None.
Proof.
  intros Hw Hp. destruct (live m a bl !! p) eqn:E; [|done]. apply live_range in E; [lia|done].
Qed.

Lemma live_app m a bl bl' : live m a (bl ++ bl') = live m a bl ∪ live m (a + extent bl) bl'.
Proof.
  revert a. induction bl as [|[s f] bl IH]; intros a; cbn [app live].
  - change (extent []) with 0. by rewrite Z.add_0_r, (left_id_L ∅ (∪)).
  - rewrite IH, extent_cons. replace (a + 16 + s + extent bl) with (a + (16 + s + extent bl)) by lia.
    destruct f; [done|]. by rewrite insert_union_l.
Qed.

(** The map depends on the bytes of the list alone. *)
Lemma live_ext m m' a bl : wf_blocks bl -> (forall b, a <= b < a + extent bl -> rd8 m' b = rd8 m b) ->
  live m' a bl = live m a bl.
Proof.
  intros Hw. revert a. induction Hw as [|[s f] bl Hs Hw IH]; intros a; cbn [live]; [done|].
  cbn in Hs. rewrite extent_cons. pose proof (extent_nonneg _ Hw). intros E.
  rewrite IH by (intros; apply E; lia). destruct f; [done|]. f_equal. apply bytes_at_ext. intros. apply E. lia.
Qed.

Lemma live_free m a bl : forallb snd bl = true -> live m a bl = ∅.
Proof.
  revert a. induction bl as [|[s f] bl IH]; intros a; cbn [forallb snd live]; [done|].
  intros [-> Hf]%andb_prop. by apply IH.
Qed.

(** A new block between two lists is a new entry. *)
Lemma live_insert m a pre mid post p l : wf_blocks pre -> live m (a + extent pre) mid = {[p := l]} ->
  a + extent pre < p -> live m a (pre ++ mid ++ post) =
  <[p := l]> (live m a pre ∪ live m (a + extent pre + extent mid) post).
Proof.
  intros Hw Hmid Hp. rewrite live_app, live_app, Hmid, <- insert_union_singleton_l.
  symmetry. apply insert_union_r, live_not_in; [done|lia].
Qed.

Lemma live_one m a s : live m a [(s, false)] = {[a + 16 := bytes_at m (a + 16) s]}.
Proof. cbn [live]. by rewrite insert_empty. Qed.

Lemma live_at m a pre s post p : wf_blocks pre -> p = a + extent pre + 16 ->
  live m a (pre ++ (s, false) :: post) = <[p := bytes_at m p s]> (live m a pre ∪ live m (p + s) post).
Proof.
  intros Hw ->. pose proof (live_insert m a pre [(s, false)] post _ _ Hw (live_one _ _ _) ltac:(lia)) as E.
  cbn [app] in E. rewrite E, extent_one. do 3 f_equal. lia.
Qed.

(** A pointer in use is the pointer of a block of the list. *)
Lemma live_block m a bl p l : live m a bl !! p = Some l ->
  exists pre s post, bl = pre ++ (s, false) :: post /\ p = a + extent pre + 16 /\ l = bytes_at m p s.
Proof.
  revert a. induction bl as [|[s f] bl IH]; intros a; cbn [live]; [done|].
  assert (Hrec : live m (a + 16 + s) bl !! p = Some l -> exists pre s' post,
    (s, f) :: bl = pre ++ (s', false) :: post /\ p = a + extent pre + 16 /\ l = bytes_at m p s').
  { intros (pre & s' & post & -> & -> & Hl)%IH. exists ((s, f) :: pre), s', post.
    rewrite extent_cons. split_and!; [done|lia|done]. }
  destruct f; [done|]. destruct (decide (p = a + 16)) as [->|Hne].
  - rewrite lookup_insert_eq. intros [= <-]. exists [], s, bl. change (extent []) with 0.
    split_and!; [done|lia|done].
  - by rewrite lookup_insert_ne by done.
Qed.

(** * The client's state *)

(** [client k P np h]: the segment of [np] pages from [P] is in order, and [h]
    maps the pointers in use to their bytes. *)
Definition client {K} {H : Heap K} {HL : HeapLaws K} (k : K) (P np : Z) (h : gmap Z (list Z)) : Prop :=
  exists bl m, heap_inv k P np bl m /\ live m (P + 8) bl = h.

Section client.
Context {K : Type} {H : Heap K} {HL : HeapLaws K}.

(** kmalloc on the map. *)
Lemma kmalloc_result_live k P np bl m size r k' : heap_inv k P np bl m -> 0 < size ->
  kmalloc_result P np bl m size r k' ->
  (r = NULL /\ client k' P np (live m (P + 8) bl)) \/
  exists np' l, np <= np' /\ r <> NULL /\ live m (P + 8) bl !! r = None /\ size <= Z.of_nat (length l) /\
    client k' P np' (<[r := l]> (live m (P + 8) bl)).
Proof.
  intros Hinv Hsz. pose proof (inv_bounds _ _ _ _ _ Hinv) as (HP & Hbrk & Hwf & Hext).
  intros [(pre & s & post & m' & E & Hs & Hr & _ & _ & Hinv' & Hm')|[_ [(m' & Hr & Hinv' & Hm')|(-> & _ & Hinv')]]].
  - rewrite E in Hwf |- *. apply Forall_app in Hwf as [Hw1 [Hs0 Hw2]%Forall_cons]. cbn in Hs0.
    pose proof (extent_nonneg _ Hw1). right.
    assert (Hold : live m (P + 8) (pre ++ (s, true) :: post) =
      live m (P + 8) pre ∪ live m (P + 8 + extent pre + (16 + s)) post).
    { rewrite live_app. cbn [live]. do 2 f_equal. lia. }
    assert (Hpost : live m (P + 8 + extent pre + (16 + s)) post !! r = None) by (apply live_not_in; [done|lia]).
    assert (Hpre : live m (P + 8) pre !! r = None) by (apply live_not_in; [done|lia]).
    assert (Hc : exists n, size <= n /\ live m' (P + 8 + extent pre) (carve size s) = {[r := bytes_at m' r n]}).
    { subst r. unfold carve. destruct (17 <=? s - size); [exists size|exists s]; (split; [lia|]).
      - cbn [live]. by rewrite insert_empty.
      - apply live_one. }
    destruct Hc as (n & Hn & Hc). exists np, (bytes_at m' r n).
    split; [done|]. split; [unfold NULL; lia|]. split; [rewrite Hold; by apply lookup_union_None|].
    split; [rewrite bytes_at_length; lia|]. exists (pre ++ carve size s ++ post), m'. split; [done|].
    rewrite (live_insert _ _ _ _ _ r (bytes_at m' r n) Hw1 Hc) by lia. rewrite Hold, extent_carve, extent_one. f_equal. f_equal.
    + apply live_ext; [done|]. intros b Hb. apply Hm'. lia.
    + apply live_ext; [done|]. intros b Hb. apply Hm'. lia.
  - right. pose proof (append_inv P np bl size Hwf (inv_np _ _ _ _ _ Hinv) Hsz (inv_room _ _ _ _ _ Hinv)
      (inv_tail _ _ _ _ _ Hinv)) as (Hnp & _).
    exists (np + pages_needed np (extent bl) size), (bytes_at m' r size). split; [done|]. split; [unfold NULL; lia|].
    split; [apply live_not_in; [done|lia]|]. split; [rewrite bytes_at_length; lia|].
    exists (bl ++ [(size, false)]), m'. split; [done|]. rewrite live_app, live_one, <- Hr.
    rewrite (live_ext m m') by done. rewrite <- insert_union_singleton_r; [done|]. apply live_not_in; [done|lia].
  - left. split; [done|]. by exists bl, m.
Qed.

(** Taking out the entry of the block in the middle. *)
Lemma live_delete m a pre' l s f r post' : wf_blocks (pre' ++ l ++ (s, f) :: r ++ post') ->
  forallb snd l = true -> forallb snd r = true ->
  delete (a + extent (pre' ++ l) + 16) (live m a (pre' ++ l ++ (s, f) :: r ++ post')) =
  live m a pre' ∪ live m (a + extent pre' + (extent l + (16 + s) + extent r)) post'.
Proof.
  intros (Hw1 & (Hw2 & [Hs (Hw3 & Hw4)%Forall_app]%Forall_cons)%Forall_app)%Forall_app Hl Hr. cbn in Hs.
  pose proof (extent_nonneg _ Hw1). pose proof (extent_nonneg _ Hw2). pose proof (extent_nonneg _ Hw3).
  rewrite extent_app, (live_app _ _ pre'), (live_app _ _ l), (live_free _ _ l Hl), (left_id_L ∅ (∪)).
  set (p := a + (extent pre' + extent l) + 16). assert (Hp : p = a + (extent pre' + extent l) + 16) by done. clearbody p.
  cbn [live]. rewrite (live_app _ _ r), (live_free _ _ r Hr), (left_id_L ∅ (∪)), delete_union.
  rewrite (delete_id (live m a pre')) by (apply live_not_in; [done|lia]). f_equal.
  replace (a + extent pre' + extent l + 16 + s + extent r) with (a + extent pre' + (extent l + (16 + s) + extent r)) by lia.
  assert (Hn : live m (a + extent pre' + (extent l + (16 + s) + extent r)) post' !! p = None) by (apply live_not_in; [done|lia]).
  destruct f; [by apply delete_id|].
  replace (a + extent pre' + extent l + 16) with p by lia. rewrite delete_insert_eq. by apply delete_id.
Qed.

(** free on the map. *)
Lemma free_result_live k P np bl m p k' : heap_inv k P np bl m -> free_result P np bl m p k' ->
  exists np', np' <= np /\ client k' P np' (delete p (live m (P + 8) bl)).
Proof.
  intros Hinv. pose proof (inv_bounds _ _ _ _ _ Hinv) as (HP & Hbrk & Hwf & Hext).
  intros [(pre & s & f & post & m' & E & Hp & Hinv' & Hm')|(Hno & Hinv')].
  2:{ exists np. split; [lia|]. exists bl, m. split; [done|]. symmetry. apply delete_id.
      destruct (live m (P + 8) bl !! p) as [l|] eqn:El; [|done].
      apply live_block in El as (pre & s & post & E & Hp & _). by destruct (Hno _ _ _ _ E). }
  pose proof (inv_coalesced _ _ _ _ _ Hinv) as Hco. rewrite E in Hco.
  destruct (joined pre s post) as [[pre' s'] post'] eqn:EJ.
  destruct (joined_covers _ _ _ _ _ _ _ EJ Hco) as (_ & _ & _ & l & r & El & Er & Hx & Hl & Hr).
  specialize (Hm' _ _ _ eq_refl). pose proof (inv_np _ _ _ _ _ Hinv). pose proof (inv_room _ _ _ _ _ Hinv) as Hroom.
  assert (Hlf : forallb snd l = true /\ forallb snd r = true) by (by destruct Hl as [->|[? ->]], Hr as [->|[? ->]]).
  destruct Hlf as [Hlf Hrf].
  assert (Eb : bl = pre' ++ l ++ (s, f) :: r ++ post') by (rewrite E, El, Er, <- app_assoc; done).
  rewrite Eb in Hwf, Hroom. pose proof Hwf as (Hw1 & (Hw2 & [Hs (Hw3 & Hw4)%Forall_app]%Forall_cons)%Forall_app)%Forall_app.
  cbn in Hs. pose proof (extent_nonneg _ Hw1). pose proof (extent_nonneg _ Hw2). pose proof (extent_nonneg _ Hw3).
  pose proof (extent_nonneg _ Hw4). repeat rewrite ?extent_app, ?extent_cons in Hroom.
  set (A := P + 8 + extent pre') in *.
  assert (Hlive : forall bl', (bl' = pre' /\ post' = [] \/ bl' = pre' ++ (s', true) :: post') ->
    live m' (P + 8) bl' = live m (P + 8) pre' ∪ live m (A + (16 + s')) post').
  { intros bl' Hbl'. assert (Hpre : live m' (P + 8) pre' = live m (P + 8) pre')
      by (apply live_ext; [done|]; intros b Hb; apply Hm'; lia).
    destruct Hbl' as [[-> ->]| ->]; [cbn [live]; by rewrite Hpre, (right_id_L ∅ (∪))|].
    rewrite live_app, Hpre. cbn [live]. f_equal. fold A. replace (A + 16 + s') with (A + (16 + s')) by lia.
    apply live_ext; [done|]. intros b Hb. apply Hm'; lia. }
  assert (Hdel : delete p (live m (P + 8) bl) = live m (P + 8) pre' ∪ live m (A + (16 + s')) post').
  { rewrite Eb, Hp, El, Hx. by apply live_delete. }
  rewrite Hdel. unfold free_block in Hinv'. rewrite EJ in Hinv'.
  destruct (Z.ltb_spec 0 (match post' with [] => (4096 * np - extent pre') / 4096 | _ => 0 end)) as [Hn|Hn]; cbn [fst snd] in Hinv'.
  - destruct post'; [|lia]. eexists. split; [|exists pre', m'; split; [exact Hinv'|apply Hlive; by left]]. lia.
  - exists np. split; [lia|]. exists (pre' ++ (s', true) :: post'), m'. split; [done|]. apply Hlive. by right.
Qed.

(** Where a block in use lies: between its header and the end of the blocks. *)
Lemma client_block k P np bl m p l : heap_inv k P np bl m -> live m (P + 8) bl !! p = Some l ->
  exists pre s post, bl = pre ++ (s, false) :: post /\ p = P + 8 + extent pre + 16 /\ l = bytes_at m p s /\
    wf_blocks pre /\ wf_blocks post /\ 0 <= extent pre /\ 0 <= s /\ 0 <= extent post /\
    extent pre + 16 + s + extent post <= 4096 * np.
Proof.
  intros Hinv Hl. apply live_block in Hl as (pre & s & post & E & Hp & Hl). exists pre, s, post.
  pose proof (inv_bounds _ _ _ _ _ Hinv) as (_ & _ & Hwf & Hext). rewrite E in Hwf, Hext.
  apply Forall_app in Hwf as [Hw1 [Hs Hw2]%Forall_cons]. rewrite extent_app, extent_cons in Hext.
  pose proof (extent_nonneg _ Hw1). pose proof (extent_nonneg _ Hw2). split_and!; try done; lia.
Qed.

Lemma wp_client_load k P np h p l i (Q : Z -> K -> Prop) : client k P np h -> h !! p = Some l ->
  0 <= i < Z.of_nat (length l) -> (forall v, l !! Z.to_nat i = Some v -> Q v k) -> wp (hload8 (p + i)) Q k.
Proof.
  intros (bl & m & Hinv & <-) Hl Hi HQ. pose proof (inv_bounds _ _ _ _ _ Hinv) as (HP & Hbrk & _).
  destruct (client_block _ _ _ _ _ _ _ Hinv Hl) as (pre & s & post & E & Hp & -> & Hb). rewrite bytes_at_length in Hi by lia.
  eapply wp_hload8; [apply Hinv|lia|]. apply HQ. by apply bytes_at_lookup.
Qed.

(** Writing a byte of a block in use changes that byte of that block alone. *)
Lemma wp_client_store k P np h p l i v (Q : unit -> K -> Prop) : client k P np h -> h !! p = Some l ->
  0 <= i < Z.of_nat (length l) ->
  (forall k', client k' P np (<[p := <[Z.to_nat i := w8 v]> l]> h) -> Q tt k') -> wp (hstore8 (p + i) v) Q k.
Proof.
  intros (bl & m & Hinv & <-) Hl Hi HQ. pose proof (inv_bounds _ _ _ _ _ Hinv) as (HP & Hbrk & _).
  destruct (client_block _ _ _ _ _ _ _ Hinv Hl) as (pre & s & post & E & Hp & El & Hw1 & Hw2 & Hb).
  rewrite El, bytes_at_length in Hi by lia.
  eapply wp_hstore8; [apply Hinv|lia|]. intros k' Hk'. apply HQ. exists bl, (wr8 m (p + i) v).
  assert (Hout : forall b, b <> p + i -> rd8 (wr8 m (p + i) v) b = rd8 m b) by (intros; apply rd8_wr8_ne; lia).
  split.
  - destruct Hinv as [Hk Hnp Hsm Hnb Hmx Hbl Hroom Hco Htail].
    split; try done; rewrite ?rd32_wr8_ne by lia; try done. rewrite E in Hbl |- *.
    apply (blocks_splice m _ _ pre [(s, false)] [(s, false)] post _ Hbl); [done|rewrite extent_one; intros; apply Hout; lia|].
    apply blocks_app in Hbl as [_ Hmid]. cbn [blocks] in Hmid |- *. destruct Hmid as (? & ? & ? & ? & ? & _).
    rewrite extent_one, !rd32_wr8_ne by lia. split_and!; try done; lia.
  - rewrite E, !(live_at _ _ pre s post p Hw1 Hp), insert_insert_eq. f_equal.
    + rewrite El. apply list_eq. intros j. destruct (decide (0 <= Z.of_nat j < s)) as [Hj|Hj].
      * rewrite <- (Nat2Z.id j), bytes_at_lookup by lia. destruct (decide (Z.of_nat j = i)) as [->|Hne].
        -- rewrite list_lookup_insert_eq by (apply Nat2Z.inj_lt; rewrite bytes_at_length; lia). by rewrite rd8_wr8_eq.
        -- rewrite list_lookup_insert_ne by lia. rewrite bytes_at_lookup by lia. by rewrite Hout by lia.
      * rewrite !lookup_ge_None_2; [done|..]; apply Nat2Z.inj_le; rewrite ?length_insert, bytes_at_length; lia.
    + f_equal; (apply live_ext; [done|]; intros b Hb'; apply Hout; lia).
Qed.

Lemma client_bound k P np h p l : client k P np h -> h !! p = Some l ->
  0 < p /\ p + Z.of_nat (length l) < 4294967296 /\ Z.of_nat (length l) < 2147483648 /\ Forall (fun v => 0 <= v < 256) l.
Proof.
  intros (bl & m & Hinv & <-) Hl. pose proof (inv_bounds _ _ _ _ _ Hinv) as (HP & Hbrk & _).
  pose proof (inv_small _ _ _ _ _ Hinv).
  destruct (client_block _ _ _ _ _ _ _ Hinv Hl) as (pre & s & post & E & Hp & -> & Hb).
  rewrite bytes_at_length by lia. split_and!; try lia.
  unfold bytes_at. apply Forall_fmap, Forall_forall. intros i _. apply rd8_range.
Qed.

(** The loop of memset and of memcpy: a block in use gets the bytes of [src]
    one at a time, [body] giving the i-th. *)
Lemma wp_client_copy k P np h p l src (size : Z) (get : Z -> prog K Z) (Q : unit -> K -> Prop) :
  client k P np h -> h !! p = Some l -> size = Z.of_nat (length src) -> size <= Z.of_nat (length l) ->
  (forall i v k' l', 0 <= i -> client k' P np (<[p := l']> h) -> src !! Z.to_nat i = Some v ->
     forall R : Z -> K -> Prop, (forall x, w8 x = v -> R x k') -> wp (get i) R k') ->
  (forall k', client k' P np (<[p := src ++ drop (length src) l]> h) -> Q tt k') ->
  wp (while32 (fun cursor => if cursor <? size
        then v ← get cursor; hstore8 (w32 (p + cursor)) v;; mret (inl (w32 (cursor + 1)))
        else mret (inr tt)) 0) Q k.
Proof.
  intros Hc Hl Hsz Hle Hget HQ. destruct (client_bound _ _ _ _ _ _ Hc Hl) as (Hp & Hb & Hs & _).
  apply (wp_while (fun i k' => 0 <= i <= size /\
      client k' P np (<[p := take (Z.to_nat i) src ++ drop (Z.to_nat i) l]> h)) (fun i _ => size - i)).
  - split; [lia|]. change (Z.to_nat 0) with 0%nat. cbn [take drop app]. by rewrite insert_id.
  - lia.
  - lia.
  - intros i k' [Hi Hc']. destruct (Z.ltb_spec i size).
    + destruct (lookup_lt_is_Some_2 src (Z.to_nat i)) as [v Hv]; [lia|].
      apply wp_bind. eapply Hget; [apply Hi|exact Hc'|exact Hv|]. intros x Hx. apply wp_bind.
      rewrite (w32_small (p + i)), (w32_small (i + 1)) by lia.
      eapply wp_client_store; [exact Hc'|apply lookup_insert_eq|rewrite length_app, length_take, length_drop; lia|].
      intros k2 Hc2. apply wp_ret. split; [|lia]. split; [lia|].
      rewrite insert_insert_eq, Hx, (overwrite_step _ _ _ _ Hv) in Hc2 by lia.
      by replace (Z.to_nat (i + 1)) with (S (Z.to_nat i)) by lia.
    + apply wp_ret. apply HQ. replace (Z.to_nat i) with (length src) in Hc' by lia.
      by rewrite firstn_all in Hc'.
Qed.
End client.
