(* ===== verification/Contract.v ===== *)
(** What the allocator promises its clients: kmalloc, free, calloc and realloc
    as operations on the map of the pointers in use, and what it does when its
    sums wrap. The interface is instantiated by a heap in an array of bytes. *)
From S2P Require Import Prelude Memory State Console Kprintf Kmalloc Blocks Alloc Release Live.
Local Open Scope Z_scope.
Local Open Scope kern_scope.
Local Set Default Proof Using "Type*".

(** * calloc and realloc *)

Section clients.
Context {K : Type} {H : Heap K} {HL : HeapLaws K}.

(** kmalloc's outcome for a client: nothing, or a new entry of the map. *)
Definition allocates (k' : K) (P np : Z) (h : gmap Z (list Z)) (size r : Z) (ok : list Z -> Prop) : Prop :=
  (r = NULL /\ client k' P np h) \/
  exists np' l, np <= np' /\ r <> NULL /\ h !! r = None /\ size <= Z.of_nat (length l) /\ ok l /\
    client k' P np' (<[r := l]> h).

Lemma wp_kmalloc_client k P np h size : client k P np h -> 0 < size -> kmalloc_fits P np size ->
  wp (kmalloc size) (fun r k' => allocates k' P np h size r (fun _ => True)) k.
Proof.
  intros (bl & m & Hinv & <-) Hsz Hfit. eapply wp_mono; [by apply wp_kmalloc|]. cbv beta. intros r k' Hr.
  destruct (kmalloc_result_live _ _ _ _ _ _ _ _ Hinv Hsz Hr) as [?|(np' & l & ? & ? & ? & ? & ?)]; [by left|].
  right. by exists np', l.
Qed.

Lemma wp_free_client k P np h p : client k P np h ->
  wp (free p) (fun _ k' => exists np', np' <= np /\ client k' P np' (delete p h)) k.
Proof.
  intros (bl & m & Hinv & <-). eapply wp_mono; [by apply wp_free|]. cbv beta. intros _ k' Hr.
  by eapply free_result_live.
Qed.

Lemma wp_calloc_client k P np h nmemb size : client k P np h ->
  let total := w32 (nmemb * size) in 0 < total -> kmalloc_fits P np total ->
  wp (calloc nmemb size) (fun r k' => allocates k' P np h total r
    (fun l => take (Z.to_nat total) l = replicate (Z.to_nat total) 0)) k.
Proof.
  intros Hc total Ht Hfit. unfold calloc. fold total. apply wp_bind.
  eapply wp_mono; [by apply wp_kmalloc_client|]. cbv beta.
  intros r k' [[-> Hc']|(np' & l & Hnp & Hr & Hn & Hl & _ & Hc')].
  { change (NULL =? NULL) with true. apply wp_ret. by left. }
  rewrite (proj2 (Z.eqb_neq r NULL)) by done. apply wp_bind.
  change (memset_on hstore8 r 0 total) with (while32 (fun cursor => if cursor <? total
        then v ← mret 0; hstore8 (w32 (r + cursor)) v;; mret (inl (w32 (cursor + 1)))
        else mret (inr tt)) 0).
  eapply (wp_client_copy _ _ _ _ r l (replicate (Z.to_nat total) 0)); [exact Hc'|apply lookup_insert_eq|..].
  - rewrite length_replicate. lia.
  - done.
  - intros i v k2 l' _ _ Hv R HR. apply lookup_replicate in Hv as [-> _]. apply wp_ret. by apply HR.
  - intros k2 Hc2. rewrite insert_insert_eq in Hc2. apply wp_ret. right. eexists np', _.
    split; [done|]. split; [done|]. split; [done|]. split; [|split; [|exact Hc2]].
    + rewrite length_app, length_drop, length_replicate. lia.
    + rewrite take_app_le by (rewrite length_replicate; lia). rewrite take_ge; [done|rewrite length_replicate; lia].
Qed.

(** The size in the header of a block in use. *)
Lemma wp_client_size k P np h p l (Q : Z -> K -> Prop) : client k P np h -> h !! p = Some l ->
  Q (Z.of_nat (length l)) k -> wp (hload32 (mi_size (w32 (p - sizeof_mem_infos)))) Q k.
Proof.
  intros (bl & m & Hinv & <-) Hl HQ. pose proof (inv_bounds _ _ _ _ _ Hinv) as (HP & Hbrk & _).
  destruct (client_block _ _ _ _ _ _ _ Hinv Hl) as (pre & s & post & E & Hp & -> & Hb).
  rewrite bytes_at_length in HQ by lia. unfold sizeof_mem_infos. rewrite w32_small by lia.
  replace (p - 16) with (P + 8 + extent pre) by lia. by apply (wp_header _ _ _ _ _ Hinv pre s false post E).
Qed.

Lemma wp_realloc_client k P np h p l size : client k P np h -> h !! p = Some l ->
  Z.of_nat (length l) < size -> kmalloc_fits P np size ->
  wp (realloc p size) (fun r k' => allocates k' P np h size r (fun l' => take (length l) l' = l)) k.
Proof.
  intros Hc Hl Hlt Hfit. destruct (client_bound _ _ _ _ _ _ Hc Hl) as (Hp & Hb & Hsm & Hbytes). unfold realloc.
  rewrite (proj2 (Z.eqb_neq size 0)), (proj2 (Z.eqb_neq p NULL)) by (unfold NULL; lia). cbn [andb].
  cbv zeta. apply wp_bind. eapply wp_client_size; [exact Hc|exact Hl|]. rewrite (proj2 (Z.leb_gt _ _)) by lia.
  apply wp_bind. eapply wp_mono; [apply wp_kmalloc_client; [exact Hc|lia|done]|]. cbv beta.
  intros r k' [[-> Hc']|(np' & l' & Hnp & Hr & Hn & Hl' & _ & Hc')].
  { change (NULL =? NULL) with true. apply wp_ret. by left. }
  assert (Hne : r <> p) by congruence.
  rewrite (proj2 (Z.eqb_neq r NULL)) by done. apply wp_bind.
  eapply wp_client_size; [exact Hc'|by rewrite lookup_insert_ne|]. apply wp_bind, wp_bind.
  eapply (wp_client_copy _ _ _ _ r l' l); [exact Hc'|apply lookup_insert_eq|lia|lia|..].
  - intros i v k2 l2 Hi Hc2 Hv R HR. pose proof (lookup_lt_Some _ _ _ Hv).
    rewrite insert_insert_eq in Hc2. rewrite w32_small by lia.
    eapply wp_client_load; [exact Hc2|by rewrite lookup_insert_ne|lia|]. intros x Hx. apply HR.
    rewrite Hx in Hv. injection Hv as ->. apply w8_small. by apply (proj1 (Forall_lookup _ _) Hbytes _ _ Hx).
  - intros k2 Hc2. rewrite insert_insert_eq in Hc2. apply wp_ret, wp_ret. right. eexists np', _.
    split; [done|]. split; [done|]. split; [done|]. split; [|split; [|exact Hc2]].
    + rewrite length_app, length_drop. lia.
    + rewrite take_app_le by lia. by rewrite firstn_all.
Qed.
Lemma realloc_null size (k : K) : realloc NULL size k = kmalloc size k.
Proof. unfold realloc. change (NULL =? NULL) with true. by rewrite andb_false_r. Qed.

(** realloc of a block in use. *)
Lemma wp_realloc_block k P np h p l size : client k P np h -> h !! p = Some l -> 0 <= size -> kmalloc_fits P np size ->
  wp (realloc p size) (fun r k' =>
    if size =? 0 then r = NULL /\ exists np', client k' P np' (delete p h)
    else if size <=? Z.of_nat (length l) then r = p /\ k' = k
    else allocates k' P np h size r (fun l' => take (length l) l' = l)) k.
Proof.
  intros Hc Hl Hsz Hfit. destruct (client_bound _ _ _ _ _ _ Hc Hl) as (Hp & _).
  destruct (Z.eqb_spec size 0) as [->|Hne].
  { unfold realloc. rewrite (proj2 (Z.eqb_neq p NULL)) by (unfold NULL; lia). cbn [negb andb]. change (0 =? 0) with true.
    apply wp_bind. eapply wp_mono; [by apply wp_free_client|]. cbv beta. intros _ k' (np' & _ & Hc').
    apply wp_ret. split; [done|]. by exists np'. }
  destruct (Z.leb_spec size (Z.of_nat (length l))) as [Hle|Hgt]; [|by apply wp_realloc_client].
  unfold realloc. rewrite (proj2 (Z.eqb_neq size 0)), (proj2 (Z.eqb_neq p NULL)) by (unfold NULL; lia). cbn [andb].
  cbv zeta. apply wp_bind. eapply wp_client_size; [exact Hc|exact Hl|]. rewrite (proj2 (Z.leb_le _ _)) by lia. by apply wp_ret.
Qed.
End clients.

(** * A heap in an array

    An instance of the interface: a segment of at most [AH_MAX] bytes from
    [AH_LO], whose bytes keep their values. An access outside is undefined. *)

Record array_heap := ArrayHeap { ah_mem : ram; ah_used : Z; ah_first : Z }.

Definition AH_LO : Z := 0x08000000.
Definition AH_MAX : Z := 0x100000.
Definition ah_end (k : array_heap) : Z := AH_LO + Z.max 0 (Z.min AH_MAX (ah_used k)).

Definition ah_inside (k : array_heap) (a n : Z) : bool := (AH_LO <=? a) && (a + n <=? ah_end k).

Definition ah_sbrk (n : Z) : prog array_heap Z := fun k =>
  let e := ah_end k - AH_LO in
  if (0 <=? e + n) && (e + n <=? AH_MAX)
  then Ret (ah_end k) (ArrayHeap (ah_mem k) (e + n) (ah_first k))
  else Ret SBRK_ERROR k.

#[export] Instance array_Heap : Heap array_heap := {
  hload8 a := fun k => if ah_inside k a 1 then Ret (rd8 (ah_mem k) a) k else Undef;
  hstore8 a v := fun k => if ah_inside k a 1
    then Ret tt (ArrayHeap (wr8 (ah_mem k) a v) (ah_used k) (ah_first k)) else Undef;
  hload32 a := fun k => if ah_inside k a 4 then Ret (rd32 (ah_mem k) a) k else Undef;
  hstore32 a v := fun k => if ah_inside k a 4
    then Ret tt (ArrayHeap (wr32 (ah_mem k) a v) (ah_used k) (ah_first k)) else Undef;
  hsbrk := ah_sbrk;
  hkprintf _ _ := mret 0;
  get_first := gets ah_first;
  put_first p := modify (fun k => ArrayHeap (ah_mem k) (ah_used k) p)
}.

Definition ah_view (k : array_heap) : hview := HView (ah_mem k) AH_LO (ah_end k) (ah_first k).

Lemma ah_inside_true k a n : inside (ah_view k) a n -> ah_inside k a n = true.
Proof. unfold inside, ah_inside. cbn. intros [? ?]. apply andb_true_intro. lia. Qed.

#[export] Program Instance array_HeapLaws : HeapLaws array_heap := {| view := ah_view |}.
Next Obligation. intros k. cbn. unfold ah_end, AH_LO, AH_MAX. lia. Qed.
Next Obligation. intros k a Hi. cbn. by rewrite ah_inside_true. Qed.
Next Obligation. intros k a v Hi. cbn. rewrite ah_inside_true by done. by eexists. Qed.
Next Obligation. intros k a Hi. cbn. by rewrite ah_inside_true. Qed.
Next Obligation. intros k a v Hi. cbn. rewrite ah_inside_true by done. by eexists. Qed.
Next Obligation.
  intros k n Hn. cbn. unfold ah_sbrk. destruct (_ && _) eqn:E; eexists _, _; (split; [done|]); [right|by left].
  apply andb_prop in E as [E1%Z.leb_le E2%Z.leb_le]. cbn. unfold ah_end in *. cbn. split_and!; try done. lia.
Qed.
Next Obligation.
  intros k n Hn Hl. cbn in *. unfold ah_sbrk.
  destruct (_ && _) eqn:E; [|apply andb_false_iff in E; unfold ah_end in *; lia].
  eexists _, _. split; [done|]. split; [unfold ah_end, AH_LO, AH_MAX; change SBRK_ERROR with 4294967295; lia|].
  split_and!; try done. cbn. unfold ah_end in *. cbn. lia.
Qed.
Next Obligation. intros k fmt ap _ _. by eexists _, _. Qed.
Next Obligation. done. Qed.
Next Obligation. intros k p. by eexists. Qed.

(** * Blocks in use do not overlap *)

(** Two blocks in use are apart, with room for the header of the second. *)
Definition blocks_apart (h : gmap Z (list Z)) : Prop :=
  forall p q l l', h !! p = Some l -> h !! q = Some l' -> p < q -> p + Z.of_nat (length l) + 16 <= q.

(** And they lie in the segment. *)
Definition blocks_placed (P np : Z) (h : gmap Z (list Z)) : Prop :=
  forall p l, h !! p = Some l -> P + 24 <= p /\ p + Z.of_nat (length l) <= P + 8 + 4096 * np.

Lemma live_apart m a bl : wf_blocks bl -> blocks_apart (live m a bl).
Proof.
  intros Hw. revert a. induction Hw as [|[s f] bl Hs Hw IH]; intros a p q l l'; cbn [live]; [done|].
  cbn in Hs. destruct f; [apply IH|].
  destruct (decide (p = a + 16)) as [->|Hp], (decide (q = a + 16)) as [->|Hq]; intros Hl Hl' Hlt.
  - lia.
  - rewrite lookup_insert_eq in Hl. injection Hl as <-. rewrite lookup_insert_ne in Hl' by done.
    apply live_range in Hl'; [|done]. rewrite bytes_at_length by done. lia.
  - rewrite lookup_insert_ne in Hl by done. apply live_range in Hl; [|done]. lia.
  - rewrite lookup_insert_ne in Hl, Hl' by done. by eapply IH.
Qed.

Lemma client_placed {K} {H : Heap K} {HL : HeapLaws K} (k : K) P np h :
  client k P np h -> blocks_apart h /\ blocks_placed P np h.
Proof.
  intros (bl & m & Hinv & <-). split.
  - apply live_apart. apply (inv_bounds _ _ _ _ _ Hinv).
  - intros p l Hl. destruct (client_block _ _ _ _ _ _ _ Hinv Hl) as (pre & s & post & _ & Hp & -> & _ & _ & Hb).
    rewrite bytes_at_length by lia. lia.
Qed.

(** * The properties *)

(** A segment of one page with a block of 8 bytes in use, a free one of 40 and
    one of a byte in use. *)
Definition example_block (m : ram) (a s : Z) (f : bool) : ram :=
  wr32 (wr32 (wr32 (wr32 m a s) (a + 4) (b2z f)) (a + 8) (a + 16)) (a + 12) (a + 16 + s).

Definition example_ram : ram :=
  example_block (example_block (wr32 (wr32 ∅ AH_LO 1) (AH_LO + 4) (AH_LO + 8 + 97)) (AH_LO + 8) 8 false) (AH_LO + 32) 40 true.

Definition example_blocks : list block := [(8, false); (40, true); (1, false)].

Definition example_array : array_heap :=
  ArrayHeap (example_block example_ram (AH_LO + 88) 1 false) 4104 AH_LO.

Lemma example_array_inv : heap_inv example_array AH_LO 1 example_blocks (ah_mem example_array).
Proof.
  split; [|vm_compute; split_and?; done..]. split_and!; [done..|]. by intros a _.
Qed.

Lemma example_array_client : client example_array AH_LO 1 (live (ah_mem example_array) (AH_LO + 8) example_blocks).
Proof. exists example_blocks, (ah_mem example_array). split; [apply example_array_inv|done]. Qed.

(** C13: over any segment that keeps the laws of the interface ([HeapLaws]), well
    formed and of np pages from P on, and for a request small enough that the
    segment's end, the request and two more pages stay below 2 GB
    (P + 4096 * np + size + 8192 < 2^31), kmalloc takes the smallest free block that
    holds the request (the first of these: every fitting free block before it is
    larger), splitting off the rest when it can hold a header and a byte; without
    one it makes a block at the end of the segment, which it grows by the pages
    that the block needs past its end (one more when that excess is a multiple of
    4096), or answers NULL with nothing changed when there is such growth to make. In
    each case the segment stays well formed: no two free blocks are adjacent and at
    most a page lies past the last block in use. *)
Theorem kmalloc_best_fit {K} {H : Heap K} {HL : HeapLaws K} (k : K) P np bl m size :
  heap_inv k P np bl m -> 0 < size -> kmalloc_fits P np size ->
  ⟨ k ⟩ kmalloc size ⟨ r, k' | kmalloc_result P np bl m size r k' ⟩.
Proof. apply wp_kmalloc. Qed.

Lemma kmalloc_best_fit_witness :
  ⟨ example_array ⟩ kmalloc 20
    ⟨ r, k' | kmalloc_result AH_LO 1 example_blocks (ah_mem example_array) 20 r k' ⟩.
Proof. apply (kmalloc_best_fit _ _ _ _ _ _ example_array_inv); [lia|by vm_compute]. Defined.

(** C2: for a client of a segment that keeps the laws of the interface
    ([HeapLaws]; the kernel's own sbrk does not, see kernel_blocks_alias), well formed
    and of np pages from P on, and for a request of one byte or more that is small
    enough (P + 4096 * np + size + 8192 < 2^31; close to 2^32 the sums wrap, see
    kmalloc_size_wraps), kmalloc either answers NULL and changes nothing, or adds
    one entry to the map of the blocks in use: a pointer that was not in use, to at
    least the bytes asked for. Every other block keeps its place and its bytes,
    and no two blocks overlap or leave the segment. *)
Theorem kmalloc_allocates {K} {H : Heap K} {HL : HeapLaws K} (k : K) P np h size :
  client k P np h -> 0 < size -> kmalloc_fits P np size ->
  ⟨ k ⟩ kmalloc size ⟨ r, k' |
    (r = NULL /\ client k' P np h) \/
    exists np' l, r <> NULL /\ h !! r = None /\ size <= Z.of_nat (length l) /\ np <= np' /\
      client k' P np' (<[r := l]> h) /\ blocks_apart (<[r := l]> h) /\ blocks_placed P np' (<[r := l]> h) ⟩.
Proof.
  intros Hc Hsz Hfit. eapply wp_mono; [by apply wp_kmalloc_client|]. cbv beta.
  intros r k' [?|(np' & l & ? & ? & ? & ? & _ & Hc')]; [by left|]. right. exists np', l.
  destruct (client_placed _ _ _ _ Hc'). by split_and!.
Qed.

Lemma kmalloc_allocates_witness :
  ⟨ example_array ⟩ kmalloc 5000 ⟨ r, k' | r = NULL \/ live (ah_mem example_array) (AH_LO + 8) example_blocks !! r = None ⟩.
Proof.
  eapply wp_mono.
  - apply (kmalloc_allocates _ _ _ _ 5000 example_array_client); [lia|by vm_compute].
  - cbv beta. intros r k' [[-> _]|(np' & l & _ & Hn & _)]; [by left|by right].
Defined.

(** The first kmalloc makes the segment: it answers NULL when sbrk fails, and
    the first bytes after the two headers otherwise, the only block in use. *)
Theorem kmalloc_first_use {K} {H : Heap K} {HL : HeapLaws K} (k : K) P m size :
  heap_at k P P 0 m -> 0 < size -> kmalloc_fits P 1 size ->
  ⟨ k ⟩ kmalloc size ⟨ r, k' |
    (r = NULL /\ (heap_at k' P P 0 m \/ client k' P 1 ∅)) \/
    exists np l, r = P + 24 /\ Z.of_nat (length l) = size /\ client k' P np {[r := l]} ⟩.
Proof.
  intros Hk Hsz Hfit. destruct (heap_at_bounds _ _ _ _ _ Hk) as [HP0 _].
  unfold kmalloc. rewrite (proj2 (Z.eqb_neq size 0)) by lia.
  change (mem_add_value size) with (page_infos ← get_first_value; mem_add_from size page_infos).
  apply wp_bind. eapply wp_get_first_fresh; [exact Hk|unfold kmalloc_fits in Hfit; lia|..].
  - intros k' Hk'. unfold mem_add_from. change (NULL =? NULL) with true. apply wp_ret. left. auto.
  - intros k' m' Hinv. eapply wp_mono; [by apply wp_mem_add_from|]. cbv beta.
    intros r k2 [(pre & s & post & m2 & E & _)|[_ [(m2 & Hr & Hinv2 & _)|(-> & _ & Hinv2)]]].
    + by destruct pre.
    + right. change (extent []) with 0 in *. eexists _, (bytes_at m2 r size).
      split; [lia|]. split; [apply bytes_at_length; lia|]. eexists _, m2. split; [exact Hinv2|].
      cbn [app]. rewrite live_one. by replace (P + 8 + 16) with r by lia.
    + left. split; [done|]. right. exists [], m'. by split.
Qed.

Lemma kmalloc_first_use_witness :
  ⟨ ArrayHeap ∅ 0 0 ⟩ kmalloc 100 ⟨ r, k' | r = NULL \/ r = AH_LO + 24 ⟩.
Proof.
  eapply wp_mono.
  - apply (kmalloc_first_use (ArrayHeap ∅ 0 0) AH_LO ∅ 100); [|lia|by vm_compute].
    split_and!; [done..|]. by intros a _.
  - cbv beta. intros r k' [[-> _]|(np & l & -> & _)]; [by left|by right].
Defined.

(** C3: for a client of a well-formed segment that keeps the laws of the interface
    ([HeapLaws]), free of any value takes that pointer's entry, and only that, out
    of the map of the blocks in use: a pointer in use is released, one that is not
    (a second free, or an address kmalloc never gave) is ignored, and every other
    block keeps its place and its bytes. The segment never grows. *)
Theorem free_releases {K} {H : Heap K} {HL : HeapLaws K} (k : K) P np h p :
  client k P np h ->
  ⟨ k ⟩ free p ⟨ _, k' | exists np', np' <= np /\ client k' P np' (delete p h) ⟩.
Proof. apply wp_free_client. Qed.

Lemma free_releases_witness :
  ⟨ example_array ⟩ free (AH_LO + 24) ⟨ _, k' | exists np' h, np' <= 1 /\ client k' AH_LO np' h /\ h !! (AH_LO + 24) = None ⟩.
Proof.
  eapply wp_mono.
  - apply (free_releases _ _ _ _ (AH_LO + 24) example_array_client).
  - cbv beta. intros _ k' (np' & Hnp & Hc). eexists np', _. split; [done|]. split; [exact Hc|apply lookup_delete_eq].
Defined.

(** C14: over any well-formed segment that keeps the laws of the interface
    ([HeapLaws]), free joins the block with a free block after it and a free block
    before it; when the result is the last block, it gives back every whole page
    from its header on, and with at least one page the block goes too. The segment
    stays well formed. *)
Theorem free_coalesces {K} {H : Heap K} {HL : HeapLaws K} (k : K) P np bl m p :
  heap_inv k P np bl m -> ⟨ k ⟩ free p ⟨ _, k' | free_result P np bl m p k' ⟩.
Proof. apply wp_free. Qed.

Lemma free_coalesces_witness :
  ⟨ example_array ⟩ free (AH_LO + 24) ⟨ _, k' | free_result AH_LO 1 example_blocks (ah_mem example_array) (AH_LO + 24) k' ⟩.
Proof. apply (free_coalesces _ _ _ _ _ _ example_array_inv). Defined.

(** C25: for a client of a well-formed segment that keeps the laws of the interface
    ([HeapLaws]), calloc allocates nmemb * size bytes, the product taken modulo 2^32
    and not 0, as kmalloc does, and its block starts with that many zeros, or it
    answers NULL and changes nothing; this provided the product so taken is small
    enough (P + 4096 * np + total + 8192 < 2^31 for a segment of np pages from P
    on: for a larger one kmalloc's own sums can wrap, see kmalloc_size_wraps). *)
Theorem calloc_zeroes {K} {H : Heap K} {HL : HeapLaws K} (k : K) P np h nmemb size :
  client k P np h -> let total := w32 (nmemb * size) in 0 < total -> kmalloc_fits P np total ->
  ⟨ k ⟩ calloc nmemb size ⟨ r, k' |
    (r = NULL /\ client k' P np h) \/
    exists np' l, r <> NULL /\ h !! r = None /\ client k' P np' (<[r := l]> h) /\
      take (Z.to_nat total) l = replicate (Z.to_nat total) 0 ⟩.
Proof.
  intros Hc total Ht Hfit. eapply wp_mono; [by apply wp_calloc_client|]. cbv beta.
  intros r k' [?|(np' & l & _ & ? & ? & _ & ? & ?)]; [by left|]. right. by exists np', l.
Qed.

Lemma calloc_zeroes_witness :
  ⟨ example_array ⟩ calloc 6 7 ⟨ r, k' | r = NULL \/ exists np' h l, client k' AH_LO np' h /\ h !! r = Some l /\
    take 42 l = replicate 42 0 ⟩.
Proof.
  eapply wp_mono.
  - apply (calloc_zeroes _ _ _ _ 6 7 example_array_client); by vm_compute.
  - cbv beta. intros r k' [[-> _]|(np' & l & _ & _ & Hc & Hl)]; [by left|]. right. eexists np', _, l.
    split; [exact Hc|]. split; [apply lookup_insert_eq|exact Hl].
Defined.

(** C26: for a client of a well-formed segment that keeps the laws of the interface
    ([HeapLaws]), and for a size that is small enough (P + 4096 * np + size + 8192 <
    2^31 for a segment of np pages from P on: for a larger one kmalloc's sums can
    wrap, see kmalloc_size_wraps), realloc of a block in use: to 0 bytes it releases
    the block; to a size it already has it answers the same pointer and changes
    nothing; to more it answers NULL with nothing changed, or a new block that
    starts with the old bytes. The old block is then still in use: it is never
    released. Of NULL, realloc is kmalloc. *)
Theorem realloc_keeps_old {K} {H : Heap K} {HL : HeapLaws K} (k : K) P np h p l size :
  client k P np h -> h !! p = Some l -> 0 <= size -> kmalloc_fits P np size ->
  realloc NULL size k = kmalloc size k /\
  ⟨ k ⟩ realloc p size ⟨ r, k' |
    if size =? 0 then r = NULL /\ exists np', client k' P np' (delete p h)
    else if size <=? Z.of_nat (length l) then r = p /\ k' = k
    else (r = NULL /\ client k' P np h) \/
      exists np' l', r <> p /\ client k' P np' (<[r := l']> h) /\ <[r := l']> h !! p = Some l /\
        take (length l) l' = l /\ size <= Z.of_nat (length l') ⟩.
Proof.
  intros Hc Hl Hsz Hfit. split; [apply realloc_null|].
  eapply wp_mono; [by eapply wp_realloc_block|]. cbv beta. intros r k' Hr.
  destruct (size =? 0); [done|]. destruct (size <=? _); [done|].
  destruct Hr as [?|(np' & l' & _ & _ & Hn & ? & Ht & ?)]; [by left|]. right. exists np', l'.
  assert (r <> p) by congruence. by rewrite lookup_insert_ne.
Qed.

Lemma realloc_keeps_old_witness :
  ⟨ example_array ⟩ realloc (AH_LO + 24) 30 ⟨ r, k' | r = NULL \/
    exists np' h l, client k' AH_LO np' h /\ h !! (AH_LO + 24) = Some l /\ r <> AH_LO + 24 ⟩.
Proof.
  eapply wp_mono.
  - refine (proj2 (realloc_keeps_old _ _ _ _ (AH_LO + 24) (replicate 8 0) 30 example_array_client _ _ _)); [|lia|by vm_compute].
    refine (bool_decide_unpack _ _). vm_compute. exact I.
  - cbv beta. change (30 =? 0) with false. change (30 <=? Z.of_nat (length (replicate 8 0))) with false. cbn iota.
    intros r k' [[-> _]|(np' & l' & Hne & Hc & Ho & _)]; [by left|]. right. eexists np', _, _.
    split; [exact Hc|]. split; [exact Ho|exact Hne].
Defined.

(** C27: in a well-formed segment that keeps the laws of the interface ([HeapLaws]), a
    request so large that max_pos + 16 + size passes 2^32 is not refused: with room
    for a header in the last page kmalloc answers a pointer, without growing the
    segment, and leaves max_pos below that pointer, where the next block will
    go. *)
Theorem kmalloc_size_wraps {K} {H : Heap K} {HL : HeapLaws K} (k : K) P np bl m size :
  heap_inv k P np bl m -> let top := P + 8 + extent bl in
  extent bl + 16 <= 4096 * np -> 4294967296 <= top + 16 + size -> 2147483648 <= size < 4294967296 ->
  ⟨ k ⟩ kmalloc size ⟨ r, k' | r = top + 16 /\ exists m',
    heap_at k' P (P + 8 + 4096 * np) P m' /\ rd32 m' (pi_max_pos P) = top + 16 + size - 4294967296 /\
    top + 16 + size - 4294967296 < r ⟩.
Proof.
  intros Hinv top Hroom Hwrap Hsz. pose proof (inv_bounds _ _ _ _ _ Hinv) as (HP & Hbrk & Hwf & Hext).
  pose proof (wp_max_pos _ _ _ _ _ Hinv) as Hmax. pose proof (wp_nb_pages _ _ _ _ _ Hinv) as Hpages.
  pose proof (inv_small _ _ _ _ _ Hinv) as Hsm. pose proof (inv_np _ _ _ _ _ Hinv) as Hnp.
  unfold kmalloc. rewrite (proj2 (Z.eqb_neq size 0)) by lia.
  change (mem_add_value size) with (page_infos ← get_first_value; mem_add_from size page_infos).
  apply wp_bind. eapply wp_get_first_value; [exact Hinv|]. unfold mem_add_from.
  rewrite (proj2 (Z.eqb_neq P NULL)) by (unfold NULL; lia). apply wp_bind.
  apply (wp_mem_search_place _ _ _ _ _ size _ Hinv); [lia|..].
  { intros t b Hb pre post k' m' E _ Hle _. exfalso.
    destruct (inv_block _ _ _ _ _ Hinv pre b true post E) as (_ & Ha & He & _). lia. }
  intros _. change (negb (NULL =? NULL)) with false. cbn iota. apply wp_bind.
  unfold pagesize_add_update, sizeof_mem_infos, sizeof_page_infos, PAGE_SIZE, FRAME_SIZE.
  apply wp_bind, Hmax. apply wp_bind, Hpages. fold top. cbv zeta.
  assert (Htop : top = P + 8 + extent bl) by done. clearbody top.
  assert (Hw : w32 (top + 16 + size) = top + 16 + size - 4294967296) by (wunfold; Z.div_mod_to_equations; lia).
  rewrite Hw, (w32_small (np * 4096)), (w32_small (P + 8 + np * 4096)) by lia.
  rewrite (proj2 (Z.ltb_ge (P + 8 + np * 4096) (top + 16 + size - 4294967296))) by lia. change (0 <? 0) with false. apply wp_ret.
  change (SUCCES =? FAILED) with false. cbn iota. pose proof (inv_heap _ _ _ _ _ Hinv) as Hk.
  unfold add_block, mi_size, mi_is_free, mi_begin, mi_next, pi_max_pos, sizeof_mem_infos in *.
  apply wp_bind, Hmax. rewrite <- Htop. words. do 3 hstore. hload. words. rewrite Hw. hstore. hload.
  rewrite (w32_small (_ - _)) by lia. hstore. eapply wp_hload32; [eassumption|lia|lia|]. rd_simpl. words.
  split; [done|]. eexists. split; [eassumption|]. split; [rd_simpl; words; lia|lia].
Qed.

Lemma kmalloc_size_wraps_witness :
  ⟨ example_array ⟩ kmalloc 0xF8000000 ⟨ r, k' | r = AH_LO + 121 ⟩.
Proof.
  eapply wp_mono.
  - apply (kmalloc_size_wraps _ _ _ _ _ 0xF8000000 example_array_inv); vm_compute; try done; lia.
  - cbv beta. intros r k' [-> _]. reflexivity.
Defined.
