(* ===== verification/Dump.v ===== *)
(** mem_dump (src/kmalloc/mem_infos/mem_infos.c) against the list of blocks: one
    line for each block in use, in the order of the addresses. *)
From S2P Require Import Prelude Memory State Console Kprintf Kmalloc Blocks Alloc Contract.
Local Open Scope Z_scope.
Local Open Scope kern_scope.
Local Set Default Proof Using "Type*".

Section dump.
Context {K : Type} {H : Heap K} {HL : HeapLaws K}.

(** The line of a block of [s] bytes whose header is at [a]. *)
Definition dump_line (a s : Z) : prog K unit :=
  hkprintf ("%p - %p : %u octets" +:+ nl) [AInt (a + 16); AInt (a + 16 + s); AInt s];; skip.

(** The lines of the blocks in use among those that start at [a]. *)
Fixpoint dump_lines (a : Z) (bl : list block) : prog K unit :=
  match bl with
  | [] => skip
  | (s, f) :: bl => when (negb f) (dump_line a s);; dump_lines (a + 16 + s) bl
  end.

Lemma heap_at_inv k k' P np bl m : heap_inv k P np bl m -> heap_at k' P (P + 8 + 4096 * np) P m -> heap_inv k' P np bl m.
Proof. intros [_ ? ? ? ? ? ? ? ?] ?. by split. Qed.

Lemma dump_line_eq k P np bl m a s : heap_inv k P np bl m ->
  exists k', dump_line a s k = Ret tt k' /\ heap_inv k' P np bl m.
Proof.
  intros Hinv. assert (Hw : wp (dump_line a s) (fun _ k' => heap_inv k' P np bl m) k).
  { apply wp_bind. apply (wp_hkprintf _ _ _ _ _ _ _ _ (inv_heap _ _ _ _ _ Hinv)).
    - refine (bool_decide_unpack _ _). vm_compute. exact I.
    - lazymatch goal with |- takes ?cs _ => let v := eval vm_compute in cs in change cs with v end. exact I.
    - intros _ k' Hk. apply wp_ret. by apply (heap_at_inv k). }
  destruct (wp_elim _ _ _ Hw) as ([] & k' & He & Hk). by exists k'.
Qed.

Lemma dump_lines_eq P np all m bl : forall a k, heap_inv k P np all m ->
  exists k', dump_lines a bl k = Ret tt k' /\ heap_inv k' P np all m.
Proof.
  induction bl as [|[s f] bl IH]; intros a k Hk; [by exists k|]. cbn [dump_lines]. destruct f; cbn [negb when].
  - destruct (IH (a + 16 + s) k Hk) as (k' & He & Hk'). by exists k'.
  - destruct (dump_line_eq k P np all m a s Hk) as (k1 & He1 & Hk1).
    destruct (IH (a + 16 + s) k1 Hk1) as (k' & He & Hk'). exists k'. by rewrite (bind_ret_eq _ _ _ _ _ He1).
Qed.

(** mem_dump prints the address, the end and the size of each block in use, in the
    order of the addresses, and nothing else; the segment stays as it was. *)
Theorem mem_dump_lists_blocks k P np bl m : heap_inv k P np bl m ->
  exists k', mem_dump k = Ret tt k' /\ dump_lines (P + 8) bl k = Ret tt k' /\ heap_inv k' P np bl m.
Proof.
  intros Hinv. pose proof (inv_bounds _ _ _ _ _ Hinv) as (HP & Hbrk & Hwf & Hext). pose proof (inv_small _ _ _ _ _ Hinv) as Hsm.
  destruct (dump_lines_eq P np bl m bl (P + 8) k Hinv) as (kf & Hf & Hinvf).
  enough (Hw : wp mem_dump (fun _ k' => k' = kf) k) by (exists kf; split; [by apply wp_unit_eq|by split]).
  unfold mem_dump, get_first_value. apply wp_bind, wp_bind. eapply wp_get_first; [apply Hinv|].
  rewrite (proj2 (Z.eqb_neq P 0)) by lia. apply wp_ret. unfold sizeof_page_infos. rewrite w32_small by lia.
  apply (wp_while (fun a k' => exists pre rest, bl = pre ++ rest /\ a = P + 8 + extent pre /\ heap_inv k' P np bl m /\
      dump_lines a rest k' = Ret tt kf) (fun a _ => P + 8 + extent bl - a)).
  - exists [], bl. split; [done|]. split; [unfold extent; cbn; lia|]. by split.
  - lia.
  - intros a k' (pre & rest & E & -> & _). rewrite E, extent_app.
    rewrite E in Hwf. apply Forall_app in Hwf as [_ Hw]. pose proof (extent_nonneg _ Hw). lia.
  - intros a k' (pre & rest & E & -> & Hk & Hd). rewrite E in Hwf. apply Forall_app in Hwf as [Hw1 Hw2].
    pose proof (extent_nonneg _ Hw1). rewrite (proj2 (Z.eqb_neq _ 0)) by lia.
    apply wp_bind, (wp_max_pos _ _ _ _ _ Hk). destruct rest as [|[s f] rest].
    + rewrite app_nil_r in E. subst pre. rewrite Z.ltb_irrefl. apply wp_ret. by injection Hd.
    + destruct (inv_block _ _ _ _ _ Hk pre s f rest E) as (Hs & _ & He & _).
      rewrite (proj2 (Z.ltb_lt _ _)) by lia. cbn [dump_lines] in Hd.
      pose proof (wp_header _ _ _ _ _ Hk pre s f rest E) as Hh. cbv zeta in Hh. set (a := P + 8 + extent pre) in *.
      apply wp_bind, Hh. apply wp_bind.
      apply (wp_mono _ (fun _ k1 => heap_inv k1 P np bl m /\ dump_lines (a + 16 + s) rest k1 = Ret tt kf)).
      * destruct f; cbn [b2z].
        { change (1 =? FALSE) with false. cbn iota. by apply wp_ret. }
        change (0 =? FALSE) with true. cbn iota. cbn [negb when] in Hd.
        destruct (dump_line_eq k' P np bl m a s Hk) as (k1 & He1 & Hk1). rewrite (bind_ret_eq _ _ _ _ _ He1) in Hd.
        apply wp_bind, Hh, wp_bind, Hh, wp_bind, Hh. eapply wp_eq; [exact He1|by split].
      * intros [] k1 [Hk1 Hd1]. pose proof (wp_header _ _ _ _ _ Hk1 pre s f rest E) as Hh1. cbv zeta in Hh1. fold a in Hh1.
        apply wp_bind, Hh1, wp_ret. split; [|lia]. exists (pre ++ [(s, f)]), rest.
        rewrite <- app_assoc. split; [done|]. split; [rewrite extent_app, extent_one; unfold a; lia|]. by split.
Qed.
End dump.

(** The array of bytes with three blocks, of 8 and 1 bytes in use. *)
Lemma mem_dump_lists_blocks_witness :
  exists k', mem_dump example_array = Ret tt k' /\ dump_lines (AH_LO + 8) [(8, false); (40, true); (1, false)] example_array = Ret tt k'.
Proof.
  destruct (mem_dump_lists_blocks _ _ _ _ _ example_array_inv) as (k' & H1 & H2 & _).
  exists k'. split; [exact H1|exact H2].
Defined.
