(* ===== verification/Session.v ===== *)
(** Whole runs of a client of the allocator: what a program does with kmalloc,
    free, calloc, realloc and the bytes of its blocks refines what it would do
    on a map of blocks. *)
From S2P Require Import Prelude Memory State Kmalloc Blocks Alloc Live Contract.
Local Open Scope Z_scope.
Local Open Scope kern_scope.
Local Set Default Proof Using "Type*".

(** * Clients *)

(** What a client can do with the heap. *)
Inductive call :=
| Malloc (size : Z)
| Free (p : Z)
| Calloc (nmemb size : Z)
| Realloc (p size : Z)
| Load (a : Z)
| Store (a v : Z).

(** A client that is done, or makes a call and goes on with its result. *)
Inductive script :=
| Done
| Call (c : call) (next : Z -> script).

(** * The abstract heap: a map from the pointers in use to their bytes *)

Inductive spec_call (h : gmap Z (list Z)) : call -> Z -> gmap Z (list Z) -> Prop :=
| spec_malloc_null size : spec_call h (Malloc size) NULL h
| spec_malloc size r l : 0 < size -> r <> NULL -> h !! r = None -> size <= Z.of_nat (length l) ->
    blocks_apart (<[r := l]> h) -> spec_call h (Malloc size) r (<[r := l]> h)
| spec_free p : spec_call h (Free p) 0 (delete p h)
| spec_calloc_null nmemb size : spec_call h (Calloc nmemb size) NULL h
| spec_calloc nmemb size r l : 0 < w32 (nmemb * size) -> r <> NULL -> h !! r = None ->
    take (Z.to_nat (w32 (nmemb * size))) l = replicate (Z.to_nat (w32 (nmemb * size))) 0 ->
    w32 (nmemb * size) <= Z.of_nat (length l) ->
    blocks_apart (<[r := l]> h) -> spec_call h (Calloc nmemb size) r (<[r := l]> h)
| spec_realloc_null size r h' : spec_call h (Malloc size) r h' -> spec_call h (Realloc NULL size) r h'
| spec_realloc_zero p : p <> NULL -> spec_call h (Realloc p 0) NULL (delete p h)
| spec_realloc_same p l size : h !! p = Some l -> 0 < size <= Z.of_nat (length l) -> spec_call h (Realloc p size) p h
| spec_realloc_fail p l size : h !! p = Some l -> Z.of_nat (length l) < size -> spec_call h (Realloc p size) NULL h
| spec_realloc_move p l size r l' : h !! p = Some l -> Z.of_nat (length l) < size -> r <> NULL -> h !! r = None ->
    take (length l) l' = l -> size <= Z.of_nat (length l') -> blocks_apart (<[r := l']> h) ->
    spec_call h (Realloc p size) r (<[r := l']> h)
| spec_load p l i v : h !! p = Some l -> l !! i = Some v -> spec_call h (Load (p + Z.of_nat i)) v h
| spec_store p l i v : h !! p = Some l -> (i < length l)%nat ->
    spec_call h (Store (p + Z.of_nat i) v) 0 (<[p := <[i := w8 v]> l]> h).

(** The calls a client may make: sizes up to [S], reallocation of its own
    blocks, accesses inside them; it may free anything. *)
Definition admissible (S : Z) (h : gmap Z (list Z)) (c : call) : Prop :=
  match c with
  | Malloc size => 0 <= size <= S
  | Free _ => True
  | Calloc nmemb size => w32 (nmemb * size) <= S
  | Realloc p size => 0 <= size <= S /\ (p = NULL \/ is_Some (h !! p))
  | Load a | Store a _ => exists p l i, h !! p = Some l /\ (i < length l)%nat /\ a = p + Z.of_nat i
  end.

(** A client that only makes such calls, whatever the results. *)
Inductive safe (S : Z) (h : gmap Z (list Z)) : script -> Prop :=
| safe_done : safe S h Done
| safe_call c next : admissible S h c -> (forall r h', spec_call h c r h' -> safe S h' (next r)) ->
    safe S h (Call c next).

(** The results of a run. *)
Inductive spec_run (h : gmap Z (list Z)) : script -> list Z -> gmap Z (list Z) -> Prop :=
| spec_done : spec_run h Done [] h
| spec_step c next r h1 rs h2 : spec_call h c r h1 -> spec_run h1 (next r) rs h2 ->
    spec_run h (Call c next) (r :: rs) h2.

(** * The allocator *)

Section sessions.
Context {K : Type} {H : Heap K}.

Definition run_call (c : call) : prog K Z :=
  match c with
  | Malloc size => kmalloc size
  | Free p => free p;; mret 0
  | Calloc nmemb size => calloc nmemb size
  | Realloc p size => realloc p size
  | Load a => hload8 a
  | Store a v => hstore8 a v;; mret 0
  end.

Fixpoint run (s : script) : prog K (list Z) :=
  match s with
  | Done => mret []
  | Call c next => r ← run_call c; rs ← run (next r); mret (r :: rs)
  end.

Context {HL : HeapLaws K}.

Lemma wp_kmalloc_0 (k : K) (Q : Z -> K -> Prop) : Q NULL k -> wp (kmalloc 0) Q k.
Proof. done. Qed.

Lemma wp_calloc_0 (k : K) nmemb size (Q : Z -> K -> Prop) : w32 (nmemb * size) = 0 -> Q NULL k -> wp (calloc nmemb size) Q k.
Proof. intros E HQ. unfold calloc. rewrite E. done. Qed.

Lemma client_apart (k : K) P np h : client k P np h -> blocks_apart h.
Proof. intros Hc. by eapply client_placed. Qed.
#[local] Hint Resolve client_apart : core.

Lemma wp_malloc_call k P np h size : client k P np h -> 0 <= size -> kmalloc_fits P np size ->
  wp (kmalloc size) (fun r k' => exists np' h', spec_call h (Malloc size) r h' /\ client k' P np' h') k.
Proof.
  intros Hc Hs Hf. destruct (decide (size = 0)) as [->|].
  { apply wp_kmalloc_0. exists np, h. split; [constructor|done]. }
  eapply wp_mono; [apply wp_kmalloc_client; done || lia|]. cbv beta.
  intros r k' [[-> ?]|(np' & l & ? & ? & ? & ? & _ & ?)].
  - exists np, h. split; [constructor|done].
  - eexists np', _. split; [|done]. constructor; eauto || lia.
Qed.

(** One admissible call. *)
Lemma wp_run_call S k P np h c : client k P np h -> kmalloc_fits P np S -> admissible S h c ->
  wp (run_call c) (fun r k' => exists np' h', spec_call h c r h' /\ client k' P np' h') k.
Proof.
  intros Hc Hf Ha. unfold kmalloc_fits in Hf.
  assert (Hfit : forall size, size <= S -> kmalloc_fits P np size) by (unfold kmalloc_fits; lia).
  destruct c as [size|p|nmemb size|p size|a|a v]; cbn [run_call admissible] in *.
  - apply (wp_malloc_call _ P np); [done|lia|apply Hfit; lia].
  - apply wp_bind. eapply wp_mono; [by apply wp_free_client|]. cbv beta. intros _ k' (np' & _ & Hc').
    apply wp_ret. eexists np', _. split; [constructor|done].
  - pose proof (w32_range (nmemb * size)). destruct (decide (w32 (nmemb * size) = 0)).
    { apply wp_calloc_0; [done|]. exists np, h. split; [constructor|done]. }
    eapply wp_mono; [apply (wp_calloc_client _ P np h); [done|lia|by apply Hfit]|]. cbv beta.
    intros r k' [[-> ?]|(np' & l & ? & ? & ? & ? & ? & ?)].
    + exists np, h. split; [constructor|done].
    + eexists np', _. split; [|done]. constructor; eauto || lia.
  - destruct Ha as [Hs [->|[l Hl]]].
    { unfold wp. rewrite realloc_null. eapply wp_mono; [apply (wp_malloc_call _ P np h); [done|lia|apply Hfit; lia]|].
      cbv beta. intros r k' (np' & h' & ? & ?). exists np', h'. split; [by constructor|done]. }
    pose proof (client_bound _ _ _ _ _ _ Hc Hl) as (Hp & _).
    eapply wp_mono; [apply (wp_realloc_block _ _ _ _ _ _ _ Hc Hl); [lia|apply Hfit; lia]|]. cbv beta. intros r k'.
    destruct (Z.eqb_spec size 0) as [->|]; [|destruct (Z.leb_spec size (Z.of_nat (length l)))].
    + intros [-> (np' & ?)]. eexists np', _. split; [|done]. constructor. unfold NULL. lia.
    + intros [-> ->]. exists np, h. split; [|done]. econstructor; [done|lia].
    + intros [[-> ?]|(np' & l' & ? & ? & ? & ? & ? & ?)].
      * exists np, h. split; [|done]. by econstructor.
      * eexists np', _. split; [|done]. eapply (spec_realloc_move _ p l); eauto.
  - destruct Ha as (p & l & i & Hl & Hi & ->). eapply wp_client_load; [done..|lia|]. intros v Hv.
    rewrite Nat2Z.id in Hv. exists np, h. split; [by econstructor|done].
  - destruct Ha as (p & l & i & Hl & Hi & ->). apply wp_bind. eapply wp_client_store; [done..|lia|]. intros k' Hc'.
    rewrite Nat2Z.id in Hc'. apply wp_ret. eexists np, _. split; [by constructor|done].
Qed.

Lemma wp_run_script M S : (forall k : K, hv_brk (view k) <= M) -> M + S + 8192 < 2147483648 ->
  forall s h, safe S h s -> forall k P np, client k P np h ->
  wp (run s) (fun rs k' => exists np' h', spec_run h s rs h' /\ client k' P np' h') k.
Proof.
  intros HM HS s h Hs. induction Hs as [h|h c next Ha Hnext IH]; intros k P np Hc; cbn [run].
  { apply wp_ret. exists np, h. split; [constructor|done]. }
  assert (Hf : kmalloc_fits P np S).
  { destruct Hc as (bl & m & Hinv & _). destruct (inv_heap _ _ _ _ _ Hinv) as (_ & Hb & _).
    specialize (HM k). unfold kmalloc_fits. lia. }
  apply wp_bind. eapply wp_mono; [by eapply (wp_run_call S)|]. cbv beta. intros r k1 (np1 & h1 & Hspec & Hc1).
  apply wp_bind. eapply wp_mono; [by eapply IH|]. cbv beta. intros rs k2 (np2 & h2 & Hrun & Hc2).
  apply wp_ret. exists np2, h2. split; [by econstructor|done].
Qed.
End sessions.

(** * The property *)

(** C4: over a segment that keeps the laws of the interface ([HeapLaws]) and never
    ends past M, the allocator refines a map of blocks: a client that would only
    allocate sizes up to a bound S (M + S + 8192 < 2^31), free, reallocate its blocks
    and access bytes inside them runs on the allocator without an error and to its
    end, and its results are results it can have on the map, where blocks appear
    with at least the size asked for, keep their bytes, and disappear when they
    are freed. *)
Theorem sessions_refine_map {K} {H : Heap K} {HL : HeapLaws K} M S s h (k : K) P np :
  (forall k : K, hv_brk (view k) <= M) -> M + S + 8192 < 2147483648 ->
  client k P np h -> safe S h s ->
  ⟨ k ⟩ run s ⟨ rs, k' | exists np' h', spec_run h s rs h' /\ client k' P np' h' ⟩.
Proof. intros HM HS Hc Hs. by eapply wp_run_script. Qed.

(** A client that allocates a block, writes its first byte, reads it back and
    frees the block. *)
Definition example_script : script :=
  Call (Malloc 100) (fun p =>
    if p =? NULL then Done
    else Call (Store p 42) (fun _ => Call (Load p) (fun _ => Call (Free p) (fun _ => Done)))).

Lemma example_script_safe h : safe 1000 h example_script.
Proof.
  constructor; [cbn; lia|]. intros p h' Hp. inversion Hp as [|? ? l ? Hr Hn Hl| | | | | | | | | |]; subst; [constructor|].
  rewrite (proj2 (Z.eqb_neq p NULL)) by done. constructor.
  - exists p, l, 0%nat. rewrite lookup_insert_eq. split; [done|]. split; lia.
  - intros r h1 Hs. inversion Hs as [| | | | | | | | | | |q l2 i v Hq Hi]; subst. constructor.
    + eexists q, _, i. rewrite lookup_insert_eq. split; [done|]. by rewrite length_insert.
    + intros v h2 _. constructor; [done|]. intros; constructor.
Qed.

Lemma sessions_refine_map_witness :
  ⟨ example_array ⟩ run example_script ⟨ rs, k' | exists np' h',
    spec_run (live (ah_mem example_array) (AH_LO + 8) example_blocks) example_script rs h' /\ client k' AH_LO np' h' ⟩.
Proof.
  apply (sessions_refine_map (AH_LO + AH_MAX) 1000 example_script _ example_array AH_LO 1).
  - intros k. cbn. unfold ah_end, AH_LO, AH_MAX. lia.
  - by vm_compute.
  - exact example_array_client.
  - apply example_script_safe.
Defined.
