(* ===== verification/Kheap.v ===== *)
(** The allocator as the kernel runs it: over its page tables, its sbrk and its
    console. *)
From S2P Require Import Prelude Memory State Console Kprintf Interrupts Pages Mmu Tables Frames Sbrk Kmalloc.
Local Open Scope Z_scope.
Local Open Scope kern_scope.

Section kernel_heap.
Context {LY : Layout}.

(** An access through the page tables; what is not mapped faults, and the page
    fault handler never returns. *)
Definition translated {A} (a : Z) (f : Z -> prog kst A) : prog kst A := fun k =>
  match mmu (mem k) kpd a with Some pa => f pa k | None => Spin k end.

Definition load8_at (pa : Z) : prog kst Z := gets (fun k => rd8 (mem k) pa).
Definition store8_at (v pa : Z) : prog kst unit := modify (set_mem (fun m => wr8 m pa v)).

(** A word that is aligned to four bytes lies in one page; one that is not is
    read and written a byte at a time. *)
Definition vload32 (a : Z) : prog kst Z :=
  b0 ← translated a load8_at;
  b1 ← translated (w32 (a + 1)) load8_at;
  b2 ← translated (w32 (a + 2)) load8_at;
  b3 ← translated (w32 (a + 3)) load8_at;
  mret (b0 + 256 * b1 + 65536 * b2 + 16777216 * b3).

Definition vstore32 (a v : Z) : prog kst unit :=
  translated a (store8_at v);;
  translated (w32 (a + 1)) (store8_at (v / 256));;
  translated (w32 (a + 2)) (store8_at (v / 65536));;
  translated (w32 (a + 3)) (store8_at (v / 16777216)).

#[export] Instance kernel_Heap : Heap kst := {
  hload8 a := translated a load8_at;
  hstore8 a v := translated a (store8_at v);
  hload32 := vload32;
  hstore32 := vstore32;
  hsbrk := sbrk;
  hkprintf := kprintf;
  get_first := gets first_value;
  put_first p := modify (set_first p)
}.
End kernel_heap.

(** Runs on a machine with 256 frames and an empty heap. *)
#[local] Instance example_kernel : Heap kst := @kernel_Heap example_layout.

Definition answer {A} (p : prog kst A) : option A :=
  match p example_heap with Ret a _ => Some a | _ => None end.

(** On the kernel's own page tables, kmalloc gives a first block, 24 bytes
    above the heap's base; once it is freed, the pages are given back but stay
    mapped, so that sbrk never works again and every later kmalloc is NULL. *)
Theorem kernel_kmalloc_after_free :
  answer (kmalloc 100) = Some 0x08000018 /\
  answer (p ← kmalloc 100; free p;; kmalloc 100) = Some NULL.
Proof. split; vm_compute; reflexivity. Qed.

(** On the kernel's own page tables, two blocks in use share their bytes: a
    byte written 4 KB above the first block, in the second, is read back in the
    first, because every page of the heap is physical page 0. *)
Theorem kernel_blocks_alias :
  answer (p ← kmalloc 100; q ← kmalloc 8000;
          hstore8 p 1;; hstore8 (p + 4096) 42;; v ← hload8 p; mret (p, q, v)) =
    Some (0x08000018, 0x0800008C, 42).
Proof. vm_compute. reflexivity. Qed.
