(* ===== verification/Boot.v ===== *)
(** The boot sequence and the life of the kernel after it (src/main.c): the
    order of the initialisations, the interrupts that are then taken, and the
    user program that is looked for. *)
From S2P Require Import Prelude Memory State Console Kprintf Vga Pic Interrupts Segmentation Devices Pages Mmu Tables Frames Sbrk.
From stdpp Require Import relations.
Local Open Scope Z_scope.
Local Open Scope kern_scope.
Local Set Default Proof Using "Type*".

Definition MAGIC_NUMBER : Z := 0x2BADB002.

Section boot.
Context {HW : Hardware} {LY : Layout}.

(** * The functions behind g_handlers, and an interrupt *)

Definition call_handler (h : handler) (r : regs) : prog kst unit :=
  match h with
  | page_fault_handler_ptr => page_fault_handler r
  | pit_handler_ptr => pit_handler r
  | keyboard_handler_ptr => keyboard_handler r
  | uart_handler_ptr => uart_handler r
  end.

Definition interrupt (r : regs) : prog kst unit := irq_handler call_handler r.

(** * src/main.c *)

(** [rounds] lists, for each round of the endless loop, the polls of its
    sleep; the loop is observed for that many rounds. *)
Definition hello_loop (rounds : list (list (prog kst unit))) : prog kst unit :=
  foldr (fun polls rest => printk ("hello world !" +:+ nl);; sleep polls 1;; rest) nofuel rounds.

Definition print_hello_world (rounds : list (list (prog kst unit))) : prog kst unit :=
  printk nl;; hello_loop rounds.

(** Every test in it is commented out. *)
Definition run_debug_test : prog kst unit := skip.

Definition prepare_userland : prog kst unit :=
  let func_start := sym_main_userland in
  func_end ← while32 (fun func_end =>
    c ← load8 func_end;
    if negb (c =? 0xC3) then mret (inl (w32 (func_end + 1))) else mret (inr func_end)) func_start;
  let func_size := w32 (func_end - func_start + 1) in
  kprintf ("func_start: %p => %p [%d]" +:+ nl) [AInt func_start; AInt func_end; AInt func_size];;
  skip.

Definition main_userland : prog kst unit := spin.

(** main_new up to and with run_debug_test, once the magic number is right. *)
Definition main_init : prog kst unit :=
  init_flat_gdt;;
  irq_init PICS_BASE;;
  kb_init;;
  pit_init 100;;
  uart_init SERIAL_PORT;;
  ready ← uart_is_init;
  when (ready =? FALSE) (printk "uart_init failed.");;
  interrupts_init;;
  init_page_tables;;
  mbi ← gets multiboot_info;
  init_frame_alloc mbi;;
  run_debug_test.

Definition main_new (polls : list (prog kst unit)) (rounds : list (list (prog kst unit))) : prog kst unit :=
  finalize_pagination;;
  magic ← gets magic_number;
  if negb (magic =? MAGIC_NUMBER) then printk "Invalid magic number"
  else
    main_init;;
    sleep polls 1;;
    prepare_userland;;
    print_hello_world rounds.

(** enable_paging of crt0.S, up to its jump to main_new. *)
Definition enable_paging : prog kst unit := emit (EEnablePaging (w32 (sym_page_dir - SYSTEM_ADDR_BASE))).

Definition main (magic_number multiboot_info : Z) : prog kst unit :=
  modify (set_kfs_context magic_number (w32 (SYSTEM_ADDR_BASE + multiboot_info)));;
  init_page_directory;;
  enable_paging.

(** The whole boot. *)
Definition boot (magic mbi : Z) (polls : list (prog kst unit)) (rounds : list (list (prog kst unit))) : prog kst unit :=
  main magic mbi;; main_new polls rounds.

End boot.

(** * Proofs *)

(** ** Interrupts in the running kernel *)

(** The table of handlers that the initialisations leave. *)
Definition boot_handlers (t : list (option handler)) : list (option handler) :=
  <[36%nat := Some uart_handler_ptr]> (<[32%nat := Some pit_handler_ptr]>
    (<[33%nat := Some keyboard_handler_ptr]> (<[14%nat := Some page_fault_handler_ptr]> t))).

Definition running_handlers : list (option handler) := boot_handlers (replicate 256 None).

(** Only the devices' part of the state changed: the text of the screen, the
    keyboard's last byte, the ticks, the count of printed bytes; and the trace has
    grown. *)
Definition devices_only (k k' : kst) : Prop :=
  exists m' evs s tk d, k' = set_ticks tk (set_send_char s (set_disp_count d (logged evs
    (set_mem (fun _ => m') k)))) /\
    forall a, ~ (TEXT_BASE <= a < TEXT_BASE + 2 * TEXT_CELLS) -> rd8 m' a = rd8 (mem k) a.

#[export] Instance devices_only_preorder : PreOrder devices_only.
Proof.
  split.
  - intros k. exists (mem k), [], (send_char k), (ticks k), (disp_count k). rewrite logged_nil. by destruct k.
  - intros k1 k2 k3 (m1 & t1 & s1 & tk1 & d1 & -> & H1) (m2 & t2 & s2 & tk2 & d2 & -> & H2).
    exists m2, (t1 ++ t2), s2, tk2, d2. split; [by rewrite <- logged_logged|].
    intros a Ha. rewrite H2 by done. by apply H1.
Qed.

Lemma devices_only_logged evs k : devices_only k (logged evs k).
Proof. exists (mem k), evs, (send_char k), (ticks k), (disp_count k). by destruct k. Qed.

Lemma devices_only_send_char v k : devices_only k (set_send_char v k).
Proof. exists (mem k), [], v, (ticks k), (disp_count k). rewrite logged_nil. by destruct k. Qed.

Section interrupts.
Context {HW : Hardware} {LY : Layout}.

Lemma uart_recv_logged k : exists c evs, uart_recv k = Ret c (logged evs k).
Proof.
  unfold uart_recv. erewrite bind_ret_eq by reflexivity. erewrite bind_ret_eq by apply inb_eq. cbv zeta.
  destruct (_ =? 4).
  - eexists _, _. rewrite inb_eq, (logged_logged _ _ k). reflexivity.
  - by eexists _, _.
Qed.

Lemma uart_handler_eq r k : exists m' evs, uart_handler r k = Ret tt (logged evs (set_mem (fun _ => m') k)) /\
  forall a, ~ (TEXT_BASE <= a < TEXT_BASE + 2 * TEXT_CELLS) -> rd8 m' a = rd8 (mem k) a.
Proof.
  destruct (printk_frame "UART : " k) as (m' & evs & He & Hm); [ok_const..|]. exists m'.
  unfold uart_handler. rewrite (bind_ret_eq _ _ _ _ _ He).
  destruct (uart_recv_logged (logged evs (set_mem (fun _ => m') k))) as (c & evs' & Hr).
  rewrite (bind_ret_eq _ _ _ _ _ Hr).
  erewrite bind_ret_eq by apply uart_putchar_eq. rewrite uart_putchar_eq. unfold sent.
  eexists. split; [|exact Hm]. rewrite (logged_logged _ _ (set_mem _ k)), (logged_logged _ _ (set_mem _ k)), (logged_logged _ _ (set_mem _ k)).
  reflexivity.
Qed.

(** Every device interrupt returns, and changes the devices' part alone. *)
Lemma interrupt_eq r k : g_handlers k = running_handlers -> 32 <= r_int_no r < 48 ->
  exists k', interrupt r k = Ret tt k' /\ devices_only k k' /\
    ticks k' = if r_int_no r =? 32 then w32 (ticks k + 1) else ticks k.
Proof.
  intros Hh Hn. set (n := r_int_no r) in *.
  assert (Hslot : exists slot k1, g_handlers k !! Z.to_nat n = Some slot /\
    slot_run call_handler r slot k = Ret tt k1 /\ devices_only k k1 /\
    ticks k1 = if n =? 32 then w32 (ticks k + 1) else ticks k).
  { rewrite Hh. assert (Hc : n = 32 \/ n = 33 \/ n = 36 \/ (n <> 32 /\ running_handlers !! Z.to_nat n = Some None)).
    { destruct (decide (n = 32)), (decide (n = 33)), (decide (n = 36)); auto. do 3 right. split; [done|].
      unfold running_handlers, boot_handlers. rewrite !list_lookup_insert_ne by lia. apply lookup_replicate. split; [done|lia]. }
    destruct Hc as [->|[->|[->|[Hne Hs]]]].
    - eexists _, _. split; [reflexivity|]. split; [reflexivity|]. split; [|done].
      exists (mem k), [], (send_char k), (w32 (ticks k + 1)), (disp_count k). rewrite logged_nil. by destruct k.
    - eexists _, _. split; [reflexivity|]. cbn [slot_run call_handler]. unfold keyboard_handler.
      rewrite (bind_ret_eq _ _ _ _ _ (getchar_eq k)), uart_putchar_eq. split; [done|]. split; [|done].
      unfold sent. etrans; [|apply devices_only_logged]. etrans; [apply devices_only_logged|apply devices_only_send_char].
    - destruct (uart_handler_eq r k) as (m' & evs & He & Hm). eexists _, _. split; [reflexivity|].
      split; [exact He|]. split; [|done].
      exists m', evs, (send_char k), (ticks k), (disp_count k). by destruct k.
    - eexists _, k. split; [exact Hs|]. split; [done|]. split; [done|]. by rewrite (proj2 (Z.eqb_neq _ _)). }
  destruct Hslot as (slot & k1 & Hs & Hr & Hd & Ht). unfold interrupt.
  rewrite (irq_handler_slot _ _ _ _ Hs), (bind_ret_eq _ _ _ _ _ Hr). fold n.
  rewrite (proj2 (Z.leb_le 32 n)), (proj2 (Z.ltb_lt n 48)) by lia. cbn [andb]. rewrite irq_send_eoi_eq.
  eexists. split; [done|]. split; [etrans; [exact Hd|apply devices_only_logged]|exact Ht].
Qed.

(** One device interrupt after another. *)
Inductive irq_step : kst -> kst -> Prop :=
| irq_step_intro r k k' : 32 <= r_int_no r < 48 -> interrupt r k = Ret tt k' -> irq_step k k'.

(** The interrupts of a poll. *)
Definition irqs (rs : list regs) : prog kst unit := foldr (fun r p => interrupt r;; p) skip rs.

Definition timer_irqs (rs : list regs) : Z := foldr (fun r n => b2z (r_int_no r =? 32) + n) 0 rs.

Lemma devices_only_handlers k k' : devices_only k k' -> g_handlers k' = g_handlers k.
Proof. by intros (? & ? & ? & ? & ? & -> & _). Qed.

(** The kernel after its initialisations: its handlers, and a counter that is a
    32-bit word. *)
Definition running (k : kst) : Prop := g_handlers k = running_handlers /\ 0 <= ticks k < 4294967296.

Lemma interrupt_running r k : running k -> 32 <= r_int_no r < 48 ->
  exists k', interrupt r k = Ret tt k' /\ running k' /\ devices_only k k' /\
    ticks k' = w32 (ticks k + b2z (r_int_no r =? 32)).
Proof.
  intros [Hk Ht] Hr. destruct (interrupt_eq r k Hk Hr) as (k' & He & Hd & Ht'). exists k'.
  assert (Htw : ticks k' = w32 (ticks k + b2z (r_int_no r =? 32)))
    by (rewrite Ht'; destruct (r_int_no r =? 32); cbn [b2z]; [done|by rewrite Z.add_0_r, w32_small]).
  split; [done|]. split; [|by split]. split; [by rewrite (devices_only_handlers _ _ Hd)|rewrite Htw; apply w32_range].
Qed.

(** The interrupts of a poll leave a running kernel, with the devices' part of
    [k0] changed alone. *)
Lemma irqs_poll k0 rs : Forall (fun r => 32 <= r_int_no r < 48) rs ->
  timer_poll (fun k => running k /\ devices_only k0 k) (timer_irqs rs) (irqs rs).
Proof.
  induction 1 as [|r rs Hr Hrs IH]; intros k [Hk H0].
  - exists k. split; [done|]. split; [done|]. change (timer_irqs []) with 0. destruct Hk. by rewrite Z.add_0_r, w32_small.
  - destruct (interrupt_running r k Hk Hr) as (k1 & He & Hk1 & Hd & Ht).
    destruct (IH k1) as (k2 & He2 & Hk2 & Ht2); [split; [done|by etrans]|]. exists k2.
    change (irqs (r :: rs)) with (interrupt r;; irqs rs). rewrite (bind_ret_eq _ _ _ _ _ He).
    split; [done|]. split; [done|]. change (timer_irqs (r :: rs)) with (b2z (r_int_no r =? 32) + timer_irqs rs).
    rewrite Ht2, Ht, w32_add_l. f_equal. lia.
Qed.

(** A delay during which device interrupts are taken. *)
Lemma sleep_irqs d b k (polls : list (list regs)) : running k ->
  Forall (Forall (fun r => 32 <= r_int_no r < 48)) polls ->
  let n := w32 (d * 100) in let taken := foldr Z.add 0 (timer_irqs <$> polls) in
  Forall (fun x => 0 <= x <= b) (timer_irqs <$> polls) -> n + b < 4294967296 ->
  (taken <= n -> sleep (irqs <$> polls) d k = NoFuel) /\
  (n < taken -> exists t k', sleep (irqs <$> polls) d k = Ret tt k' /\ (running k' /\ devices_only k k') /\
    ticks k' = w32 (ticks k + t) /\ n < t <= n + b).
Proof.
  intros Hk Hp n taken Hb Hn. apply (sleep_spec (fun k' => running k' /\ devices_only k k')); [done| |done|done|apply Hk].
  clear -Hp. induction Hp as [|rs polls Hrs Hp IH]; [constructor|]. constructor; [by apply irqs_poll|exact IH].
Qed.

(** The text of the screen is apart from the page tables. *)
Lemma devices_only_tables {LO : LayoutOk LY} k k' : devices_only k k' ->
  (forall c, 0 <= c < 1024 -> pde (mem k') c = pde (mem k) c) /\
  (forall v, 0 <= v < 1048576 -> pte (mem k') v = pte (mem k) v).
Proof.
  intros (m' & ? & ? & ? & ? & -> & Hm). pose proof kpd_range as (?&?&_&_). cbn [mem set_ticks set_send_char set_disp_count set_trace set_mem].
  split; intros i Hi; apply rd32_ext; intros a Ha; apply Hm; unfold TEXT_BASE, TEXT_CELLS, PT_BASE in *; lia.
Qed.
End interrupts.

(** * The properties *)

(** C10: once the kernel runs, no sequence of device interrupts (vectors 32 to 47,
    in any order and number) can make it fail or change anything but the text of
    the screen, the bytes sent to the devices, the count of those printed, the last
    key and the ticks: the handlers, every other byte of RAM and every translation
    stay, and in every state so reached the next interrupt is served. *)
Theorem interrupts_keep_kernel {HW : Hardware} {LY : Layout} {LO : LayoutOk LY} k k' :
  running k -> rtc irq_step k k' ->
  running k' /\ devices_only k k' /\
  (paging (mem k) -> paging (mem k') /\ forall va, 0 <= va < 4294967296 -> mmu (mem k') kpd va = mmu (mem k) kpd va) /\
  forall r, 32 <= r_int_no r < 48 -> exists k2, interrupt r k' = Ret tt k2.
Proof.
  intros Hk Hr. assert (H : running k' /\ devices_only k k').
  { induction Hr as [|k0 k1 k2 Hs Hr IH]; [done|].
    destruct Hs as [r k0 k1 Hn He].
    destruct (interrupt_running r k0 Hk Hn) as (k1' & He' & Hk1 & Hd & _). rewrite He in He'. injection He' as <-.
    destruct (IH Hk1) as [Hk2 Hd2]. split; [done|]. by etrans. }
  destruct H as [Hk' Hd]. split; [done|]. split; [done|].
  destruct (devices_only_tables _ _ Hd) as [Hpd Hpt]. split.
  - intros Hp. assert (Hp' : paging (mem k')) by (by apply (paging_ext (mem k))). split; [done|].
    intros va Hva. rewrite !mmu_paging by done. case_decide; [done|]. unfold vmap.
    by rewrite Hpt by (Z.div_mod_to_equations; lia).
  - intros r Hn. destruct (interrupt_running r k' Hk' Hn) as (k2 & He & _). by exists k2.
Qed.

Definition example_running : kst := set_handlers (fun _ => running_handlers) (boot_state ∅).

Lemma interrupts_keep_kernel_witness :
  let HW := fixed_hw (fun _ => 0x1E) in let LY := example_layout in
  exists k', rtc irq_step example_running k' /\ ticks k' = 1 /\ send_char k' = 0x1E /\ devices_only example_running k'.
Proof.
  intros HW LY.
  assert (H : exists k1 k2, interrupt (example_regs 32) example_running = Ret tt k1 /\
    interrupt (example_regs 33) k1 = Ret tt k2 /\ ticks k2 = 1 /\ send_char k2 = 0x1E).
  { eexists _, _. split; [reflexivity|]. split; [reflexivity|]. by split. }
  destruct H as (k1 & k2 & H1 & H2 & Ht & Hs). exists k2.
  assert (Hr : rtc irq_step example_running k2).
  { eapply rtc_l; [exact (irq_step_intro (example_regs 32) _ _ ltac:(cbn; lia) H1)|].
    eapply rtc_l; [exact (irq_step_intro (example_regs 33) _ _ ltac:(cbn; lia) H2)|]. apply rtc_refl. }
  split; [exact Hr|]. split; [exact Ht|]. split; [exact Hs|].
  apply (@interrupts_keep_kernel HW LY example_layout_ok example_running k2); [|exact Hr].
  split; [reflexivity|cbn; lia].
Defined.

(** C28: sleep(d) under interrupts: whatever device interrupts are taken between
    two readings of the counter, sleep is still waiting as long as at most
    d * 100 of them were the timer's, and returns once more than that were, with
    that many ticks counted, the kernel running and nothing changed but the
    devices' part of its state. *)
Theorem sleep_wakes {HW : Hardware} {LY : Layout} d b k (polls : list (list regs)) : running k ->
  Forall (Forall (fun r => 32 <= r_int_no r < 48)) polls ->
  let n := w32 (d * 100) in let taken := foldr Z.add 0 (timer_irqs <$> polls) in
  Forall (fun x => 0 <= x <= b) (timer_irqs <$> polls) -> n + b < 4294967296 ->
  (taken <= n -> sleep (irqs <$> polls) d k = NoFuel) /\
  (n < taken -> exists t k', sleep (irqs <$> polls) d k = Ret tt k' /\ (running k' /\ devices_only k k') /\
    ticks k' = w32 (ticks k + t) /\ n < t <= n + b).
Proof. apply sleep_irqs. Qed.

Lemma sleep_wakes_witness :
  let HW := fixed_hw (fun _ => 0x1E) in let LY := example_layout in
  exists t k', sleep (irqs <$> replicate 101 [example_regs 32; example_regs 33]) 1 example_running = Ret tt k' /\
    ticks k' = w32 t /\ 100 < t <= 101.
Proof.
  intros HW LY. destruct (@sleep_wakes HW LY 1 1 example_running (replicate 101 [example_regs 32; example_regs 33])) as [_ H].
  - split; [reflexivity|cbn; lia].
  - apply Forall_replicate. repeat constructor; cbn; lia.
  - rewrite fmap_replicate. apply Forall_replicate. split; vm_compute; congruence.
  - vm_compute. reflexivity.
  - destruct H as (t & k' & He & _ & Ht & Hb); [vm_compute; reflexivity|].
    exists t, k'. split; [exact He|]. split; [exact Ht|exact Hb].
Defined.

(** ** The boot *)

(** The boot loader's description of memory, which lies apart from the tables
    and the descriptions of frames the kernel builds: the entry at [map], of
    [len] bytes, starts at 1 MB. *)
Record boot_info {LY : Layout} (m : ram) (mbi map len : Z) : Prop := {
  info_map : map <> NULL;
  info_len : 0x701000 <= len;
  info_found m' : (forall a, ~ (kpd <= a < kpd + 4096) ->
      ~ (PT_BASE <= a < 0x800000 + 12 * ((len - 0x700000) / 4096)) -> rd8 m' a = rd8 m a) ->
    find_ram m' (mbi_maps m' mbi) (Z.to_nat (mbi_count m' mbi)) = map /\ rdp m' (map_length_low map) = len /\
    (forall c, 0 <= c < mbi_count m' mbi ->
       s32 (rdp m' (map_type (mmap_entry (mbi_maps m' mbi) c))) <> INT_MIN)
}.

(** The devices are set up, then interrupts are enabled. *)
Record devices_up {LY : Layout} (k k' : kst) : Prop := {
  up_mem : mem k' = mem k;
  up_handlers : g_handlers k' = <[36%nat := Some uart_handler_ptr]> (<[32%nat := Some pit_handler_ptr]>
    (<[33%nat := Some keyboard_handler_ptr]> (g_handlers k)));
  up_uart : uart_addr k' = SERIAL_PORT;
  up_gdt : g_gdt k' = flat_gdt;
  up_kds : g_kds_size k' = g_kds_size k;
  up_first : first_value k' = first_value k;
  up_ticks : ticks k' = ticks k;
  up_kpd : g_frame_page_directory k' = g_frame_page_directory k;
  up_mbi : multiboot_info k' = multiboot_info k;
  up_gates v : 0 <= v < 256 ->
    if bool_decide (v ∈ isr_vectors) then idt_gate (g_idt k') v = Some (interrupt_gate (sym_isr v))
    else exists g, idt_gate (g_idt k') v = Some g /\ gate_present g = false;
  up_trace : exists t, trace k' = trace k ++ t ++ [ELidt sym_g_idt 2047; ESti]
}.

Lemma wp_devices_up {HW : Hardware} {LY : Layout} (rest : prog kst unit) (Q : unit -> kst -> Prop) k :
  length (g_gdt k) = 6%nat -> uart_addr k <> SERIAL_PORT -> (forall v, 0 <= sym_isr v < 4294967296) ->
  (forall k', devices_up k k' -> wp rest Q k') ->
  wp (init_flat_gdt;; irq_init PICS_BASE;; kb_init;; pit_init 100;; uart_init SERIAL_PORT;;
      ready ← uart_is_init;
      when (ready =? FALSE) (printk "uart_init failed.");;
      interrupts_init;; rest) Q k.
Proof.
  intros Hg Hu Hisr HQ. apply wp_bind, wp_init_flat_gdt; [done|]. intros k1 (t & d & ->).
  apply wp_bind. eapply wp_eq; [apply irq_init_eq|]. cbv zeta.
  match goal with |- context [logged ?e (logged [ELgdt _ _; ELtr _] ?k)] => generalize e; intros evs1 end.
  apply wp_bind. edestruct (unmask_registers_eq 1 33 keyboard_handler_ptr) as (v1 & E1); [lia..|].
  eapply wp_eq; [exact E1|]. clear E1. match goal with |- context [logged [EIn (line_port 1) v1; ?e] _] => generalize e; intros e1 end.
  apply wp_bind. edestruct (pit_init_eq 100) as (v2 & v2' & E2); [unfold FREQUENCY; lia|].
  eapply wp_eq; [exact E2|]. clear E2. apply wp_bind.
  match goal with |- wp _ _ ?k1 => destruct (uart_init_eq k1) as (v3 & v3' & E3); [exact Hu|] end.
  eapply wp_eq; [exact E3|]. clear E3. match goal with |- context [logged (EOut 1017 1 :: ?l)] => generalize (EOut 1017 1 :: l); intros evs3 end.
  match goal with |- context [logged (EIn (line_port 0) v2 :: ?l)] => generalize (EIn (line_port 0) v2 :: l); intros evs2 end.
  apply wp_bind. eapply wp_eq; [reflexivity|]. apply wp_bind. eapply wp_eq; [reflexivity|]. apply wp_bind.
  match goal with |- wp _ _ ?k => destruct (interrupts_init_spec k Hisr) as (ti & E4 & _ & Hgates) end.
  eapply wp_eq; [exact E4|]. apply HQ. clear E4. split; [reflexivity..|exact Hgates|].
  unfold logged. cbn [trace set_trace set_idt set_handlers set_uart_addr set_disp_count set_tss set_gdt].
  exists (t ++ [ELgdt sym_g_gdt 47; ELtr 43] ++ evs1 ++ [EIn (line_port 1) v1; e1] ++ evs2 ++ evs3).
  by rewrite <- !app_assoc.
Qed.

(** What the initialisations leave of a machine with [len] bytes of memory from
    1 MB on. *)
Record booted {LY : Layout} (m : ram) (map len : Z) (k' : kst) (N : Z) : Prop := {
  booted_running : running k';
  booted_heap : heap_state k';
  booted_empty : g_kds_size k' = 0 /\ first_value k' = 0;
  booted_uart : uart_addr k' = SERIAL_PORT;
  booted_gdt : g_gdt k' = flat_gdt;
  booted_gates v : 0 <= v < 256 ->
    if bool_decide (v ∈ isr_vectors) then idt_gate (g_idt k') v = Some (interrupt_gate (sym_isr v))
    else exists g, idt_gate (g_idt k') v = Some g /\ gate_present g = false;
  booted_context : g_frames_context k' = FrameContext map 0xC0800000 (0xC0800000 + 12 * N) N;
  booted_vmap v : 0 <= v < 1048576 -> vmap (mem k') v =
    if decide (0xC0800 <= v < 0xC0800 + pages_of (12 * N)) then Some (v - 0xC0000) else None;
  booted_frames i : 0 <= i < N -> frame_in (mem k') (desc i) =
    if decide ((12 * N) mod 4096 <> 0 /\ 0x100000 + 4096 * i < 0x800000 + 12 * N)
    then Frame 1 0 (0xC0800000 + 12 * i) else Frame 0 0 0;
  booted_rest a : ~ (kpd <= a < kpd + 4096) -> ~ (PT_BASE <= a < 0x800000 + 12 * N) -> rd8 (mem k') a = rd8 m a;
  booted_ticks : ticks k' = 0;
  booted_trace : exists t1 t2, trace k' = [EEnablePaging kpd; EDisableCache] ++ t1 ++ [ELidt sym_g_idt 2047; ESti] ++ t2
}.

Lemma wp_boot {HW : Hardware} {LY : Layout} {LO : LayoutOk LY} m mbi map len :
  boot_info m (w32 (SYSTEM_ADDR_BASE + mbi)) map len -> (forall v, 0 <= sym_isr v < 4294967296) ->
  wp (main MAGIC_NUMBER mbi;; finalize_pagination;; main_init)
    (fun _ k' => booted m map len k' ((len - 0x700000) / 4096)) (boot_state m).
Proof.
  intros [Hmap Hlen Hinfo] Hisr. set (N := (len - 0x700000) / 4096). unfold main, enable_paging. wp_go.
  apply wp_init_page_directory. intros m1 Hd1 Hr1. rewrite sym_page_dir_low. wp_go.
  eapply wp_eq; [apply finalize_pagination_eq|]. apply wp_devices_up; [done|done|done|]. intros k1 Hup.
  apply wp_bind.
  destruct Hup as [Hm0 Hh0 Hu0 Hg0 Hs0 Hfirst Htk Hv0 Hmbi Hgates (t1 & Ht0)].
  cbn [mem g_handlers g_kds_size ticks g_frame_page_directory multiboot_info trace set_mem set_handlers logged set_trace
    set_kpd set_kfs_context boot_state app] in *.
  apply wp_init_page_tables; [by rewrite Hv0|]. intros m2 Hd2 Ht2 Hr2. rewrite Hm0 in Hd2, Hr2.
  assert (Hmbi' : multiboot_info k1 = w32 (SYSTEM_ADDR_BASE + mbi)) by exact Hmbi. clear Hmbi.
  apply wp_bind, wp_gets. cbn [multiboot_info set_mem]. rewrite Hmbi'. apply wp_bind.
  destruct (paging_fresh m2) as [Hp2 Hvm2].
  { intros c Hc. rewrite Hd2 by done. by rewrite final_pde_wr. }
  { done. }
  destruct (Hinfo m2) as (Hf & Hl & Htyp).
  { assert (0 <= N) by (unfold N; Z.div_mod_to_equations; lia). fold N. intros a Ha1 Ha2.
    rewrite Hr2 by (unfold PT_BASE in *; lia). pose proof kpd_range as (?&?&_&_). rewrite rd8_wr32_ne by lia. by apply Hr1. }
  eapply wp_mono.
  - apply (init_frame_alloc_spec (w32 (SYSTEM_ADDR_BASE + mbi)) len); cbn [mem set_mem]; rewrite ?Hf; done.
  - cbv beta. cbn [mem set_mem]. rewrite Hf. intros _ k2 (Hctx & Hp & Hvm & Hfr & Hrest & m3 & t2 & d2 & Hq).
    rewrite Hctx in Hq. unfold run_debug_test. apply wp_ret.
    assert (Hl2 : len < 4294967296) by (rewrite <- Hl; apply rd32_range).
    destruct (frame_count_fits len) as (Hfit & _); [lia|unfold frame_count; Z.div_mod_to_equations; lia|].
    assert (Hgates2 : g_idt k2 = g_idt k1) by (by rewrite Hq).
    assert (Htk2 : ticks k2 = 0) by (rewrite Hq; exact Htk).
    assert (Hkds : g_kds_size k2 = 0) by (rewrite Hq; exact Hs0).
    assert (Hfv : first_value k2 = 0) by (rewrite Hq; exact Hfirst).
    assert (Hkpd : g_frame_page_directory k2 = g_frame_page_directory k1) by (by rewrite Hq).
    split; try done.
    + split; [rewrite Hq; exact Hh0|rewrite Htk2; lia].
    + split; [exact Hp|by rewrite Hkpd, Hv0|rewrite Hctx; exact Hfit|by rewrite Hkds|rewrite Hkds; vm_compute; congruence].
    + rewrite Hq. exact Hu0.
    + rewrite Hq. exact Hg0.
    + by rewrite Hgates2.
    + intros a Ha1 Ha2. assert (0 <= N) by (unfold N; Z.div_mod_to_equations; lia).
      rewrite Hrest by done. rewrite Hr2 by (unfold PT_BASE in *; lia). pose proof kpd_range as (?&?&_&_).
      rewrite rd8_wr32_ne by lia. by apply Hr1.
    + exists t1, t2. rewrite Hq. unfold logged. cbn [trace set_trace set_disp_count set_mem set_fctx].
      rewrite Ht0. cbn [app]. by rewrite <- app_assoc.
Qed.

(** C6: booted on a machine whose memory the loader describes, from zeroed static
    data, the kernel comes up: paging is on; the four handlers and no other are
    registered; the processor has the flat segments and the interrupt gates, and
    interrupts are enabled after the table is loaded; the serial port is
    selected; the page tables keep their invariant, and map the first 8 MB of RAM
    and the descriptions of the frames, and nothing else; and sbrk's precondition
    holds, with an empty heap. *)
Theorem boot_initialises {HW : Hardware} {LY : Layout} {LO : LayoutOk LY} m mbi map len :
  boot_info m (w32 (SYSTEM_ADDR_BASE + mbi)) map len -> (forall v, 0 <= sym_isr v < 4294967296) ->
  let N := (len - 0x700000) / 4096 in
  ⟨ boot_state m ⟩ main MAGIC_NUMBER mbi;; finalize_pagination;; main_init ⟨ _, k' |
    running k' /\ heap_state k' /\ g_kds_size k' = 0 /\ uart_addr k' = SERIAL_PORT /\ g_gdt k' = flat_gdt /\
    (forall v, 0 <= v < 256 ->
      if bool_decide (v ∈ isr_vectors) then idt_gate (g_idt k') v = Some (interrupt_gate (sym_isr v))
      else exists g, idt_gate (g_idt k') v = Some g /\ gate_present g = false) /\
    g_frames_context k' = FrameContext map 0xC0800000 (0xC0800000 + 12 * N) N /\
    (forall i, 0 <= i < N -> addr (frame_in (mem k') (desc i)) = 0) /\
    (forall va, 0 <= va < 4294967296 -> mmu (mem k') kpd va =
      if decide (0xC0000000 <= va < 0xC0800000 + 4096 * pages_of (12 * N)) then Some (va - 0xC0000000) else None) /\
    (exists t1 t2, trace k' = [EEnablePaging kpd; EDisableCache] ++ t1 ++ [ELidt sym_g_idt 2047; ESti] ++ t2) ⟩.
Proof.
  intros Hinfo Hisr N. eapply wp_mono; [by apply wp_boot|]. cbv beta. fold N. intros _ k' [Hr Hh [He _] Hu Hg Hgt Hc Hv Hf _ _ Ht].
  refine (conj Hr (conj Hh (conj He (conj Hu (conj Hg (conj Hgt (conj Hc (conj _ (conj _ Ht))))))))).
  - intros i Hi. rewrite Hf by done. by destruct (decide _).
  - assert (0 <= N) by (pose proof (info_len _ _ _ _ Hinfo); unfold N; Z.div_mod_to_equations; lia).
    pose proof (pages_of_bound (12 * N) ltac:(lia)).
    intros va Hva. rewrite mmu_paging by (apply Hh || done). rewrite Hv by (Z.div_mod_to_equations; lia).
    destruct (decide (window (va / 4194304))) as [Hw|Hw]; unfold window in Hw.
    + rewrite decide_True by (Z.div_mod_to_equations; lia). done.
    + destruct (decide (0xC0800 <= va / 4096 < 0xC0800 + pages_of (12 * N))).
      * rewrite decide_True by (Z.div_mod_to_equations; lia). cbn. f_equal. Z.div_mod_to_equations; lia.
      * rewrite decide_False by (Z.div_mod_to_equations; lia). done.
Qed.

(** A machine of 16 MB: the loader's structure at 0x10000, one entry at 0x11000. *)
Definition example_boot_ram : ram :=
  foldr (fun '(a, v) m => wr32 m a v) ∅
    [(0x1002C, 24); (0x10030, 0x11000); (0x11004, 0x100000); (0x1100C, 0xF00000); (0x11014, 1)].

Lemma example_boot_info m : (forall a, 0x10000 <= a < 0x12004 -> rd8 m a = rd8 example_boot_ram a) ->
  @boot_info example_layout m 0xC0010000 0xC0011000 0xF00000.
Proof.
  intros Hram. split; [discriminate|lia|]. intros m' Hm.
  assert (Hrd : forall p, 0xC0010000 <= p < 0xC0012000 -> rdp m' p = rdp example_boot_ram p).
  { intros p Hp. unfold rdp, ka, SYSTEM_ADDR_BASE. rewrite (proj2 (Z.leb_le _ _)) by lia.
    change (@kpd example_layout) with 0x105000 in Hm. apply rd32_ext. intros i Hi.
    rewrite Hm by (unfold PT_BASE; lia). apply Hram. lia. }
  assert (Hc : mbi_count m' 0xC0010000 = 1) by (unfold mbi_count; rewrite Hrd by (vm_compute; split; congruence); reflexivity).
  assert (Hmaps : mbi_maps m' 0xC0010000 = 0xC0011000)
    by (unfold mbi_maps; rewrite Hrd by (vm_compute; split; congruence); reflexivity).
  rewrite Hc, Hmaps. change (Z.to_nat 1) with 1%nat. cbn [find_ram].
  change (mmap_entry 0xC0011000 (Z.of_nat 0)) with 0xC0011000.
  split; [|split].
  - rewrite Hrd by (vm_compute; split; congruence). reflexivity.
  - rewrite Hrd by (vm_compute; split; congruence). reflexivity.
  - intros c Hc'. assert (c = 0) as -> by lia. change (mmap_entry 0xC0011000 0) with 0xC0011000.
    rewrite Hrd by (vm_compute; split; congruence). vm_compute. discriminate.
Qed.

Lemma boot_initialises_witness :
  let HW := fixed_hw (fun _ => 0) in let LY := example_layout in
  ⟨ boot_state example_boot_ram ⟩ main MAGIC_NUMBER 0x10000;; finalize_pagination;; main_init ⟨ _, k' |
    running k' /\ g_frames_context k' = FrameContext 0xC0011000 0xC0800000 0xC0806000 2048 ⟩.
Proof.
  intros HW LY. eapply wp_mono.
  - apply (@boot_initialises HW LY example_layout_ok example_boot_ram 0x10000 0xC0011000 0xF00000).
    + by apply example_boot_info.
    + intros v. cbn. pose proof (Z.mod_pos_bound v 256). lia.
  - cbv beta. intros _ k' (H1 & _ & _ & _ & _ & _ & H2 & _). split; [exact H1|]. rewrite H2. reflexivity.
Defined.

(** Under another loader (a wrong magic number) the kernel shows a message and
    returns: no segment, interrupt gate or device handler is installed, whatever
    the rest of the run would have been. *)
Theorem boot_refuses_magic {HW : Hardware} {LY : Layout} {LO : LayoutOk LY} k magic mbi polls rounds :
  magic <> MAGIC_NUMBER ->
  ⟨ k ⟩ boot magic mbi polls rounds ⟨ _, k' |
    g_gdt k' = g_gdt k /\ g_idt k' = g_idt k /\ g_handlers k' = <[14%nat := Some page_fault_handler_ptr]> (g_handlers k) /\
    forall a, ~ (kpd <= a < kpd + 4096) -> ~ (TEXT_BASE <= a < TEXT_BASE + 2 * TEXT_CELLS) ->
      rd8 (mem k') a = rd8 (mem k) a ⟩.
Proof.
  intros Hne. unfold boot, main, enable_paging, main_new. wp_go.
  apply wp_init_page_directory. intros m1 _ Hr1. wp_go. eapply wp_eq; [apply finalize_pagination_eq|]. wp_go.
  match goal with |- wp (if negb (?x =? _) then _ else _) _ _ => change x with magic end.
  rewrite (proj2 (Z.eqb_neq _ _)) by done. cbn [negb].
  match goal with |- wp _ _ ?k1 => destruct (printk_frame "Invalid magic number" k1) as (m' & evs & He & Hm); [ok_const..|] end.
  eapply wp_eq; [exact He|]. split; [done|]. split; [done|]. split; [done|].
  intros a Ha1 Ha2. cbn [mem logged set_trace set_mem]. rewrite Hm by done.
  cbn [mem set_handlers logged set_trace set_kpd set_mem]. pose proof kpd_range as (?&?&_&_).
  rewrite rd8_wr32_ne by lia. by apply Hr1.
Qed.

Lemma boot_refuses_magic_witness :
  let HW := fixed_hw (fun _ => 0) in let LY := example_layout in
  ⟨ boot_state ∅ ⟩ boot 0x1BADB002 0x10000 [] [] ⟨ _, k' | g_handlers k' = <[14%nat := Some page_fault_handler_ptr]> (replicate 256 None) ⟩.
Proof.
  intros HW LY. eapply wp_mono.
  - apply (@boot_refuses_magic HW LY example_layout_ok (boot_state ∅) 0x1BADB002 0x10000 [] []). discriminate.
  - cbv beta. intros _ k' (_ & _ & H & _). exact H.
Defined.

Lemma page_fault_slot_stops {HW : Hardware} {LY : Layout} r k :
  g_handlers k = running_handlers -> r_int_no r = 14 -> stops (interrupt r) (quiet k) k.
Proof.
  intros Hh Hr. assert (Hslot : g_handlers k !! Z.to_nat (r_int_no r) = Some (Some page_fault_handler_ptr))
    by (rewrite Hh, Hr; reflexivity).
  unfold interrupt, stops. rewrite (irq_handler_slot _ _ _ _ Hslot). cbn [slot_run call_handler]. unfold page_fault_handler.
  apply (stops_seq (print_cr2;; spin)). apply stops_bind. unfold print_cr2, read_cr.
  assert (Hq : quiet k k) by done. repeat (wp_go; kp; quiet_chain k). wp_go. by apply stops_spin.
Qed.

(** Every exception stops the running kernel, after printing. *)
Lemma exception_stops {HW : Hardware} {LY : Layout} r k : g_handlers k = running_handlers ->
  0 <= r_int_no r < 32 -> s32 (r_err_code r) <> INT_MIN -> stops (interrupt r) (quiet k) k.
Proof.
  intros Hh Hn He. destruct (decide (r_int_no r = 14)); [by apply page_fault_slot_stops|].
  assert (Hslot : g_handlers k !! Z.to_nat (r_int_no r) = Some None).
  { rewrite Hh. unfold running_handlers, boot_handlers. rewrite !list_lookup_insert_ne by lia.
    apply lookup_replicate. split; [done|lia]. }
  unfold interrupt, stops. rewrite (irq_handler_slot _ _ _ _ Hslot). cbn [slot_run].
  rewrite (bind_ret_eq _ _ _ tt k) by done. rewrite (proj2 (Z.leb_gt 32 _)) by lia. cbn [andb]. unfold when.
  rewrite (proj2 (Z.ltb_lt _ 32)) by lia. by apply exception_report_stops.
Qed.

(** In the running kernel a page fault is never resolved: its handler prints
    the faulting address and stops the kernel for ever, so that neither the
    exception report nor the code that would map the page is reached. *)
Theorem page_fault_stops {HW : Hardware} {LY : Layout} r k :
  g_handlers k = running_handlers -> r_int_no r = 14 -> stops (interrupt r) (quiet k) k.
Proof. apply page_fault_slot_stops. Qed.

Lemma page_fault_stops_witness :
  let HW := fixed_hw (fun _ => 0) in let LY := example_layout in
  let k := set_handlers (fun _ => running_handlers) (boot_state ∅) in
  stops (interrupt (example_regs 14)) (quiet k) k.
Proof. intros HW LY k. apply (@page_fault_stops HW LY); reflexivity. Defined.

(** Prepare_userland looks for the first byte 0xC3 from main_userland on and
    reports its address and the number of bytes up to and with it. *)
Theorem prepare_userland_scans {LY : Layout} k (n : nat) :
  linear sym_main_userland (Z.of_nat n + 1) -> rd8 (mem k) (ka sym_main_userland + Z.of_nat n) = 0xC3 ->
  (forall i, 0 <= i < Z.of_nat n -> rd8 (mem k) (ka sym_main_userland + i) <> 0xC3) ->
  let s := sym_main_userland in
  prepare_userland k = (kprintf ("func_start: %p => %p [%d]" +:+ nl) [AInt s; AInt (s + Z.of_nat n); AInt (Z.of_nat n + 1)];; skip) k.
Proof.
  intros Hl Hc Hno s. unfold prepare_userland. fold s. cbv zeta.
  assert (Hs : 0 <= s /\ s + Z.of_nat n + 1 <= 4294967296) by (unfold linear in Hl; fold s in Hl; lia).
  eapply bind_then.
  - apply (while32_loops _ n); [|lia].
    assert (H : forall j i, Z.of_nat i + Z.of_nat j = Z.of_nat n ->
      loops (fun func_end => c ← load8 func_end; if negb (c =? 0xC3) then mret (inl (w32 (func_end + 1))) else mret (inr func_end))
        j (s + Z.of_nat i) k (s + Z.of_nat n) k).
    { induction j as [|j IH]; intros i Hi.
      - replace (Z.of_nat i) with (Z.of_nat n) by lia. apply loops_exit. eapply bind_then; [reflexivity|].
        rewrite (ka_add _ _ _ Hl), Hc by lia. done.
      - apply (loops_round _ _ _ _ (s + Z.of_nat (S i)) k).
        + eapply bind_then; [reflexivity|]. rewrite (ka_add _ _ _ Hl) by lia.
          rewrite (proj2 (Z.eqb_neq _ _)) by (apply Hno; lia). cbn [negb].
          rewrite w32_small by lia. do 2 f_equal. lia.
        + apply IH. lia. }
    specialize (H n O ltac:(lia)). rewrite Z.add_0_r in H. exact H.
  - replace (s + Z.of_nat n - s + 1) with (Z.of_nat n + 1) by lia.
    rewrite w32_small by (unfold linear, SYSTEM_ADDR_BASE in Hl; lia). done.
Qed.

Lemma prepare_userland_scans_witness :
  let LY := example_layout in let k := boot_state (wr8 (wr8 ∅ 0x108000 0xEB) 0x108001 0xC3) in
  prepare_userland k =
  (kprintf ("func_start: %p => %p [%d]" +:+ nl) [AInt 0xC0108000; AInt 0xC0108001; AInt 2];; skip) k.
Proof.
  intros LY k. apply (@prepare_userland_scans LY k 1).
  - unfold linear. cbn. unfold SYSTEM_ADDR_BASE. lia.
  - reflexivity.
  - intros i Hi. assert (i = 0) as -> by lia. vm_compute. discriminate.
Defined.
