(* ===== verification/Startup.v ===== *)
(** From the boot to the first block of the kernel's heap: the initialisations,
    the frames, sbrk, the page tables and the allocator together. *)
From S2P Require Import Prelude Memory State Console Kprintf Interrupts Pages Mmu Tables Frames Sbrk Kmalloc Alloc Kheap Boot.
Local Open Scope Z_scope.
Local Open Scope kern_scope.
Local Set Default Proof Using "Type*".

(** * Access to the first pages of the heap *)

Section first_pages.
Context {LY : Layout} {LO : LayoutOk LY}.

(** The two first pages of the heap are mapped, both to the first page of RAM. *)
Record low_heap (k : kst) : Prop := {
  low_paging : paging (mem k);
  low_vmap v : v = 0x8000 \/ v = 0x8001 -> vmap (mem k) v = Some 0
}.

Lemma low_heap_mmu k i : low_heap k -> 0 <= i < 8192 -> mmu (mem k) kpd (0x08000000 + i) = Some (i mod 4096).
Proof.
  intros [Hp Hv] Hi. rewrite mmu_paging by (done || lia).
  rewrite decide_False by (unfold window; Z.div_mod_to_equations; lia).
  rewrite Hv by (Z.div_mod_to_equations; lia). cbn [fmap option_fmap option_map]. f_equal.
  Z.div_mod_to_equations; lia.
Qed.

Lemma low_heap_wr8 k i v : low_heap k -> 0 <= i < 4096 -> low_heap (set_mem (fun m => wr8 m i v) k).
Proof.
  intros [Hp Hv] Hi. pose proof kpd_range as (?&?&_&_). cbn [mem set_mem].
  assert (Hd : forall a, 4096 <= a -> rd32 (wr8 (mem k) i v) a = rd32 (mem k) a) by (intros; apply rd32_wr8_ne; lia).
  split; cbn [mem set_mem].
  - apply (paging_ext (mem k)); [| |done]; intros; apply Hd; unfold PT_BASE; lia.
  - intros u Hu. unfold vmap, pte. rewrite Hd by (unfold PT_BASE; lia). by apply Hv.
Qed.

Lemma wp_translated {A} (f : Z -> prog kst A) i (Q : A -> kst -> Prop) k : low_heap k -> 0 <= i < 4096 ->
  wp (f i) Q k -> wp (translated (0x08000000 + i) f) Q k.
Proof.
  intros Hk Hi HQ. unfold wp, translated. rewrite low_heap_mmu by (done || lia). by rewrite Z.mod_small.
Qed.

Lemma wp_vload32 i (Q : Z -> kst -> Prop) k : low_heap k -> 0 <= i -> i + 4 <= 4096 ->
  Q (rd32 (mem k) i) k -> wp (vload32 (0x08000000 + i)) Q k.
Proof.
  intros Hk Hi Hi4 HQ. unfold vload32.
  rewrite !w32_small, <- !Z.add_assoc by lia. do 4 (apply wp_bind, wp_translated; [done|lia|]; apply wp_gets).
  apply wp_ret. unfold rd32 in HQ.
  by replace (rd8 (mem k) i + 256 * rd8 (mem k) (i + 1) + 65536 * rd8 (mem k) (i + 2) + 16777216 * rd8 (mem k) (i + 3))
    with (rd8 (mem k) i + rd8 (mem k) (i + 1) * 256 + rd8 (mem k) (i + 2) * 65536 + rd8 (mem k) (i + 3) * 16777216) by lia.
Qed.

Lemma wp_vstore32 i v (Q : unit -> kst -> Prop) k : low_heap k -> 0 <= i -> i + 4 <= 4096 ->
  (forall k', k' = set_mem (fun m => wr32 m i v) k -> low_heap k' -> Q tt k') -> wp (vstore32 (0x08000000 + i) v) Q k.
Proof.
  intros Hk Hi Hi4 HQ. unfold vstore32. rewrite !w32_small, <- !Z.add_assoc by lia.
  pose proof (low_heap_wr8 k i v Hk ltac:(lia)) as H1.
  pose proof (low_heap_wr8 _ (i + 1) (v / 256) H1 ltac:(lia)) as H2.
  pose proof (low_heap_wr8 _ (i + 2) (v / 65536) H2 ltac:(lia)) as H3.
  pose proof (low_heap_wr8 _ (i + 3) (v / 16777216) H3 ltac:(lia)) as H4.
  apply wp_bind, wp_translated; [done|lia|]. apply wp_modify.
  apply wp_bind, wp_translated; [done|lia|]. apply wp_modify.
  apply wp_bind, wp_translated; [done|lia|]. apply wp_modify.
  apply wp_translated; [done|lia|]. apply wp_modify. by apply HQ.
Qed.
End first_pages.

(** * The first block *)

Section first_block.
Context {LY : Layout} {LO : LayoutOk LY}.

(** sbrk's first pages. *)
Lemma wp_first_sbrk s0 (Q : Z -> kst -> Prop) k : heap_state k -> g_kds_size k = 0 -> 2 <= max_pages k ->
  (forall v, v = 0x8000 \/ v = 0x8001 -> vmap (mem k) v = None) ->
  0 <= s0 -> s0 + 2 <= frames_count (g_frames_context k) -> free_run (mem k) s0 2 ->
  (forall i, 0 <= i < frames_count (g_frames_context k) -> rd32 (mem k) (desc i + 4) = 0) ->
  (forall k', heap_state k' -> g_kds_size k' = 4104 -> low_heap k' -> Q 0x08000000 k') ->
  wp (sbrk 4104) Q k.
Proof.
  intros Hh Hz Hmax Hv Hs0 Hs Hrun Ha HQ.
  pose proof (sbrk_grow_effect 4104 s0 k Hh ltac:(lia)) as Hw. cbv zeta in Hw. rewrite Hz in Hw.
  change (pages_of 4104) with 2 in Hw. change (heap_end 0) with 0x08000000 in Hw.
  change (w32 (0 / FRAME_SIZE + 2)) with 2 in Hw.
  assert (Hv2 : forall v, 0x08000000 / 4096 <= v < 0x08000000 / 4096 + 2 -> vmap (mem k) v = None)
    by (intros v Hv'; apply Hv; Z.div_mod_to_equations; lia).
  eapply wp_mono; [exact (Hw ltac:(lia) Hmax Hv2 Hs0 Hs Hrun)|].
  cbv beta. intros r k' (-> & Hh' & Hz' & s & Hs1 & Hs2 & _ & _ & Hm). apply HQ; [done|done|].
  split; [apply Hh'|]. intros v Hv'. pose proof (heap_paging _ Hh') as Hp.
  pose proof (Hm (4096 * v) ltac:(lia)) as E.
  rewrite decide_True in E by lia. rewrite mmu_paging in E; [|exact Hp|lia].
  rewrite decide_False in E by (unfold window; Z.div_mod_to_equations; lia).
  replace (4096 * v / 4096) with v in E by (Z.div_mod_to_equations; lia).
  rewrite Ha in E by (Z.div_mod_to_equations; lia).
  replace (4096 * v mod 4096) with 0 in E by (Z.div_mod_to_equations; lia).
  destruct (vmap (mem k') v) as [f|]; [|done]. cbn [fmap option_fmap option_map] in E. injection E as E.
  f_equal. change (0 / 4096 * 4096 + 0) with 0 in E. lia.
Qed.

(** The headers of a segment with one block of [size] bytes, in RAM. *)
Definition first_headers (m : ram) (size : Z) : Prop :=
  rd32 m 0 = 1 /\ rd32 m 4 = 0x08000018 + size /\ rd32 m 8 = size /\ rd32 m 12 = FALSE /\
  rd32 m 16 = 0x08000018 /\ rd32 m 20 = 0x08000018 + size.

#[local] Existing Instance kernel_Heap.

(** Steps of the allocator on the first pages. *)
Ltac vload i := apply wp_bind; apply (wp_vload32 i); [assumption|lia|lia|];
  cbn [mem set_mem set_first]; rd_simpl.
Ltac vstore i := apply wp_bind; apply (wp_vstore32 i); [assumption|lia|lia|];
  let k' := fresh "k" in let H := fresh "Hl" in intros k' -> H.

(** kmalloc in a segment that has its headers and no block. *)
Lemma wp_first_add size (Q : Z -> kst -> Prop) k : low_heap k -> first_value k = 0x08000000 ->
  rd32 (mem k) 0 = 1 -> rd32 (mem k) 4 = 0x08000008 -> 0 < size <= 4080 ->
  (forall m, first_headers m size -> low_heap (set_mem (fun _ => m) k) -> Q 0x08000018 (set_mem (fun _ => m) k)) ->
  wp (mem_add_from size 0x08000000) Q k.
Proof.
  intros Hl Hfv H0 H4 Hsize HQ. unfold mem_add_from. change (0x08000000 =? NULL) with false. cbn iota.
  unfold mem_search_place, get_first_value.
  apply wp_bind, wp_bind, wp_bind, wp_gets. rewrite Hfv. change (0x08000000 =? 0) with false. cbn iota.
  apply wp_ret. apply wp_bind. change (w32 (0x08000000 + sizeof_page_infos)) with 0x08000008.
  eapply wp_eq.
  { apply (while32_loops _ 0 _ _ NULL k); [|lia]. apply loops_exit. unfold search_round. change (0x08000008 =? 0) with false. cbn iota.
    destruct (wp_elim _ _ _ (wp_vload32 4 (fun r k' => r = 0x08000008 /\ k' = k) k Hl ltac:(lia) ltac:(lia) ltac:(done)))
      as (r & k' & E & -> & ->).
    eapply bind_then; [exact E|]. reflexivity. }
  change (negb (NULL =? NULL)) with false. cbn iota. apply wp_ret. change (negb (NULL =? NULL)) with false. cbn iota.
  apply wp_bind. unfold pagesize_add_update. vload 4. vload 0. rewrite H0, H4. cbv zeta.
  unfold sizeof_mem_infos. rewrite (w32_small (0x08000008 + 16 + size)) by lia.
  change (w32 (0x08000000 + sizeof_page_infos + w32 (1 * PAGE_SIZE))) with 0x08001008.
  rewrite (proj2 (Z.ltb_ge 0x08001008 _)) by lia. change (0 <? 0) with false. cbn iota. apply wp_ret.
  change (SUCCES =? FAILED) with false. cbn iota. unfold add_block. vload 4. rewrite H4.
  vstore 8. vstore 12. vstore 16. vload 16. change (w32 (0x08000008 + sizeof_mem_infos)) with 0x08000018.
  change (w32 0x08000018) with 0x08000018. rewrite (w32_small (0x08000018 + size)) by lia.
  vstore 20. vload 20. rewrite (w32_small (0x08000018 + size)) by lia. vstore 4.
  apply (wp_vload32 16); [assumption|lia|lia|]. cbn [mem set_mem]. rd_simpl.
  match goal with |- Q _ (set_mem ?f5 (set_mem ?f4 (set_mem ?f3 (set_mem ?f2 (set_mem ?f1 k))))) =>
    refine (HQ (f5 (f4 (f3 (f2 (f1 (mem k)))))) _ _) end; [|assumption].
  unfold first_headers. rd_simpl. rewrite H0. rewrite !w32_small by (unfold FALSE; lia). done.
Qed.

Lemma wp_first_kmalloc size s0 (Q : Z -> kst -> Prop) k : heap_state k -> g_kds_size k = 0 -> first_value k = 0 ->
  0 < size <= 4080 -> 2 <= max_pages k -> (forall v, v = 0x8000 \/ v = 0x8001 -> vmap (mem k) v = None) ->
  0 <= s0 -> s0 + 2 <= frames_count (g_frames_context k) -> free_run (mem k) s0 2 ->
  (forall i, 0 <= i < frames_count (g_frames_context k) -> rd32 (mem k) (desc i + 4) = 0) ->
  (forall k', heap_state k' -> g_kds_size k' = 4104 -> first_value k' = 0x08000000 -> low_heap k' ->
     first_headers (mem k') size -> Q 0x08000018 k') ->
  wp (kmalloc size) Q k.
Proof.
  intros Hh Hz Hfv Hsize Hmax Hv Hs0 Hs Hrun Ha HQ. unfold kmalloc. rewrite (proj2 (Z.eqb_neq size 0)) by lia.
  change (mem_add_value size) with (page_infos ← get_first_value; mem_add_from size page_infos).
  apply wp_bind. unfold get_first_value at 1. apply wp_bind. apply wp_gets. rewrite Hfv. change (0 =? 0) with true. cbn iota.
  apply wp_bind. change (hsbrk (s32 (sizeof_page_infos + PAGE_SIZE))) with (sbrk 4104).
  apply (wp_first_sbrk s0); try done. intros k1 Hh1 Hz1 Hl1.
  change (0x08000000 =? SBRK_ERROR) with false. cbn iota.
  apply wp_bind, wp_modify. assert (Hl2 : low_heap (set_first 0x08000000 k1)) by (split; apply Hl1).
  vstore 0. vstore 4. apply wp_gets. cbn [first_value set_first set_mem].
  apply wp_first_add; [assumption|done|cbn [mem set_mem]; by rd_simpl|cbn [mem set_mem]; by rd_simpl|done|].
  intros m Hm Hl3. apply HQ; [|exact Hz1|done|exact Hl3|exact Hm].
  destruct Hh1 as [_ Hk Hf Hs1 Hb]. split; [apply Hl3|exact Hk|exact Hf|exact Hs1|exact Hb].
Qed.
End first_block.

(** * After the boot *)

(** The entry that is found starts where memory does. *)
Lemma find_ram_base m mmaps n : find_ram m mmaps n <> NULL ->
  rdp m (map_base_addr_low (find_ram m mmaps n)) = RAM_BASE_ADDR.
Proof.
  induction n as [|n IH]; cbn [find_ram]; [done|]. intros Hne.
  destruct (Z.eqb_spec (rdp m (map_base_addr_low (mmap_entry mmaps (Z.of_nat n)))) RAM_BASE_ADDR); [done|by apply IH].
Qed.

(** What sbrk needs holds after the boot of a machine with 14 MB of memory. *)
Lemma booted_sbrk {LY : Layout} {LO : LayoutOk LY} m mbi map len k : boot_info m mbi map len -> 0xE10000 <= len < 4294967296 ->
  let N := (len - 0x700000) / 4096 in booted m map len k N ->
  2 <= max_pages k /\ (forall v, v = 0x8000 \/ v = 0x8001 -> vmap (mem k) v = None) /\
  0 <= N - 2 /\ free_run (mem k) (N - 2) 2 /\ (forall i, 0 <= i < N -> rd32 (mem k) (desc i + 4) = 0).
Proof.
  intros Hinfo Hlen N Hb. assert (HN : 1800 <= N < 1048576) by (unfold N; Z.div_mod_to_equations; lia).
  split; [|split; [|split; [lia|split]]].
  - destruct (info_found _ _ _ _ Hinfo (mem k)) as (Hf & Hl & _).
    { intros a Ha1 Ha2. by apply (booted_rest _ _ _ _ _ Hb). }
    unfold max_pages. rewrite (booted_context _ _ _ _ _ Hb). cbn [fc_map]. rewrite Hl.
    pose proof (find_ram_base (mem k) (mbi_maps (mem k) mbi) (Z.to_nat (mbi_count (mem k) mbi))) as Hbase.
    rewrite Hf in Hbase. rewrite Hbase by apply Hinfo. unfold RAM_BASE_ADDR, FRAME_SIZE.
    rewrite w32_small by (Z.div_mod_to_equations; lia). Z.div_mod_to_equations; lia.
  - intros v Hv. rewrite (booted_vmap _ _ _ _ _ Hb) by lia. by rewrite decide_False by lia.
  - intros i Hi. pose proof (booted_frames _ _ _ _ _ Hb i ltac:(lia)) as E. rewrite decide_False in E by lia.
    by injection E.
  - intros i Hi. pose proof (booted_frames _ _ _ _ _ Hb i Hi) as E. unfold frame_in in E.
    destruct (decide _); by injection E.
Qed.

(** C8: after the boot of a machine with at least 0xE10000 bytes of memory above
    1 MB, the first kmalloc, of up to 4080 bytes, answers 0x08000018, behind the
    headers it writes, in a segment of 4104 bytes, and the heap's state is kept.
    The bytes of the block are those of RAM from address 24 on, modulo 4096:
    what a client writes from byte 4072 on lands in the allocator's headers. *)
Theorem boot_first_block {HW : Hardware} {LY : Layout} {LO : LayoutOk LY} m mbi map len size :
  boot_info m (w32 (SYSTEM_ADDR_BASE + mbi)) map len -> 0xE10000 <= len < 4294967296 ->
  (forall v, 0 <= sym_isr v < 4294967296) -> 0 < size <= 4080 ->
  ⟨ boot_state m ⟩ (main MAGIC_NUMBER mbi;; finalize_pagination;; main_init);; kmalloc (H := kernel_Heap) size ⟨ r, k' |
    r = 0x08000018 /\ heap_state k' /\ g_kds_size k' = 4104 /\ first_value k' = 0x08000000 /\ first_headers (mem k') size /\
    forall i, 0 <= i < size -> mmu (mem k') kpd (r + i) = Some ((24 + i) mod 4096) ⟩.
Proof.
  intros Hinfo Hlen Hisr Hsize. apply wp_bind. eapply wp_mono; [by apply wp_boot|]. cbv beta. intros _ k Hb.
  destruct (booted_sbrk _ _ _ _ _ Hinfo Hlen Hb) as (Hmax & Hv & HN & Hrun & Ha). destruct (booted_empty _ _ _ _ _ Hb) as [Hz Hfv].
  pose proof (booted_context _ _ _ _ _ Hb) as Hctx.
  apply (wp_first_kmalloc size ((len - 0x700000) / 4096 - 2)); rewrite ?Hctx; cbn [frames_count]; try done; [apply Hb|lia|].
  intros k' Hh' Hz' Hf' Hl' Hm'. split; [done|]. split; [done|]. split; [done|]. split; [done|]. split; [done|].
  intros i Hi. replace (0x08000018 + i) with (0x08000000 + (24 + i)) by lia. apply low_heap_mmu; [done|lia].
Qed.

Lemma boot_first_block_witness :
  let HW := fixed_hw (fun _ => 0) in let LY := example_layout in
  ⟨ boot_state example_boot_ram ⟩ (main MAGIC_NUMBER 0x10000;; finalize_pagination;; main_init);; kmalloc (H := kernel_Heap) 4080 ⟨ r, k' |
    r = 0x08000018 /\ mmu (mem k') 0x105000 (r + 4072) = Some 0 ⟩.
Proof.
  intros HW LY. eapply wp_mono.
  - apply (@boot_first_block HW LY example_layout_ok example_boot_ram 0x10000 0xC0011000 0xF00000 4080).
    + by apply example_boot_info.
    + lia.
    + intros v. cbn. pose proof (Z.mod_pos_bound v 256). lia.
    + lia.
  - cbv beta. intros r k' (-> & _ & _ & _ & _ & H). split; [reflexivity|]. exact (H 4072 ltac:(lia)).
Defined.
