(* ===== verification/Life.v ===== *)
(** The whole run of src/main.c: the boot, the first delay, the look at the user
    function, and the greeting for ever, under interrupts. *)
From S2P Require Import Prelude Memory State Console Kprintf Vga Interrupts Devices Pages Mmu Tables Frames Sbrk Boot.
Local Open Scope Z_scope.
Local Open Scope kern_scope.

(** The interrupts that are taken between the readings of the counter of one
    sleep(1): from the devices, more than a hundred of them the timer's, and not
    2^32 between two readings. *)
Record wakes (polls : list (list regs)) : Prop := {
  wakes_devices : Forall (Forall (fun r => 32 <= r_int_no r < 48)) polls;
  wakes_enough : 100 < foldr Z.add 0 (timer_irqs <$> polls);
  wakes_bound : Forall (fun rs => Z.of_nat (length rs) < 4294967196) polls
}.

Lemma timer_irqs_length rs : 0 <= timer_irqs rs <= Z.of_nat (length rs).
Proof.
  induction rs as [|r rs IH]; [done|].
  change (timer_irqs (r :: rs)) with (b2z (r_int_no r =? 32) + timer_irqs rs). cbn [length].
  destruct (r_int_no r =? 32); cbn [b2z]; lia.
Qed.

(** main_userland's code: its first RET, the byte 0xC3, is its byte [n]; it is in
    the kernel's image, apart from the page directory. *)
Record user_code {LY : Layout} (m : ram) (n : Z) : Prop := {
  user_place : 0xC0100000 <= sym_main_userland /\ 0 <= n /\ sym_main_userland + n < 0xC0400000;
  user_apart : sym_main_userland + n < sym_page_dir \/ sym_page_dir + 4096 <= sym_main_userland;
  user_ret : rd8 m (sym_main_userland - 0xC0000000 + n) = 0xC3;
  user_body i : 0 <= i < n -> rd8 m (sym_main_userland - 0xC0000000 + i) <> 0xC3
}.

(** The interrupts that a delay of [d] ticks takes: poll after poll, up to and with
    the first after which more than [d] of them were the timer's. *)
Fixpoint delay_irqs (d : Z) (polls : list (list regs)) : list regs :=
  match polls with
  | [] => []
  | rs :: polls => if d <? timer_irqs rs then rs else rs ++ delay_irqs (d - timer_irqs rs) polls
  end.

(** The ticks that one sleep(1) counts. *)
Definition delay_ticks (polls : list (list regs)) : Z := timer_irqs (delay_irqs 100 polls).

(** Bytes on the serial line, once the port is selected. *)
Definition on_line (bs : list Z) : list event := (fun c => EOut SERIAL_PORT (w8 c)) <$> bs.

(** The report of the user function, whose RET is its byte [n]. *)
Definition user_report {LY : Layout} (n : Z) : list Z :=
  chars "func_start: " ++ show_ptr sym_main_userland ++ chars " => " ++ show_ptr (sym_main_userland + n) ++
  chars " [" ++ dec_word (n + 1) ++ chars "]" ++ [10].

Definition greeting : list Z := chars ("hello world !" +:+ nl).

(** Greetings, each followed by what the interrupts of its delay send. *)
Definition greetings (evss : list (list event)) : list event := concat ((fun evs => on_line greeting ++ evs) <$> evss).

Section life.
Context {HW : Hardware} {LY : Layout}.

Definition polls_of (polls : list (list regs)) : list (prog kst unit) := irqs <$> polls.

Lemma quiet_devices_only k k' : quiet k k' -> devices_only k k'.
Proof.
  intros (evs & d & ->). exists (mem k), evs, (send_char k), (ticks k), d. by destruct k.
Qed.

Lemma devices_only_text m' evs k :
  (forall a, ~ (TEXT_BASE <= a < TEXT_BASE + 2 * TEXT_CELLS) -> rd8 m' a = rd8 (mem k) a) ->
  devices_only k (logged evs (set_mem (fun _ => m') k)).
Proof. intros Hm. exists m', evs, (send_char k), (ticks k), (disp_count k). split; [by destruct k|exact Hm]. Qed.

Lemma devices_only_uart k k' : devices_only k k' -> uart_addr k' = uart_addr k.
Proof. by intros (? & ? & ? & ? & ? & -> & _). Qed.

Lemma devices_only_trace k k' : devices_only k k' -> exists evs, trace k' = trace k ++ evs.
Proof. intros (m' & evs & ? & ? & ? & -> & _). by exists evs. Qed.

Lemma devices_only_mem k k' a : devices_only k k' -> ~ (TEXT_BASE <= a < TEXT_BASE + 2 * TEXT_CELLS) ->
  rd8 (mem k') a = rd8 (mem k) a.
Proof. intros (m' & evs & ? & ? & ? & -> & H). apply H. Qed.

Lemma running_devices_only k k' : running k -> devices_only k k' -> 0 <= ticks k' < 4294967296 -> running k'.
Proof. intros [Hh _] Hd Ht. split; [by rewrite (devices_only_handlers _ _ Hd)|done]. Qed.

(** [said bs k k']: from [k] to [k'] the kernel sent [bs], and perhaps showed them. *)
Record said (bs : list Z) (k k' : kst) : Prop := {
  said_devices : devices_only k k';
  said_trace : trace k' = trace k ++ on_line bs;
  said_ticks : ticks k' = ticks k;
  said_key : send_char k' = send_char k
}.

Lemma said_running bs k k' : running k -> said bs k k' -> running k'.
Proof. intros Hk [Hd _ Ht _]. apply (running_devices_only k); [done..|]. rewrite Ht. apply Hk. Qed.

Lemma line_bytes_on_line k bs : uart_addr k = SERIAL_PORT -> line_bytes k bs = on_line bs.
Proof. unfold line_bytes, on_line. by intros ->. Qed.

Lemma printk_said s k : uart_addr k = SERIAL_PORT -> cstr_ok s -> Z.of_nat (length (chars s)) <= TEXT_CELLS ->
  exists k', printk s k = Ret tt k' /\ said (chars s) k k'.
Proof.
  intros Hu Hs Hl. destruct (printk_eq s k Hs Hl) as (m' & He & Hm). eexists. split; [exact He|].
  split; [by apply devices_only_text| |done|done]. cbn [trace logged set_trace set_mem]. by rewrite Hu.
Qed.

(** ** The interrupts of a delay *)

Lemma irqs_app rs rs' k k1 : irqs rs k = Ret tt k1 -> irqs (rs ++ rs') k = irqs rs' k1.
Proof.
  revert k. induction rs as [|r rs IH]; intros k; cbn [app]; [by intros [= ->]|].
  change (irqs (r :: ?l)) with (interrupt r;; irqs l). unfold mbind, prog_bind.
  destruct (interrupt r k) as [[] k2| | |]; [apply IH|done..].
Qed.

Lemma timer_irqs_app rs rs' : timer_irqs (rs ++ rs') = timer_irqs rs + timer_irqs rs'.
Proof.
  induction rs as [|r rs IH]; [done|]. cbn [app].
  change (timer_irqs (r :: ?l)) with (b2z (r_int_no r =? 32) + timer_irqs l). lia.
Qed.

Definition devices (rs : list regs) : Prop := Forall (fun r => 32 <= r_int_no r < 48) rs.

Lemma irqs_running rs k : running k -> devices rs -> exists k', irqs rs k = Ret tt k' /\ running k' /\
  devices_only k k' /\ ticks k' = w32 (ticks k + timer_irqs rs).
Proof.
  intros Hk Hrs. destruct (irqs_poll k rs Hrs k) as (k' & He & [Hk' Hd] & Ht); [by split|]. by exists k'.
Qed.

Lemma delay_irqs_devices d polls : Forall devices polls -> devices (delay_irqs d polls).
Proof.
  intros Hp. revert d. induction Hp as [|rs polls Hrs Hp IH]; intros d; cbn [delay_irqs]; [constructor|].
  case_match; [done|]. apply Forall_app. split; [exact Hrs|apply IH].
Qed.

Lemma delay_irqs_over d polls : d < foldr Z.add 0 (timer_irqs <$> polls) -> 0 <= d -> d < timer_irqs (delay_irqs d polls).
Proof.
  revert d. induction polls as [|rs polls IH]; intros d; cbn [fmap list_fmap foldr delay_irqs]; [lia|]. intros Hd H0.
  destruct (Z.ltb_spec d (timer_irqs rs)); [done|]. rewrite timer_irqs_app.
  specialize (IH (d - timer_irqs rs)). pose proof (timer_irqs_length rs). lia.
Qed.

(** sleep takes just the interrupts of its delay. *)
Lemma sleep_loop_irqs start d polls : 0 <= d -> Forall devices polls ->
  Forall (fun rs => d + timer_irqs rs < 4294967296) polls -> forall acc k, running k -> 0 <= acc <= d ->
  ticks k = w32 (start + acc) -> d - acc < foldr Z.add 0 (timer_irqs <$> polls) ->
  exists k', irqs (delay_irqs (d - acc) polls) k = Ret tt k' /\ sleep_loop (polls_of polls) start d k = Ret tt k'.
Proof.
  intros H0 Hp Hb. induction Hp as [|rs polls Hrs Hp IH]; intros acc k Hk Hacc Ht Hsum; cbn [fmap list_fmap foldr] in Hsum; [lia|].
  apply Forall_cons in Hb as [Hn Hb]. pose proof (timer_irqs_length rs).
  destruct (irqs_running rs k Hk Hrs) as (k1 & He & Hk1 & _ & Ht1).
  assert (Ht1' : ticks k1 = w32 (start + (acc + timer_irqs rs))) by (rewrite Ht1, Ht, w32_add_l; f_equal; lia).
  assert (Hdiff : w32 (ticks k1 - start) = acc + timer_irqs rs) by (rewrite Ht1'; word_lia).
  change (polls_of (rs :: polls)) with (irqs rs :: polls_of polls). cbn [delay_irqs sleep_loop].
  rewrite (bind_ret_eq _ _ _ _ _ He). unfold pit_get_ticks. erewrite bind_ret_eq by reflexivity. rewrite Hdiff.
  destruct (Z.ltb_spec (d - acc) (timer_irqs rs)).
  - rewrite (proj2 (Z.ltb_lt _ _)) by lia. by exists k1.
  - rewrite (proj2 (Z.ltb_ge _ _)) by lia. rewrite (irqs_app _ _ _ _ He).
    replace (d - acc - timer_irqs rs) with (d - (acc + timer_irqs rs)) by lia. apply (IH Hb); done || lia.
Qed.

Lemma sleep_second polls k : running k -> wakes polls ->
  exists k', sleep (polls_of polls) 1 k = Ret tt k' /\ irqs (delay_irqs 100 polls) k = Ret tt k' /\
    running k' /\ devices_only k k' /\ ticks k' = w32 (ticks k + delay_ticks polls).
Proof.
  intros Hk [Hd He Hb].
  destruct (sleep_loop_irqs (ticks k) 100 polls ltac:(lia) Hd) with (acc := 0) (k := k) as (k' & Hi & Hs); [..|lia| |exact He|].
  - clear -Hb. induction Hb as [|rs polls Hrs Hb IH]; constructor; [|exact IH].
    pose proof (timer_irqs_length rs). lia.
  - done.
  - rewrite Z.add_0_r, w32_small; [done|apply Hk].
  - destruct (irqs_running (delay_irqs 100 polls) k Hk) as (k2 & Hi2 & H); [by apply delay_irqs_devices|].
    change (100 - 0) with 100 in Hi. rewrite Hi in Hi2. injection Hi2 as <-. by exists k'.
Qed.

Lemma wakes_over rounds : Forall wakes rounds -> Forall (fun p => 100 < delay_ticks p) rounds.
Proof. intros H. eapply Forall_impl; [exact H|]. intros p [_ Hp _]. by apply delay_irqs_over. Qed.

(** ** The endless loop *)

(** Rounds of the loop: a greeting, and the interrupts of a delay. *)
Inductive greets : kst -> list (list (list regs)) -> list (list event) -> kst -> Prop :=
| greets_nil k : greets k [] [] k
| greets_cons k k1 k2 k' polls rounds evs evss :
    said greeting k k1 -> irqs (delay_irqs 100 polls) k1 = Ret tt k2 -> trace k2 = trace k1 ++ evs ->
    greets k2 rounds evss k' -> greets k (polls :: rounds) (evs :: evss) k'.

Lemma greets_trace k rounds evss k' : greets k rounds evss k' -> trace k' = trace k ++ greetings evss.
Proof.
  induction 1 as [k|k k1 k2 k' polls rounds evs evss Hs _ Ht2 _ IH]; [by rewrite app_nil_r|].
  rewrite IH, Ht2, (said_trace _ _ _ Hs). change (greetings (evs :: evss)) with ((on_line greeting ++ evs) ++ greetings evss).
  by rewrite <- !app_assoc.
Qed.

Definition total_ticks (rounds : list (list (list regs))) : Z := foldr Z.add 0 (delay_ticks <$> rounds).

Lemma hello_rounds rounds : forall k, running k -> uart_addr k = SERIAL_PORT -> Forall wakes rounds ->
  exists k' evss, (forall more, hello_loop ((polls_of <$> rounds) ++ more) k = hello_loop more k') /\
    greets k rounds evss k' /\ running k' /\ devices_only k k' /\ ticks k' = w32 (ticks k + total_ticks rounds).
Proof.
  induction rounds as [|polls rounds IH]; intros k Hk Hu Hw.
  - exists k, []. split; [done|]. split; [constructor|]. split; [done|]. split; [done|].
    change (total_ticks []) with 0. rewrite Z.add_0_r, w32_small; [done|apply Hk].
  - apply Forall_cons in Hw as [Hw Hws].
    destruct (printk_said ("hello world !" +:+ nl) k Hu) as (k1 & He1 & Hs1); [ok_const..|].
    pose proof (said_running _ _ _ Hk Hs1) as Hk1.
    destruct (sleep_second polls k1 Hk1 Hw) as (k2 & He2 & Hi2 & Hk2 & Hd2 & Ht2).
    destruct (devices_only_trace _ _ Hd2) as [evs Hevs].
    assert (Hd : devices_only k k2) by (etrans; [apply Hs1|exact Hd2]).
    destruct (IH k2 Hk2) as (k' & evss & He & Hg & Hk' & Hd' & Ht'); [by rewrite (devices_only_uart _ _ Hd)|done|].
    exists k', (evs :: evss). split; [|split; [by eapply greets_cons|split; [done|split; [by etrans|]]]].
    + intros more. rewrite <- He.
      change (hello_loop ((polls_of <$> polls :: rounds) ++ more)) with
        (printk ("hello world !" +:+ nl);; sleep (polls_of polls) 1;; hello_loop ((polls_of <$> rounds) ++ more)).
      by rewrite (bind_ret_eq _ _ _ _ _ He1), (bind_ret_eq _ _ _ _ _ He2).
    + rewrite Ht', Ht2, w32_add_l, (said_ticks _ _ _ Hs1).
      change (total_ticks (polls :: rounds)) with (delay_ticks polls + total_ticks rounds). f_equal. lia.
Qed.
End life.

(** The first two parts of a sequence, run. *)
Lemma then_run {B} (p q : prog kst unit) (r : prog kst B) k k1 (x : unit) : (p;; q) k = Ret x k1 -> (p;; q;; r) k = r k1.
Proof. unfold mbind, prog_bind. destruct (p k); [|done..]. by intros ->. Qed.

Lemma running_ticks k : running k -> 0 <= ticks k < 4294967296.
Proof. by intros []. Qed.

(** * From the loader to the greetings *)

Local Set Default Proof Using "Type*".
Section run.
Context {HW : Hardware} {LY : Layout} {LO : LayoutOk LY}.

Lemma render_user n : 0xC0100000 <= sym_main_userland -> 0 <= n -> sym_main_userland + n < 0xC0400000 ->
  render (chars ("func_start: %p => %p [%d]" +:+ nl)) [AInt sym_main_userland; AInt (sym_main_userland + n); AInt (n + 1)]
  = Some (user_report n).
Proof.
  intros Hs Hn Hb. unfold user_report.
  change (chars ("func_start: %p => %p [%d]" +:+ nl)) with
    (chars "func_start: " ++ 37 :: 112 :: chars " => " ++ 37 :: 112 :: chars " [" ++ 37 :: 100 :: chars "]" ++ [10]).
  assert (s32 (n + 1) <> INT_MIN) by (rewrite s32_small; unfold INT_MIN; lia).
  apply render_text; [reflexivity|].
  eapply render_directive; [rewrite directive_ptr, w32_small by lia; reflexivity|]. apply render_text; [reflexivity|].
  eapply render_directive; [rewrite directive_ptr, w32_small by lia; reflexivity|]. apply render_text; [reflexivity|].
  eapply render_directive; [by apply directive_dec|]. reflexivity.
Qed.

(** prepare_userland finds the user's code as the loader put it. *)
Lemma prepare_userland_eq m map len N k0 k n : booted m map len k0 N -> devices_only k0 k -> user_code m n ->
  0 <= N -> exists k', prepare_userland k = Ret tt k' /\ printed (line_bytes k (user_report n)) k k'.
Proof.
  intros Hb Hd [Hp Ha Hr Hbody] HN. set (s := sym_main_userland) in *.
  pose proof kpd_range as (?&?&_&Hk).
  assert (Hs : SYSTEM_ADDR_BASE <= s) by (unfold SYSTEM_ADDR_BASE; lia).
  assert (Hka : forall i, 0 <= i <= n -> rd8 (mem k) (ka s + i) = rd8 m (s - 0xC0000000 + i)).
  { intros i Hi. rewrite ka_high by done. change SYSTEM_ADDR_BASE with 0xC0000000 in *.
    rewrite (devices_only_mem _ _ _ Hd) by (unfold TEXT_BASE, TEXT_CELLS; lia).
    apply (booted_rest _ _ _ _ _ Hb); unfold PT_BASE; lia. }
  rewrite (prepare_userland_scans k (Z.to_nat n)); rewrite ?Z2Nat.id by lia; fold s.
  - assert (Hw : wp (kprintf ("func_start: %p => %p [%d]" +:+ nl) [AInt s; AInt (s + n); AInt (n + 1)])
      (fun _ k' => printed (line_bytes k (user_report n)) k k') k).
    { eapply (wp_kprintf_printed _ _ (user_report n) [] k); [apply printed_nil|ok_const|apply render_user; lia|].
      intros _ k' Hk'. exact Hk'. }
    destruct (wp_elim _ _ _ Hw) as (r & k' & He & Hq).
    exists k'. split; [rewrite (bind_ret_eq _ _ _ _ _ He); reflexivity|exact Hq].
  - unfold linear, SYSTEM_ADDR_BASE in *. lia.
  - rewrite Hka by lia. exact Hr.
  - intros i Hi. rewrite Hka by lia. by apply Hbody.
Qed.

(** The loader's magic number is still there when main_new looks at it. *)
Lemma main_magic magic mbi k : wp (main magic mbi;; finalize_pagination) (fun _ k' => magic_number k' = magic) k.
Proof.
  unfold main, enable_paging. wp_go. apply wp_init_page_directory. intros m1 _ _. wp_go.
  by eapply wp_eq; [apply finalize_pagination_eq|].
Qed.

Lemma boot_eq m mbi polls rounds k0 :
  (main MAGIC_NUMBER mbi;; finalize_pagination;; main_init) (boot_state m) = Ret tt k0 ->
  boot MAGIC_NUMBER mbi polls rounds (boot_state m) = (sleep polls 1;; prepare_userland;; print_hello_world rounds) k0.
Proof.
  intros H0. destruct (wp_elim _ _ _ (main_magic MAGIC_NUMBER mbi (boot_state m))) as ([] & k1 & H1 & Hm).
  rewrite (then_run _ _ _ _ _ _ H1) in H0. unfold boot, main_new. rewrite (then_run _ _ _ _ _ _ H1).
  eapply bind_then; [reflexivity|]. rewrite Hm. change (negb (MAGIC_NUMBER =? MAGIC_NUMBER)) with false. cbn iota.
  by rewrite (bind_ret_eq _ _ _ _ _ H0).
Qed.

(** The states of the run after the boot. *)
Lemma greets_after_boot m map len N k0 n polls rounds : booted m map len k0 N -> 0 <= N -> user_code m n ->
  wakes polls -> Forall wakes rounds ->
  exists k1 k3 k' evss,
    (forall more, (sleep (polls_of polls) 1;; prepare_userland;; print_hello_world ((polls_of <$> rounds) ++ more)) k0
      = hello_loop more k') /\
    irqs (delay_irqs 100 polls) k0 = Ret tt k1 /\ devices_only k0 k1 /\ said (user_report n ++ [10]) k1 k3 /\
    greets k3 rounds evss k' /\ running k' /\ devices_only k3 k' /\ ticks k' = w32 (total_ticks (polls :: rounds)).
Proof.
  intros Hb HN Huser Hw Hws. pose proof (booted_uart _ _ _ _ _ Hb) as Hu.
  destruct (sleep_second polls k0) as (k1 & Hs & Hi & Hk1 & Hd1 & Ht1); [apply Hb|done|].
  destruct (prepare_userland_eq m map len N k0 k1 n Hb Hd1 Huser HN) as (k2 & Hp & Hq).
  assert (Hu1 : uart_addr k1 = SERIAL_PORT) by (by rewrite (devices_only_uart _ _ Hd1)).
  rewrite line_bytes_on_line in Hq by done.
  assert (Hu2 : uart_addr k2 = SERIAL_PORT) by (destruct Hq as (? & ->); done).
  destruct (printk_said nl k2 Hu2) as (k3 & Hn & Hs3); [ok_const..|].
  assert (Hs13 : said (user_report n ++ [10]) k1 k3).
  { destruct Hs3 as [Hd3 Ht3 Hk3 Hc3]. pose proof (quiet_devices_only _ _ (printed_quiet _ _ _ Hq)) as Hd2. split.
    - by etrans.
    - rewrite Ht3, (printed_trace _ _ _ Hq), <- app_assoc. f_equal. symmetry. apply fmap_app.
    - rewrite Hk3. by destruct Hq as (? & ->).
    - rewrite Hc3. by destruct Hq as (? & ->). }
  pose proof (said_running _ _ _ Hk1 Hs13) as Hk3.
  destruct (hello_rounds rounds k3 Hk3) as (k' & evss & He & Hg & Hk' & Hd & Ht).
  { by rewrite (devices_only_uart _ _ (said_devices _ _ _ Hs13)). }
  { done. }
  exists k1, k3, k', evss. split; [|split; [exact Hi|split; [exact Hd1|split; [exact Hs13|split; [exact Hg|split; [exact Hk'|split; [exact Hd|]]]]]]].
  - intros more. rewrite (bind_ret_eq _ _ _ _ _ Hs), (bind_ret_eq _ _ _ _ _ Hp).
    unfold print_hello_world. by rewrite (bind_ret_eq _ _ _ _ _ Hn).
  - rewrite Ht, (said_ticks _ _ _ Hs13), Ht1, (booted_ticks _ _ _ _ _ Hb), w32_add_l. done.
Qed.

(** C7: the kernel lives for ever. Booted on a machine whose memory the loader
    describes, with a RET in its user function, and with a timer that ticks (more
    than a hundred timer interrupts during each delay, other device interrupts in
    any number and order), it comes up (in [k0]); serves just the interrupts of its
    first delay, those up to the reading of the counter that more than a hundred of
    the timer's precede; sends the report of the user function (its address, that of
    its RET and the number of its bytes) and an empty line; and then, for any number
    of rounds, sends the greeting and serves just the interrupts of a delay, to be
    at the head of its endless loop again. What the line and the devices saw
    since the boot is this sequence and nothing else; the counter is exactly, modulo
    2^32, the number of timer interrupts that the delays served, each delay at
    least 101; and only the devices' part of the state differs from what the boot
    left. *)
Theorem kernel_greets m mbi map len n polls rounds :
  boot_info m (w32 (SYSTEM_ADDR_BASE + mbi)) map len -> (forall v, 0 <= sym_isr v < 4294967296) ->
  user_code m n -> wakes polls -> Forall wakes rounds ->
  exists k0 k1 k2 k' evs evss,
    (main MAGIC_NUMBER mbi;; finalize_pagination;; main_init) (boot_state m) = Ret tt k0 /\
    (forall more, boot MAGIC_NUMBER mbi (polls_of polls) ((polls_of <$> rounds) ++ more) (boot_state m) = hello_loop more k') /\
    irqs (delay_irqs 100 polls) k0 = Ret tt k1 /\ trace k1 = trace k0 ++ evs /\
    said (user_report n ++ [10]) k1 k2 /\ greets k2 rounds evss k' /\
    trace k' = trace k0 ++ evs ++ on_line (user_report n ++ [10]) ++ greetings evss /\
    ticks k' = w32 (total_ticks (polls :: rounds)) /\ Forall (fun p => 100 < delay_ticks p) (polls :: rounds) /\
    running k' /\ devices_only k0 k'.
Proof.
  intros Hinfo Hisr Huser Hw Hws. destruct (wp_elim _ _ _ (wp_boot m mbi map len Hinfo Hisr)) as ([] & k0 & H0 & Hb).
  assert (HN : 0 <= (len - 0x700000) / 4096) by (pose proof (info_len _ _ _ _ Hinfo); Z.div_mod_to_equations; lia).
  destruct (greets_after_boot m map len _ k0 n polls rounds Hb HN Huser Hw Hws)
    as (k1 & k2 & k' & evss & He & Hi & Hd1 & Hs & Hg & Hk' & Hd & Ht).
  destruct (devices_only_trace _ _ Hd1) as [evs Hevs]. exists k0, k1, k2, k', evs, evss.
  split; [exact H0|]. split; [intros more; rewrite (boot_eq _ _ _ _ _ H0); apply He|].
  split; [exact Hi|]. split; [exact Hevs|]. split; [exact Hs|]. split; [exact Hg|]. split; [|split; [exact Ht|split; [|split]]].
  - by rewrite (greets_trace _ _ _ _ Hg), (said_trace _ _ _ Hs), Hevs, <- !app_assoc.
  - apply wakes_over, Forall_cons. exact (conj Hw Hws).
  - exact Hk'.
  - etrans; [exact Hd1|]. etrans; [apply Hs|exact Hd].
Qed.
End run.

(** The machine of 16 MB, with a user function that is one RET. *)
Definition example_user_ram : ram := wr8 example_boot_ram 0x108000 0xC3.

Definition example_delay : list (list regs) := replicate 101 [example_regs 32; example_regs 33].

Lemma example_delay_wakes : wakes example_delay.
Proof.
  split.
  - apply Forall_replicate. repeat constructor; cbn; lia.
  - vm_compute. reflexivity.
  - apply Forall_replicate. cbn. lia.
Qed.

Lemma kernel_greets_witness :
  let HW := fixed_hw (fun _ => 0x1E) in let LY := example_layout in
  exists k0 k' evs evss, (forall more, boot MAGIC_NUMBER 0x10000 (polls_of example_delay) ([polls_of example_delay; polls_of example_delay] ++ more)
      (boot_state example_user_ram) = hello_loop more k') /\
    trace k' = trace k0 ++ evs ++ on_line (chars ("func_start: 0xc0108000 => 0xc0108000 [1]" +:+ nl +:+ nl)) ++ greetings evss /\
    running k' /\ ticks k' = 303.
Proof.
  intros HW LY.
  destruct (@kernel_greets HW LY example_layout_ok example_user_ram 0x10000 0xC0011000 0xF00000 0 example_delay [example_delay; example_delay])
    as (k0 & k1 & k2 & k' & evs & evss & _ & H1 & _ & _ & _ & _ & H2 & H3 & _ & H4 & _).
  - apply example_boot_info. intros a Ha. apply rd8_wr8_ne. lia.
  - intros v. cbn. pose proof (Z.mod_pos_bound v 256). lia.
  - split; [split; [discriminate|split; [discriminate|reflexivity]]|right; discriminate|vm_compute; reflexivity|lia].
  - exact example_delay_wakes.
  - apply Forall_cons. split; [exact example_delay_wakes|]. apply Forall_singleton. exact example_delay_wakes.
  - exists k0, k', evs, evss. split; [exact H1|]. split; [|split; [exact H4|]].
    + rewrite H2. reflexivity.
    + rewrite H3. vm_compute. reflexivity.
Defined.
