(* ===== verification/Services.v ===== *)
(** The services of the running kernel, one after another: device interrupts,
    the frame allocator, the page tables, sbrk and the text screen, over the
    invariants of their components. *)
From S2P Require Import Prelude Memory State Console Kprintf Vga Interrupts Devices Pages Mmu Tables Frames Sbrk MapIo Boot Life.
Local Open Scope Z_scope.
Local Open Scope kern_scope.
Local Set Default Proof Using "Type*".

(** A request to the kernel. The addresses and counts are the arguments of the C
    functions; [SFreeFrame i] is free_frame of the frame described at index [i];
    [local] is where map_io has its local frame on the stack. *)
Inductive service :=
| SInterrupt (r : regs)
| SAllocFrame
| SAllocFrames (n : Z)
| SFreeFrame (i : Z)
| SMapPages (va frames n flags : Z)
| SUnmapPages (va n : Z)
| SMapIo (local ioaddr len : Z)
| SSbrk (size : Z)
| SPrintk (s : string).

Section services.
Context {HW : Hardware} {LY : Layout}.

Definition serve (s : service) : prog kst unit :=
  match s with
  | SInterrupt r => interrupt r
  | SAllocFrame => alloc_frame;; skip
  | SAllocFrames n => alloc_frames n;; skip
  | SFreeFrame i => free_frame (get_frame_at i)
  | SMapPages va fp n flags => kpd ← get_kpd_frame; map_pages kpd va fp n flags;; skip
  | SUnmapPages va n => kpd ← get_kpd_frame; unmap_pages kpd va n
  | SMapIo local ioaddr len => kpd ← get_kpd_frame; map_io local kpd ioaddr len;; skip
  | SSbrk size => sbrk size;; skip
  | SPrintk s => printk s
  end.

(** What a caller owes: arguments in range; frames that are described, and not
    referenced 2^31 times; a segment that stays below the kernel. *)
Definition service_ok (s : service) (k : kst) : Prop :=
  match s with
  | SInterrupt r => 32 <= r_int_no r < 48
  | SAllocFrame => True
  | SAllocFrames n => 1 <= n < 2147483648
  | SFreeFrame i => 0 <= i < frames_count (g_frames_context k) /\ rc (mem k) i < 2147483648
  | SMapPages va fp n flags =>
      flags mod 2 = 1 /\ 0 <= n < 4294967296 /\ 0 <= va < 4294967296 /\ va + 4096 * n <= 4294967296 /\ frames_ok fp n
  | SUnmapPages va n => 0 <= n < 2147483648 /\ 0 <= va < 4294967296 /\ va + 4096 * n <= 4294967296
  | SMapIo local ioaddr len => 0 <= len < 4294967296 /\ frames_ok local 1
  | SSbrk size =>
      INT_MIN < size < 2147483648 /\
      (0 < size -> heap_end (g_kds_size k) + 4096 * pages_of size <= 0xC0000000) /\ - size <= g_kds_size k
  | SPrintk s => cstr_ok s /\ Z.of_nat (length (chars s)) <= TEXT_CELLS
  end.

(** The invariants of the running kernel. *)
Record kernel_ok (k : kst) : Prop := {
  ok_running : running k;
  ok_heap : heap_state k
}.

(** No page that is mapped is unmapped, or mapped to another frame. *)
Definition keeps_mapped (m m' : ram) : Prop :=
  forall v p, 0 <= v < 1048576 -> ~ window (v / 1024) -> vmap m v = Some p -> vmap m' v = Some p.

Definition keeps_translations (m m' : ram) : Prop :=
  forall va pa, 0 <= va < 4294967296 -> mmu m kpd va = Some pa -> mmu m' kpd va = Some pa.

#[export] Instance keeps_mapped_preorder : PreOrder keeps_mapped.
Proof. split; [by intros m v p|]. intros m1 m2 m3 H1 H2 v p Hv Hw H. by apply H2, H1. Qed.

(** The static data that only the boot writes: the handlers, the processor's tables,
    the serial port, the page directory's address, the frames' context. *)
Definition same_config (k k' : kst) : Prop :=
  (g_handlers k', g_idt k', g_gdt k', g_tss k', uart_addr k') = (g_handlers k, g_idt k, g_gdt k, g_tss k, uart_addr k) /\
  (g_frame_page_directory k', g_frames_context k', first_value k', magic_number k', multiboot_info k') =
  (g_frame_page_directory k, g_frames_context k, first_value k, magic_number k, multiboot_info k).

(** What a service leaves that serves [n] timer interrupts. *)
Record served (n : Z) (k k' : kst) : Prop := {
  served_ok : kernel_ok k';
  served_keeps : keeps_mapped (mem k) (mem k');
  served_trace : exists evs, trace k' = trace k ++ evs;
  served_clock : ticks k' = w32 (ticks k + n);
  served_config : same_config k k'
}.

(** The timer interrupts of a service. *)
Definition timer_service (s : service) : Z :=
  match s with SInterrupt r => b2z (r_int_no r =? 32) | _ => 0 end.

End services.

Section served.
Context {HW : Hardware} {LY : Layout} {LO : LayoutOk LY}.

Lemma kernel_clock k : kernel_ok k -> ticks k = w32 (ticks k + 0).
Proof. intros [[_ Ht] _]. by rewrite Z.add_0_r, w32_small. Qed.

Lemma served_trans_sum n1 n2 k1 k2 k3 : served n1 k1 k2 -> served n2 k2 k3 -> served (n1 + n2) k1 k3.
Proof.
  intros [_ H1 (e1 & T1) C1 [A1 B1]] [H2 H3 (e2 & T2) C2 [A2 B2]]. split; [done|by etrans| |..].
  - exists (e1 ++ e2). by rewrite T2, T1, app_assoc.
  - rewrite C2, C1, w32_add_l. f_equal. lia.
  - split; congruence.
Qed.

Lemma served_trans k1 k2 k3 : served 0 k1 k2 -> served 0 k2 k3 -> served 0 k1 k3.
Proof. apply (served_trans_sum 0 0). Qed.

Lemma served_quiet k k' : kernel_ok k -> quiet k k' -> served 0 k k'.
Proof.
  intros Hk Hq. pose proof (kernel_clock k Hk). split.
  - destruct Hk as [Hr Hh]. split; [|by eapply heap_state_quiet]. by destruct Hq as (? & ? & ->).
  - by rewrite (quiet_mem _ _ Hq).
  - destruct Hq as (t & ? & ->). by exists t.
  - by destruct Hq as (? & ? & ->).
  - by destruct Hq as (? & ? & ->).
Qed.

Lemma served_mem m' k : kernel_ok k -> paging m' -> keeps_mapped (mem k) m' -> served 0 k (set_mem (fun _ => m') k).
Proof.
  intros Hok Hp Hk. pose proof (kernel_clock k Hok). destruct Hok as [Hr [? ? ? ? ?]].
  split; [split; [exact Hr|by split]|exact Hk| |done|done]. exists []. by rewrite app_nil_r.
Qed.

Lemma served_tables m' k : kernel_ok k -> (forall c, 0 <= c < 1024 -> pde m' c = pde (mem k) c) ->
  (forall v, 0 <= v < 1048576 -> pte m' v = pte (mem k) v) -> served 0 k (set_mem (fun _ => m') k).
Proof.
  intros Hk Hd Ht. apply served_mem; [done| |].
  - apply (paging_ext (mem k)); [done..|apply Hk].
  - intros v p Hv _ H. unfold vmap. by rewrite Ht.
Qed.

Lemma served_size s k : kernel_ok k -> 0 <= s -> heap_end s <= 0xC0000000 -> served 0 k (set_kds_size s k).
Proof.
  intros Hok Hs He. pose proof (kernel_clock k Hok). destruct Hok as [Hr [? ? ? ? ?]].
  split; [split; [exact Hr|by split]|done| |done|done]. exists []. by rewrite app_nil_r.
Qed.

Lemma served_devices n k k' : kernel_ok k -> running k' -> devices_only k k' -> ticks k' = w32 (ticks k + n) ->
  served n k k'.
Proof.
  intros [_ [Hp Hkpd Hf Hs Hb]] Hr Hd Hn. destruct (devices_only_tables _ _ Hd) as [Hpd Hpt].
  assert (Hv : keeps_mapped (mem k) (mem k')) by (intros v p Hv _ H; unfold vmap; by rewrite Hpt).
  assert (Hp' : paging (mem k')) by (by apply (paging_ext (mem k))).
  destruct (devices_only_trace _ _ Hd) as [evs Ht].
  destruct Hd as (m' & evs' & s & tk & d & -> & _). split; [split; [done|by split]|done|by exists evs|done|done].
Qed.

Lemma served_mapped m1 va p i k : kernel_ok k -> mapped (mem k) m1 va p i ->
  0 <= va -> (forall j, 0 <= j < i -> vmap (mem k) (va / 4096 + j) = None) -> served 0 k (set_mem (fun _ => m1) k).
Proof.
  intros Hk Hm Hva Hfree. apply served_mem; [done|apply Hm|]. intros v q Hv _ H.
  rewrite (mapped_vmap _ _ _ _ _ Hm) by done. case_decide as Hd; [|done].
  specialize (Hfree (v - va / 4096) ltac:(lia)). replace (va / 4096 + (v - va / 4096)) with v in Hfree by lia.
  congruence.
Qed.

Lemma served_logged evs k : kernel_ok k -> served 0 k (logged evs k).
Proof. intros Hk. apply served_quiet; [done|apply quiet_logged]. Qed.

(** ** The services, one by one *)

Lemma serve_interrupt r k : kernel_ok k -> 32 <= r_int_no r < 48 ->
  wp (interrupt r) (fun _ => served (b2z (r_int_no r =? 32)) k) k.
Proof.
  intros Hk Hr. destruct (interrupt_running r k (ok_running _ Hk) Hr) as (k' & He & Hr' & Hd & Ht).
  eapply wp_eq; [exact He|]. by apply served_devices.
Qed.

Lemma serve_printk s k : kernel_ok k -> cstr_ok s -> Z.of_nat (length (chars s)) <= TEXT_CELLS ->
  wp (printk s) (fun _ => served 0 k) k.
Proof.
  intros Hk Hs Hl. destruct (printk_frame s k Hs Hl) as (m' & evs & He & Hm). eapply wp_eq; [exact He|].
  pose proof (devices_only_text m' evs k Hm) as Hd. apply served_devices; [done| |exact Hd|exact (kernel_clock k Hk)].
  by apply (running_devices_only k); [apply Hk|exact Hd|apply Hk].
Qed.

Lemma serve_counts m' s n v k : kernel_ok k -> 0 <= s -> set_counts (mem k) m' s n v -> served 0 k (set_mem (fun _ => m') k).
Proof. intros Hk Hs Hc. destruct (set_counts_tables _ _ _ _ _ Hs Hc). by apply served_tables. Qed.

Lemma serve_alloc_frame k : kernel_ok k -> wp alloc_frame (fun _ => served 0 k) k.
Proof.
  intros Hk. apply (wp_alloc_frame k _ eq_refl (heap_frames _ (ok_heap _ Hk))).
  - intros i Hi _ _. change (set_mem (fun m => wr32 m (desc i) 1) k) with (set_mem (fun _ => wr32 (mem k) (desc i) 1) k).
    apply (serve_counts _ i 1 1); [done|lia|]. split.
    + intros j Hj. replace j with i by lia. rewrite rc_wr. by rewrite decide_True.
    + intros a Ha. apply rd8_wr32_ne. specialize (Ha i ltac:(lia)). lia.
  - intros _. by apply served_quiet.
Qed.

Lemma serve_alloc_frames n k : kernel_ok k -> 1 <= n < 2147483648 -> wp (alloc_frames n) (fun _ => served 0 k) k.
Proof.
  intros Hk Hn. pose proof (heap_frames _ (ok_heap _ Hk)) as Hf.
  apply (wp_alloc_frames k _ eq_refl Hf); [done|unfold fits in Hf; lia| |].
  - intros s m' Hs _ _ _ Hc. by apply (serve_counts _ s n 1).
  - intros _. by apply served_quiet.
Qed.

Lemma serve_free_frame i k : kernel_ok k -> 0 <= i < frames_count (g_frames_context k) -> rc (mem k) i < 2147483648 ->
  wp (free_frame (get_frame_at i)) (fun _ => served 0 k) k.
Proof.
  intros Hk Hi Hr. destruct (free_frame_eq k _ eq_refl (heap_frames _ (ok_heap _ Hk)) i Hi) as (m' & He & Hc).
  { split; [apply rd32_range|done]. }
  eapply wp_eq; [exact He|]. by eapply serve_counts; [|apply Hi|exact Hc].
Qed.

Lemma serve_map_pages pdbr va fp n flags k : kernel_ok k -> vaddr pdbr = sym_page_dir -> flags mod 2 = 1 ->
  0 <= n < 4294967296 -> 0 <= va < 4294967296 -> va + 4096 * n <= 4294967296 -> frames_ok fp n ->
  wp (map_pages pdbr va fp n flags) (fun _ => served 0 k) k.
Proof.
  intros Hk Hpd Hfl Hn Hva Hvan Hfp.
  destruct (first_failing (fun j => ~ window ((va / 4096 + j) / 1024) /\ vmap (mem k) (va / 4096 + j) = None) n
    ltac:(lia)) as (i & Hi & Hfree & Hstop).
  eapply wp_mono; [apply (map_pages_prefix pdbr n flags Hpd va fp i k); try done; try lia|].
  - apply Hk.
  - intros Hlt. specialize (Hstop Hlt). destruct (decide (window ((va / 4096 + i) / 1024))); [by left|right].
    intros E. by apply Hstop.
  - cbv beta. intros r k' (_ & m' & evs & Hq & Hm).
    assert (Hs : served 0 k (set_mem (fun _ => m') k)).
    { apply (served_mapped _ va (ka fp) i); [done|done|lia|]. intros j Hj. by apply Hfree. }
    eapply served_trans; [exact Hs|]. eapply served_trans; [apply served_logged, Hs|].
    apply served_quiet; [apply served_logged, Hs|exact Hq].
Qed.

Lemma serve_unmap_pages pdbr va n k : kernel_ok k -> vaddr pdbr = sym_page_dir ->
  0 <= n < 2147483648 -> 0 <= va < 4294967296 -> va + 4096 * n <= 4294967296 ->
  wp (unmap_pages pdbr va n) (fun _ => served 0 k) k.
Proof.
  intros Hk Hpd Hn Hva Hvan. apply wp_unmap_pages; [done|apply Hk|lia|lia|lia|].
  intros m' evs Hd Ht _ _. assert (Hs : served 0 k (set_mem (fun _ => m') k)) by (by apply served_tables).
  eapply served_trans; [exact Hs|]. apply served_logged, Hs.
Qed.
(** alloc_pages only reads, and answers the address of a page. *)
Lemma wp_alloc_pages pdbr n (Q : Z -> kst -> Prop) k :
  (forall r, 0 <= r < 4294967296 -> r mod 4096 = 0 -> Q r k) -> wp (alloc_pages pdbr n) Q k.
Proof.
  intros HQ. set (ok va := 0 <= va < 4294967296 /\ va mod 4096 = 0).
  assert (Hok : forall c t, ok (w32 (c * 0x400000 + t * 0x1000)))
    by (intros c t; split; [apply w32_range|word_lia]).
  unfold alloc_pages. wp_go.
  apply (wp_while (fun '(c, _, va, _) k' => k' = k /\ 0 <= c /\ ok va) (fun '(c, _, _, _) _ => Z.max 0 (1024 - c))).
  - split; [done|]. split; [unfold pde_index; word_lia|]. by split.
  - unfold pde_index. word_lia.
  - intros [[[c t] va] count] k'. lia.
  - intros [[[c t] va] count] k' (-> & Hc & Hva). unfold alloc_pages_round.
    destruct (Z.ltb_spec c 1024); [|by apply wp_ret, HQ]. wp_go.
    assert (Hnext : w16 (c + 1) = c + 1) by (apply w16_small; lia).
    destruct (pres _ && negb (is4m _)).
    + apply (wp_while (fun '(t, va, _) k' => k' = k /\ 0 <= t <= 1024 /\ ok va) (fun '(t, _, _) _ => 1024 - t)).
      * split; [done|]. split; [lia|exact Hva].
      * lia.
      * intros [[t' va'] count'] k'. lia.
      * intros [[t' va'] count'] k' (-> & Ht & Hva'). unfold scan_table_round.
        destruct (Z.ltb_spec t' 1024); [|apply wp_ret, wp_ret; rewrite Hnext; split; [by split; [|split; [lia|]]|lia]].
        wp_go. rewrite (w16_small (t' + 1)) by lia.
        destruct (negb _); [|apply wp_ret; split; [split; [done|split; [lia|apply Hok]]|lia]].
        destruct (_ =? n); [by apply wp_ret, wp_ret, HQ; apply Hva'|].
        apply wp_ret. split; [split; [done|split; [lia|exact Hva']]|lia].
    + wp_go. rewrite Hnext. split; [split; [done|split; [lia|apply Hok]]|lia].
Qed.

Lemma serve_local local v k : kernel_ok k -> frames_ok local 1 -> wp (store32 (f_addr local) v) (fun _ => served 0 k) k.
Proof.
  intros Hk Hl. destruct (frame_addr_apart local Hl) as [Ha Hka]. apply wp_store32. rewrite Hka.
  change (set_mem (fun m => wr32 m (ka local + 4) v) k) with (set_mem (fun _ => wr32 (mem k) (ka local + 4) v) k).
  apply served_tables; [done|intros; by apply pde_wr_apart|intros; by apply pte_wr_apart].
Qed.

Lemma serve_map_io local pdbr ioaddr len k : kernel_ok k -> vaddr pdbr = sym_page_dir -> frames_ok local 1 ->
  0 <= len < 4294967296 -> wp (map_io local pdbr ioaddr len) (fun _ => served 0 k) k.
Proof.
  intros Hk Hpd Hl Hlen. unfold map_io. apply wp_bind. eapply wp_mono; [by apply serve_local|]. cbv beta. intros _ k1 H1.
  apply wp_bind, wp_alloc_pages. intros va Hva Hal. apply wp_bind. set (n := w32 _).
  apply (wp_while (fun i k' => 0 <= i <= n /\ served 0 k k') (fun i _ => n - i)); [split; [|done]|pose proof (w32_range (len / FRAME_SIZE + b2z (0 <? len mod FRAME_SIZE))); lia|lia|].
  - pose proof (w32_range (len / FRAME_SIZE + b2z (0 <? len mod FRAME_SIZE))). lia.
  - intros i k2 [Hi H2]. unfold map_io_round. destruct (Z.ltb_spec i n); [|by apply wp_ret, wp_ret].
    pose proof (w32_range (len / FRAME_SIZE + b2z (0 <? len mod FRAME_SIZE))). apply wp_bind.
    eapply wp_mono; [apply (serve_map_pages pdbr); try done; try apply H2; unfold FRAME_SIZE; word_lia|].
    cbv beta. intros _ k3 H3. apply wp_bind, wp_load32, wp_bind. eapply wp_mono; [apply serve_local; [apply H3|done]|].
    cbv beta. intros _ k4 H4. apply wp_ret. rewrite w32_small by lia. split; [|lia]. split; [lia|].
    eapply served_trans; [exact H2|]. by eapply served_trans.
Qed.

Lemma serve_sbrk_up size k : kernel_ok k -> 0 < size < 2147483648 ->
  heap_end (g_kds_size k) + 4096 * pages_of size <= 0xC0000000 -> wp (sbrk size) (fun _ => served 0 k) k.
Proof.
  intros Hk Hsize HE. pose proof (heap_size _ (ok_heap _ Hk)) as Hz. pose proof (pages_of_bound _ Hz) as Hpz.
  pose proof (pages_of_bound size ltac:(lia)) as Hps.
  apply wp_sbrk_up; [apply Hk|done|done|intros k' Hq _; by apply served_quiet|].
  intros s m1 m2 i k' Hs Hsn _ Hi Hfree _ Hc Hmap Hq.
  assert (H1 : served 0 k (set_mem (fun _ => m1) k)) by (by apply (serve_counts _ s (pages_of size) 1)).
  assert (Hv1 : forall v, 0 <= v < 1048576 -> vmap m1 v = vmap (mem k) v).
  { destruct (set_counts_tables _ _ _ _ _ Hs Hc) as [_ Ht]. intros v Hv. unfold vmap. by rewrite Ht. }
  unfold heap_end in *. rewrite heap_base_value in *.
  assert (H2 : served 0 k (set_mem (fun _ => m2) k)).
  { eapply served_trans; [exact H1|]. eapply (served_mapped m2 _ (desc s) i (set_mem (fun _ => m1) k));
      [apply H1|exact Hmap|lia|]. intros j Hj. cbn [mem set_mem]. rewrite Hv1; [by apply Hfree|]. Z.div_mod_to_equations; lia. }
  eapply served_trans; [exact H2|]. destruct (decide (i = pages_of size)); [|by apply served_quiet; [apply H2|]].
  eapply served_trans; [|apply served_quiet; [|exact Hq]].
  - apply (served_size (w32 (g_kds_size k + size)) (set_mem (fun _ => m2) k)); [apply H2|apply w32_range|].
    unfold heap_end. rewrite heap_base_value, w32_small by lia.
    pose proof (pages_of_bound (g_kds_size k + size) ltac:(lia)). lia.
  - apply (served_size (w32 (g_kds_size k + size)) (set_mem (fun _ => m2) k)); [apply H2|apply w32_range|].
    unfold heap_end. rewrite heap_base_value, w32_small by lia.
    pose proof (pages_of_bound (g_kds_size k + size) ltac:(lia)). lia.
Qed.

Lemma serve_sbrk size k : kernel_ok k -> service_ok (SSbrk size) k -> wp (sbrk size) (fun _ => served 0 k) k.
Proof.
  intros Hk (Hsize & Hup & Hdown). destruct (decide (0 < size)) as [Hpos|Hpos]; [by apply serve_sbrk_up; auto; lia|].
  destruct (decide (size = 0)) as [->|Hne].
  - unfold sbrk. change (0 =? 0) with true. wp_go. kp. wp_go.
    eapply wp_eq; [apply get_kds_end_addr_eq; eapply heap_state_quiet; [exact Hq|apply Hk]|]. by apply served_quiet.
  - pose proof (pages_of_mono (g_kds_size k + size) (g_kds_size k) ltac:(lia)) as Hmono.
    replace size with (- (- size)) by lia. apply wp_sbrk_shrink; [apply Hk|unfold INT_MIN in *; lia|lia|].
    intros m' k' Hd Ht _ Hq. assert (H1 : served 0 k (set_mem (fun _ => m') k)) by (by apply served_tables).
    pose proof (heap_below _ (ok_heap _ Hk)) as Hb. unfold heap_end in *.
    assert (H2 : served 0 k (set_kds_size (g_kds_size k - - size) (set_mem (fun _ => m') k))).
    { eapply served_trans; [exact H1|]. apply served_size; [apply H1|lia|]. unfold heap_end.
      replace (g_kds_size k - - size) with (g_kds_size k + size) by lia. lia. }
    eapply served_trans; [exact H2|]. by apply served_quiet; [apply H2|].
Qed.

(** Every service that may be asked for returns, and keeps the kernel. *)
Lemma wp_serve s k : kernel_ok k -> service_ok s k -> wp (serve s) (fun _ => served (timer_service s) k) k.
Proof.
  intros Hk Hs. pose proof (heap_kpd _ (ok_heap _ Hk)) as Hpd. destruct s; cbn [serve service_ok timer_service] in *.
  - by apply serve_interrupt.
  - by apply wp_bind, serve_alloc_frame.
  - by apply wp_bind, serve_alloc_frames.
  - destruct Hs. by apply serve_free_frame.
  - destruct Hs as (?&?&?&?&?). apply wp_bind, wp_gets, wp_bind.
    eapply wp_mono; [apply serve_map_pages; eassumption|]. intros ? ? H'; exact H'.
  - destruct Hs as (?&?&?). apply wp_bind, wp_gets. apply serve_unmap_pages; assumption.
  - destruct Hs. apply wp_bind, wp_gets, wp_bind.
    eapply wp_mono; [apply serve_map_io; eassumption|]. intros ? ? H'; exact H'.
  - by apply wp_bind, serve_sbrk.
  - destruct Hs. by apply serve_printk.
Qed.
End served.

(** ** Runs *)

Section runs.
Context {HW : Hardware} {LY : Layout} {LO : LayoutOk LY}.

Inductive serve_step (k k' : kst) : Prop :=
| serve_step_intro s : service_ok s k -> serve s k = Ret tt k' -> serve_step k k'.

Lemma serve_served s k k' : kernel_ok k -> service_ok s k -> serve s k = Ret tt k' -> served (timer_service s) k k'.
Proof. intros Hk Hs He. pose proof (wp_serve s k Hk Hs) as H. unfold wp in H. by rewrite He in H. Qed.

Lemma serve_step_served k k' : kernel_ok k -> serve_step k k' -> exists n, served n k k'.
Proof. intros Hk [s Hs He]. exists (timer_service s). by apply serve_served. Qed.

Lemma serve_steps_served k k' : kernel_ok k -> rtc serve_step k k' -> exists n, served n k k'.
Proof.
  intros Hk Hr. induction Hr as [k|k k1 k2 Hs Hr IH]; [exists 0; by apply served_quiet|].
  destruct (serve_step_served _ _ Hk Hs) as [n1 H1]. destruct (IH (served_ok _ _ _ H1)) as [n2 H2].
  exists (n1 + n2). by eapply served_trans_sum.
Qed.

(** A run of services, in order. *)
Inductive serves_all : list service -> kst -> kst -> Prop :=
| serves_none k : serves_all [] k k
| serves_more s ss k k1 k2 : service_ok s k -> serve s k = Ret tt k1 -> serves_all ss k1 k2 -> serves_all (s :: ss) k k2.

(** The timer interrupts among them. *)
Definition timer_services (ss : list service) : Z := foldr (fun s n => timer_service s + n) 0 ss.

Lemma serves_all_served ss k k' : kernel_ok k -> serves_all ss k k' -> served (timer_services ss) k k'.
Proof.
  intros Hk Hr. induction Hr as [k|s ss k k1 k2 Hs He Hr IH]; [by apply served_quiet|].
  pose proof (serve_served _ _ _ Hk Hs He) as H1. eapply (served_trans_sum (timer_service s)); [exact H1|].
  apply IH, H1.
Qed.

Lemma keeps_mapped_translations m m' : paging m -> paging m' -> keeps_mapped m m' -> keeps_translations m m'.
Proof.
  intros Hp Hp' Hk va pa Hva. rewrite !mmu_paging by done. case_decide as Hw; [done|].
  destruct (vmap m (va / 4096)) as [p|] eqn:E; [|done].
  rewrite (Hk _ p); [done|Z.div_mod_to_equations; lia| |done].
  change 4194304 with (4096 * 1024) in Hw. by rewrite <- Z.div_div in Hw by lia.
Qed.
End runs.


(** * Property *)

(** C9: the running kernel serves for ever and its translations are permanent. From
    a state that keeps the invariants, whatever sequence of services is asked for
    (device interrupts, allocation and release of frames, map_pages, unmap_pages,
    map_io, sbrk up and down, printk) with arguments in their ranges, each one
    returns, whether it can do what it is asked or not; the invariants of all the
    components hold in every state reached; the processor still translates each
    address that it translated to the same place, and reads the kernel's image and
    the page tables where the C code takes them to be. *)
Theorem services_keep_translations {HW : Hardware} {LY : Layout} {LO : LayoutOk LY} k k' :
  kernel_ok k -> rtc serve_step k k' ->
  kernel_ok k' /\ keeps_translations (mem k) (mem k') /\
  (forall va, SYSTEM_ADDR_BASE <= va < SYSTEM_ADDR_BASE + 2 * FOUR_MB -> mmu (mem k') kpd va = Some (ka va)) /\
  forall s, service_ok s k' -> exists k2, serve s k' = Ret tt k2.
Proof.
  intros Hk Hr. destruct (serve_steps_served _ _ Hk Hr) as (n & [Hk' Hm _ _ _]). pose proof (heap_paging _ (ok_heap _ Hk')) as Hp.
  split; [done|]. split; [apply keeps_mapped_translations; [apply Hk|done|done]|]. split.
  - unfold SYSTEM_ADDR_BASE, FOUR_MB. intros va Hva. rewrite mmu_paging by (done || lia).
    rewrite decide_True by (unfold window; Z.div_mod_to_equations; lia).
    by rewrite ka_high by (unfold SYSTEM_ADDR_BASE; lia).
  - intros s Hs. destruct (wp_elim _ _ _ (wp_serve s k' Hk' Hs)) as ([] & k2 & He & _). by exists k2.
Qed.

Definition example_serving : kst := set_handlers (fun _ => running_handlers) example_heap.

Lemma handlers_kernel_ok {LY : Layout} k : heap_state k -> 0 <= ticks k < 4294967296 ->
  kernel_ok (set_handlers (fun _ => running_handlers) k).
Proof. intros [? ? ? ? ?] Ht. split; [by split|by split]. Qed.

Lemma example_serving_ok : @kernel_ok example_layout example_serving.
Proof. apply handlers_kernel_ok; [exact example_heap_state|cbn; lia]. Qed.

Lemma services_keep_translations_witness :
  let HW := fixed_hw (fun _ => 0) in let LY := example_layout in
  exists k1, serve (SMapPages 0x40000000 0xC0800000 2 3) example_serving = Ret tt k1 /\
    kernel_ok k1 /\ mmu (mem k1) 0x105000 0xC0105010 = Some 0x105010 /\
    exists k2, serve SAllocFrame k1 = Ret tt k2.
Proof.
  intros HW LY.
  assert (Hok : service_ok (SMapPages 0x40000000 0xC0800000 2 3) example_serving).
  { split; [reflexivity|]. split; [lia|]. split; [lia|]. split; [lia|]. exact example_frames_ok. }
  destruct (@services_keep_translations HW LY example_layout_ok example_serving example_serving example_serving_ok (rtc_refl _ _))
    as (_ & _ & _ & Hnext).
  destruct (Hnext _ Hok) as [k1 He]. exists k1. split; [exact He|].
  assert (Hr : rtc serve_step example_serving k1) by (apply rtc_once; exact (serve_step_intro _ _ _ Hok He)).
  destruct (@services_keep_translations HW LY example_layout_ok example_serving k1 example_serving_ok Hr)
    as (Hk1 & _ & Hwin & Hnext1).
  split; [exact Hk1|]. split.
  - change 0x105000 with (@kpd LY). rewrite (Hwin 0xC0105010); [reflexivity|]. unfold SYSTEM_ADDR_BASE, FOUR_MB. lia.
  - exact (Hnext1 SAllocFrame I).
Defined.

(** C12: the clock is exact and the configuration permanent. Over any run of services
    of the kernel (device interrupts, allocation and release of frames, map_pages,
    unmap_pages, map_io, sbrk up and down, printk, in any order and number, with
    arguments in their ranges), the counter advances, modulo 2^32, by exactly the
    number of timer interrupts among them: each counts one, and no other interrupt
    or service, whether it can do what it is asked or not, loses or adds a tick.
    The handlers, the interrupt table, the segments and the task state, the serial
    port, the page directory's address and the context of the frames stay what
    they were. *)
Theorem services_keep_clock {HW : Hardware} {LY : Layout} {LO : LayoutOk LY} ss k k' :
  kernel_ok k -> serves_all ss k k' ->
  ticks k' = w32 (ticks k + timer_services ss) /\ same_config k k'.
Proof. intros Hk Hr. by destruct (serves_all_served _ _ _ Hk Hr). Qed.

Lemma services_keep_clock_witness :
  let HW := fixed_hw (fun _ => 0) in let LY := example_layout in
  exists k', serves_all [SInterrupt (example_regs 32); SAllocFrame; SInterrupt (example_regs 33); SInterrupt (example_regs 32)]
      example_serving k' /\ ticks k' = w32 (ticks example_serving + 2) /\ g_handlers k' = running_handlers.
Proof.
  intros HW LY. assert (Ht : exists k', serves_all [SInterrupt (example_regs 32); SAllocFrame; SInterrupt (example_regs 33);
      SInterrupt (example_regs 32)] example_serving k').
  { pose proof example_serving_ok as Hok. revert Hok. generalize example_serving. intros k Hok.
    destruct (wp_elim _ _ _ (wp_serve (SInterrupt (example_regs 32)) k Hok ltac:(cbn; lia))) as ([] & k1 & H1 & S1).
    destruct (wp_elim _ _ _ (wp_serve SAllocFrame k1 (served_ok _ _ _ S1) I)) as ([] & k2 & H2 & S2).
    destruct (wp_elim _ _ _ (wp_serve (SInterrupt (example_regs 33)) k2 (served_ok _ _ _ S2) ltac:(cbn; lia))) as ([] & k3 & H3 & S3).
    destruct (wp_elim _ _ _ (wp_serve (SInterrupt (example_regs 32)) k3 (served_ok _ _ _ S3) ltac:(cbn; lia))) as ([] & k4 & H4 & S4).
    exists k4. eapply serves_more; [cbn; lia|exact H1|]. eapply serves_more; [exact I|exact H2|].
    eapply serves_more; [cbn; lia|exact H3|]. eapply serves_more; [cbn; lia|exact H4|]. apply serves_none. }
  destruct Ht as [k' Hr]. exists k'. split; [exact Hr|].
  destruct (@services_keep_clock HW LY example_layout_ok _ example_serving k' example_serving_ok Hr) as [H1 H2].
  split; [exact H1|]. destruct H2 as [H2 _]. exact (f_equal (fun x => fst (fst (fst (fst x)))) H2).
Defined.
