(* ===== verification/Tlb.v ===== *)
(** The processor's translation lookaside buffer: what it may hold from the boot
    on, and when a translation through it is the one of the tables. *)
From S2P Require Import Prelude Memory State Console Interrupts Pages Mmu Tables Frames Sbrk Boot Life Services.
Local Open Scope Z_scope.
Local Open Scope kern_scope.
Local Set Default Proof Using "Type*".

(** * The buffer

    A finite map from virtual pages to physical pages. A 4 MB page may fill 1024
    entries, each of which may stay when another is flushed; the processor loads
    and drops entries when it wants. *)
Notation tlb := (gmap Z Z).

Definition machine : Type := kst * tlb.

Section tlb.
Context {HW : Hardware} {LY : Layout}.

(** The walk of the tables for a page. *)
Definition walk (m : ram) (v : Z) : option Z := (fun a => a / 4096) <$> mmu m kpd (4096 * v).

(** What an instruction does to the buffer: invlpg drops a page, turning paging on
    starts with none; wbinvd and the cache bit of cr0 leave it alone. *)
Definition flushed (t : tlb) (e : event) : tlb :=
  match e with
  | EInvlpg a => delete (a / 4096) t
  | EEnablePaging _ => ∅
  | _ => t
  end.

(** An access translates through the buffer, and walks the tables for a page that
    is not in it. *)
Definition through (t : tlb) (m : ram) (va : Z) : option Z :=
  match t !! (va / 4096) with
  | Some p => Some (4096 * p + va mod 4096)
  | None => mmu m kpd va
  end.

Inductive tlb_step (m : ram) : tlb -> tlb -> Prop :=
| tlb_load t v p : 0 <= v < 1048576 -> walk m v = Some p -> tlb_step m t (<[v := p]> t)
| tlb_drop t v : tlb_step m t (delete v t).

(** A function of the kernel runs and does its flushes; then the processor loads
    and drops what it wants of the tables that the function leaves. *)
Inductive runs (p : prog kst unit) : machine -> machine -> Prop :=
| runs_intro k t k' evs t' : p k = Ret tt k' -> trace k' = trace k ++ evs ->
    rtc (tlb_step (mem k')) (foldl flushed t evs) t' -> runs p (k, t) (k', t').

Inductive serves (x y : machine) : Prop :=
| serves_intro s : service_ok s x.1 -> runs (serve s) x y -> serves x y.
End tlb.

(** * Proofs *)

Section proofs.
Context {HW : Hardware} {LY : Layout} {LO : LayoutOk LY}.

(** Each entry is what the tables say, or maps one of the first 4 MB to itself, as
    the boot's directory did. *)
Definition fresh (m : ram) : tlb -> Prop :=
  map_Forall (fun v p => 0 <= v < 1048576 /\ (walk m v = Some p \/ (v < 1024 /\ p = v))).

Lemma fresh_steps m t t' : rtc (tlb_step m) t t' -> fresh m t -> fresh m t'.
Proof.
  intros Hr. induction Hr as [t|t1 t2 t3 Hs _ IH]; intros Hf; [exact Hf|]. apply IH. destruct Hs as [t v p Hv Hw|t v].
  - apply map_Forall_insert_2; [split; [done|by left]|done].
  - by apply map_Forall_delete.
Qed.

Lemma fresh_flushed m t evs : fresh m t -> fresh m (foldl flushed t evs).
Proof.
  revert t. induction evs as [|e evs IH]; intros t Hf; [done|]. cbn. apply IH.
  destruct e; cbn [flushed]; try exact Hf; [by apply map_Forall_delete|apply map_Forall_empty].
Qed.

(** A function that keeps the walks, or the walks above the first 4 MB, keeps the
    buffer fresh. *)
Lemma fresh_runs p x y : runs p x y -> fresh (mem x.1) x.2 ->
  (forall v q, 0 <= v < 1048576 -> walk (mem x.1) v = Some q -> walk (mem y.1) v = Some q \/ (v < 1024 /\ q = v)) -> fresh (mem y.1) y.2.
Proof.
  intros [k t k' evs t' _ _ Hr] Hf Hk. cbn [fst snd] in *. eapply fresh_steps; [exact Hr|]. apply fresh_flushed.
  intros v q Hq. destruct (Hf v q Hq) as [Hv [Hw|]]; (split; [done|]); [by apply Hk|by right].
Qed.

Lemma walk_paging m v : paging m -> 0 <= v < 1048576 ->
  walk m v = if decide (window (v / 1024)) then Some (v - 0xC0000) else vmap m v.
Proof.
  intros Hp Hv. unfold walk. rewrite mmu_paging by (done || lia).
  assert (4096 * v / 4194304 = v / 1024 /\ 4096 * v / 4096 = v /\ 4096 * v mod 4096 = 0) as (-> & -> & ->)
    by (Z.div_mod_to_equations; lia).
  case_decide; cbn [fmap option_fmap option_map].
  - f_equal. unfold SYSTEM_ADDR_BASE. Z.div_mod_to_equations; lia.
  - destruct (vmap m v) as [f|]; [|done]. cbn. f_equal. Z.div_mod_to_equations; lia.
Qed.

Lemma mmu_walk m va : paging m -> 0 <= va < 4294967296 ->
  mmu m kpd va = (fun p => 4096 * p + va mod 4096) <$> walk m (va / 4096).
Proof.
  intros Hp Hva. rewrite walk_paging, mmu_paging by (done || (Z.div_mod_to_equations; lia)).
  change 4194304 with (4096 * 1024). rewrite <- Z.div_div by lia. case_decide; cbn [fmap option_fmap option_map].
  - f_equal. unfold SYSTEM_ADDR_BASE. Z.div_mod_to_equations; lia.
  - destruct (vmap m (va / 4096)); [|done]. cbn. f_equal. lia.
Qed.

(** Through a fresh buffer, an address from 4 MB on translates as the tables say;
    one below does too, unless the boot's mapping is still there. *)
Lemma through_fresh m t va : paging m -> fresh m t -> 0 <= va < 4294967296 ->
  through t m va = mmu m kpd va \/ (va < 0x400000 /\ through t m va = Some va).
Proof.
  intros Hp Hf Hva. unfold through. destruct (t !! (va / 4096)) as [p|] eqn:E; [|by left].
  destruct (Hf _ _ E) as [_ [Hw|[Hv ->]]].
  - left. by rewrite mmu_walk, Hw.
  - right. split; [|f_equal]; Z.div_mod_to_equations; lia.
Qed.

(** ** The boot *)

Lemma main_runs magic mbi k : wp (main magic mbi) (fun _ k' =>
  (forall c, 0 <= c < 1024 -> pde (mem k') c = boot_pde c) /\ trace k' = trace k ++ [EEnablePaging kpd]) k.
Proof.
  unfold main, enable_paging. wp_go. apply wp_init_page_directory. intros m1 Hd _. wp_go.
  rewrite sym_page_dir_low. by split.
Qed.

Lemma boot_walk m v p : (forall c, 0 <= c < 1024 -> pde m c = boot_pde c) -> walk m v = Some p -> 0 <= v < 1048576 ->
  (v < 1024 /\ p = v) \/ (0xC0000 <= v < 0xC0800 /\ p = v - 0xC0000).
Proof.
  intros Hd Hw Hv. unfold walk in Hw. rewrite (mmu_boot _ _ Hd) in Hw by lia.
  repeat case_decide; cbn in Hw; simplify_eq; [left|right]; split; try lia; Z.div_mod_to_equations; lia.
Qed.

Lemma final_walk m v : (forall c, 0 <= c < 1024 -> pde m c = final_pde c) -> 0xC0000 <= v < 0xC0800 ->
  walk m v = Some (v - 0xC0000).
Proof.
  intros Hd Hv. unfold walk. rewrite (mmu_final _ _ Hd), decide_True by lia. cbn. f_equal. Z.div_mod_to_equations; lia.
Qed.

Lemma window_walk m v : paging m -> 0xC0000 <= v < 0xC0800 -> walk m v = Some (v - 0xC0000).
Proof.
  intros Hp Hv. rewrite walk_paging, decide_True by (done || lia || (unfold window; Z.div_mod_to_equations; lia)). done.
Qed.

Section boot.
Context (magic mbi : Z) (k0 : kst) (t0 : tlb) (x1 x2 : machine).
Context (H1 : runs (main magic mbi) (k0, t0) x1) (H2 : runs finalize_pagination x1 x2).

(** The tables and the buffer after main. *)
Lemma main_machine : (forall c, 0 <= c < 1024 -> pde (mem x1.1) c = boot_pde c) /\ fresh (mem x1.1) x1.2.
Proof.
  inversion H1 as [k t k1 evs t1 He Ht Hr E1 E2]. subst. cbn [fst snd]. pose proof (main_runs magic mbi k0) as Hw.
  unfold wp in Hw. rewrite He in Hw. destruct Hw as [Hd Ht']. split; [exact Hd|].
  rewrite Ht' in Ht. apply app_inv_head in Ht as <-. eapply fresh_steps; [exact Hr|]. apply map_Forall_empty.
Qed.

Lemma finalized_machine :
  (forall c, 0 <= c < 1024 -> pde (mem x2.1) c = final_pde c) /\
  g_frame_page_directory x2.1 = Frame 1 kpd sym_page_dir /\
  runs finalize_pagination x1 (x2.1, x1.2) /\ fresh (mem x2.1) x2.2.
Proof.
  destruct main_machine as [Hd Hf]. assert (Hfd : forall c, 0 <= c < 1024 -> pde (mem x2.1) c = final_pde c).
  { inversion H2 as [k t k2 evs t2 He Ht Hr E1 E2]. subst. cbn [fst snd] in *. rewrite finalize_pagination_eq in He.
    injection He as <-. exact (final_pde_wr _ Hd). }
  split; [exact Hfd|]. assert (Hrest : g_frame_page_directory x2.1 = Frame 1 kpd sym_page_dir /\ runs finalize_pagination x1 (x2.1, x1.2)).
  { inversion H2 as [k t k2 evs t2 He Ht Hr E1 E2]. subst. cbn [fst snd] in *. pose proof He as He'.
    rewrite finalize_pagination_eq in He'. injection He' as <-. split; [done|].
    eapply (runs_intro _ _ _ _ [EDisableCache]); [exact He|done|apply rtc_refl]. }
  destruct Hrest as [Hk Hrun]. split; [exact Hk|]. split; [exact Hrun|].
  eapply fresh_runs; [exact H2|exact Hf|]. intros v q Hv Hw.
  destruct (boot_walk _ _ _ Hd Hw Hv) as [?|[Hwin ->]]; [by right|left]. by apply final_walk.
Qed.
End boot.

(** Services keep the buffer fresh. *)
Lemma serves_fresh x y : kernel_ok x.1 -> fresh (mem x.1) x.2 -> rtc serves x y ->
  kernel_ok y.1 /\ fresh (mem y.1) y.2.
Proof.
  intros Hk Hf Hr. induction Hr as [x|x x' y [s Hs Hrun] _ IH]; [done|].
  assert (Hsv : exists n, served n x.1 x'.1).
  { inversion Hrun as [k t k' evs t' He Ht Hr' E1 E2]. subst. cbn [fst snd] in *.
    apply serve_step_served; [done|]. by apply (serve_step_intro _ _ s). }
  destruct Hsv as (n & [Hk' Hm _ _ _]). apply IH; [exact Hk'|]. eapply fresh_runs; [exact Hrun|exact Hf|].
  intros v q Hv Hw. left. rewrite walk_paging in Hw |- * by (apply Hk || apply Hk' || done).
  case_decide; [done|]. by apply Hm.
Qed.
End proofs.

(** * Properties *)

(** C16: the processor's buffer never holds a translation that the tables do not have,
    but for what the boot left in it. From the boot of a machine whose memory the
    loader describes, through any sequence of services, and whatever the processor
    loads and drops on the way, every access from 4 MB on translates through the
    buffer as the tables say, although map_pages flushes the page of the entry and not
    the page it maps: no service changes a mapping that there is. Below 4 MB,
    which the boot's directory mapped to itself, an access translates as the tables
    say or still reaches physical memory through that mapping, which
    finalize_pagination removes from the directory without flushing it. *)
Theorem tlb_stays_current {HW : Hardware} {LY : Layout} {LO : LayoutOk LY} m mbi map len t0 x1 x2 x3 y :
  boot_info m (w32 (SYSTEM_ADDR_BASE + mbi)) map len -> (forall v, 0 <= sym_isr v < 4294967296) ->
  runs (main MAGIC_NUMBER mbi) (boot_state m, t0) x1 -> runs finalize_pagination x1 x2 -> runs main_init x2 x3 ->
  rtc serves x3 y ->
  kernel_ok y.1 /\
  (forall va, 0x400000 <= va < 4294967296 -> through y.2 (mem y.1) va = mmu (mem y.1) kpd va) /\
  (forall va, 0 <= va < 0x400000 -> through y.2 (mem y.1) va = mmu (mem y.1) kpd va \/ through y.2 (mem y.1) va = Some va).
Proof.
  intros Hinfo Hisr H1 H2 H3 Hy. destruct (finalized_machine _ _ _ _ _ _ H1 H2) as (Hd2 & _ & _ & Hf2).
  assert (Hk3 : kernel_ok x3.1).
  { pose proof (wp_boot m mbi map len Hinfo Hisr) as Hw. unfold wp in Hw.
    inversion H1 as [? ? ? ? ? He1]. subst. inversion H2 as [? ? ? ? ? He2]. subst. inversion H3 as [? ? ? ? ? He3]. subst.
    rewrite (bind_ret_eq _ _ _ _ _ He1), (bind_ret_eq _ _ _ _ _ He2), He3 in Hw. destruct Hw as [? ? _ _ _ _ _ _ _ _ _]. by split. }
  assert (Hf3 : fresh (mem x3.1) x3.2).
  { eapply fresh_runs; [exact H3|exact Hf2|]. intros v q Hv Hw. left. unfold walk in Hw.
    rewrite (mmu_final _ _ Hd2) in Hw by lia. case_decide; [|done]. cbn in Hw. injection Hw as <-.
    rewrite window_walk by (apply Hk3 || lia). f_equal. Z.div_mod_to_equations; lia. }
  destruct (serves_fresh _ _ Hk3 Hf3 Hy) as [Hk Hf]. pose proof (heap_paging _ (ok_heap _ Hk)) as Hp.
  split; [exact Hk|]. split; intros va Hva.
  - destruct (through_fresh _ _ va Hp Hf ltac:(lia)) as [|[? _]]; [done|lia].
  - destruct (through_fresh _ _ va Hp Hf ltac:(lia)) as [|[_ ?]]; [by left|by right].
Qed.

(** C17: when init_page_tables runs, the directory's physical address, through which it
    reads and writes the entries, is not mapped any more: finalize_pagination has
    cleared the first entry of the directory. The processor's walk of the tables
    fails there, and finds the entries at the directory's linked address alone. The
    access succeeds exactly when the processor has loaded that page before and still
    has it in its buffer, from which finalize_pagination drops nothing. *)
Theorem directory_left_unmapped {HW : Hardware} {LY : Layout} {LO : LayoutOk LY} magic mbi c k t0 x1 x2 : 0 <= c < 1024 ->
  runs (main magic mbi) (k, t0) x1 -> runs finalize_pagination x1 x2 ->
  let pd := g_frame_page_directory x2.1 in
  mmu (mem x2.1) kpd (entry_at (addr pd) c) = None /\
  mmu (mem x2.1) kpd (entry_at (vaddr pd) c) = Some (kpd + 4 * c) /\
  through x2.2 (mem x2.1) (entry_at (addr pd) c)
    = (if decide (is_Some (x2.2 !! (kpd / 4096))) then Some (kpd + 4 * c) else None) /\
  runs finalize_pagination x1 (x2.1, x1.2).
Proof.
  intros Hc H1 H2 pd. destruct (finalized_machine _ _ _ _ _ _ H1 H2) as (Hd & Hpd & Hrun & Hf). subst pd. rewrite Hpd.
  pose proof kpd_range as (?&?&Hal&Hk). unfold SYSTEM_ADDR_BASE in Hk. cbn [addr vaddr]. unfold entry_at.
  assert (Hnone : mmu (mem x2.1) kpd (w32 (kpd + 4 * c)) = None).
  { rewrite (mmu_final _ _ Hd), w32_small by (rewrite ?w32_small by lia; lia). by rewrite decide_False by lia. }
  split; [exact Hnone|]. split; [|split; [|exact Hrun]].
  - rewrite (mmu_final _ _ Hd), w32_small by (rewrite ?w32_small by lia; lia). rewrite decide_True by lia. f_equal. lia.
  - unfold through. rewrite Hnone, w32_small by lia.
    replace ((kpd + 4 * c) / 4096) with (kpd / 4096) by (Z.div_mod_to_equations; lia).
    destruct (x2.2 !! (kpd / 4096)) as [p|] eqn:E.
    + rewrite decide_True by done. destruct (Hf _ _ E) as [Hv [Hw|[_ ->]]].
      * unfold walk in Hw. rewrite (mmu_final _ _ Hd), decide_False in Hw by (Z.div_mod_to_equations; lia). done.
      * f_equal. Z.div_mod_to_equations; lia.
    + rewrite decide_False; [done|]. by intros [? ?].
Qed.

(** The examples load the page of the directory while the boot's mapping is there. *)
Definition example_tlb : tlb := {[ 0x105 := 0x105 ]}.

Lemma example_boot_runs {HW : Hardware} m mbi : let LY := example_layout in
  exists k1 k2, runs (main MAGIC_NUMBER mbi) (boot_state m, ∅) (k1, example_tlb) /\
    runs finalize_pagination (k1, example_tlb) (k2, example_tlb) /\
    (main MAGIC_NUMBER mbi (boot_state m) = Ret tt k1 /\ finalize_pagination k1 = Ret tt k2) /\
    trace k2 = [EEnablePaging kpd; EDisableCache].
Proof.
  intros LY. pose proof (main_runs MAGIC_NUMBER mbi (boot_state m)) as Hw.
  apply wp_elim in Hw as ([] & k1 & He & Hd & Ht).
  assert (H1 : runs (main MAGIC_NUMBER mbi) (boot_state m, ∅) (k1, example_tlb)).
  { apply (runs_intro _ _ _ _ [EEnablePaging kpd]); [exact He|exact Ht|]. apply rtc_once.
    apply (tlb_load _ ∅ 0x105 0x105); [lia|]. unfold walk. rewrite (mmu_boot _ _ Hd), decide_True by lia. done. }
  pose proof (finalize_pagination_eq k1) as He2. eexists k1, _. split; [exact H1|].
  split; [|split; [split; [exact He|exact He2]|]].
  - apply (runs_intro _ _ _ _ [EDisableCache]); [exact He2|done|apply rtc_refl].
  - cbn [trace set_handlers logged set_trace set_kpd set_mem]. by rewrite Ht.
Qed.

(** The whole boot of the example machine, with its buffer. *)
Lemma example_machine : let HW := fixed_hw (fun _ => 0) in let LY := example_layout in
  exists x1 x2 k3 t3, runs (main MAGIC_NUMBER 0x10000) (boot_state example_boot_ram, ∅) x1 /\
    runs finalize_pagination x1 x2 /\ runs main_init x2 (k3, t3).
Proof.
  intros HW LY. destruct (@example_boot_runs HW example_boot_ram 0x10000) as (k1 & k2 & H1 & H2 & [E1 E2] & Ht2).
  pose proof (@wp_boot HW LY example_layout_ok example_boot_ram 0x10000 0xC0011000 0xF00000) as Hw.
  apply wp_elim in Hw as ([] & k3 & E3 & Hb); [|by apply example_boot_info|intros v; cbn; pose proof (Z.mod_pos_bound v 256); lia].
  rewrite (bind_ret_eq _ _ _ _ _ E1), (bind_ret_eq _ _ _ _ _ E2) in E3.
  destruct (booted_trace _ _ _ _ _ Hb) as (t1 & t2 & Ht3).
  eexists _, _, k3, _. split; [exact H1|]. split; [exact H2|].
  eapply runs_intro; [exact E3| |apply rtc_refl]. rewrite Ht3, Ht2. reflexivity.
Qed.

Lemma directory_left_unmapped_witness :
  let HW := fixed_hw (fun _ => 0) in let LY := example_layout in
  exists k2, through example_tlb (mem k2) (entry_at (addr (g_frame_page_directory k2)) 1023) = Some 0x105FFC /\
    mmu (mem k2) 0x105000 (entry_at (addr (g_frame_page_directory k2)) 1023) = None.
Proof.
  intros HW LY. destruct (@example_boot_runs HW ∅ 0x10000) as (k1 & k2 & H1 & H2 & _).
  destruct (@directory_left_unmapped HW LY example_layout_ok MAGIC_NUMBER 0x10000 1023 _ _ _ _ ltac:(lia) H1 H2)
    as (Ha & _ & Hb & _).
  exists k2. cbn [fst snd] in Ha, Hb. split; [exact Hb|exact Ha].
Defined.

Lemma tlb_stays_current_witness :
  let HW := fixed_hw (fun _ => 0) in let LY := example_layout in
  exists y, kernel_ok y.1 /\ through y.2 (mem y.1) 0xC0105123 = mmu (mem y.1) 0x105000 0xC0105123.
Proof.
  intros HW LY. destruct example_machine as (x1 & x2 & k3 & t3 & H1 & H2 & H3).
  destruct (@tlb_stays_current HW LY example_layout_ok example_boot_ram 0x10000 0xC0011000 0xF00000 ∅ x1 x2 (k3, t3) (k3, t3))
    as (Hk & Hm & _).
  - by apply example_boot_info.
  - intros v. cbn. pose proof (Z.mod_pos_bound v 256). lia.
  - exact H1.
  - exact H2.
  - exact H3.
  - apply rtc_refl.
  - exists (k3, t3). split; [exact Hk|]. apply (Hm 0xC0105123). lia.
Defined.
