(* ===== verification/Tests.v ===== *)
(** The manual tests of the kernel (src/test.c), which run_debug_test names in
    comments. *)
From S2P Require Import Prelude Memory State Console Kprintf Interrupts Pages Mmu Tables Frames Sbrk Kmalloc Kheap.
Local Open Scope Z_scope.
Local Open Scope kern_scope.

Section tests.
Context {LY : Layout}.
#[local] Existing Instance kernel_Heap.

Definition test_kmalloc_sbrk : prog kst unit :=
  buffer ← kmalloc 100;
  kprintf ("buffer => %p" +:+ nl) [AInt buffer];;
  e ← sbrk 0;
  kprintf ("kds => %p" +:+ nl) [AInt e];;
  free buffer;;
  e ← sbrk 0;
  kprintf ("kds => %p" +:+ nl) [AInt e];;
  skip.

Definition test_alloc_all_memory : prog kst unit :=
  let bytes_per_alloc := Z.shiftl 10 20 in
  kprintf ("test_alloc_all_memory: %B" +:+ nl) [AInt bytes_per_alloc];;
  while32 (fun i =>
    buffer2 ← kmalloc bytes_per_alloc;
    if negb (buffer2 =? NULL) then mret (inl (w32 (i + bytes_per_alloc)))
    else
      kprintf ("kmalloc failed after %B allocation. (%X)" +:+ nl) [AInt i; AInt (w32 (i * bytes_per_alloc))];;
      mret (inr tt)) 0;;
  e ← sbrk 0;
  kprintf ("kds => %p" +:+ nl) [AInt e];;
  skip.

Definition test_alloc_frames : prog kst unit :=
  kprintf ("frame => %p" +:+ nl) [AInt NULL];;
  r ← alloc_frames 2;
  let frame := default NULL r.2 in
  kprintf ("frame => %p" +:+ nl) [AInt frame];;
  pd ← get_kpd_frame;
  va ← gets (fun k => frames_meta_end_vaddr (g_frames_context k));
  map_pages pd va frame 2 (Z.lor PF_PRES PF_RW);;
  vstore32 0xC0801ffc 42;;
  v ← vload32 0xC0801ffc;
  kprintf ("value => %p" +:+ nl) [AInt v];;
  skip.

(** [frame_ptr] is where map_io's local frame is on the stack. *)
Definition test_dump_screen (frame_ptr : Z) : prog kst unit :=
  pd ← get_kpd_frame;
  video_mem ← map_io frame_ptr pd 0xB8000 (80 * 25 * 2);
  kprintf ("videomem %p" +:+ nl) [AInt video_mem];;
  while32 (fun y =>
    if y <? 25
    then
      while32 (fun x =>
        if x <? 80
        then
          c ← translated (w32 (video_mem + (y * 80 + x) * 2)) load8_at;
          kprintf "%c" [AInt (s8 c)];;
          mret (inl (s32 (x + 1)))
        else mret (inr tt)) 0;;
      kprintf nl [];;
      mret (inl (s32 (y + 1)))
    else mret (inr tt)) 0.
End tests.

(** * Runs on a machine with 256 frames, of which the descriptions fill one page *)

(** The bytes a run sends to the serial port. *)
Definition printed (p : prog kst unit) (k : kst) : option (list Z) :=
  match p k with
  | Ret _ k' => Some (omap (fun e => match e with EOut _ v => Some v | _ => None end) (trace k'))
  | _ => None
  end.

(** test_kmalloc_sbrk: the segment that kmalloc makes has two pages, and free
    gives one back. *)
Theorem test_kmalloc_sbrk_prints :
  printed (@test_kmalloc_sbrk example_layout) example_heap =
  Some (chars ("sbrk: 4104" +:+ nl +:+ "buffer => 0x8000018" +:+ nl +:+ "sbrk: 0" +:+ nl +:+ "kds => 0x8002000" +:+ nl +:+
    "sbrk: -4096" +:+ nl +:+ "sbrk: 0" +:+ nl +:+ "kds => 0x8001000" +:+ nl)).
Proof. vm_compute. reflexivity. Qed.
