(* ===== verification/Cpu.v ===== *)
(** The processor as the assembly files use it (src/crt0.S, src/isr_handler.S):
    registers, the stack, the instructions the two files are written with, the
    call of a C function; and the rules to reason on the words of a stack. *)
From S2P Require Import Prelude Memory State Console Alloc.
Local Open Scope Z_scope.
Local Open Scope kern_scope.
Local Set Default Proof Using "Type*".

(** * Registers *)

Inductive gpr := EAX | ECX | EDX | EBX | ESP | EBP | ESI | EDI.
Inductive sreg := CS | SS | DS | ES | FS | GS.
Inductive creg := CR0 | CR3 | CR4.

#[export] Instance creg_eq_dec : EqDecision creg.
Proof. solve_decision. Defined.

Record gprs := Gprs {
  c_eax : Z; c_ecx : Z; c_edx : Z; c_ebx : Z; c_esp : Z; c_ebp : Z; c_esi : Z; c_edi : Z
}.
Record segs := Segs { c_cs : Z; c_ss : Z; c_ds : Z; c_es : Z; c_fs : Z; c_gs : Z }.
Record ctls := Ctls { c_cr0 : Z; c_cr3 : Z; c_cr4 : Z; c_gdt_base : Z; c_gdt_limit : Z; c_tr : Z }.

Record cpu := Cpu { c_gprs : gprs; c_segs : segs; c_ctls : ctls; c_eip : Z; c_eflags : Z }.

Definition get (r : gpr) (c : cpu) : Z :=
  let g := c_gprs c in
  match r with
  | EAX => c_eax g | ECX => c_ecx g | EDX => c_edx g | EBX => c_ebx g
  | ESP => c_esp g | EBP => c_ebp g | ESI => c_esi g | EDI => c_edi g
  end.

Definition with_gprs (g : gprs) (c : cpu) : cpu := Cpu g (c_segs c) (c_ctls c) (c_eip c) (c_eflags c).
Definition with_segs (s : segs) (c : cpu) : cpu := Cpu (c_gprs c) s (c_ctls c) (c_eip c) (c_eflags c).
Definition with_ctls (x : ctls) (c : cpu) : cpu := Cpu (c_gprs c) (c_segs c) x (c_eip c) (c_eflags c).
Definition with_eip (v : Z) (c : cpu) : cpu := Cpu (c_gprs c) (c_segs c) (c_ctls c) v (c_eflags c).
Definition with_eflags (v : Z) (c : cpu) : cpu := Cpu (c_gprs c) (c_segs c) (c_ctls c) (c_eip c) v.

Definition set (r : gpr) (v : Z) (c : cpu) : cpu :=
  let '(Gprs a cx d b sp bp si di) := c_gprs c in
  with_gprs
    match r with
    | EAX => Gprs v cx d b sp bp si di | ECX => Gprs a v d b sp bp si di
    | EDX => Gprs a cx v b sp bp si di | EBX => Gprs a cx d v sp bp si di
    | ESP => Gprs a cx d b v bp si di | EBP => Gprs a cx d b sp v si di
    | ESI => Gprs a cx d b sp bp v di | EDI => Gprs a cx d b sp bp si v
    end c.

Definition get_sreg (s : sreg) (c : cpu) : Z :=
  let g := c_segs c in
  match s with
  | CS => c_cs g | SS => c_ss g | DS => c_ds g | ES => c_es g | FS => c_fs g | GS => c_gs g
  end.

Definition set_sreg (s : sreg) (v : Z) (c : cpu) : cpu :=
  let '(Segs a b d e f g) := c_segs c in
  with_segs
    match s with
    | CS => Segs v b d e f g | SS => Segs a v d e f g | DS => Segs a b v e f g
    | ES => Segs a b d v f g | FS => Segs a b d e v g | GS => Segs a b d e f v
    end c.

Definition get_creg (r : creg) (c : cpu) : Z :=
  match r with CR0 => c_cr0 (c_ctls c) | CR3 => c_cr3 (c_ctls c) | CR4 => c_cr4 (c_ctls c) end.

Definition set_creg (r : creg) (v : Z) (c : cpu) : cpu :=
  let '(Ctls a b d gb gl t) := c_ctls c in
  with_ctls match r with CR0 => Ctls v b d gb gl t | CR3 => Ctls a v d gb gl t | CR4 => Ctls a b v gb gl t end c.

(** * Programs of the processor *)

Definition machine : Type := cpu * kst.

(** A program of the kernel run by the processor. *)
Definition kernel {A} (p : prog kst A) : prog machine A := fun '(c, k) =>
  match p k with
  | Ret a k' => Ret a (c, k')
  | Spin k' => Spin (c, k')
  | Undef => Undef
  | NoFuel => NoFuel
  end.

Definition asks {A} (f : cpu -> A) : prog machine A := gets (fun m => f m.1).
Definition tell (f : cpu -> cpu) : prog machine unit := modify (fun m => (f m.1, m.2)).

Definition push (v : Z) : prog machine unit :=
  sp ← asks (get ESP);
  tell (set ESP (w32 (sp - 4)));;
  kernel (store32 (w32 (sp - 4)) v).

Definition pop : prog machine Z :=
  sp ← asks (get ESP);
  v ← kernel (load32 sp);
  tell (set ESP (w32 (sp + 4)));;
  mret v.

(** The flags a kernel sets by name. *)
Definition IF_BIT : Z := 9.

(** The privilege level of a selector. *)
Definition rpl (sel : Z) : Z := sel mod 4.

(** * Instructions, in the order of the AT&T operands *)

(** The C functions the two files call. *)
Inductive cfun := IrqHandler | Main | MainUserland.

Inductive instr :=
| Push (r : gpr)                 (* push %eax *)
| Pop (r : gpr)                  (* pop %eax *)
| PushI (n : Z)                  (* pushl $n *)
| PushS (s : sreg)               (* pushl %ds *)
| PopS (s : sreg)                (* popl %ds *)
| Pushal
| Popal
| Pushf
| Cli
| Mov (r : gpr) (d : gpr)        (* mov %esp, %eax *)
| MovI (n : Z) (d : gpr)         (* mov $n, %eax *)
| MovW (n : Z) (d : gpr)         (* movw $n, %ax *)
| MovS (r : gpr) (s : sreg)      (* movw %ax, %ds *)
| MovArg (d : gpr)               (* movl 4(%esp), %eax *)
| FromCr (r : creg) (d : gpr)    (* mov %cr0, %eax *)
| ToCr (r : gpr) (d : creg)      (* mov %eax, %cr0 *)
| AddI (n : Z) (d : gpr)
| SubI (n : Z) (d : gpr)
| OrI (n : Z) (d : gpr)
| Lgdt (r : gpr)                 (* lgdt (%eax) *)
| Ltr (r : gpr)                  (* ltr %ax *)
| Call (f : cfun)
| Wbinvd
| Jmp (r : gpr)                  (* jmp *%eax *)
| Ljmp (sel : Z)                 (* ljmp $sel, $(the next instruction) *)
| Retn
| Iret
| Hlt.

Definition rd16 (m : ram) (a : Z) : Z := rd8 m a + 256 * rd8 m (a + 1).

Lemma rd32_halves m a : rd32 m a = rd16 m a + 65536 * rd16 m (a + 2).
Proof. unfold rd32, rd16. replace (a + 2 + 1) with (a + 3) by lia. lia. Qed.

Lemma rd16_range m a : 0 <= rd16 m a < 65536.
Proof. unfold rd16. pose proof (rd8_range m a). pose proof (rd8_range m (a + 1)). lia. Qed.

Section exec.
(** What a C function does, from the address its return address is at; what it
    leaves in eax, ecx, edx and the flags, which are its caller's to save; what
    it leaves of the stack below that address; the return addresses of the
    calls; and the flags after an arithmetic instruction that had a result. *)
Variable callee : cfun -> Z -> prog kst unit.
Variable clobber : kst -> Z * Z * Z * Z.
Variable scratch : Z -> ram -> ram.
Variable return_address : Z.
Variable arith : Z -> Z -> Z.

Definition call_c (f : cfun) : prog machine unit :=
  push return_address;;
  sp ← asks (get ESP);
  kernel (callee f sp);;
  kernel (modify (set_mem (scratch sp)));;
  x ← gets (fun m => clobber m.2);
  let '(a, cx, d, fl) := x in
  tell (fun c => with_eflags fl (set EAX a (set ECX cx (set EDX d c))));;
  pop;; skip.

(** An arithmetic instruction on a register. *)
Definition arith_on (d : gpr) (f : Z -> Z) : prog machine unit :=
  v ← asks (get d);
  tell (fun c => with_eflags (arith (f v) (c_eflags c)) (set d (f v) c)).

Definition iret : prog machine unit :=
  cur ← asks (get_sreg CS);
  ip ← pop;
  sel ← pop;
  fl ← pop;
  tell (fun c => with_eip ip (with_eflags fl (set_sreg CS (w16 sel) c)));;
  when (rpl cur <? rpl sel)
    (sp ← pop; s ← pop; tell (fun c => set ESP sp (set_sreg SS (w16 s) c))).

Definition pushal : prog machine unit :=
  g ← asks c_gprs;
  push (c_eax g);; push (c_ecx g);; push (c_edx g);; push (c_ebx g);;
  push (c_esp g);; push (c_ebp g);; push (c_esi g);; push (c_edi g).

Definition popal : prog machine unit :=
  di ← pop; si ← pop; bp ← pop; pop;; b ← pop; d ← pop; cx ← pop; a ← pop;
  tell (fun c => with_gprs (Gprs a cx d b (get ESP c) bp si di) c).

Definition exec (i : instr) : prog machine unit :=
  match i with
  | Push r => v ← asks (get r); push v
  | Pop r => v ← pop; tell (set r v)
  | PushI n => push n
  | PushS s => v ← asks (get_sreg s); push v
  | PopS s => v ← pop; tell (set_sreg s (w16 v))
  | Pushal => pushal
  | Popal => popal
  | Pushf => v ← asks c_eflags; push v
  | Cli => tell (fun c => with_eflags (setf IF_BIT 1 0 (c_eflags c)) c)
  | Mov r d => tell (fun c => set d (get r c) c)
  | MovI n d => tell (set d n)
  | MovW n d => tell (fun c => set d (setf 0 16 n (get d c)) c)
  | MovS r s => tell (fun c => set_sreg s (w16 (get r c)) c)
  | MovArg d => sp ← asks (get ESP); v ← kernel (load32 (w32 (sp + 4))); tell (set d v)
  | FromCr r d => tell (fun c => set d (get_creg r c) c)
  | ToCr r d =>
      c ← gets fst;
      tell (set_creg d (get r c));;
      when (bool_decide (d = CR0) && negb (Z.testbit (get_creg CR0 c) 31) && Z.testbit (get r c) 31)
        (kernel (emit (EEnablePaging (get_creg CR3 c))))
  | AddI n d => arith_on d (fun v => w32 (v + n))
  | SubI n d => arith_on d (fun v => w32 (v - n))
  | OrI n d => arith_on d (fun v => Z.lor v n)
  | Lgdt r =>
      p ← asks (get r);
      limit ← kernel (gets (fun k => rd16 (mem k) (ka p)));
      base ← kernel (load32 (w32 (p + 2)));
      tell (fun c => let x := c_ctls c in
        with_ctls (Ctls (c_cr0 x) (c_cr3 x) (c_cr4 x) base limit (c_tr x)) c);;
      kernel (emit (ELgdt base limit))
  | Ltr r =>
      sel ← asks (fun c => w16 (get r c));
      tell (fun c => let x := c_ctls c in
        with_ctls (Ctls (c_cr0 x) (c_cr3 x) (c_cr4 x) (c_gdt_base x) (c_gdt_limit x) sel) c);;
      kernel (emit (ELtr sel))
  | Wbinvd =>
      c ← gets fst;
      when (Z.testbit (get_creg CR0 c) 30) (kernel (emit EDisableCache))
  | Call f => call_c f
  | Jmp r => tell (fun c => with_eip (get r c) c)
  | Ljmp sel => tell (set_sreg CS sel)
  | Retn => ip ← pop; tell (with_eip ip)
  | Iret => iret
  | Hlt => spin
  end.

(** Instructions one after the other; the instruction pointer is followed where
    they leave it. *)
Definition exec_all (code : list instr) : prog machine unit := foldr (fun i p => exec i;; p) skip code.
End exec.

(** [regs_simpl] computes the registers of a processor that is known by its
    fields. *)
Ltac regs_simpl :=
  cbv beta iota zeta delta [get set get_sreg set_sreg get_creg set_creg with_gprs with_segs with_ctls
    with_eip with_eflags c_gprs c_segs c_ctls c_eip c_eflags c_eax c_ecx c_edx c_ebx c_esp c_ebp c_esi c_edi
    c_cs c_ss c_ds c_es c_fs c_gs c_cr0 c_cr3 c_cr4 c_gdt_base c_gdt_limit c_tr].

Lemma lor_range n a b : 0 <= n -> 0 <= a < 2 ^ n -> 0 <= b < 2 ^ n -> 0 <= Z.lor a b < 2 ^ n.
Proof.
  intros Hn Ha Hb. assert (H : Z.lor a b = Z.lor a b mod 2 ^ n).
  { rewrite <- Z.land_ones, Z.land_lor_distr_l, !Z.land_ones, !Z.mod_small by lia. done. }
  rewrite H. apply Z.mod_pos_bound, pow2_pos, Hn.
Qed.

(** * Words on the stack *)

(** The words from physical address [a] on. *)
Fixpoint words_at (m : ram) (a : Z) (ws : list Z) : Prop :=
  match ws with [] => True | w :: ws => rd32 m a = w /\ words_at m (a + 4) ws end.

Lemma words_at_ext m m' a ws : (forall b, a <= b < a + 4 * Z.of_nat (length ws) -> rd8 m' b = rd8 m b) ->
  words_at m a ws -> words_at m' a ws.
Proof.
  revert a. induction ws as [|w ws IH]; intros a H; cbn [words_at]; [done|]. cbn [length] in H.
  intros [<- Hws]. split; [apply rd32_ext; intros; apply H; lia|]. apply IH; [|done]. intros; apply H; lia.
Qed.

Lemma words_at_lookup m a ws i w : words_at m a ws -> ws !! i = Some w -> rd32 m (a + 4 * Z.of_nat i) = w.
Proof.
  revert a i. induction ws as [|x ws IH]; intros a i; [done|]. intros [Hx Hws] Hi. destruct i as [|i]; cbn in Hi.
  - injection Hi as <-. by replace (a + 4 * Z.of_nat 0) with a by lia.
  - replace (a + 4 * Z.of_nat (S i)) with (a + 4 + 4 * Z.of_nat i) by lia. by apply IH.
Qed.

(** [stk T m0 lo top p m ws]: below [top] the stack holds the words [ws], from the
    pointer [p] on, which may go down to [lo]; outside the bytes between [lo] and
    [top] and those of [T], RAM is as in [m0]. *)
Record stk (T : Z -> Prop) (m0 : ram) (lo top p : Z) (m : ram) (ws : list Z) : Prop := {
  stk_linear : linear lo (top - lo);
  stk_low : lo <= p;
  stk_top : p + 4 * Z.of_nat (length ws) = top;
  stk_fits : top < 4294967296;
  stk_words : words_at m (ka lo + (p - lo)) ws;
  stk_rest a : ~ (ka lo <= a < ka lo + (top - lo)) -> ~ T a -> rd8 m a = rd8 m0 a
}.

Section stack.
Context (T : Z -> Prop) (m0 : ram) (lo top : Z).
Notation stk := (stk T m0 lo top).

Lemma wp_asks {A} (f : cpu -> A) Q c k : Q (f c) (c, k) -> wp (asks f) Q (c, k).
Proof. done. Qed.

Lemma wp_tell f Q c k : Q tt (f c, k) -> wp (tell f) Q (c, k).
Proof. done. Qed.

Lemma wp_kernel {A} (p : prog kst A) (Q : A -> machine -> Prop) c k :
  wp p (fun a k' => Q a (c, k')) k -> wp (kernel p) Q (c, k).
Proof. unfold wp, kernel. by destruct (p k). Qed.

Lemma kernel_bind_ret {A} (p : prog kst A) c k a k' : p k = Ret a k' -> kernel p (c, k) = Ret a (c, k').
Proof. unfold kernel. by intros ->. Qed.

Lemma set_mem_const m k : set_mem (fun _ => m) (set_mem (fun _ => mem k) k) = set_mem (fun _ => m) k.
Proof. done. Qed.

Lemma ka_stack p : linear lo (top - lo) -> lo <= p < top -> ka p = ka lo + (p - lo).
Proof. intros Hl Hp. replace p with (lo + (p - lo)) at 1 by lia. apply (ka_add _ _ _ Hl). lia. Qed.

(** Pushing a word. *)
Lemma wp_push v p ws (Q : unit -> machine -> Prop) c k : 0 <= v < 4294967296 ->
  stk p (mem k) ws -> get ESP c = p -> lo <= p - 4 ->
  (forall m', stk (p - 4) m' (v :: ws) -> Q tt (set ESP (p - 4) c, set_mem (fun _ => m') k)) ->
  wp (push v) Q (c, k).
Proof.
  intros Hv [Hl Hlo Htop Hfit Hws Hrest] Hp Hr HQ. unfold push.
  apply wp_bind, wp_asks. rewrite Hp. rewrite w32_small by (unfold linear in Hl; lia).
  apply wp_bind, wp_tell, wp_kernel, wp_store32.
  rewrite (ka_stack (p - 4)) by (done || lia).
  apply (HQ (wr32 (mem k) (ka lo + (p - 4 - lo)) v)). split.
  - exact Hl.
  - lia.
  - cbn [length]. lia.
  - done.
  - cbn [words_at]. rewrite rd32_wr32_eq, w32_small by done. split; [done|].
    replace (ka lo + (p - 4 - lo) + 4) with (ka lo + (p - lo)) by lia.
    eapply words_at_ext; [|exact Hws]. intros b Hb. apply rd8_wr32_ne. lia.
  - intros a Ha HT. rewrite rd8_wr32_ne by lia. by apply Hrest.
Qed.

(** Popping the first word. *)
Lemma wp_pop w p ws (Q : Z -> machine -> Prop) c k :
  stk p (mem k) (w :: ws) -> get ESP c = p ->
  (stk (p + 4) (mem k) ws -> Q w (set ESP (p + 4) c, k)) -> wp pop Q (c, k).
Proof.
  intros [Hl Hlo Htop Hfit [Hw Hws] Hrest] Hp HQ. cbn [length] in Htop. unfold pop.
  apply wp_bind, wp_asks, wp_bind, wp_kernel, wp_load32, wp_bind, wp_tell, wp_ret. rewrite Hp.
  rewrite (ka_stack p) by (done || lia). rewrite Hw, w32_small by (unfold linear in Hl; lia). apply HQ. split; try done; [lia|lia|].
  by replace (ka lo + (p + 4 - lo)) with (ka lo + (p - lo) + 4) by lia.
Qed.

(** The words stay where memory does. *)
Lemma stk_keep p m m' ws : stk p m ws ->
  (forall a, ka p <= a < ka lo + (top - lo) -> rd8 m' a = rd8 m a) ->
  (forall a, ~ (ka lo <= a < ka lo + (top - lo)) -> ~ T a -> rd8 m' a = rd8 m a) -> stk p m' ws.
Proof.
  intros [Hl Hlo Htop Hfit Hws Hrest] Hin Hout. split; [done..| |].
  - eapply words_at_ext; [|exact Hws]. intros b Hb. destruct ws as [|w ws]; [cbn [length] in Hb; lia|].
    cbn [length] in *. apply Hin.
    rewrite (ka_stack p) by (done || lia). lia.
  - intros a Ha HT. rewrite Hout by done. by apply Hrest.
Qed.
End stack.

Lemma stk_cast T m0 lo top m p p' ws ws' : stk T m0 lo top p m ws -> p = p' -> ws = ws' ->
  stk T m0 lo top p' m ws'.
Proof. by intros ? <- <-. Qed.

Lemma stk_start T lo top m : linear lo (top - lo) -> lo <= top -> top < 4294967296 -> stk T m lo top top m [].
Proof. intros. split; [done|done|cbn; lia|done|done|done]. Qed.

(** [cpu_push] and [cpu_pop] take a push or a pop at the head of a program, for a
    processor that is known by its fields. *)
Ltac cpu_push T m0 lo top := eapply (wp_push T m0 lo top); [lia|eassumption|reflexivity|lia|];
  let m := fresh "m" in let H := fresh "Hs" in intros m H; regs_simpl.
Ltac cpu_pop T m0 lo top := eapply (wp_pop T m0 lo top); [eassumption|reflexivity|];
  let H := fresh "Hs" in intros H; regs_simpl.
Ltac cpu_ask := apply wp_bind, wp_asks; regs_simpl.
Ltac cpu_tell := apply wp_tell; regs_simpl.

(** ** Instructions *)

Lemma wp_arith arith d f (Q : unit -> machine -> Prop) c k :
  (forall fl, Q tt (with_eflags fl (set d (f (get d c)) c), k)) -> wp (arith_on arith d f) Q (c, k).
Proof. intros HQ. unfold arith_on. apply wp_bind, wp_asks, wp_tell, HQ. Qed.

Section control.
Context (callee : cfun -> Z -> prog kst unit) (clobber : kst -> Z * Z * Z * Z) (scratch : Z -> ram -> ram).
Context (return_address : Z) (arith : Z -> Z -> Z).
Notation exec := (exec callee clobber scratch return_address arith).

Notation exec_all := (exec_all callee clobber scratch return_address arith).

Lemma exec_all_app a b P m : wp (exec_all a) (fun _ m' => after (exec_all b) P m') m -> after (exec_all (a ++ b)) P m.
Proof.
  revert m. induction a as [|i a IH]; intros m; [done|]. cbn [app]. change (exec_all (?i :: ?l)) with (exec i;; exec_all l).
  intros H%wp_bind_inv. apply after_bind. eapply wp_mono; [exact H|]. intros [] m'. apply IH.
Qed.

Lemma wp_exec_cons i l Q m : wp (exec i) (fun _ m' => wp (exec_all l) Q m') m -> wp (exec_all (i :: l)) Q m.
Proof. apply wp_bind. Qed.

Lemma wp_to_cr r d (Q : unit -> machine -> Prop) c k : d <> CR0 ->
  Q tt (set_creg d (get r c) c, k) -> wp (exec (ToCr r d)) Q (c, k).
Proof.
  intros Hd HQ. cbn [Cpu.exec]. apply wp_bind, wp_gets, wp_bind, wp_tell. cbn [fst].
  rewrite bool_decide_eq_false_2 by done. exact HQ.
Qed.

Lemma wp_to_cr0 r (Q : unit -> machine -> Prop) c k :
  Z.testbit (get_creg CR0 c) 31 = false -> Z.testbit (get r c) 31 = true ->
  Q tt (set_creg CR0 (get r c) c, logged [EEnablePaging (get_creg CR3 c)] k) -> wp (exec (ToCr r CR0)) Q (c, k).
Proof.
  intros H0 H1 HQ. cbn [Cpu.exec]. apply wp_bind, wp_gets, wp_bind, wp_tell. cbn [fst].
  rewrite bool_decide_eq_true_2, H0, H1 by done. exact HQ.
Qed.

Lemma wp_to_cr0_on r (Q : unit -> machine -> Prop) c k : Z.testbit (get_creg CR0 c) 31 = true ->
  Q tt (set_creg CR0 (get r c) c, k) -> wp (exec (ToCr r CR0)) Q (c, k).
Proof.
  intros H0 HQ. cbn [Cpu.exec]. apply wp_bind, wp_gets, wp_bind, wp_tell. cbn [fst].
  rewrite H0, andb_false_r. exact HQ.
Qed.

Lemma wp_wbinvd (Q : unit -> machine -> Prop) c k : Z.testbit (get_creg CR0 c) 30 = true ->
  Q tt (c, logged [EDisableCache] k) -> wp (exec Wbinvd) Q (c, k).
Proof. intros H0 HQ. cbn [Cpu.exec]. apply wp_bind, wp_gets. cbn [fst]. rewrite H0. exact HQ. Qed.
End control.
