(* ===== verification/Stubs.v ===== *)
(** The interrupt stubs (src/isr_handler.S): what the processor and the stub
    push, the structure irq_handler finds on the stack, and the return. *)
From S2P Require Import Prelude Memory State Console Kprintf Vga Pic Interrupts Devices Mmu Alloc Boot Cpu.
Local Open Scope Z_scope.
Local Open Scope kern_scope.
Local Set Default Proof Using "Type*".

(** The macros. *)
Definition isr_handler : list instr :=
  [PushS DS; PushS ES; PushS FS; PushS GS; PushS SS; Pushal; Push ESP] ++
  [Call IrqHandler] ++
  [Pop ESP; Popal; PopS SS; PopS GS; PopS FS; PopS ES; PopS DS].

Definition ISR_NO_ERROR (n : Z) : list instr := [PushI 0; PushI n] ++ isr_handler ++ [AddI 8 ESP; Iret].
Definition ISR_WITH_ERROR (n : Z) : list instr := [PushI n] ++ isr_handler ++ [AddI 4 ESP; Iret].

(** The vectors whose stubs are written with ISR_WITH_ERROR. *)
Definition error_vectors : list Z := [8; 10; 11; 12; 13; 14].

Definition isr_stub (n : Z) : list instr :=
  if bool_decide (n ∈ error_vectors) then ISR_WITH_ERROR n else ISR_NO_ERROR n.

(** struct regs at the pointer [p]: the structure is packed, and its cs has 16
    bits. *)
Definition regs_at (m : ram) (p : Z) : regs :=
  let w i := rd32 m (ka p + i) in
  Regs (w 0) (w 4) (w 8) (w 12) (w 16) (w 20) (w 24) (w 28) (w 32) (w 36) (w 40) (w 44) (w 48)
    (w 52) (w 56) (w 60) (rd16 m (ka p + 64)) (w 66) (w 70) (w 74).

Section stubs.
Context {HW : Hardware} {LY : Layout}.

(** The C functions that the assembly calls, their arguments on the stack. *)
Definition kernel_callee (f : cfun) (sp : Z) : prog kst unit :=
  match f with
  | IrqHandler =>
      ptr ← load32 (w32 (sp + 4));
      r ← gets (fun k => regs_at (mem k) ptr);
      interrupt r
  | Main =>
      magic ← load32 (w32 (sp + 4));
      mbi ← load32 (w32 (sp + 8));
      main magic mbi
  | MainUserland => main_userland
  end.
End stubs.

(** What irq_handler is given: the interrupted registers, the stack pointer [p]
    the stub's common part started with, and the words from there on, which the
    stub and the processor have pushed: the vector [n], the code [err], the
    instruction pointer [ip], the selector [sel] and the flags [fl]. After cs the
    structure reads two bytes too low, so that its eflags has the low half of the
    flags in its high half; [u] and [s] are read across the flags and the
    interrupted stack. *)
Definition frame_regs (c : cpu) (p n err ip sel fl u s : Z) : regs :=
  let g := c_gprs c in let x := c_segs c in
  Regs (c_edi g) (c_esi g) (c_ebp g) (p - 20) (c_ebx g) (c_edx g) (c_ecx g) (c_eax g)
    (c_ss x) (c_gs x) (c_fs x) (c_es x) (c_ds x) n err ip (sel mod 65536)
    (sel / 65536 + 65536 * (fl mod 65536)) u s.

(** Register contents that fit the registers. *)
Definition fits (w v : Z) : Prop := 0 <= v < 2 ^ w.

Record cpu_ok (c : cpu) : Prop := {
  ok_gprs r : fits 32 (get r c);
  ok_segs s : fits 16 (get_sreg s c);
  ok_eip : fits 32 (c_eip c);
  ok_eflags : fits 32 (c_eflags c)
}.

(** What the stub has pushed when irq_handler is entered, above the return
    address: the argument, the general registers, the segments, and [ws]. *)
Definition saved (c : cpu) (p : Z) (ws : list Z) : list Z :=
  let g := c_gprs c in let s := c_segs c in
  [p - 52; c_edi g; c_esi g; c_ebp g; p - 20; c_ebx g; c_edx g; c_ecx g; c_eax g;
   c_ss s; c_gs s; c_fs s; c_es s; c_ds s] ++ ws.

(** ** The structure that irq_handler is given *)

Section regs.
Context (T : Z -> Prop) (m0 : ram) (lo top return_address : Z).
Notation stk := (stk T m0 lo top).

(** irq_handler's argument designates the pushed registers. *)
Lemma regs_at_saved p m c n err ip sel fl ws :
  stk (p - 60) m (return_address :: saved c p (n :: err :: ip :: sel :: fl :: ws)) ->
  rd32 m (ka (w32 (p - 60 + 4))) = p - 52 /\ exists u s, regs_at m (p - 52) = frame_regs c p n err ip sel fl u s.
Proof.
  intros [Hl Hlo Htop Hfit Hws _]. cbn [length saved app] in Htop.
  assert (Hlo0 : 0 <= lo) by apply Hl.
  assert (Hw : forall i w, (return_address :: saved c p (n :: err :: ip :: sel :: fl :: ws)) !! i = Some w ->
    rd32 m (ka (p - 52) + (4 * Z.of_nat i - 8)) = w).
  { intros i w Hi. rewrite <- (words_at_lookup _ _ _ _ _ Hws Hi). f_equal. rewrite (ka_stack lo top (p - 52)) by (done || lia). lia. }
  split.
  - rewrite w32_small by lia. rewrite <- (Hw 1%nat _ eq_refl). f_equal.
    rewrite (ka_stack lo top (p - 60 + 4)), (ka_stack lo top (p - 52)) by (done || lia). lia.
  - pose proof (Hw 18%nat _ eq_refl) as Hcs. pose proof (Hw 19%nat _ eq_refl) as Hfl.
    change (4 * Z.of_nat 18 - 8) with 64 in Hcs. change (4 * Z.of_nat 19 - 8) with 68 in Hfl.
    rewrite rd32_halves in Hcs, Hfl.
    pose proof (rd16_range m (ka (p - 52) + 64)). pose proof (rd16_range m (ka (p - 52) + 64 + 2)).
    pose proof (rd16_range m (ka (p - 52) + 68)). pose proof (rd16_range m (ka (p - 52) + 68 + 2)).
    eexists _, _. unfold regs_at, frame_regs. f_equal;
      first [exact (Hw 2%nat _ eq_refl)|exact (Hw 3%nat _ eq_refl)|exact (Hw 4%nat _ eq_refl)|exact (Hw 5%nat _ eq_refl)
        |exact (Hw 6%nat _ eq_refl)|exact (Hw 7%nat _ eq_refl)|exact (Hw 8%nat _ eq_refl)|exact (Hw 9%nat _ eq_refl)
        |exact (Hw 10%nat _ eq_refl)|exact (Hw 11%nat _ eq_refl)|exact (Hw 12%nat _ eq_refl)|exact (Hw 13%nat _ eq_refl)
        |exact (Hw 14%nat _ eq_refl)|exact (Hw 15%nat _ eq_refl)|exact (Hw 16%nat _ eq_refl)|exact (Hw 17%nat _ eq_refl)|idtac].
    + rewrite <- Hcs. Z.div_mod_to_equations. lia.
    + rewrite rd32_halves. replace (ka (p - 52) + 66 + 2) with (ka (p - 52) + 68) by lia.
      replace (ka (p - 52) + 66) with (ka (p - 52) + 64 + 2) by lia.
      rewrite <- Hfl, <- Hcs. Z.div_mod_to_equations. lia.
Qed.
End regs.

Section deliver.
Variable callee : cfun -> Z -> prog kst unit.
Variable clobber : kst -> Z * Z * Z * Z.
Variable scratch : Z -> ram -> ram.
Variable return_address : Z.
Variable arith : Z -> Z -> Z.
(** The code at an address. *)
Variable code_at : Z -> option (list instr).

Notation exec_all := (exec_all callee clobber scratch return_address arith).
Notation exec := (exec callee clobber scratch return_address arith).

(** An interrupt taken in ring 0: the processor pushes the flags, the code segment,
    the instruction pointer and, for some exceptions, an error code; it clears the
    interrupt flag and goes on at the gate's offset. *)
Definition deliver (v : Z) (err : option Z) : prog machine unit :=
  t ← kernel (gets g_idt);
  g ← of_option (idt_gate t v);
  if negb (gate_present g) then undef
  else
    c ← gets fst;
    push (c_eflags c);; push (get_sreg CS c);; push (c_eip c);;
    match err with Some e => push e | None => skip end;;
    tell (fun c => with_eip (gate_offset g) (with_eflags (setf IF_BIT 1 0 (c_eflags c))
      (set_sreg CS (gate_selector g) c)));;
    stub ← of_option (code_at (gate_offset g));
    exec_all stub.

Context (T : Z -> Prop) (m0 : ram) (lo top depth : Z).
Notation stk := (stk T m0 lo top).

(** A function keeps the stack above [sp], and RAM outside [T] and the stack. *)
Definition keeps (sp : Z) (k k' : kst) : Prop :=
  (forall a, ka sp <= a < ka lo + (top - lo) -> rd8 (mem k') a = rd8 (mem k) a) /\
  (forall a, ~ (ka lo <= a < ka lo + (top - lo)) -> ~ T a -> rd8 (mem k') a = rd8 (mem k) a).

Context (Hscratch : forall sp m a, ~ (ka sp - depth <= a < ka sp) -> rd8 (scratch sp m) a = rd8 m a).
Context (Hret : fits 32 return_address) (Hdepth : 0 <= depth).

(** ** The instructions on the stack *)

Lemma wp_call f p ws (Q : unit -> machine -> Prop) c k :
  stk p (mem k) ws -> get ESP c = p -> lo <= p - 4 - depth ->
  (forall m', stk (p - 4) m' (return_address :: ws) ->
    exists k2, callee f (p - 4) (set_mem (fun _ => m') k) = Ret tt k2 /\ keeps (p - 4) (set_mem (fun _ => m') k) k2 /\
    forall m2 a cx d fl, stk p m2 ws -> (forall b, rd8 m2 b = rd8 (mem k2) b \/ ka lo <= b < ka lo + (top - lo)) ->
      Q tt (with_eflags fl (set EAX a (set ECX cx (set EDX d c))), set_mem (fun _ => m2) k2)) ->
  wp (call_c callee clobber scratch return_address f) Q (c, k).
Proof.
  intros Hs Hp Hr HQ. unfold call_c. apply wp_bind. eapply wp_push; [exact Hret|exact Hs|done|lia|].
  intros m' Hs'. destruct (HQ m' Hs') as (k2 & He & [Hk1 Hk2] & HQ').
  apply wp_bind, wp_asks. replace (get ESP (set ESP (p - 4) c)) with (p - 4) by (by destruct c as [[] [] ? ? ?]).
  apply wp_bind, wp_kernel. eapply wp_eq; [exact He|]. apply wp_bind, wp_kernel, wp_modify, wp_bind, wp_gets.
  destruct (clobber _) as [[[a cx] d] fl]. apply wp_bind, wp_tell, wp_bind.
  pose proof (stk_linear _ _ _ _ _ _ _ Hs) as Hl. pose proof (stk_top _ _ _ _ _ _ _ Hs') as Ht. cbn [length] in Ht.
  assert (Hka : ka (p - 4) = ka lo + (p - 4 - lo)) by (apply (ka_stack lo top); [done|lia]).
  eapply (wp_pop T m0 lo top return_address (p - 4) ws); [|by destruct c as [[] [] ? ? ?]|].
  - cbn [mem set_mem]. eapply stk_keep; [exact Hs'| |].
    + intros b Hb. rewrite Hscratch by lia. by apply Hk1.
    + intros b Hb HT. rewrite Hscratch by lia. by apply Hk2.
  - intros Hs2. apply wp_ret. replace (p - 4 + 4) with p in * by lia.
    match goal with |- Q _ (?c1, _) => replace c1 with (with_eflags fl (set EAX a (set ECX cx (set EDX d c))))
      by (revert Hp; destruct c as [[] [] ? ? ?]; cbn; by intros <-) end.
    apply (HQ' (scratch (p - 4) (mem k2)) a cx d fl); [exact Hs2|].
    intros b. destruct (decide (ka (p - 4) - depth <= b < ka (p - 4))); [right; lia|left; by apply Hscratch].
Qed.

(** The next instruction, a push, a pop; the processor is known by its fields. *)
Ltac do_push := cpu_push T m0 lo top.
Ltac do_pop := cpu_pop T m0 lo top.
Ltac next := apply wp_exec_cons; cbn [Cpu.exec].
Ltac ask := cpu_ask.
Ltac told := cpu_tell.

Lemma wp_isr_pushes p ws (Q : unit -> machine -> Prop) c k :
  cpu_ok c -> get ESP c = p -> stk p (mem k) ws -> lo <= p - 56 ->
  (forall m', stk (p - 56) m' (saved c p ws) -> Q tt (set ESP (p - 56) c, set_mem (fun _ => m') k)) ->
  wp (exec_all [PushS DS; PushS ES; PushS FS; PushS GS; PushS SS; Pushal; Push ESP]) Q (c, k).
Proof.
  intros [Hg Hsg _ _] Hp Hs Hr HQ.
  assert (Hlo : 0 <= lo) by apply (stk_linear _ _ _ _ _ _ _ Hs).
  destruct c as [[a cx d b sp bp si di] [cs ss ds es fs gs] ct ip fl]. cbn in Hp. subst sp.
  pose proof (Hg EAX) as H1. pose proof (Hg ECX) as H2. pose proof (Hg EDX) as H3. pose proof (Hg EBX) as H4.
  pose proof (Hg EBP) as H5. pose proof (Hg ESI) as H6. pose proof (Hg EDI) as H7. pose proof (Hg ESP) as H8.
  pose proof (Hsg SS) as G1. pose proof (Hsg DS) as G2. pose proof (Hsg ES) as G3. pose proof (Hsg FS) as G4. pose proof (Hsg GS) as G5.
  unfold fits in *. cbn in H1, H2, H3, H4, H5, H6, H7, H8, G1, G2, G3, G4, G5.
  change (2 ^ 32) with 4294967296 in *. change (2 ^ 16) with 65536 in *.
  do 5 (next; ask; do_push). next. unfold pushal. ask. do 7 (apply wp_bind; do_push). do_push.
  next. ask. do_push. apply wp_ret.
  match goal with H : stk ?sp ?m _ |- Q _ (Cpu (Gprs _ _ _ _ ?sp _ _ _) _ _ _ _, _) =>
    replace sp with (p - 56) by lia; apply (HQ m); eapply stk_cast; [exact H|lia|] end.
  unfold saved. regs_simpl. cbn [app]. repeat (f_equal; try lia).
Qed.

(** [c1] is [c] but for what a call changes, and the stack pointer. *)
Lemma wp_isr_pops p ws (Q : unit -> machine -> Prop) c c1 k :
  cpu_ok c -> get ESP c = p -> get ESP c1 = p - 56 ->
  c_ctls c1 = c_ctls c -> c_eip c1 = c_eip c -> get_sreg CS c1 = get_sreg CS c ->
  stk (p - 56) (mem k) (saved c p ws) ->
  (stk p (mem k) ws -> Q tt (with_eflags (c_eflags c1) c, k)) ->
  wp (exec_all [Pop ESP; Popal; PopS SS; PopS GS; PopS FS; PopS ES; PopS DS]) Q (c1, k).
Proof.
  intros [_ Hsg _ _] Hp Hp1 Hct Hip Hcs Hs HQ.
  destruct c as [[a cx d b sp bp si di] [cs ss ds es fs gs] ct ip fl].
  destruct c1 as [[a1 cx1 d1 b1 sp1 bp1 si1 di1] [cs1 ss1 ds1 es1 fs1 gs1] ct1 ip1 fl1].
  cbn in Hp, Hp1, Hct, Hip, Hcs. subst sp sp1 ct1 ip1 cs1.
  pose proof (Hsg SS) as G1. pose proof (Hsg DS) as G2. pose proof (Hsg ES) as G3. pose proof (Hsg FS) as G4. pose proof (Hsg GS) as G5.
  unfold fits in *. cbn in G1, G2, G3, G4, G5. change (2 ^ 16) with 65536 in *.
  revert Hs. unfold saved. regs_simpl. cbn [app]. intros Hs.
  next. apply wp_bind. do_pop. told. replace (p - 56 + 4) with (p - 52) in * by lia.
  next. unfold popal. do 8 (apply wp_bind; do_pop). told.
  do 5 (next; apply wp_bind; do_pop; told; rewrite w16_small by lia).
  apply wp_ret.
  match goal with H : stk ?sp _ ws |- Q _ (Cpu (Gprs _ _ _ _ ?sp _ _ _) _ _ _ _, _) =>
    replace sp with p in * by lia; exact (HQ H) end.
Qed.

(** ** Delivery up to irq_handler *)

(** The stub runs on the processor's frame; [c'] is the processor as the stub's
    common part starts, and differs from [c] by the stack pointer and the gate. *)
Definition in_stub (c : cpu) (isr p : Z) : cpu :=
  with_eip isr (with_eflags (setf IF_BIT 1 0 (c_eflags c)) (set_sreg CS 8 (set ESP p c))).

Lemma in_stub_ok c isr p : cpu_ok c -> fits 32 isr -> fits 32 p -> cpu_ok (in_stub c isr p).
Proof.
  intros [Hg Hs Hi Hf] Hisr Hp. destruct c as [[] [] ? ? ?]. split.
  - intros r. destruct r; [apply (Hg EAX)|apply (Hg ECX)|apply (Hg EDX)|apply (Hg EBX)|exact Hp|apply (Hg EBP)|apply (Hg ESI)|apply (Hg EDI)].
  - intros r. destruct r; [unfold fits; cbn; lia|apply (Hs SS)|apply (Hs DS)|apply (Hs ES)|apply (Hs FS)|apply (Hs GS)].
  - exact Hisr.
  - cbn. unfold fits. apply setf_range; [unfold IF_BIT; lia|lia|unfold IF_BIT; lia|exact Hf].
Qed.

Lemma saved_in_stub c isr p q ws : saved (in_stub c isr p) q ws = saved c q ws.
Proof. by destruct c as [[] [] ? ? ?]. Qed.

Definition has_error (err : option Z) : bool := match err with Some _ => true | None => false end.

Definition processor_frame (c : cpu) (err : option Z) : list Z :=
  match err with Some e => [e] | None => [] end ++ [c_eip c; get_sreg CS c; c_eflags c].

Lemma after_deliver v err isr stub P c k :
  cpu_ok c -> idt_gate (g_idt k) v = Some (interrupt_gate isr) -> code_at isr = Some stub ->
  match err with Some e => fits 32 e | None => True end ->
  stk (get ESP c) (mem k) [] -> lo <= get ESP c - 16 ->
  (forall m' p, p = get ESP c - 4 * Z.of_nat (length (processor_frame c err)) -> stk p m' (processor_frame c err) ->
    after (exec_all stub) P (in_stub c isr p, set_mem (fun _ => m') k)) ->
  after (deliver v err) P (c, k).
Proof.
  intros Hc Hgate Hcode Herr Hs Hlo HQ. unfold deliver. apply after_bind, wp_kernel, wp_gets, after_bind.
  eapply wp_of_option; [exact Hgate|]. cbn [gate_present interrupt_gate negb]. apply after_bind, wp_gets.
  pose proof (ok_eip _ Hc) as H1. pose proof (ok_eflags _ Hc) as H2. pose proof (ok_segs _ Hc CS) as H3.
  destruct c as [[a cx d b sp bp si di] [cs ss ds es fs gs] ct ip fl]. unfold fits in *. cbn in H1, H2, H3, Hs, Hlo.
  change (2 ^ 32) with 4294967296 in *. change (2 ^ 16) with 65536 in *. cbn [fst]. regs_simpl.
  do 3 (apply after_bind; do_push). apply after_bind.
  destruct err as [e|]; [do_push|apply wp_ret]; apply after_bind, wp_tell, after_bind;
    (eapply wp_of_option; [exact Hcode|]); cbn [gate_offset gate_selector interrupt_gate];
    match goal with H : stk ?sp ?m (_ :: _ :: _ :: _) |- after _ _ (?c1, _) => apply (HQ m sp); [cbn; lia|exact H] end.
Qed.

(** The stubs' code up to the call, written for an error code ([has]) or without;
    [rest] follows the common part. *)
Definition stub_code (has : bool) (n : Z) (rest : list instr) : list instr :=
  ((if has then [] else [PushI 0]) ++ [PushI n]) ++ isr_handler ++ rest.

(** The words under the registers: the stub's and the processor's. *)
Definition stub_words (has : bool) (n : Z) (err : option Z) (c : cpu) : list Z :=
  (if has then [n] else [n; 0]) ++ processor_frame c err.

Definition isr_pops : list instr := [Pop ESP; Popal; PopS SS; PopS GS; PopS FS; PopS ES; PopS DS].

Lemma after_stub v err has n isr rest P c k :
  cpu_ok c -> fits 32 n -> fits 32 isr -> match err with Some e => fits 32 e | None => True end ->
  idt_gate (g_idt k) v = Some (interrupt_gate isr) -> code_at isr = Some (stub_code has n rest) ->
  get ESP c = top -> stk top (mem k) [] ->
  let ws := stub_words has n err c in let p := top - 4 * Z.of_nat (length ws) in lo <= p - 60 ->
  (forall m', stk (p - 56) m' (saved c p ws) ->
    after (exec_all ([Call IrqHandler] ++ (isr_pops ++ rest))) P
      (set ESP (p - 56) (in_stub c isr p), set_mem (fun _ => m') k)) ->
  after (deliver v err) P (c, k).
Proof.
  intros Hc Hn Hisr Herr Hgate Hcode Hesp Hs ws p Hroom HQ. assert (Hlo : 0 <= lo) by apply (stk_linear _ _ _ _ _ _ _ Hs).
  pose proof (stk_fits _ _ _ _ _ _ _ Hs) as Hfit. unfold fits in *. change (2 ^ 32) with 4294967296 in *.
  assert (Hlen : 16 <= top - p <= 24 /\ Z.of_nat (length ws) = Z.of_nat (length (processor_frame c err)) + (if has then 1 else 2)).
  { unfold p, ws, stub_words, processor_frame. destruct has, err; cbn; lia. }
  apply (after_deliver v err isr (stub_code has n rest)); [done|done|done|done|by rewrite Hesp|lia|].
  intros m1 q Hq Hs1. rewrite Hesp in Hq. apply exec_all_app.
  apply (wp_mono _ (fun _ m => exists m3, m = (in_stub c isr p, set_mem (fun _ => m3) k) /\ stk p m3 ws)).
  - unfold ws, stub_words. destruct has; cbn [app].
    + next. eapply (wp_push T m0 lo top); [lia|exact Hs1|by destruct c as [[] [] ? ? ?]|lia|]. intros m2 Hs2. apply wp_ret.
      replace (q - 4) with p in * by lia. exists m2. split; [by destruct c as [[] [] ? ? ?]|exact Hs2].
    + next. eapply (wp_push T m0 lo top); [lia|exact Hs1|by destruct c as [[] [] ? ? ?]|lia|]. intros m2 Hs2.
      next. eapply (wp_push T m0 lo top); [lia|exact Hs2|by destruct c as [[] [] ? ? ?]|lia|]. intros m3 Hs3. apply wp_ret.
      replace (q - 4 - 4) with p in * by lia. exists m3. split; [by destruct c as [[] [] ? ? ?]|exact Hs3].
  - intros _ ? (m3 & -> & Hs3).
    change (isr_handler ++ rest) with ([PushS DS; PushS ES; PushS FS; PushS GS; PushS SS; Pushal; Push ESP] ++
      ([Call IrqHandler] ++ (isr_pops ++ rest))).
    apply exec_all_app. eapply (wp_isr_pushes p); [|by destruct c as [[] [] ? ? ?]|exact Hs3|lia|].
    + apply in_stub_ok; unfold fits; change (2 ^ 32) with 4294967296; done || lia.
    + rewrite saved_in_stub. intros m' Hs'.
      change (set_mem (fun _ => m') (set_mem (fun _ => m3) k)) with (set_mem (fun _ => m') k). by apply HQ.
Qed.

(** Return within a ring. *)
Lemma wp_iret p ip sel fl ws (Q : unit -> machine -> Prop) c k :
  stk p (mem k) (ip :: sel :: fl :: ws) -> get ESP c = p -> rpl sel <= rpl (get_sreg CS c) ->
  (stk (p + 12) (mem k) ws ->
   Q tt (with_eip ip (with_eflags fl (set_sreg CS (w16 sel) (set ESP (p + 12) c))), k)) ->
  wp iret Q (c, k).
Proof.
  intros Hs Hp Hrpl HQ. destruct c as [[a cx d b sp bp si di] [cs ss ds es fs gs] ct ip0 fl0].
  cbn in Hp, Hrpl. subst sp. unfold iret. ask. do 3 (apply wp_bind; do_pop). apply wp_bind. told.
  rewrite (proj2 (Z.ltb_ge _ _)) by exact Hrpl. apply wp_ret.
  replace (p + 4 + 4 + 4) with (p + 12) in * by lia. by apply HQ.
Qed.

Lemma wp_add_esp n p ws w (Q : unit -> machine -> Prop) c k :
  stk p (mem k) (w ++ ws) -> n = 4 * Z.of_nat (length w) -> get ESP c = p ->
  (forall fl, stk (p + n) (mem k) ws -> Q tt (with_eflags fl (set ESP (p + n) c), k)) ->
  wp (exec (AddI n ESP)) Q (c, k).
Proof.
  intros [Hl Hlo Htop Hfit Hws Hrest] -> Hp HQ. cbn [Cpu.exec]. unfold arith_on. apply wp_bind, wp_asks, wp_tell.
  rewrite length_app in Htop. assert (0 <= lo) by apply Hl. rewrite Hp, w32_small by lia. apply HQ. split; [done|lia|lia|done| |done].
  clear - Hws. replace (p + 4 * Z.of_nat (length w) - lo) with (p - lo + 4 * Z.of_nat (length w)) by lia.
  revert Hws. generalize (p - lo). induction w as [|x w IH]; intros z Hws.
  - cbn [length]. by replace (z + 4 * Z.of_nat 0) with z by lia.
  - cbn [length]. replace (z + 4 * Z.of_nat (S (length w))) with (z + 4 + 4 * Z.of_nat (length w)) by lia.
    apply IH. cbn [app words_at] in Hws. replace (ka lo + (z + 4)) with (ka lo + z + 4) by lia. apply Hws.
Qed.


(** When irq_handler returns, the stub goes on after its common part with the
    registers it started with, the flags apart. *)
Lemma wp_stub v err n isr rest (Q : unit -> machine -> Prop) c k :
  cpu_ok c -> fits 32 n -> fits 32 isr -> match err with Some e => fits 32 e | None => True end ->
  idt_gate (g_idt k) v = Some (interrupt_gate isr) -> code_at isr = Some (stub_code (has_error err) n rest) ->
  get ESP c = top -> stk top (mem k) [] -> lo <= top - 80 - depth ->
  let ws := [n; default 0 err; c_eip c; get_sreg CS c; c_eflags c] in
  (forall m', stk (top - 80) m' (return_address :: saved c (top - 20) ws) ->
    exists k2, callee IrqHandler (top - 80) (set_mem (fun _ => m') k) = Ret tt k2 /\ keeps (top - 80) (set_mem (fun _ => m') k) k2 /\
    forall m2 fl, stk (top - 20) m2 ws -> (forall b, rd8 m2 b = rd8 (mem k2) b \/ ka lo <= b < ka lo + (top - lo)) ->
      wp (exec_all rest) Q (with_eflags fl (in_stub c isr (top - 20)), set_mem (fun _ => m2) k2)) ->
  wp (deliver v err) Q (c, k).
Proof.
  intros Hc Hn Hisr Herr Hgate Hcode Hesp Hs Hroom ws HQ.
  pose proof (stk_fits _ _ _ _ _ _ _ Hs) as Hfit. assert (Hlo : 0 <= lo) by apply (stk_linear _ _ _ _ _ _ _ Hs).
  assert (Hws : stub_words (has_error err) n err c = ws) by (by destruct err).
  apply (after_stub v err (has_error err) n isr rest (fun o => match o with Ret a m => Q a m | _ => False end));
    [done|done|done|done|done|done|done|done|rewrite Hws; cbn [length ws]; lia|].
  rewrite Hws. replace (top - 4 * Z.of_nat (length ws)) with (top - 20) by (cbn [length ws]; lia).
  replace (top - 20 - 56) with (top - 76) by lia. intros m1 Hs1.
  apply exec_all_app. next.
  apply (wp_call IrqHandler (top - 76) (saved c (top - 20) ws)); [exact Hs1|by destruct c as [[] [] ? ? ?]|lia|].
  replace (top - 76 - 4) with (top - 80) by lia. intros m' Hs'.
  destruct (HQ m' Hs') as (k2 & He & Hk & HQ2). exists k2. split; [exact He|]. split; [exact Hk|].
  intros m2 a cx d fl Hs2 Hm2. apply wp_ret, exec_all_app.
  assert (Hok : cpu_ok (in_stub c isr (top - 20)))
    by (apply in_stub_ok; unfold fits in *; change (2 ^ 32) with 4294967296 in *; done || lia).
  assert (Hst : stk (top - 20 - 56) m2 (saved (in_stub c isr (top - 20)) (top - 20) ws))
    by (rewrite saved_in_stub; by replace (top - 20 - 56) with (top - 76) by lia).
  eapply (wp_isr_pops (top - 20) ws _ (in_stub c isr (top - 20))); [exact Hok|by destruct c as [[] [] ? ? ?]|..|exact Hst|];
    [replace (top - 20 - 56) with (top - 76) by lia; by destruct c as [[] [] ? ? ?]|by destruct c as [[] [] ? ? ?]..|].
  intros Hs3. apply HQ2; [exact Hs3|exact Hm2].
Qed.

(** A stub without an error code is transparent. *)
Lemma wp_no_error_stub v n isr (Q : unit -> machine -> Prop) c k :
  cpu_ok c -> rpl (get_sreg CS c) = 0 -> fits 32 n -> fits 32 isr ->
  idt_gate (g_idt k) v = Some (interrupt_gate isr) -> code_at isr = Some (ISR_NO_ERROR n) ->
  get ESP c = top -> stk top (mem k) [] -> lo <= top - 80 - depth ->
  (forall m', stk (top - 80) m' (return_address :: saved c (top - 20) [n; 0; c_eip c; get_sreg CS c; c_eflags c]) ->
    exists k2, callee IrqHandler (top - 80) (set_mem (fun _ => m') k) = Ret tt k2 /\ keeps (top - 80) (set_mem (fun _ => m') k) k2 /\
    forall m2, stk top m2 [] -> (forall b, rd8 m2 b = rd8 (mem k2) b \/ ka lo <= b < ka lo + (top - lo)) ->
      Q tt (c, set_mem (fun _ => m2) k2)) ->
  wp (deliver v None) Q (c, k).
Proof.
  intros Hc Hcs Hn Hisr Hgate Hcode Hesp Hs Hroom HQ.
  apply (wp_stub v None n isr [AddI 8 ESP; Iret]); [done..|]. intros m' Hs'.
  destruct (HQ m' Hs') as (k2 & He & Hk & HQ2). exists k2. split; [exact He|]. split; [exact Hk|].
  intros m2 fl Hs2 Hm2. next. eapply (wp_add_esp 8 (top - 20) _ [n; 0]); [exact Hs2|done|by destruct c as [[] [] ? ? ?]|].
  intros fl' Hs3. next. eapply (wp_iret (top - 20 + 8)); [exact Hs3|by destruct c as [[] [] ? ? ?]|..].
  - rewrite Hcs. by destruct c as [[] [] ? ? ?].
  - intros Hs4. apply wp_ret. replace (top - 20 + 8 + 12) with top in * by lia.
    pose proof (ok_segs _ Hc CS) as G. unfold fits in G. change (2 ^ 16) with 65536 in G. rewrite w16_small by done.
    destruct c as [[a cx d b sp bp si di] [cs ss ds es fs gs] ct ip fl0]. cbn in Hesp. subst sp.
    by apply HQ2.
Qed.

(** Return to an outer ring: the stack pointer is the fourth word, and the stack
    segment the fifth, whatever that is. *)
Lemma wp_iret_outer p ip sel fl sp (Q : unit -> machine -> Prop) c k :
  stk p (mem k) [ip; sel; fl; sp] -> get ESP c = p -> rpl (get_sreg CS c) < rpl sel ->
  (forall s, Q tt (with_eip ip (with_eflags fl (set_sreg SS s (set_sreg CS (w16 sel) (set ESP sp c)))), k)) ->
  wp iret Q (c, k).
Proof.
  intros Hs Hp Hrpl HQ. destruct c as [[a cx d b sp0 bp si di] [cs ss ds es fs gs] ct ip0 fl0].
  cbn in Hp, Hrpl. subst sp0. unfold iret. ask. do 3 (apply wp_bind; do_pop). apply wp_bind. told.
  rewrite (proj2 (Z.ltb_lt _ _)) by exact Hrpl. unfold when. apply wp_bind. do_pop.
  apply wp_bind. unfold pop. apply wp_bind, wp_asks, wp_bind, wp_kernel, wp_load32, wp_bind, wp_tell, wp_ret. told.
  exact (HQ _).
Qed.

(** A stub with an error code returns to the error code. *)
Lemma wp_error_stub v n e isr (Q : unit -> machine -> Prop) c k :
  cpu_ok c -> fits 32 n -> fits 32 e -> fits 32 isr ->
  idt_gate (g_idt k) v = Some (interrupt_gate isr) -> code_at isr = Some (ISR_WITH_ERROR n) ->
  get ESP c = top -> stk top (mem k) [] -> lo <= top - 80 - depth ->
  (forall m', stk (top - 80) m' (return_address :: saved c (top - 20) [n; e; c_eip c; get_sreg CS c; c_eflags c]) ->
    exists k2, callee IrqHandler (top - 80) (set_mem (fun _ => m') k) = Ret tt k2 /\ keeps (top - 80) (set_mem (fun _ => m') k) k2 /\
    forall m2 c2, c_eip c2 = e -> get_sreg CS c2 = w16 (c_eip c) -> c_eflags c2 = get_sreg CS c ->
      get ESP c2 = (if rpl (c_eip c) =? 0 then top - 4 else c_eflags c) -> Q tt (c2, set_mem (fun _ => m2) k2)) ->
  wp (deliver v (Some e)) Q (c, k).
Proof.
  intros Hc Hn He Hisr Hgate Hcode Hesp Hs Hroom HQ.
  apply (wp_stub v (Some e) n isr [AddI 4 ESP; Iret]); [done..|]. cbn [default]. intros m' Hs'.
  destruct (HQ m' Hs') as (k2 & Hret' & Hk & HQ2). exists k2. split; [exact Hret'|]. split; [exact Hk|].
  intros m2 fl Hs2 Hm2. next. eapply (wp_add_esp 4 (top - 20) _ [n]); [exact Hs2|done|by destruct c as [[] [] ? ? ?]|].
  intros fl' Hs3. next. assert (Hr : 0 <= rpl (c_eip c) < 4) by (apply Z.mod_pos_bound; lia).
  destruct (Z.eqb_spec (rpl (c_eip c)) 0) as [Hz|Hz].
  - eapply (wp_iret (top - 20 + 4)); [exact Hs3|by destruct c as [[] [] ? ? ?]|rewrite Hz; by destruct c as [[] [] ? ? ?]|].
    intros Hs4. apply wp_ret, HQ2; destruct c as [[] [] ? ? ?]; cbn; done || lia.
  - eapply (wp_iret_outer (top - 20 + 4)); [exact Hs3|by destruct c as [[] [] ? ? ?]| |].
    + enough (forall x, rpl (get_sreg CS (with_eflags fl' (set ESP x (with_eflags fl (in_stub c isr (top - 20)))))) = 0) as -> by lia.
      intros x. by destruct c as [[] [] ? ? ?].
    + intros s. apply wp_ret, HQ2; destruct c as [[] [] ? ? ?]; done.
Qed.
End deliver.

(** * Interrupts of the running kernel, at the level of the processor *)

(** The text of the screen; the bytes below a stack pointer that an interrupt may
    use, the functions it calls using up to [depth] of them. *)
Definition in_text (a : Z) : Prop := TEXT_BASE <= a < TEXT_BASE + 2 * TEXT_CELLS.
Definition below (depth sp a : Z) : Prop := ka (sp - 80 - depth) <= a < ka (sp - 80 - depth) + (80 + depth).

Record stack_ok (depth sp : Z) : Prop := {
  stack_linear : linear (sp - 80 - depth) (80 + depth);
  stack_fits : sp < 4294967296;
  stack_apart a : below depth sp a -> ~ in_text a
}.

(** The devices' part of the state and the free stack changed, nothing else. *)
Definition disturbed (S : Z -> Prop) (k k' : kst) : Prop :=
  exists m' evs s tk d, k' = set_ticks tk (set_send_char s (set_disp_count d (logged evs
    (set_mem (fun _ => m') k)))) /\
    forall a, ~ in_text a -> ~ S a -> rd8 m' a = rd8 (mem k) a.

#[export] Instance disturbed_preorder S : PreOrder (disturbed S).
Proof.
  split.
  - intros k. exists (mem k), [], (send_char k), (ticks k), (disp_count k). rewrite logged_nil. by destruct k.
  - intros k1 k2 k3 (m1 & t1 & s1 & tk1 & d1 & -> & H1) (m2 & t2 & s2 & tk2 & d2 & -> & H2).
    exists m2, (t1 ++ t2), s2, tk2, d2. split; [by rewrite <- logged_logged|].
    intros a Ha HS. rewrite H2 by done. by apply H1.
Qed.

Lemma isr_vectors_range v : v ∈ isr_vectors -> 0 <= v < 256.
Proof.
  assert (H : Forall (fun v => 0 <= v < 256) isr_vectors) by (refine (bool_decide_unpack _ _); vm_compute; exact I).
  rewrite Forall_forall in H. apply H.
Qed.

Lemma stack_start depth c k : stack_ok depth (get ESP c) -> 0 <= depth ->
  stk in_text (mem k) (get ESP c - 80 - depth) (get ESP c) (get ESP c) (mem k) [].
Proof.
  intros [Hl Hf _] ?. apply stk_start; [|lia|done].
  by replace (get ESP c - (get ESP c - 80 - depth)) with (80 + depth) by lia.
Qed.

(** A call of a C function: where it starts, and what the caller sees when it
    stops and when it returns. *)
Lemma call_enters {HW : Hardware} {LY : Layout} clobber scratch return_address T m0 lo top f p ws c k :
  fits 32 return_address -> stk T m0 lo top p (mem k) ws -> get ESP c = p -> lo <= p - 4 ->
  exists m', stk T m0 lo top (p - 4) m' (return_address :: ws) /\
    (forall k', kernel_callee f (p - 4) (set_mem (fun _ => m') k) = Spin k' ->
      exists c', call_c kernel_callee clobber scratch return_address f (c, k) = Spin (c', k')) /\
    (forall k', kernel_callee f (p - 4) (set_mem (fun _ => m') k) = Ret tt k' ->
      exists c', call_c kernel_callee clobber scratch return_address f (c, k) = Ret tt (c', set_mem (scratch (p - 4)) k')).
Proof.
  intros Hret Hs Hp Hlo.
  assert (H : wp (push return_address) (fun _ m => exists m', m = (set ESP (p - 4) c, set_mem (fun _ => m') k) /\
    stk T m0 lo top (p - 4) m' (return_address :: ws)) (c, k)).
  { eapply wp_push; [exact Hret|exact Hs|done|lia|]. intros m' Hs'. by exists m'. }
  destruct (wp_elim _ _ _ H) as ([] & m & He & m' & -> & Hs'). exists m'. split; [done|].
  assert (Hsp : get ESP (set ESP (p - 4) c) = p - 4) by (by destruct c as [[] [] ? ? ?]). split; intros k' Hk'.
  - exists (set ESP (p - 4) c). unfold call_c. eapply bind_then; [exact He|]. eapply bind_then; [reflexivity|].
    cbn [fst]. rewrite Hsp. apply spin_bind. unfold kernel. by rewrite Hk'.
  - destruct (clobber (set_mem (scratch (p - 4)) k')) as [[[a cx] d] fl] eqn:Hcl.
    eexists. unfold call_c. eapply bind_then; [exact He|]. eapply bind_then; [reflexivity|].
    cbn [fst]. rewrite Hsp. eapply bind_then; [unfold kernel; rewrite Hk'; reflexivity|].
    eapply bind_then; [reflexivity|]. eapply bind_then; [reflexivity|]. cbn [snd].
    rewrite Hcl. eapply bind_then; [reflexivity|]. eapply bind_then; reflexivity.
Qed.

Lemma isr_stub_code v err : (match err with Some _ => v ∈ error_vectors | None => v ∉ error_vectors end) ->
  isr_stub v = stub_code (has_error err) v (match err with None => [AddI 8 ESP; Iret] | Some _ => [AddI 4 ESP; Iret] end).
Proof.
  unfold isr_stub. destruct err; intros H; [by rewrite bool_decide_eq_true_2|by rewrite bool_decide_eq_false_2].
Qed.

Section running.
Context {HW : Hardware} {LY : Layout}.
Context (clobber : kst -> Z * Z * Z * Z) (scratch : Z -> ram -> ram) (return_address depth : Z).
Context (arith : Z -> Z -> Z) (code_at : Z -> option (list instr)).
Context (Hscratch : forall sp m a, ~ (ka sp - depth <= a < ka sp) -> rd8 (scratch sp m) a = rd8 m a).
Context (Hret : fits 32 return_address) (Hdepth : 0 <= depth).
Context (Hisr : forall v, 0 <= sym_isr v < 4294967296).
Context (Hcode : forall v, v ∈ isr_vectors -> code_at (sym_isr v) = Some (isr_stub v)).

Notation deliver := (deliver kernel_callee clobber scratch return_address arith code_at).

(** The interrupts of the timer, the keyboard and the serial line. *)
Definition device_vectors : list Z := [32; 33; 36].

(** The kernel's code segment, gates and stack. *)
Record can_interrupt (c : cpu) (k : kst) : Prop := {
  int_running : running k;
  int_cpu : cpu_ok c;
  int_ring : rpl (get_sreg CS c) = 0;
  int_stack : stack_ok depth (get ESP c);
  int_gates v : v ∈ isr_vectors -> idt_gate (g_idt k) v = Some (interrupt_gate (sym_isr v))
}.

(** irq_handler reads the frame that the stub made. *)
Lemma kernel_callee_irq T m0 lo top p m c n e ip sel fl ws k :
  stk T m0 lo top (p - 60) m (return_address :: saved c p (n :: e :: ip :: sel :: fl :: ws)) ->
  exists u s, kernel_callee IrqHandler (p - 60) (set_mem (fun _ => m) k)
    = interrupt (frame_regs c p n e ip sel fl u s) (set_mem (fun _ => m) k).
Proof.
  intros Hs. destruct (regs_at_saved _ _ _ _ _ _ _ _ _ _ _ _ _ _ Hs) as (Hp & u & s & Hr). exists u, s. unfold kernel_callee.
  eapply bind_then; [reflexivity|]. cbn [mem set_mem]. rewrite Hp.
  eapply bind_then; [reflexivity|]. cbn [mem set_mem]. by rewrite Hr.
Qed.

Lemma devices_only_disturbed S m m2 k k2 : devices_only (set_mem (fun _ => m) k) k2 ->
  (forall a, ~ in_text a -> ~ S a -> rd8 m2 a = rd8 (mem k) a) -> disturbed S k (set_mem (fun _ => m2) k2).
Proof. intros (m' & t & s & tk & d & -> & _) H. by exists m2, t, s, tk, d. Qed.

Lemma disturbed_interrupt S c k k' : can_interrupt c k -> disturbed S k k' -> 0 <= ticks k' < 4294967296 ->
  can_interrupt c k'.
Proof.
  intros [[Hh _] Hc Hr Hs Hg] (m' & t & s & tk & d & -> & _) Ht.
  split; [split; [exact Hh|exact Ht]|exact Hc|exact Hr|exact Hs|exact Hg].
Qed.

(** Functions that change the devices' part alone keep the stack. *)
Lemma devices_only_keeps k k' sp : stack_ok depth sp -> devices_only k k' ->
  keeps in_text (sp - 80 - depth) sp (sp - 80) k k'.
Proof.
  intros [Hl Hf Ha] (m' & t & s & tk & d & -> & Hm). unfold below in Ha.
  replace (80 + depth) with (sp - (sp - 80 - depth)) in Hl by lia. split; intros a Hin.
  - apply Hm, Ha. rewrite (ka_stack (sp - 80 - depth) sp) in Hin by (done || lia). lia.
  - intros HT. by apply Hm.
Qed.

(** One device interrupt. *)
Lemma deliver_device v c k : can_interrupt c k -> v ∈ device_vectors ->
  exists k', deliver v None (c, k) = Ret tt (c, k') /\ can_interrupt c k' /\
    disturbed (below depth (get ESP c)) k k' /\ ticks k' = w32 (ticks k + b2z (v =? 32)).
Proof.
  intros [Hk Hc Hcs Hst Hg] Hv. set (sp := get ESP c) in *.
  assert (Hvv : v ∈ isr_vectors /\ isr_stub v = ISR_NO_ERROR v /\ 32 <= v < 48)
    by (unfold device_vectors in Hv; rewrite !elem_of_cons in Hv; destruct Hv as [->|[->|[->|Hv]]];
      [split; [by vm_compute; set_solver|split; [reflexivity|lia]]..|by apply not_elem_of_nil in Hv]).
  destruct Hvv as (Hvi & Hstub & Hvr).
  assert (Hrun : wp (deliver v None) (fun _ m => exists k', m = (c, k') /\ can_interrupt c k' /\
    disturbed (below depth sp) k k' /\ ticks k' = w32 (ticks k + b2z (v =? 32))) (c, k)).
  { apply (wp_no_error_stub _ _ _ _ _ _ in_text (mem k) (sp - 80 - depth) sp depth Hscratch Hret Hdepth v v (sym_isr v));
      [done|done|unfold fits; lia|apply Hisr|by apply Hg|rewrite Hcode, Hstub by done; done|done|by apply stack_start|lia|].
    intros m' Hs'. destruct (kernel_callee_irq in_text (mem k) (sp - 80 - depth) sp (sp - 20) m' c v 0 (c_eip c) (get_sreg CS c) (c_eflags c) [] k)
      as (u & s & He); [by replace (sp - 20 - 60) with (sp - 80) by lia|]. replace (sp - 20 - 60) with (sp - 80) in He by lia.
    destruct (interrupt_running (frame_regs c (sp - 20) v 0 (c_eip c) (get_sreg CS c) (c_eflags c) u s) (set_mem (fun _ => m') k)) as (k2 & Hi & Hk2 & Hd & Ht); [exact Hk|exact Hvr|].
    exists k2. rewrite He. split; [exact Hi|].
    split; [by apply devices_only_keeps|]. intros m2 Hs2 _. eexists. split; [reflexivity|].
    assert (Hdist : disturbed (below depth sp) k (set_mem (fun _ => m2) k2)).
    { apply (devices_only_disturbed _ m'); [exact Hd|]. intros a Ha HS. apply (stk_rest _ _ _ _ _ _ _ Hs2); [|done].
      unfold below in HS. lia. }
    split; [|by split]. apply (disturbed_interrupt (below depth sp) c k); [by split|exact Hdist|].
    replace (ticks (set_mem (fun _ => m2) k2)) with (ticks k2) by done. apply Hk2. }
  destruct (wp_elim _ _ _ Hrun) as ([] & m & He & k' & -> & H). by exists k'.
Qed.

(** The stub of an exception, on the words that it and the processor push. *)
Lemma deliver_exception v err e ip sel fl rest c k : can_interrupt c k -> v ∈ isr_vectors -> v < 32 ->
  match err with Some x => 0 <= x < 65536 | None => True end ->
  stub_words (bool_decide (v ∈ error_vectors)) v err c = v :: e :: ip :: sel :: fl :: rest -> 0 <= e < 65536 ->
  4 * Z.of_nat (length rest) <= depth ->
  let p := get ESP c - 4 * Z.of_nat (length (v :: e :: ip :: sel :: fl :: rest)) in
  exists m u s, (forall a, ~ in_text a -> ~ below depth (get ESP c) a -> rd8 m a = rd8 (mem k) a) /\
    let k0 := set_mem (fun _ => m) k in let r := frame_regs c p v e ip sel fl u s in
    stops (interrupt r) (quiet k0) k0 /\
    forall k', interrupt r k0 = Spin k' -> exists c', deliver v err (c, k) = Spin (c', k').
Proof.
  intros [Hk Hc Hcs Hst Hg] Hv Hlt Herr Hws He Hroom p. set (sp := get ESP c) in *.
  assert (Hv0 : 0 <= v) by (by apply (isr_vectors_range v)).
  assert (Hp : sp - 20 - depth <= p) by (unfold p; cbn [length]; lia).
  set (back := if bool_decide (v ∈ error_vectors) then [AddI 4 ESP; Iret] else [AddI 8 ESP; Iret]).
  apply (after_stub kernel_callee clobber scratch return_address arith code_at in_text (mem k) (sp - 80 - depth) sp
    depth Hscratch Hret Hdepth v err (bool_decide (v ∈ error_vectors)) v (sym_isr v) back
    (fun o => exists m u s, (forall a, ~ in_text a -> ~ below depth sp a -> rd8 m a = rd8 (mem k) a) /\
      stops (interrupt (frame_regs c p v e ip sel fl u s)) (quiet (set_mem (fun _ => m) k)) (set_mem (fun _ => m) k) /\
      forall k', interrupt (frame_regs c p v e ip sel fl u s) (set_mem (fun _ => m) k) = Spin k' ->
        exists c', o = Spin (c', k')));
    [done|unfold fits; lia|apply Hisr| |by apply Hg| |done|by apply stack_start|rewrite Hws; fold p; lia|].
  { destruct err; [unfold fits; lia|done]. }
  { rewrite Hcode by done. f_equal. unfold isr_stub, back. by destruct (bool_decide _). }
  rewrite Hws. fold p. intros m1 Hs1.
  destruct (call_enters clobber scratch return_address _ _ _ _ IrqHandler _ _ (set ESP (p - 56) (in_stub c (sym_isr v) p))
    (set_mem (fun _ => m1) k) Hret Hs1) as (m' & Hs' & Henter & _); [by destruct c as [[] [] ? ? ?]|lia|].
  replace (p - 56 - 4) with (p - 60) in * by lia. fold sp in Hs'.
  destruct (kernel_callee_irq _ _ _ _ _ _ _ _ _ _ _ _ _ k Hs') as (u & s & Hcall). exists m', u, s. split; [|split].
  - intros a Ha HS. apply (stk_rest _ _ _ _ _ _ _ Hs'); [|done]. unfold below in HS. lia.
  - apply exception_stops; [apply Hk|cbn; lia|]. cbn. rewrite s32_small; unfold INT_MIN; lia.
  - intros k' Hspin. change (set_mem (fun _ => m') (set_mem (fun _ => m1) k)) with (set_mem (fun _ => m') k) in Henter.
    destruct (Henter k') as (c' & Hc'); [by rewrite Hcall|]. exists c'. apply spin_bind. exact Hc'.
Qed.

End running.

(** The words of an exception's frame, whether its stub expects the processor's
    error code or not. *)
Lemma exception_words v err c : (match err with Some e => 0 <= e < 65536 | None => v ∉ error_vectors end) ->
  exists e ip sel fl rest, stub_words (bool_decide (v ∈ error_vectors)) v err c = v :: e :: ip :: sel :: fl :: rest /\
    0 <= e < 65536 /\ (length rest <= 1)%nat /\
    match err with
    | Some x => if bool_decide (v ∈ error_vectors) then e = x /\ ip = c_eip c /\ sel = get_sreg CS c /\ fl = c_eflags c
      else e = 0 /\ ip = x /\ sel = c_eip c
    | None => e = 0 /\ ip = c_eip c /\ sel = get_sreg CS c /\ fl = c_eflags c
    end.
Proof.
  unfold stub_words, processor_frame. intros Herr. destruct err as [x|].
  - destruct (bool_decide _); cbn [app]; eexists _, _, _, _, _; (split; [reflexivity|]); cbn [length]; by split_and!; try lia.
  - rewrite bool_decide_eq_false_2 by done. cbn [app]. eexists _, _, _, _, _. (split; [reflexivity|]). cbn [length]. by split_and!; try lia.
Qed.

Lemma small_parts x : fits 16 x -> x mod 65536 = x /\ x / 65536 = 0.
Proof. unfold fits. change (2 ^ 16) with 65536. intros H. split; [by apply Z.mod_small|by apply Z.div_small]. Qed.

(** * The properties *)

Section taken.
Context {HW : Hardware} {LY : Layout}.
Context (clobber : kst -> Z * Z * Z * Z) (scratch : Z -> ram -> ram) (return_address : Z).
Context (arith : Z -> Z -> Z) (code_at : Z -> option (list instr)).

Notation deliver := (deliver kernel_callee clobber scratch return_address arith code_at).

(** One device interrupt after another. *)
Definition deliver_all (vs : list Z) : prog machine unit := foldr (fun v rest => deliver v None;; rest) skip vs.
End taken.

Definition count_timer (vs : list Z) : Z := foldr (fun v n => b2z (v =? 32) + n) 0 vs.

(** What the theorems rely on of the processor and the compiler: functions keep
    what is above their return address, use at most [depth] bytes below it, and
    the stubs are where the layout says. *)
Record linkage {LY : Layout} (scratch : Z -> ram -> ram) (return_address depth : Z)
    (code_at : Z -> option (list instr)) : Prop := {
  link_scratch sp m a : ~ (ka sp - depth <= a < ka sp) -> rd8 (scratch sp m) a = rd8 m a;
  link_return : fits 32 return_address;
  link_depth : 0 <= depth;
  link_isr v : 0 <= sym_isr v < 4294967296;
  link_code v : v ∈ isr_vectors -> code_at (sym_isr v) = Some (isr_stub v)
}.

(** C11: through the stubs, any sequence of timer, keyboard and serial interrupts is
    transparent to the code it interrupts: each of them is served, running
    irq_handler on the registers that it pushed, and the processor comes back to
    the same instruction with every register, segment and flag as before; RAM is
    unchanged but for the text of the screen and the free part of the stack, the
    timer's interrupts are counted, and further interrupts can be taken. *)
Theorem interrupts_transparent {HW : Hardware} {LY : Layout} clobber scratch return_address depth arith code_at vs c k :
  linkage scratch return_address depth code_at -> can_interrupt depth c k -> Forall (fun v => v ∈ device_vectors) vs ->
  exists k', deliver_all clobber scratch return_address arith code_at vs (c, k) = Ret tt (c, k') /\
    can_interrupt depth c k' /\ disturbed (below depth (get ESP c)) k k' /\ ticks k' = w32 (ticks k + count_timer vs).
Proof.
  intros [Hs Hr Hd Hi Hc] Hk Hvs. revert k Hk. induction Hvs as [|v vs Hv Hvs IH]; intros k Hk.
  - exists k. split; [done|]. split; [done|]. split; [done|]. cbn. rewrite Z.add_0_r, w32_small; [done|apply Hk].
  - destruct (deliver_device clobber scratch return_address depth arith code_at Hs Hr Hd Hi Hc v c k Hk Hv)
      as (k1 & He1 & Hk1 & Hd1 & Ht1).
    destruct (IH k1 Hk1) as (k2 & He2 & Hk2 & Hd2 & Ht2). exists k2.
    change (deliver_all clobber scratch return_address arith code_at (v :: vs)) with
      (deliver kernel_callee clobber scratch return_address arith code_at v None;;
       deliver_all clobber scratch return_address arith code_at vs).
    split; [by rewrite (bind_ret_eq _ _ _ _ _ He1)|]. split; [done|]. split; [by etrans|].
    rewrite Ht2, Ht1, w32_add_l. f_equal.
    change (count_timer (v :: vs)) with (b2z (v =? 32) + count_timer vs). lia.
Qed.

(** The booted kernel takes interrupts on any stack apart from the screen. *)
Lemma booted_can_interrupt {LY : Layout} m map len k N depth c : booted m map len k N ->
  cpu_ok c -> rpl (get_sreg CS c) = 0 -> stack_ok depth (get ESP c) -> can_interrupt depth c k.
Proof.
  intros Hb Hc Hr Hs. split; [apply Hb|done|done|done|]. intros v Hv.
  pose proof (booted_gates _ _ _ _ _ Hb v (isr_vectors_range v Hv)) as Hg. by rewrite bool_decide_eq_true_2 in Hg.
Qed.

(** C21: an exception (any vector below 32 with a gate) stops the running kernel
    through its stub: irq_handler runs on a structure that holds the registers and
    the segments of the interrupted code, and its vector. When the stub expects an
    error code just when the processor pushes one, the structure also holds the
    error code (0 when there is none), the instruction pointer and the code
    segment; but what it calls eflags is the low half of the flags shifted left by
    sixteen bits. When the processor pushes one that the stub does not expect (as
    it does for the vectors 17 and 30), the structure shows none, has the error
    code as instruction pointer and the low half of the instruction pointer as
    code segment. *)
Theorem exceptions_report_frame {HW : Hardware} {LY : Layout} clobber scratch return_address depth arith code_at v err c k :
  linkage scratch return_address depth code_at -> can_interrupt depth c k -> 4 <= depth ->
  v ∈ isr_vectors -> v < 32 ->
  (match err with Some e => 0 <= e < 65536 | None => v ∉ error_vectors end) ->
  exists r k0 k' c',
    deliver kernel_callee clobber scratch return_address arith code_at v err (c, k) = Spin (c', k') /\
    interrupt r k0 = Spin k' /\ quiet k0 k' /\
    (forall a, ~ in_text a -> ~ below depth (get ESP c) a -> rd8 (mem k0) a = rd8 (mem k) a) /\
    [r_eax r; r_ecx r; r_edx r; r_ebx r; r_ebp r; r_esi r; r_edi r] = (fun x => get x c) <$> [EAX; ECX; EDX; EBX; EBP; ESI; EDI] /\
    [r_ss r; r_ds r; r_es r; r_fs r; r_gs r] = (fun x => get_sreg x c) <$> [SS; DS; ES; FS; GS] /\
    r_int_no r = v /\
    match err with
    | Some e =>
        if bool_decide (v ∈ error_vectors)
        then r_err_code r = e /\ r_eip r = c_eip c /\ r_cs r = get_sreg CS c /\ r_eflags r = 65536 * (c_eflags c mod 65536)
        else r_err_code r = 0 /\ r_eip r = e /\ r_cs r = c_eip c mod 65536
    | None => r_err_code r = 0 /\ r_eip r = c_eip c /\ r_cs r = get_sreg CS c /\ r_eflags r = 65536 * (c_eflags c mod 65536)
    end.
Proof.
  intros [Hs Hr Hd Hi Hc] Hk Hdepth Hv Hlt Herr.
  destruct (exception_words v err c Herr) as (e & ip & sel & fl & rest & Hws & He & Hlen & Hwords).
  destruct (deliver_exception clobber scratch return_address depth arith code_at Hs Hr Hd Hi Hc v err e ip sel fl rest c k Hk Hv Hlt)
    as (m & u & s & Hm & Hst & Hdel); [by destruct err|exact Hws|exact He|lia|].
  destruct (stops_elim _ _ _ Hst) as (k' & Hsp & Hq). destruct (Hdel k' Hsp) as (c' & Hrun).
  eexists _, (set_mem (fun _ => m) k), k', c'.
  split; [exact Hrun|]. split; [exact Hsp|]. split; [exact Hq|]. split; [exact Hm|].
  destruct (small_parts (get_sreg CS c)) as [G1 G2]; [apply (ok_segs _ (int_cpu _ _ _ Hk) CS)|].
  clear - Hwords G1 G2. unfold frame_regs. destruct c as [[] [] ? ? ?].
  destruct err; [destruct (bool_decide _)|];
    [destruct Hwords as (-> & -> & -> & ->)|destruct Hwords as (-> & -> & ->)|destruct Hwords as (-> & -> & -> & ->)];
    cbn in *; rewrite ?G1, ?G2; by split_and!.
Qed.

(** C22: a stub written with ISR_WITH_ERROR does not go back to the interrupted
    code, at whatever instruction of ring 0 that was, whatever error code the
    processor pushed, and for any irq_handler that returns, in whatever state, and
    keeps the eighty bytes of its caller's stack (the kernel's own irq_handler stops
    in these exceptions). The stub drops the vector but not the error code, so that
    iret takes the error code for the instruction pointer, the interrupted
    instruction's address for the code segment and the code segment for the
    flags; when the low two bits of that address are 0 the stack pointer is left
    one word too low, and otherwise iret takes it for a return to an outer ring
    and the saved flags for the stack pointer. (The processor's checks of the
    selectors, which could only fault here, are not modelled.) *)
Theorem error_stub_returns_to_code {LY : Layout} callee clobber scratch return_address depth arith code_at v e c k :
  linkage scratch return_address depth code_at ->
  (forall sp k1, exists k2, callee IrqHandler sp k1 = Ret tt k2 /\
    forall a, ka sp <= a < ka sp + 80 -> rd8 (mem k2) a = rd8 (mem k1) a) ->
  v ∈ isr_vectors -> v ∈ error_vectors -> fits 32 e ->
  cpu_ok c -> rpl (get_sreg CS c) = 0 -> stack_ok depth (get ESP c) ->
  idt_gate (g_idt k) v = Some (interrupt_gate (sym_isr v)) ->
  ⟨ (c, k) ⟩ deliver callee clobber scratch return_address arith code_at v (Some e) ⟨ _, m |
    c_eip m.1 = e /\ get_sreg CS m.1 = w16 (c_eip c) /\ c_eflags m.1 = get_sreg CS c /\
    get ESP m.1 = (if rpl (c_eip c) =? 0 then get ESP c - 4 else c_eflags c) ⟩.
Proof.
  intros [Hs Hr Hd Hi Hc] Hret Hv Hve He Hok _ Hst Hg. set (sp := get ESP c) in *.
  apply (wp_error_stub _ _ _ _ _ _ (fun _ => True) (mem k) (sp - 80 - depth) sp depth Hs Hr Hd v v e (sym_isr v));
    [done|unfold fits; pose proof (isr_vectors_range v Hv); lia|done|apply Hi|done
    |rewrite Hc by done; f_equal; unfold isr_stub; by rewrite bool_decide_eq_true_2|done| |lia|].
  { destruct Hst as [Hl Hf _]. apply stk_start; [|lia|done]. by replace (sp - (sp - 80 - depth)) with (80 + depth) by lia. }
  intros m' Hm'. destruct (Hret (sp - 80) (set_mem (fun _ => m') k)) as (k2 & He2 & Hkeep). exists k2. split; [exact He2|]. split.
  - split; [|done]. intros a Ha. apply Hkeep. rewrite (ka_stack (sp - 80 - depth) sp (sp - 80)) in * by
      (try (destruct Hst as [Hl _ _]; replace (sp - (sp - 80 - depth)) with (80 + depth) by lia; exact Hl); lia). lia.
  - intros m2 c2 H1 H2 H3 H4. by split_and!.
Qed.

(** ** A concrete machine *)

Definition example_code (a : Z) : option (list instr) := Some (isr_stub ((a - 0xC0100000) / 16)).

Definition example_cpu : cpu :=
  Cpu (Gprs 1 2 3 4 0xC0115000 0xC0115040 7 8) (Segs 0x08 0x10 0x10 0x10 0x10 0x10) (Ctls 0x80000011 0x105000 0x10 0 0 0x2B)
    0xC0100404 0x202.

Definition example_idt : list idt_entry :=
  with_isrs (@sym_isr example_layout) 0x8E isr_vectors (replicate 256 (IdtEntry 0 0 0 0 0)).

Definition example_kernel : kst := set_idt (fun _ => example_idt) example_running.

Lemma example_linkage : @linkage example_layout (fun _ m => m) 0xC0100800 64 example_code.
Proof.
  split; [done|vm_compute; split; congruence|done| |].
  - intros v. cbn. pose proof (Z.mod_pos_bound v 256). lia.
  - intros v Hv. pose proof (isr_vectors_range v Hv). unfold example_code. cbn [sym_isr example_layout].
    rewrite Z.mod_small by done. do 2 f_equal. Z.div_mod_to_equations. lia.
Qed.

Lemma example_gates v : v ∈ isr_vectors ->
  idt_gate example_idt v = Some (interrupt_gate (@sym_isr example_layout v)).
Proof.
  intros Hv. unfold idt_gate, example_idt. rewrite with_isrs_lookup; [|constructor|done].
  - rewrite bool_decide_eq_true_2 by done. apply isr_entry_gate. cbn. pose proof (Z.mod_pos_bound v 256). lia.
  - by apply isr_vectors_range.
  - apply Forall_forall. apply isr_vectors_range.
Qed.

Lemma example_cpu_ok : cpu_ok example_cpu.
Proof.
  split; [intros []|intros []| |]; vm_compute; split; congruence.
Qed.

Lemma example_stack : stack_ok 64 (get ESP example_cpu).
Proof.
  split.
  - vm_compute. intuition congruence.
  - reflexivity.
  - intros a Ha HT. unfold below, in_text, TEXT_BASE, TEXT_CELLS in *.
    change (ka (get ESP example_cpu - 80 - 64)) with 0x114F70 in Ha. lia.
Qed.

Lemma example_can_interrupt : @can_interrupt example_layout 64 example_cpu example_kernel.
Proof.
  split; [split; [reflexivity|cbn; lia]|exact example_cpu_ok|reflexivity|exact example_stack|exact example_gates].
Qed.

Definition example_deliver {HW : Hardware} : list Z -> prog machine unit :=
  @deliver_all HW example_layout (fun _ => (9, 9, 9, 9)) (fun _ m => m) 0xC0100800 (fun _ f => f) example_code.

Lemma interrupts_transparent_witness :
  let HW := fixed_hw (fun _ => 0x1E) in
  exists k', example_deliver [32; 33; 36; 32] (example_cpu, example_kernel) = Ret tt (example_cpu, k') /\ ticks k' = 2.
Proof.
  intros HW. assert (Ht0 : ticks example_kernel = 0) by reflexivity.
  pose proof example_can_interrupt as Hcan. revert Ht0 Hcan. generalize example_kernel. intros k Ht0 Hcan.
  destruct (@interrupts_transparent HW example_layout (fun _ => (9, 9, 9, 9)) (fun _ m => m) 0xC0100800 64
    (fun _ f => f) example_code [32; 33; 36; 32] example_cpu k example_linkage Hcan) as (k' & He & _ & _ & Ht).
  - refine (bool_decide_unpack _ _). vm_compute. exact I.
  - exists k'. split; [exact He|]. by rewrite Ht, Ht0.
Defined.

Lemma exceptions_report_frame_witness :
  let HW := fixed_hw (fun _ => 0) in let LY := example_layout in
  (exists r k0 k', interrupt r k0 = Spin k' /\ r_int_no r = 13 /\ r_err_code r = 0x28 /\ r_eip r = 0xC0100404 /\
    r_eflags r = 0x2020000) /\
  (exists r k0 k', interrupt r k0 = Spin k' /\ r_int_no r = 17 /\ r_err_code r = 0 /\ r_eip r = 0x28 /\ r_cs r = 0x404).
Proof.
  intros HW LY.
  split.
  - destruct (@exceptions_report_frame HW LY (fun _ => (9, 9, 9, 9)) (fun _ m => m) 0xC0100800 64 (fun _ f => f)
      example_code 13 (Some 0x28) example_cpu example_kernel example_linkage example_can_interrupt)
      as (r & k0 & k' & c' & _ & H1 & _ & _ & _ & _ & H2 & H3); [lia|by vm_compute; set_solver|lia|lia|].
    replace (bool_decide (13 ∈ error_vectors)) with true in H3 by reflexivity. destruct H3 as (H3 & H4 & _ & H5).
    exists r, k0, k'. split; [exact H1|]. split; [exact H2|]. split; [exact H3|]. split; [exact H4|exact H5].
  - destruct (@exceptions_report_frame HW LY (fun _ => (9, 9, 9, 9)) (fun _ m => m) 0xC0100800 64 (fun _ f => f)
      example_code 17 (Some 0x28) example_cpu example_kernel example_linkage example_can_interrupt)
      as (r & k0 & k' & c' & _ & H1 & _ & _ & _ & _ & H2 & H3); [lia|by vm_compute; set_solver|lia|lia|].
    replace (bool_decide (17 ∈ error_vectors)) with false in H3 by reflexivity. destruct H3 as (H3 & H4 & H5).
    exists r, k0, k'. split; [exact H1|]. split; [exact H2|]. split; [exact H3|]. split; [exact H4|exact H5].
Defined.

Lemma error_stub_returns_to_code_witness :
  let LY := example_layout in
  ⟨ (example_cpu, example_kernel) ⟩
    deliver (fun _ _ => modify (set_ticks 7)) (fun _ => (9, 9, 9, 9)) (fun _ m => m) 0xC0100800 (fun _ f => f) example_code 14 (Some 2)
    ⟨ _, m | c_eip m.1 = 2 /\ get_sreg CS m.1 = 0x404 /\ get ESP m.1 = 0xC0114FFC ⟩ /\
  ⟨ (with_eip 0xC0100403 example_cpu, example_kernel) ⟩
    deliver (fun _ _ => modify (set_ticks 7)) (fun _ => (9, 9, 9, 9)) (fun _ m => m) 0xC0100800 (fun _ f => f) example_code 14 (Some 2)
    ⟨ _, m | c_eip m.1 = 2 /\ get_sreg CS m.1 = 0x403 /\ get ESP m.1 = 0x202 ⟩.
Proof.
  intros LY. split; eapply wp_mono.
  - apply (@error_stub_returns_to_code LY (fun _ _ => modify (set_ticks 7)) (fun _ => (9, 9, 9, 9)) (fun _ m => m) 0xC0100800 64 (fun _ f => f)
      example_code 14 2 example_cpu example_kernel example_linkage);
      [intros sp k1; by eexists|by vm_compute; set_solver|by vm_compute; set_solver|vm_compute; split; congruence|exact example_cpu_ok|reflexivity
      |exact example_stack|apply example_gates; by vm_compute; set_solver].
  - cbv beta. intros _ m (H1 & H2 & _ & H3). split; [exact H1|]. split; [exact H2|exact H3].
  - apply (@error_stub_returns_to_code LY (fun _ _ => modify (set_ticks 7)) (fun _ => (9, 9, 9, 9)) (fun _ m => m) 0xC0100800 64 (fun _ f => f)
      example_code 14 2 (with_eip 0xC0100403 example_cpu) example_kernel example_linkage);
      [intros sp k1; by eexists|by vm_compute; set_solver|by vm_compute; set_solver|vm_compute; split; congruence|
      |reflexivity|exact example_stack|apply example_gates; by vm_compute; set_solver].
    split; [intros []|intros []| |]; vm_compute; split; congruence.
  - cbv beta. intros _ m (H1 & H2 & _ & H3). split; [exact H1|]. split; [exact H2|exact H3].
Defined.
