(* ===== verification/Fields.v ===== *)
(** The packed structures of the headers (inc/interrupts.h, inc/segmentation.h,
    inc/pages.h, inc/frame.h, inc/main.h): their members as declared, the bytes
    they occupy, and the accessors of the other files against them. *)
From S2P Require Import Prelude Memory State Interrupts Segmentation Pages Mmu Frames Cpu Stubs.
Local Open Scope Z_scope.
Local Set Default Proof Using "Type*".

(** * Layouts

    The members of a packed structure, in the order of their declaration, with
    their widths in bits. On the i386 the first member is in the lowest bits and
    each one starts where the one before it ends, whether a member is a bit-field
    or a whole object; the bytes of the structure are those of the number so
    built, the lowest first. *)

Definition layout : Type := list (string * Z).

Fixpoint width (l : layout) : Z :=
  match l with [] => 0 | (_, n) :: l' => n + width l' end.

Definition sizeof (l : layout) : nat := Z.to_nat (width l / 8).

(** The first bit and the width of a member. *)
Fixpoint place (l : layout) (f : string) : option (Z * Z) :=
  match l with
  | [] => None
  | (g, n) :: l' =>
      if String.eqb f g then Some (0, n)
      else match place l' f with Some (o, w) => Some (n + o, w) | None => None end
  end.

(** offsetof, for a member that starts at a byte. *)
Definition offset (l : layout) (f : string) : Z :=
  match place l f with Some (o, _) => o / 8 | None => 0 end.

(** The value of a structure and the values of its members. *)
Fixpoint pack (l : layout) (vs : list Z) : Z :=
  match l, vs with
  | (_, n) :: l', v :: vs' => v mod 2 ^ n + 2 ^ n * pack l' vs'
  | _, _ => 0
  end.

Fixpoint unpack (l : layout) (x : Z) : list Z :=
  match l with
  | [] => []
  | (_, n) :: l' => x mod 2 ^ n :: unpack l' (x / 2 ^ n)
  end.

(** [s.f] and [s.f = x]. *)
Definition member (l : layout) (f : string) (x : Z) : Z :=
  match place l f with Some (o, n) => getf o n x | None => 0 end.

Definition set_member (l : layout) (f : string) (v x : Z) : Z :=
  match place l f with Some (o, n) => setf o n v x | None => x end.

(** Little-endian bytes. *)
Fixpoint to_bytes (n : nat) (x : Z) : list Z :=
  match n with O => [] | S n' => x mod 256 :: to_bytes n' (x / 256) end.

Fixpoint of_bytes (bs : list Z) : Z :=
  match bs with [] => 0 | b :: bs' => b + 256 * of_bytes bs' end.

(** The bytes of a structure whose members are [vs]. *)
Definition image (l : layout) (vs : list Z) : list Z := to_bytes (sizeof l) (pack l vs).

(** A structure in RAM. *)
Fixpoint ram_bytes (m : ram) (a : Z) (n : nat) : list Z :=
  match n with O => [] | S n' => rd8 m a :: ram_bytes m (a + 1) n' end.

Definition struct_at (l : layout) (m : ram) (a : Z) : list Z := unpack l (of_bytes (ram_bytes m a (sizeof l))).

Definition u8 (f : string) : string * Z := (f, 8).
Definition u16 (f : string) : string * Z := (f, 16).
Definition u32 (f : string) : string * Z := (f, 32).
Definition u32s (fs : list string) : layout := map u32 fs.

(** * inc/interrupts.h *)

Definition idt_flags_fields : layout := [("gate", 5); ("dpl", 2); ("p", 1)].

Definition idt_entry_struct : layout :=
  [("offset_low", 16); ("sgm_selector", 16); ("zero", 8); u8 "flags"; ("offset_high", 16)].

Definition idt_register : layout := [u16 "limit"; u32 "base"].

Definition registers_t : layout :=
  (u32s ["edi"; "esi"; "ebp"; "esp"; "ebx"; "edx"; "ecx"; "eax"; "ss"; "gs"; "fs"; "es"; "ds";
            "int_no"; "err_code"; "eip"]) ++ [u16 "cs"; u32 "eflags"; u32 "useresp"; u32 "_ss"].

(** * inc/segmentation.h *)

Definition gdt_access_fields : layout :=
  [("accessed", 1); ("read_write", 1); ("direction_conforming", 1); ("executable", 1); ("s", 1);
   ("dpl", 2); ("p", 1)].

Definition gdt_entry_struct : layout :=
  [("limit_low", 16); u16 "base_low"; u8 "base_mid"; u8 "access"; ("limit_high", 4); ("avl", 1);
   ("l", 1); ("d_b", 1); ("g", 1); ("base_high", 8)].

Definition tss_entry_struct : layout :=
  (u32s ["prev_tss"; "esp0"; "ss0"; "esp1"; "ss1"; "esp2"; "ss2"; "cr3"; "eip"; "eflags"; "eax";
            "ecx"; "edx"; "ebx"; "esp"; "ebp"; "esi"; "edi"; "es"; "cs"; "ss"; "ds"; "fs"; "gs"; "ldt"])
  ++ [u16 "trap"; u16 "iomap_base"].

Definition gdt_register : layout := [u16 "limit"; u32 "base"].

(** * inc/pages.h *)

(** The error code of a page fault. *)
Definition page_fault_handler_t : layout :=
  [("p", 1); ("w_r", 1); ("u_s", 1); ("rsvd", 1); ("i_d", 1); ("ignored", 27)].

Definition pde_fields_4mb_page : layout :=
  [("flags", 9); ("ignored", 3); ("pat", 1); ("ignored_", 9); ("addr", 10)].

Definition pde_fields_page_table : layout := [("flags", 8); ("ignored", 4); ("ptaddr", 20)].

Definition pte_fields : layout := [("flags", 9); ("ignored", 3); ("addr", 20)].

(** * inc/frame.h and inc/main.h: structures of 32-bit members *)

Definition frame_struct : layout := u32s ["ref_count"; "addr"; "vaddr"].

Definition memory_map_t : layout :=
  u32s ["size"; "base_addr_low"; "base_addr_high"; "length_low"; "length_high"; "type"].

Definition multiboot_info_t : layout :=
  u32s ["flags"; "mem_lower"; "mem_upper"; "boot_device"; "cmdline"; "mods_count"; "mods_addr"; "num";
           "size"; "addr"; "shndx"; "mmap_length"; "mmap_addr"; "drives_length"; "drives_addr";
           "config_table"; "boot_loader_name"; "apm_table"; "vbe_control_info"; "vbe_mode_info"; "vbe_mode";
           "vbe_interface_seg"; "vbe_interface_off"; "vbe_interface_len"].

(** What main keeps of its arguments. *)
Definition t_kfs_context : layout := u32s ["magic_number"; "multiboot_info"].

Definition packed_structs : list layout :=
  [idt_flags_fields; idt_entry_struct; idt_register; registers_t; gdt_access_fields; gdt_entry_struct;
   tss_entry_struct; gdt_register; page_fault_handler_t; pde_fields_4mb_page; pde_fields_page_table;
   pte_fields; frame_struct; memory_map_t; multiboot_info_t; t_kfs_context].

(** * Proofs *)

(** A layout that can be declared: no member is of negative width, and the
    members fill whole bytes. *)
Definition layout_ok (l : layout) : Prop := Forall (fun f => 0 <= f.2) l /\ width l = 8 * Z.of_nat (sizeof l).

(** Decides it for a given layout. *)
Ltac layout_decide := split; [repeat constructor; cbn; lia|reflexivity].

Lemma packed_structs_ok l : l ∈ packed_structs -> layout_ok l.
Proof.
  assert (H : Forall layout_ok packed_structs).
  { unfold packed_structs, layout_ok. repeat constructor; cbn; done || lia. }
  rewrite Forall_forall in H. apply H.
Qed.

Lemma sizeof_cons f k l : layout_ok l -> sizeof ((f, 8 * Z.of_nat k) :: l) = (k + sizeof l)%nat.
Proof.
  intros [_ Hw]. unfold sizeof at 1. cbn [width]. rewrite Hw.
  rewrite <- Z.mul_add_distr_l, Z.mul_comm, Z.div_mul by lia. lia.
Qed.

Lemma layout_ok_cons f k l : layout_ok l -> layout_ok ((f, 8 * Z.of_nat k) :: l).
Proof.
  intros Hl. split; [constructor; [cbn; lia|apply Hl]|]. rewrite sizeof_cons by done. destruct Hl as [_ Hw].
  cbn [width]. lia.
Qed.

Lemma packed_structs_names l : l ∈ packed_structs -> NoDup (map fst l).
Proof.
  assert (H : Forall (fun l => NoDup (map fst l)) packed_structs)
    by (refine (bool_decide_unpack _ _); vm_compute; exact I).
  rewrite Forall_forall in H. apply H.
Qed.

(** The values that fit their members. *)
Definition in_members (l : layout) (vs : list Z) : Prop := Forall2 (fun f v => 0 <= v < 2 ^ f.2) l vs.

Lemma width_pos l : Forall (fun f => 0 <= f.2) l -> 0 <= width l.
Proof. induction 1 as [|[f n] l Hn _ IH]; cbn in *; lia. Qed.

Lemma pack_range l vs : Forall (fun f => 0 <= f.2) l -> 0 <= pack l vs < 2 ^ width l.
Proof.
  intros Hl. revert vs. induction Hl as [|[f n] l Hn Hl IH]; intros vs; [by destruct vs|].
  cbn [width]. cbn in Hn. pose proof (width_pos l Hl). pose proof (pow2_pos n Hn). rewrite Z.pow_add_r by lia.
  destruct vs as [|v vs]; cbn [pack]; [pose proof (pow2_pos (width l)); nia|].
  specialize (IH vs). pose proof (Z.mod_pos_bound v (2 ^ n)). nia.
Qed.

Lemma unpack_pack l vs : Forall (fun f => 0 <= f.2) l -> in_members l vs -> unpack l (pack l vs) = vs.
Proof.
  intros Hl Hv. induction Hv as [|[f n] v l vs Hv _ IH]; [done|]. apply Forall_cons in Hl as [Hn Hl].
  cbn in Hn, Hv. cbn [unpack pack]. pose proof (pow2_pos n Hn). rewrite (Z.mod_small v) by done.
  rewrite Z.mul_comm, Z.mod_add, Z.div_add, Z.mod_small, Z.div_small by lia. f_equal. by apply IH.
Qed.

Lemma to_bytes_length n x : length (to_bytes n x) = n.
Proof. revert x. induction n as [|n IH]; intros x; [done|]. cbn. by rewrite IH. Qed.

Lemma of_bytes_to_bytes n x : 0 <= x < 2 ^ (8 * Z.of_nat n) -> of_bytes (to_bytes n x) = x.
Proof.
  revert x. induction n as [|n IH]; intros x Hx; cbn [to_bytes of_bytes]; [change (2 ^ _) with 1 in Hx; lia|].
  rewrite IH; [Z.div_mod_to_equations; lia|]. rewrite Nat2Z.inj_succ, Z.mul_succ_r, Z.pow_add_r in Hx by lia.
  change (2 ^ 8) with 256 in Hx. Z.div_mod_to_equations; lia.
Qed.

(** The bytes of a member that fills whole bytes come first. *)
Lemma to_bytes_app a b x y : to_bytes (a + b) (x mod 2 ^ (8 * Z.of_nat a) + 2 ^ (8 * Z.of_nat a) * y)
  = to_bytes a x ++ to_bytes b y.
Proof.
  revert x. induction a as [|a IH]; intros x; cbn [to_bytes Nat.add app].
  - change (2 ^ _) with 1. rewrite Z.mod_1_r. f_equal. lia.
  - rewrite <- (IH (x / 256)). rewrite Nat2Z.inj_succ, Z.mul_succ_r, Z.pow_add_r by lia. change (2 ^ 8) with 256.
    set (p := 2 ^ (8 * Z.of_nat a)). assert (Hp : 0 < p) by (apply pow2_pos; lia).
    rewrite (Z.mul_comm p 256), Z.rem_mul_r by lia.
    replace (x mod 256 + 256 * (x / 256 mod p) + 256 * p * y)
      with (x mod 256 + (x / 256 mod p + p * y) * 256) by ring.
    rewrite Z.mod_add, Z.div_add, Z.mod_mod, (Z.div_small (x mod 256)) by (try apply Z.mod_pos_bound; lia).
    done.
Qed.

(** ** Members *)

Lemma place_bounds l f o n : Forall (fun f => 0 <= f.2) l -> place l f = Some (o, n) ->
  0 <= o /\ 0 <= n /\ o + n <= width l.
Proof.
  intros Hl. revert o. induction Hl as [|[g w] l Hw Hl IH]; intros o; cbn [place width]; [done|].
  cbn in Hw. pose proof (width_pos l Hl). destruct (String.eqb f g); [intros [= <- <-]; lia|].
  destruct (place l f) as [[o' n']|]; [|done]. intros [= <- <-]. destruct (IH o'); [done|]. lia.
Qed.

Lemma place_disjoint l f g o n o' n' : Forall (fun f => 0 <= f.2) l -> f <> g ->
  place l f = Some (o, n) -> place l g = Some (o', n') -> o + n <= o' \/ o' + n' <= o.
Proof.
  intros Hl Hne. revert o o'. induction Hl as [|[h w] l Hw Hl IH]; intros o o'; cbn [place]; [done|]. cbn in Hw.
  destruct (String.eqb_spec f h), (String.eqb_spec g h); [congruence| | |].
  - destruct (place l g) as [[p1 q1]|] eqn:E; [|done]. intros [= <- <-] [= <- <-].
    destruct (place_bounds _ _ _ _ Hl E). lia.
  - destruct (place l f) as [[p1 q1]|] eqn:E; [|done]. intros [= <- <-] [= <- <-].
    destruct (place_bounds _ _ _ _ Hl E). lia.
  - destruct (place l f) as [[p1 q1]|]; [|done]. destruct (place l g) as [[p2 q2]|]; [|done].
    intros [= <- <-] [= <- <-]. destruct (IH p1 p2); [done|done|lia|lia].
Qed.

(** Writing a member gives it the value, cut to its width, and leaves the others. *)
Lemma member_set l f g v x : Forall (fun f => 0 <= f.2) l -> is_Some (place l f) ->
  member l g (set_member l f v x) =
    if String.eqb f g then v mod 2 ^ (default (0, 0) (place l f)).2 else member l g x.
Proof.
  intros Hl [[o n] Hf]. unfold member, set_member. rewrite Hf. cbn [default snd].
  destruct (place_bounds _ _ _ _ Hl Hf) as (?&?&_). destruct (String.eqb_spec f g) as [<-|Hne].
  - rewrite Hf. by apply getf_setf_eq.
  - destruct (place l g) as [[o' n']|] eqn:Hg; [|done]. destruct (place_bounds _ _ _ _ Hl Hg) as (?&?&_).
    destruct (place_disjoint _ _ _ _ _ _ _ Hl Hne Hf Hg).
    + by apply getf_setf_above.
    + by apply getf_setf_below.
Qed.

Lemma getf_shift n o w x : 0 <= n -> 0 <= o -> getf (n + o) w x = getf o w (x / 2 ^ n).
Proof.
  intros Hn Ho. unfold getf. pose proof (pow2_pos n Hn). pose proof (pow2_pos o Ho).
  by rewrite Z.pow_add_r, Z.div_div by lia.
Qed.

(** The values that [unpack] lists are those of the members. *)
Lemma unpack_members l x : Forall (fun f => 0 <= f.2) l -> NoDup (map fst l) ->
  unpack l x = map (fun f => member l f.1 x) l.
Proof.
  intros Hl. revert x. induction Hl as [|[g n] l Hn Hl IH]; intros x Hd; [done|]. cbn in Hn, Hd.
  apply NoDup_cons in Hd as [Hg Hd]. cbn [unpack map]. f_equal.
  - unfold member. cbn [place fst]. rewrite String.eqb_refl. unfold getf. by rewrite Z.div_1_r.
  - rewrite (IH _ Hd). apply map_ext_in. intros [f w] Hf. unfold member. cbn [place fst].
    destruct (String.eqb_spec f g) as [->|_].
    + destruct Hg. apply list_elem_of_In. change g with (fst (g, w)). by apply in_map.
    + destruct (place l f) as [[o' n']|] eqn:E; [|done]. destruct (place_bounds _ _ _ _ Hl E).
      symmetry. by apply getf_shift.
Qed.

(** ** The tables *)

Lemma image_cons l f k v vs : layout_ok l ->
  image ((f, 8 * Z.of_nat k) :: l) (v :: vs) = to_bytes k v ++ image l vs.
Proof.
  intros Hl. unfold image. cbn [pack]. by rewrite <- to_bytes_app, sizeof_cons.
Qed.

Definition idt_members (e : idt_entry) : list Z :=
  [offset_low e; sgm_selector e; idt_zero e; idt_flags e; offset_high e].

Definition gdt_members (e : gdt_entry) : list Z :=
  [limit_low e; base_low e; base_mid e; access e; limit_high e; gdt_avl e; gdt_l e; d_b e; gdt_g e; base_high e].

Lemma idt_bytes_image e : idt_bytes e = image idt_entry_struct (idt_members e).
Proof.
  unfold idt_entry_struct, idt_members, u8.
  rewrite (image_cons _ "offset_low" 2), (image_cons _ "sgm_selector" 2), (image_cons _ "zero" 1),
    (image_cons _ "flags" 1), (image_cons _ "offset_high" 2); [done|..];
    layout_decide.
Qed.

Lemma gdt_bytes_image e : gdt_bytes e = image gdt_entry_struct (gdt_members e).
Proof.
  unfold gdt_entry_struct, gdt_members, u8, u16.
  rewrite (image_cons _ "limit_low" 2), (image_cons _ "base_low" 2), (image_cons _ "base_mid" 1),
    (image_cons _ "access" 1); try layout_decide.
  unfold gdt_bytes, image, sizeof. cbn [to_bytes app width]. do 6 f_equal. change (Z.to_nat _) with 2%nat.
  cbn [to_bytes pack]. change (2 ^ 4) with 16. change (2 ^ 1) with 2. change (2 ^ 8) with 256.
  f_equal; [|f_equal]; Z.div_mod_to_equations; lia.
Qed.

(** ** Structures in RAM *)

Lemma ram_bytes_app m a i j : ram_bytes m a (i + j) = ram_bytes m a i ++ ram_bytes m (a + Z.of_nat i) j.
Proof.
  revert a. induction i as [|i IH]; intros a; cbn [ram_bytes Nat.add app]; [by rewrite Z.add_0_r|].
  rewrite IH. do 3 f_equal. lia.
Qed.

Lemma ram_bytes_length m a n : length (ram_bytes m a n) = n.
Proof. revert a. induction n as [|n IH]; intros a; [done|]. cbn. by rewrite IH. Qed.

Lemma of_bytes_app bs bs' : of_bytes (bs ++ bs') = of_bytes bs + 2 ^ (8 * Z.of_nat (length bs)) * of_bytes bs'.
Proof.
  induction bs as [|b bs IH]; cbn [of_bytes app length]; [change (2 ^ _) with 1; lia|].
  rewrite IH, Nat2Z.inj_succ, Z.mul_succ_r, Z.pow_add_r by lia. change (2 ^ 8) with 256. ring.
Qed.

Lemma of_bytes_at_range m a n : 0 <= of_bytes (ram_bytes m a n) < 2 ^ (8 * Z.of_nat n).
Proof.
  revert a. induction n as [|n IH]; intros a; [done|]. cbn [ram_bytes of_bytes]. specialize (IH (a + 1)).
  rewrite Nat2Z.inj_succ, Z.mul_succ_r, Z.pow_add_r by lia. change (2 ^ 8) with 256.
  pose proof (rd8_range m a). lia.
Qed.

Lemma struct_at_cons f k l m a : layout_ok l -> struct_at ((f, 8 * Z.of_nat k) :: l) m a
  = of_bytes (ram_bytes m a k) :: struct_at l m (a + Z.of_nat k).
Proof.
  intros Hl. unfold struct_at. rewrite sizeof_cons, ram_bytes_app, of_bytes_app, ram_bytes_length by done.
  cbn [unpack]. pose proof (of_bytes_at_range m a k) as Hr.
  rewrite (Z.mul_comm (2 ^ _) (of_bytes _)), Z.mod_add, Z.div_add by lia.
  by rewrite Z.mod_small, Z.div_small by done.
Qed.

Lemma rd32_bytes m a : of_bytes (ram_bytes m a 4) = rd32 m a.
Proof. unfold rd32. cbn [ram_bytes of_bytes]. replace (a + 1 + 1) with (a + 2) by lia. replace (a + 2 + 1) with (a + 3) by lia. lia. Qed.

(** A structure of 32-bit members. *)
Fixpoint ram_words (m : ram) (a : Z) (n : nat) : list Z :=
  match n with O => [] | S n' => rd32 m a :: ram_words m (a + 4) n' end.

Lemma struct_at_words fs l m a : layout_ok l -> struct_at (u32s fs ++ l) m a
  = ram_words m a (length fs) ++ struct_at l m (a + 4 * Z.of_nat (length fs)).
Proof.
  intros Hl. revert a. induction fs as [|f fs IH]; intros a; [cbn; by rewrite Z.add_0_r|].
  cbn [u32s map app]. unfold u32 at 1. change 32 with (8 * Z.of_nat 4). rewrite struct_at_cons.
  - rewrite rd32_bytes. fold (u32s fs). rewrite IH. cbn [ram_words app length]. do 3 f_equal. lia.
  - clear IH. induction fs as [|g fs IH]; [done|]. by apply (layout_ok_cons g 4).
Qed.

Lemma struct_at_word_fields fs m a : struct_at (u32s fs) m a = ram_words m a (length fs).
Proof. rewrite <- (app_nil_r (u32s fs)), struct_at_words; [|done]. apply app_nil_r. Qed.

Definition regs_members (r : regs) : list Z :=
  [r_edi r; r_esi r; r_ebp r; r_esp r; r_ebx r; r_edx r; r_ecx r; r_eax r; r_ss r; r_gs r; r_fs r; r_es r; r_ds r;
   r_int_no r; r_err_code r; r_eip r; r_cs r; r_eflags r; r_useresp r; r_ss_user r].

Lemma regs_at_struct m p : struct_at registers_t m (ka p) = regs_members (regs_at m p).
Proof.
  unfold registers_t. rewrite struct_at_words by layout_decide.
  cbn [length ram_words app]. set (a := ka p + 4 * _).
  assert (Htail : struct_at [u16 "cs"; u32 "eflags"; u32 "useresp"; u32 "_ss"] m a =
    rd16 m a :: struct_at (u32s ["eflags"; "useresp"; "_ss"]) m (a + 2)).
  { unfold u16. rewrite (struct_at_cons "cs" 2) by layout_decide. f_equal. unfold rd16. cbn [ram_bytes of_bytes]. lia. }
  rewrite Htail, struct_at_word_fields. subst a. unfold regs_members, regs_at. cbn [length ram_words r_edi r_esi r_ebp r_esp r_ebx r_edx r_ecx
    r_eax r_ss r_gs r_fs r_es r_ds r_int_no r_err_code r_eip r_cs r_eflags r_useresp r_ss_user].
  repeat (apply (f_equal2 cons); [f_equal; lia|]). done.
Qed.

(** ** The processor's reading of the declared members *)

Lemma testbit_getf v n : 0 <= n -> Z.testbit v n = (getf n 1 v =? 1).
Proof.
  intros Hn. apply eq_true_iff_eq. rewrite Z.testbit_true, Z.eqb_eq by done. unfold getf.
  change (2 ^ 1) with 2. done.
Qed.

Lemma in_members_cons f n l v vs : in_members ((f, n) :: l) (v :: vs) -> 0 <= v < 2 ^ n /\ in_members l vs.
Proof. intros H. by apply Forall2_cons in H. Qed.

Ltac members H := repeat (apply in_members_cons in H as [? H]); clear H.

Lemma decode_gate_members e : in_members idt_entry_struct (idt_members e) ->
  decode_gate (idt_bytes e) = Some (CpuGate (member idt_flags_fields "p" (idt_flags e) =? 1)
    (member idt_flags_fields "dpl" (idt_flags e)) (member idt_flags_fields "gate" (idt_flags e))
    (sgm_selector e) (offset_low e + 65536 * offset_high e)).
Proof.
  intros H. unfold idt_members, idt_entry_struct, u8 in H. members H. unfold idt_bytes, bytes16. cbn [app decode_gate].
  change (2 ^ 16) with 65536 in *. change (2 ^ 8) with 256 in *.
  rewrite testbit_getf, (Z.mod_small (idt_flags e)) by lia.
  f_equal. unfold member. cbn [place idt_flags_fields String.eqb Ascii.eqb Bool.eqb].
  f_equal; Z.div_mod_to_equations; lia.
Qed.

Lemma decode_segment_members e : in_members gdt_entry_struct (gdt_members e) ->
  let limit := limit_low e + 65536 * limit_high e in let bit f := member gdt_access_fields f (access e) in
  decode_segment (gdt_bytes e) = Some (Segment (base_low e + 65536 * base_mid e + 16777216 * base_high e)
    (if gdt_g e =? 1 then limit * 4096 + 4095 else limit) (bit "p" =? 1) (bit "dpl") (bit "s" =? 1)
    (bit "accessed" + 2 * bit "read_write" + 4 * bit "direction_conforming" + 8 * bit "executable") (d_b e =? 1)).
Proof.
  intros H. unfold gdt_members, gdt_entry_struct, u8, u16 in H. members H. cbv zeta. unfold gdt_bytes. cbn [decode_segment].
  change (2 ^ 16) with 65536 in *. change (2 ^ 8) with 256 in *. change (2 ^ 4) with 16 in *. change (2 ^ 1) with 2 in *.
  rewrite !testbit_getf, (Z.mod_small (access e)) by lia.
  set (b6 := limit_high e mod 16 + _ + _ + _ + _).
  assert (getf 7 1 b6 = gdt_g e) as -> by (subst b6; bf).
  assert (getf 6 1 b6 = d_b e) as -> by (subst b6; bf).
  assert (getf 0 4 b6 = limit_high e) as -> by (subst b6; bf).
  clear b6. unfold member. cbn [place gdt_access_fields String.eqb Ascii.eqb Bool.eqb Z.add Pos.add Pos.succ].
  f_equal. f_equal; [| |bf]; [|destruct (gdt_g e =? 1)]; Z.div_mod_to_equations; lia.
Qed.

Lemma frame_at_struct m p : struct_at frame_struct m p = [ref_count (frame_in m p); addr (frame_in m p); vaddr (frame_in m p)].
Proof.
  unfold frame_struct. rewrite struct_at_word_fields. cbn. repeat (apply (f_equal2 cons); [f_equal; lia|]). done.
Qed.

(** * Properties *)

(** Encoding and decoding lose nothing, and members are independent. *)
Lemma packed_roundtrip l : l ∈ packed_structs ->
  width l = 8 * Z.of_nat (sizeof l) /\
  (forall vs, in_members l vs -> length (image l vs) = sizeof l /\
     map (fun f => member l f.1 (of_bytes (image l vs))) l = vs) /\
  (forall f v x, is_Some (place l f) -> forall g, member l g (set_member l f v x) =
     if String.eqb f g then v mod 2 ^ (default (0, 0) (place l f)).2 else member l g x).
Proof.
  intros Hl. destruct (packed_structs_ok l Hl) as [Hf Hw]. split; [exact Hw|]. split.
  - intros vs Hvs. split; [apply to_bytes_length|].
    rewrite <- unpack_members by (exact Hf || by apply packed_structs_names). unfold image.
    rewrite of_bytes_to_bytes by (rewrite <- Hw; by apply pack_range). by apply unpack_pack.
  - intros f v x Hp g. by apply member_set.
Qed.

(** C34: the packed structures of the headers are encoded and decoded without loss, and
    the other files read and write them as they are declared. Each structure fills
    whole bytes; values that fit its members come back from the bytes; writing a
    member, a bit-field or a whole object, gives it the value cut to its width and
    leaves every other member. The bytes of the interrupt and segment descriptors are those of the declared
    structures, and the processor finds in them the gate or the segment that the
    bit-fields name (idt_flags_fields, gdt_access_fields); the registers that the
    stubs push are read at the places of struct regs, with its cs of 16 bits, and
    the frames' descriptions at those of struct frame; the sizes and the offsets
    that the code computes with are those of the declarations; each accessor of an
    entry of the page tables is the member of the union it stands for. *)
Theorem packed_structs_roundtrip :
  (forall l, l ∈ packed_structs ->
     width l = 8 * Z.of_nat (sizeof l) /\
     (forall vs, in_members l vs -> length (image l vs) = sizeof l /\
        map (fun f => member l f.1 (of_bytes (image l vs))) l = vs) /\
     (forall f v x, is_Some (place l f) -> forall g, member l g (set_member l f v x) =
        if String.eqb f g then v mod 2 ^ (default (0, 0) (place l f)).2 else member l g x)) /\
  (forall e, idt_bytes e = image idt_entry_struct (idt_members e) /\
     (in_members idt_entry_struct (idt_members e) ->
      decode_gate (idt_bytes e) = Some (CpuGate (member idt_flags_fields "p" (idt_flags e) =? 1)
        (member idt_flags_fields "dpl" (idt_flags e)) (member idt_flags_fields "gate" (idt_flags e))
        (sgm_selector e) (offset_low e + 65536 * offset_high e)))) /\
  (forall e, gdt_bytes e = image gdt_entry_struct (gdt_members e) /\
     (in_members gdt_entry_struct (gdt_members e) ->
      let limit := limit_low e + 65536 * limit_high e in let bit f := member gdt_access_fields f (access e) in
      decode_segment (gdt_bytes e) = Some (Segment (base_low e + 65536 * base_mid e + 16777216 * base_high e)
        (if gdt_g e =? 1 then limit * 4096 + 4095 else limit) (bit "p" =? 1) (bit "dpl") (bit "s" =? 1)
        (bit "accessed" + 2 * bit "read_write" + 4 * bit "direction_conforming" + 8 * bit "executable")
        (d_b e =? 1)))) /\
  (forall m p, struct_at registers_t m (ka p) = regs_members (regs_at m p)) /\
  (forall m p, struct_at frame_struct m p =
     [ref_count (frame_in m p); addr (frame_in m p); vaddr (frame_in m p)]) /\
  (Z.of_nat (sizeof gdt_entry_struct) = sizeof_gdt_entry /\ Z.of_nat (sizeof tss_entry_struct) = sizeof_tss /\
   Z.of_nat (sizeof frame_struct) = sizeof_frame /\ Z.of_nat (sizeof memory_map_t) = sizeof_memory_map) /\
  (forall p, f_addr p = w32 (p + offset frame_struct "addr") /\ f_vaddr p = w32 (p + offset frame_struct "vaddr") /\
     map_base_addr_low p = w32 (p + offset memory_map_t "base_addr_low") /\
     map_length_low p = w32 (p + offset memory_map_t "length_low") /\
     map_type p = w32 (p + offset memory_map_t "type") /\
     mbi_mmap_length p = w32 (p + offset multiboot_info_t "mmap_length") /\
     mbi_mmap_addr p = w32 (p + offset multiboot_info_t "mmap_addr")) /\
  (forall v, pde4_ignored v = member pde_fields_4mb_page "ignored" v /\
     pde4_ignored_ v = member pde_fields_4mb_page "ignored_" v /\ pde4_addr v = member pde_fields_4mb_page "addr" v /\
     pde_ptaddr v = member pde_fields_page_table "ptaddr" v /\
     pte_ignored v = member pte_fields "ignored" v /\ pte_addr v = member pte_fields "addr" v) /\
  (forall x v, set_pde4_flags x v = set_member pde_fields_4mb_page "flags" x v /\
     set_pde4_addr x v = set_member pde_fields_4mb_page "addr" x v /\
     set_pde_flags x v = set_member pde_fields_page_table "flags" x v /\
     set_pde_ptaddr x v = set_member pde_fields_page_table "ptaddr" x v /\
     set_pte_flags x v = set_member pte_fields "flags" x v /\ set_pte_addr x v = set_member pte_fields "addr" x v).
Proof.
  split; [exact packed_roundtrip|]. split_and!; try done.
  - intros e. split; [apply idt_bytes_image|apply decode_gate_members].
  - intros e. split; [apply gdt_bytes_image|apply decode_segment_members].
  - apply regs_at_struct.
  - apply frame_at_struct.
Qed.

Lemma packed_structs_roundtrip_witness :
  map (fun f => member pte_fields f.1 (of_bytes (image pte_fields [0x103; 2; 0xABCDE]))) pte_fields
    = [0x103; 2; 0xABCDE] /\
  member pte_fields "addr" (set_member pte_fields "flags" 0x3FF 0xABCDE503) = 0xABCDE /\
  image idt_entry_struct [0x1234; 0x08; 0; 0x8E; 0xC010] = [0x34; 0x12; 0x08; 0; 0; 0x8E; 0x10; 0xC0] /\
  decode_gate (idt_bytes (IdtEntry 0x1234 0x08 0 0x8E 0xC010)) = Some (CpuGate true 0 0x0E 0x08 0xC0101234).
Proof.
  destruct packed_structs_roundtrip as (Hall & Hidt & _).
  destruct (Hall pte_fields) as (_ & H1 & H2); [apply list_elem_of_In; cbn; tauto|].
  split; [|split; [|split; [reflexivity|]]].
  - apply H1. repeat constructor; cbn; lia.
  - rewrite H2; [reflexivity|]. by eexists.
  - destruct (Hidt (IdtEntry 0x1234 0x08 0 0x8E 0xC010)) as [_ Hd]. rewrite Hd; [reflexivity|].
    repeat constructor; cbn; lia.
Defined.
