(* ===== verification/Encodings.v ===== *)
(** The constants of the headers (inc/pit.h, inc/irq.h, inc/pages.h,
    inc/interrupts.h, inc/segmentation.h, the multiboot header of src/crt0.S)
    against the words that the hardware and the loader read. *)
From S2P Require Import Prelude Memory State Pic Interrupts Segmentation Devices Pages Fields.
Local Open Scope Z_scope.

(** * inc/pit.h *)

Definition COUNTER_1 : Z := 0x41.
Definition COUNTER_2 : Z := 0x42.
Definition SC_1 : Z := 0x40.
Definition SC_2 : Z := 0x80.
Definition R_BC : Z := 0xc0.
Definition RW_CLC : Z := 0x00.
Definition RW_LBO : Z := 0x10.
Definition RW_MBO : Z := 0x20.
Definition RW_LMB : Z := 0x30.
Definition MODE_0 : Z := 0x00.
Definition MODE_1 : Z := 0x02.
Definition MODE_3 : Z := 0x60.
Definition MODE_4 : Z := 0x08.
Definition MODE_5 : Z := 0x0a.
Definition BCD : Z := 0x01.

(** * inc/irq.h *)

Definition ICW1_SINGLE : Z := 0x02.
Definition ICW1_INTERVAL4 : Z := 0x04.
Definition ICW1_LEVEL : Z := 0x08.
Definition ICW4_AUTO : Z := 0x02.
Definition ICW4_BUF_SLAVE : Z := 0x08.
Definition ICW4_BUF_MASTER : Z := 0x0C.
Definition ICW4_SFNM : Z := 0x10.

(** * inc/pages.h *)

Definition PF_USER : Z := 0x4.
Definition PF_WRTT : Z := 0x8.
Definition PF_DISC : Z := 0x10.
Definition PF_DIRT : Z := 0x20.
Definition PF_ACCS : Z := 0x40.
Definition PF_MASK : Z := 0x0E7F.
Definition FAULT_NON_PRESENT_PAGE : Z := 0x0.

(** * inc/interrupts.h and inc/segmentation.h *)

Definition INTERRUPT_GATE_FLAGS_BASE : Z := 0x06.
Definition IDT_SEG_NOT_PRESENT : Z := Z.shiftl 0 7.
Definition RING_LVL_1 : Z := Z.shiftl 1 5.
Definition RING_LVL_2 : Z := Z.shiftl 2 5.
Definition ISR_USER : Z := RING_LVL_3.
Definition SIZE_OF_GATE_16 : Z := 0x06.
Definition USERLAND_LIMIT : Z := 0xBFFFFFFF.

(** * src/crt0.S: what the loader looks for in the image *)

Definition MAGIC : Z := 0x1badb002.
Definition FLAGS : Z := 0x7.

(** The words of the section .multiboot. *)
Definition multiboot_section : list Z := [MAGIC; FLAGS; w32 (- (MAGIC + FLAGS))].

(** * The hardware's words

    The control word of the 8254 and the initialisation words of the 8259, from
    their datasheets; an entry of a page table; and the flags and the size of a
    multiboot header, from its specification: with flag 16 it also holds five
    addresses, and with flag 2 four words of video mode after these. *)

Definition pit_word : layout := [("bcd", 1); ("mode", 3); ("rw", 2); ("sc", 2)].

Definition icw1_word : layout := [("ic4", 1); ("sngl", 1); ("adi", 1); ("ltim", 1); ("init", 1); ("vector", 3)].

Definition icw4_word : layout := [("upm", 1); ("aeoi", 1); ("ms", 1); ("buf", 1); ("sfnm", 1); ("zero", 3)].

Definition page_word : layout :=
  [("present", 1); ("write", 1); ("user", 1); ("write_through", 1); ("cache_disable", 1); ("accessed", 1);
   ("dirty", 1); ("large", 1); ("global", 1); ("available", 3); ("frame", 20)].

Definition multiboot_flags : layout :=
  [("align", 1); ("memory", 1); ("video", 1); ("reserved", 13); ("addresses", 1); ("rest", 15)].

Definition multiboot_header_words (flags : Z) : Z :=
  if member multiboot_flags "video" flags =? 1 then 12
  else if member multiboot_flags "addresses" flags =? 1 then 8 else 3.

(** The members that a word sets. *)
Definition members_set (l : layout) (v : Z) : list string :=
  map fst (filter (fun f => member l f.1 v <> 0) l).

Definition counters : list (Z * Z) := [(SC_0, 0); (SC_1, 1); (SC_2, 2)].
Definition accesses : list (Z * Z) := [(RW_CLC, 0); (RW_LBO, 1); (RW_MBO, 2); (RW_LMB, 3)].
Definition right_modes : list (Z * Z) := [(MODE_0, 0); (MODE_1, 1); (MODE_4, 4); (MODE_5, 5)].
Definition rings : list (Z * Z) := [(RING_LVL_0, 0); (RING_LVL_1, 1); (RING_LVL_2, 2); (RING_LVL_3, 3)].
Definition gates : list (Z * Z) := [(SIZE_OF_GATE_16, 0x6); (SIZE_OF_GATE_32, 0xE); (INTERRUPT_GATE_FLAGS_BASE, 0x6)].

(** The constants of the headers say to the hardware what their names say, with
    four exceptions. A control word of the timer made of a counter, an access, one of
    the modes 0, 1, 4, 5 and BCD or not selects just these; but MODE_2 and MODE_3 are
    the words of counter 1 in mode 0. The initialisation words of the interrupt
    controllers set the members they name. Of the flags of a page, PF_DIRT is the
    accessed bit and PF_ACCS the dirty one. The flags of a gate give its type, ring
    and presence, those of a segment its access bits; but set_gdt_entry, which
    keeps the low twenty bits of a limit, makes of USERLAND_LIMIT a segment of four
    gigabytes. The multiboot header has its magic number and its checksum, but its
    flags ask for a video mode that its three words do not describe. *)
Theorem header_constants :
  Forall (fun '(s, i) => Forall (fun '(a, j) => Forall (fun '(m, n) =>
      unpack pit_word (Z.lor (Z.lor s a) m) = [0; n; j; i] /\
      unpack pit_word (Z.lor (Z.lor (Z.lor s a) m) BCD) = [1; n; j; i]) right_modes) accesses) counters /\
  unpack pit_word (Z.lor SC_0 MODE_2) = [0; 0; 0; 1] /\ unpack pit_word (Z.lor SC_0 MODE_3) = [0; 0; 2; 1] /\
  member pit_word "sc" R_BC = 3 /\ [COUNTER_0; COUNTER_1; COUNTER_2; COUNTER_REG] = seqZ COUNTER_0 4 /\
  map (members_set icw1_word) [ICW1_ICW4; ICW1_SINGLE; ICW1_INTERVAL4; ICW1_LEVEL; ICW1_INIT]
    = [["ic4"]; ["sngl"]; ["adi"]; ["ltim"]; ["init"]] /\
  map (members_set icw4_word) [ICW4_8086; ICW4_AUTO; ICW4_BUF_SLAVE; ICW4_BUF_MASTER; ICW4_SFNM]
    = [["upm"]; ["aeoi"]; ["buf"]; ["ms"; "buf"]; ["sfnm"]] /\
  map (members_set page_word) [PF_PRES; PF_RW; PF_USER; PF_WRTT; PF_DISC; PF_4M]
    = [["present"]; ["write"]; ["user"]; ["write_through"]; ["cache_disable"]; ["large"]] /\
  members_set page_word PF_DIRT = ["accessed"] /\ members_set page_word PF_ACCS = ["dirty"] /\
  members_set page_word PF_MASK
    = ["present"; "write"; "user"; "write_through"; "cache_disable"; "accessed"; "dirty"; "available"] /\
  members_set page_fault_handler_t FAULT_NON_PRESENT_PAGE = [] /\
  Forall (fun '(r, i) => Forall (fun '(g, j) =>
      unpack idt_flags_fields (Z.lor (Z.lor SEG_PRESENT r) g) = [j; i; 1] /\
      unpack idt_flags_fields (Z.lor (Z.lor IDT_SEG_NOT_PRESENT r) g) = [j; i; 0]) gates) rings /\
  unpack idt_flags_fields ISR_USER = [0; 3; 0] /\ _RING_LVL_0 = RING_LVL_0 /\
  Forall (fun '(r, i) =>
      unpack gdt_access_fields (or4 DPB_CODE_ER r GDT_SEG_PRESENT DTYPE_CODE_OR_DATA) = [0; 1; 0; 1; 1; i; 1] /\
      unpack gdt_access_fields (or4 DPB_DATA_RW r GDT_SEG_PRESENT DTYPE_CODE_OR_DATA) = [0; 1; 0; 0; 1; i; 1] /\
      unpack gdt_access_fields (or4 DPB_DATA_RO r GDT_SEG_NOT_PRESENT DTYPE_SYSTEM) = [0; 0; 0; 0; 0; i; 0]) rings /\
  sgm_last <$> decode_segment (gdt_bytes (new_gdt_entry SEGMENT_BASE USERLAND_LIMIT 0xFA GRANULARITY_ENABLE))
    = Some 0xFFFFFFFF /\
  multiboot_section !! 0%nat = Some 0x1BADB002 /\ w32 (foldr Z.add 0 multiboot_section) = 0 /\
  members_set multiboot_flags FLAGS = ["align"; "memory"; "video"] /\
  Z.of_nat (length multiboot_section) < multiboot_header_words FLAGS.
Proof.
  split_and!; try (repeat constructor; vm_compute; reflexivity); try (vm_compute; reflexivity).
Qed.
