(* ===== verification/Entry.v ===== *)
(** The entry code (src/crt0.S): the start of the kernel, paging, the loading of
    the descriptor tables and the way to ring 3. *)
From S2P Require Import Prelude Memory State Console Kprintf Interrupts Segmentation Pages Mmu Alloc Boot Cpu Stubs.
Local Open Scope Z_scope.
Local Open Scope kern_scope.
Local Set Default Proof Using "Type*".

Definition STACK_SIZE : Z := 0x10000.
Definition KERNEL_VIRTUAL_ADDRESS : Z := 0xc0000000.

(** [stack], [main_new], [hi]: the addresses of these symbols. *)
Definition _start (stack : Z) : list instr :=
  [MovI (stack + STACK_SIZE) ESP; SubI KERNEL_VIRTUAL_ADDRESS ESP; Push EBX; Push EAX; Call Main; Hlt].

Definition enable_paging_code {LY : Layout} (main_new : Z) : list instr :=
  [Push EAX; FromCr CR4 EAX; OrI 0x00000010 EAX; ToCr EAX CR4; Pop EAX;
   Push EAX; MovI sym_page_dir EAX; SubI KERNEL_VIRTUAL_ADDRESS EAX; ToCr EAX CR3; Pop EAX;
   Push EAX; FromCr CR0 EAX; OrI 0x80000000 EAX; ToCr EAX CR0; Pop EAX;
   AddI KERNEL_VIRTUAL_ADDRESS ESP; Mov ESP EBP;
   Push EAX; MovI main_new EAX; Jmp EAX].

Definition switch_to_userland (hi : Z) : list instr :=
  [Cli; MovW 0x23 EAX; MovS EAX DS; MovS EAX ES; MovS EAX FS; MovS EAX GS;
   Mov ESP EAX; PushI 0x23; Push EAX; Pushf; Pop EAX; OrI 0x200 EAX; Push EAX; PushI 0x1B; PushI hi; Iret].

Definition hi_code {LY : Layout} : list instr := [Push EAX; MovI sym_main_userland EAX; Call MainUserland].

Definition tss_flush : list instr := [MovW 0x2B EAX; Ltr EAX; Retn].

Definition gdt_flush : list instr :=
  [MovArg EAX; Lgdt EAX; MovW 0x10 EAX; MovS EAX DS; MovS EAX ES; MovS EAX FS; MovS EAX GS; MovS EAX SS;
   Ljmp 0x08; Retn].

(** The inline assembly of disable_cache (src/pages.c). *)
Definition disable_cache_code : list instr :=
  [Push EAX; FromCr CR0 EAX; OrI (Z.shiftl 1 30) EAX; ToCr EAX CR0; Wbinvd; Pop EAX].

(** * Proofs *)

Lemma setf_low16 v n : 0 <= n < 65536 -> w16 (setf 0 16 n v) = n.
Proof. intros H. unfold w16. bf. Qed.

Section entry.
Context {HW : Hardware} {LY : Layout}.
Context (clobber : kst -> Z * Z * Z * Z) (scratch : Z -> ram -> ram) (return_address : Z) (arith : Z -> Z -> Z).
Notation exec_all := (exec_all kernel_callee clobber scratch return_address arith).

Definition nowhere (a : Z) : Prop := False.

(** The stack seen through the mapping of the kernel. *)
Lemma stk_high T m0 lo top p m ws : stk T m0 lo top p m ws -> top < 0x40000000 ->
  stk T m0 (lo + 0xc0000000) (top + 0xc0000000) (p + 0xc0000000) m ws.
Proof.
  intros [Hl Hlo Htop Hfit Hws Hrest] Ht. unfold linear, SYSTEM_ADDR_BASE in *.
  assert (E : ka (lo + 0xc0000000) = lo /\ ka lo = lo).
  { unfold ka, SYSTEM_ADDR_BASE. split; [rewrite (proj2 (Z.leb_le _ _)) by lia; lia|by rewrite (proj2 (Z.leb_gt _ _)) by lia]. }
  destruct E as [E1 E2]. split.
  - unfold linear, SYSTEM_ADDR_BASE in *. lia.
  - lia.
  - lia.
  - lia.
  - rewrite E1. rewrite E2 in Hws. by replace (p + 0xc0000000 - (lo + 0xc0000000)) with (p - lo) by lia.
  - intros a Ha. rewrite E1 in Ha. apply Hrest. rewrite E2. lia.
Qed.

Ltac next := apply wp_exec_cons; cbn [exec].

(** The processor at the entry of main_new: paging is on with the kernel's
    directory and 4 MB pages, and the stack is used through its mapping. *)
Definition paged (main_new : Z) (flags : Z) (c : cpu) : cpu :=
  let g := c_gprs c in let x := c_ctls c in
  Cpu (Gprs main_new (c_ecx g) (c_edx g) (c_ebx g) (c_esp g + 0xc0000000 - 4) (c_esp g + 0xc0000000) (c_esi g) (c_edi g))
    (c_segs c)
    (Ctls (Z.lor (c_cr0 x) 0x80000000) (w32 (sym_page_dir - 0xc0000000)) (Z.lor (c_cr4 x) 0x10) (c_gdt_base x) (c_gdt_limit x) (c_tr x))
    main_new flags.

Lemma wp_enable_paging main_new c k (Q : unit -> machine -> Prop) :
  cpu_ok c -> Z.testbit (get_creg CR0 c) 31 = false -> 4 <= get ESP c < 0x40000000 ->
  (forall m fl, (forall a, ~ (get ESP c - 4 <= a < get ESP c) -> rd8 m a = rd8 (mem k) a) ->
    Q tt (paged main_new fl c, set_mem (fun _ => m) (logged [EEnablePaging (w32 (sym_page_dir - 0xc0000000))] k))) ->
  wp (exec_all (enable_paging_code main_new)) Q (c, k).
Proof.
  intros [Hg _ _ _] Hoff Hsp HQ. pose proof (Hg EAX) as H1.
  destruct c as [[a cx d b s bp si di] sg [x0 x3 x4 gb gl t] ip fl].
  unfold fits in *. cbn in H1, Hsp, Hoff, HQ. change (2 ^ 32) with 4294967296 in *.
  assert (Hs : stk nowhere (mem k) (s - 4) s s (mem k) []).
  { apply stk_start; [unfold linear, SYSTEM_ADDR_BASE; lia|lia|lia]. }
  assert (Hka : ka (s - 4) = s - 4) by (apply ka_low; unfold SYSTEM_ADDR_BASE; lia).
  unfold enable_paging_code, KERNEL_VIRTUAL_ADDRESS.
  next. cpu_ask. cpu_push nowhere (mem k) (s - 4) s. next. cpu_tell. next. apply wp_arith. intros f1. regs_simpl.
  apply wp_exec_cons, wp_to_cr; [done|]. regs_simpl. next. apply wp_bind. cpu_pop nowhere (mem k) (s - 4) s. cpu_tell.
  next. cpu_ask. replace (s - 4 + 4) with s in * by lia. cpu_push nowhere (mem k) (s - 4) s. next. cpu_tell.
  next. apply wp_arith. intros f2. regs_simpl. apply wp_exec_cons, wp_to_cr; [done|]. regs_simpl.
  next. apply wp_bind. cpu_pop nowhere (mem k) (s - 4) s. cpu_tell. next. cpu_ask.
  replace (s - 4 + 4) with s in * by lia. cpu_push nowhere (mem k) (s - 4) s. next. cpu_tell.
  next. apply wp_arith. intros f3. regs_simpl. apply wp_exec_cons, wp_to_cr0; [exact Hoff| |]; regs_simpl.
  { rewrite Z.lor_spec. by rewrite orb_true_r. }
  next. apply wp_bind. cpu_pop nowhere (mem k) (s - 4) s. cpu_tell.
  next. apply wp_arith. intros f4. regs_simpl. next. cpu_tell.
  replace (s - 4 + 4) with s in * by lia. rewrite (w32_small (s + 0xc0000000)) by lia.
  match goal with H : stk _ _ _ _ _ _ [] |- _ => apply stk_high in H; [|lia] end.
  next. cpu_ask. cpu_push nowhere (mem k) (s - 4 + 0xc0000000) (s + 0xc0000000). next. cpu_tell. next. cpu_tell. apply wp_ret.
  apply HQ. intros z Hz. apply (stk_rest _ _ _ _ _ _ _ Hs6); [|by intros []].
  replace (s - 4 + 3221225472) with (s - 4 + SYSTEM_ADDR_BASE) by (unfold SYSTEM_ADDR_BASE; lia).
  rewrite ka_high by (unfold SYSTEM_ADDR_BASE; lia). unfold SYSTEM_ADDR_BASE. lia.
Qed.

(** The processor after gdt_flush and after tss_flush. *)
Definition gdt_flushed (ret p ptr limit base : Z) (c : cpu) : cpu :=
  let g := c_gprs c in let x := c_ctls c in
  Cpu (Gprs (setf 0 16 0x10 ptr) (c_ecx g) (c_edx g) (c_ebx g) (p + 4) (c_ebp g) (c_esi g) (c_edi g))
    (Segs 0x08 0x10 0x10 0x10 0x10 0x10) (Ctls (c_cr0 x) (c_cr3 x) (c_cr4 x) base limit (c_tr x)) ret (c_eflags c).

Definition tss_flushed (ret p : Z) (c : cpu) : cpu :=
  let g := c_gprs c in let x := c_ctls c in
  Cpu (Gprs (setf 0 16 0x2B (c_eax g)) (c_ecx g) (c_edx g) (c_ebx g) (p + 4) (c_ebp g) (c_esi g) (c_edi g))
    (c_segs c) (Ctls (c_cr0 x) (c_cr3 x) (c_cr4 x) (c_gdt_base x) (c_gdt_limit x) 0x2B) ret (c_eflags c).

(** gdt_flush, called with the pointer [ptr] to a register of the size [limit]
    and the base [base]; tss_flush. *)
Lemma wp_gdt_flush lo top p ret ptr limit base ws (Q : unit -> machine -> Prop) c k :
  stk nowhere (mem k) lo top p (mem k) (ret :: ptr :: ws) -> get ESP c = p ->
  rd16 (mem k) (ka ptr) = limit -> rd32 (mem k) (ka (w32 (ptr + 2))) = base ->
  Q tt (gdt_flushed ret p ptr limit base c, logged [ELgdt base limit] k) ->
  wp (exec_all gdt_flush) Q (c, k).
Proof.
  intros Hs Hp Hl Hb HQ. destruct c as [[a cx d b s bp si di] [cs ss ds es fs gs] [x0 x3 x4 gb gl t] ip fl].
  cbn in Hp. subst s. revert HQ. unfold gdt_flushed. regs_simpl. intros HQ. unfold gdt_flush.
  pose proof (stk_words _ _ _ _ _ _ _ Hs) as Hw. pose proof (stk_linear _ _ _ _ _ _ _ Hs) as Hlin.
  pose proof (stk_top _ _ _ _ _ _ _ Hs) as Ht. pose proof (stk_low _ _ _ _ _ _ _ Hs) as Hlo. pose proof (stk_fits _ _ _ _ _ _ _ Hs) as Hf.
  cbn [length] in Ht. assert (H0 : 0 <= lo) by apply Hlin.
  assert (Hptr : rd32 (mem k) (ka (w32 (p + 4))) = ptr).
  { rewrite w32_small by lia. rewrite (ka_stack lo top) by (done || lia).
    replace (ka lo + (p + 4 - lo)) with (ka lo + (p - lo) + 4) by lia. apply Hw. }
  next. cpu_ask. apply wp_bind, wp_kernel, wp_load32. rewrite Hptr. cpu_tell.
  next. cpu_ask. apply wp_bind, wp_kernel, wp_gets. rewrite Hl. apply wp_bind, wp_kernel, wp_load32. rewrite Hb.
  apply wp_bind. cpu_tell. apply wp_kernel, wp_emit.
  do 7 (next; cpu_tell). next. apply wp_bind.
  eapply (wp_pop nowhere (mem k) lo top ret p (ptr :: ws)); [exact Hs|reflexivity|]. intros _. regs_simpl.
  cpu_tell. apply wp_ret. rewrite setf_low16 by lia. exact HQ.
Qed.

Lemma wp_tss_flush lo top p ret ws (Q : unit -> machine -> Prop) c k :
  stk nowhere (mem k) lo top p (mem k) (ret :: ws) -> get ESP c = p ->
  Q tt (tss_flushed ret p c, logged [ELtr 0x2B] k) ->
  wp (exec_all tss_flush) Q (c, k).
Proof.
  intros Hs Hp HQ. destruct c as [[a cx d b s bp si di] sg [x0 x3 x4 gb gl t] ip fl].
  cbn in Hp. subst s. revert HQ. unfold tss_flushed. regs_simpl. intros HQ. unfold tss_flush.
  next. cpu_tell. next. cpu_ask. rewrite setf_low16 by lia. apply wp_bind. cpu_tell. apply wp_kernel, wp_emit.
  next. apply wp_bind. eapply (wp_pop nowhere (mem k) lo top ret p ws); [exact Hs|reflexivity|]. intros _. regs_simpl.
  cpu_tell. apply wp_ret. exact HQ.
Qed.

(** switch_to_userland, up to its iret. *)
Lemma wp_switch hi (Q : unit -> machine -> Prop) c k :
  cpu_ok c -> fits 32 hi -> rpl (get_sreg CS c) = 0 -> linear (get ESP c - 20) 20 -> get ESP c < 4294967296 ->
  (forall m, (forall a, ~ (ka (get ESP c - 20) <= a < ka (get ESP c - 20) + 20) -> rd8 m a = rd8 (mem k) a) ->
    let g := c_gprs c in let fl := Z.lor (setf IF_BIT 1 0 (c_eflags c)) 0x200 in
    Q tt (Cpu (Gprs fl (c_ecx g) (c_edx g) (c_ebx g) (c_esp g) (c_ebp g) (c_esi g) (c_edi g))
      (Segs 0x1B 0x23 0x23 0x23 0x23 0x23) (c_ctls c) hi fl, set_mem (fun _ => m) k)) ->
  wp (exec_all (switch_to_userland hi)) Q (c, k).
Proof.
  intros [Hg _ _ Hf] Hhi Hcs Hl Htop HQ. pose proof (Hg ESP) as H1. clear Hg.
  destruct c as [[a cx d b s bp si di] [cs ss ds es fs gs] ct ip fl].
  unfold fits in *. cbn in H1, Hl, Htop, HQ, Hf, Hcs. change (2 ^ 32) with 4294967296 in *.
  assert (Hfl0 : 0 <= setf IF_BIT 1 0 fl < 2 ^ 32) by (unfold IF_BIT; apply setf_range; lia).
  assert (Hfl : 0 <= Z.lor (setf IF_BIT 1 0 fl) 0x200 < 4294967296).
  { apply (lor_range 32); [lia|exact Hfl0|lia]. }
  change (2 ^ 32) with 4294967296 in Hfl0. set (fl0 := setf IF_BIT 1 0 fl) in *.
  assert (Hs : stk nowhere (mem k) (s - 20) s s (mem k) [])
    by (apply stk_start; [by replace (s - (s - 20)) with 20 by lia|lia|lia]).
  assert (Hlo : 0 <= s - 20) by apply Hl.
  unfold switch_to_userland. next. cpu_tell. fold fl0. next. cpu_tell. do 4 (next; cpu_tell; rewrite ?setf_low16 by lia). next. cpu_tell.
  next. cpu_push nowhere (mem k) (s - 20) s. next. cpu_ask. cpu_push nowhere (mem k) (s - 20) s.
  next. cpu_ask. cpu_push nowhere (mem k) (s - 20) s. next. apply wp_bind. cpu_pop nowhere (mem k) (s - 20) s. cpu_tell.
  next. apply wp_arith. intros f1. regs_simpl. next. cpu_ask. replace (s - 4 - 4 - 4 + 4) with (s - 4 - 4) in * by lia.
  cpu_push nowhere (mem k) (s - 20) s. next. cpu_push nowhere (mem k) (s - 20) s. next. cpu_push nowhere (mem k) (s - 20) s.
  next. unfold iret. cpu_ask. do 3 (apply wp_bind; cpu_pop nowhere (mem k) (s - 20) s). apply wp_bind. cpu_tell.
  rewrite Hcs. change (0 <? rpl 27) with true. unfold when. do 2 (apply wp_bind; cpu_pop nowhere (mem k) (s - 20) s).
  cpu_tell. apply wp_ret. change (w16 35) with 35. change (w16 27) with 27.
  match goal with H : stk _ _ _ _ _ (mem (set_mem (fun _ => ?mm) _)) [] |- _ => apply (HQ mm); intros z Hz;
    apply (stk_rest _ _ _ _ _ _ _ H); [|by intros []]; replace (s - (s - 20)) with 20 by lia; exact Hz end.
Qed.
(** _start, up to the call. *)
Lemma start_enters_main stack c k : cpu_ok c -> fits 32 return_address ->
  12 <= stack + STACK_SIZE - 0xc0000000 -> stack + STACK_SIZE < 0x100000000 -> 
  let top := stack + STACK_SIZE - 0xc0000000 in
  exists m, (forall a, ~ (top - 12 <= a < top) -> rd8 m a = rd8 (mem k) a) /\
    kernel_callee Main (top - 12) (set_mem (fun _ => m) k) = main (get EAX c) (get EBX c) (set_mem (fun _ => m) k) /\
    forall k', main (get EAX c) (get EBX c) (set_mem (fun _ => m) k) = Ret tt k' ->
      exists c', exec_all (_start stack) (c, k) = Spin (c', set_mem (scratch (top - 12)) k').
Proof.
  intros [Hg _ _ _] Hret Hlo Htop top. pose proof (Hg EAX) as H1. pose proof (Hg EBX) as H2. unfold fits in *.
  change (2 ^ 32) with 4294967296 in *. unfold STACK_SIZE in *.
  assert (Hs : stk nowhere (mem k) (top - 12) top top (mem k) []).
  { apply stk_start; [unfold linear, SYSTEM_ADDR_BASE, top; lia|lia|unfold top; lia]. }
  assert (Hpre : wp (exec_all [MovI (stack + 0x10000) ESP; SubI KERNEL_VIRTUAL_ADDRESS ESP; Push EBX; Push EAX])
    (fun _ s => exists c1 m1, s = (c1, set_mem (fun _ => m1) k) /\ get ESP c1 = top - 8 /\
      stk nowhere (mem k) (top - 12) top (top - 8) m1 [get EAX c; get EBX c]) (c, k)).
  { destruct c as [[a cx d b s bp si di] [cs ss ds es fs gs] ct ip fl]. cbn in H1, H2. unfold KERNEL_VIRTUAL_ADDRESS.
    next. cpu_tell. next. apply wp_arith. intros f1. regs_simpl. change (stack + 0x10000 - 0xc0000000) with top.
    rewrite (w32_small top) by (unfold top; lia).
    next. cpu_ask. cpu_push nowhere (mem k) (top - 12) top. next. cpu_ask. cpu_push nowhere (mem k) (top - 12) top.
    apply wp_ret. replace (top - 4 - 4) with (top - 8) in * by lia. eexists _, _. split; [reflexivity|]. split; [done|]. eassumption. }
  change (_start stack) with ([MovI (stack + 0x10000) ESP; SubI KERNEL_VIRTUAL_ADDRESS ESP; Push EBX; Push EAX] ++ [Call Main; Hlt]).
  destruct (wp_elim _ _ _ Hpre) as ([] & s & He & c1 & m1 & -> & Hp1 & Hs1).
  destruct (call_enters clobber scratch return_address _ _ _ _ Main _ _ c1 (set_mem (fun _ => m1) k) Hret Hs1)
    as (m & Hm & _ & Hr); [done|lia|]. replace (top - 8 - 4) with (top - 12) in * by lia.
  assert (Hka : forall i, 0 <= i < 12 -> ka (top - 12 + i) = top - 12 + i)
    by (intros i Hi; apply ka_low; unfold SYSTEM_ADDR_BASE, top; lia).
  assert (Hka0 : ka (top - 12) = top - 12) by (apply ka_low; unfold SYSTEM_ADDR_BASE, top; lia).
  assert (Hmain : kernel_callee Main (top - 12) (set_mem (fun _ => m) k) = main (get EAX c) (get EBX c) (set_mem (fun _ => m) k)).
  { pose proof (stk_words _ _ _ _ _ _ _ Hm) as (_ & Ha & Hb & _).
    rewrite Hka0 in Ha, Hb. replace (top - 12 + (top - 12 - (top - 12))) with (top - 12) in Ha, Hb by lia.
    unfold kernel_callee. eapply bind_then; [reflexivity|]. eapply bind_then; [reflexivity|]. cbn [mem set_mem].
    rewrite !w32_small by (unfold top; lia). rewrite (Hka 4), (Hka 8) by lia. rewrite Ha.
    by replace (top - 12 + 8) with (top - 12 + 4 + 4) by lia; rewrite Hb. }
  exists m. split; [|split; [exact Hmain|]].
  - intros z Hz. apply (stk_rest _ _ _ _ _ _ _ Hm); [|by intros []].
    rewrite Hka0. lia.
  - intros k' Hk'. change (set_mem (fun _ => m) (set_mem (fun _ => m1) k)) with (set_mem (fun _ => m) k) in Hr.
    destruct (Hr k') as (c' & Hc'); [by rewrite Hmain|]. exists c'.
    assert (Hrun : after (exec_all ([MovI (stack + 0x10000) ESP; SubI KERNEL_VIRTUAL_ADDRESS ESP; Push EBX; Push EAX] ++ [Call Main; Hlt]))
      (fun o => o = Spin (c', set_mem (scratch (top - 12)) k')) (c, k)); [|exact Hrun].
    apply exec_all_app. eapply wp_eq; [exact He|]. unfold after. eapply bind_then; [exact Hc'|]. reflexivity.
Qed.
Lemma wp_disable_cache c k (Q : unit -> machine -> Prop) :
  cpu_ok c -> Z.testbit (get_creg CR0 c) 31 = true -> linear (get ESP c - 4) 4 -> get ESP c < 4294967296 ->
  (forall m fl, (forall a, ~ (ka (get ESP c - 4) <= a < ka (get ESP c - 4) + 4) -> rd8 m a = rd8 (mem k) a) ->
    Q tt (with_eflags fl (set_creg CR0 (Z.lor (get_creg CR0 c) (Z.shiftl 1 30)) c),
      set_mem (fun _ => m) (logged [EDisableCache] k))) ->
  wp (exec_all disable_cache_code) Q (c, k).
Proof.
  intros [Hg _ _ _] Hon Hsp Hfit HQ. pose proof (Hg EAX) as H1.
  destruct c as [[a cx d b s bp si di] sg [x0 x3 x4 gb gl t] ip fl].
  unfold fits in *. cbn in H1, Hsp, Hon, Hfit, HQ. change (2 ^ 32) with 4294967296 in *.
  assert (Hs : stk nowhere (mem k) (s - 4) s s (mem k) []).
  { apply stk_start; [by replace (s - (s - 4)) with 4 by lia|lia|lia]. }
  unfold disable_cache_code. next. cpu_ask. cpu_push nowhere (mem k) (s - 4) s. next. cpu_tell. next. apply wp_arith. intros f1.
  regs_simpl. apply wp_exec_cons, wp_to_cr0_on; [exact Hon|]. regs_simpl.
  apply wp_exec_cons, wp_wbinvd; regs_simpl.
  { rewrite Z.lor_spec. apply orb_true_r. }
  next. apply wp_bind. cpu_pop nowhere (mem k) (s - 4) s. cpu_tell.
  apply wp_ret. replace (s - 4 + 4) with s in * by lia. apply HQ.
  intros z Hz. apply (stk_rest _ _ _ _ _ _ _ Hs0); [lia|by intros []].
Qed.
End entry.

Lemma flat_code {LY : Layout} : gdt_segment flat_gdt 1 = Some (Segment 0 0xFFFFFFFF true 0 true CODE_ER true).
Proof. reflexivity. Qed.

Lemma flat_data {LY : Layout} : gdt_segment flat_gdt 2 = Some (Segment 0 0xFFFFFFFF true 0 true DATA_RW true).
Proof. reflexivity. Qed.

Lemma flat_user_code {LY : Layout} : gdt_segment flat_gdt 3 = Some (Segment 0 0xFFFFFFFF true 3 true CODE_ER true).
Proof. reflexivity. Qed.

Lemma flat_user_data {LY : Layout} : gdt_segment flat_gdt 4 = Some (Segment 0 0xFFFFFFFF true 3 true DATA_RW true).
Proof. reflexivity. Qed.

(** * The properties *)

(** C19: enable_paging of crt0.S does what the rest of the boot takes it to do: with
    paging off and a stack in the low memory it turns paging on (and 4 MB pages)
    with the kernel's page directory, once, and jumps to main_new on the same stack
    seen through the kernel's mapping; it keeps the other control registers and
    changes no other byte than the four below the stack pointer. *)
Theorem enable_paging_refines {HW : Hardware} {LY : Layout} {LO : LayoutOk LY} clobber scratch return_address arith main_new c k :
  cpu_ok c -> Z.testbit (get_creg CR0 c) 31 = false -> 4 <= get ESP c < 0x40000000 ->
  exists c' m' k',
    exec_all kernel_callee clobber scratch return_address arith (enable_paging_code main_new) (c, k) = Ret tt (c', set_mem (fun _ => m') k') /\
    enable_paging k = Ret tt k' /\
    (forall a, ~ (get ESP c - 4 <= a < get ESP c) -> rd8 m' a = rd8 (mem k) a) /\
    c_eip c' = main_new /\ get_creg CR3 c' = kpd /\
    Z.testbit (get_creg CR0 c') 31 = true /\ Z.testbit (get_creg CR4 c') 4 = true /\
    (forall i, i <> 31 -> Z.testbit (get_creg CR0 c') i = Z.testbit (get_creg CR0 c) i) /\
    (forall i, i <> 4 -> Z.testbit (get_creg CR4 c') i = Z.testbit (get_creg CR4 c) i) /\
    get ESP c' = get ESP c + 0xc0000000 - 4 /\ ka (get EBP c') = get ESP c /\ c_segs c' = c_segs c.
Proof.
  intros Hc Hoff Hsp.
  assert (H : wp (exec_all kernel_callee clobber scratch return_address arith (enable_paging_code main_new)) (fun _ s =>
    exists m fl, s = (paged main_new fl c, set_mem (fun _ => m) (logged [EEnablePaging (w32 (sym_page_dir - 0xc0000000))] k)) /\
    forall a, ~ (get ESP c - 4 <= a < get ESP c) -> rd8 m a = rd8 (mem k) a) (c, k)).
  { apply wp_enable_paging; [done..|]. intros m fl Hm. by exists m, fl. }
  destruct (wp_elim _ _ _ H) as ([] & s & He & m & fl & -> & Hm). eexists _, m, _. split; [exact He|].
  split; [reflexivity|]. split; [exact Hm|]. destruct c as [[] sg [] ? ?]. cbn in Hsp.
  split; [done|]. split; [exact sym_page_dir_low|]. unfold paged. regs_simpl. split; [rewrite Z.lor_spec; apply orb_true_r|].
  split; [rewrite Z.lor_spec; apply orb_true_r|].
  split; [intros i Hi; rewrite Z.lor_spec; change 2147483648 with (2 ^ 31); rewrite Z.pow2_bits_eqb by lia;
    rewrite (proj2 (Z.eqb_neq _ _)) by lia; apply orb_false_r|].
  split; [intros i Hi; rewrite Z.lor_spec; change 16 with (2 ^ 4); rewrite Z.pow2_bits_eqb by lia;
    rewrite (proj2 (Z.eqb_neq _ _)) by lia; apply orb_false_r|].
  split; [done|]. split; [|done]. replace 3221225472 with SYSTEM_ADDR_BASE by done. rewrite ka_high by lia. lia.
Qed.

(** disable_cache's inline assembly sets the cache disable bit alone, then writes
    the caches back, and keeps the other registers; it changes the four bytes
    below the stack pointer. *)
Theorem disable_cache_refines {HW : Hardware} {LY : Layout} clobber scratch return_address arith c k :
  cpu_ok c -> Z.testbit (get_creg CR0 c) 31 = true -> linear (get ESP c - 4) 4 -> get ESP c < 4294967296 ->
  exists m' k' fl,
    exec_all kernel_callee clobber scratch return_address arith disable_cache_code (c, k)
      = Ret tt (with_eflags fl (set_creg CR0 (Z.lor (get_creg CR0 c) (2 ^ 30)) c), set_mem (fun _ => m') k') /\
    disable_cache k = Ret tt k' /\
    (forall a, ~ (ka (get ESP c - 4) <= a < ka (get ESP c - 4) + 4) -> rd8 m' a = rd8 (mem k) a).
Proof.
  intros Hc Hon Hsp Hfit.
  assert (H : wp (exec_all kernel_callee clobber scratch return_address arith disable_cache_code) (fun _ s =>
    exists m fl, s = (with_eflags fl (set_creg CR0 (Z.lor (get_creg CR0 c) (2 ^ 30)) c), set_mem (fun _ => m) (logged [EDisableCache] k)) /\
    forall a, ~ (ka (get ESP c - 4) <= a < ka (get ESP c - 4) + 4) -> rd8 m a = rd8 (mem k) a) (c, k)).
  { apply wp_disable_cache; [done..|]. intros m fl Hm. by exists m, fl. }
  destruct (wp_elim _ _ _ H) as ([] & s & He & m & fl & -> & Hm). exists m, (logged [EDisableCache] k), fl.
  split; [exact He|]. split; [reflexivity|exact Hm].
Qed.

(** gdt_flush and tss_flush of crt0.S, called as flush_gdt_and_tss calls them
    (with the size and the base that it has written to its local structure),
    return to their callers having loaded what the model of flush_gdt_and_tss says,
    and leave the processor with selectors of the flat table's ring 0 code segment
    and, in the five other segment registers, of its ring 0 data segment; the task
    register has the table's sixth entry, with ring 3. *)
Theorem flush_refines {HW : Hardware} {LY : Layout} clobber scratch return_address arith c k lo top p ret ptr ws :
  stk nowhere (mem k) lo top p (mem k) (ret :: ptr :: ws) -> get ESP c = p ->
  rd16 (mem k) (ka ptr) = w16 (sizeof_gdt_entry * GDT_SIZE - 1) -> rd32 (mem k) (ka (w32 (ptr + 2))) = sym_g_gdt ->
  let run := exec_all kernel_callee clobber scratch return_address arith in
  exists c1 k1 k3, run gdt_flush (c, k) = Ret tt (c1, k1) /\ flush_gdt_and_tss k = Ret tt k3 /\ c_eip c1 = ret /\
    forall c2 m2 lo2 top2 ret2 ws2, stk nowhere m2 lo2 top2 (get ESP c2) m2 (ret2 :: ws2) ->
      c_segs c2 = c_segs c1 -> c_ctls c2 = c_ctls c1 ->
      exists c3, run tss_flush (c2, set_mem (fun _ => m2) k1) = Ret tt (c3, set_mem (fun _ => m2) k3) /\ c_eip c3 = ret2 /\
        c_gdt_base (c_ctls c3) = sym_g_gdt /\ c_gdt_limit (c_ctls c3) = 8 * Z.of_nat (length flat_gdt) - 1 /\
        gdt_segment flat_gdt (get_sreg CS c3 / 8) = Some (Segment 0 0xFFFFFFFF true 0 true CODE_ER true) /\
        Forall (fun s => gdt_segment flat_gdt (get_sreg s c3 / 8) = Some (Segment 0 0xFFFFFFFF true 0 true DATA_RW true))
          [SS; DS; ES; FS; GS] /\
        c_tr (c_ctls c3) / 8 = 5 /\ rpl (c_tr (c_ctls c3)) = 3.
Proof.
  intros Hs Hp Hl Hb run.
  set (limit := w16 (sizeof_gdt_entry * GDT_SIZE - 1)) in *.
  exists (gdt_flushed ret p ptr limit sym_g_gdt c), (logged [ELgdt sym_g_gdt limit] k), (logged [ELtr 0x2B] (logged [ELgdt sym_g_gdt limit] k)).
  split; [apply wp_unit_eq; exact (wp_gdt_flush clobber scratch return_address arith lo top p ret ptr _ _ ws _ c k Hs Hp Hl Hb eq_refl)|].
  split; [reflexivity|]. split; [done|]. intros c2 m2 lo2 top2 ret2 ws2 Hs2 Hsg Hct.
  exists (tss_flushed ret2 (get ESP c2) c2).
  split; [apply wp_unit_eq; exact (wp_tss_flush clobber scratch return_address arith lo2 top2 _ ret2 ws2 _ c2
    (set_mem (fun _ => m2) (logged [ELgdt sym_g_gdt limit] k)) Hs2 eq_refl eq_refl)|].
  unfold tss_flushed. cbn [get_sreg c_segs c_ctls c_gdt_base c_gdt_limit c_tr c_eip]. rewrite Hsg, Hct.
  cbn [c_segs c_ctls gdt_flushed c_cs c_ss c_ds c_es c_fs c_gs c_gdt_base c_gdt_limit].
  split; [done|]. split; [done|]. split; [reflexivity|]. split; [apply flat_code|]. split; [|done].
  repeat constructor; apply flat_data.
Qed.

(** C33: switch_to_userland leaves ring 0: its iret goes to [hi] in ring 3, with
    interrupts enabled, on the same stack, every segment register selecting a
    ring 3 segment of the flat table (code for cs, data for the others); it
    writes the twenty bytes below the stack pointer only. *)
Theorem switch_enters_ring3 {HW : Hardware} {LY : Layout} clobber scratch return_address arith hi c k :
  cpu_ok c -> fits 32 hi -> rpl (get_sreg CS c) = 0 -> linear (get ESP c - 20) 20 -> get ESP c < 4294967296 ->
  exists c' m', exec_all kernel_callee clobber scratch return_address arith (switch_to_userland hi) (c, k)
      = Ret tt (c', set_mem (fun _ => m') k) /\
    (forall a, ~ (ka (get ESP c - 20) <= a < ka (get ESP c - 20) + 20) -> rd8 m' a = rd8 (mem k) a) /\
    c_eip c' = hi /\ get ESP c' = get ESP c /\ Z.testbit (c_eflags c') IF_BIT = true /\
    rpl (get_sreg CS c') = 3 /\
    gdt_segment flat_gdt (get_sreg CS c' / 8) = Some (Segment 0 0xFFFFFFFF true 3 true CODE_ER true) /\
    Forall (fun s => gdt_segment flat_gdt (get_sreg s c' / 8) = Some (Segment 0 0xFFFFFFFF true 3 true DATA_RW true))
      [SS; DS; ES; FS; GS].
Proof.
  intros Hc Hhi Hcs Hl Htop. set (fl := Z.lor (setf IF_BIT 1 0 (c_eflags c)) 0x200).
  assert (H : wp (exec_all kernel_callee clobber scratch return_address arith (switch_to_userland hi)) (fun _ s =>
    exists m, s = (let g := c_gprs c in Cpu (Gprs fl (c_ecx g) (c_edx g) (c_ebx g) (c_esp g) (c_ebp g) (c_esi g) (c_edi g))
      (Segs 0x1B 0x23 0x23 0x23 0x23 0x23) (c_ctls c) hi fl, set_mem (fun _ => m) k) /\
    forall a, ~ (ka (get ESP c - 20) <= a < ka (get ESP c - 20) + 20) -> rd8 m a = rd8 (mem k) a) (c, k)).
  { apply wp_switch; [done..|]. intros m Hm. exists m. by split. }
  destruct (wp_elim _ _ _ H) as ([] & s & He & m & -> & Hm). eexists _, m. split; [exact He|]. split; [exact Hm|].
  split; [done|]. split; [done|]. split; [|split; [done|split; [apply flat_user_code|repeat constructor; apply flat_user_data]]].
  change (Z.testbit fl 9 = true). unfold fl. rewrite Z.lor_spec. change 0x200 with (2 ^ 9). rewrite Z.pow2_bits_eqb by lia. apply orb_true_r.
Qed.


(** _start hands the loader's registers to main: with the multiboot magic
    number in eax and the loader's structure in ebx, main runs with them as its
    arguments, on the stack of crt0.S below 0xC0000000, of which twelve bytes are
    written; were main to return, the processor would halt. *)
Theorem start_calls_main {HW : Hardware} {LY : Layout} clobber scratch return_address arith stack c k :
  cpu_ok c -> fits 32 return_address -> 12 <= stack + STACK_SIZE - 0xc0000000 -> stack + STACK_SIZE < 0x100000000 ->
  let top := stack + STACK_SIZE - 0xc0000000 in
  exists m, (forall a, ~ (top - 12 <= a < top) -> rd8 m a = rd8 (mem k) a) /\
    kernel_callee Main (top - 12) (set_mem (fun _ => m) k) = main (get EAX c) (get EBX c) (set_mem (fun _ => m) k) /\
    forall k', main (get EAX c) (get EBX c) (set_mem (fun _ => m) k) = Ret tt k' ->
      exists c', exec_all kernel_callee clobber scratch return_address arith (_start stack) (c, k)
        = Spin (c', set_mem (scratch (top - 12)) k').
Proof. intros. by apply start_enters_main. Qed.

(** ** The processor as the loader leaves it, and later *)

Definition loader_cpu : cpu :=
  Cpu (Gprs MAGIC_NUMBER 0 0 0x10000 0 0 0 0) (Segs 0x10 0x18 0x18 0x18 0x18 0x18) (Ctls 0x11 0 0 0 0 0) 0x100000 0x2.
Definition early_cpu : cpu := with_gprs (Gprs 1 2 3 4 0x115000 6 7 8) loader_cpu.

Lemma loader_cpu_ok : cpu_ok loader_cpu.
Proof. split; [intros []|intros []| |]; vm_compute; split; congruence. Qed.
Lemma early_cpu_ok : cpu_ok early_cpu.
Proof. split; [intros []|intros []| |]; vm_compute; split; congruence. Qed.

Lemma enable_paging_refines_witness :
  let HW := fixed_hw (fun _ => 0) in let LY := example_layout in
  exists c' m' k', exec_all kernel_callee (fun _ => (9, 9, 9, 9)) (fun _ m => m) 0 (fun _ f => f) (enable_paging_code 0xC0100400)
      (early_cpu, boot_state ∅) = Ret tt (c', set_mem (fun _ => m') k') /\
    trace k' = [EEnablePaging 0x105000] /\ c_eip c' = 0xC0100400 /\ get_creg CR3 c' = 0x105000 /\ get ESP c' = 0xC0114FFC.
Proof.
  intros HW LY.
  destruct (@enable_paging_refines HW LY example_layout_ok (fun _ => (9, 9, 9, 9)) (fun _ m => m) 0 (fun _ f => f) 0xC0100400
    early_cpu (boot_state ∅)) as (c' & m' & k' & He & Hk & _ & Hip & H3 & _ & _ & _ & _ & Hsp & _).
  - exact early_cpu_ok.
  - reflexivity.
  - vm_compute. split; congruence.
  - exists c', m', k'. split; [exact He|]. split; [|split; [exact Hip|split; [exact H3|exact Hsp]]].
    injection Hk as <-. reflexivity.
Defined.

(** A stack at 0xC0115000 that holds the words [ws]. *)
Lemma example_stk ws : Z.of_nat (length ws) <= 16 -> forall m, words_at m 0x115000 ws ->
  stk nowhere m 0xC0115000 (0xC0115000 + 4 * Z.of_nat (length ws)) 0xC0115000 m ws.
Proof.
  intros Hn m Hw. split; [unfold linear, SYSTEM_ADDR_BASE; lia|lia|lia|lia|exact Hw|done].
Qed.

(** gdt_flush's frame: a return address and the pointer to the register, which
    holds 47 and the base of the table of [example_layout]. *)
Definition flush_ram : ram :=
  wr32 (wr8 (wr8 (wr32 (wr32 ∅ 0x115000 0xC0100500) 0x115004 0xC0115010) 0x115010 47) 0x115011 0) 0x115012 0xC0111000.

Lemma flush_refines_witness :
  let HW := fixed_hw (fun _ => 0) in let LY := example_layout in
  exists c1 k1 k3, exec_all kernel_callee (fun _ => (9, 9, 9, 9)) (fun _ m => m) 0 (fun _ f => f) gdt_flush
      (with_gprs (Gprs 1 2 3 4 0xC0115000 6 7 8) loader_cpu, set_mem (fun _ => flush_ram) (boot_state ∅)) = Ret tt (c1, k1) /\
    flush_gdt_and_tss (set_mem (fun _ => flush_ram) (boot_state ∅)) = Ret tt k3 /\ c_eip c1 = 0xC0100500.
Proof.
  intros HW LY.
  destruct (@flush_refines HW LY (fun _ => (9, 9, 9, 9)) (fun _ m => m) 0 (fun _ f => f)
    (with_gprs (Gprs 1 2 3 4 0xC0115000 6 7 8) loader_cpu) (set_mem (fun _ => flush_ram) (boot_state ∅))
    0xC0115000 0xC0115008 0xC0115000 0xC0100500 0xC0115010 []) as (c1 & k1 & k3 & H1 & H2 & H3 & _).
  - apply (example_stk [0xC0100500; 0xC0115010]); [cbn; lia|]. split; [reflexivity|split; [reflexivity|exact I]].
  - reflexivity.
  - reflexivity.
  - reflexivity.
  - exists c1, k1, k3. split; [exact H1|]. split; [exact H2|exact H3].
Defined.

Lemma switch_enters_ring3_witness :
  let HW := fixed_hw (fun _ => 0) in let LY := example_layout in
  exists c' m', exec_all kernel_callee (fun _ => (9, 9, 9, 9)) (fun _ m => m) 0 (fun _ f => f) (switch_to_userland 0xC0100600)
      (example_cpu, boot_state ∅) = Ret tt (c', set_mem (fun _ => m') (boot_state ∅)) /\
    c_eip c' = 0xC0100600 /\ rpl (get_sreg CS c') = 3 /\ Z.testbit (c_eflags c') IF_BIT = true.
Proof.
  intros HW LY.
  destruct (@switch_enters_ring3 HW LY (fun _ => (9, 9, 9, 9)) (fun _ m => m) 0 (fun _ f => f) 0xC0100600 example_cpu (boot_state ∅))
    as (c' & m' & He & _ & H1 & _ & H2 & H3 & _).
  - exact example_cpu_ok.
  - vm_compute. split; congruence.
  - reflexivity.
  - vm_compute. intuition congruence.
  - reflexivity.
  - exists c', m'. split; [exact He|]. split; [exact H1|]. split; [exact H3|exact H2].
Defined.

Lemma start_calls_main_witness :
  let HW := fixed_hw (fun _ => 0) in let LY := example_layout in
  exists m, kernel_callee Main 0x114FF4 (set_mem (fun _ => m) (boot_state ∅)) = main MAGIC_NUMBER 0x10000 (set_mem (fun _ => m) (boot_state ∅)).
Proof.
  intros HW LY.
  destruct (@start_calls_main HW LY (fun _ => (9, 9, 9, 9)) (fun _ m => m) 0 (fun _ f => f) 0xC0105000 loader_cpu (boot_state ∅))
    as (m & _ & H & _).
  - exact loader_cpu_ok.
  - vm_compute. split; congruence.
  - unfold STACK_SIZE. lia.
  - unfold STACK_SIZE. lia.
  - exists m. exact H.
Defined.

Lemma disable_cache_refines_witness :
  let HW := fixed_hw (fun _ => 0) in let LY := example_layout in
  exists m' fl, exec_all kernel_callee (fun _ => (9, 9, 9, 9)) (fun _ m => m) 0 (fun _ f => f) disable_cache_code (example_cpu, boot_state ∅)
    = Ret tt (with_eflags fl (set_creg CR0 0xC0000011 example_cpu), set_mem (fun _ => m') (logged [EDisableCache] (boot_state ∅))).
Proof.
  intros HW LY.
  destruct (@disable_cache_refines HW LY (fun _ => (9, 9, 9, 9)) (fun _ m => m) 0 (fun _ f => f) example_cpu (boot_state ∅))
    as (m' & k' & fl & He & Hk & _).
  - exact example_cpu_ok.
  - reflexivity.
  - vm_compute. intuition congruence.
  - reflexivity.
  - exists m', fl. injection Hk as <-. exact He.
Defined.
